(* ===== verification/_CoqProject ===== *)
-Q . S2P
Prelude.v
HttpChars.v
HttpTypes.v
HttpStatus.v
HttpUrl.v
HttpExec.v
HttpUrlProps.v
HttpExecSafe.v
HttpKeeps.v
HttpRecord.v
HttpCases.v
HttpHeaders.v
HttpSafe.v
HttpContract.v
HttpStream.v
HttpStreamCases.v
HttpLenient.v
HttpStreamValue.v
HttpStreamStep.v
HttpStreamByte.v
HttpStreamCross.v
HttpStreamJump.v
HttpSegments.v
HttpPost.v
HttpGet.v
Wire.v
SampleCodec.v
Socket.v
Queue.v
Stats.v
Locks.v
ServerConn.v
ServerConnProps.v
HttpConn.v
Connection.v
HttpConnSim.v
RespBroker.v
ThreadPool.v
Service.v
ServerImpl.v
ClientConn.v
ClientConnProps.v
RoundTrip.v
HttpConnProps.v
CallBack.v
EventLooper.v
EventLooperCalls.v
EventLooperProps.v
ServiceProps.v
ConnWorker.v
ConnWorkerProps.v
Log.v
Epoll.v
HttpConnSafe.v
WorkerSafe.v
ConnThreads.v
ServerRun.v
Serving.v
RpcCall.v
HttpResponse.v
HttpCall.v
Connect.v
RawData.v
StatusService.v
Objects.v
PoolObjects.v
ServerObjects.v
ServerObjectsProps.v
ClientObjects.v
