(* ===== verification/Prelude.v ===== *)
(** * rpcframe: a verification development

    rpcframe is a small RPC framework in C++ over TCP, with an HTTP entrance.
    A client ([src/client]) frames a protobuf message and sends it to one of
    its endpoints; the server ([src/server]) cuts requests out of the byte
    streams of its connections (or parses them out of HTTP, with the joyent
    parser of [src/common/src/http_parser.c]), queues them for a pool of
    workers, and sends the responses back; the client finds the callback of a
    response by its request id.  This development models the code of both
    sides, and proves what makes it correct, and, where the code does not do
    what it means to, what it does instead.

    ** Parts, files and sources

    - [Prelude]: bytes, machine integers ([u32], [u64], [i32] write the
      wrap-around out), [outcome] (a result, or what a run must not do), and
      the lemmas all files share.
    - The HTTP parser, [common/src/http_parser.c] and [.h].  [HttpChars]: the
      character tables and macros.  [HttpTypes]: the enums, [http_parser] as a
      record, flags, keep-alive.  [HttpStatus]: the table of status codes.
      [HttpUrl]: [parse_url_char],
      [http_parser_parse_url] and its host parser.  [HttpExec]:
      [http_parser_execute], one definition [case_s_...] per case of the
      [switch], the macros as functions of the rest of the code, the loops with
      fuel, in strict mode.  The callbacks are arguments
      ([http_parser_settings]); a callback gets the parser, the bytes and the
      application's state.
    - Its theorems.  [HttpKeeps]: what the callbacks keep, a call keeps.
      [HttpExecSafe], [HttpCases], [HttpHeaders], [HttpSafe],
      [HttpContract]: the invariant of a parser object, and from it that every
      call returns, what it returns, and the bounds of the counters.
      [HttpRecord]: the recording callbacks.  [HttpStream], [HttpStreamCases],
      [HttpLenient], [HttpStreamValue], [HttpStreamStep], [HttpStreamByte],
      [HttpStreamCross], [HttpStreamJump], [HttpSegments]: a call on one input
      next to two calls on its pieces, and independence of segmentation.
      [HttpPost]: every [POST] request is reported as what it was made of;
      [HttpGet]: the same run for [GET], and the requests of both kinds that
      call a method ([http_call]).
      [HttpUrlProps]: the fields of a URL are in it, and are what it was made
      of.
    - Data on the wire.  [Wire]: [RpcDefs.h], [RpcPackage.h] and the messages
      of [rpc.proto]; the code [protoc] generates is the class [MessageCodec]
      with its law [MessageCodecLaw], for which [SampleCodec] has an instance.
      [Socket]: [recv] and [send] over scripts of events.  [RawData]:
      [RawData.h], the buffer and its owner as objects of a heap.
    - Shared parts.  [Queue]: [Queue.h].  [Stats]: the counters of [RpcMethod]
      and [RpcServerImpl].  [Locks]: [RWLock.h], [SpinLock.h].  [ThreadPool]:
      [ThreadPool.h], with the loop of a worker cut at its atomic steps.
      [Epoll]: [Epoll.cpp] over a kernel that is a class with its laws.
      [Log]: the log of [util.cpp].
      [Connect]: the connecting, listening and
      name resolution of [util.cpp], [RpcClientConn.cpp] and
      [RpcServerImpl.cpp], over the results of the system calls.
    - The server.  [ServerConn]: [RpcServerConn.cpp], [RpcServerRpcConn.cpp].
      [HttpConn]: [RpcServerHttpConn.cpp].  [Connection]: the virtual class as
      an interface with its laws, of which both are instances.  [RespBroker]: [RpcRespBroker.cpp].
      [Service]: [IServiceImpl.h], [RpcMethod.cpp], [RpcWorker.cpp].
      [StatusService]: [RpcStatusService.h].  [ConnWorker]:
      [RpcServerConnWorker.cpp].  [ServerImpl]: [RpcServerConfig.cpp] and the
      life of [RpcServerImpl.cpp].  Their theorems: [ServerConnProps],
      [HttpConnSim], [HttpConnProps], [ServiceProps], [HttpResponse]; of the
      connection worker, for any class of connections: [ConnWorkerProps] (an
      invariant of the steps of its threads), [ConnThreads] (the same threads
      with the lock, and a simulation), [ServerRun] (the events around a call),
      [WorkerSafe] (no fault in any run; the interface of connections whose
      [getRequest] never faults).  [HttpConnSafe]: an HTTP connection is one.
    - The client.  [ClientConn]: [RpcClientConn.cpp].  [CallBack]: the
      callbacks of [RpcClient.cpp] and [RpcClientBlocker.h].  [EventLooper]:
      [RpcEventLooper.cpp], the calls of [RpcClient.cpp] and
      [RpcClientWorker.cpp].  Their theorems: [ClientConnProps],
      [EventLooperCalls], [EventLooperProps].
    - Objects and who deletes them, on a heap of typed objects where a use of
      one that is gone is [UseAfterFree].  [Objects]: the heap, and services on
      it.  [PoolObjects]: packages and the pool.  [ServerObjects] and its
      theorems [ServerObjectsProps]: the constructors and destructors of
      [src/server].  [ClientObjects]: those of [src/client].
    - Both sides together.  [RoundTrip]: a request and a response, one by one.
      [Serving]: what one connection is handed and sends, in any interleaving
      of the threads of its connection worker.  [RpcCall]: any number of calls
      on a connection, from [GenRequest] of the client to their callbacks,
      through the connection, the worker and the broker of the server.
      [HttpCall]: the bytes of an HTTP request, [POST] or [GET], in, the bytes
      of the HTTP response out.

    A class is a record with its fields' names, a method a function of the
    record that returns the new one; a function that may abort returns an
    [outcome].  Objects shared between threads ([EventLooper]'s callbacks, the
    queues, the pools) are values in a state that every step passes on, a
    callback being an index into a heap; a section under a mutex is one step,
    and a step relation ([client_step], [thread_step] of [ConnThreads],
    [pool_step]) runs them in any order.

    ** What is proved

    - The parser: totality and safety ([execute_returns]), its contract
      ([execute_return_value]), bounds ([reach_bounds]), equivalence of any two
      segmentations ([segmentation_independent], and its limit
      [control_byte_depends_on_pieces]), the round trip of requests
      ([post_request_reported]); URLs: bounds ([url_fields_in_bounds]), the
      round trip of their parts ([absolute_url_round_trip]) and the target of
      a [CONNECT] ([connect_target_parsed]).
    - Connections: the requests and responses handed out are the frames of the
      byte stream, each once and in order, whatever the segments and
      interruptions ([requests_delivered], [requests_are_the_frames],
      [responses_delivered]); what is sent is what was queued
      ([responses_in_order]); the HTTP connection refines the recording parser
      ([connection_refines_recorder]).
    - Composition: a request arrives as it was sent, a response as it was
      answered ([request_arrives], [response_arrives]); the calls made on a
      connection are answered, each with what its method returned, in whatever
      order the threads of both sides run ([rpc_calls_answered]), and so is a
      call over HTTP ([http_call_answered], whose response an HTTP parser reads
      back: [http_response_reported]).
    - The server: what a worker answers, for every status
      ([run_service_responses], [unknown_service_answered]), and what the
      status page says ([get_status_answers]); no response is stranded in
      any interleaving, and no connection used after it is deleted
      ([no_response_stranded], [no_connection_used_after_free]); whatever
      arrives, the connection worker does not fault ([worker_never_faults]) and
      an HTTP connection neither throws nor overruns a package
      ([http_getRequest_returns]); tasks run once
      and in order, and stopped workers leave ([pool_runs_each_task_once],
      [keyed_tasks_in_order], [stopped_worker_leaves]).
    - The client: a callback is called at most once, in any interleaving
      ([callbacks_called_at_most_once]), and when it is (the answers, the
      timeouts, the end of the loop); the search for a connection ends
      ([tryGetAvaliableConn_returns]).
    - System calls: a connection is made, or there is no descriptor left
      ([connect_conn_result]); host names are resolved with the buffer they
      need ([getHostIpByName_ends]).
    - Memory: the data of a response stays where it is as long as somebody
      uses it ([response_data_kept]); the objects of a service behave as the
      service that is a value ([service_objects_refine]); a server and a client
      delete what they made, each object once, but for what the theorems list
      ([server_gives_back_its_memory], [client_gives_back_its_memory]).
    - Theorems about what goes wrong state the behaviour of the code as it is:
      data over 10 MB shifted, an unchecked inner length, a spinning partial
      length, HTTP requests that run together, a pool freed while in use, a
      second copy of data whose owner is gone ([second_copy_dangles]), a
      service added after the server stopped ([service_added_after_stop]), a
      method that is copied and a package that is lost, deleted twice
      ([copied_method_deleted_twice], [lost_package_deleted_twice]), a
      descriptor above [FD_SETSIZE], and others.

    ** Fuel and bounds

    A loop of the code that is not structural takes fuel, and a run that uses
    it up is [Stuck Spinning] or [OutOfFuel], never a result.
    [http_parser_execute] takes the fuel it needs itself (the length of the
    input, and [REEXECUTE_FUEL] turns for a character): [execute_returns]
    proves it enough.  The loops over sockets take it as an argument; the
    theorems on delivery hold for any fuel above [rx_size], the events and
    bytes in the socket; [sendData] of the server needs a turn per event.
    Inputs of one call of the parser are below 2 ^ 31 bytes, as [int] lengths
    are.

    ** Not modelled

    What only wraps a system call or a library (the options of sockets), and
    the calls of the log, which have no effect on the program.  A section under a mutex or a spin
    lock is one step of the model.  The protobuf encoding, which is a
    parameter; memory that containers, strings and [shared_ptr]s keep for
    themselves, and allocations that fail; clocks, which are arguments; the
    test programs. *)
From Stdlib Require Import ZArith Lia Bool List String Ascii.
From stdpp Require Import base list strings gmap pretty.

(** * Notations *)

Declare Scope rpc_scope.
Delimit Scope rpc_scope with rpc.
#[global] Open Scope Z_scope.
#[global] Open Scope rpc_scope.

Notation "c '=c' d" := (Ascii.eqb c d) (at level 70, no associativity) : rpc_scope.
Notation "c '<>c' d" := (negb (Ascii.eqb c d)) (at level 70, no associativity) : rpc_scope.

(** A buffer of [char]s. *)
Notation bytes := (list ascii).

(** * Bytes and machine integers *)

(** The value of a [char] read as an [unsigned char]. *)
Definition code (c : ascii) : Z := Z.of_N (N_of_ascii c).

(** The [char] an integer is stored as: the low eight bits. *)
Definition chr (z : Z) : ascii := ascii_of_N (Z.to_N (z mod 256)).

(** Wrap-around of the unsigned types the program uses. *)
Definition u7 (z : Z) : Z := z mod 2 ^ 7.
Definition u16 (z : Z) : Z := z mod 2 ^ 16.
Definition u32 (z : Z) : Z := z mod 2 ^ 32.
Definition u64 (z : Z) : Z := z mod 2 ^ 64.
(** Conversion of an unsigned value to [int]. *)
Definition i32 (z : Z) : Z := (z + 2 ^ 31) mod 2 ^ 32 - 2 ^ 31.
Definition ULLONG_MAX : Z := 2 ^ 64 - 1.

(** The bytes of a string literal. *)
Definition bs (s : string) : bytes := list_ascii_of_string s.

Definition zlen {A} (l : list A) : Z := Z.of_nat (length l).

(** [data[i]] for a pointer offset [i]; [None] outside the buffer. *)
Definition byte_at (data : bytes) (i : Z) : option ascii :=
  if i <? 0 then None else data !! Z.to_nat i.

(** The [n] bytes at offset [i]. *)
Definition slice (data : bytes) (i n : Z) : bytes :=
  take (Z.to_nat n) (drop (Z.to_nat i) data).

Definition CR : ascii := "013"%char.
Definition LF : ascii := "010"%char.

(** * Results of code that can abort

    [Stuck] is what a run must not do: fail an [assert], read or write outside
    an array, hand a callback a range outside the input buffer, use a null
    pointer or a freed object, or go round a loop more often than its fuel. *)
Inductive stuck := AssertFailed | OutOfBounds | NullPointer | UseAfterFree | Spinning.

Inductive outcome (A : Type) :=
| Done (a : A)
| Stuck (w : stuck).
Arguments Done {A} a.
Arguments Stuck {A} w.

Definition outcome_bind {A B} (m : outcome A) (f : A -> outcome B) : outcome B :=
  match m with Done a => f a | Stuck w => Stuck w end.

Notation "'let!' x := m 'in' k" := (outcome_bind m (fun x => k))
  (at level 10, x pattern, m at level 100, k at level 200) : rpc_scope.

(** A value that is there, or the error of its absence. *)
Definition need {A} (w : stuck) (o : option A) : outcome A :=
  match o with Some a => Done a | None => Stuck w end.

(** * Shared lemmas *)

Lemma code_range c : 0 <= code c < 256.
Proof. unfold code. pose proof (N_ascii_bounded c). lia. Qed.

Lemma code_inj c d : code c = code d -> c = d.
Proof.
  unfold code. intros H. apply N2Z.inj in H.
  rewrite <- (ascii_N_embedding c), <- (ascii_N_embedding d), H. reflexivity.
Qed.

Lemma code_chr z : code (chr z) = z mod 256.
Proof.
  unfold code, chr. pose proof (Z.mod_pos_bound z 256 eq_refl).
  rewrite N_ascii_embedding; lia.
Qed.

Lemma chr_code c : chr (code c) = c.
Proof. apply code_inj. rewrite code_chr. apply Z.mod_small, code_range. Qed.

Lemma length_bs s : length (bs s) = String.length s.
Proof. induction s; cbn; [reflexivity | f_equal; exact IHs]. Qed.

Lemma zlen_nonneg {A} (l : list A) : 0 <= zlen l.
Proof. unfold zlen. lia. Qed.

Lemma zlen_app {A} (l k : list A) : zlen (l ++ k) = zlen l + zlen k.
Proof. unfold zlen. rewrite length_app. lia. Qed.

Lemma zlen_cons {A} (x : A) l : zlen (x :: l) = 1 + zlen l.
Proof. unfold zlen. cbn [length]. lia. Qed.

Lemma zlen_drop {A} (l : list A) i : 0 <= i <= zlen l -> zlen (drop (Z.to_nat i) l) = zlen l - i.
Proof. unfold zlen. rewrite length_drop. lia. Qed.

(** A left shift by [k] leaves room for [k] bits: or is addition there. *)
Lemma lor_shiftl_add a b k : 0 <= k -> 0 <= b < 2 ^ k -> Z.lor (Z.shiftl a k) b = a * 2 ^ k + b.
Proof.
  intros Hk Hb. rewrite <- Z.shiftl_mul_pow2 by exact Hk.
  assert (Hland : Z.land (Z.shiftl a k) b = 0).
  { apply Z.bits_inj'. intros n Hn. rewrite Z.land_spec, Z.bits_0, Z.shiftl_spec by exact Hn.
    destruct (Z.ltb_spec n k).
    - rewrite Z.testbit_neg_r by lia. reflexivity.
    - rewrite <- (Z.mod_small b (2 ^ k)) by exact Hb.
      rewrite Z.mod_pow2_bits_high by lia. apply andb_false_r. }
  rewrite Z.add_nocarry_lxor by exact Hland. symmetry. apply Z.lxor_lor, Hland.
Qed.

Lemma u32_small z : 0 <= z < 2 ^ 32 -> u32 z = z.
Proof. apply Z.mod_small. Qed.

Lemma u64_small z : 0 <= z < 2 ^ 64 -> u64 z = z.
Proof. apply Z.mod_small. Qed.

Lemma i32_small z : 0 <= z < 2 ^ 31 -> i32 z = z.
Proof. intros Hz. unfold i32. rewrite Z.mod_small by lia. lia. Qed.

(** Case analysis on the tests of a goal or hypothesis. *)
Ltac break_match :=
  match goal with
  | |- context [if ?b then _ else _] => destruct b eqn:?
  | |- context [match ?b with _ => _ end] => destruct b eqn:?
  end.

(** Inversion of a successful [let!]. *)
Lemma outcome_bind_done {A B} (m : outcome A) (f : A -> outcome B) b :
  outcome_bind m f = Done b -> exists a, m = Done a /\ f a = Done b.
Proof. destruct m; [eauto | discriminate]. Qed.

Ltac outcome_inv :=
  repeat match goal with
  | H : outcome_bind _ _ = Done _ |- _ =>
      let a := fresh "a" in let Ha := fresh "Ha" in
      apply outcome_bind_done in H as (a & Ha & H); try (destruct a as [? ?])
  | H : Done _ = Done _ |- _ => injection H as H; subst
  | H : (_, _) = (_, _) |- _ => injection H as; subst
  end.

Lemma zlen_nonempty {A} (l : list A) : l <> [] -> (zlen l =? 0) = false.
Proof. destruct l as [|x l]; [contradiction|]. intros _. rewrite zlen_cons. pose proof (zlen_nonneg l). lia. Qed.

Lemma lookup_map {A B} (f : A -> B) l i : map f l !! i = f <$> l !! i.
Proof. exact (list_lookup_fmap f l i). Qed.

(** Names made of parts joined by underscores, numbers written in decimal
    among them. *)
Fixpoint no_underscore (s : string) : bool :=
  match s with
  | EmptyString => true
  | String c s => (c <>c "_"%char) && no_underscore s
  end.

Lemma split_underscore a b a' b' : no_underscore a = true -> no_underscore a' = true ->
  (a +:+ "_" +:+ b = a' +:+ "_" +:+ b')%string -> a = a' /\ b = b'.
Proof.
  revert a'. induction a as [|x a IH]; intros [|x' a']; cbn.
  - intros _ _ H. injection H as H. auto.
  - intros _ [Hx _]%andb_prop H. injection H as H _. subst x'. discriminate.
  - intros [Hx _]%andb_prop _ H. injection H as H _. subst x. discriminate.
  - intros [_ Ha]%andb_prop [_ Ha']%andb_prop H. injection H as -> Hs.
    destruct (IH a' Ha Ha' Hs) as [-> ->]. auto.
Qed.

Lemma no_underscore_digits n s : no_underscore s = true -> no_underscore (pretty_N_go n s) = true.
Proof.
  revert s. induction (N.lt_wf_0 n) as [n _ IH]. intros s Hs.
  destruct (decide (n = 0)%N) as [->|Hn]; [exact Hs|].
  rewrite pretty_N_go_step by lia. apply IH; [apply N.div_lt; lia|].
  cbn. rewrite Hs, andb_true_r. unfold pretty_N_char. destruct (n `mod` 10)%N as [|p]; [reflexivity|].
  do 4 (try destruct p as [p|p|]); reflexivity.
Qed.

Lemma no_underscore_pretty (z : Z) : no_underscore (pretty z) = true.
Proof.
  assert (forall p, no_underscore (pretty (N.pos p)) = true) as Hp.
  { intros p. unfold pretty, pretty_N. destruct (decide _); [reflexivity|]. apply no_underscore_digits. reflexivity. }
  destruct z as [|p|p]; [reflexivity | apply Hp|]. cbn. apply Hp.
Qed.

(** Lengths of lists put together, and the facts on integers that come with a
    type. *)
Create HintDb rpc.
#[export] Hint Resolve zlen_nonneg code_range zlen_nonempty : rpc.
#[export] Hint Rewrite @zlen_app @zlen_cons : zlen.
