(* ===== verification/HttpChars.v ===== *)
(** Character tables and classes of [common/src/http_parser.c], built with
    [HTTP_PARSER_STRICT] = 1 (the default of [http_parser.h], which the build
    does not override).

    A C [char] is an [ascii]; [code c] is its value as [unsigned char].  The
    C code compares [char]s (signed on the target) only with ASCII constants
    or after a cast to [unsigned char], where both readings agree. *)
From Stdlib Require Import ZArith Lia Bool List String Ascii.
From stdpp Require Import base list strings.
From S2P Require Import Prelude.

(** A row of eight flags of a bit set, or-ed into one byte. *)
Definition bits8 (a b c d e f g h : Z) : Z :=
  Z.lor a (Z.lor b (Z.lor c (Z.lor d (Z.lor e (Z.lor f (Z.lor g h)))))).

(** [tokens[256]]: the RFC 2616 token characters, lower-cased; 0 elsewhere.
    C zero-fills the entries the initialiser does not give. *)
Definition tokens : list ascii :=
  (["000"; "000"; "000"; "000"; "000"; "000"; "000"; "000";
    "000"; "000"; "000"; "000"; "000"; "000"; "000"; "000";
    "000"; "000"; "000"; "000"; "000"; "000"; "000"; "000";
    "000"; "000"; "000"; "000"; "000"; "000"; "000"; "000";
    "000"; "!"; "000"; "#"; "$"; "%"; "&"; "'";
    "000"; "000"; "*"; "+"; "000"; "-"; "."; "000";
    "0"; "1"; "2"; "3"; "4"; "5"; "6"; "7";
    "8"; "9"; "000"; "000"; "000"; "000"; "000"; "000";
    "000"; "a"; "b"; "c"; "d"; "e"; "f"; "g";
    "h"; "i"; "j"; "k"; "l"; "m"; "n"; "o";
    "p"; "q"; "r"; "s"; "t"; "u"; "v"; "w";
    "x"; "y"; "z"; "000"; "000"; "000"; "^"; "_";
    "`"; "a"; "b"; "c"; "d"; "e"; "f"; "g";
    "h"; "i"; "j"; "k"; "l"; "m"; "n"; "o";
    "p"; "q"; "r"; "s"; "t"; "u"; "v"; "w";
    "x"; "y"; "z"; "000"; "|"; "000"; "~"; "000"] ++ replicate 128 "000")%char.

(** [unhex[256]]: the initialiser gives 128 entries, the rest are zero. *)
Definition unhex : list Z :=
  [-1; -1; -1; -1; -1; -1; -1; -1; -1; -1; -1; -1; -1; -1; -1; -1;
   -1; -1; -1; -1; -1; -1; -1; -1; -1; -1; -1; -1; -1; -1; -1; -1;
   -1; -1; -1; -1; -1; -1; -1; -1; -1; -1; -1; -1; -1; -1; -1; -1;
   0; 1; 2; 3; 4; 5; 6; 7; 8; 9; -1; -1; -1; -1; -1; -1;
   -1; 10; 11; 12; 13; 14; 15; -1; -1; -1; -1; -1; -1; -1; -1; -1;
   -1; -1; -1; -1; -1; -1; -1; -1; -1; -1; -1; -1; -1; -1; -1; -1;
   -1; 10; 11; 12; 13; 14; 15; -1; -1; -1; -1; -1; -1; -1; -1; -1;
   -1; -1; -1; -1; -1; -1; -1; -1; -1; -1; -1; -1; -1; -1; -1; -1] ++ replicate 128 0.

(** [normal_url_char[32]], a 256-bit set. *)
Definition normal_url_char : list Z :=
  [bits8 0 0 0 0 0 0 0 0;
   bits8 0 0 0 0 0 0 0 0;
   bits8 0 0 0 0 0 0 0 0;
   bits8 0 0 0 0 0 0 0 0;
   bits8 0 2 4 0 16 32 64 128;
   bits8 1 2 4 8 16 32 64 128;
   bits8 1 2 4 8 16 32 64 128;
   bits8 1 2 4 8 16 32 64 0;
   bits8 1 2 4 8 16 32 64 128;
   bits8 1 2 4 8 16 32 64 128;
   bits8 1 2 4 8 16 32 64 128;
   bits8 1 2 4 8 16 32 64 128;
   bits8 1 2 4 8 16 32 64 128;
   bits8 1 2 4 8 16 32 64 128;
   bits8 1 2 4 8 16 32 64 128;
   bits8 1 2 4 8 16 32 64 0] ++ replicate 16 0.

(** [BIT_AT(a, i)] *)
Definition BIT_AT (a : list Z) (i : Z) : bool :=
  negb (Z.land (nth (Z.to_nat (Z.shiftr i 3)) a 0) (Z.shiftl 1 (Z.land i 7)) =? 0).

Definition LOWER (c : ascii) : ascii := chr (Z.lor (code c) 32).
Definition IS_ALPHA (c : ascii) : bool :=
  (code "a" <=? code (LOWER c)) && (code (LOWER c) <=? code "z").
Definition IS_NUM (c : ascii) : bool :=
  (code "0" <=? code c) && (code c <=? code "9").
Definition IS_ALPHANUM (c : ascii) : bool := IS_ALPHA c || IS_NUM c.
Definition IS_HEX (c : ascii) : bool :=
  IS_NUM c || ((code "a" <=? code (LOWER c)) && (code (LOWER c) <=? code "f")).
Definition IS_MARK (c : ascii) : bool :=
  ((c =c "-") || (c =c "_") || (c =c ".") || (c =c "!") || (c =c "~")
   || (c =c "*") || (c =c "'") || (c =c "(") || (c =c ")"))%char.
Definition IS_USERINFO_CHAR (c : ascii) : bool :=
  (IS_ALPHANUM c || IS_MARK c || (c =c "%") || (c =c ";") || (c =c ":")
   || (c =c "&") || (c =c "=") || (c =c "+") || (c =c "$") || (c =c ","))%char.
Definition STRICT_TOKEN (c : ascii) : ascii := nth (Z.to_nat (code c)) tokens "000"%char.
Definition TOKEN (c : ascii) : ascii := STRICT_TOKEN c.
Definition IS_URL_CHAR (c : ascii) : bool := BIT_AT normal_url_char (code c).
Definition IS_HOST_CHAR (c : ascii) : bool :=
  (IS_ALPHANUM c || (c =c ".") || (c =c "-"))%char.
Definition IS_HEADER_CHAR (c : ascii) : bool :=
  (c =c CR) || (c =c LF) || (code c =? 9) || ((31 <? code c) && negb (code c =? 127)).

(** [unhex[(unsigned char)ch]] *)
Definition unhex_at (c : ascii) : Z := nth (Z.to_nat (code c)) unhex 0.

(** A zero [char] read as a C condition. *)
Definition is_nul (c : ascii) : bool := (c =c "000")%char.

(** * Facts about all 256 characters, by evaluation *)

Definition all_ascii : list ascii := map ascii_of_nat (seq 0 256).

Lemma all_ascii_complete c : In c all_ascii.
Proof.
  unfold all_ascii. apply in_map_iff. exists (nat_of_ascii c).
  split; [apply ascii_nat_embedding|]. apply in_seq.
  pose proof (nat_ascii_bounded c). lia.
Qed.

Lemma forall_ascii (f : ascii -> bool) :
  forallb f all_ascii = true -> forall c, f c = true.
Proof. intros H c. rewrite forallb_forall in H. apply H, all_ascii_complete. Qed.


Lemma unhex_at_range c : (-1 <=? unhex_at c) && (unhex_at c <=? 15) = true.
Proof. revert c. apply (forall_ascii (fun c => (-1 <=? unhex_at c) && (unhex_at c <=? 15))). vm_compute. reflexivity. Qed.
