(* ===== verification/HttpTypes.v ===== *)
(** The data of [common/include/http_parser.h] and of the top of
    [common/src/http_parser.c]: enumerations, the parser object, callback
    settings, and the small functions over a parser object. *)
From Stdlib Require Import ZArith Lia Bool List String Ascii.
From stdpp Require Import base list strings.
From S2P Require Import Prelude HttpChars.

(** * Enumerations *)

(** [enum state] *)
Inductive state :=
  | s_dead | s_start_req_or_res | s_res_or_resp_H | s_start_res | s_res_H
  | s_res_HT | s_res_HTT | s_res_HTTP | s_res_http_major | s_res_http_dot
  | s_res_http_minor | s_res_http_end | s_res_first_status_code
  | s_res_status_code | s_res_status_start | s_res_status
  | s_res_line_almost_done | s_start_req | s_req_method
  | s_req_spaces_before_url | s_req_schema | s_req_schema_slash
  | s_req_schema_slash_slash | s_req_server_start | s_req_server
  | s_req_server_with_at | s_req_path | s_req_query_string_start
  | s_req_query_string | s_req_fragment_start | s_req_fragment
  | s_req_http_start | s_req_http_H | s_req_http_HT | s_req_http_HTT
  | s_req_http_HTTP | s_req_http_major | s_req_http_dot | s_req_http_minor
  | s_req_http_end | s_req_line_almost_done | s_header_field_start
  | s_header_field | s_header_value_discard_ws
  | s_header_value_discard_ws_almost_done | s_header_value_discard_lws
  | s_header_value_start | s_header_value | s_header_value_lws
  | s_header_almost_done | s_chunk_size_start | s_chunk_size
  | s_chunk_parameters | s_chunk_size_almost_done | s_headers_almost_done
  | s_headers_done | s_chunk_data | s_chunk_data_almost_done
  | s_chunk_data_done | s_body_identity | s_body_identity_eof
  | s_message_done.

(** [enum header_states] *)
Inductive header_states :=
  | h_general | h_C | h_CO | h_CON | h_matching_connection
  | h_matching_proxy_connection | h_matching_content_length
  | h_matching_transfer_encoding | h_matching_upgrade | h_connection
  | h_content_length | h_transfer_encoding | h_upgrade
  | h_matching_transfer_encoding_chunked | h_matching_connection_token_start
  | h_matching_connection_keep_alive | h_matching_connection_close
  | h_matching_connection_upgrade | h_matching_connection_token
  | h_transfer_encoding_chunked | h_connection_keep_alive
  | h_connection_close | h_connection_upgrade.

(** [enum http_method] *)
Inductive http_method :=
  | HTTP_DELETE | HTTP_GET | HTTP_HEAD | HTTP_POST | HTTP_PUT | HTTP_CONNECT
  | HTTP_OPTIONS | HTTP_TRACE | HTTP_COPY | HTTP_LOCK | HTTP_MKCOL
  | HTTP_MOVE | HTTP_PROPFIND | HTTP_PROPPATCH | HTTP_SEARCH | HTTP_UNLOCK
  | HTTP_BIND | HTTP_REBIND | HTTP_UNBIND | HTTP_ACL | HTTP_REPORT
  | HTTP_MKACTIVITY | HTTP_CHECKOUT | HTTP_MERGE | HTTP_MSEARCH | HTTP_NOTIFY
  | HTTP_SUBSCRIBE | HTTP_UNSUBSCRIBE | HTTP_PATCH | HTTP_PURGE
  | HTTP_MKCALENDAR | HTTP_LINK | HTTP_UNLINK.

(** [enum http_parser_type] *)
Inductive http_parser_type := HTTP_REQUEST | HTTP_RESPONSE | HTTP_BOTH.

(** [enum http_errno] *)
Inductive http_errno :=
  | HPE_OK | HPE_CB_message_begin | HPE_CB_url | HPE_CB_header_field
  | HPE_CB_header_value | HPE_CB_headers_complete | HPE_CB_body
  | HPE_CB_message_complete | HPE_CB_status | HPE_CB_chunk_header
  | HPE_CB_chunk_complete | HPE_INVALID_EOF_STATE | HPE_HEADER_OVERFLOW
  | HPE_CLOSED_CONNECTION | HPE_INVALID_VERSION | HPE_INVALID_STATUS
  | HPE_INVALID_METHOD | HPE_INVALID_URL | HPE_INVALID_HOST
  | HPE_INVALID_PORT | HPE_INVALID_PATH | HPE_INVALID_QUERY_STRING
  | HPE_INVALID_FRAGMENT | HPE_LF_EXPECTED | HPE_INVALID_HEADER_TOKEN
  | HPE_INVALID_CONTENT_LENGTH | HPE_UNEXPECTED_CONTENT_LENGTH
  | HPE_INVALID_CHUNK_SIZE | HPE_INVALID_CONSTANT
  | HPE_INVALID_INTERNAL_STATE | HPE_STRICT | HPE_PAUSED | HPE_UNKNOWN.

(** The numbers of [enum state]: [s_dead = 1], then consecutive. *)
Definition state_num (s : state) : Z :=
  match s with
  | s_dead => 1
  | s_start_req_or_res => 2
  | s_res_or_resp_H => 3
  | s_start_res => 4
  | s_res_H => 5
  | s_res_HT => 6
  | s_res_HTT => 7
  | s_res_HTTP => 8
  | s_res_http_major => 9
  | s_res_http_dot => 10
  | s_res_http_minor => 11
  | s_res_http_end => 12
  | s_res_first_status_code => 13
  | s_res_status_code => 14
  | s_res_status_start => 15
  | s_res_status => 16
  | s_res_line_almost_done => 17
  | s_start_req => 18
  | s_req_method => 19
  | s_req_spaces_before_url => 20
  | s_req_schema => 21
  | s_req_schema_slash => 22
  | s_req_schema_slash_slash => 23
  | s_req_server_start => 24
  | s_req_server => 25
  | s_req_server_with_at => 26
  | s_req_path => 27
  | s_req_query_string_start => 28
  | s_req_query_string => 29
  | s_req_fragment_start => 30
  | s_req_fragment => 31
  | s_req_http_start => 32
  | s_req_http_H => 33
  | s_req_http_HT => 34
  | s_req_http_HTT => 35
  | s_req_http_HTTP => 36
  | s_req_http_major => 37
  | s_req_http_dot => 38
  | s_req_http_minor => 39
  | s_req_http_end => 40
  | s_req_line_almost_done => 41
  | s_header_field_start => 42
  | s_header_field => 43
  | s_header_value_discard_ws => 44
  | s_header_value_discard_ws_almost_done => 45
  | s_header_value_discard_lws => 46
  | s_header_value_start => 47
  | s_header_value => 48
  | s_header_value_lws => 49
  | s_header_almost_done => 50
  | s_chunk_size_start => 51
  | s_chunk_size => 52
  | s_chunk_parameters => 53
  | s_chunk_size_almost_done => 54
  | s_headers_almost_done => 55
  | s_headers_done => 56
  | s_chunk_data => 57
  | s_chunk_data_almost_done => 58
  | s_chunk_data_done => 59
  | s_body_identity => 60
  | s_body_identity_eof => 61
  | s_message_done => 62
  end.

(** The numbers of [enum http_method]. *)
Definition method_num (m : http_method) : Z :=
  match m with
  | HTTP_DELETE => 0
  | HTTP_GET => 1
  | HTTP_HEAD => 2
  | HTTP_POST => 3
  | HTTP_PUT => 4
  | HTTP_CONNECT => 5
  | HTTP_OPTIONS => 6
  | HTTP_TRACE => 7
  | HTTP_COPY => 8
  | HTTP_LOCK => 9
  | HTTP_MKCOL => 10
  | HTTP_MOVE => 11
  | HTTP_PROPFIND => 12
  | HTTP_PROPPATCH => 13
  | HTTP_SEARCH => 14
  | HTTP_UNLOCK => 15
  | HTTP_BIND => 16
  | HTTP_REBIND => 17
  | HTTP_UNBIND => 18
  | HTTP_ACL => 19
  | HTTP_REPORT => 20
  | HTTP_MKACTIVITY => 21
  | HTTP_CHECKOUT => 22
  | HTTP_MERGE => 23
  | HTTP_MSEARCH => 24
  | HTTP_NOTIFY => 25
  | HTTP_SUBSCRIBE => 26
  | HTTP_UNSUBSCRIBE => 27
  | HTTP_PATCH => 28
  | HTTP_PURGE => 29
  | HTTP_MKCALENDAR => 30
  | HTTP_LINK => 31
  | HTTP_UNLINK => 32
  end.

(** [method_strings[m]], the third column of [HTTP_METHOD_MAP]. *)
Definition method_strings (m : http_method) : string :=
  match m with
  | HTTP_DELETE => "DELETE"
  | HTTP_GET => "GET"
  | HTTP_HEAD => "HEAD"
  | HTTP_POST => "POST"
  | HTTP_PUT => "PUT"
  | HTTP_CONNECT => "CONNECT"
  | HTTP_OPTIONS => "OPTIONS"
  | HTTP_TRACE => "TRACE"
  | HTTP_COPY => "COPY"
  | HTTP_LOCK => "LOCK"
  | HTTP_MKCOL => "MKCOL"
  | HTTP_MOVE => "MOVE"
  | HTTP_PROPFIND => "PROPFIND"
  | HTTP_PROPPATCH => "PROPPATCH"
  | HTTP_SEARCH => "SEARCH"
  | HTTP_UNLOCK => "UNLOCK"
  | HTTP_BIND => "BIND"
  | HTTP_REBIND => "REBIND"
  | HTTP_UNBIND => "UNBIND"
  | HTTP_ACL => "ACL"
  | HTTP_REPORT => "REPORT"
  | HTTP_MKACTIVITY => "MKACTIVITY"
  | HTTP_CHECKOUT => "CHECKOUT"
  | HTTP_MERGE => "MERGE"
  | HTTP_MSEARCH => "M-SEARCH"
  | HTTP_NOTIFY => "NOTIFY"
  | HTTP_SUBSCRIBE => "SUBSCRIBE"
  | HTTP_UNSUBSCRIBE => "UNSUBSCRIBE"
  | HTTP_PATCH => "PATCH"
  | HTTP_PURGE => "PURGE"
  | HTTP_MKCALENDAR => "MKCALENDAR"
  | HTTP_LINK => "LINK"
  | HTTP_UNLINK => "UNLINK"
  end%string.

(** [http_strerror_tab]: the name and the description of each code. *)
Definition http_strerror_tab (e : http_errno) : string * string :=
  match e with
  | HPE_OK => ("HPE_OK", "success")
  | HPE_CB_message_begin => ("HPE_CB_message_begin", "the on_message_begin callback failed")
  | HPE_CB_url => ("HPE_CB_url", "the on_url callback failed")
  | HPE_CB_header_field => ("HPE_CB_header_field", "the on_header_field callback failed")
  | HPE_CB_header_value => ("HPE_CB_header_value", "the on_header_value callback failed")
  | HPE_CB_headers_complete => ("HPE_CB_headers_complete", "the on_headers_complete callback failed")
  | HPE_CB_body => ("HPE_CB_body", "the on_body callback failed")
  | HPE_CB_message_complete => ("HPE_CB_message_complete", "the on_message_complete callback failed")
  | HPE_CB_status => ("HPE_CB_status", "the on_status callback failed")
  | HPE_CB_chunk_header => ("HPE_CB_chunk_header", "the on_chunk_header callback failed")
  | HPE_CB_chunk_complete => ("HPE_CB_chunk_complete", "the on_chunk_complete callback failed")
  | HPE_INVALID_EOF_STATE => ("HPE_INVALID_EOF_STATE", "stream ended at an unexpected time")
  | HPE_HEADER_OVERFLOW => ("HPE_HEADER_OVERFLOW", "too many header bytes seen; overflow detected")
  | HPE_CLOSED_CONNECTION => ("HPE_CLOSED_CONNECTION", "data received after completed connection: close message")
  | HPE_INVALID_VERSION => ("HPE_INVALID_VERSION", "invalid HTTP version")
  | HPE_INVALID_STATUS => ("HPE_INVALID_STATUS", "invalid HTTP status code")
  | HPE_INVALID_METHOD => ("HPE_INVALID_METHOD", "invalid HTTP method")
  | HPE_INVALID_URL => ("HPE_INVALID_URL", "invalid URL")
  | HPE_INVALID_HOST => ("HPE_INVALID_HOST", "invalid host")
  | HPE_INVALID_PORT => ("HPE_INVALID_PORT", "invalid port")
  | HPE_INVALID_PATH => ("HPE_INVALID_PATH", "invalid path")
  | HPE_INVALID_QUERY_STRING => ("HPE_INVALID_QUERY_STRING", "invalid query string")
  | HPE_INVALID_FRAGMENT => ("HPE_INVALID_FRAGMENT", "invalid fragment")
  | HPE_LF_EXPECTED => ("HPE_LF_EXPECTED", "LF character expected")
  | HPE_INVALID_HEADER_TOKEN => ("HPE_INVALID_HEADER_TOKEN", "invalid character in header")
  | HPE_INVALID_CONTENT_LENGTH => ("HPE_INVALID_CONTENT_LENGTH", "invalid character in content-length header")
  | HPE_UNEXPECTED_CONTENT_LENGTH => ("HPE_UNEXPECTED_CONTENT_LENGTH", "unexpected content-length header")
  | HPE_INVALID_CHUNK_SIZE => ("HPE_INVALID_CHUNK_SIZE", "invalid character in chunk size header")
  | HPE_INVALID_CONSTANT => ("HPE_INVALID_CONSTANT", "invalid constant string")
  | HPE_INVALID_INTERNAL_STATE => ("HPE_INVALID_INTERNAL_STATE", "encountered unexpected internal state")
  | HPE_STRICT => ("HPE_STRICT", "strict mode assertion failed")
  | HPE_PAUSED => ("HPE_PAUSED", "parser is paused")
  | HPE_UNKNOWN => ("HPE_UNKNOWN", "an unknown error occurred")
  end%string.

(** [enum http_host_state] *)
Inductive http_host_state :=
  | s_http_host_dead | s_http_userinfo_start | s_http_userinfo
  | s_http_host_start | s_http_host_v6_start | s_http_host | s_http_host_v6
  | s_http_host_v6_end | s_http_host_v6_zone_start | s_http_host_v6_zone
  | s_http_host_port_start | s_http_host_port.

#[global] Instance state_eq_dec : EqDecision state.
Proof. solve_decision. Defined.
#[global] Instance header_states_eq_dec : EqDecision header_states.
Proof. solve_decision. Defined.
#[global] Instance http_errno_eq_dec : EqDecision http_errno.
Proof. solve_decision. Defined.
#[global] Instance http_method_eq_dec : EqDecision http_method.
Proof. solve_decision. Defined.
#[global] Instance http_parser_type_eq_dec : EqDecision http_parser_type.
Proof. solve_decision. Defined.
#[global] Instance http_host_state_eq_dec : EqDecision http_host_state.
Proof. solve_decision. Defined.

Definition eqb {A} `{EqDecision A} (x y : A) : bool := bool_decide (x = y).

(** [PARSING_HEADER(state)] *)
Definition PARSING_HEADER (s : state) : bool := state_num s <=? state_num s_headers_done.

(** [HTTP_MAX_HEADER_SIZE], (80*1024) *)
Definition HTTP_MAX_HEADER_SIZE : Z := 80 * 1024.

(** [enum flags] *)
Definition F_CHUNKED : Z := Z.shiftl 1 0.
Definition F_CONNECTION_KEEP_ALIVE : Z := Z.shiftl 1 1.
Definition F_CONNECTION_CLOSE : Z := Z.shiftl 1 2.
Definition F_CONNECTION_UPGRADE : Z := Z.shiftl 1 3.
Definition F_TRAILING : Z := Z.shiftl 1 4.
Definition F_UPGRADE : Z := Z.shiftl 1 5.
Definition F_SKIPBODY : Z := Z.shiftl 1 6.
Definition F_CONTENTLENGTH : Z := Z.shiftl 1 7.

(** The string constants the header matchers compare against. *)
Definition PROXY_CONNECTION : string := "proxy-connection".
Definition CONNECTION : string := "connection".
Definition CONTENT_LENGTH : string := "content-length".
Definition TRANSFER_ENCODING : string := "transfer-encoding".
Definition UPGRADE : string := "upgrade".
Definition CHUNKED : string := "chunked".
Definition KEEP_ALIVE : string := "keep-alive".
Definition CLOSE : string := "close".

(** * The parser object *)

(** [struct http_parser]; [data], the pointer back to the application, is the
    application state the callbacks are given. *)
Record http_parser := mk_http_parser {
  hp_type : http_parser_type;                   (* unsigned : 2 *)
  hp_flags : Z;                                 (* unsigned : 8, F_* bits *)
  hp_state : state;                             (* unsigned : 7 *)
  hp_header_state : header_states;              (* unsigned : 7 *)
  hp_index : Z;                                 (* unsigned : 7 *)
  hp_lenient_http_headers : bool;               (* unsigned : 1 *)
  hp_nread : Z;                                 (* uint32_t *)
  hp_content_length : Z;                        (* uint64_t *)
  hp_http_major : Z;                            (* unsigned short *)
  hp_http_minor : Z;                            (* unsigned short *)
  hp_status_code : Z;                           (* unsigned : 16 *)
  hp_method : http_method;                      (* unsigned : 8 *)
  hp_http_errno : http_errno;                   (* unsigned : 7 *)
  hp_upgrade : bool;                            (* unsigned : 1 *)
}.

Definition set_type (v : http_parser_type) (x : http_parser) : http_parser :=
  mk_http_parser v (hp_flags x) (hp_state x) (hp_header_state x) (hp_index x) (hp_lenient_http_headers x) (hp_nread x) (hp_content_length x) (hp_http_major x) (hp_http_minor x) (hp_status_code x) (hp_method x) (hp_http_errno x) (hp_upgrade x).
Definition set_flags (v : Z) (x : http_parser) : http_parser :=
  mk_http_parser (hp_type x) v (hp_state x) (hp_header_state x) (hp_index x) (hp_lenient_http_headers x) (hp_nread x) (hp_content_length x) (hp_http_major x) (hp_http_minor x) (hp_status_code x) (hp_method x) (hp_http_errno x) (hp_upgrade x).
Definition set_state (v : state) (x : http_parser) : http_parser :=
  mk_http_parser (hp_type x) (hp_flags x) v (hp_header_state x) (hp_index x) (hp_lenient_http_headers x) (hp_nread x) (hp_content_length x) (hp_http_major x) (hp_http_minor x) (hp_status_code x) (hp_method x) (hp_http_errno x) (hp_upgrade x).
Definition set_header_state (v : header_states) (x : http_parser) : http_parser :=
  mk_http_parser (hp_type x) (hp_flags x) (hp_state x) v (hp_index x) (hp_lenient_http_headers x) (hp_nread x) (hp_content_length x) (hp_http_major x) (hp_http_minor x) (hp_status_code x) (hp_method x) (hp_http_errno x) (hp_upgrade x).
Definition set_index (v : Z) (x : http_parser) : http_parser :=
  mk_http_parser (hp_type x) (hp_flags x) (hp_state x) (hp_header_state x) v (hp_lenient_http_headers x) (hp_nread x) (hp_content_length x) (hp_http_major x) (hp_http_minor x) (hp_status_code x) (hp_method x) (hp_http_errno x) (hp_upgrade x).
Definition set_lenient_http_headers (v : bool) (x : http_parser) : http_parser :=
  mk_http_parser (hp_type x) (hp_flags x) (hp_state x) (hp_header_state x) (hp_index x) v (hp_nread x) (hp_content_length x) (hp_http_major x) (hp_http_minor x) (hp_status_code x) (hp_method x) (hp_http_errno x) (hp_upgrade x).
Definition set_nread (v : Z) (x : http_parser) : http_parser :=
  mk_http_parser (hp_type x) (hp_flags x) (hp_state x) (hp_header_state x) (hp_index x) (hp_lenient_http_headers x) v (hp_content_length x) (hp_http_major x) (hp_http_minor x) (hp_status_code x) (hp_method x) (hp_http_errno x) (hp_upgrade x).
Definition set_content_length (v : Z) (x : http_parser) : http_parser :=
  mk_http_parser (hp_type x) (hp_flags x) (hp_state x) (hp_header_state x) (hp_index x) (hp_lenient_http_headers x) (hp_nread x) v (hp_http_major x) (hp_http_minor x) (hp_status_code x) (hp_method x) (hp_http_errno x) (hp_upgrade x).
Definition set_http_major (v : Z) (x : http_parser) : http_parser :=
  mk_http_parser (hp_type x) (hp_flags x) (hp_state x) (hp_header_state x) (hp_index x) (hp_lenient_http_headers x) (hp_nread x) (hp_content_length x) v (hp_http_minor x) (hp_status_code x) (hp_method x) (hp_http_errno x) (hp_upgrade x).
Definition set_http_minor (v : Z) (x : http_parser) : http_parser :=
  mk_http_parser (hp_type x) (hp_flags x) (hp_state x) (hp_header_state x) (hp_index x) (hp_lenient_http_headers x) (hp_nread x) (hp_content_length x) (hp_http_major x) v (hp_status_code x) (hp_method x) (hp_http_errno x) (hp_upgrade x).
Definition set_status_code (v : Z) (x : http_parser) : http_parser :=
  mk_http_parser (hp_type x) (hp_flags x) (hp_state x) (hp_header_state x) (hp_index x) (hp_lenient_http_headers x) (hp_nread x) (hp_content_length x) (hp_http_major x) (hp_http_minor x) v (hp_method x) (hp_http_errno x) (hp_upgrade x).
Definition set_method (v : http_method) (x : http_parser) : http_parser :=
  mk_http_parser (hp_type x) (hp_flags x) (hp_state x) (hp_header_state x) (hp_index x) (hp_lenient_http_headers x) (hp_nread x) (hp_content_length x) (hp_http_major x) (hp_http_minor x) (hp_status_code x) v (hp_http_errno x) (hp_upgrade x).
Definition set_http_errno (v : http_errno) (x : http_parser) : http_parser :=
  mk_http_parser (hp_type x) (hp_flags x) (hp_state x) (hp_header_state x) (hp_index x) (hp_lenient_http_headers x) (hp_nread x) (hp_content_length x) (hp_http_major x) (hp_http_minor x) (hp_status_code x) (hp_method x) v (hp_upgrade x).
Definition set_upgrade (v : bool) (x : http_parser) : http_parser :=
  mk_http_parser (hp_type x) (hp_flags x) (hp_state x) (hp_header_state x) (hp_index x) (hp_lenient_http_headers x) (hp_nread x) (hp_content_length x) (hp_http_major x) (hp_http_minor x) (hp_status_code x) (hp_method x) (hp_http_errno x) v.

(** [parser->flags & f] as a condition, and [parser->flags |= f]. *)
Definition flag_set (f flags : Z) : bool := negb (Z.land flags f =? 0).
Definition has_flag (f : Z) (x : http_parser) : bool := flag_set f (hp_flags x).
Definition add_flag (f : Z) (x : http_parser) : http_parser := set_flags (Z.lor (hp_flags x) f) x.

(** [HTTP_PARSER_ERRNO(parser) == HPE_OK] *)
Definition errno_ok (x : http_parser) : bool :=
  match hp_http_errno x with HPE_OK => true | _ => false end.

(** * Callbacks

    A callback gets the parser (which it may change), the bytes of its range
    and the application state; it returns an [int]. *)
Section Callbacks.
Context {A : Type}.

Definition http_cb : Type := http_parser -> A -> http_parser * A * Z.
Definition http_data_cb : Type := http_parser -> bytes -> A -> http_parser * A * Z.

(** [struct http_parser_settings]; [None] is a null pointer. *)
Record http_parser_settings := {
  on_message_begin : option http_cb;
  on_url : option http_data_cb;
  on_status : option http_data_cb;
  on_header_field : option http_data_cb;
  on_header_value : option http_data_cb;
  on_headers_complete : option http_cb;
  on_body : option http_data_cb;
  on_message_complete : option http_cb;
  on_chunk_header : option http_cb;
  on_chunk_complete : option http_cb
}.

Definition http_parser_settings_init : http_parser_settings :=
  {| on_message_begin := None; on_url := None; on_status := None;
     on_header_field := None; on_header_value := None;
     on_headers_complete := None; on_body := None;
     on_message_complete := None; on_chunk_header := None;
     on_chunk_complete := None |}.
End Callbacks.
Arguments http_cb : clear implicits.
Arguments http_data_cb : clear implicits.
Arguments http_parser_settings : clear implicits.

(** * Functions over a parser object *)

(** [http_parser_init]: everything zero, then the type and the start state. *)
Definition http_parser_init (t : http_parser_type) : http_parser :=
  {| hp_type := t; hp_flags := 0;
     hp_state := match t with
                 | HTTP_REQUEST => s_start_req
                 | HTTP_RESPONSE => s_start_res
                 | HTTP_BOTH => s_start_req_or_res
                 end;
     hp_header_state := h_general; hp_index := 0; hp_lenient_http_headers := false;
     hp_nread := 0; hp_content_length := 0; hp_http_major := 0; hp_http_minor := 0;
     hp_status_code := 0; hp_method := HTTP_DELETE; hp_http_errno := HPE_OK;
     hp_upgrade := false |}.

(** [http_message_needs_eof] *)
Definition http_message_needs_eof (x : http_parser) : bool :=
  if eqb (hp_type x) HTTP_REQUEST then false
  else if (hp_status_code x / 100 =? 1) || (hp_status_code x =? 204)
          || (hp_status_code x =? 304) || has_flag F_SKIPBODY x then false
  else if has_flag F_CHUNKED x || negb (hp_content_length x =? ULLONG_MAX) then false
  else true.

(** [http_should_keep_alive] *)
Definition http_should_keep_alive (x : http_parser) : bool :=
  if (0 <? hp_http_major x) && (0 <? hp_http_minor x) then
    if has_flag F_CONNECTION_CLOSE x then false else negb (http_message_needs_eof x)
  else
    if negb (has_flag F_CONNECTION_KEEP_ALIVE x) then false
    else negb (http_message_needs_eof x).

(** [start_state] and [NEW_MESSAGE()] (strict mode). *)
Definition start_state (x : http_parser) : state :=
  if eqb (hp_type x) HTTP_REQUEST then s_start_req else s_start_res.
Definition NEW_MESSAGE (x : http_parser) : state :=
  if http_should_keep_alive x then start_state x else s_dead.

Definition http_method_str (m : http_method) : string := method_strings m.
Definition http_errno_name (e : http_errno) : string := fst (http_strerror_tab e).
Definition http_errno_description (e : http_errno) : string := snd (http_strerror_tab e).

(** [http_parser_pause]: asserts when the parser is in an error state. *)
Definition http_parser_pause (x : http_parser) (paused : Z) : outcome http_parser :=
  if errno_ok x || eqb (hp_http_errno x) HPE_PAUSED then
    Done (set_http_errno (if paused =? 0 then HPE_OK else HPE_PAUSED) x)
  else Stuck AssertFailed.

Definition http_body_is_final (x : http_parser) : bool := eqb (hp_state x) s_message_done.

(** [http_parser_version], 2.7.1 *)
Definition http_parser_version : Z :=
  Z.lor (2 * 65536) (Z.lor (7 * 256) (1 * 1)).
