(* ===== verification/HttpStatus.v ===== *)
(** [enum http_status] of [common/include/http_parser.h]: the rows of
    [HTTP_STATUS_MAP], each a code, a name and a reason phrase. *)
From Stdlib Require Import ZArith Lia Bool List String.
From stdpp Require Import base list strings.
From S2P Require Import Prelude.

Inductive http_status :=
  | HTTP_STATUS_CONTINUE | HTTP_STATUS_SWITCHING_PROTOCOLS | HTTP_STATUS_PROCESSING
  | HTTP_STATUS_OK | HTTP_STATUS_CREATED | HTTP_STATUS_ACCEPTED
  | HTTP_STATUS_NON_AUTHORITATIVE_INFORMATION | HTTP_STATUS_NO_CONTENT | HTTP_STATUS_RESET_CONTENT
  | HTTP_STATUS_PARTIAL_CONTENT | HTTP_STATUS_MULTI_STATUS | HTTP_STATUS_ALREADY_REPORTED
  | HTTP_STATUS_IM_USED | HTTP_STATUS_MULTIPLE_CHOICES | HTTP_STATUS_MOVED_PERMANENTLY
  | HTTP_STATUS_FOUND | HTTP_STATUS_SEE_OTHER | HTTP_STATUS_NOT_MODIFIED | HTTP_STATUS_USE_PROXY
  | HTTP_STATUS_TEMPORARY_REDIRECT | HTTP_STATUS_PERMANENT_REDIRECT | HTTP_STATUS_BAD_REQUEST
  | HTTP_STATUS_UNAUTHORIZED | HTTP_STATUS_PAYMENT_REQUIRED | HTTP_STATUS_FORBIDDEN
  | HTTP_STATUS_NOT_FOUND | HTTP_STATUS_METHOD_NOT_ALLOWED | HTTP_STATUS_NOT_ACCEPTABLE
  | HTTP_STATUS_PROXY_AUTHENTICATION_REQUIRED | HTTP_STATUS_REQUEST_TIMEOUT | HTTP_STATUS_CONFLICT
  | HTTP_STATUS_GONE | HTTP_STATUS_LENGTH_REQUIRED | HTTP_STATUS_PRECONDITION_FAILED
  | HTTP_STATUS_PAYLOAD_TOO_LARGE | HTTP_STATUS_URI_TOO_LONG | HTTP_STATUS_UNSUPPORTED_MEDIA_TYPE
  | HTTP_STATUS_RANGE_NOT_SATISFIABLE | HTTP_STATUS_EXPECTATION_FAILED
  | HTTP_STATUS_MISDIRECTED_REQUEST | HTTP_STATUS_UNPROCESSABLE_ENTITY | HTTP_STATUS_LOCKED
  | HTTP_STATUS_FAILED_DEPENDENCY | HTTP_STATUS_UPGRADE_REQUIRED
  | HTTP_STATUS_PRECONDITION_REQUIRED | HTTP_STATUS_TOO_MANY_REQUESTS
  | HTTP_STATUS_REQUEST_HEADER_FIELDS_TOO_LARGE | HTTP_STATUS_UNAVAILABLE_FOR_LEGAL_REASONS
  | HTTP_STATUS_INTERNAL_SERVER_ERROR | HTTP_STATUS_NOT_IMPLEMENTED | HTTP_STATUS_BAD_GATEWAY
  | HTTP_STATUS_SERVICE_UNAVAILABLE | HTTP_STATUS_GATEWAY_TIMEOUT
  | HTTP_STATUS_HTTP_VERSION_NOT_SUPPORTED | HTTP_STATUS_VARIANT_ALSO_NEGOTIATES
  | HTTP_STATUS_INSUFFICIENT_STORAGE | HTTP_STATUS_LOOP_DETECTED | HTTP_STATUS_NOT_EXTENDED
  | HTTP_STATUS_NETWORK_AUTHENTICATION_REQUIRED.

#[global] Instance http_status_eq_dec : EqDecision http_status.
Proof. solve_decision. Defined.

(** The rows of [HTTP_STATUS_MAP]. *)
Definition HTTP_STATUS_MAP : list (Z * http_status * string) :=
  [ (100, HTTP_STATUS_CONTINUE, "Continue"%string);
    (101, HTTP_STATUS_SWITCHING_PROTOCOLS, "Switching Protocols"%string);
    (102, HTTP_STATUS_PROCESSING, "Processing"%string);
    (200, HTTP_STATUS_OK, "OK"%string);
    (201, HTTP_STATUS_CREATED, "Created"%string);
    (202, HTTP_STATUS_ACCEPTED, "Accepted"%string);
    (203, HTTP_STATUS_NON_AUTHORITATIVE_INFORMATION, "Non-Authoritative Information"%string);
    (204, HTTP_STATUS_NO_CONTENT, "No Content"%string);
    (205, HTTP_STATUS_RESET_CONTENT, "Reset Content"%string);
    (206, HTTP_STATUS_PARTIAL_CONTENT, "Partial Content"%string);
    (207, HTTP_STATUS_MULTI_STATUS, "Multi-Status"%string);
    (208, HTTP_STATUS_ALREADY_REPORTED, "Already Reported"%string);
    (226, HTTP_STATUS_IM_USED, "IM Used"%string);
    (300, HTTP_STATUS_MULTIPLE_CHOICES, "Multiple Choices"%string);
    (301, HTTP_STATUS_MOVED_PERMANENTLY, "Moved Permanently"%string);
    (302, HTTP_STATUS_FOUND, "Found"%string);
    (303, HTTP_STATUS_SEE_OTHER, "See Other"%string);
    (304, HTTP_STATUS_NOT_MODIFIED, "Not Modified"%string);
    (305, HTTP_STATUS_USE_PROXY, "Use Proxy"%string);
    (307, HTTP_STATUS_TEMPORARY_REDIRECT, "Temporary Redirect"%string);
    (308, HTTP_STATUS_PERMANENT_REDIRECT, "Permanent Redirect"%string);
    (400, HTTP_STATUS_BAD_REQUEST, "Bad Request"%string);
    (401, HTTP_STATUS_UNAUTHORIZED, "Unauthorized"%string);
    (402, HTTP_STATUS_PAYMENT_REQUIRED, "Payment Required"%string);
    (403, HTTP_STATUS_FORBIDDEN, "Forbidden"%string);
    (404, HTTP_STATUS_NOT_FOUND, "Not Found"%string);
    (405, HTTP_STATUS_METHOD_NOT_ALLOWED, "Method Not Allowed"%string);
    (406, HTTP_STATUS_NOT_ACCEPTABLE, "Not Acceptable"%string);
    (407, HTTP_STATUS_PROXY_AUTHENTICATION_REQUIRED, "Proxy Authentication Required"%string);
    (408, HTTP_STATUS_REQUEST_TIMEOUT, "Request Timeout"%string);
    (409, HTTP_STATUS_CONFLICT, "Conflict"%string);
    (410, HTTP_STATUS_GONE, "Gone"%string);
    (411, HTTP_STATUS_LENGTH_REQUIRED, "Length Required"%string);
    (412, HTTP_STATUS_PRECONDITION_FAILED, "Precondition Failed"%string);
    (413, HTTP_STATUS_PAYLOAD_TOO_LARGE, "Payload Too Large"%string);
    (414, HTTP_STATUS_URI_TOO_LONG, "URI Too Long"%string);
    (415, HTTP_STATUS_UNSUPPORTED_MEDIA_TYPE, "Unsupported Media Type"%string);
    (416, HTTP_STATUS_RANGE_NOT_SATISFIABLE, "Range Not Satisfiable"%string);
    (417, HTTP_STATUS_EXPECTATION_FAILED, "Expectation Failed"%string);
    (421, HTTP_STATUS_MISDIRECTED_REQUEST, "Misdirected Request"%string);
    (422, HTTP_STATUS_UNPROCESSABLE_ENTITY, "Unprocessable Entity"%string);
    (423, HTTP_STATUS_LOCKED, "Locked"%string);
    (424, HTTP_STATUS_FAILED_DEPENDENCY, "Failed Dependency"%string);
    (426, HTTP_STATUS_UPGRADE_REQUIRED, "Upgrade Required"%string);
    (428, HTTP_STATUS_PRECONDITION_REQUIRED, "Precondition Required"%string);
    (429, HTTP_STATUS_TOO_MANY_REQUESTS, "Too Many Requests"%string);
    (431, HTTP_STATUS_REQUEST_HEADER_FIELDS_TOO_LARGE, "Request Header Fields Too Large"%string);
    (451, HTTP_STATUS_UNAVAILABLE_FOR_LEGAL_REASONS, "Unavailable For Legal Reasons"%string);
    (500, HTTP_STATUS_INTERNAL_SERVER_ERROR, "Internal Server Error"%string);
    (501, HTTP_STATUS_NOT_IMPLEMENTED, "Not Implemented"%string);
    (502, HTTP_STATUS_BAD_GATEWAY, "Bad Gateway"%string);
    (503, HTTP_STATUS_SERVICE_UNAVAILABLE, "Service Unavailable"%string);
    (504, HTTP_STATUS_GATEWAY_TIMEOUT, "Gateway Timeout"%string);
    (505, HTTP_STATUS_HTTP_VERSION_NOT_SUPPORTED, "HTTP Version Not Supported"%string);
    (506, HTTP_STATUS_VARIANT_ALSO_NEGOTIATES, "Variant Also Negotiates"%string);
    (507, HTTP_STATUS_INSUFFICIENT_STORAGE, "Insufficient Storage"%string);
    (508, HTTP_STATUS_LOOP_DETECTED, "Loop Detected"%string);
    (510, HTTP_STATUS_NOT_EXTENDED, "Not Extended"%string);
    (511, HTTP_STATUS_NETWORK_AUTHENTICATION_REQUIRED, "Network Authentication Required"%string) ].

(** The value of an enumerator. *)
Definition http_status_num (s : http_status) : Z :=
  match List.find (fun '(_, s', _) => bool_decide (s' = s)) HTTP_STATUS_MAP with Some (n, _, _) => n | None => 0 end.

(** The enumerator with a value. *)
Definition http_status_of (n : Z) : option http_status :=
  match List.find (fun '(n', _, _) => n' =? n) HTTP_STATUS_MAP with Some (_, s, _) => Some s | None => None end.

(** No two rows have the same code, and every code has three digits. *)
Lemma http_status_of_num s : http_status_of (http_status_num s) = Some s.
Proof. destruct s; vm_compute; reflexivity. Qed.

Lemma http_status_num_inj s s' : http_status_num s = http_status_num s' -> s = s'.
Proof. intros H. pose proof (http_status_of_num s) as H1. rewrite H, http_status_of_num in H1. congruence. Qed.

Lemma http_status_num_range s : 100 <= http_status_num s <= 599.
Proof. destruct s; vm_compute; split; discriminate. Qed.
