(* ===== verification/HttpUrl.v ===== *)
(** The URL and host parsers of [common/src/http_parser.c]:
    [parse_url_char], [http_parse_host_char], [http_parse_host] and
    [http_parser_parse_url] (strict mode). *)
From Stdlib Require Import ZArith Lia Bool List String Ascii.
From stdpp Require Import base list strings.
From S2P Require Import Prelude HttpChars HttpTypes.

(** * One character of a URL *)

(** The [case]s that accept server characters: [s_req_server_start],
    [s_req_server] and, past its own ['@'] test, [s_req_server_with_at]. *)
Definition parse_url_server_char (c : ascii) : state :=
  if (c =c "/")%char then s_req_path
  else if (c =c "?")%char then s_req_query_string_start
  else if (c =c "@")%char then s_req_server_with_at
  else if (IS_USERINFO_CHAR c || (c =c "[") || (c =c "]"))%char then s_req_server
  else s_dead.

(** [parse_url_char] *)
Definition parse_url_char (s : state) (c : ascii) : state :=
  if ((c =c " ")%char || (c =c CR) || (c =c LF)) then s_dead
  else if ((c =c "009") || (c =c "012"))%char then s_dead
  else
    match s with
    | s_req_spaces_before_url =>
        if ((c =c "/") || (c =c "*"))%char then s_req_path
        else if IS_ALPHA c then s_req_schema
        else s_dead
    | s_req_schema =>
        if IS_ALPHA c then s
        else if (c =c ":")%char then s_req_schema_slash
        else s_dead
    | s_req_schema_slash =>
        if (c =c "/")%char then s_req_schema_slash_slash else s_dead
    | s_req_schema_slash_slash =>
        if (c =c "/")%char then s_req_server_start else s_dead
    | s_req_server_with_at =>
        if (c =c "@")%char then s_dead else parse_url_server_char c
    | s_req_server_start | s_req_server => parse_url_server_char c
    | s_req_path =>
        if IS_URL_CHAR c then s
        else if (c =c "?")%char then s_req_query_string_start
        else if (c =c "#")%char then s_req_fragment_start
        else s_dead
    | s_req_query_string_start | s_req_query_string =>
        if IS_URL_CHAR c then s_req_query_string
        else if (c =c "?")%char then s_req_query_string
        else if (c =c "#")%char then s_req_fragment_start
        else s_dead
    | s_req_fragment_start =>
        if IS_URL_CHAR c then s_req_fragment
        else if (c =c "?")%char then s_req_fragment
        else if (c =c "#")%char then s
        else s_dead
    | s_req_fragment =>
        if IS_URL_CHAR c then s
        else if ((c =c "?") || (c =c "#"))%char then s
        else s_dead
    | _ => s_dead
    end.

(** * One character of a host *)

Definition IS_ZONE_CHAR (c : ascii) : bool :=
  (IS_ALPHANUM c || (c =c "%") || (c =c ".") || (c =c "-") || (c =c "_") || (c =c "~"))%char.

(** [http_parse_host_char] *)
Definition http_parse_host_char (s : http_host_state) (c : ascii) : http_host_state :=
  match s with
  | s_http_userinfo | s_http_userinfo_start =>
      if (c =c "@")%char then s_http_host_start
      else if IS_USERINFO_CHAR c then s_http_userinfo
      else s_http_host_dead
  | s_http_host_start =>
      if (c =c "[")%char then s_http_host_v6_start
      else if IS_HOST_CHAR c then s_http_host
      else s_http_host_dead
  | s_http_host =>
      if IS_HOST_CHAR c then s_http_host
      else if (c =c ":")%char then s_http_host_port_start
      else s_http_host_dead
  | s_http_host_v6_end =>
      if (c =c ":")%char then s_http_host_port_start else s_http_host_dead
  | s_http_host_v6 =>
      if (c =c "]")%char then s_http_host_v6_end
      else if (IS_HEX c || (c =c ":") || (c =c "."))%char then s_http_host_v6
      else if (c =c "%")%char then s_http_host_v6_zone_start
      else s_http_host_dead
  | s_http_host_v6_start =>
      if (IS_HEX c || (c =c ":") || (c =c "."))%char then s_http_host_v6
      else s_http_host_dead
  | s_http_host_v6_zone =>
      if (c =c "]")%char then s_http_host_v6_end
      else if IS_ZONE_CHAR c then s_http_host_v6_zone
      else s_http_host_dead
  | s_http_host_v6_zone_start =>
      if IS_ZONE_CHAR c then s_http_host_v6_zone else s_http_host_dead
  | s_http_host_port | s_http_host_port_start =>
      if IS_NUM c then s_http_host_port else s_http_host_dead
  | s_http_host_dead => s_http_host_dead
  end.

(** * The result structure *)

(** [enum http_parser_url_fields] *)
Inductive url_field := UF_SCHEMA | UF_HOST | UF_PORT | UF_PATH | UF_QUERY | UF_FRAGMENT | UF_USERINFO.

#[global] Instance url_field_eq_dec : EqDecision url_field.
Proof. solve_decision. Defined.

Definition uf_num (f : url_field) : Z :=
  match f with
  | UF_SCHEMA => 0 | UF_HOST => 1 | UF_PORT => 2 | UF_PATH => 3
  | UF_QUERY => 4 | UF_FRAGMENT => 5 | UF_USERINFO => 6
  end.

(** [1 << f] *)
Definition uf_bit (f : url_field) : Z := Z.shiftl 1 (uf_num f).

(** One entry of [field_data]: two [uint16_t]s. *)
Record url_span := mk_span { off : Z; len : Z }.

(** [struct http_parser_url]; [field_data] is read through its index. *)
Record http_parser_url := mk_url {
  field_set : Z;                       (* uint16_t *)
  port : Z;                            (* uint16_t *)
  field_data : url_field -> url_span
}.

(** [http_parser_url_init] *)
Definition http_parser_url_init : http_parser_url :=
  mk_url 0 0 (fun _ => mk_span 0 0).

Definition set_field (f : url_field) (s : url_span) (u : http_parser_url) : http_parser_url :=
  mk_url (field_set u) (port u) (fun g => if eqb f g then s else field_data u g).
Definition set_off (f : url_field) (o : Z) (u : http_parser_url) : http_parser_url :=
  set_field f (mk_span (u16 o) (len (field_data u f))) u.
Definition set_len (f : url_field) (n : Z) (u : http_parser_url) : http_parser_url :=
  set_field f (mk_span (off (field_data u f)) (u16 n)) u.
Definition incr_len (f : url_field) (u : http_parser_url) : http_parser_url :=
  set_len f (len (field_data u f) + 1) u.
Definition add_field (f : url_field) (u : http_parser_url) : http_parser_url :=
  mk_url (u16 (Z.lor (field_set u) (uf_bit f))) (port u) (field_data u).
Definition has_field (f : url_field) (u : http_parser_url) : bool :=
  negb (Z.land (field_set u) (uf_bit f) =? 0).
Definition set_port (v : Z) (u : http_parser_url) : http_parser_url :=
  mk_url (field_set u) (u16 v) (field_data u).
Definition clear_field_set (u : http_parser_url) : http_parser_url :=
  mk_url 0 0 (field_data u).

(** * Hosts *)

(** The [switch(new_s)] of [http_parse_host]: what the character at offset
    [i] does to the structure when the state goes from [s] to [new_s]. *)
Definition host_char_effect (s new_s : http_host_state) (i : Z) (u : http_parser_url) : http_parser_url :=
  match new_s with
  | s_http_host =>
      incr_len UF_HOST (if eqb s s_http_host then u else set_off UF_HOST i u)
  | s_http_host_v6 =>
      incr_len UF_HOST (if eqb s s_http_host_v6 then u else set_off UF_HOST i u)
  | s_http_host_v6_zone_start | s_http_host_v6_zone => incr_len UF_HOST u
  | s_http_host_port =>
      incr_len UF_PORT
        (if eqb s s_http_host_port then u
         else add_field UF_PORT (set_len UF_PORT 0 (set_off UF_PORT i u)))
  | s_http_userinfo =>
      incr_len UF_USERINFO
        (if eqb s s_http_userinfo then u
         else add_field UF_USERINFO (set_len UF_USERINFO 0 (set_off UF_USERINFO i u)))
  | _ => u
  end.

(** The loop of [http_parse_host] over the bytes [rest], the first at offset
    [i]; [None] is [return 1] on [s_http_host_dead]. *)
Fixpoint http_parse_host_loop (rest : bytes) (i : Z) (s : http_host_state)
    (u : http_parser_url) : option (http_host_state * http_parser_url) :=
  match rest with
  | [] => Some (s, u)
  | c :: rest' =>
      let new_s := http_parse_host_char s c in
      if eqb new_s s_http_host_dead then None
      else http_parse_host_loop rest' (i + 1) new_s (host_char_effect s new_s i u)
  end.

(** The states [http_parse_host] must not end in. *)
Definition host_end_ok (s : http_host_state) : bool :=
  match s with
  | s_http_host_start | s_http_host_v6_start | s_http_host_v6
  | s_http_host_v6_zone_start | s_http_host_v6_zone | s_http_host_port_start
  | s_http_userinfo | s_http_userinfo_start => false
  | _ => true
  end.

(** [http_parse_host]: [None] is a non-zero return. *)
Definition http_parse_host (buf : bytes) (u : http_parser_url) (found_at : bool)
    : outcome (option http_parser_url) :=
  if negb (has_field UF_HOST u) then Stuck AssertFailed
  else
    let h := field_data u UF_HOST in
    if zlen buf <? off h + len h then Stuck OutOfBounds
    else
      let u0 := set_len UF_HOST 0 u in
      let s := if found_at then s_http_userinfo_start else s_http_host_start in
      match http_parse_host_loop (slice buf (off h) (len h)) (off h) s u0 with
      | None => Done None
      | Some (s', u') => Done (if host_end_ok s' then Some u' else None)
      end.

(** * URLs *)

(** What the state after a character says about its field. *)
Inductive url_action := UrlError | UrlSkip | UrlField (f : url_field) | UrlUnexpected.

Definition url_action_of (s : state) : url_action :=
  match s with
  | s_dead => UrlError
  | s_req_schema_slash | s_req_schema_slash_slash | s_req_server_start
  | s_req_query_string_start | s_req_fragment_start => UrlSkip
  | s_req_schema => UrlField UF_SCHEMA
  | s_req_server_with_at | s_req_server => UrlField UF_HOST
  | s_req_path => UrlField UF_PATH
  | s_req_query_string => UrlField UF_QUERY
  | s_req_fragment => UrlField UF_FRAGMENT
  | _ => UrlUnexpected
  end.

(** The loop of [http_parser_parse_url]; [old_uf = None] is [UF_MAX].  The
    result is the structure and [found_at]; [None] is [return 1]. *)
Fixpoint parse_url_loop (rest : bytes) (i : Z) (s : state) (old_uf : option url_field)
    (found_at : bool) (u : http_parser_url) : outcome (option (http_parser_url * bool)) :=
  match rest with
  | [] => Done (Some (u, found_at))
  | c :: rest' =>
      let s := parse_url_char s c in
      match url_action_of s with
      | UrlError => Done None
      | UrlUnexpected => Stuck AssertFailed
      | UrlSkip => parse_url_loop rest' (i + 1) s old_uf found_at u
      | UrlField uf =>
          let found_at := if eqb s s_req_server_with_at then true else found_at in
          if eqb (Some uf) old_uf then
            parse_url_loop rest' (i + 1) s old_uf found_at (incr_len uf u)
          else
            parse_url_loop rest' (i + 1) s (Some uf) found_at
              (add_field uf (set_len uf 1 (set_off uf i u)))
      end
  end.

(** [strtoul(mem + i, NULL, 10)] at a digit: the decimal value of the digits
    from [i], stopping at the first other byte of memory and saturating at
    [ULONG_MAX] (64 bits); [None] when memory ends first. *)
Fixpoint strtoul (mem : bytes) (acc : Z) : option Z :=
  match mem with
  | [] => None
  | c :: mem' =>
      if IS_NUM c then strtoul mem' (Z.min ULLONG_MAX (acc * 10 + (code c - code "0")))
      else Some acc
  end.

(** [http_parser_parse_url(buf, buflen, is_connect, u)]: [mem] is the memory
    from [buf] on, of which the URL is the first [buflen] bytes.  [None] is a
    non-zero return. *)
Definition http_parser_parse_url (mem : bytes) (buflen : Z) (is_connect : bool)
    (u : http_parser_url) : outcome (option http_parser_url) :=
  let buf := take (Z.to_nat buflen) mem in
  let s := if is_connect then s_req_server_start else s_req_spaces_before_url in
  match parse_url_loop buf 0 s None false (clear_field_set u) with
  | Stuck w => Stuck w
  | Done None => Done None
  | Done (Some (u, found_at)) =>
      if has_field UF_SCHEMA u && negb (has_field UF_HOST u) then Done None
      else
        match (if has_field UF_HOST u then http_parse_host buf u found_at else Done (Some u)) with
        | Stuck w => Stuck w
        | Done None => Done None
        | Done (Some u) =>
            if is_connect && negb (field_set u =? Z.lor (uf_bit UF_HOST) (uf_bit UF_PORT)) then Done None
            else if has_field UF_PORT u then
              match strtoul (drop (Z.to_nat (off (field_data u UF_PORT))) mem) 0 with
              | None => Stuck OutOfBounds
              | Some v => if 65535 <? v then Done None else Done (Some (set_port v u))
              end
            else Done (Some u)
        end
  end.
