(* ===== verification/HttpExec.v ===== *)
(** [http_parser_execute] of [common/src/http_parser.c] (strict mode).

    The local variables of the C function are the fields of [ctx]; every
    [case] of its [switch] is a definition from [ctx] to a control result
    [ctl], written with the macros of the C file ([UPDATE_STATE],
    [CALLBACK_NOTIFY], [CALLBACK_DATA], [MARK], [COUNT_HEADER_SIZE],
    [STRICT_CHECK], [RETURN]).  Pointers into the input are offsets from
    [data].  A macro that may leave the function takes the rest of the [case]
    as its last argument. *)
From Stdlib Require Import ZArith Lia Bool List String Ascii.
From stdpp Require Import base list strings.
From S2P Require Import Prelude HttpChars HttpTypes HttpUrl.

(** The [FOR] argument of the data-callback macros. *)
Inductive data_for := For_header_field | For_header_value | For_url | For_body | For_status.

(** [str[i]] of a C string literal, its terminating NUL included. *)
Definition c_str_at (s : string) (i : Z) : option ascii := byte_at (bs s ++ ["000"%char]) i.

(** [sizeof(S) - 1] *)
Definition slen (s : string) : Z := Z.of_nat (String.length s).

(** * Method recognition *)

(** The [switch (ch)] of [s_start_req]. *)
Definition start_method (c : ascii) : option http_method :=
  match c with
  | "A" => Some HTTP_ACL
  | "B" => Some HTTP_BIND
  | "C" => Some HTTP_CONNECT
  | "D" => Some HTTP_DELETE
  | "G" => Some HTTP_GET
  | "H" => Some HTTP_HEAD
  | "L" => Some HTTP_LOCK
  | "M" => Some HTTP_MKCOL
  | "N" => Some HTTP_NOTIFY
  | "O" => Some HTTP_OPTIONS
  | "P" => Some HTTP_POST
  | "R" => Some HTTP_REPORT
  | "S" => Some HTTP_SUBSCRIBE
  | "T" => Some HTTP_TRACE
  | "U" => Some HTTP_UNLOCK
  | _ => None
  end%char.

(** [parser->method << 16 | parser->index << 8 | ch] *)
Definition method_key (m : http_method) (i : Z) (c : ascii) : Z :=
  Z.lor (Z.lor (Z.shiftl (method_num m) 16) (Z.shiftl i 8)) (code c).

(** The [XX(meth, pos, ch, new_meth)] rows of [s_req_method]. *)
Definition method_switch : list (http_method * Z * ascii * http_method) :=
  [ (HTTP_POST,      1, "U", HTTP_PUT);
    (HTTP_POST,      1, "A", HTTP_PATCH);
    (HTTP_POST,      1, "R", HTTP_PROPFIND);
    (HTTP_PUT,       2, "R", HTTP_PURGE);
    (HTTP_CONNECT,   1, "H", HTTP_CHECKOUT);
    (HTTP_CONNECT,   2, "P", HTTP_COPY);
    (HTTP_MKCOL,     1, "O", HTTP_MOVE);
    (HTTP_MKCOL,     1, "E", HTTP_MERGE);
    (HTTP_MKCOL,     1, "-", HTTP_MSEARCH);
    (HTTP_MKCOL,     2, "A", HTTP_MKACTIVITY);
    (HTTP_MKCOL,     3, "A", HTTP_MKCALENDAR);
    (HTTP_SUBSCRIBE, 1, "E", HTTP_SEARCH);
    (HTTP_REPORT,    2, "B", HTTP_REBIND);
    (HTTP_PROPFIND,  4, "P", HTTP_PROPPATCH);
    (HTTP_LOCK,      1, "I", HTTP_LINK);
    (HTTP_UNLOCK,    2, "S", HTTP_UNSUBSCRIBE);
    (HTTP_UNLOCK,    2, "B", HTTP_UNBIND);
    (HTTP_UNLOCK,    3, "I", HTTP_UNLINK) ]%char.

Definition next_method (m : http_method) (i : Z) (c : ascii) : option http_method :=
  match List.find (fun '(m', i', c', _) => method_key m i c =? method_key m' i' c') method_switch with
  | Some (_, _, _, m') => Some m'
  | None => None
  end.

(** * Header-name and header-value matchers *)

(** One step of the matchers against a string constant, the index already
    incremented: past the end or a mismatch gives [fail], the last character
    gives [ok], otherwise the matcher stays in [cur]. *)
Definition match_next (s : string) (fail ok cur : header_states) (i : Z) (c : ascii)
    : outcome header_states :=
  if slen s <? i then Done fail
  else match c_str_at s i with
       | None => Stuck OutOfBounds
       | Some d => Done (if c <>c d then fail else if i =? slen s - 1 then ok else cur)
       end.

(** [parser->index++], a 7-bit field. *)
Definition incr_index (x : http_parser) : http_parser := set_index (u7 (hp_index x + 1)) x.

Definition match_header (s : string) (ok : header_states) (x : http_parser) (c : ascii)
    : outcome http_parser :=
  let x := incr_index x in
  match match_next s h_general ok (hp_header_state x) (hp_index x) c with
  | Stuck w => Stuck w
  | Done h => Done (set_header_state h x)
  end.

(** The [switch (parser->header_state)] of [s_header_field]; [c0] is [ch] and
    [c] is [TOKEN(ch)]. *)
Definition header_field_char (c0 c : ascii) (x : http_parser) : outcome http_parser :=
  match hp_header_state x with
  | h_general => Done x
  | h_C => Done (set_header_state (if (c =c "o")%char then h_CO else h_general) (incr_index x))
  | h_CO => Done (set_header_state (if (c =c "n")%char then h_CON else h_general) (incr_index x))
  | h_CON =>
      Done (set_header_state
              (if (c =c "n")%char then h_matching_connection
               else if (c =c "t")%char then h_matching_content_length
               else h_general) (incr_index x))
  | h_matching_connection => match_header CONNECTION h_connection x c
  | h_matching_proxy_connection => match_header PROXY_CONNECTION h_connection x c
  | h_matching_content_length => match_header CONTENT_LENGTH h_content_length x c
  | h_matching_transfer_encoding => match_header TRANSFER_ENCODING h_transfer_encoding x c
  | h_matching_upgrade => match_header UPGRADE h_upgrade x c
  | h_connection | h_content_length | h_transfer_encoding | h_upgrade =>
      Done (if (c0 <>c " ")%char then set_header_state h_general x else x)
  | _ => Stuck AssertFailed
  end.

(** The position of the first [c] in a list. *)
Fixpoint index_of (c : ascii) (l : bytes) : option nat :=
  match l with
  | [] => None
  | d :: l' => if c =c d then Some 0%nat else option_map S (index_of c l')
  end.

Section Exec.
Context {A : Type}.

(** * Local variables and control flow *)

Record ctx := mk_ctx {
  pr : http_parser;
  app : A;
  p_state : state;
  p : Z;
  ch : ascii;
  header_field_mark : option Z;
  header_value_mark : option Z;
  url_mark : option Z;
  body_mark : option Z;
  status_mark : option Z;
}.

Definition put_pr (v : http_parser) (k : ctx) : ctx :=
  mk_ctx v (app k) (p_state k) (p k) (ch k) (header_field_mark k) (header_value_mark k) (url_mark k) (body_mark k) (status_mark k).
Definition put_app (v : A) (k : ctx) : ctx :=
  mk_ctx (pr k) v (p_state k) (p k) (ch k) (header_field_mark k) (header_value_mark k) (url_mark k) (body_mark k) (status_mark k).
Definition put_p_state (v : state) (k : ctx) : ctx :=
  mk_ctx (pr k) (app k) v (p k) (ch k) (header_field_mark k) (header_value_mark k) (url_mark k) (body_mark k) (status_mark k).
Definition put_p (v : Z) (k : ctx) : ctx :=
  mk_ctx (pr k) (app k) (p_state k) v (ch k) (header_field_mark k) (header_value_mark k) (url_mark k) (body_mark k) (status_mark k).
Definition put_ch (v : ascii) (k : ctx) : ctx :=
  mk_ctx (pr k) (app k) (p_state k) (p k) v (header_field_mark k) (header_value_mark k) (url_mark k) (body_mark k) (status_mark k).
Definition put_header_field_mark (v : option Z) (k : ctx) : ctx :=
  mk_ctx (pr k) (app k) (p_state k) (p k) (ch k) v (header_value_mark k) (url_mark k) (body_mark k) (status_mark k).
Definition put_header_value_mark (v : option Z) (k : ctx) : ctx :=
  mk_ctx (pr k) (app k) (p_state k) (p k) (ch k) (header_field_mark k) v (url_mark k) (body_mark k) (status_mark k).
Definition put_url_mark (v : option Z) (k : ctx) : ctx :=
  mk_ctx (pr k) (app k) (p_state k) (p k) (ch k) (header_field_mark k) (header_value_mark k) v (body_mark k) (status_mark k).
Definition put_body_mark (v : option Z) (k : ctx) : ctx :=
  mk_ctx (pr k) (app k) (p_state k) (p k) (ch k) (header_field_mark k) (header_value_mark k) (url_mark k) v (status_mark k).
Definition put_status_mark (v : option Z) (k : ctx) : ctx :=
  mk_ctx (pr k) (app k) (p_state k) (p k) (ch k) (header_field_mark k) (header_value_mark k) (url_mark k) (body_mark k) v.

Definition get_mark (f : data_for) (k : ctx) : option Z :=
  match f with
  | For_header_field => header_field_mark k
  | For_header_value => header_value_mark k
  | For_url => url_mark k
  | For_body => body_mark k
  | For_status => status_mark k
  end.

Definition put_mark (f : data_for) (v : option Z) (k : ctx) : ctx :=
  match f with
  | For_header_field => put_header_field_mark v k
  | For_header_value => put_header_value_mark v k
  | For_url => put_url_mark v k
  | For_body => put_body_mark v k
  | For_status => put_status_mark v k
  end.

(** What a [case] does next: [break] out of the [switch], [REEXECUTE()],
    [goto error], a [return] of the function, an abort, or a loop of the model
    that ran out of fuel. *)
Inductive ctl :=
| Break (k : ctx)
| Reexecute (k : ctx)
| Error (k : ctx)
| Return (x : http_parser) (a : A) (n : Z)
| Abort (w : stuck)
| NoFuel.

Definition upd_pr (f : http_parser -> http_parser) (k : ctx) : ctx := put_pr (f (pr k)) k.
Definition SET_ERRNO (e : http_errno) : ctx -> ctx := upd_pr (set_http_errno e).
Definition UPDATE_STATE (s : state) : ctx -> ctx := put_p_state s.
Definition goto_error (e : http_errno) (k : ctx) : ctl := Error (SET_ERRNO e k).
Definition RETURN (v : Z) (k : ctx) : ctl := Return (set_state (p_state k) (pr k)) (app k) v.

Definition STRICT_CHECK (cond : bool) (k : ctx) (rest : ctx -> ctl) : ctl :=
  if cond then goto_error HPE_STRICT k else rest k.

Definition COUNT_HEADER_SIZE (v : Z) (k : ctx) (rest : ctx -> ctl) : ctl :=
  let k := upd_pr (fun x => set_nread (u32 (hp_nread x + v)) x) k in
  if HTTP_MAX_HEADER_SIZE <? hp_nread (pr k) then goto_error HPE_HEADER_OVERFLOW k
  else rest k.

Definition MARK (f : data_for) (k : ctx) : ctx :=
  match get_mark f k with
  | None => put_mark f (Some (p k)) k
  | Some _ => k
  end.

Section Data.
Variable settings : http_parser_settings A.
Variable data : bytes.
Variable lenient : bool.

(** [data + len], as an offset *)
Definition data_end : Z := zlen data.

(** [CALLBACK_NOTIFY_(FOR, ER)]: [err] is [HPE_CB_##FOR]. *)
Definition CALLBACK_NOTIFY_ (cb : option (http_cb A)) (err : http_errno) (er : Z)
    (k : ctx) (rest : ctx -> ctl) : ctl :=
  if negb (errno_ok (pr k)) then Abort AssertFailed
  else
    match cb with
    | None => rest k
    | Some f =>
        let '(x, a, r) := f (set_state (p_state k) (pr k)) (app k) in
        let x := if r =? 0 then x else set_http_errno err x in
        if errno_ok x then rest (UPDATE_STATE (hp_state x) (put_app a (put_pr x k)))
        else Return x a er
    end.

Definition CALLBACK_NOTIFY cb err (k : ctx) (rest : ctx -> ctl) : ctl :=
  CALLBACK_NOTIFY_ cb err (p k + 1) k rest.
Definition CALLBACK_NOTIFY_NOADVANCE cb err (k : ctx) (rest : ctx -> ctl) : ctl :=
  CALLBACK_NOTIFY_ cb err (p k) k rest.

(** [settings->on_##FOR] and [HPE_CB_##FOR] of the data callbacks. *)
Definition data_cb (f : data_for) : option (http_data_cb A) :=
  match f with
  | For_header_field => on_header_field settings
  | For_header_value => on_header_value settings
  | For_url => on_url settings
  | For_body => on_body settings
  | For_status => on_status settings
  end.

Definition data_cb_err (f : data_for) : http_errno :=
  match f with
  | For_header_field => HPE_CB_header_field
  | For_header_value => HPE_CB_header_value
  | For_url => HPE_CB_url
  | For_body => HPE_CB_body
  | For_status => HPE_CB_status
  end.

(** [CALLBACK_DATA_(FOR, LEN, ER)] with [LEN = last - mark]: the callback gets
    the bytes from the mark up to offset [last]. *)
Definition CALLBACK_DATA_ (f : data_for) (last er : Z) (k : ctx) (rest : ctx -> ctl) : ctl :=
  if negb (errno_ok (pr k)) then Abort AssertFailed
  else
    match get_mark f k with
    | None => rest k
    | Some m =>
        match data_cb f with
        | None => rest (put_mark f None k)
        | Some cb =>
            if (m <? 0) || (last <? m) || (data_end <? last) then Abort OutOfBounds
            else
              let '(x, a, r) :=
                cb (set_state (p_state k) (pr k)) (slice data m (last - m)) (app k) in
              let x := if r =? 0 then x else set_http_errno (data_cb_err f) x in
              if errno_ok x then
                rest (put_mark f None (UPDATE_STATE (hp_state x) (put_app a (put_pr x k))))
              else Return x a er
        end
    end.

Definition CALLBACK_DATA (f : data_for) (k : ctx) (rest : ctx -> ctl) : ctl :=
  CALLBACK_DATA_ f (p k) (p k + 1) k rest.
Definition CALLBACK_DATA_NOADVANCE (f : data_for) (k : ctx) (rest : ctx -> ctl) : ctl :=
  CALLBACK_DATA_ f (p k) (p k) k rest.

(** * Start of a message and status line *)

Definition case_s_dead (k : ctx) : ctl :=
  if (ch k =c CR) || (ch k =c LF) then Break k
  else goto_error HPE_CLOSED_CONNECTION k.

(** [parser->flags = 0; parser->content_length = ULLONG_MAX;] *)
Definition reset_message (x : http_parser) : http_parser :=
  set_content_length ULLONG_MAX (set_flags 0 x).

Definition case_s_start_req_or_res (k : ctx) : ctl :=
  if (ch k =c CR) || (ch k =c LF) then Break k
  else
    let k := upd_pr reset_message k in
    if (ch k =c "H")%char then
      CALLBACK_NOTIFY (on_message_begin settings) HPE_CB_message_begin
        (UPDATE_STATE s_res_or_resp_H k) Break
    else Reexecute (UPDATE_STATE s_start_req (upd_pr (set_type HTTP_REQUEST) k)).

Definition case_s_res_or_resp_H (k : ctx) : ctl :=
  if (ch k =c "T")%char then
    Break (UPDATE_STATE s_res_HT (upd_pr (set_type HTTP_RESPONSE) k))
  else if (ch k <>c "E")%char then goto_error HPE_INVALID_CONSTANT k
  else
    Break (UPDATE_STATE s_req_method
      (upd_pr (fun x => set_index 2 (set_method HTTP_HEAD (set_type HTTP_REQUEST x))) k)).

Definition case_s_start_res (k : ctx) : ctl :=
  let k := upd_pr reset_message k in
  if (ch k =c "H")%char then
    CALLBACK_NOTIFY (on_message_begin settings) HPE_CB_message_begin (UPDATE_STATE s_res_H k) Break
  else if (ch k =c CR) || (ch k =c LF) then
    CALLBACK_NOTIFY (on_message_begin settings) HPE_CB_message_begin k Break
  else goto_error HPE_INVALID_CONSTANT k.

(** The one-character [STRICT_CHECK(ch != c); UPDATE_STATE(next); break;]
    cases share this body. *)
Definition expect (c : ascii) (next : state) (k : ctx) : ctl :=
  STRICT_CHECK (ch k <>c c) k (fun k => Break (UPDATE_STATE next k)).

Definition case_s_res_H : ctx -> ctl := expect "T" s_res_HT.
Definition case_s_res_HT : ctx -> ctl := expect "T" s_res_HTT.
Definition case_s_res_HTT : ctx -> ctl := expect "P" s_res_HTTP.
Definition case_s_res_HTTP : ctx -> ctl := expect "/" s_res_http_major.

Definition digit (c : ascii) : Z := code c - code "0".

Definition case_s_res_http_major (k : ctx) : ctl :=
  if negb (IS_NUM (ch k)) then goto_error HPE_INVALID_VERSION k
  else Break (UPDATE_STATE s_res_http_dot (upd_pr (set_http_major (digit (ch k))) k)).

Definition case_s_res_http_dot (k : ctx) : ctl :=
  if (ch k <>c ".")%char then goto_error HPE_INVALID_VERSION k
  else Break (UPDATE_STATE s_res_http_minor k).

Definition case_s_res_http_minor (k : ctx) : ctl :=
  if negb (IS_NUM (ch k)) then goto_error HPE_INVALID_VERSION k
  else Break (UPDATE_STATE s_res_http_end (upd_pr (set_http_minor (digit (ch k))) k)).

Definition case_s_res_http_end (k : ctx) : ctl :=
  if (ch k <>c " ")%char then goto_error HPE_INVALID_VERSION k
  else Break (UPDATE_STATE s_res_first_status_code k).

Definition case_s_res_first_status_code (k : ctx) : ctl :=
  if negb (IS_NUM (ch k)) then
    if (ch k =c " ")%char then Break k else goto_error HPE_INVALID_STATUS k
  else Break (UPDATE_STATE s_res_status_code (upd_pr (set_status_code (digit (ch k))) k)).

Definition case_s_res_status_code (k : ctx) : ctl :=
  if negb (IS_NUM (ch k)) then
    if (ch k =c " ")%char then Break (UPDATE_STATE s_res_status_start k)
    else if (ch k =c CR) || (ch k =c LF) then Reexecute (UPDATE_STATE s_res_status_start k)
    else goto_error HPE_INVALID_STATUS k
  else
    let k := upd_pr (fun x => set_status_code (u16 (hp_status_code x * 10)) x) k in
    let k := upd_pr (fun x => set_status_code (u16 (hp_status_code x + digit (ch k))) x) k in
    if 999 <? hp_status_code (pr k) then goto_error HPE_INVALID_STATUS k
    else Break k.

Definition case_s_res_status_start (k : ctx) : ctl :=
  let k := upd_pr (set_index 0) (UPDATE_STATE s_res_status (MARK For_status k)) in
  if (ch k =c CR) || (ch k =c LF) then Reexecute k else Break k.

Definition case_s_res_status (k : ctx) : ctl :=
  if ch k =c CR then CALLBACK_DATA For_status (UPDATE_STATE s_res_line_almost_done k) Break
  else if ch k =c LF then CALLBACK_DATA For_status (UPDATE_STATE s_header_field_start k) Break
  else Break k.

Definition case_s_res_line_almost_done : ctx -> ctl := expect LF s_header_field_start.

(** * Request line *)

Definition case_s_start_req (k : ctx) : ctl :=
  if (ch k =c CR) || (ch k =c LF) then Break k
  else
    let k := upd_pr reset_message k in
    if negb (IS_ALPHA (ch k)) then goto_error HPE_INVALID_METHOD k
    else
      let k := upd_pr (fun x => set_index 1 (set_method HTTP_DELETE x)) k in
      match start_method (ch k) with
      | None => goto_error HPE_INVALID_METHOD k
      | Some m =>
          CALLBACK_NOTIFY (on_message_begin settings) HPE_CB_message_begin
            (UPDATE_STATE s_req_method (upd_pr (set_method m) k)) Break
      end.

Definition case_s_req_method (k : ctx) : ctl :=
  if is_nul (ch k) then goto_error HPE_INVALID_METHOD k
  else
    match c_str_at (method_strings (hp_method (pr k))) (hp_index (pr k)) with
    | None => Abort OutOfBounds
    | Some m =>
        if (ch k =c " ")%char && is_nul m then
          Break (upd_pr incr_index (UPDATE_STATE s_req_spaces_before_url k))
        else if ch k =c m then Break (upd_pr incr_index k)
        else if ((code "A" <=? code (ch k)) && (code (ch k) <=? code "Z")) || (ch k =c "-")%char then
          match next_method (hp_method (pr k)) (hp_index (pr k)) (ch k) with
          | Some m' => Break (upd_pr incr_index (upd_pr (set_method m') k))
          | None => goto_error HPE_INVALID_METHOD k
          end
        else goto_error HPE_INVALID_METHOD k
    end.

(** [UPDATE_STATE(parse_url_char(CURRENT_STATE(), ch)); if dead, error] *)
Definition url_step (k : ctx) : ctl :=
  let k := UPDATE_STATE (parse_url_char (p_state k) (ch k)) k in
  if eqb (p_state k) s_dead then goto_error HPE_INVALID_URL k else Break k.

Definition case_s_req_spaces_before_url (k : ctx) : ctl :=
  if (ch k =c " ")%char then Break k
  else
    let k := MARK For_url k in
    url_step (if eqb (hp_method (pr k)) HTTP_CONNECT then UPDATE_STATE s_req_server_start k else k).

(** [s_req_schema], [s_req_schema_slash], [s_req_schema_slash_slash],
    [s_req_server_start] *)
Definition case_s_req_schema (k : ctx) : ctl :=
  if (ch k =c " ")%char || (ch k =c CR) || (ch k =c LF) then goto_error HPE_INVALID_URL k
  else url_step k.

(** [s_req_server], [s_req_server_with_at], [s_req_path],
    [s_req_query_string_start], [s_req_query_string],
    [s_req_fragment_start], [s_req_fragment] *)
Definition case_s_req_server (k : ctx) : ctl :=
  if (ch k =c " ")%char then CALLBACK_DATA For_url (UPDATE_STATE s_req_http_start k) Break
  else if (ch k =c CR) || (ch k =c LF) then
    let k := upd_pr (fun x => set_http_minor 9 (set_http_major 0 x)) k in
    CALLBACK_DATA For_url
      (UPDATE_STATE (if ch k =c CR then s_req_line_almost_done else s_header_field_start) k) Break
  else url_step k.

Definition case_s_req_http_start (k : ctx) : ctl :=
  if (ch k =c "H")%char then Break (UPDATE_STATE s_req_http_H k)
  else if (ch k =c " ")%char then Break k
  else goto_error HPE_INVALID_CONSTANT k.

Definition case_s_req_http_H : ctx -> ctl := expect "T" s_req_http_HT.
Definition case_s_req_http_HT : ctx -> ctl := expect "T" s_req_http_HTT.
Definition case_s_req_http_HTT : ctx -> ctl := expect "P" s_req_http_HTTP.
Definition case_s_req_http_HTTP : ctx -> ctl := expect "/" s_req_http_major.

Definition case_s_req_http_major (k : ctx) : ctl :=
  if negb (IS_NUM (ch k)) then goto_error HPE_INVALID_VERSION k
  else Break (UPDATE_STATE s_req_http_dot (upd_pr (set_http_major (digit (ch k))) k)).

Definition case_s_req_http_dot (k : ctx) : ctl :=
  if (ch k <>c ".")%char then goto_error HPE_INVALID_VERSION k
  else Break (UPDATE_STATE s_req_http_minor k).

Definition case_s_req_http_minor (k : ctx) : ctl :=
  if negb (IS_NUM (ch k)) then goto_error HPE_INVALID_VERSION k
  else Break (UPDATE_STATE s_req_http_end (upd_pr (set_http_minor (digit (ch k))) k)).

Definition case_s_req_http_end (k : ctx) : ctl :=
  if ch k =c CR then Break (UPDATE_STATE s_req_line_almost_done k)
  else if ch k =c LF then Break (UPDATE_STATE s_header_field_start k)
  else goto_error HPE_INVALID_VERSION k.

Definition case_s_req_line_almost_done (k : ctx) : ctl :=
  if ch k <>c LF then goto_error HPE_LF_EXPECTED k
  else Break (UPDATE_STATE s_header_field_start k).

(** * Headers *)

(** The [switch (c)] of [s_header_field_start]. *)
Definition start_header_state (c : ascii) : header_states :=
  if (c =c "c")%char then h_C
  else if (c =c "p")%char then h_matching_proxy_connection
  else if (c =c "t")%char then h_matching_transfer_encoding
  else if (c =c "u")%char then h_matching_upgrade
  else h_general.

Definition case_s_header_field_start (k : ctx) : ctl :=
  if ch k =c CR then Break (UPDATE_STATE s_headers_almost_done k)
  else if ch k =c LF then Reexecute (UPDATE_STATE s_headers_almost_done k)
  else
    let c := TOKEN (ch k) in
    if is_nul c then goto_error HPE_INVALID_HEADER_TOKEN k
    else
      let k := upd_pr (set_index 0) (MARK For_header_field k) in
      Break (upd_pr (set_header_state (start_header_state c)) (UPDATE_STATE s_header_field k)).

(** The inner loop of [s_header_field] over the bytes from [p] on: it stops
    at the end of the input or at the first non-token, left in [ch]. *)
Fixpoint header_field_loop (rest : bytes) (k : ctx) : outcome ctx :=
  match rest with
  | [] => Done k
  | c0 :: rest' =>
      let k := put_ch c0 k in
      if is_nul (TOKEN c0) then Done k
      else
        match header_field_char c0 (TOKEN c0) (pr k) with
        | Stuck w => Stuck w
        | Done x => header_field_loop rest' (put_p (p k + 1) (put_pr x k))
        end
  end.

Definition case_s_header_field (k : ctx) : ctl :=
  let start := p k in
  match header_field_loop (drop (Z.to_nat start) data) k with
  | Stuck w => Abort w
  | Done k =>
      COUNT_HEADER_SIZE (p k - start) k (fun k =>
        if p k =? data_end then Break (put_p (p k - 1) k)
        else if (ch k =c ":")%char then
          CALLBACK_DATA For_header_field (UPDATE_STATE s_header_value_discard_ws k) Break
        else goto_error HPE_INVALID_HEADER_TOKEN k)
  end.

Definition case_s_header_value_start (k : ctx) : ctl :=
  let k := upd_pr (set_index 0) (UPDATE_STATE s_header_value (MARK For_header_value k)) in
  let c := LOWER (ch k) in
  match hp_header_state (pr k) with
  | h_upgrade => Break (upd_pr (fun x => set_header_state h_general (add_flag F_UPGRADE x)) k)
  | h_transfer_encoding =>
      Break (upd_pr (set_header_state
        (if (c =c "c")%char then h_matching_transfer_encoding_chunked else h_general)) k)
  | h_content_length =>
      if negb (IS_NUM (ch k)) then goto_error HPE_INVALID_CONTENT_LENGTH k
      else if has_flag F_CONTENTLENGTH (pr k) then goto_error HPE_UNEXPECTED_CONTENT_LENGTH k
      else Break (upd_pr (fun x => set_content_length (digit (ch k)) (add_flag F_CONTENTLENGTH x)) k)
  | h_connection =>
      Break (upd_pr (set_header_state
        (if (c =c "k")%char then h_matching_connection_keep_alive
         else if (c =c "c")%char then h_matching_connection_close
         else if (c =c "u")%char then h_matching_connection_upgrade
         else h_matching_connection_token)) k)
  | h_matching_connection_token_start => Break k
  | _ => Break (upd_pr (set_header_state h_general) k)
  end.

Definition case_s_header_value_discard_ws (k : ctx) : ctl :=
  if (ch k =c " ")%char || (ch k =c "009")%char then Break k
  else if ch k =c CR then Break (UPDATE_STATE s_header_value_discard_ws_almost_done k)
  else if ch k =c LF then Break (UPDATE_STATE s_header_value_discard_lws k)
  else case_s_header_value_start k.

(** [memchr(p, c, n)] as an offset *)
Definition memchr (i : Z) (c : ascii) (n : Z) : option Z :=
  option_map (fun j => i + Z.of_nat j) (index_of c (slice data i n)).

(** The [h_general] jump: just before the next CR or LF, or before the end. *)
Definition general_jump (i : Z) : Z :=
  let limit := Z.min (data_end - i) HTTP_MAX_HEADER_SIZE in
  (match memchr i CR limit, memchr i LF limit with
   | Some p_cr, Some p_lf => if p_lf <=? p_cr then p_lf else p_cr
   | Some p_cr, None => p_cr
   | None, Some p_lf => p_lf
   | None, None => data_end
   end) - 1.

(** [h_content_length]: one more character of the number. *)
Definition content_length_char (c : ascii) (x : http_parser) : http_parser + http_errno :=
  if (c =c " ")%char then inl x
  else if negb (IS_NUM c) then inr HPE_INVALID_CONTENT_LENGTH
  else
    let t := u64 (u64 (hp_content_length x * 10) + digit c) in
    if (ULLONG_MAX - 10) / 10 <? hp_content_length x then inr HPE_INVALID_CONTENT_LENGTH
    else inl (set_content_length t x).

(** The flag a finished [Connection] token sets. *)
Definition connection_flag (h : header_states) : Z :=
  match h with
  | h_connection_keep_alive => F_CONNECTION_KEEP_ALIVE
  | h_connection_close => F_CONNECTION_CLOSE
  | h_connection_upgrade => F_CONNECTION_UPGRADE
  | _ => 0
  end.

(** A matcher step on the local [h_state] of [s_header_value]. *)
Definition match_value (s : string) (fail ok cur : header_states) (c : ascii) (k : ctx)
    : outcome (ctx * header_states) :=
  let k := upd_pr incr_index k in
  match match_next s fail ok cur (hp_index (pr k)) c with
  | Stuck w => Stuck w
  | Done h => Done (k, h)
  end.

(** The [switch (h_state)] of [s_header_value], [h_content_length] apart. *)
Definition header_value_char (h_state : header_states) (k : ctx) : outcome (ctx * header_states) :=
  let c := LOWER (ch k) in
  match h_state with
  | h_general => Done (put_p (general_jump (p k)) k, h_state)
  | h_connection | h_transfer_encoding => Stuck AssertFailed
  | h_matching_transfer_encoding_chunked =>
      match_value CHUNKED h_general h_transfer_encoding_chunked h_state c k
  | h_matching_connection_token_start =>
      Done (k, if (c =c "k")%char then h_matching_connection_keep_alive
               else if (c =c "c")%char then h_matching_connection_close
               else if (c =c "u")%char then h_matching_connection_upgrade
               else if negb (is_nul (STRICT_TOKEN c)) then h_matching_connection_token
               else if (c =c " ")%char || (c =c "009")%char then h_state
               else h_general)
  | h_matching_connection_keep_alive =>
      match_value KEEP_ALIVE h_matching_connection_token h_connection_keep_alive h_state c k
  | h_matching_connection_close =>
      match_value CLOSE h_matching_connection_token h_connection_close h_state c k
  | h_matching_connection_upgrade =>
      match_value UPGRADE h_matching_connection_token h_connection_upgrade h_state c k
  | h_matching_connection_token =>
      if (ch k =c ",")%char then Done (upd_pr (set_index 0) k, h_matching_connection_token_start)
      else Done (k, h_state)
  | h_transfer_encoding_chunked =>
      Done (k, if (ch k <>c " ")%char then h_general else h_state)
  | h_connection_keep_alive | h_connection_close | h_connection_upgrade =>
      if (ch k =c ",")%char then
        Done (upd_pr (fun x => set_index 0 (add_flag (connection_flag h_state) x)) k,
              h_matching_connection_token_start)
      else Done (k, if (ch k <>c " ")%char then h_matching_connection_token else h_state)
  | _ => Done (UPDATE_STATE s_header_value k, h_general)
  end.

(** What follows the inner loop of [s_header_value]. *)
Definition header_value_done (start : Z) (h_state : header_states) (k : ctx) : ctl :=
  let k := upd_pr (set_header_state h_state) k in
  COUNT_HEADER_SIZE (p k - start) k (fun k =>
    Break (if p k =? data_end then put_p (p k - 1) k else k)).

(** The inner loop of [s_header_value]. *)
Fixpoint header_value_loop (fuel : nat) (start : Z) (h_state : header_states) (k : ctx) : ctl :=
  match fuel with
  | O => NoFuel
  | S fuel =>
      if p k =? data_end then header_value_done start h_state k
      else
        match byte_at data (p k) with
        | None => Abort OutOfBounds
        | Some c =>
            let k := put_ch c k in
            if c =c CR then
              let k := upd_pr (set_header_state h_state) (UPDATE_STATE s_header_almost_done k) in
              CALLBACK_DATA For_header_value k (header_value_done start h_state)
            else if c =c LF then
              COUNT_HEADER_SIZE (p k - start) (UPDATE_STATE s_header_almost_done k) (fun k =>
                CALLBACK_DATA_NOADVANCE For_header_value (upd_pr (set_header_state h_state) k) Reexecute)
            else if negb lenient && negb (IS_HEADER_CHAR c) then
              goto_error HPE_INVALID_HEADER_TOKEN k
            else if eqb h_state h_content_length then
              match content_length_char c (pr k) with
              | inl x => header_value_loop fuel start h_state (put_p (p k + 1) (put_pr x k))
              | inr e => Error (upd_pr (set_header_state h_state) (SET_ERRNO e k))
              end
            else
              match header_value_char h_state k with
              | Stuck w => Abort w
              | Done (k, h_state) => header_value_loop fuel start h_state (put_p (p k + 1) k)
              end
        end
  end.

Definition case_s_header_value (k : ctx) : ctl :=
  header_value_loop (S (Z.to_nat (data_end - p k))) (p k) (hp_header_state (pr k)) k.

Definition case_s_header_almost_done (k : ctx) : ctl :=
  if ch k <>c LF then goto_error HPE_LF_EXPECTED k
  else Break (UPDATE_STATE s_header_value_lws k).

(** The flag a header sets when it ends in state [h]. *)
Definition header_end_flag (h : header_states) : Z :=
  match h with
  | h_connection_keep_alive => F_CONNECTION_KEEP_ALIVE
  | h_connection_close => F_CONNECTION_CLOSE
  | h_transfer_encoding_chunked => F_CHUNKED
  | h_connection_upgrade => F_CONNECTION_UPGRADE
  | _ => 0
  end.

Definition finish_header (x : http_parser) : http_parser :=
  add_flag (header_end_flag (hp_header_state x)) x.

Definition case_s_header_value_lws (k : ctx) : ctl :=
  if (ch k =c " ")%char || (ch k =c "009")%char then Reexecute (UPDATE_STATE s_header_value_start k)
  else Reexecute (UPDATE_STATE s_header_field_start (upd_pr finish_header k)).

Definition case_s_header_value_discard_ws_almost_done : ctx -> ctl :=
  expect LF s_header_value_discard_lws.

Definition case_s_header_value_discard_lws (k : ctx) : ctl :=
  if (ch k =c " ")%char || (ch k =c "009")%char then Break (UPDATE_STATE s_header_value_discard_ws k)
  else
    let k := MARK For_header_value (upd_pr finish_header k) in
    CALLBACK_DATA_NOADVANCE For_header_value (UPDATE_STATE s_header_field_start k) Reexecute.

(** * End of headers *)

(** The value [parser->upgrade] is given before [on_headers_complete]. *)
Definition upgrade_of (x : http_parser) : bool :=
  if has_flag F_UPGRADE x && has_flag F_CONNECTION_UPGRADE x then
    eqb (hp_type x) HTTP_REQUEST || (hp_status_code x =? 101)
  else eqb (hp_method x) HTTP_CONNECT.

(** The [on_headers_complete] call and the [switch] on its result. *)
Definition headers_complete (k : ctx) (rest : ctx -> ctl) : ctl :=
  match on_headers_complete settings with
  | None => rest k
  | Some f =>
      let '(x, a, r) := f (pr k) (app k) in
      let k := put_app a (put_pr x k) in
      if r =? 0 then rest k
      else if r =? 2 then rest (upd_pr (fun x => add_flag F_SKIPBODY (set_upgrade true x)) k)
      else if r =? 1 then rest (upd_pr (add_flag F_SKIPBODY) k)
      else let k := SET_ERRNO HPE_CB_headers_complete k in RETURN (p k) k
  end.

Definition case_s_headers_almost_done (k : ctx) : ctl :=
  STRICT_CHECK (ch k <>c LF) k (fun k =>
  if has_flag F_TRAILING (pr k) then
    CALLBACK_NOTIFY_NOADVANCE (on_chunk_complete settings) HPE_CB_chunk_complete
      (UPDATE_STATE s_message_done k) Reexecute
  else if has_flag F_CHUNKED (pr k) && has_flag F_CONTENTLENGTH (pr k) then
    goto_error HPE_UNEXPECTED_CONTENT_LENGTH k
  else
    let k := UPDATE_STATE s_headers_done k in
    let k := upd_pr (fun x => set_upgrade (upgrade_of x) x) k in
    headers_complete k (fun k =>
      if errno_ok (pr k) then Reexecute k else RETURN (p k) k)).

(** [UPDATE_STATE(NEW_MESSAGE()); CALLBACK_NOTIFY(message_complete);] *)
Definition message_complete (k : ctx) (rest : ctx -> ctl) : ctl :=
  CALLBACK_NOTIFY (on_message_complete settings) HPE_CB_message_complete
    (UPDATE_STATE (NEW_MESSAGE (pr k)) k) rest.

Definition hasBody (x : http_parser) : bool :=
  has_flag F_CHUNKED x
  || ((0 <? hp_content_length x) && negb (hp_content_length x =? ULLONG_MAX)).

Definition case_s_headers_done (k : ctx) : ctl :=
  STRICT_CHECK (ch k <>c LF) k (fun k =>
  let k := upd_pr (set_nread 0) k in
  let x := pr k in
  if hp_upgrade x && (eqb (hp_method x) HTTP_CONNECT || has_flag F_SKIPBODY x || negb (hasBody x)) then
    message_complete k (fun k => RETURN (p k + 1) k)
  else if has_flag F_SKIPBODY x then message_complete k Break
  else if has_flag F_CHUNKED x then Break (UPDATE_STATE s_chunk_size_start k)
  else if hp_content_length x =? 0 then message_complete k Break
  else if negb (hp_content_length x =? ULLONG_MAX) then Break (UPDATE_STATE s_body_identity k)
  else if negb (http_message_needs_eof x) then message_complete k Break
  else Break (UPDATE_STATE s_body_identity_eof k)).

(** * Body *)

(** [MIN(parser->content_length, (uint64_t)((data + len) - p))] *)
Definition to_read (k : ctx) : Z := Z.min (hp_content_length (pr k)) (u64 (data_end - p k)).

(** [MARK(body); parser->content_length -= to_read; p += to_read - 1;] *)
Definition read_body (k : ctx) : ctx :=
  let n := to_read k in
  let k := MARK For_body k in
  let k := upd_pr (fun x => set_content_length (u64 (hp_content_length x - n)) x) k in
  put_p (p k + (n - 1)) k.

Definition body_length_ok (x : http_parser) : bool :=
  negb (hp_content_length x =? 0) && negb (hp_content_length x =? ULLONG_MAX).

Definition case_s_body_identity (k : ctx) : ctl :=
  if negb (body_length_ok (pr k)) then Abort AssertFailed
  else
    let k := read_body k in
    if hp_content_length (pr k) =? 0 then
      let k := UPDATE_STATE s_message_done k in
      CALLBACK_DATA_ For_body (p k + 1) (p k) k Reexecute
    else Break k.

Definition case_s_body_identity_eof (k : ctx) : ctl :=
  Break (put_p (data_end - 1) (MARK For_body k)).

Definition case_s_message_done (k : ctx) : ctl :=
  message_complete k (fun k => if hp_upgrade (pr k) then RETURN (p k + 1) k else Break k).

Definition case_s_chunk_size_start (k : ctx) : ctl :=
  if negb (hp_nread (pr k) =? 1) || negb (has_flag F_CHUNKED (pr k)) then Abort AssertFailed
  else
    let unhex_val := unhex_at (ch k) in
    if unhex_val =? -1 then goto_error HPE_INVALID_CHUNK_SIZE k
    else Break (UPDATE_STATE s_chunk_size (upd_pr (set_content_length unhex_val) k)).

Definition case_s_chunk_size (k : ctx) : ctl :=
  if negb (has_flag F_CHUNKED (pr k)) then Abort AssertFailed
  else if ch k =c CR then Break (UPDATE_STATE s_chunk_size_almost_done k)
  else
    let unhex_val := unhex_at (ch k) in
    if unhex_val =? -1 then
      if (ch k =c ";")%char || (ch k =c " ")%char then Break (UPDATE_STATE s_chunk_parameters k)
      else goto_error HPE_INVALID_CHUNK_SIZE k
    else
      let t := u64 (u64 (hp_content_length (pr k) * 16) + unhex_val) in
      if (ULLONG_MAX - 16) / 16 <? hp_content_length (pr k) then goto_error HPE_INVALID_CONTENT_LENGTH k
      else Break (upd_pr (set_content_length t) k).

Definition case_s_chunk_parameters (k : ctx) : ctl :=
  if negb (has_flag F_CHUNKED (pr k)) then Abort AssertFailed
  else if ch k =c CR then Break (UPDATE_STATE s_chunk_size_almost_done k)
  else Break k.

Definition case_s_chunk_size_almost_done (k : ctx) : ctl :=
  if negb (has_flag F_CHUNKED (pr k)) then Abort AssertFailed
  else
    STRICT_CHECK (ch k <>c LF) k (fun k =>
    let k := upd_pr (set_nread 0) k in
    let k := if hp_content_length (pr k) =? 0
             then UPDATE_STATE s_header_field_start (upd_pr (add_flag F_TRAILING) k)
             else UPDATE_STATE s_chunk_data k in
    CALLBACK_NOTIFY (on_chunk_header settings) HPE_CB_chunk_header k Break).

Definition case_s_chunk_data (k : ctx) : ctl :=
  if negb (has_flag F_CHUNKED (pr k)) || negb (body_length_ok (pr k)) then Abort AssertFailed
  else
    let k := read_body k in
    Break (if hp_content_length (pr k) =? 0 then UPDATE_STATE s_chunk_data_almost_done k else k).

Definition case_s_chunk_data_almost_done (k : ctx) : ctl :=
  if negb (has_flag F_CHUNKED (pr k)) || negb (hp_content_length (pr k) =? 0) then Abort AssertFailed
  else
    STRICT_CHECK (ch k <>c CR) k (fun k =>
    CALLBACK_DATA For_body (UPDATE_STATE s_chunk_data_done k) Break).

Definition case_s_chunk_data_done (k : ctx) : ctl :=
  if negb (has_flag F_CHUNKED (pr k)) then Abort AssertFailed
  else
    STRICT_CHECK (ch k <>c LF) k (fun k =>
    CALLBACK_NOTIFY (on_chunk_complete settings) HPE_CB_chunk_complete
      (UPDATE_STATE s_chunk_size_start (upd_pr (set_nread 0) k)) Break).

(** * The [switch] and the loops *)

(** [switch (CURRENT_STATE())] *)
Definition dispatch (k : ctx) : ctl :=
  match p_state k with
  | s_dead => case_s_dead k
  | s_start_req_or_res => case_s_start_req_or_res k
  | s_res_or_resp_H => case_s_res_or_resp_H k
  | s_start_res => case_s_start_res k
  | s_res_H => case_s_res_H k
  | s_res_HT => case_s_res_HT k
  | s_res_HTT => case_s_res_HTT k
  | s_res_HTTP => case_s_res_HTTP k
  | s_res_http_major => case_s_res_http_major k
  | s_res_http_dot => case_s_res_http_dot k
  | s_res_http_minor => case_s_res_http_minor k
  | s_res_http_end => case_s_res_http_end k
  | s_res_first_status_code => case_s_res_first_status_code k
  | s_res_status_code => case_s_res_status_code k
  | s_res_status_start => case_s_res_status_start k
  | s_res_status => case_s_res_status k
  | s_res_line_almost_done => case_s_res_line_almost_done k
  | s_start_req => case_s_start_req k
  | s_req_method => case_s_req_method k
  | s_req_spaces_before_url => case_s_req_spaces_before_url k
  | s_req_schema | s_req_schema_slash | s_req_schema_slash_slash | s_req_server_start =>
      case_s_req_schema k
  | s_req_server | s_req_server_with_at | s_req_path | s_req_query_string_start
  | s_req_query_string | s_req_fragment_start | s_req_fragment => case_s_req_server k
  | s_req_http_start => case_s_req_http_start k
  | s_req_http_H => case_s_req_http_H k
  | s_req_http_HT => case_s_req_http_HT k
  | s_req_http_HTT => case_s_req_http_HTT k
  | s_req_http_HTTP => case_s_req_http_HTTP k
  | s_req_http_major => case_s_req_http_major k
  | s_req_http_dot => case_s_req_http_dot k
  | s_req_http_minor => case_s_req_http_minor k
  | s_req_http_end => case_s_req_http_end k
  | s_req_line_almost_done => case_s_req_line_almost_done k
  | s_header_field_start => case_s_header_field_start k
  | s_header_field => case_s_header_field k
  | s_header_value_discard_ws => case_s_header_value_discard_ws k
  | s_header_value_start => case_s_header_value_start k
  | s_header_value => case_s_header_value k
  | s_header_almost_done => case_s_header_almost_done k
  | s_header_value_lws => case_s_header_value_lws k
  | s_header_value_discard_ws_almost_done => case_s_header_value_discard_ws_almost_done k
  | s_header_value_discard_lws => case_s_header_value_discard_lws k
  | s_headers_almost_done => case_s_headers_almost_done k
  | s_headers_done => case_s_headers_done k
  | s_body_identity => case_s_body_identity k
  | s_body_identity_eof => case_s_body_identity_eof k
  | s_message_done => case_s_message_done k
  | s_chunk_size_start => case_s_chunk_size_start k
  | s_chunk_size => case_s_chunk_size k
  | s_chunk_parameters => case_s_chunk_parameters k
  | s_chunk_size_almost_done => case_s_chunk_size_almost_done k
  | s_chunk_data => case_s_chunk_data k
  | s_chunk_data_almost_done => case_s_chunk_data_almost_done k
  | s_chunk_data_done => case_s_chunk_data_done k
  end.

(** [reexecute:] - no character needs more than this many turns. *)
Definition REEXECUTE_FUEL : nat := 6.

Fixpoint reexecute (fuel : nat) (k : ctx) : ctl :=
  match fuel with
  | O => NoFuel
  | S fuel =>
      match dispatch k with
      | Reexecute k => reexecute fuel k
      | r => r
      end
  end.

(** One character: the header-size count, then the [switch]. *)
Definition exec_char (k : ctx) : ctl :=
  if PARSING_HEADER (p_state k) then COUNT_HEADER_SIZE 1 k (reexecute REEXECUTE_FUEL)
  else reexecute REEXECUTE_FUEL k.

Definition mark_count (k : ctx) : Z :=
  let one (m : option Z) := match m with Some _ => 1 | None => 0 end in
  one (header_field_mark k) + one (header_value_mark k) + one (url_mark k)
  + one (body_mark k) + one (status_mark k).

(** The leftover-mark callbacks after the loop, then [RETURN(len)]. *)
Definition exec_finish (k : ctx) : ctl :=
  if negb (mark_count k <=? 1) then Abort AssertFailed
  else
    CALLBACK_DATA_NOADVANCE For_header_field k (fun k =>
    CALLBACK_DATA_NOADVANCE For_header_value k (fun k =>
    CALLBACK_DATA_NOADVANCE For_url k (fun k =>
    CALLBACK_DATA_NOADVANCE For_body k (fun k =>
    CALLBACK_DATA_NOADVANCE For_status k (RETURN data_end))))).

(** [for (p=data; p != data + len; p++)] *)
Fixpoint exec_loop (fuel : nat) (k : ctx) : ctl :=
  if p k =? data_end then exec_finish k
  else
    match fuel with
    | O => NoFuel
    | S fuel =>
        match byte_at data (p k) with
        | None => Abort OutOfBounds
        | Some c =>
            match exec_char (put_ch c k) with
            | Break k => exec_loop fuel (put_p (p k + 1) k)
            | r => r
            end
        end
    end.

(** The marks set before the loop from the state the parser is in. *)
Definition entry_marks (k : ctx) : ctx :=
  match p_state k with
  | s_header_field => put_header_field_mark (Some 0) k
  | s_header_value => put_header_value_mark (Some 0) k
  | s_req_path | s_req_schema | s_req_schema_slash | s_req_schema_slash_slash
  | s_req_server_start | s_req_server | s_req_server_with_at
  | s_req_query_string_start | s_req_query_string
  | s_req_fragment_start | s_req_fragment => put_url_mark (Some 0) k
  | s_res_status => put_status_mark (Some 0) k
  | _ => k
  end.

Definition initial_ctx (x : http_parser) (a : A) : ctx :=
  mk_ctx x a (hp_state x) 0 "000"%char None None None None None.

(** [len == 0]: the input has ended. *)
Definition exec_eof (k : ctx) : ctl :=
  match p_state k with
  | s_body_identity_eof =>
      CALLBACK_NOTIFY_NOADVANCE (on_message_complete settings) HPE_CB_message_complete k
        (fun k => Return (pr k) (app k) 0)
  | s_dead | s_start_req_or_res | s_start_res | s_start_req => Return (pr k) (app k) 0
  | _ => let k := SET_ERRNO HPE_INVALID_EOF_STATE k in Return (pr k) (app k) 1
  end.

(** The body of [http_parser_execute] up to the [error:] label. *)
Definition exec_body (x : http_parser) (a : A) : ctl :=
  let k := initial_ctx x a in
  if negb (errno_ok x) then Return x a 0
  else if data_end =? 0 then exec_eof k
  else exec_loop (S (length data)) (entry_marks k).

End Data.
End Exec.
Arguments ctx : clear implicits.
Arguments ctl : clear implicits.

(** How a call ends: a return, an abort, or a model loop out of fuel. *)
Inductive exec_result (A : Type) :=
| Returned (x : http_parser) (a : A) (n : Z)
| Aborted (w : stuck)
| OutOfFuel.
Arguments Returned {A} x a n.
Arguments Aborted {A} w.
Arguments OutOfFuel {A}.

(** [http_parser_execute], the [error:] label included. *)
Definition http_parser_execute {A} (settings : http_parser_settings A)
    (x : http_parser) (a : A) (data : bytes) : exec_result A :=
  match exec_body settings data (hp_lenient_http_headers x) x a with
  | Return x a n => Returned x a n
  | Error k =>
      let k := if errno_ok (pr k) then SET_ERRNO HPE_UNKNOWN k else k in
      Returned (set_state (p_state k) (pr k)) (app k) (p k)
  | Abort w => Aborted w
  | Break _ | Reexecute _ | NoFuel => OutOfFuel
  end.

(** Unfolding the cases and the macros they are written with. *)
Create HintDb http_cases.
#[export] Hint Unfold
  case_s_dead case_s_start_req_or_res case_s_res_or_resp_H case_s_start_res case_s_res_H
  case_s_res_HT case_s_res_HTT case_s_res_HTTP case_s_res_http_major case_s_res_http_dot
  case_s_res_http_minor case_s_res_http_end case_s_res_first_status_code
  case_s_res_status_code case_s_res_status_start case_s_res_status
  case_s_res_line_almost_done case_s_start_req case_s_req_method
  case_s_req_spaces_before_url case_s_req_schema case_s_req_server case_s_req_http_start
  case_s_req_http_H case_s_req_http_HT case_s_req_http_HTT case_s_req_http_HTTP
  case_s_req_http_major case_s_req_http_dot case_s_req_http_minor case_s_req_http_end
  case_s_req_line_almost_done case_s_header_field_start case_s_header_field
  case_s_header_value_start case_s_header_value_discard_ws case_s_header_value
  case_s_header_almost_done case_s_header_value_lws
  case_s_header_value_discard_ws_almost_done case_s_header_value_discard_lws
  case_s_headers_almost_done case_s_headers_done case_s_body_identity
  case_s_body_identity_eof case_s_message_done case_s_chunk_size_start case_s_chunk_size
  case_s_chunk_parameters case_s_chunk_size_almost_done case_s_chunk_data
  case_s_chunk_data_almost_done case_s_chunk_data_done
  CALLBACK_NOTIFY CALLBACK_NOTIFY_NOADVANCE CALLBACK_DATA CALLBACK_DATA_NOADVANCE
  message_complete expect STRICT_CHECK : http_cases.
