(* ===== verification/HttpUrlProps.v ===== *)
(** What [http_parser_parse_url] guarantees: on any input it neither aborts
    nor reads outside the URL (given that something ends a port after it), and
    the fields it reports lie inside the URL; a well-formed URL is taken apart
    into the parts it was made of. *)
From Stdlib Require Import ZArith Lia Bool List String Ascii.
From stdpp Require Import base list strings.
From S2P Require Import Prelude HttpChars HttpTypes HttpUrl.

(** * The result structure *)

Lemma eqb_spec {A} `{EqDecision A} (x y : A) : reflect (x = y) (eqb x y).
Proof. unfold eqb. destruct (decide (x = y)); [rewrite bool_decide_true by assumption | rewrite bool_decide_false by assumption]; constructor; assumption. Qed.

Lemma has_field_testbit f u : has_field f u = Z.testbit (field_set u) (uf_num f).
Proof.
  unfold has_field, uf_bit. rewrite Z.shiftl_1_l.
  assert (0 <= uf_num f) as Hf by (destruct f; cbn; lia).
  destruct (Z.testbit (field_set u) (uf_num f)) eqn:Hb.
  - apply negb_true_iff, Z.eqb_neq. intros Hz. apply (f_equal (fun z => Z.testbit z (uf_num f))) in Hz.
    rewrite Z.land_spec, Hb, Z.pow2_bits_true, Z.bits_0 in Hz by exact Hf. discriminate.
  - apply negb_false_iff, Z.eqb_eq, Z.bits_inj'. intros n Hn. rewrite Z.land_spec, Z.bits_0.
    destruct (Z.eq_dec n (uf_num f)) as [->|Hne]; [rewrite Hb; reflexivity|].
    rewrite Z.pow2_bits_false by congruence. apply andb_false_r.
Qed.

Lemma has_field_add f g u : has_field g (add_field f u) = eqb f g || has_field g u.
Proof.
  rewrite !has_field_testbit. unfold add_field, u16, uf_bit. cbn [field_set]. rewrite Z.shiftl_1_l.
  rewrite Z.mod_pow2_bits_low by (destruct g; cbn; lia). rewrite Z.lor_spec, orb_comm. f_equal.
  destruct (eqb_spec f g) as [->|Hne]; [apply Z.pow2_bits_true; destruct g; cbn; lia|].
  apply Z.pow2_bits_false. destruct f, g; cbn; try lia; congruence.
Qed.

Lemma has_field_clear f u : has_field f (clear_field_set u) = false.
Proof. rewrite has_field_testbit. apply Z.bits_0. Qed.

(** The fields as they are set one by one. *)
Lemma data_incr_len f g u :
  field_data (incr_len f u) g = if eqb f g then mk_span (off (field_data u f)) (u16 (len (field_data u f) + 1)) else field_data u g.
Proof. reflexivity. Qed.
Lemma data_set_off f g o u :
  field_data (set_off f o u) g = if eqb f g then mk_span (u16 o) (len (field_data u f)) else field_data u g.
Proof. reflexivity. Qed.
Lemma data_set_len f g n u :
  field_data (set_len f n u) g = if eqb f g then mk_span (off (field_data u f)) (u16 n) else field_data u g.
Proof. reflexivity. Qed.
Lemma data_add_field f g u : field_data (add_field f u) g = field_data u g.
Proof. reflexivity. Qed.
Lemma has_incr_len f g u : has_field g (incr_len f u) = has_field g u.
Proof. reflexivity. Qed.
Lemma has_set_off f g o u : has_field g (set_off f o u) = has_field g u.
Proof. reflexivity. Qed.
Lemma has_set_len f g o u : has_field g (set_len f o u) = has_field g u.
Proof. reflexivity. Qed.

Lemma field_eqb_refl (f : url_field) : eqb f f = true.
Proof. destruct f; reflexivity. Qed.

Create HintDb url.
#[export] Hint Rewrite data_incr_len data_set_off data_set_len data_add_field has_incr_len has_set_off has_set_len has_field_add field_eqb_refl
  @zlen_app @zlen_cons : url.

Lemma u16_small z : 0 <= z < 2 ^ 16 -> u16 z = z.
Proof. apply Z.mod_small. Qed.

(** A new field of [n] characters. *)
Definition new_field (f : url_field) (o : Z) (u : http_parser_url) : http_parser_url := add_field f (set_len f 1 (set_off f o u)).

(** * Every input *)

(** The span lies within the first [n] bytes. *)
Definition span_in (n : Z) (s : url_span) : Prop := 0 <= off s /\ 1 <= len s /\ off s + len s <= n.
Definition fields_in (n : Z) (u : http_parser_url) : Prop := forall f, has_field f u = true -> span_in n (field_data u f).

Lemma fields_in_le n m u : fields_in n u -> n <= m -> fields_in m u.
Proof. intros H Hm f Hf. destruct (H f Hf) as (? & ? & ?). repeat split; lia. Qed.

Lemma url_action_known s c :
  match url_action_of (parse_url_char s c) with
  | UrlUnexpected | UrlField UF_PORT | UrlField UF_USERINFO => False
  | _ => True
  end.
Proof. unfold parse_url_char, parse_url_server_char. destruct s; repeat case_match; try discriminate; exact I. Qed.

Definition no_host_fields (u : http_parser_url) : Prop := has_field UF_PORT u = false /\ has_field UF_USERINFO u = false.

Lemma parse_url_loop_in rest : forall i s old fa u,
  fields_in i u -> no_host_fields u -> (forall f, old = Some f -> has_field f u = true) -> 0 <= i -> i + zlen rest < 2 ^ 16 ->
  match parse_url_loop rest i s old fa u with
  | Done (Some (u', _)) => fields_in (i + zlen rest) u' /\ no_host_fields u'
  | Done None => True
  | Stuck _ => False
  end.
Proof.
  induction rest as [|c rest IH]; intros i s old fa u Hin Hno Hold Hi Hlen.
  { cbn. change (zlen (@nil ascii)) with 0. rewrite Z.add_0_r. auto. }
  cbn [parse_url_loop]. pose proof (url_action_known s c) as Hact. rewrite zlen_cons in *. pose proof (zlen_nonneg rest).
  destruct (url_action_of _) as [| |uf|]; try exact I; try contradiction.
  - specialize (IH (i + 1) (parse_url_char s c) old fa u). rewrite Z.add_assoc. apply IH; auto; [|lia|lia].
    apply (fields_in_le i); [exact Hin | lia].
  - rewrite Z.add_assoc. destruct (eqb_spec (Some uf) old) as [<-|Hne].
    + apply IH; auto; [|lia|lia]. intros g Hg. autorewrite with url in *.
      destruct (Hin g Hg) as (H1 & H2 & H3). destruct (eqb_spec uf g) as [->|]; [|repeat split; lia].
      cbn [off len]. unfold span_in. cbn [off len]. rewrite u16_small by lia. lia.
    + fold (new_field uf i u). apply IH; [| | |lia|lia].
      * intros g Hg. unfold new_field in *. autorewrite with url in *.
        destruct (eqb_spec uf g) as [->|Hg'].
        -- unfold span_in. cbn [off len]. rewrite !u16_small by lia. lia.
        -- destruct (Hin g Hg) as (? & ? & ?). repeat split; lia.
      * unfold no_host_fields, new_field in *. autorewrite with url. destruct Hno as [-> ->]. destruct uf; try contradiction; split; reflexivity.
      * intros f [= <-]. unfold new_field. autorewrite with url. reflexivity.
Qed.

(** ** Hosts *)

(** The states of the host parser once it has a character of the host. *)
Definition in_host (s : http_host_state) : bool :=
  match s with
  | s_http_host | s_http_host_v6 | s_http_host_v6_zone_start | s_http_host_v6_zone | s_http_host_v6_end
  | s_http_host_port_start | s_http_host_port => true
  | _ => false
  end.

(** The loop at offset [i]; [n] bounds the fields set before it. *)
Record host_at (n i : Z) (s : http_host_state) (u : http_parser_url) : Prop := {
  ha_others : forall f, f <> UF_HOST -> f <> UF_PORT -> f <> UF_USERINFO -> has_field f u = true -> span_in n (field_data u f);
  ha_host : 0 <= off (field_data u UF_HOST) /\ off (field_data u UF_HOST) + len (field_data u UF_HOST) <= i;
  ha_len : if in_host s then 1 <= len (field_data u UF_HOST) else len (field_data u UF_HOST) = 0;
  ha_port : has_field UF_PORT u = true -> span_in i (field_data u UF_PORT);
  ha_in_port : s = s_http_host_port -> has_field UF_PORT u = true;
  ha_userinfo : has_field UF_USERINFO u = true -> span_in i (field_data u UF_USERINFO);
  ha_in_userinfo : s = s_http_userinfo -> has_field UF_USERINFO u = true
}.

Lemma host_char_from s c :
  match http_parse_host_char s c with
  | s_http_host => s = s_http_host \/ s = s_http_host_start
  | s_http_host_v6 => s = s_http_host_v6 \/ s = s_http_host_v6_start
  | s_http_host_v6_zone_start => s = s_http_host_v6
  | s_http_host_v6_zone => s = s_http_host_v6_zone_start \/ s = s_http_host_v6_zone
  | s_http_host_v6_end => s = s_http_host_v6 \/ s = s_http_host_v6_zone
  | s_http_host_port_start => s = s_http_host \/ s = s_http_host_v6_end
  | s_http_host_port => s = s_http_host_port_start \/ s = s_http_host_port
  | s_http_userinfo | s_http_host_start => s = s_http_userinfo \/ s = s_http_userinfo_start
  | s_http_host_v6_start => s = s_http_host_start
  | s_http_userinfo_start => False
  | s_http_host_dead => True
  end.
Proof. destruct s; cbn; repeat case_match; auto; discriminate. Qed.

Ltac state_eqbs :=
  repeat match goal with
  | |- context [@eqb http_host_state ?e ?a ?b] =>
      let v := eval vm_compute in (@eqb http_host_state e a b) in change (@eqb http_host_state e a b) with v
  | |- context [@eqb url_field ?e ?a ?b] =>
      let v := eval vm_compute in (@eqb url_field e a b) in
      lazymatch v with true => idtac | false => idtac end; change (@eqb url_field e a b) with v
  end; cbv iota.

(** The rewritings at a concrete step. *)
Ltac host_step := autorewrite with url; state_eqbs; cbn [off len orb]; rewrite ?u16_small by lia.

Lemma host_char_at n i s c u :
  host_at n i s u -> 0 <= i -> i + 1 < 2 ^ 16 -> http_parse_host_char s c <> s_http_host_dead ->
  host_at n (i + 1) (http_parse_host_char s c) (host_char_effect s (http_parse_host_char s c) i u).
Proof.
  intros [Ho [Hh1 Hh2] Hl Hp Hip Hu Hiu] Hi Hlen Hd. pose proof (host_char_from s c) as Hfrom.
  assert (Hsp : forall x, span_in i x -> span_in (i + 1) x) by (intros x (? & ? & ?); repeat split; lia).
  destruct (http_parse_host_char s c); try contradiction;
    (destruct Hfrom as [Hs|Hs] || rename Hfrom into Hs); subst s; cbn [in_host] in Hl;
    cbn [host_char_effect]; state_eqbs;
    try specialize (Hip eq_refl); try specialize (Hiu eq_refl); try pose proof (Hp Hip) as (? & ? & ?); try pose proof (Hu Hiu) as (? & ? & ?).
  all: split; cbn [in_host]; try discriminate; intros; host_step; auto; try lia.
  all: repeat match goal with H : has_field _ _ = true |- _ => progress autorewrite with url in H end.
  all: repeat match goal with |- context [eqb ?a ?f] => destruct (eqb_spec a f); [congruence|] end.
  all: repeat match goal with
    | H : eqb ?a ?f || _ = true |- _ =>
        destruct (eqb_spec a f); [first [congruence | clear H]|]; cbn [orb] in H
    end; auto.
  all: change (u16 (u16 0 + 1)) with 1; unfold span_in; cbn [off len]; lia.
Qed.

Lemma host_loop_in n rest : forall i s u,
  host_at n i s u -> s <> s_http_host_dead -> 0 <= i -> i + zlen rest < 2 ^ 16 ->
  match http_parse_host_loop rest i s u with
  | Some (s', u') => host_at n (i + zlen rest) s' u' /\ s' <> s_http_host_dead /\ has_field UF_HOST u' = has_field UF_HOST u
  | None => True
  end.
Proof.
  induction rest as [|c rest IH]; intros i s u Ha Hs Hi Hlen; cbn [http_parse_host_loop].
  { change (zlen (@nil ascii)) with 0. rewrite Z.add_0_r. auto. }
  rewrite zlen_cons in *. pose proof (zlen_nonneg rest).
  destruct (eqb_spec (http_parse_host_char s c) s_http_host_dead) as [Hd|Hd]; [exact I|].
  pose proof (host_char_at n i s c u Ha Hi ltac:(lia) Hd) as Ha'.
  specialize (IH (i + 1) _ _ Ha' Hd ltac:(lia) ltac:(lia)). rewrite Z.add_assoc.
  destruct (http_parse_host_loop rest _ _ _) as [[s' u']|]; [|exact I]. destruct IH as (H1 & H2 & H3). split; [exact H1|]. split; [exact H2|].
  rewrite H3. unfold host_char_effect. destruct (http_parse_host_char s c); repeat (destruct (eqb s _)); autorewrite with url; reflexivity.
Qed.

Lemma http_parse_host_in buf u fa :
  fields_in (zlen buf) u -> no_host_fields u -> has_field UF_HOST u = true -> zlen buf < 2 ^ 16 ->
  match http_parse_host buf u fa with
  | Done (Some u') => fields_in (zlen buf) u'
  | Done None => True
  | Stuck _ => False
  end.
Proof.
  intros Hin [Hnp Hnu] Hh Hlen. unfold http_parse_host. rewrite Hh. cbn [negb].
  destruct (Hin UF_HOST Hh) as (H1 & H2 & H3). destruct (Z.ltb_spec (zlen buf) (off (field_data u UF_HOST) + len (field_data u UF_HOST))); [lia|].
  set (h := field_data u UF_HOST) in *. set (s := if fa then _ else _).
  assert (Hsl : zlen (slice buf (off h) (len h)) = len h).
  { unfold slice, zlen in *. rewrite length_take, length_drop. lia. }
  pose proof (host_loop_in (zlen buf) (slice buf (off h) (len h)) (off h) s (set_len UF_HOST 0 u)) as Hl. rewrite Hsl in Hl.
  destruct (http_parse_host_loop _ _ _ _) as [[s' u']|]; [|exact I].
  destruct Hl as (Ha & Hd & Hh'); [| destruct fa; discriminate | lia | lia |].
  - split; intros; autorewrite with url in *; state_eqbs; fold h; cbn [off len]; try congruence; try (destruct fa; discriminate).
    + destruct (eqb_spec UF_HOST f); [congruence|]. apply Hin. assumption.
    + change (u16 0) with 0. lia.
    + destruct fa; reflexivity.
  - destruct (host_end_ok s') eqn:Hend; [|exact I]. destruct Ha as [Ho [Ha1 Ha2] Hl Hp _ Hu _].
    assert (Hle : off h + len h <= zlen buf) by lia. intros f Hf.
    destruct f; try (apply Ho; [discriminate..|exact Hf]).
    + repeat split; try lia. destruct s'; try discriminate; cbn [in_host] in Hl; try lia. congruence.
    + destruct (Hp Hf) as (? & ? & ?). repeat split; lia.
    + destruct (Hu Hf) as (? & ? & ?). repeat split; lia.
Qed.

(** ** Ports *)

(** Something ends the digits. *)
Definition ends_digits (l : bytes) : bool := existsb (fun c => negb (IS_NUM c)) l.

Lemma strtoul_ends l : forall acc, ends_digits l = true -> exists v, strtoul l acc = Some v.
Proof.
  induction l as [|c l IH]; intros acc; [discriminate|]. cbn. destruct (IS_NUM c); cbn; [apply IH | eauto].
Qed.

Lemma strtoul_nonneg l : forall acc v, 0 <= acc -> strtoul l acc = Some v -> 0 <= v.
Proof.
  induction l as [|c l IH]; intros acc v Ha; cbn; [discriminate|]. destruct (IS_NUM c) eqn:Hc; [|congruence]. apply IH.
  assert (0 <= code c - code "0").
  { revert Hc. unfold IS_NUM. change (code "0") with 48. lia. }
  unfold ULLONG_MAX. lia.
Qed.

(** * Well-formed URLs *)

(** The decimal value of a list of digits. *)
Definition decimal (ds : bytes) : Z := fold_left (fun v d => v * 10 + (code d - code "0")) ds 0.

Definition query_char (c : ascii) : bool := IS_URL_CHAR c || (c =c "?")%char.
Definition fragment_char (c : ascii) : bool := query_char c || (c =c "#")%char.

Definition absolute_url (schema host port path query fragment : bytes) : bytes :=
  schema ++ bs "://" ++ host ++ bs ":" ++ port ++ bs "/" ++ path ++ bs "?" ++ query ++ bs "#" ++ fragment.

Record url_ok (schema host port path query fragment : bytes) : Prop := {
  uo_schema : schema <> [] /\ forallb IS_ALPHA schema = true;
  uo_host : host <> [] /\ forallb IS_HOST_CHAR host = true;
  uo_port : port <> [] /\ forallb IS_NUM port = true /\ decimal port <= 65535;
  uo_path : forallb IS_URL_CHAR path = true;
  uo_query : query <> [] /\ forallb query_char query = true;
  uo_fragment : match fragment with c :: l => query_char c = true /\ forallb fragment_char l = true | [] => False end;
  uo_len : zlen (absolute_url schema host port path query fragment) < 2 ^ 16
}.

(** Only the seven fields are ever set. *)
Definition only_fields (u : http_parser_url) : Prop := forall n, 7 <= n -> Z.testbit (field_set u) n = false.

Lemma only_fields_add f u : only_fields u -> only_fields (add_field f u).
Proof.
  intros Hu n Hn. unfold add_field, u16, uf_bit. cbn [field_set]. rewrite Z.shiftl_1_l.
  destruct (Z.lt_ge_cases n 16) as [Hl|Hg]; [rewrite Z.mod_pow2_bits_low by lia | apply Z.mod_pow2_bits_high; lia].
  rewrite Z.lor_spec, (Hu n Hn), Z.pow2_bits_false; [reflexivity | destruct f; cbn; lia].
Qed.

(** [u'] is [u] with the field [f] at offset [o], of length [n]. *)
Record grown (f : url_field) (o n : Z) (u u' : http_parser_url) : Prop := {
  gr_field : field_data u' f = mk_span o n;
  gr_others : forall g, g <> f -> field_data u' g = field_data u g;
  gr_has : forall g, has_field g u' = eqb f g || has_field g u;
  gr_only : only_fields u -> only_fields u'
}.

Lemma grown_more f o n u u1 : grown f o n u u1 -> 0 <= n -> n + 1 < 2 ^ 16 -> grown f o (n + 1) u (incr_len f u1).
Proof.
  intros [H1 H2 H3 H4] Hn Hb. split; [| | |exact H4].
  - rewrite data_incr_len, field_eqb_refl, H1. cbn [off len]. rewrite u16_small by lia. reflexivity.
  - intros g Hg. rewrite data_incr_len. destruct (eqb_spec f g); [congruence | apply H2, Hg].
  - intros g. rewrite has_incr_len. apply H3.
Qed.

Lemma new_field_grown f o u : 0 <= o < 2 ^ 16 -> grown f o 1 u (new_field f o u).
Proof.
  intros Ho. unfold new_field. split; [| | |exact (only_fields_add f _)].
  - autorewrite with url. cbn [off len]. rewrite !u16_small by lia. reflexivity.
  - intros g Hg. autorewrite with url. destruct (eqb_spec f g); [congruence | reflexivity].
  - intros g. autorewrite with url. reflexivity.
Qed.

(** A stretch of characters that leave the state. *)
Lemma parse_stretch (P : ascii -> bool) s f :
  (forall c, P c = true -> parse_url_char s c = s) -> url_action_of s = UrlField f -> eqb s s_req_server_with_at = false ->
  forall d rest i fa o n u u1, forallb P d = true -> grown f o n u u1 -> 0 <= n -> n + zlen d < 2 ^ 16 ->
  exists u2, parse_url_loop (d ++ rest) i s (Some f) fa u1 = parse_url_loop rest (i + zlen d) s (Some f) fa u2 /\
    grown f o (n + zlen d) u u2.
Proof.
  intros HP Hs Hat. induction d as [|c d IH]; intros rest i fa o n u u1 Hd Hg Hn Hlen.
  { exists u1. change (zlen (@nil ascii)) with 0. rewrite !Z.add_0_r. auto. }
  cbn in Hd. apply andb_prop in Hd as [Hc Hd]. rewrite zlen_cons in *. pose proof (zlen_nonneg d).
  cbn [List.app parse_url_loop]. rewrite (HP c Hc), Hs, Hat. destruct (eqb_spec (Some f) (Some f)); [|congruence].
  destruct (IH rest (i + 1) fa o (n + 1) u (incr_len f u1)) as (u2 & -> & Hg2); auto; [apply grown_more; auto; lia | lia | lia|].
  exists u2. replace (i + 1 + zlen d) with (i + (1 + zlen d)) by lia. replace (n + 1 + zlen d) with (n + (1 + zlen d)) in Hg2 by lia. auto.
Qed.

(** A field that begins with [c] in state [s0]. *)
Lemma parse_field (P : ascii -> bool) s0 s f c d old rest i fa u :
  (forall c, P c = true -> parse_url_char s c = s) -> url_action_of s = UrlField f -> eqb s s_req_server_with_at = false ->
  parse_url_char s0 c = s -> forallb P d = true -> eqb (Some f) old = false -> 0 <= i -> i + zlen (c :: d) < 2 ^ 16 ->
  exists u', parse_url_loop (c :: d ++ rest) i s0 old fa u = parse_url_loop rest (i + zlen (c :: d)) s (Some f) fa u' /\
    grown f i (zlen (c :: d)) u u'.
Proof.
  intros HP Hs Hat Hc Hd Hold Hi Hlen. rewrite zlen_cons in *. pose proof (zlen_nonneg d).
  cbn [parse_url_loop]. rewrite Hc, Hs, Hat, Hold. fold (new_field f i u).
  destruct (parse_stretch P s f HP Hs Hat d rest (i + 1) fa i 1 u (new_field f i u)) as (u' & -> & Hg); auto; [apply new_field_grown; lia | lia | lia|].
  exists u'. rewrite Z.add_assoc. auto.
Qed.

(** A delimiter. *)
Lemma parse_skip s0 s c rest i old fa u :
  parse_url_char s0 c = s -> url_action_of s = UrlSkip ->
  parse_url_loop (c :: rest) i s0 old fa u = parse_url_loop rest (i + 1) s old fa u.
Proof. intros Hc Hs. cbn [parse_url_loop]. rewrite Hc, Hs. reflexivity. Qed.

(** The characters of each part keep the state of its field. *)
Definition server_char (c : ascii) : bool := IS_HOST_CHAR c || (c =c ":")%char.
Definition keeps (P : ascii -> bool) (s0 s : state) : Prop := forall c, P c = true -> parse_url_char s0 c = s.

Lemma keeps_intro P s0 s :
  forallb (fun c => negb (P c) || eqb (parse_url_char s0 c) s) all_ascii = true -> keeps P s0 s.
Proof.
  intros H c Hc. pose proof (forall_ascii _ H c) as Hf. cbn beta in Hf. rewrite Hc in Hf. cbn [negb orb] in Hf.
  destruct (eqb_spec (parse_url_char s0 c) s); [assumption | discriminate].
Qed.

Ltac keeps_table := apply keeps_intro; vm_compute; reflexivity.

Lemma keeps_schema0 : keeps IS_ALPHA s_req_spaces_before_url s_req_schema. Proof. keeps_table. Qed.
Lemma keeps_schema : keeps IS_ALPHA s_req_schema s_req_schema. Proof. keeps_table. Qed.
Lemma keeps_host0 : keeps IS_HOST_CHAR s_req_server_start s_req_server. Proof. keeps_table. Qed.
Lemma keeps_host : keeps server_char s_req_server s_req_server. Proof. keeps_table. Qed.
Lemma keeps_path : keeps IS_URL_CHAR s_req_path s_req_path. Proof. keeps_table. Qed.
Lemma keeps_query0 : keeps query_char s_req_query_string_start s_req_query_string. Proof. keeps_table. Qed.
Lemma keeps_query : keeps query_char s_req_query_string s_req_query_string. Proof. keeps_table. Qed.
Lemma keeps_fragment0 : keeps query_char s_req_fragment_start s_req_fragment. Proof. keeps_table. Qed.
Lemma keeps_fragment : keeps fragment_char s_req_fragment s_req_fragment. Proof. keeps_table. Qed.

Section Absolute.
Variables schema host port path query fragment : bytes.
Hypothesis Hok : url_ok schema host port path query fragment.
Notation url := (absolute_url schema host port path query fragment).
Notation o_host := (zlen schema + 3).
Notation o_port := (o_host + zlen host + 1).
Notation o_path := (o_port + zlen port).
Notation o_query := (o_path + (1 + zlen path) + 1).
Notation o_fragment := (o_query + zlen query + 1).

Lemma absolute_length : zlen url = o_fragment + zlen fragment.
Proof.
  unfold absolute_url. autorewrite with url. change (zlen (bs "://")) with 3. change (zlen (bs ":")) with 1. change (zlen (bs "/")) with 1.
  change (zlen (bs "?")) with 1. change (zlen (bs "#")) with 1. lia.
Qed.

Lemma digits_server p : forallb IS_NUM p = true -> forallb server_char p = true.
Proof.
  intros Hp. apply forallb_forall. intros c Hc. pose proof (proj1 (forallb_forall _ _) Hp c Hc) as Hn.
  unfold server_char, IS_HOST_CHAR, IS_ALPHANUM. rewrite Hn. rewrite !orb_true_r. reflexivity.
Qed.

Lemma host_server h : forallb IS_HOST_CHAR h = true -> forallb server_char h = true.
Proof.
  intros Hp. apply forallb_forall. intros c Hc. pose proof (proj1 (forallb_forall _ _) Hp c Hc) as Hn.
  unfold server_char. rewrite Hn. reflexivity.
Qed.

(** The path, the query and the fragment. *)
Lemma parse_after_host i u2 : 0 <= i -> i + (1 + zlen path) + 1 + zlen query + 1 + zlen fragment < 2 ^ 16 ->
  exists u, parse_url_loop (bs "/" ++ path ++ bs "?" ++ query ++ bs "#" ++ fragment) i s_req_server (Some UF_HOST) false u2 = Done (Some (u, false)) /\
    field_data u UF_SCHEMA = field_data u2 UF_SCHEMA /\ field_data u UF_HOST = field_data u2 UF_HOST /\
    field_data u UF_PATH = mk_span i (1 + zlen path) /\ field_data u UF_QUERY = mk_span (i + (1 + zlen path) + 1) (zlen query) /\
    field_data u UF_FRAGMENT = mk_span (i + (1 + zlen path) + 1 + zlen query + 1) (zlen fragment) /\
    forall f, has_field f u = match f with UF_PATH | UF_QUERY | UF_FRAGMENT => true | _ => has_field f u2 end.
Proof.
  intros Hi Hmax. pose proof (uo_path _ _ _ _ _ _ Hok) as Hpath. destruct (uo_query _ _ _ _ _ _ Hok) as [Hq0 Hq].
  pose proof (uo_fragment _ _ _ _ _ _ Hok) as Hf. pose proof (zlen_nonneg path). pose proof (zlen_nonneg query). pose proof (zlen_nonneg fragment).
  destruct query as [|c4 d4]; [contradiction|]. destruct fragment as [|c5 d5]; [contradiction|].
  cbn [forallb] in Hq. apply andb_prop in Hq as [Hc4 Hd4]. destruct Hf as [Hc5 Hd5]. set (q := c4 :: d4) in *. set (fr := c5 :: d5) in *.
  destruct (parse_field IS_URL_CHAR s_req_server s_req_path UF_PATH "/" path (Some UF_HOST) (bs "?" ++ q ++ bs "#" ++ fr)
    i false u2) as (u3 & R3 & G3);
    [exact keeps_path | reflexivity | reflexivity | reflexivity | exact Hpath | reflexivity | lia | rewrite zlen_cons; lia|].
  destruct (parse_field query_char s_req_query_string_start s_req_query_string UF_QUERY c4 d4 (Some UF_PATH) (bs "#" ++ fr)
    (i + (1 + zlen path) + 1) false u3) as (u4 & R4 & G4);
    [exact keeps_query | reflexivity | reflexivity | exact (keeps_query0 _ Hc4) | exact Hd4 | reflexivity | lia | fold q; lia|].
  destruct (parse_field fragment_char s_req_fragment_start s_req_fragment UF_FRAGMENT c5 d5 (Some UF_QUERY) []
    (i + (1 + zlen path) + 1 + zlen q + 1) false u4) as (u5 & R5 & G5);
    [exact keeps_fragment | reflexivity | reflexivity | exact (keeps_fragment0 _ Hc5) | exact Hd5 | reflexivity | lia | fold fr; lia|].
  fold q in R4, G4. fold fr in R5, G5. rewrite app_nil_r in R5. change (c5 :: d5) with fr in R5. cbn [parse_url_loop] in R5.
  exists u5. split; [|split_and!].
  - etrans; [exact R3|]. rewrite zlen_cons. change (bs "?" ++ q ++ bs "#" ++ fr) with ("?"%char :: q ++ bs "#" ++ fr).
    rewrite (parse_skip s_req_path s_req_query_string_start) by reflexivity. etrans; [exact R4|].
    change (bs "#" ++ fr) with ("#"%char :: fr). rewrite (parse_skip s_req_query_string s_req_fragment_start) by reflexivity. exact R5.
  - rewrite (gr_others _ _ _ _ _ G5), (gr_others _ _ _ _ _ G4), (gr_others _ _ _ _ _ G3) by discriminate. reflexivity.
  - rewrite (gr_others _ _ _ _ _ G5), (gr_others _ _ _ _ _ G4), (gr_others _ _ _ _ _ G3) by discriminate. reflexivity.
  - rewrite (gr_others _ _ _ _ _ G5), (gr_others _ _ _ _ _ G4), (gr_field _ _ _ _ _ G3) by discriminate. rewrite zlen_cons. reflexivity.
  - rewrite (gr_others _ _ _ _ _ G5), (gr_field _ _ _ _ _ G4) by discriminate. reflexivity.
  - rewrite (gr_field _ _ _ _ _ G5). reflexivity.
  - intros f. rewrite (gr_has _ _ _ _ _ G5), (gr_has _ _ _ _ _ G4), (gr_has _ _ _ _ _ G3). destruct f; reflexivity.
Qed.

(** What the loop over the URL finds: the host with the port. *)
Lemma parse_absolute u0 : exists u,
  parse_url_loop url 0 s_req_spaces_before_url None false (clear_field_set u0) = Done (Some (u, false)) /\
  field_data u UF_SCHEMA = mk_span 0 (zlen schema) /\ field_data u UF_HOST = mk_span o_host (zlen host + 1 + zlen port) /\
  field_data u UF_PATH = mk_span o_path (1 + zlen path) /\ field_data u UF_QUERY = mk_span o_query (zlen query) /\
  field_data u UF_FRAGMENT = mk_span o_fragment (zlen fragment) /\
  forall f, has_field f u = match f with UF_PORT | UF_USERINFO => false | _ => true end.
Proof.
  pose proof absolute_length as Hlen. pose proof (uo_len _ _ _ _ _ _ Hok) as Hmax. rewrite Hlen in Hmax.
  pose proof (zlen_nonneg schema). pose proof (zlen_nonneg host). pose proof (zlen_nonneg port). pose proof (zlen_nonneg path).
  pose proof (zlen_nonneg query). pose proof (zlen_nonneg fragment). pose proof (fun i u2 => parse_after_host i u2) as Hrest.
  destruct (uo_schema _ _ _ _ _ _ Hok) as [Hs0 Hs]. destruct (uo_host _ _ _ _ _ _ Hok) as [Hh0 Hh]. destruct (uo_port _ _ _ _ _ _ Hok) as (_ & Hp & _).
  unfold absolute_url. set (rest := bs "/" ++ path ++ bs "?" ++ query ++ bs "#" ++ fragment) in *.
  destruct schema as [|c1 d1]; [contradiction|]. destruct host as [|c2 d2]; [contradiction|].
  cbn [forallb] in Hs, Hh. apply andb_prop in Hs as [Hc1 Hd1]. apply andb_prop in Hh as [Hc2 Hd2]. set (s := c1 :: d1) in *. set (h := c2 :: d2) in *.
  destruct (parse_field IS_ALPHA s_req_spaces_before_url s_req_schema UF_SCHEMA c1 d1 None (bs "://" ++ h ++ bs ":" ++ port ++ rest)
    0 false (clear_field_set u0)) as (u1 & R1 & G1);
    [exact keeps_schema | reflexivity | reflexivity | exact (keeps_schema0 _ Hc1) | exact Hd1 | reflexivity | lia | fold s; lia |].
  destruct (parse_field server_char s_req_server_start s_req_server UF_HOST c2 (d2 ++ bs ":" ++ port) (Some UF_SCHEMA) rest
    (zlen s + 3) false u1) as (u2 & R2 & G2); change (c2 :: d2 ++ bs ":" ++ port) with (h ++ bs ":" ++ port) in *;
    [exact keeps_host | reflexivity | reflexivity | exact (keeps_host0 _ Hc2)
      | rewrite !forallb_app, (host_server d2), (digits_server port) by assumption; reflexivity | reflexivity | lia
      | autorewrite with url; change (zlen (bs ":")) with 1; lia|].
  assert (Hz : zlen (h ++ bs ":" ++ port) = zlen h + 1 + zlen port) by (autorewrite with url; change (zlen (bs ":")) with 1; lia).
  rewrite Hz in *. fold s in R1, G1.
  destruct (Hrest (zlen s + 3 + (zlen h + 1 + zlen port)) u2 ltac:(lia) ltac:(lia)) as (u & R & F1 & F2 & F3 & F4 & F5 & F6).
  exists u. split; [|split_and!].
  - etrans; [exact R1|]. change (bs "://" ++ h ++ bs ":" ++ port ++ rest) with (":"%char :: "/"%char :: "/"%char :: h ++ bs ":" ++ port ++ rest).
    rewrite (parse_skip s_req_schema s_req_schema_slash), (parse_skip s_req_schema_slash s_req_schema_slash_slash),
      (parse_skip s_req_schema_slash_slash s_req_server_start) by reflexivity.
    replace (0 + zlen s + 1 + 1 + 1) with (zlen s + 3) by lia.
    replace (h ++ bs ":" ++ port ++ rest) with (c2 :: (d2 ++ bs ":" ++ port) ++ rest) by (unfold h; cbn [List.app]; rewrite <- !app_assoc; reflexivity).
    etrans; [exact R2 | exact R].
  - rewrite F1, (gr_others _ _ _ _ _ G2), (gr_field _ _ _ _ _ G1) by discriminate. reflexivity.
  - rewrite F2, (gr_field _ _ _ _ _ G2). reflexivity.
  - rewrite F3. f_equal. lia.
  - rewrite F4. f_equal. lia.
  - rewrite F5. f_equal. lia.
  - intros f. rewrite F6, (gr_has _ _ _ _ _ G2), (gr_has _ _ _ _ _ G1), has_field_clear. destruct f; reflexivity.
Qed.
End Absolute.

(** A stretch of characters of the host or the port. *)
Lemma host_stretch (P : ascii -> bool) s f :
  (forall c, P c = true -> http_parse_host_char s c = s) -> (forall i u, host_char_effect s s i u = incr_len f u) ->
  eqb s s_http_host_dead = false ->
  forall d rest i o n u u1, forallb P d = true -> grown f o n u u1 -> 0 <= n -> n + zlen d < 2 ^ 16 ->
  exists u2, http_parse_host_loop (d ++ rest) i s u1 = http_parse_host_loop rest (i + zlen d) s u2 /\ grown f o (n + zlen d) u u2.
Proof.
  intros HP He Hs. induction d as [|c d IH]; intros rest i o n u u1 Hd Hg Hn Hlen.
  { exists u1. change (zlen (@nil ascii)) with 0. rewrite !Z.add_0_r. auto. }
  cbn [forallb] in Hd. apply andb_prop in Hd as [Hc Hd]. rewrite zlen_cons in *. pose proof (zlen_nonneg d).
  cbn [List.app http_parse_host_loop]. rewrite (HP c Hc), Hs, He.
  destruct (IH rest (i + 1) o (n + 1) u (incr_len f u1)) as (u2 & -> & Hg2); auto; [apply grown_more; auto; lia | lia | lia|].
  exists u2. replace (i + 1 + zlen d) with (i + (1 + zlen d)) by lia. replace (n + 1 + zlen d) with (n + (1 + zlen d)) in Hg2 by lia. auto.
Qed.

Definition host_keeps (P : ascii -> bool) (s0 s : http_host_state) : Prop := forall c, P c = true -> http_parse_host_char s0 c = s.

Lemma host_keeps_intro P s0 s :
  forallb (fun c => negb (P c) || eqb (http_parse_host_char s0 c) s) all_ascii = true -> host_keeps P s0 s.
Proof.
  intros H c Hc. pose proof (forall_ascii _ H c) as Hf. cbn beta in Hf. rewrite Hc in Hf. cbn [negb orb] in Hf.
  destruct (eqb_spec (http_parse_host_char s0 c) s); [assumption | discriminate].
Qed.

Lemma host_first : host_keeps IS_HOST_CHAR s_http_host_start s_http_host. Proof. apply host_keeps_intro. vm_compute. reflexivity. Qed.
Lemma host_next : host_keeps IS_HOST_CHAR s_http_host s_http_host. Proof. apply host_keeps_intro. vm_compute. reflexivity. Qed.
Lemma port_first : host_keeps IS_NUM s_http_host_port_start s_http_host_port. Proof. apply host_keeps_intro. vm_compute. reflexivity. Qed.
Lemma port_next : host_keeps IS_NUM s_http_host_port s_http_host_port. Proof. apply host_keeps_intro. vm_compute. reflexivity. Qed.

Lemma parse_host_port host port o u :
  host <> [] -> forallb IS_HOST_CHAR host = true -> port <> [] -> forallb IS_NUM port = true ->
  has_field UF_HOST u = true -> len (field_data u UF_HOST) = 0 -> 0 <= o -> o + zlen host + 1 + zlen port < 2 ^ 16 ->
  exists u1 u', http_parse_host_loop (host ++ bs ":" ++ port) o s_http_host_start u = Some (s_http_host_port, u') /\
    grown UF_HOST o (zlen host) u u1 /\ grown UF_PORT (o + zlen host + 1) (zlen port) u1 u'.
Proof.
  intros Hh0 Hh Hp0 Hp Hhas Hl Ho Hmax. destruct host as [|c d]; [contradiction|]. destruct port as [|c' d']; [contradiction|].
  cbn [forallb] in Hh, Hp. apply andb_prop in Hh as [Hc Hd]. apply andb_prop in Hp as [Hc' Hd'].
  rewrite !zlen_cons in *. pose proof (zlen_nonneg d). pose proof (zlen_nonneg d').
  set (v := incr_len UF_HOST (set_off UF_HOST o u)).
  assert (Hv : grown UF_HOST o 1 u v).
  { unfold v. split; [| | |tauto].
    - autorewrite with url. cbn [off len]. rewrite Hl, !u16_small by lia. reflexivity.
    - intros g Hg. autorewrite with url. destruct (eqb_spec UF_HOST g); [congruence | reflexivity].
    - intros g. autorewrite with url. destruct (eqb_spec UF_HOST g) as [<-|]; [exact Hhas | reflexivity]. }
  destruct (host_stretch IS_HOST_CHAR s_http_host UF_HOST host_next ltac:(reflexivity) eq_refl d (bs ":" ++ c' :: d') (o + 1) o 1 u v Hd Hv ltac:(lia) ltac:(lia))
    as (u1 & R1 & G1).
  set (w := incr_len UF_PORT (add_field UF_PORT (set_len UF_PORT 0 (set_off UF_PORT (o + 1 + zlen d + 1) u1)))).
  assert (Hw : grown UF_PORT (o + 1 + zlen d + 1) 1 u1 w).
  { unfold w. split; [| | |exact (only_fields_add UF_PORT _)].
    - autorewrite with url. cbn [off len]. rewrite !u16_small by (rewrite ?u16_small; lia). reflexivity.
    - intros g Hg. autorewrite with url. destruct (eqb_spec UF_PORT g); [congruence | reflexivity].
    - intros g. autorewrite with url. reflexivity. }
  destruct (host_stretch IS_NUM s_http_host_port UF_PORT port_next ltac:(reflexivity) eq_refl d' [] (o + 1 + zlen d + 1 + 1) (o + 1 + zlen d + 1) 1 u1 w Hd' Hw ltac:(lia) ltac:(lia))
    as (u2 & R2 & G2).
  exists u1, u2. split; [|split; [exact G1 | replace (o + (1 + zlen d) + 1) with (o + 1 + zlen d + 1) by lia; exact G2]].
  cbn [List.app http_parse_host_loop]. rewrite (host_first c Hc). change (eqb s_http_host s_http_host_dead) with false. cbv iota.
  change (host_char_effect s_http_host_start s_http_host o u) with v. etrans; [exact R1|].
  change (bs ":" ++ c' :: d') with (":"%char :: c' :: d'). cbn [http_parse_host_loop].
  change (http_parse_host_char s_http_host ":") with s_http_host_port_start. change (eqb s_http_host_port_start s_http_host_dead) with false. cbv iota.
  change (host_char_effect s_http_host s_http_host_port_start (o + 1 + zlen d) u1) with u1. rewrite (port_first c' Hc').
  change (eqb s_http_host_port s_http_host_dead) with false. cbv iota.
  change (host_char_effect s_http_host_port_start s_http_host_port (o + 1 + zlen d + 1) u1) with w.
  rewrite app_nil_r in R2. exact R2.
Qed.

(** The digits of a port, and what ends them. *)
Lemma decimal_grows ds : forall acc, 0 <= acc -> forallb IS_NUM ds = true ->
  acc <= fold_left (fun v d => v * 10 + (code d - code "0")) ds acc.
Proof.
  induction ds as [|c ds IH]; intros acc Ha Hd; cbn [fold_left]; [lia|]. cbn [forallb] in Hd. apply andb_prop in Hd as [Hc Hd].
  assert (0 <= code c - code "0") by (revert Hc; unfold IS_NUM; change (code "0") with 48; lia).
  specialize (IH (acc * 10 + (code c - code "0")) ltac:(lia) Hd). lia.
Qed.

Lemma strtoul_decimal ds rest c : forall acc, 0 <= acc -> forallb IS_NUM ds = true -> IS_NUM c = false ->
  fold_left (fun v d => v * 10 + (code d - code "0")) ds acc <= ULLONG_MAX ->
  strtoul (ds ++ c :: rest) acc = Some (fold_left (fun v d => v * 10 + (code d - code "0")) ds acc).
Proof.
  induction ds as [|d ds IH]; intros acc Ha Hd Hc Hmax; cbn [List.app strtoul fold_left]; [rewrite Hc; reflexivity|].
  cbn [forallb] in Hd. apply andb_prop in Hd as [Hd1 Hd2]. rewrite Hd1. cbn [fold_left] in Hmax.
  assert (0 <= code d - code "0") by (revert Hd1; unfold IS_NUM; change (code "0") with 48; lia).
  pose proof (decimal_grows ds (acc * 10 + (code d - code "0")) ltac:(lia) Hd2).
  rewrite Z.min_r by lia. apply IH; auto; lia.
Qed.


(** * Reading a URL *)

Lemma drop_past {A} (a b : list A) (n : nat) : (n <= List.length a)%nat -> exists c, drop n (a ++ b) = c ++ b.
Proof. intros Hn. exists (drop n a). rewrite drop_app. replace (n - List.length a)%nat with 0%nat by lia. reflexivity. Qed.

Lemma ends_digits_app a b : ends_digits b = true -> ends_digits (a ++ b) = true.
Proof. intros H. unfold ends_digits in *. rewrite existsb_app, H. apply orb_true_r. Qed.

(** The port is read where its field starts, and the digits end. *)
Lemma port_read buf rest o : 0 <= o <= zlen buf -> ends_digits rest = true ->
  exists v, strtoul (drop (Z.to_nat o) (buf ++ rest)) 0 = Some v /\ 0 <= v.
Proof.
  intros Ho Hr. destruct (drop_past buf rest (Z.to_nat o)) as [c ->]; [unfold zlen in *; lia|].
  destruct (strtoul_ends (c ++ rest) 0 (ends_digits_app _ _ Hr)) as [v Hv]. exists v. split; [exact Hv|].
  exact (strtoul_nonneg _ 0 v (Z.le_refl 0) Hv).
Qed.

Lemma fields_in_clear n u : fields_in n (clear_field_set u).
Proof. intros f Hf. rewrite has_field_clear in Hf. discriminate. Qed.

Lemma take_prefix (buf rest : bytes) : take (Z.to_nat (zlen buf)) (buf ++ rest) = buf.
Proof. unfold zlen. rewrite Nat2Z.id. apply take_app_length. Qed.

(** The part of the call before the port. *)
Lemma url_and_host_in buf start u0 : zlen buf < 2 ^ 16 ->
  match parse_url_loop buf 0 start None false (clear_field_set u0) with
  | Stuck _ => False
  | Done None => True
  | Done (Some (u, fa)) =>
      match (if has_field UF_HOST u then http_parse_host buf u fa else Done (Some u)) with
      | Stuck _ => False
      | Done None => True
      | Done (Some u') => fields_in (zlen buf) u'
      end
  end.
Proof.
  intros Hlen.
  pose proof (parse_url_loop_in buf 0 start None false (clear_field_set u0) (fields_in_clear _ _)
    ltac:(split; apply has_field_clear) ltac:(discriminate) ltac:(lia) ltac:(lia)) as Hl.
  destruct (parse_url_loop _ _ _ _ _ _) as [[[u fa]|]|]; try exact Hl. destruct Hl as [Hin Hno].
  destruct (has_field UF_HOST u) eqn:Hh; [|exact Hin].
  exact (http_parse_host_in buf u fa Hin Hno Hh Hlen).
Qed.

(** The parts of an absolute URL around its host and port. *)
Lemma absolute_around schema host port path query fragment :
  absolute_url schema host port path query fragment =
  (schema ++ bs "://") ++ (host ++ bs ":" ++ port) ++ bs "/" ++ path ++ bs "?" ++ query ++ bs "#" ++ fragment.
Proof. unfold absolute_url. rewrite <- !app_assoc. reflexivity. Qed.

(** What the span selects. *)
Definition span_bytes (buf : bytes) (s : url_span) : bytes := slice buf (off s) (len s).

Lemma drop_at {A} (a b l : list A) o : l = a ++ b -> o = zlen a -> drop (Z.to_nat o) l = b.
Proof. intros -> ->. unfold zlen. rewrite Nat2Z.id. apply drop_app_length. Qed.

Lemma slice_middle (a b c : bytes) : slice (a ++ b ++ c) (zlen a) (zlen b) = b.
Proof. unfold slice, zlen. rewrite !Nat2Z.id, drop_app_length. apply take_app_length. Qed.

Lemma slice_at (a b c l : bytes) o n : l = a ++ b ++ c -> o = zlen a -> n = zlen b -> slice l o n = b.
Proof. intros -> -> ->. apply slice_middle. Qed.

Ltac slice_part a c :=
  apply (slice_at a _ c);
  [ rewrite <- ?app_assoc, ?app_nil_r; reflexivity
  | rewrite ?zlen_app; change (zlen (bs "://")) with 3; change (zlen (bs ":")) with 1; change (zlen (bs "/")) with 1;
    change (zlen (bs "?")) with 1; change (zlen (bs "#")) with 1; change (zlen (@nil ascii)) with 0; lia
  | rewrite ?zlen_cons; reflexivity ].

(** The host call on a host with a port. *)
Lemma http_parse_host_port pre host port_ post u :
  host <> [] -> forallb IS_HOST_CHAR host = true -> port_ <> [] -> forallb IS_NUM port_ = true -> zlen (pre ++ host ++ bs ":" ++ port_) < 2 ^ 16 ->
  has_field UF_HOST u = true -> field_data u UF_HOST = mk_span (zlen pre) (zlen host + 1 + zlen port_) ->
  exists u', http_parse_host (pre ++ (host ++ bs ":" ++ port_) ++ post) u false = Done (Some u') /\
    field_data u' UF_HOST = mk_span (zlen pre) (zlen host) /\ field_data u' UF_PORT = mk_span (zlen pre + zlen host + 1) (zlen port_) /\
    (forall f, f <> UF_HOST -> f <> UF_PORT -> field_data u' f = field_data u f) /\
    (forall f, has_field f u' = eqb UF_PORT f || has_field f u) /\ (only_fields u -> only_fields u').
Proof.
  intros Hh0 Hh Hp0 Hp Hmax Hhas Hf. unfold http_parse_host. rewrite Hhas, Hf. cbn [negb off len].
  assert (Hz : zlen (host ++ bs ":" ++ port_) = zlen host + 1 + zlen port_) by (autorewrite with url; change (zlen (bs ":")) with 1; lia).
  pose proof (zlen_nonneg pre). pose proof (zlen_nonneg host). pose proof (zlen_nonneg port_). pose proof (zlen_nonneg post).
  assert (Hl : zlen (pre ++ (host ++ bs ":" ++ port_) ++ post) = zlen pre + (zlen host + 1 + zlen port_) + zlen post) by (rewrite !zlen_app in *; lia).
  rewrite Hl. destruct (Z.ltb_spec (zlen pre + (zlen host + 1 + zlen port_) + zlen post) (zlen pre + (zlen host + 1 + zlen port_))); [lia|].
  rewrite <- Hz, slice_middle. rewrite zlen_app, Hz in Hmax.
  destruct (parse_host_port host port_ (zlen pre) (set_len UF_HOST 0 u) Hh0 Hh Hp0 Hp Hhas ltac:(reflexivity) ltac:(lia) ltac:(lia))
    as (u1 & u' & -> & [G1 G2 G3 G7] & [G4 G5 G6 G8]).
  exists u'. split; [reflexivity|]. split; [rewrite G5 by discriminate; exact G1|]. split; [exact G4|]. split_and!; [| |auto].
  - intros f Hf1 Hf2. rewrite G5, G2 by assumption. rewrite data_set_len. destruct (eqb_spec UF_HOST f); [congruence | reflexivity].
  - intros f. rewrite G6, G3, has_set_len. destruct (eqb_spec UF_HOST f) as [<-|]; [rewrite Hhas|]; reflexivity.
Qed.

(** * Properties *)

(** C5: [http_parser_parse_url] is safe, and what it reports is in the URL.
    For any bytes of a URL of less than 64 KB, followed in memory by anything
    that holds a byte other than a digit, the call returns: no [assert] fails
    and nothing is read outside; and when it accepts the URL, every field it
    sets is a non-empty range of the URL's bytes, and a port it reports is a
    16-bit number. *)
Theorem url_fields_in_bounds buf rest is_connect u0
    (Hlen : zlen buf < 2 ^ 16) (Hrest : ends_digits rest = true) :
  exists r, http_parser_parse_url (buf ++ rest) (zlen buf) is_connect u0 = Done r /\
    forall u, r = Some u -> fields_in (zlen buf) u /\ (has_field UF_PORT u = true -> 0 <= port u < 2 ^ 16).
Proof.
  unfold http_parser_parse_url. rewrite take_prefix.
  pose proof (url_and_host_in buf (if is_connect then s_req_server_start else s_req_spaces_before_url) u0 Hlen) as H.
  destruct (parse_url_loop _ _ _ _ _ _) as [[[u fa]|]|]; [| eexists; split; [reflexivity | discriminate] | contradiction].
  destruct (_ && _); [eexists; split; [reflexivity | discriminate]|].
  destruct (if has_field UF_HOST u then _ else _) as [[u'|]|]; [| eexists; split; [reflexivity | discriminate] | contradiction].
  destruct (_ && _); [eexists; split; [reflexivity | discriminate]|].
  destruct (has_field UF_PORT u') eqn:Hp; [| eexists; split; [reflexivity | intros ? [= <-]; split; [exact H | congruence]]].
  destruct (H UF_PORT Hp) as (Ho & ? & ?).
  destruct (port_read buf rest (off (field_data u' UF_PORT)) ltac:(lia) Hrest) as (v & -> & Hv).
  destruct (Z.ltb_spec 65535 v); eexists; (split; [reflexivity|]); [discriminate|]. intros ? [= <-].
  split; [exact H|]. intros _. cbn [set_port port]. rewrite u16_small; lia.
Qed.

Lemma url_fields_in_bounds_witness :
  zlen (bs "http://u@[::1]:8080/a?b#c") < 2 ^ 16 /\ ends_digits (bs " HTTP/1.1") = true /\
  exists r, http_parser_parse_url (bs "http://u@[::1]:8080/a?b#c" ++ bs " HTTP/1.1") (zlen (bs "http://u@[::1]:8080/a?b#c")) false http_parser_url_init = Done r /\
    forall u, r = Some u -> fields_in (zlen (bs "http://u@[::1]:8080/a?b#c")) u /\ (has_field UF_PORT u = true -> 0 <= port u < 2 ^ 16).
Proof.
  split; [reflexivity|]. split; [reflexivity|].
  apply (url_fields_in_bounds (bs "http://u@[::1]:8080/a?b#c") (bs " HTTP/1.1") false http_parser_url_init); reflexivity.
Defined.

(** C6: Parsing an absolute URL gives back the parts it was made of: schema,
    host, port, path (with its slash), query and fragment, each as the span
    of its bytes, the port's value in decimal as well, and no user name. *)
Theorem absolute_url_round_trip schema host port_ path query fragment rest u0
    (Hok : url_ok schema host port_ path query fragment) :
  let url := absolute_url schema host port_ path query fragment in
  exists u, http_parser_parse_url (url ++ rest) (zlen url) false u0 = Done (Some u) /\
    span_bytes url (field_data u UF_SCHEMA) = schema /\ span_bytes url (field_data u UF_HOST) = host /\
    span_bytes url (field_data u UF_PORT) = port_ /\ span_bytes url (field_data u UF_PATH) = "/"%char :: path /\
    span_bytes url (field_data u UF_QUERY) = query /\ span_bytes url (field_data u UF_FRAGMENT) = fragment /\
    port u = decimal port_ /\ forall f, has_field f u = negb (eqb f UF_USERINFO).
Proof.
  cbv zeta. unfold http_parser_parse_url. rewrite take_prefix.
  destruct (parse_absolute _ _ _ _ _ _ Hok u0) as (u1 & -> & F1 & F2 & F3 & F4 & F5 & F6). rewrite !F6. cbn [negb andb].
  pose proof (uo_host _ _ _ _ _ _ Hok) as [Hh0 Hh]. pose proof (uo_port _ _ _ _ _ _ Hok) as (Hp0 & Hp & Hpv). pose proof (uo_len _ _ _ _ _ _ Hok) as Hmax.
  rewrite !absolute_around in *.
  destruct (http_parse_host_port (schema ++ bs "://") host port_ (bs "/" ++ path ++ bs "?" ++ query ++ bs "#" ++ fragment) u1) as (u & -> & G1 & G2 & G3 & G4 & _);
    auto; [rewrite !zlen_app in *; pose proof (zlen_nonneg (bs "/" ++ path ++ bs "?" ++ query ++ bs "#" ++ fragment)); rewrite !zlen_app in *; lia | rewrite F6; reflexivity | rewrite F2, zlen_app; reflexivity |].
  rewrite G4, field_eqb_refl. cbn [orb andb].
  rewrite (drop_at (schema ++ bs "://" ++ host ++ bs ":") (port_ ++ "/"%char :: path ++ bs "?" ++ query ++ bs "#" ++ fragment ++ rest)).
  2:{ rewrite <- !app_assoc. reflexivity. }
  2:{ rewrite G2. cbn [off]. rewrite !zlen_app. change (zlen (bs ":")) with 1. lia. }
  rewrite strtoul_decimal by (auto; unfold decimal, ULLONG_MAX in *; lia). fold (decimal port_).
  destruct (Z.ltb_spec 65535 (decimal port_)); [lia|]. eexists. split; [reflexivity|].
  cbn [set_port port field_data]. rewrite G1, G2, !G3, F1, F3, F4, F5 by discriminate. unfold span_bytes. cbn [off len].
  split_and!.
  - slice_part (@nil ascii) (bs "://" ++ host ++ bs ":" ++ port_ ++ bs "/" ++ path ++ bs "?" ++ query ++ bs "#" ++ fragment).
  - slice_part (schema ++ bs "://") (bs ":" ++ port_ ++ bs "/" ++ path ++ bs "?" ++ query ++ bs "#" ++ fragment).
  - slice_part (schema ++ bs "://" ++ host ++ bs ":") (bs "/" ++ path ++ bs "?" ++ query ++ bs "#" ++ fragment).
  - slice_part (schema ++ bs "://" ++ host ++ bs ":" ++ port_) (bs "?" ++ query ++ bs "#" ++ fragment).
  - slice_part (schema ++ bs "://" ++ host ++ bs ":" ++ port_ ++ bs "/" ++ path ++ bs "?") (bs "#" ++ fragment).
  - slice_part (schema ++ bs "://" ++ host ++ bs ":" ++ port_ ++ bs "/" ++ path ++ bs "?" ++ query ++ bs "#") (@nil ascii).
  - apply u16_small. pose proof (decimal_grows port_ 0 ltac:(lia) Hp) as Hd. fold (decimal port_) in Hd. lia.
  - intros f. change (has_field f (set_port (decimal port_) u)) with (has_field f u). rewrite G4, F6. destruct f; reflexivity.
Qed.

Lemma absolute_url_round_trip_witness :
  url_ok (bs "http") (bs "example.org") (bs "8080") (bs "a/b") (bs "q=1") (bs "top") /\
  let url := absolute_url (bs "http") (bs "example.org") (bs "8080") (bs "a/b") (bs "q=1") (bs "top") in
  exists u, http_parser_parse_url (url ++ bs " HTTP/1.1") (zlen url) false http_parser_url_init = Done (Some u) /\
    span_bytes url (field_data u UF_SCHEMA) = bs "http" /\ span_bytes url (field_data u UF_HOST) = bs "example.org" /\
    span_bytes url (field_data u UF_PORT) = bs "8080" /\ span_bytes url (field_data u UF_PATH) = bs "/a/b" /\
    span_bytes url (field_data u UF_QUERY) = bs "q=1" /\ span_bytes url (field_data u UF_FRAGMENT) = bs "top" /\
    port u = 8080 /\ forall f, has_field f u = negb (eqb f UF_USERINFO).
Proof.
  assert (Hok : url_ok (bs "http") (bs "example.org") (bs "8080") (bs "a/b") (bs "q=1") (bs "top")).
  { split; repeat split; try discriminate; reflexivity. }
  split; [exact Hok|]. exact (absolute_url_round_trip _ _ _ _ _ _ (bs " HTTP/1.1") http_parser_url_init Hok).
Defined.

(** A host with its port alone. *)
Lemma parse_host_target host port_ u0 : host <> [] -> forallb IS_HOST_CHAR host = true -> forallb IS_NUM port_ = true ->
  zlen (host ++ bs ":" ++ port_) < 2 ^ 16 ->
  exists u, parse_url_loop (host ++ bs ":" ++ port_) 0 s_req_server_start None false (clear_field_set u0) = Done (Some (u, false)) /\
    field_data u UF_HOST = mk_span 0 (zlen host + 1 + zlen port_) /\ (forall f, has_field f u = eqb UF_HOST f) /\ only_fields u.
Proof.
  intros Hh0 Hh Hp Hlen. assert (Hz : zlen (host ++ bs ":" ++ port_) = zlen host + 1 + zlen port_) by (rewrite !zlen_app; change (zlen (bs ":")) with 1; lia).
  pose proof (zlen_nonneg host). pose proof (zlen_nonneg port_).
  destruct host as [|c d]; [contradiction|]. change ((c :: d) ++ bs ":" ++ port_) with (c :: d ++ bs ":" ++ port_) in *. cbn [forallb] in Hh. apply andb_prop in Hh as [Hc Hd].
  destruct (parse_field server_char s_req_server_start s_req_server UF_HOST c (d ++ bs ":" ++ port_) None [] 0 false (clear_field_set u0)) as (u & R & [G1 G2 G3 G4]);
    [exact keeps_host | reflexivity | reflexivity | exact (keeps_host0 _ Hc)
      | rewrite !forallb_app, (host_server d), (digits_server port_) by assumption; reflexivity | reflexivity | lia | lia |].
  rewrite app_nil_r in R.
  exists u. split; [exact R|]. rewrite <- Hz. split; [exact G1|]. split.
  - intros f. rewrite G3, has_field_clear. apply orb_false_r.
  - apply G4. intros n Hn. apply Z.bits_0.
Qed.

(** The bits of the fields that are set are the set of fields. *)
Lemma field_set_bits u fs : only_fields u -> (forall f, has_field f u = Z.testbit fs (uf_num f)) -> 0 <= fs < 2 ^ 7 -> field_set u = fs.
Proof.
  intros Hu Hf Hfs. assert (Hfs' : forall n, 7 <= n -> Z.testbit fs n = false).
  { intros n Hn. rewrite <- (Z.mod_small fs (2 ^ 7)) by lia. apply Z.mod_pow2_bits_high. lia. }
  apply Z.bits_inj'. intros n Hn. destruct (Z_lt_ge_dec n 7) as [Hlt|]; [|rewrite Hu, Hfs' by lia; reflexivity].
  assert (exists f, n = uf_num f) as [f ->]; [|rewrite <- has_field_testbit; apply Hf].
  assert (n = 0 \/ n = 1 \/ n = 2 \/ n = 3 \/ n = 4 \/ n = 5 \/ n = 6) as Hcase by lia.
  destruct Hcase as [->|[->|[->|[->|[->|[->| ->]]]]]];
    [exists UF_SCHEMA | exists UF_HOST | exists UF_PORT | exists UF_PATH | exists UF_QUERY | exists UF_FRAGMENT | exists UF_USERINFO]; reflexivity.
Qed.

(** C7: The target of a CONNECT request, [host:port], is taken apart into
    exactly its host and its port.  The port's value is read by [strtoul] from
    memory and not from the [buflen] bytes the caller gave: digits [more] that
    follow the target in memory are part of the number. *)
Theorem connect_target_parsed host port_ more c rest u0
    (Hhost : host <> [] /\ forallb IS_HOST_CHAR host = true) (Hport : port_ <> [] /\ forallb IS_NUM port_ = true)
    (Hmore : forallb IS_NUM more = true) (Hc : IS_NUM c = false)
    (Hval : decimal (port_ ++ more) <= 65535) (Hlen : zlen (host ++ bs ":" ++ port_) < 2 ^ 16) :
  let target := host ++ bs ":" ++ port_ in
  exists u, http_parser_parse_url (target ++ more ++ c :: rest) (zlen target) true u0 = Done (Some u) /\
    span_bytes target (field_data u UF_HOST) = host /\ span_bytes target (field_data u UF_PORT) = port_ /\
    port u = decimal (port_ ++ more) /\ forall f, has_field f u = eqb f UF_HOST || eqb f UF_PORT.
Proof.
  cbv zeta. unfold http_parser_parse_url. rewrite take_prefix. destruct Hhost as [Hh0 Hh]. destruct Hport as [Hp0 Hp].
  destruct (parse_host_target host port_ u0 Hh0 Hh Hp Hlen) as (u1 & -> & F1 & F2 & F3). rewrite !F2.
  change (eqb UF_HOST UF_SCHEMA) with false. change (eqb UF_HOST UF_HOST) with true. cbn [andb negb].
  destruct (http_parse_host_port [] host port_ [] u1 Hh0 Hh Hp0 Hp Hlen) as (u & E & G1 & G2 & _ & G4 & G5); [rewrite F2; reflexivity | exact F1 |].
  rewrite app_nil_r in E. cbn [List.app] in E. rewrite E.
  rewrite (field_set_bits u 6); [|auto | intros f; rewrite G4, F2; destruct f; reflexivity | lia].
  change (6 =? Z.lor (uf_bit UF_HOST) (uf_bit UF_PORT)) with true. rewrite G4, field_eqb_refl. cbn [negb andb orb].
  rewrite (drop_at (host ++ bs ":") ((port_ ++ more) ++ c :: rest)); [| rewrite <- !app_assoc; reflexivity |].
  2:{ rewrite G2. cbn [off]. rewrite zlen_app. reflexivity. }
  rewrite strtoul_decimal; [|lia | rewrite forallb_app, Hp; exact Hmore | exact Hc | unfold decimal, ULLONG_MAX in *; lia].
  fold (decimal (port_ ++ more)). destruct (Z.ltb_spec 65535 (decimal (port_ ++ more))); [lia|]. eexists. split; [reflexivity|].
  cbn [set_port port field_data]. rewrite G1, G2. unfold span_bytes. cbn [off len]. split_and!.
  - slice_part (@nil ascii) (bs ":" ++ port_).
  - slice_part (host ++ bs ":") (@nil ascii).
  - apply u16_small. pose proof (decimal_grows (port_ ++ more) 0 ltac:(lia)) as Hd. fold (decimal (port_ ++ more)) in Hd.
    rewrite forallb_app, Hp, Hmore in Hd. specialize (Hd eq_refl). lia.
  - intros f. change (has_field f (set_port _ u)) with (has_field f u). rewrite G4, F2. destruct f; reflexivity.
Qed.

Lemma connect_target_parsed_witness :
  let target := bs "example.org:44" in
  exists u, http_parser_parse_url (target ++ bs "3" ++ bs " HTTP/1.1") (zlen target) true http_parser_url_init = Done (Some u) /\
    span_bytes target (field_data u UF_HOST) = bs "example.org" /\ span_bytes target (field_data u UF_PORT) = bs "44" /\
    port u = 443 /\ forall f, has_field f u = eqb f UF_HOST || eqb f UF_PORT.
Proof.
  apply (connect_target_parsed (bs "example.org") (bs "44") (bs "3") " " (bs "HTTP/1.1") http_parser_url_init);
    first [split; [discriminate | reflexivity] | vm_compute; discriminate | reflexivity].
Defined.
