(* ===== verification/HttpExecSafe.v ===== *)
(** Safety of [http_parser_execute]: an invariant of the parser object, kept
    by every [case] of the [switch], under which no [assert] fails, no string
    constant is read out of bounds, every callback gets a range inside the
    input, every [REEXECUTE()] chain ends and the loop ends.

    The callbacks are arbitrary functions that leave the parser object alone,
    except that they may pause it ([settings_ok]). *)
From Stdlib Require Import ZArith Lia Bool List String Ascii.
From stdpp Require Import base list strings.
From S2P Require Import Prelude HttpChars HttpTypes HttpUrl HttpExec.

(** * Callbacks that respect the parser *)

Definition cb_respects (x x' : http_parser) : Prop := x' = x \/ x' = set_http_errno HPE_PAUSED x.

Definition cb_ok {A} (f : http_cb A) : Prop :=
  forall x a, cb_respects x (fst (fst (f x a))).
Definition data_cb_ok {A} (f : http_data_cb A) : Prop :=
  forall x b a, cb_respects x (fst (fst (f x b a))).

Definition opt_ok {T} (P : T -> Prop) (o : option T) : Prop :=
  match o with Some f => P f | None => True end.

Record settings_ok {A} (s : http_parser_settings A) : Prop := {
  ok_message_begin : opt_ok cb_ok (on_message_begin s);
  ok_headers_complete : opt_ok cb_ok (on_headers_complete s);
  ok_message_complete : opt_ok cb_ok (on_message_complete s);
  ok_chunk_header : opt_ok cb_ok (on_chunk_header s);
  ok_chunk_complete : opt_ok cb_ok (on_chunk_complete s);
  ok_data : forall f, opt_ok data_cb_ok (data_cb s f)
}.

(** * The invariant *)

(** Header states [s_header_field] can be in. *)
Definition field_hs (h : header_states) : bool :=
  match h with
  | h_general | h_C | h_CO | h_CON | h_matching_connection | h_matching_proxy_connection
  | h_matching_content_length | h_matching_transfer_encoding | h_matching_upgrade
  | h_connection | h_content_length | h_transfer_encoding | h_upgrade => true
  | _ => false
  end.

(** Header states [s_header_value] can be in. *)
Definition value_hs (h : header_states) : bool :=
  match h with
  | h_general | h_content_length | h_matching_transfer_encoding_chunked
  | h_matching_connection_token_start | h_matching_connection_keep_alive
  | h_matching_connection_close | h_matching_connection_upgrade | h_matching_connection_token
  | h_transfer_encoding_chunked | h_connection_keep_alive | h_connection_close
  | h_connection_upgrade => true
  | _ => false
  end.

(** What holds of the parser fields in state [s]; [n] is the value [nread]
    has in [s_chunk_size_start] (0 between characters, 1 in the [switch]). *)
Definition wf_state (n : Z) (s : state) (hs : header_states) (index : Z) (m : http_method)
    (flags nread cl : Z) : Prop :=
  match s with
  | s_req_method => 0 <= index <= slen (method_strings m)
  | s_header_field => field_hs hs = true
  | s_header_value => value_hs hs = true
  | s_chunk_size_start => flag_set F_CHUNKED flags = true /\ nread = n
  | s_chunk_size | s_chunk_parameters | s_chunk_size_almost_done =>
      flag_set F_CHUNKED flags = true /\ cl <= ULLONG_MAX - 16
  | s_chunk_data => flag_set F_CHUNKED flags = true /\ 0 < cl < ULLONG_MAX
  | s_chunk_data_almost_done => flag_set F_CHUNKED flags = true /\ cl = 0
  | s_chunk_data_done => flag_set F_CHUNKED flags = true
  | s_body_identity => 0 < cl < ULLONG_MAX
  | _ => True
  end.

Definition wf_at (n : Z) (s : state) (x : http_parser) : Prop :=
  0 <= hp_nread x <= HTTP_MAX_HEADER_SIZE /\ 0 <= hp_content_length x <= ULLONG_MAX /\
  wf_state n s (hp_header_state x) (hp_index x) (hp_method x) (hp_flags x) (hp_nread x)
    (hp_content_length x).

(** The invariant of a parser object between calls. *)
Definition parser_wf (x : http_parser) : Prop :=
  match hp_http_errno x with
  | HPE_OK | HPE_PAUSED => wf_at 0 (hp_state x) x
  | _ => True
  end.

(** The states a mark can be set in. *)
Definition mark_state (f : data_for) (s : state) : bool :=
  match f, s with
  | For_header_field, s_header_field => true
  | For_header_value, s_header_value => true
  | For_url, (s_req_schema | s_req_schema_slash | s_req_schema_slash_slash
             | s_req_server_start | s_req_server | s_req_server_with_at | s_req_path
             | s_req_query_string_start | s_req_query_string | s_req_fragment_start
             | s_req_fragment) => true
  | For_body, (s_body_identity | s_body_identity_eof | s_chunk_data
              | s_chunk_data_almost_done) => true
  | For_status, s_res_status => true
  | _, _ => false
  end.

(** A body mark is set when the first byte of the body is read; the other
    marks are set as soon as the state is one of theirs. *)
Definition mark_ok (f : data_for) (s : state) (i : Z) (m : option Z) : Prop :=
  match m with
  | None => f = For_body \/ mark_state f s = false
  | Some j => 0 <= j <= i /\ mark_state f s = true
  end.

Definition marks_ok {A} (s : state) (i : Z) (k : ctx A) : Prop :=
  mark_ok For_header_field s i (header_field_mark k) /\
  mark_ok For_header_value s i (header_value_mark k) /\
  mark_ok For_url s i (url_mark k) /\
  mark_ok For_body s i (body_mark k) /\
  mark_ok For_status s i (status_mark k).

(** The turns of the [switch] left for the current character. *)
Definition rank (s : state) : nat :=
  match s with
  | s_start_req_or_res | s_res_status_start | s_header_value | s_body_identity | s_headers_done => 1
  | s_res_status_code | s_headers_almost_done => 2
  | s_header_field_start => 3
  | s_header_value_lws | s_header_value_discard_lws => 4
  | _ => 0
  end%nat.

Section Safe.
Context {A : Type}.
Variable settings : http_parser_settings A.
Variable data : bytes.
Variable lenient : bool.
Hypothesis Hset : settings_ok settings.
Hypothesis Hlen : zlen data < 2 ^ 31.

Notation data_end := (zlen data).

(** The invariant at the [switch] (with [n = 1]) and at a [break] ([n = 0]). *)
Definition inv (n : Z) (k : ctx A) : Prop :=
  hp_http_errno (pr k) = HPE_OK /\ wf_at n (p_state k) (pr k) /\
  marks_ok (p_state k) (p k) k /\ 0 <= p k < data_end.

(** A returned parser object and byte count. *)
Definition ret_ok (x : http_parser) (n : Z) : Prop :=
  parser_wf x /\ 0 <= n <= data_end /\
  (n = data_end \/ hp_http_errno x <> HPE_OK \/ hp_upgrade x = true).

Definition err_ok (k : ctx A) : Prop :=
  hp_http_errno (pr k) <> HPE_OK /\ hp_http_errno (pr k) <> HPE_PAUSED /\ 0 <= p k <= data_end.

(** What a [case] run at offset [i] with [r] turns left may do. *)
Definition ctl_ok (i : Z) (r : nat) (c : ctl A) : Prop :=
  match c with
  | Break k => inv 0 k /\ i <= p k
  | Reexecute k => inv 1 k /\ i <= p k /\ (rank (p_state k) < r)%nat
  | Error k => err_ok k
  | Return x _ n => ret_ok x n
  | Abort _ | NoFuel => False
  end.

(** * Callbacks and macros keep the invariant *)

Lemma respects_cases x x' r err :
  cb_respects x x' -> hp_http_errno x = HPE_OK ->
  (r = 0 /\ x' = x) \/
  (if r =? 0 then x' else set_http_errno err x') = set_http_errno HPE_PAUSED x \/
  (if r =? 0 then x' else set_http_errno err x') = set_http_errno err x.
Proof.
  intros [-> | ->] Hok; destruct (r =? 0) eqn:Hr; auto.
  apply Z.eqb_eq in Hr; auto.
Qed.

Lemma wf_returned n s x e :
  wf_at 0 s x -> e <> HPE_OK -> 0 <= n <= data_end -> ret_ok (set_http_errno e (set_state s x)) n.
Proof.
  intros Hwf He Hn. split; [|split; [done|right; left; done]].
  unfold parser_wf. destruct e; first [contradiction | exact Hwf | exact I].
Qed.

Lemma callback_notify_ok cb err er (k : ctx A) rest i r :
  opt_ok cb_ok cb -> err <> HPE_OK -> hp_http_errno (pr k) = HPE_OK ->
  wf_at 0 (p_state k) (pr k) -> 0 <= er <= data_end ->
  (forall s a, s = p_state k \/ s = hp_state (pr k) ->
     ctl_ok i r (rest (put_app a (put_pr (set_state s (pr k)) k)))) ->
  ctl_ok i r (CALLBACK_NOTIFY_ cb err er k rest).
Proof.
  intros Hcb Herr Hok Hwf Her Hrest. unfold CALLBACK_NOTIFY_, errno_ok. rewrite Hok. cbn [negb].
  destruct cb as [f|].
  2:{ specialize (Hrest (hp_state (pr k)) (app k) (or_intror eq_refl)). destruct k as [[] ?]; exact Hrest. }
  specialize (Hcb (set_state (p_state k) (pr k)) (app k)).
  destruct (f _ _) as [[x a] ret]. cbn in Hcb.
  destruct (respects_cases _ _ ret err Hcb Hok) as [[-> ->] | [-> | ->]]; cbn.
  - rewrite Hok. specialize (Hrest (p_state k) a (or_introl eq_refl)). destruct k; exact Hrest.
  - apply (wf_returned er (p_state k) (pr k) HPE_PAUSED); done.
  - destruct err; try done; apply (wf_returned er (p_state k) (pr k)); done.
Qed.

Lemma put_mark_none_id (k : ctx A) f : get_mark f k = None -> put_mark f None k = k.
Proof. destruct k, f; cbn; intros ->; reflexivity. Qed.

Lemma callback_data_ok f last er (k : ctx A) rest i r :
  hp_http_errno (pr k) = HPE_OK -> wf_at 0 (p_state k) (pr k) -> 0 <= er <= data_end ->
  last <= data_end -> (forall m, get_mark f k = Some m -> 0 <= m <= last) ->
  (forall s a, ctl_ok i r (rest (put_mark f None (put_app a (put_pr (set_state s (pr k)) k))))) ->
  ctl_ok i r (CALLBACK_DATA_ settings data f last er k rest).
Proof.
  intros Hok Hwf Her Hlast Hm Hrest. unfold CALLBACK_DATA_, errno_ok. rewrite Hok. cbn [negb].
  assert (Hnone : ctl_ok i r (rest (put_mark f None k))).
  { specialize (Hrest (hp_state (pr k)) (app k)). destruct k as [[] ?]; exact Hrest. }
  destruct (get_mark f k) as [m|] eqn:Em.
  2:{ rewrite (put_mark_none_id k f Em) in Hnone. exact Hnone. }
  pose proof (ok_data _ Hset f) as Hcb. destruct (data_cb settings f) as [cb|]; [|exact Hnone].
  specialize (Hm m eq_refl).
  replace ((m <? 0) || (last <? m) || (HttpExec.data_end data <? last)) with false
    by (unfold HttpExec.data_end; symmetry; repeat (apply orb_false_iff; split); lia).
  specialize (Hcb (set_state (p_state k) (pr k)) (slice data m (last - m)) (app k)).
  destruct (cb _ _ _) as [[x a] ret]. cbn in Hcb.
  destruct (respects_cases _ _ ret (data_cb_err f) Hcb Hok) as [[-> ->] | [-> | ->]]; cbn.
  - rewrite Hok. specialize (Hrest (p_state k) a). destruct k; exact Hrest.
  - apply (wf_returned er (p_state k) (pr k) HPE_PAUSED); done.
  - destruct f; cbn; apply (wf_returned er (p_state k) (pr k)); done.
Qed.
End Safe.

