(* ===== verification/HttpKeeps.v ===== *)
(** What the callbacks keep of the application's state, [http_parser_execute]
    keeps: the parser changes that state through its callbacks only. *)
From Stdlib Require Import ZArith Lia Bool List String Ascii.
From stdpp Require Import base list strings.
From S2P Require Import Prelude HttpChars HttpTypes HttpUrl HttpExec HttpExecSafe.

Section Keeps.
Context {A : Type}.
Variable I : A -> Prop.
Variable settings : http_parser_settings A.
Variable data : bytes.
Variable lenient : bool.

Definition cb_keeps (f : http_cb A) : Prop := forall x a, I a -> I (snd (fst (f x a))).
Definition data_cb_keeps (f : http_data_cb A) : Prop := forall x b a, I a -> I (snd (fst (f x b a))).

Record settings_keep : Prop := {
  keep_message_begin : opt_ok cb_keeps (on_message_begin settings);
  keep_headers_complete : opt_ok cb_keeps (on_headers_complete settings);
  keep_message_complete : opt_ok cb_keeps (on_message_complete settings);
  keep_chunk_header : opt_ok cb_keeps (on_chunk_header settings);
  keep_chunk_complete : opt_ok cb_keeps (on_chunk_complete settings);
  keep_data : forall f, opt_ok data_cb_keeps (data_cb settings f)
}.

Hypothesis Hset : settings_keep.

(** Wherever the control goes, the state is one that is kept. *)
Definition keeps (c : ctl A) : Prop :=
  match c with
  | Break k | Reexecute k | Error k => I (app k)
  | Return _ a _ => I a
  | Abort _ | NoFuel => True
  end.

Definition rest_keeps (rest : ctx A -> ctl A) : Prop := forall k, I (app k) -> keeps (rest k).

(** * The macros *)

Lemma app_put_mark f v (k : ctx A) : app (put_mark f v k) = app k.
Proof. destruct f; reflexivity. Qed.

Lemma app_MARK f (k : ctx A) : app (MARK f k) = app k.
Proof. unfold MARK. destruct (get_mark f k); [reflexivity | apply app_put_mark]. Qed.

Lemma notify_keeps cb err er k rest :
  opt_ok cb_keeps cb -> I (app k) -> rest_keeps rest -> keeps (CALLBACK_NOTIFY_ cb err er k rest).
Proof.
  intros Hcb Hk Hrest. unfold CALLBACK_NOTIFY_. destruct (negb _); [exact Logic.I|].
  destruct cb as [f|]; [|exact (Hrest _ Hk)].
  specialize (Hcb (set_state (p_state k) (pr k)) _ Hk). destruct (f _ _) as [[x a] r]. cbn in Hcb.
  destruct (errno_ok _); [apply Hrest|]; exact Hcb.
Qed.

Lemma data_keeps f last er k rest :
  I (app k) -> rest_keeps rest -> keeps (CALLBACK_DATA_ settings data f last er k rest).
Proof.
  intros Hk Hrest. unfold CALLBACK_DATA_. destruct (negb _); [exact Logic.I|].
  destruct (get_mark f k) as [m|]; [|exact (Hrest _ Hk)].
  pose proof (keep_data Hset f) as Hcb. destruct (data_cb settings f) as [cb|]; [|apply Hrest; rewrite app_put_mark; exact Hk].
  destruct (_ || _); [exact Logic.I|].
  specialize (Hcb (set_state (p_state k) (pr k)) (slice data m (last - m)) _ Hk).
  destruct (cb _ _ _) as [[x a] r]. cbn in Hcb.
  destruct (errno_ok _); [apply Hrest; rewrite app_put_mark|]; exact Hcb.
Qed.

Lemma count_keeps v k rest : I (app k) -> rest_keeps rest -> keeps (COUNT_HEADER_SIZE v k rest).
Proof. intros Hk Hrest. unfold COUNT_HEADER_SIZE. destruct (_ <? _); [exact Hk | apply Hrest; exact Hk]. Qed.

Lemma headers_complete_keeps k rest : I (app k) -> rest_keeps rest -> keeps (headers_complete settings k rest).
Proof.
  intros Hk Hrest. unfold headers_complete. pose proof (keep_headers_complete Hset) as Hcb.
  destruct (on_headers_complete settings) as [f|]; [|exact (Hrest _ Hk)].
  specialize (Hcb (pr k) _ Hk). destruct (f _ _) as [[x a] r]. cbn in Hcb.
  repeat (destruct (_ =? _); [apply Hrest; exact Hcb|]). exact Hcb.
Qed.

(** * The inner loops *)

Lemma header_field_loop_app rest : forall (k k' : ctx A), header_field_loop rest k = Done k' -> app k' = app k.
Proof.
  induction rest as [|c rest IH]; intros k k'; cbn [header_field_loop]; [intros [= <-]; reflexivity|].
  destruct (is_nul _); [intros [= <-]; reflexivity|].
  destruct (header_field_char _ _ _); [|discriminate]. intros H. apply IH in H. exact H.
Qed.

Lemma header_value_char_app h (k k' : ctx A) h' : header_value_char data h k = Done (k', h') -> app k' = app k.
Proof.
  destruct h; cbn [header_value_char]; unfold match_value;
    repeat (match goal with |- context [match ?x with Done _ => _ | Stuck _ => _ end] => destruct x end);
    repeat (destruct (_ =c _)); try discriminate; intros [= <- _]; reflexivity.
Qed.

Lemma header_value_done_keeps start h : rest_keeps (header_value_done data start h).
Proof.
  intros k Hk. apply count_keeps; [exact Hk|]. intros k1 Hk1. cbn. destruct (_ =? _); exact Hk1.
Qed.

Lemma header_value_loop_keeps fuel start : forall h k,
  I (app k) -> keeps (header_value_loop settings data lenient fuel start h k).
Proof.
  induction fuel as [|fuel IH]; intros h k Hk; [exact Logic.I|]. cbn [header_value_loop].
  destruct (_ =? _); [apply header_value_done_keeps, Hk|].
  destruct (byte_at data (p k)) as [c|]; [|exact Logic.I]. cbv zeta.
  destruct (c =c CR); [apply data_keeps; [exact Hk | apply header_value_done_keeps]|].
  destruct (c =c LF).
  { apply count_keeps; [exact Hk|]. intros k1 Hk1. apply data_keeps; [exact Hk1 | intros k2 Hk2; exact Hk2]. }
  destruct (_ && _); [exact Hk|]. destruct (eqb h h_content_length).
  - destruct (content_length_char c _); [apply IH|]; exact Hk.
  - destruct (header_value_char data h _) as [[k1 h1]|] eqn:E; [|exact Logic.I].
    apply header_value_char_app in E. apply IH. cbn in *. rewrite E. exact Hk.
Qed.

(** * The cases *)

Ltac keeps_step :=
  first
    [ exact Logic.I
    | assumption
    | apply notify_keeps; [first [apply keep_message_begin | apply keep_message_complete | apply keep_chunk_header
                                 | apply keep_chunk_complete]; exact Hset | | intros ? ?]
    | apply data_keeps; [|intros ? ?]
    | apply count_keeps; [|intros ? ?]
    | apply headers_complete_keeps; [|intros ? ?]
    | apply header_value_loop_keeps
    | progress (cbn; rewrite ?app_MARK)
    | break_match ].

Lemma dispatch_keeps k : I (app k) -> keeps (dispatch settings data lenient k).
Proof.
  intros Hk. unfold dispatch. destruct (p_state k); autounfold with http_cases; unfold url_step; cbv zeta;
    try (destruct (header_field_loop _ k) eqn:E; [apply header_field_loop_app in E; rewrite <- E in Hk|]);
    repeat keeps_step.
Qed.

Lemma reexecute_keeps fuel : forall k, I (app k) -> keeps (reexecute settings data lenient fuel k).
Proof.
  induction fuel as [|fuel IH]; intros k Hk; [exact Logic.I|]. cbn [reexecute].
  pose proof (dispatch_keeps k Hk) as H. destruct (dispatch _ _ _ k); try exact H. apply IH, H.
Qed.

Lemma exec_char_keeps k : I (app k) -> keeps (exec_char settings data lenient k).
Proof.
  intros Hk. unfold exec_char. destruct (PARSING_HEADER _); [apply count_keeps; [exact Hk|]|];
    first [intros k1 Hk1; apply reexecute_keeps, Hk1 | apply reexecute_keeps, Hk].
Qed.

Lemma exec_finish_keeps k : I (app k) -> keeps (exec_finish settings data k).
Proof. intros Hk. unfold exec_finish, CALLBACK_DATA_NOADVANCE. repeat keeps_step. Qed.

Lemma exec_loop_keeps fuel : forall k, I (app k) -> keeps (exec_loop settings data lenient fuel k).
Proof.
  induction fuel as [|fuel IH]; intros k Hk; cbn [exec_loop]; destruct (_ =? _);
    try (apply exec_finish_keeps, Hk); [exact Logic.I|].
  destruct (byte_at data (p k)) as [c|]; [|exact Logic.I].
  pose proof (exec_char_keeps (put_ch c k) Hk) as H. destruct (exec_char _ _ _ _); try exact H. apply IH, H.
Qed.

Lemma exec_body_keeps x a : I a -> keeps (exec_body settings data lenient x a).
Proof.
  intros Ha. unfold exec_body. cbv zeta. destruct (negb _); [exact Ha|]. destruct (_ =? _).
  - unfold exec_eof, CALLBACK_NOTIFY_NOADVANCE. repeat keeps_step.
  - apply exec_loop_keeps. unfold entry_marks. destruct (p_state _); exact Ha.
Qed.
End Keeps.

(** ** A call keeps what its callbacks keep *)
Lemma execute_keeps {A} (I : A -> Prop) settings x a data x' a' n :
  settings_keep I settings -> I a -> http_parser_execute settings x a data = Returned x' a' n -> I a'.
Proof.
  intros Hset Ha. unfold http_parser_execute.
  pose proof (exec_body_keeps I settings data (hp_lenient_http_headers x) Hset x a Ha) as H.
  destruct (exec_body _ _ _ _ _); try discriminate.
  - destruct (errno_ok _); intros [= _ <- _]; exact H.
  - intros [= _ <- _]. exact H.
Qed.
