(* ===== verification/HttpRecord.v ===== *)
(** A set of callbacks that records what the parser reports, and leaves the
    parser alone: the observer by which runs of [http_parser_execute] are
    compared.

    Consecutive pieces of the same string are joined, since the parser may
    hand a string over in any number of pieces.  A notification records the
    parser object, but for the two fields that belong to the scanning itself
    ([core]). *)
From Stdlib Require Import ZArith Lia Bool List String Ascii.
From stdpp Require Import base list strings.
From S2P Require Import Prelude HttpChars HttpTypes HttpUrl HttpExec HttpExecSafe.

#[global] Instance data_for_eq_dec : EqDecision data_for.
Proof. solve_decision. Defined.

Inductive notification :=
| MessageBegin | HeadersComplete | MessageComplete | ChunkHeader | ChunkComplete.

Inductive event :=
| EvData (f : data_for) (b : bytes)
| EvNotify (n : notification) (x : http_parser).

(** What was reported, the latest first. *)
Notation trace := (list event).

(** The parser without its scanner state and its count of header bytes. *)
Definition core (x : http_parser) : http_parser := set_nread 0 (set_state s_dead x).

Definition record_data (f : data_for) (b : bytes) (t : trace) : trace :=
  match t with
  | EvData g b' :: t' => if eqb f g then EvData g (b' ++ b) :: t' else EvData f b :: t
  | _ => EvData f b :: t
  end.

Definition on_data (f : data_for) : http_data_cb trace :=
  fun x b t => (x, record_data f b t, 0).
Definition on_notify (n : notification) : http_cb trace :=
  fun x t => (x, EvNotify n (core x) :: t, 0).

Definition recorder : http_parser_settings trace :=
  {| on_message_begin := Some (on_notify MessageBegin);
     on_url := Some (on_data For_url);
     on_status := Some (on_data For_status);
     on_header_field := Some (on_data For_header_field);
     on_header_value := Some (on_data For_header_value);
     on_headers_complete := Some (on_notify HeadersComplete);
     on_body := Some (on_data For_body);
     on_message_complete := Some (on_notify MessageComplete);
     on_chunk_header := Some (on_notify ChunkHeader);
     on_chunk_complete := Some (on_notify ChunkComplete) |}.

Lemma recorder_ok : settings_ok recorder.
Proof. split; try (intros x a; left; reflexivity). intros []; intros x b a; left; reflexivity. Qed.

Lemma data_cb_recorder f : data_cb recorder f = Some (on_data f).
Proof. destruct f; reflexivity. Qed.

Lemma eqb_refl {A} `{EqDecision A} (x : A) : eqb x x = true.
Proof. unfold eqb. apply bool_decide_eq_true. reflexivity. Qed.

(** Joining pieces. *)
Lemma record_data_app f b c t : record_data f (b ++ c) t = record_data f c (record_data f b t).
Proof.
  destruct t as [|[g b'|n x] t]; cbn; rewrite ?eqb_refl; try reflexivity.
  destruct (eqb f g) eqn:Hfg; cbn.
  - rewrite Hfg, app_assoc. reflexivity.
  - rewrite eqb_refl. reflexivity.
Qed.

(** The strings of a message as they were reported, oldest first. *)
Definition report (t : trace) : trace := rev t.

(** The parts of a run that returned. *)
Definition ret_parser (r : exec_result trace) : http_parser :=
  match r with Returned x _ _ => x | _ => http_parser_init HTTP_REQUEST end.
Definition ret_trace (r : exec_result trace) : trace :=
  match r with Returned _ t _ => t | _ => [] end.
Definition ret_count (r : exec_result trace) : Z :=
  match r with Returned _ _ n => n | _ => -1 end.
