(* ===== verification/HttpCases.v ===== *)
(** The [case]s of the [switch] of [http_parser_execute] keep the invariant of
    [HttpExecSafe]: the tactics that run a [case] symbolically, facts about the
    tables of the parser, and one lemma per group of cases. *)
From Stdlib Require Import ZArith Lia Bool List String Ascii.
From stdpp Require Import base list strings.
From S2P Require Import Prelude HttpChars HttpTypes HttpUrl HttpExec HttpExecSafe.

(** * Symbolic execution of a [case] *)

(** Simplify a [case] run on an explicit [ctx]. *)
Ltac exec_simpl :=
  cbn [p_state pr app p ch header_field_mark header_value_mark url_mark body_mark status_mark
       put_p_state put_pr put_app put_p put_ch put_header_field_mark put_header_value_mark
       put_url_mark put_body_mark put_status_mark get_mark put_mark upd_pr SET_ERRNO UPDATE_STATE
       goto_error expect STRICT_CHECK RETURN MARK
       hp_type hp_flags hp_state hp_header_state hp_index hp_lenient_http_headers hp_nread
       hp_content_length hp_http_major hp_http_minor hp_status_code hp_method hp_http_errno
       hp_upgrade set_type set_flags set_state set_header_state set_index
       set_lenient_http_headers set_nread set_content_length set_http_major set_http_minor
       set_status_code set_method set_http_errno set_upgrade
       add_flag has_flag errno_ok incr_index reset_message finish_header negb andb orb].

Ltac exec_simpl_in H :=
  cbn [p_state pr app p ch header_field_mark header_value_mark url_mark body_mark status_mark
       hp_type hp_flags hp_state hp_header_state hp_index hp_lenient_http_headers hp_nread
       hp_content_length hp_http_major hp_http_minor hp_status_code hp_method hp_http_errno
       hp_upgrade has_flag] in H.

Lemma mark_ok_none f s i m : mark_state f s = false -> mark_ok f s i m -> m = None.
Proof. destruct m; cbn; [intros -> [_ ?]; discriminate | done]. Qed.

(** Open [inv n k] on a fresh explicit context in state [ps]. *)
Ltac open_inv k :=
  let x := fresh "x" in
  destruct k as [x ap ps pp cc m1 m2 m3 m4 m5];
  destruct x as [ty fl st hs ix ln nr cl ma mi sc me er up];
  intros (He & Hwf & (Hm1 & Hm2 & Hm3 & Hm4 & Hm5) & Hp);
  exec_simpl_in He; exec_simpl_in Hwf; exec_simpl_in Hp; exec_simpl_in Hm1; exec_simpl_in Hm2;
  exec_simpl_in Hm3; exec_simpl_in Hm4; exec_simpl_in Hm5; subst er;
  destruct Hwf as (Hnr & Hcl & Hst); exec_simpl_in Hnr; exec_simpl_in Hcl; exec_simpl_in Hst.

(** Drop the marks that cannot be set in the current state. *)
Ltac clear_marks :=
  repeat match goal with
  | H : mark_ok _ _ _ ?m |- _ =>
      is_var m; apply mark_ok_none in H; [subst m | reflexivity]
  end.

Ltac split_all := repeat match goal with |- _ /\ _ => split end.

(** Close the obligations of the end of a [case]. *)
Ltac leaf :=
  unfold goto_error, RETURN; exec_simpl;
  lazymatch goal with
  | |- ctl_ok _ _ _ _ =>
      cbn [ctl_ok]; unfold inv, err_ok, ret_ok, parser_wf, wf_at, marks_ok; exec_simpl
  | |- wf_at _ _ _ => unfold wf_at; exec_simpl
  | |- _ => idtac
  end;
  cbn [wf_state mark_ok mark_state rank]; split_all;
  try first [ done | lia | discriminate | left; reflexivity | right; reflexivity
            | right; left; discriminate | right; right; assumption
            | let m := fresh in intros m [= <-]; lia
            | let m := fresh in intros m ->; cbn in *; lia ].

(** One branch or callback of a [case]. *)
Ltac case_step data Hset :=
  exec_simpl;
  lazymatch goal with
  | |- ctl_ok _ _ _ (if ?b then _ else _) => destruct b eqn:?
  | |- ctl_ok _ _ _ (match ?b with _ => _ end) => destruct b eqn:?
  | |- ctl_ok _ _ _ (CALLBACK_NOTIFY_ _ _ _ _ _) =>
      apply (callback_notify_ok data); [apply Hset | | | | | intros ? ? _]
  | |- ctl_ok _ _ _ (CALLBACK_DATA_ _ _ _ _ _ _ _) =>
      apply (callback_data_ok _ data Hset); [ | | | | | intros ? ?]
  | |- ctl_ok _ _ _ _ =>
      match goal with
      | |- context [if ?b then UPDATE_STATE _ _ else _] => destruct b eqn:?
      | |- context [if ?b then s_req_line_almost_done else _] => destruct b eqn:?
      end
  end.

(** * Facts about the tables *)

Lemma digit_range c : IS_NUM c = true -> 0 <= digit c <= 9.
Proof.
  unfold IS_NUM, digit. change (code "0") with 48. change (code "9") with 57. lia.
Qed.

Lemma unhex_range c : (unhex_at c =? -1) = false -> 0 <= unhex_at c <= 15.
Proof. intros Hc. pose proof (unhex_at_range c). lia. Qed.

Lemma start_method_slen c m : start_method c = Some m -> 2 <= slen (method_strings m).
Proof.
  enough (match start_method c with Some m => 2 <=? slen (method_strings m) | None => true end = true)
    as H by (intros Hm; rewrite Hm in H; lia).
  revert c. apply (forall_ascii (fun c => match start_method c with
    Some m => 2 <=? slen (method_strings m) | None => true end)). vm_compute. reflexivity.
Qed.

Definition all_methods : list http_method :=
  [HTTP_DELETE; HTTP_GET; HTTP_HEAD; HTTP_POST; HTTP_PUT; HTTP_CONNECT; HTTP_OPTIONS; HTTP_TRACE;
   HTTP_COPY; HTTP_LOCK; HTTP_MKCOL; HTTP_MOVE; HTTP_PROPFIND; HTTP_PROPPATCH; HTTP_SEARCH;
   HTTP_UNLOCK; HTTP_BIND; HTTP_REBIND; HTTP_UNBIND; HTTP_ACL; HTTP_REPORT; HTTP_MKACTIVITY;
   HTTP_CHECKOUT; HTTP_MERGE; HTTP_MSEARCH; HTTP_NOTIFY; HTTP_SUBSCRIBE; HTTP_UNSUBSCRIBE;
   HTTP_PATCH; HTTP_PURGE; HTTP_MKCALENDAR; HTTP_LINK; HTTP_UNLINK].

Lemma all_methods_complete m : In m all_methods.
Proof. destruct m; cbn; tauto. Qed.

Lemma forall_methods (f : http_method -> bool) : forallb f all_methods = true -> forall m, f m = true.
Proof. intros H m. rewrite forallb_forall in H. apply H, all_methods_complete. Qed.

Lemma method_slen m : 3 <= slen (method_strings m) <= 11.
Proof. destruct m; vm_compute; split; discriminate. Qed.

(** [method_key] tells its arguments apart. *)
Lemma method_key_value m i c :
  0 <= i < 256 -> method_key m i c = (method_num m * 256 + i) * 256 + code c.
Proof.
  intros Hi. pose proof (code_range c). unfold method_key.
  replace (Z.shiftl (method_num m) 16) with (Z.shiftl (Z.shiftl (method_num m) 8) 8)
    by (rewrite Z.shiftl_shiftl by lia; reflexivity).
  rewrite <- Z.shiftl_lor, !lor_shiftl_add by lia. reflexivity.
Qed.

(** After a switch to [m'] at index [i] the index stays inside the new name. *)
Lemma next_method_slen m i c m' :
  0 <= i <= slen (method_strings m) -> next_method m i c = Some m' -> i + 1 <= slen (method_strings m').
Proof.
  intros Hi Hm. pose proof (method_slen m) as Hs. unfold next_method in Hm.
  destruct (List.find _ _) as [[[[m0 i0] c0] m1]|] eqn:Hf; [injection Hm as -> | discriminate].
  apply find_some in Hf as [Hin Hk].
  assert (Hrow : Forall (fun '(_, i, _, m) => 0 <= i < 256 /\ i + 1 <= slen (method_strings m)) method_switch)
    by (repeat constructor; vm_compute; discriminate).
  rewrite Forall_forall in Hrow. apply list_elem_of_In in Hin. specialize (Hrow _ Hin). cbn in Hrow.
  rewrite !method_key_value in Hk by lia. pose proof (code_range c). pose proof (code_range c0).
  lia.
Qed.

Lemma c_str_at_some s i : 0 <= i <= slen s -> exists c, c_str_at s i = Some c.
Proof.
  intros Hi. unfold c_str_at, byte_at. replace (i <? 0) with false by lia.
  apply lookup_lt_is_Some. rewrite length_app. cbn.
  unfold slen in Hi. rewrite length_bs. lia.
Qed.

Lemma field_hs_start c : field_hs (start_header_state c) = true.
Proof. unfold start_header_state. repeat case_match; reflexivity. Qed.

Lemma u7_small z : 0 <= z < 128 -> u7 z = z.
Proof. apply Z.mod_small. Qed.

Lemma c_str_at_not_nul s i c : 0 <= i <= slen s -> c_str_at s i = Some c -> is_nul c = false -> i < slen s.
Proof.
  intros Hi Hc Hn. destruct (Z.eq_dec i (slen s)) as [->|]; [exfalso|lia].
  unfold c_str_at, byte_at, slen in *. replace (_ <? 0) with false in Hc by lia.
  rewrite lookup_app_r in Hc by (rewrite length_bs; lia).
  rewrite length_bs, Nat2Z.id, Nat.sub_diag in Hc. injection Hc as <-. discriminate.
Qed.

(** The URL states. *)
Definition url_state (s : state) : bool := mark_state For_url s.

Lemma parse_url_char_states s c :
  (url_state s || eqb s s_req_spaces_before_url)%bool = true ->
  (eqb (parse_url_char s c) s_dead || url_state (parse_url_char s c))%bool = true.
Proof.
  revert c. intros c Hs. revert c.
  apply (forall_ascii (fun c => (eqb (parse_url_char s c) s_dead || url_state (parse_url_char s c))%bool)).
  destruct s; try discriminate; vm_compute; reflexivity.
Qed.

(** * The cases of the [switch] *)
Section Cases.
Context {A : Type}.
Variable settings : http_parser_settings A.
Variable data : bytes.
Variable lenient : bool.
Hypothesis Hset : settings_ok settings.
Hypothesis Hlen : zlen data < 2 ^ 31.

Definition case_ok (k : ctx A) : Prop :=
  ctl_ok data (p k) (rank (p_state k)) (dispatch settings data lenient k).

(** Start of a message, status line and the fixed part of the request line. *)
Lemma line_cases_ok (k : ctx A) :
  inv data 1 k ->
  match p_state k with
  | s_dead | s_start_req_or_res | s_res_or_resp_H | s_start_res | s_res_H | s_res_HT | s_res_HTT
  | s_res_HTTP | s_res_http_major | s_res_http_dot | s_res_http_minor | s_res_http_end
  | s_res_first_status_code | s_res_status_code | s_res_status_start | s_res_status
  | s_res_line_almost_done | s_req_http_start | s_req_http_H | s_req_http_HT | s_req_http_HTT
  | s_req_http_HTTP | s_req_http_major | s_req_http_dot | s_req_http_minor | s_req_http_end
  | s_req_line_almost_done => case_ok k
  | _ => True
  end.
Proof.
  open_inv k. unfold case_ok, dispatch. exec_simpl.
  destruct ps; try exact I; clear_marks; cbn [wf_state] in Hst; autounfold with http_cases;
    repeat case_step data Hset; leaf.
Qed.

(** The method of a request. *)
Lemma method_cases_ok (k : ctx A) :
  inv data 1 k ->
  match p_state k with s_start_req | s_req_method => case_ok k | _ => True end.
Proof.
  open_inv k. unfold case_ok, dispatch. exec_simpl.
  destruct ps; try exact I; clear_marks; cbn [wf_state] in Hst; autounfold with http_cases.
  - repeat case_step data Hset; leaf;
      match goal with H : start_method _ = Some _ |- _ => apply start_method_slen in H end; lia.
  - destruct (c_str_at_some _ _ Hst) as [c Hc].
    pose proof (method_slen me) as Hme.
    repeat case_step data Hset; try congruence; leaf; rewrite u7_small by lia; try lia.
    + match goal with H : (cc =c _) = true |- _ => apply Ascii.eqb_eq in H; subst cc end.
      pose proof (c_str_at_not_nul _ _ _ Hst ltac:(eassumption) ltac:(eassumption)). lia.
    + match goal with H : next_method _ _ _ = Some _ |- _ => apply next_method_slen in H end; lia.
Qed.

Lemma url_step_ok (k : ctx A) i r :
  hp_http_errno (pr k) = HPE_OK -> 0 <= hp_nread (pr k) <= HTTP_MAX_HEADER_SIZE ->
  0 <= hp_content_length (pr k) <= ULLONG_MAX ->
  header_field_mark k = None -> header_value_mark k = None -> body_mark k = None ->
  status_mark k = None -> (exists m, url_mark k = Some m /\ 0 <= m <= p k) ->
  0 <= p k < zlen data -> i <= p k ->
  (url_state (p_state k) || eqb (p_state k) s_req_spaces_before_url)%bool = true ->
  ctl_ok data i r (url_step k).
Proof.
  destruct k as [x ap ps pp cc m1 m2 m3 m4 m5]; cbn. intros He Hnr Hcl -> -> -> -> (m & -> & Hm) Hp Hi Hs.
  pose proof (parse_url_char_states ps cc Hs) as Hc. unfold url_step. exec_simpl.
  destruct (eqb _ s_dead) eqn:Hd; [leaf|]. cbn [orb] in Hc.
  unfold url_state in Hc. leaf; destruct (parse_url_char ps cc); try discriminate; first [exact I | auto].
Qed.

Lemma url_cases_ok (k : ctx A) :
  inv data 1 k ->
  match p_state k with
  | s_req_spaces_before_url | s_req_schema | s_req_schema_slash | s_req_schema_slash_slash
  | s_req_server_start | s_req_server | s_req_server_with_at | s_req_path
  | s_req_query_string_start | s_req_query_string | s_req_fragment_start | s_req_fragment =>
      case_ok k
  | _ => True end.
Proof.
  open_inv k. unfold case_ok, dispatch. exec_simpl.
  destruct (eqb me HTTP_CONNECT) eqn:?, (cc =c CR) eqn:?;
  destruct ps; try exact I; clear_marks; cbn [wf_state] in Hst; autounfold with http_cases;
  repeat lazymatch goal with
    | |- ctl_ok _ _ _ (url_step _) =>
      apply url_step_ok; exec_simpl;
        try first [done | lia | eexists; split; [reflexivity | lia]
                  | destruct m3; cbn in Hm3; [|destruct Hm3; discriminate]; eexists; split; [reflexivity | lia]]
    | |- _ => exec_simpl; rewrite ?Heqb, ?Heqb0; case_step data Hset
    end; leaf.
  all: try match goal with m : option Z |- _ => destruct m; cbn in *; lia end.
Qed.
End Cases.
