(* ===== verification/HttpHeaders.v ===== *)
(** The header cases of [http_parser_execute] keep the invariant: the inner
    loops of [s_header_field] and [s_header_value], the matchers against the
    header-name and header-value constants, the [memchr] jump and the
    header-size count. *)
From Stdlib Require Import ZArith Lia Bool List String Ascii.
From stdpp Require Import base list strings.
From S2P Require Import Prelude HttpChars HttpTypes HttpUrl HttpExec HttpExecSafe HttpCases.

(** * Matchers *)

Lemma u7_range z : 0 <= u7 z < 128.
Proof. apply Z.mod_pos_bound. reflexivity. Qed.

Lemma match_next_ok s fail ok cur i c :
  0 <= i -> exists h, match_next s fail ok cur i c = Done h /\ (h = fail \/ h = ok \/ h = cur).
Proof.
  intros Hi. unfold match_next. destruct (slen s <? i) eqn:Hs; [eauto|].
  destruct (c_str_at_some s i) as [d ->]; [lia|].
  eexists. split; [reflexivity|]. destruct (_ <>c _); [auto|]. destruct (_ =? _); auto.
Qed.

(** A parser whose header matcher has moved. *)
Definition matched (hs : header_states) (ix : Z) (x : http_parser) : http_parser :=
  set_header_state hs (set_index ix x).

Lemma matched_same x : x = matched (hp_header_state x) (hp_index x) x.
Proof. destruct x; reflexivity. Qed.

Lemma match_header_ok s ok x c :
  field_hs ok = true -> field_hs (hp_header_state x) = true ->
  exists hs ix, match_header s ok x c = Done (matched hs ix x) /\ field_hs hs = true.
Proof.
  intros Hok Hx. unfold match_header, incr_index.
  pose proof (u7_range (hp_index x + 1)) as Hu.
  destruct (match_next_ok s h_general ok (hp_header_state x) (u7 (hp_index x + 1)) c) as (h & Hh & Hc); [lia|].
  cbn [hp_header_state hp_index set_index]. rewrite Hh. exists h, (u7 (hp_index x + 1)).
  split; [reflexivity|]. destruct Hc as [-> | [-> | ->]]; done.
Qed.

Lemma header_field_char_ok c0 c x :
  field_hs (hp_header_state x) = true ->
  exists hs ix, header_field_char c0 c x = Done (matched hs ix x) /\ field_hs hs = true.
Proof.
  intros Hx.
  assert (Hid : exists hs ix, Done x = Done (matched hs ix x) /\ field_hs hs = true)
    by (eexists _, _; split; [f_equal; apply matched_same | exact Hx]).
  unfold header_field_char. destruct (hp_header_state x) eqn:Hs; try discriminate;
    first [ exact Hid | apply match_header_ok; [reflexivity | rewrite Hs; reflexivity]
          | (destruct (c0 <>c _)%char; [|exact Hid]);
            exists h_general, (hp_index x); destruct x; done
          | eexists _, (u7 (hp_index x + 1)); split;
            [unfold matched, incr_index; reflexivity | repeat case_match; reflexivity] ].
Qed.

Section Headers.
Context {A : Type}.
Variable settings : http_parser_settings A.
Variable data : bytes.
Variable lenient : bool.
Hypothesis Hset : settings_ok settings.
Hypothesis Hlen : zlen data < 2 ^ 31.
Notation case_ok := (case_ok settings data lenient).

Lemma count_header_size_ok v (k : ctx A) rest i r :
  hp_http_errno (pr k) = HPE_OK -> 0 <= hp_nread (pr k) <= HTTP_MAX_HEADER_SIZE ->
  0 <= v < 2 ^ 31 -> 0 <= p k <= zlen data ->
  (forall n, n = hp_nread (pr k) + v -> 0 <= n <= HTTP_MAX_HEADER_SIZE -> ctl_ok data i r (rest (upd_pr (set_nread n) k))) ->
  ctl_ok data i r (COUNT_HEADER_SIZE v k rest).
Proof.
  intros He Hn Hv Hp Hrest. unfold COUNT_HEADER_SIZE. unfold HTTP_MAX_HEADER_SIZE in *.
  assert (Hu : u32 (hp_nread (pr k) + v) = hp_nread (pr k) + v) by (apply Z.mod_small; lia).
  replace (upd_pr (fun x => set_nread (u32 (hp_nread x + v)) x) k)
    with (upd_pr (set_nread (hp_nread (pr k) + v)) k) by (unfold upd_pr; rewrite Hu; reflexivity).
  change (hp_nread (pr (upd_pr (set_nread (hp_nread (pr k) + v)) k))) with (hp_nread (pr k) + v).
  destruct (_ <? _) eqn:Hb; [leaf|apply Hrest; [reflexivity | lia]].
Qed.

(** The loop of [s_header_field] moves the matcher and the position only. *)
Lemma header_field_loop_ok rest (k : ctx A) :
  field_hs (hp_header_state (pr k)) = true ->
  exists hs ix c q, header_field_loop rest k = Done (put_ch c (put_p q (upd_pr (matched hs ix) k)))
    /\ field_hs hs = true /\ p k <= q <= p k + zlen rest.
Proof.
  revert k. induction rest as [|c0 rest IH]; intros k Hk; cbn [header_field_loop].
  - eexists (hp_header_state (pr k)), (hp_index (pr k)), (ch k), (p k).
    split; [destruct k as [[] ? ? ? ? ? ? ? ? ?]; reflexivity|]. split; [done|]. unfold zlen. lia.
  - destruct (is_nul (TOKEN c0)).
    + eexists (hp_header_state (pr k)), (hp_index (pr k)), c0, (p k).
      split; [destruct k as [[] ? ? ? ? ? ? ? ? ?]; reflexivity|]. split; [done|]. unfold zlen. lia.
    + destruct (header_field_char_ok c0 (TOKEN c0) (pr k) Hk) as (hs & ix & Hc & Hhs).
      cbn [pr put_ch put_pr]. rewrite Hc.
      destruct (IH (put_p (p k + 1) (put_pr (matched hs ix (pr k)) (put_ch c0 k)))) as (hs' & ix' & c & q & Hl & Hhs' & Hq).
      { exact Hhs. }
      exists hs', ix', c, q. split; [|split; [exact Hhs'|]].
      * etransitivity; [exact Hl|]. destruct k as [[] ? ? ? ? ? ? ? ? ?]; reflexivity.
      * cbn in Hq. unfold zlen in *. cbn [length]. lia.
Qed.

Lemma field_cases_ok (k : ctx A) :
  inv data 1 k ->
  match p_state k with
  | s_header_field_start | s_header_field => case_ok k
  | _ => True
  end.
Proof.
  open_inv k. unfold HttpCases.case_ok, dispatch. exec_simpl.
  destruct ps; try exact I; clear_marks; cbn [wf_state] in Hst; autounfold with http_cases.
  - repeat case_step data Hset; leaf. apply field_hs_start.
  - exec_simpl. edestruct (header_field_loop_ok (drop (Z.to_nat pp) data)) as (hs' & ix' & c & q & -> & Hhs & Hq).
    { exact Hst. }
    rewrite zlen_drop in Hq by lia. cbn [p] in Hq.
    apply count_header_size_ok; exec_simpl; try (done || lia).
    intros n _ Hn. unfold matched.
    destruct m1 as [m1|]; cbn in Hm1; [|destruct Hm1; discriminate].
    repeat case_step data Hset; unfold HttpExec.data_end in *; leaf.
Qed.
(** * Header values *)

Lemma index_of_range c l j : index_of c l = Some j -> (j < length l)%nat.
Proof.
  revert j. induction l as [|d l IH]; intros j; [done|]. cbn.
  destruct (c =c d); [intros [= <-]; lia|].
  destruct (index_of c l); [|done]. intros [= <-]. specialize (IH _ eq_refl). lia.
Qed.

Lemma memchr_range i c n j :
  0 <= i <= zlen data -> memchr data i c n = Some j -> i <= j < zlen data.
Proof.
  intros Hi. unfold memchr. destruct (index_of c _) as [m|] eqn:Hm; [|done]. intros [= <-].
  apply index_of_range in Hm. unfold slice in Hm. rewrite length_take, length_drop in Hm.
  unfold zlen in *. lia.
Qed.

(** The jump never leaves the input and never moves back by more than one. *)
Lemma general_jump_range i : 0 <= i < zlen data -> i - 1 <= general_jump data i < zlen data.
Proof.
  intros Hi. unfold general_jump, HttpExec.data_end.
  destruct (memchr data i CR _) as [a|] eqn:Ha, (memchr data i LF _) as [b|] eqn:Hb;
    try (apply memchr_range in Ha; [|lia]); try (apply memchr_range in Hb; [|lia]);
    try destruct (b <=? a); lia.
Qed.

(** A character that is neither CR nor LF is skipped by the jump. *)
Lemma memchr_after i c d n j :
  byte_at data i = Some d -> (d =c c) = false -> memchr data i c n = Some j -> i < j.
Proof.
  intros Hd Hc. unfold memchr, slice, byte_at in *. destruct (i <? 0) eqn:Hi; [done|].
  destruct (Z.to_nat n) as [|m]; [done|].
  rewrite (drop_S data d (Z.to_nat i)) by exact Hd. cbn.
  rewrite Ascii.eqb_sym, Hc. destruct (index_of c _); [|done]. intros [= <-]. lia.
Qed.

Lemma byte_at_range (l : bytes) i d : byte_at l i = Some d -> 0 <= i < zlen l.
Proof.
  unfold byte_at, zlen. destruct (i <? 0) eqn:Hi; [done|]. intros H%lookup_lt_Some. lia.
Qed.

Lemma general_jump_progress i d :
  byte_at data i = Some d -> (d =c CR) = false -> (d =c LF) = false -> i <= general_jump data i.
Proof.
  intros Hd Hcr Hlf. pose proof (byte_at_range _ _ _ Hd). unfold general_jump, HttpExec.data_end.
  destruct (memchr data i CR _) as [a|] eqn:Ha, (memchr data i LF _) as [b|] eqn:Hb;
    try (eapply memchr_after in Ha; [|eassumption..]); try (eapply memchr_after in Hb; [|eassumption..]);
    try destruct (b <=? a); lia.
Qed.

(** A context whose matcher, flags and position have moved. *)
Definition moved (ix fl q : Z) (k : ctx A) : ctx A :=
  put_p q (upd_pr (fun x => set_flags fl (set_index ix x)) k).

Lemma match_value_ok str fail ok cur c (k : ctx A) :
  exists h ix, match_value str fail ok cur c k = Done (moved ix (hp_flags (pr k)) (p k) k, h)
    /\ (h = fail \/ h = ok \/ h = cur).
Proof.
  unfold match_value. pose proof (u7_range (hp_index (pr k) + 1)).
  destruct (match_next_ok str fail ok cur (u7 (hp_index (pr k) + 1)) c) as (h & Hm & Hh); [lia|].
  exists h, (u7 (hp_index (pr k) + 1)). split; [|exact Hh].
  change (hp_index (pr (upd_pr incr_index k))) with (u7 (hp_index (pr k) + 1)). rewrite Hm.
  destruct k as [[] ? ? ? ? ? ? ? ? ?]. reflexivity.
Qed.

Lemma header_value_char_ok h (k : ctx A) d :
  value_hs h = true -> h <> h_content_length -> byte_at data (p k) = Some d ->
  (d =c CR) = false -> (d =c LF) = false ->
  exists h' ix fl q, header_value_char data h k = Done (moved ix fl q k, h')
    /\ value_hs h' = true /\ p k <= q < zlen data.
Proof.
  intros Hh Hcl Hd Hcr Hlf. pose proof (byte_at_range _ _ _ Hd) as Hp.
  assert (Hid : moved (hp_index (pr k)) (hp_flags (pr k)) (p k) k = k)
    by (destruct k as [[] ? ? ? ? ? ? ? ? ?]; reflexivity).
  assert (Hstay : forall h', value_hs h' = true ->
    exists h'' ix fl q, Done (k, h') = Done (moved ix fl q k, h'') /\ value_hs h'' = true /\ p k <= q < zlen data).
  { intros h' Hh'. exists h', (hp_index (pr k)), (hp_flags (pr k)), (p k). rewrite Hid. split; [done|]. split; [done | lia]. }
  assert (Hmatch : forall str fail ok cur c, value_hs fail = true -> value_hs ok = true -> value_hs cur = true ->
    exists h' ix fl q, match_value str fail ok cur c k = Done (moved ix fl q k, h') /\ value_hs h' = true /\ p k <= q < zlen data).
  { intros str fail ok cur c ? ? ?.
    destruct (match_value_ok str fail ok cur c k) as (h' & ix & -> & Hc). do 4 eexists.
    split; [reflexivity|]. split; [destruct Hc as [-> | [-> | ->]]; done | lia]. }
  destruct h; try discriminate; try contradiction; cbn [header_value_char];
    first [ apply Hmatch; reflexivity
          | apply Hstay; repeat case_match; reflexivity
          | (destruct (ch k =c _)%char; [|apply Hstay; repeat case_match; reflexivity]);
            match goal with |- context [add_flag ?f] =>
              exists h_matching_connection_token_start, 0, (hp_flags (add_flag f (pr k))), (p k) end;
            split; [destruct k as [[] ? ? ? ? ? ? ? ? ?]; reflexivity | split; [done | lia]]
          | idtac ].
  - exists h_general, (hp_index (pr k)), (hp_flags (pr k)), (general_jump data (p k)).
    split; [destruct k as [[] ? ? ? ? ? ? ? ? ?]; reflexivity|]. split; [done|].
    pose proof (general_jump_range (p k) Hp). pose proof (general_jump_progress _ _ Hd Hcr Hlf). lia.
  - destruct (ch k =c _)%char; [|apply Hstay; reflexivity].
    exists h_matching_connection_token_start, 0, (hp_flags (pr k)), (p k).
    split; [destruct k as [[] ? ? ? ? ? ? ? ? ?]; reflexivity | split; [done | lia]].
Qed.

Lemma content_length_char_ok c x :
  0 <= hp_content_length x <= ULLONG_MAX ->
  match content_length_char c x with
  | inl x' => exists cl, x' = set_content_length cl x /\ 0 <= cl <= ULLONG_MAX
  | inr e => e = HPE_INVALID_CONTENT_LENGTH
  end.
Proof.
  intros Hx. unfold content_length_char. destruct (c =c _)%char.
  { exists (hp_content_length x). destruct x; auto. }
  destruct (negb _); [done|]. destruct (_ <? _); [done|].
  eexists. split; [reflexivity|]. unfold u64, ULLONG_MAX.
  pose proof (Z.mod_pos_bound (u64 (hp_content_length x * 10) + digit c) (2 ^ 64) eq_refl) as Hb.
  unfold u64 in Hb. lia.
Qed.

(** What the inner loop of [s_header_value] keeps, run from offset [start]. *)
Definition value_inv (start : Z) (k : ctx A) : Prop :=
  hp_http_errno (pr k) = HPE_OK /\ p_state k = s_header_value /\
  0 <= hp_nread (pr k) <= HTTP_MAX_HEADER_SIZE /\ 0 <= hp_content_length (pr k) <= ULLONG_MAX /\
  marks_ok s_header_value start k /\ 0 <= start <= p k /\ p k <= zlen data /\ start < zlen data.

Ltac open_value_inv k :=
  let x := fresh "x" in
  destruct k as [x ap ps pp cc m1 m2 m3 m4 m5];
  destruct x as [ty fl st hs ix ln nr cl ma mi sc me er up];
  intros (He & Hps & Hnr & Hcl & (Hm1 & Hm2 & Hm3 & Hm4 & Hm5) & Hp1 & Hp2 & Hst);
  cbn in He, Hps, Hp1, Hp2; exec_simpl_in Hnr; exec_simpl_in Hcl; exec_simpl_in Hm1;
  exec_simpl_in Hm2; exec_simpl_in Hm3; exec_simpl_in Hm4; exec_simpl_in Hm5;
  subst er ps; clear_marks.

Lemma value_inv_moved start ix fl q k :
  value_inv start k -> p k <= q < zlen data -> value_inv start (put_p (q + 1) (moved ix fl q k)).
Proof.
  intros (? & ? & ? & ? & Hm & ? & ? & ?) ?. unfold value_inv, marks_ok in *.
  destruct k as [[] ? ? ? ? ? ? ? ? ?]; cbn in *. split_all; lia || tauto.
Qed.

Lemma value_inv_content_length start cl k :
  value_inv start k -> 0 <= cl <= ULLONG_MAX -> p k < zlen data ->
  value_inv start (put_p (p k + 1) (upd_pr (set_content_length cl) k)).
Proof.
  intros (? & ? & ? & ? & Hm & ? & ? & ?) ? ?. unfold value_inv, marks_ok in *.
  destruct k as [[] ? ? ? ? ? ? ? ? ?]; cbn in *. split_all; lia || tauto.
Qed.

Lemma value_inv_ch start c k : value_inv start k -> value_inv start (put_ch c k).
Proof. exact id. Qed.

(** The end of the loop, the value complete or the input at its end. *)
Lemma header_value_done_ok start h (k : ctx A) :
  hp_http_errno (pr k) = HPE_OK -> 0 <= hp_nread (pr k) <= HTTP_MAX_HEADER_SIZE ->
  0 <= hp_content_length (pr k) <= ULLONG_MAX -> 0 <= start <= p k -> p k <= zlen data ->
  start < zlen data -> marks_ok (p_state k) start k ->
  (p_state k = s_header_value /\ value_hs h = true \/ p_state k = s_header_almost_done) ->
  ctl_ok data start 1 (header_value_done data start h k).
Proof.
  destruct k as [x ap ps pp cc m1 m2 m3 m4 m5]. destruct x. cbn.
  intros -> Hn Hcl Hs Hp Hst (Hm1 & Hm2 & Hm3 & Hm4 & Hm5) Hps.
  unfold header_value_done. exec_simpl.
  apply count_header_size_ok; exec_simpl; try (done || lia). intros n _ Hn'. exec_simpl.
  unfold HttpExec.data_end.
  destruct Hps as [[-> Hv] | ->]; cbn in Hm1, Hm2, Hm3, Hm4, Hm5; clear_marks;
    destruct (_ =? _) eqn:He; leaf;
      (destruct m2 as [m2|]; cbn in *; [lia | destruct Hm2; discriminate]).
Qed.

Lemma header_value_loop_ok fuel start h (k : ctx A) :
  value_inv start k -> value_hs h = true -> zlen data - p k < Z.of_nat fuel ->
  ctl_ok data start 1 (header_value_loop settings data lenient fuel start h k).
Proof.
  revert h k. induction fuel as [|fuel IH]; intros h k Hk Hh Hf; [destruct Hk; lia|].
  cbn [header_value_loop]. unfold HttpExec.data_end at 1.
  destruct (p k =? zlen data) eqn:Hend.
  { revert Hk Hend. open_value_inv k. intros Hend. cbn in Hend.
    apply header_value_done_ok; cbn; auto; repeat split; cbn; auto. }
  assert (Hp : 0 <= p k < zlen data) by (unfold value_inv in Hk; lia).
  destruct (byte_at data (p k)) as [d|] eqn:Hd; [|unfold byte_at in Hd;
    replace (p k <? 0) with false in Hd by lia; apply lookup_ge_None in Hd; unfold zlen in Hp; lia].
  destruct (d =c CR) eqn:Hcr; [|destruct (d =c LF) eqn:Hlf; [|destruct (negb lenient && _); [|
    destruct (eqb h h_content_length) eqn:Hhc]]].
  - revert Hk Hend Hp. clear Hd IH Hf. open_value_inv k. intros Hend Hp. exec_simpl_in Hp.
    apply (callback_data_ok _ data Hset); leaf; try (destruct m2; cbn in *; intros ? [=]; lia).
    intros s a. apply header_value_done_ok; exec_simpl; auto with lia; repeat split; cbn; auto.
  - revert Hk Hend Hp. clear Hd IH Hf. open_value_inv k. intros Hend Hp. exec_simpl_in Hp. exec_simpl.
    apply count_header_size_ok; exec_simpl; try (done || lia). intros n _ Hn.
    apply (callback_data_ok _ data Hset); leaf; try (destruct m2; cbn in *; intros ? [=]; lia).
    intros s a. leaf.
  - revert Hk Hp. open_value_inv k. intros Hp. leaf.
  - apply bool_decide_eq_true in Hhc. subst h.
    pose proof (content_length_char_ok d (pr k)) as Hc. change (pr (put_ch d k)) with (pr k).
    destruct (content_length_char d (pr k)) as [x'|e].
    + destruct Hc as (cl' & -> & Hcl'); [apply Hk|].
      apply IH; [|done|cbn; lia].
      apply (value_inv_content_length start cl' (put_ch d k)); [exact Hk | exact Hcl' | exact (proj2 Hp)].
    + specialize (Hc ltac:(apply Hk)). subst e. revert Hk Hp. open_value_inv k. intros Hp. leaf.
  - apply bool_decide_eq_false in Hhc.
    destruct (header_value_char_ok h (put_ch d k) d Hh Hhc Hd Hcr Hlf) as (h' & ix & fl & q & -> & Hh' & Hq).
    apply IH; [|exact Hh'|cbn in *; lia].
    exact (value_inv_moved start ix fl q (put_ch d k) Hk Hq).
Qed.

Lemma value_cases_ok (k : ctx A) :
  inv data 1 k ->
  match p_state k with
  | s_header_value_discard_ws | s_header_value_start | s_header_value | s_header_almost_done
  | s_header_value_lws | s_header_value_discard_ws_almost_done | s_header_value_discard_lws => case_ok k
  | _ => True
  end.
Proof.
  open_inv k. unfold HttpCases.case_ok, dispatch. exec_simpl.
  destruct ps; try exact I; clear_marks; cbn [wf_state] in Hst; autounfold with http_cases.
  all: try (exec_simpl; apply header_value_loop_ok; [repeat split; cbn; auto; lia | exact Hst | cbn; unfold HttpExec.data_end; lia]).
  all: repeat case_step data Hset; leaf;
    first [ repeat case_match; reflexivity
          | match goal with H : negb (IS_NUM _) = false |- _ =>
              apply negb_false_iff, digit_range in H; unfold ULLONG_MAX; lia end ].
Qed.
End Headers.
