(* ===== verification/HttpSafe.v ===== *)
(** Safety of [http_parser_execute], the rest: the end-of-headers and body
    cases, the [reexecute:] chain, the character loop and the call as a
    whole. *)
From Stdlib Require Import ZArith Lia Bool List String Ascii.
From stdpp Require Import base list strings.
From S2P Require Import Prelude HttpChars HttpTypes HttpUrl HttpExec HttpExecSafe HttpCases HttpHeaders.

Section Body.
Context {A : Type}.
Variable settings : http_parser_settings A.
Variable data : bytes.
Variable lenient : bool.
Hypothesis Hset : settings_ok settings.
Hypothesis Hlen : zlen data < 2 ^ 31.
Notation case_ok := (case_ok settings data lenient).

Lemma headers_complete_ok (k : ctx A) i r rest :
  hp_http_errno (pr k) = HPE_OK -> wf_at 0 (p_state k) (pr k) -> p_state k = s_headers_done ->
  0 <= p k < zlen data ->
  (forall e fl up a, e = HPE_OK \/ e = HPE_PAUSED ->
     ctl_ok data i r (rest (put_app a (upd_pr (fun x => set_http_errno e (set_flags fl (set_upgrade up x))) k)))) ->
  ctl_ok data i r (headers_complete settings k rest).
Proof.
  destruct k as [x ap ps pp cc m1 m2 m3 m4 m5].
  destruct x as [ty fl st hs ix ln nr cl ma mi sc me er up]. cbn.
  intros -> Hwf -> Hp Hrest. unfold headers_complete.
  pose proof (ok_headers_complete _ Hset) as Hcb. destruct (on_headers_complete settings) as [f|].
  2:{ apply (Hrest HPE_OK fl up ap). auto. }
  cbn [opt_ok pr app]. match goal with |- context [f ?x ?a] => specialize (Hcb x a) end.
  destruct (f _ _) as [[x a] ret]. cbn in Hcb.
  assert (Hx : exists e, (e = HPE_OK \/ e = HPE_PAUSED) /\
    x = mk_http_parser ty fl st hs ix ln nr cl ma mi sc me e up).
  { destruct Hcb as [-> | ->]; eauto. }
  destruct Hx as (e & He & ->).
  destruct (ret =? 0); [exact (Hrest e fl up a He)|].
  destruct (ret =? 2); [exact (Hrest e _ true a He)|].
  destruct (ret =? 1); [exact (Hrest e _ up a He)|].
  exec_simpl. cbn [ctl_ok]. unfold ret_ok, parser_wf. exec_simpl.
  split; [exact I|]. split; [lia|]. right; left; discriminate.
Qed.

Lemma new_message_cases x : NEW_MESSAGE x = s_dead \/ NEW_MESSAGE x = s_start_req \/ NEW_MESSAGE x = s_start_res.
Proof. unfold NEW_MESSAGE, start_state. repeat case_match; auto. Qed.

Lemma headers_cases_ok (k : ctx A) :
  inv data 1 k ->
  match p_state k with
  | s_headers_almost_done | s_headers_done | s_message_done => case_ok k
  | _ => True
  end.
Proof.
  open_inv k. unfold HttpCases.case_ok, dispatch. exec_simpl.
  destruct ps; try exact I; clear_marks; cbn [wf_state] in Hst; autounfold with http_cases.
  - repeat lazymatch goal with
    | |- ctl_ok _ _ _ (headers_complete _ _ _) =>
        apply headers_complete_ok; exec_simpl; [done | leaf | done | lia | intros e fl' up' a [-> | ->]; exec_simpl]
    | |- _ => case_step data Hset
    end; leaf.
  - exec_simpl.
    match goal with |- context [NEW_MESSAGE ?x] => destruct (new_message_cases x) as [-> | [-> | ->]] end;
      repeat case_step data Hset; leaf;
      match goal with
      | H : up && _ = true |- _ => apply andb_true_iff in H; tauto
      | H : has_flag F_CHUNKED _ = true |- _ => exact H
      | _ => unfold ULLONG_MAX in *; lia
      end.
  - exec_simpl.
    match goal with |- context [NEW_MESSAGE ?x] => destruct (new_message_cases x) as [-> | [-> | ->]] end;
      repeat case_step data Hset; leaf.
Qed.

(** Reading body bytes moves the position and the remaining length. *)
Lemma read_body_ok (k : ctx A) :
  0 < hp_content_length (pr k) <= ULLONG_MAX -> 0 <= p k < zlen data ->
  exists n, 0 < n <= hp_content_length (pr k) /\ p k + n <= zlen data /\
    read_body data k =
      put_p (p k + (n - 1)) (upd_pr (set_content_length (hp_content_length (pr k) - n)) (MARK For_body k)).
Proof.
  intros Hcl Hp. unfold ULLONG_MAX in *. exists (to_read data k).
  assert (Hn : to_read data k = Z.min (hp_content_length (pr k)) (zlen data - p k)).
  { unfold to_read, u64, HttpExec.data_end. rewrite Z.mod_small by lia. reflexivity. }
  split; [lia|]. split; [lia|]. unfold read_body. f_equal.
  - destruct k as [[] ? ? ? ? ? ? ? [] ?]; reflexivity.
  - unfold upd_pr. f_equal.
    replace (hp_content_length (pr (MARK For_body k))) with (hp_content_length (pr k))
      by (destruct k as [[] ? ? ? ? ? ? ? [] ?]; reflexivity).
    unfold u64. rewrite Z.mod_small by lia. reflexivity.
Qed.

(** The states of a body with a known length. *)
Lemma counted_body_ok (k : ctx A) :
  inv data 1 k ->
  match p_state k with s_body_identity | s_chunk_data => case_ok k | _ => True end.
Proof.
  open_inv k. unfold HttpCases.case_ok, dispatch. exec_simpl.
  destruct ps; try exact I; clear_marks; cbn [wf_state] in Hst; autounfold with http_cases;
    unfold body_length_ok, has_flag; exec_simpl;
    (assert (Hrange : 0 < cl < ULLONG_MAX) by tauto);
    replace (cl =? 0) with false by lia; replace (cl =? ULLONG_MAX) with false by lia;
    try (destruct Hst as [Hst _]; rewrite Hst);
    match goal with |- context [read_body data ?k] =>
      destruct (read_body_ok k) as (n & Hn & Hpn & ->); [cbn; lia.. |] end;
    cbn in Hn, Hpn;
    destruct m4 as [m|]; cbn in Hm4; repeat case_step data Hset; leaf.
Qed.

(** A hex digit of a chunk size: no wrap-around, and room for sixteen more. *)
Lemma chunk_size_next cl v :
  0 <= cl -> ((ULLONG_MAX - 16) / 16 <? cl) = false -> 0 <= v <= 15 ->
  u64 (u64 (cl * 16) + v) = cl * 16 + v /\ 0 <= cl * 16 + v <= ULLONG_MAX - 16.
Proof.
  intros Hcl Hb Hv. change ((ULLONG_MAX - 16) / 16) with (2 ^ 60 - 2) in Hb.
  unfold u64, ULLONG_MAX. rewrite (Z.mod_small (cl * 16)) by lia.
  rewrite Z.mod_small by lia. lia.
Qed.

(** The chunk headers and trailers, and a body up to the end of the input. *)
Lemma chunk_cases_ok (k : ctx A) :
  inv data 1 k ->
  match p_state k with
  | s_body_identity_eof | s_chunk_size_start | s_chunk_size | s_chunk_parameters
  | s_chunk_size_almost_done | s_chunk_data_almost_done | s_chunk_data_done => case_ok k
  | _ => True
  end.
Proof.
  open_inv k. unfold HttpCases.case_ok, dispatch. exec_simpl.
  destruct ps; try exact I; clear_marks; cbn [wf_state] in Hst; autounfold with http_cases;
    unfold has_flag, HttpExec.data_end; exec_simpl;
    repeat match goal with
    | H : _ /\ _ |- _ => destruct H
    | H : flag_set F_CHUNKED _ = true |- _ => progress rewrite H
    | H : nr = 1 |- _ => subst nr
    | H : cl = 0 |- _ => subst cl
    end.
  4: destruct (cl =? 0) eqn:?.
  all: try (destruct m4; cbn in Hm4).
  all: repeat case_step data Hset; leaf.
  all: repeat match goal with
    | H : (unhex_at _ =? -1) = false |- _ => apply unhex_range in H
    | H : (_ / 16 <? ?c) = false, H' : 0 <= unhex_at _ <= 15 |- _ =>
        destruct (chunk_size_next c _ ltac:(lia) H H') as [-> ?]; clear H
    end.
  all: try (unfold ULLONG_MAX in *; lia).
Qed.

(** Every case of the [switch] keeps the invariant. *)
Lemma dispatch_ok (k : ctx A) : inv data 1 k -> case_ok k.
Proof.
  intros Hk.
  pose proof (line_cases_ok settings data lenient Hset k Hk).
  pose proof (method_cases_ok settings data lenient Hset k Hk).
  pose proof (url_cases_ok settings data lenient Hset k Hk).
  pose proof (field_cases_ok settings data lenient Hset Hlen k Hk).
  pose proof (value_cases_ok settings data lenient Hset Hlen k Hk).
  pose proof (headers_cases_ok k Hk). pose proof (counted_body_ok k Hk).
  pose proof (chunk_cases_ok k Hk).
  destruct (p_state k) eqn:Hs; assumption.
Qed.

(** * The loops *)

Lemma ctl_ok_later i j r (c : ctl A) : i <= j -> ctl_ok data j r c -> ctl_ok data i r c.
Proof. intros Hij. destruct c; cbn; try tauto; intros H; decompose [and] H; auto with lia. Qed.

Lemma reexecute_ok fuel (k : ctx A) :
  inv data 1 k -> (rank (p_state k) < fuel)%nat ->
  ctl_ok data (p k) 0 (reexecute settings data lenient fuel k).
Proof.
  revert k. induction fuel as [|fuel IH]; intros k Hk Hr; [lia|]. cbn [reexecute].
  pose proof (dispatch_ok k Hk) as Hd. unfold HttpCases.case_ok in Hd.
  destruct (dispatch settings data lenient k) as [k'|k'|k'|x' a' n|w|]; try exact Hd.
  destruct Hd as (Hk' & Hp & Hr'). apply (ctl_ok_later _ (p k')); [exact Hp|].
  apply IH; [exact Hk' | clear - Hr Hr'; lia].
Qed.

Lemma rank_fuel s : (rank s < REEXECUTE_FUEL)%nat.
Proof. unfold REEXECUTE_FUEL. destruct s; cbn; lia. Qed.

Lemma wf_switch s x :
  wf_at 0 s x -> PARSING_HEADER s = false -> wf_at 1 s x.
Proof. intros (Hn & Hc & Hs). split; [exact Hn|]. split; [exact Hc|]. destruct s; done. Qed.

Lemma exec_char_ok (k : ctx A) :
  inv data 0 k -> ctl_ok data (p k) 0 (exec_char settings data lenient k).
Proof.
  intros (He & Hwf & Hm & Hp). unfold exec_char. destruct (PARSING_HEADER (p_state k)) eqn:Hh.
  - apply count_header_size_ok; [exact He | apply Hwf | lia | lia |].
    intros n Hn Hn'. refine (reexecute_ok _ (upd_pr (set_nread n) k) _ (rank_fuel _)).
    destruct Hwf as (_ & Hc & Hs).
    split; [exact He|]. split; [|split; [exact Hm | exact Hp]].
    split; [exact Hn'|]. split; [exact Hc|]. cbn. destruct (p_state k); try exact Hs.
    cbn in Hs |- *. split; [tauto | lia].
  - apply (reexecute_ok _ k); [|apply rank_fuel].
    split; [exact He|]. split; [exact (wf_switch _ _ Hwf Hh) | auto].
Qed.

(** The leftover-mark callbacks. *)
Lemma marks_ok_end s i (k : ctx A) : marks_ok s i k -> mark_count k <= 1.
Proof.
  destruct k as [x ap ps pp cc m1 m2 m3 m4 m5]. intros (Hm1 & Hm2 & Hm3 & Hm4 & Hm5).
  unfold mark_count. cbn in *. destruct m1, m2, m3, m4, m5; try lia; exfalso; cbn in *;
    destruct s; cbn in *; intuition discriminate.
Qed.

Lemma exec_finish_ok (k : ctx A) :
  hp_http_errno (pr k) = HPE_OK -> wf_at 0 (p_state k) (pr k) -> marks_ok (p_state k) (p k) k ->
  p k = zlen data -> ctl_ok data (p k) 0 (exec_finish settings data k).
Proof.
  intros He Hwf Hm Hp. unfold exec_finish. pose proof (marks_ok_end _ _ k Hm) as Hc.
  replace (mark_count k <=? 1) with true by lia. cbn [negb].
  destruct k as [x ap ps pp cc m1 m2 m3 m4 m5]. destruct x. cbn in He, Hp. subst pp. subst.
  destruct Hm as (Hm1 & Hm2 & Hm3 & Hm4 & Hm5). destruct Hwf as (Hn & Hcl & Hs).
  cbn in Hm1, Hm2, Hm3, Hm4, Hm5, Hn, Hcl, Hs |-.
  pose proof (Zle_0_nat (length data)) as H0. fold (zlen data) in H0.
  autounfold with http_cases.
  repeat (apply (callback_data_ok _ data Hset); exec_simpl; [..|intros ? ?; exec_simpl]);
    leaf; try first [ left; reflexivity
      | match goal with |- forall m, ?o = Some m -> _ => intros m ->; cbn in *; lia end ].
Qed.

(** The loop over the characters, with one unit of fuel per character left. *)
Lemma exec_loop_ok fuel (k : ctx A) :
  hp_http_errno (pr k) = HPE_OK -> wf_at 0 (p_state k) (pr k) -> marks_ok (p_state k) (p k) k ->
  0 <= p k <= zlen data -> zlen data - p k <= Z.of_nat fuel ->
  ctl_ok data (zlen data) 0 (exec_loop settings data lenient fuel k).
Proof.
  revert k. induction fuel as [|fuel IH]; intros k He Hwf Hm Hp Hf;
    cbn [exec_loop]; unfold HttpExec.data_end at 1; destruct (p k =? zlen data) eqn:Hend;
    try lia; apply Z.eqb_eq in Hend || apply Z.eqb_neq in Hend;
    try (rewrite <- Hend at 1; apply exec_finish_ok; assumption).
  assert (Hlt : 0 <= p k < zlen data) by lia.
  destruct (byte_at data (p k)) as [d|] eqn:Hd; [|unfold byte_at in Hd;
    replace (p k <? 0) with false in Hd by lia; apply lookup_ge_None in Hd; unfold zlen in Hlt; lia].
  pose proof (exec_char_ok (put_ch d k) (conj He (conj Hwf (conj Hm Hlt)))) as Hx.
  destruct (exec_char settings data lenient (put_ch d k)) as [k'|k'|k'|x' a' n|w|]; try exact Hx.
  - destruct Hx as ((He' & Hwf' & Hm' & Hp') & Hpk). cbn in Hpk.
    apply IH; [exact He' | exact Hwf' | | cbn; lia | cbn; lia].
    destruct k' as [x' ap' ps' pp' cc' m1 m2 m3 m4 m5].
    destruct Hm' as (Hm1 & Hm2 & Hm3 & Hm4 & Hm5). cbn in *.
    repeat split; cbn; match goal with |- mark_ok _ _ _ ?m => destruct m; cbn in *; intuition lia end.
  - destruct Hx as (_ & _ & Hr). lia.
Qed.

Lemma entry_marks_ok (x : http_parser) (a : A) :
  marks_ok (hp_state x) 0 (entry_marks (initial_ctx x a)).
Proof. unfold entry_marks. destruct x as [? ? st]. destruct st; repeat split; cbn; first [lia | left; reflexivity | right; reflexivity]. Qed.

Lemma entry_marks_pr (x : http_parser) (a : A) :
  let k := entry_marks (initial_ctx x a) in pr k = x /\ p_state k = hp_state x /\ p k = 0.
Proof. unfold entry_marks. destruct x as [? ? st]. destruct st; auto. Qed.

(** The end of the input. *)
Lemma exec_eof_ok (x : http_parser) (a : A) :
  hp_http_errno x = HPE_OK -> wf_at 0 (hp_state x) x -> zlen data = 0 ->
  match exec_eof settings (initial_ctx x a) with
  | Return x' _ n => parser_wf x' /\ (n = 0 \/ n = 1 /\ hp_http_errno x' = HPE_INVALID_EOF_STATE)
  | Error k => err_ok data k
  | _ => False
  end.
Proof.
  intros He Hwf Hz. unfold exec_eof. cbn [p_state initial_ctx].
  assert (Hpwf : parser_wf x) by (unfold parser_wf; rewrite He; exact Hwf).
  assert (Hcb : ctl_ok data 0 0 (CALLBACK_NOTIFY_NOADVANCE (on_message_complete settings)
            HPE_CB_message_complete (initial_ctx x a) (fun k => Return (pr k) (app k) 0))).
  { apply callback_notify_ok; [apply Hset | done | exact He | exact Hwf | cbn; lia |].
    intros s a' Hs. assert (s = hp_state x) as -> by (destruct Hs; assumption).
    unfold ctl_ok, ret_ok. destruct x. cbn in *. split; [exact Hpwf | lia]. }
  destruct (CALLBACK_NOTIFY_NOADVANCE _ _ _ _) as [k'|k'|k'|x' a' n|w|];
    [destruct Hcb as ((_ & _ & _ & ?) & _); lia | destruct Hcb as (_ & _ & ?); lia | |
     destruct Hcb as (? & ? & _) | destruct Hcb | destruct Hcb].
  all: destruct (hp_state x); cbn; try exact Hcb; try (split; [exact Hpwf | auto; fail]); split; auto; lia.
Qed.
End Body.

(** * The call *)

(** What a call that returns [n] with parser [x] promises. *)
Definition call_ok (len n : Z) (x : http_parser) : Prop :=
  if len =? 0 then
    n = 0 \/ n = 1 /\ hp_http_errno x = HPE_INVALID_EOF_STATE
  else 0 <= n <= len /\ (n = len \/ hp_http_errno x <> HPE_OK \/ hp_upgrade x = true).

(** The [error:] label. *)
Lemma error_label_ok {A} data (k : ctx A) :
  err_ok data k ->
  let k' := if errno_ok (pr k) then SET_ERRNO HPE_UNKNOWN k else k in
  parser_wf (set_state (p_state k') (pr k')) /\ 0 <= p k' <= zlen data /\
  hp_http_errno (set_state (p_state k') (pr k')) <> HPE_OK.
Proof.
  intros (He & Hp & Hr). assert (Hok : errno_ok (pr k) = false)
    by (unfold errno_ok; destruct (hp_http_errno (pr k)); done).
  rewrite Hok. cbn. split; [|auto]. unfold parser_wf. cbn.
  destruct (hp_http_errno (pr k)); try exact I; contradiction.
Qed.

Lemma errno_ok_spec x : errno_ok x = true <-> hp_http_errno x = HPE_OK.
Proof. unfold errno_ok. destruct (hp_http_errno x); split; congruence. Qed.

Lemma execute_wf {A} (settings : http_parser_settings A) x a data :
  settings_ok settings -> zlen data < 2 ^ 31 -> parser_wf x ->
  exists x' a' n, http_parser_execute settings x a data = Returned x' a' n /\
    parser_wf x' /\ call_ok (zlen data) n x'.
Proof.
  intros Hset Hlen Hx. unfold http_parser_execute, exec_body, call_ok, data_end.
  destruct (errno_ok x) eqn:Hok; cbn [negb].
  2:{ exists x, a, 0. split; [reflexivity|]. split; [exact Hx|].
      assert (hp_http_errno x <> HPE_OK) by (rewrite <- errno_ok_spec, Hok; done).
      destruct (_ =? 0) eqn:Hz; [auto|]. unfold zlen. split; [lia | auto]. }
  apply errno_ok_spec in Hok. pose proof Hx as Hwf. unfold parser_wf in Hwf. rewrite Hok in Hwf.
  destruct (zlen data =? 0) eqn:Hz.
  - pose proof (exec_eof_ok settings data Hset x a Hok Hwf ltac:(lia)) as Hc.
    destruct (exec_eof _ _) as [k'|k'|k'|x' a' n|w|]; try contradiction.
    + destruct (error_label_ok data k' Hc) as (? & ? & ?).
      do 3 eexists. split; [reflexivity|]. split; [assumption | left; lia].
    + do 3 eexists. split; [reflexivity|]. exact Hc.
  - destruct (entry_marks_pr x a) as (Hpr & Hps & Hp).
    pose proof (exec_loop_ok settings data (hp_lenient_http_headers x) Hset Hlen (S (length data))
      (entry_marks (initial_ctx x a))) as Hl.
    rewrite Hpr, Hps, Hp in Hl.
    specialize (Hl Hok Hwf (entry_marks_ok x a) ltac:(unfold zlen; lia) ltac:(unfold zlen; lia)).
    destruct (exec_loop _ _ _ _ _) as [k'|k'|k'|x' a' n|w|]; try contradiction.
    + destruct Hl as ((_ & _ & _ & ?) & ?). lia.
    + destruct Hl as (_ & _ & ?). lia.
    + destruct (error_label_ok data k' Hl) as (? & ? & ?).
      do 3 eexists. split; [reflexivity|]. auto.
    + do 3 eexists. split; [reflexivity|]. exact Hl.
Qed.
