(* ===== verification/HttpContract.v ===== *)
(** What a user of the HTTP parser can rely on: the parser objects a program
    can build through the interface of [http_parser.h], and the contract of
    [http_parser_execute] on every one of them. *)
From Stdlib Require Import ZArith Lia Bool List String Ascii.
From stdpp Require Import base list strings.
From S2P Require Import Prelude HttpChars HttpTypes HttpUrl HttpExec HttpExecSafe HttpRecord HttpSafe.

(** * Reachable parser objects *)

Section Reach.
Context {A : Type}.
Variable settings : http_parser_settings A.

(** [http_parser_init], [http_parser_execute] on an input shorter than 2 GB,
    [http_parser_pause] and the [lenient_http_headers] bit. *)
Inductive parser_reach : http_parser -> Prop :=
| reach_init t : parser_reach (http_parser_init t)
| reach_execute x a data x' a' n :
    parser_reach x -> zlen data < 2 ^ 31 ->
    http_parser_execute settings x a data = Returned x' a' n -> parser_reach x'
| reach_pause x b x' : parser_reach x -> http_parser_pause x b = Done x' -> parser_reach x'
| reach_lenient x b : parser_reach x -> parser_reach (set_lenient_http_headers b x).

Lemma init_wf t : parser_wf (http_parser_init t).
Proof. destruct t; vm_compute; repeat split; discriminate. Qed.

Lemma pause_wf x b x' : parser_wf x -> http_parser_pause x b = Done x' -> parser_wf x'.
Proof.
  unfold http_parser_pause. intros Hx.
  destruct (errno_ok x || eqb (hp_http_errno x) HPE_PAUSED) eqn:Hb; [|discriminate].
  intros [= <-]. unfold parser_wf in *.
  apply orb_true_iff in Hb as [He%errno_ok_spec | He%bool_decide_eq_true];
    rewrite He in Hx; cbn; destruct (b =? 0); exact Hx.
Qed.

Lemma reach_wf x : settings_ok settings -> parser_reach x -> parser_wf x.
Proof.
  intros Hset. induction 1 as [t|x a data x' a' n _ IH Hlen Hx|x b x' _ IH Hx|x b _ IH].
  - apply init_wf.
  - destruct (execute_wf settings x a data Hset Hlen IH) as (x2 & a2 & n2 & Heq & Hwf & _).
    rewrite Heq in Hx. injection Hx as <- _ _. exact Hwf.
  - exact (pause_wf x b x' IH Hx).
  - exact IH.
Qed.
End Reach.

(** * The contract of a call *)

Definition http_crlf : bytes := [CR; LF].

(** A request in two pieces, the second ending in the body. *)
Definition post_head : bytes :=
  bs "POST /a HTTP/1.1" ++ http_crlf ++ bs "Content-Length: 4" ++ http_crlf ++ http_crlf ++ bs "ab".
Definition fresh : http_parser := http_parser_init HTTP_REQUEST.
Definition after1 : http_parser := ret_parser (http_parser_execute recorder fresh [] post_head).
Definition run2 : exec_result trace := http_parser_execute recorder after1 [] (bs "cd").

Lemma after1_reach : parser_reach recorder after1.
Proof. eapply (reach_execute _ fresh [] post_head); [apply reach_init | reflexivity | vm_compute; reflexivity]. Qed.

(** C2: on every parser object a program can build, with callbacks that leave
    the parser alone or pause it, every call of [http_parser_execute] returns:
    no [assert] fails, no string constant or input byte is read out of bounds,
    no callback gets a range outside the input, and no loop runs for ever. *)
Theorem execute_returns {A} (settings : http_parser_settings A) x a data
    (Hset : settings_ok settings) (Hx : parser_reach settings x) (Hlen : zlen data < 2 ^ 31) :
  exists x' a' n, http_parser_execute settings x a data = Returned x' a' n.
Proof.
  destruct (execute_wf settings x a data Hset Hlen (reach_wf settings x Hset Hx)) as (x' & a' & n & H & _).
  eauto.
Qed.

Lemma execute_returns_witness : exists x' a' n, http_parser_execute recorder after1 [] (bs "cd") = Returned x' a' n.
Proof. apply (execute_returns recorder after1 [] (bs "cd")); [exact recorder_ok | exact after1_reach | reflexivity]. Defined.

(** C3: the value returned for a non-empty input is a count of bytes of the
    input, and it is short of the whole input only when the parser reports an
    error (or a pause) or the message asks for an upgrade; at the end of the
    input it is 0, or 1 with [HPE_INVALID_EOF_STATE]. *)
Theorem execute_return_value {A} (settings : http_parser_settings A) x a data x' a' n
    (Hset : settings_ok settings) (Hx : parser_reach settings x) (Hlen : zlen data < 2 ^ 31)
    (Hrun : http_parser_execute settings x a data = Returned x' a' n) :
  if zlen data =? 0 then n = 0 \/ n = 1 /\ hp_http_errno x' = HPE_INVALID_EOF_STATE
  else 0 <= n <= zlen data /\ (n = zlen data \/ hp_http_errno x' <> HPE_OK \/ hp_upgrade x' = true).
Proof.
  destruct (execute_wf settings x a data Hset Hlen (reach_wf settings x Hset Hx))
    as (x2 & a2 & n2 & Heq & _ & Hc).
  rewrite Heq in Hrun. injection Hrun as <- <- <-. exact Hc.
Qed.

Lemma execute_return_value_witness :
  0 <= ret_count run2 <= 2 /\
  (ret_count run2 = 2 \/ hp_http_errno (ret_parser run2) <> HPE_OK \/ hp_upgrade (ret_parser run2) = true).
Proof.
  apply (execute_return_value recorder after1 [] (bs "cd") (ret_parser run2) (ret_trace run2) (ret_count run2));
    [exact recorder_ok | exact after1_reach | reflexivity | vm_compute; reflexivity].
Defined.

(** C4: a parser that has no error has counted at most
    [HTTP_MAX_HEADER_SIZE] bytes of header, its remaining length fits 64 bits,
    and a body state has a length that is neither zero nor unknown. *)
Theorem reach_bounds {A} (settings : http_parser_settings A) x
    (Hset : settings_ok settings) (Hx : parser_reach settings x) (Hok : hp_http_errno x = HPE_OK) :
  0 <= hp_nread x <= HTTP_MAX_HEADER_SIZE /\ 0 <= hp_content_length x <= ULLONG_MAX /\
  (hp_state x = s_body_identity \/ hp_state x = s_chunk_data ->
     0 < hp_content_length x < ULLONG_MAX) /\
  (hp_state x = s_req_method -> 0 <= hp_index x <= slen (method_strings (hp_method x))).
Proof.
  pose proof (reach_wf settings x Hset Hx) as Hwf. unfold parser_wf in Hwf. rewrite Hok in Hwf.
  destruct Hwf as (Hn & Hc & Hs). split; [exact Hn|]. split; [exact Hc|].
  split; [intros [Hst | Hst] | intros Hst]; rewrite Hst in Hs; cbn in Hs; tauto.
Qed.

Lemma reach_bounds_witness :
  hp_state after1 = s_body_identity /\ hp_content_length after1 = 2 /\ 0 < hp_content_length after1 < ULLONG_MAX.
Proof.
  split; [reflexivity|]. split; [reflexivity|].
  apply (reach_bounds recorder after1); [exact recorder_ok | exact after1_reach | reflexivity | left; reflexivity].
Defined.
