(* ===== verification/HttpStream.v ===== *)
(** Two runs of the parser side by side, with the recording callbacks: one on
    an input [a ++ b] that has come past [a], and one that is given [b] in a
    call of its own.  The relation [rel] between the two is kept by every
    [case] of the [switch], up to the count of header bytes, which a call of
    its own makes larger. *)
From Stdlib Require Import ZArith Lia Bool List String Ascii.
From stdpp Require Import base list strings.
From S2P Require Import Prelude HttpChars HttpTypes HttpUrl HttpExec HttpExecSafe HttpRecord HttpCases HttpHeaders HttpSafe.

Section Stream.
Variable a b : bytes.
Variable lenient : bool.
Hypothesis Hlen : zlen (a ++ b) < 2 ^ 31.

Notation o := (zlen a).
Notation d1 := (a ++ b).

(** * The relation *)

(** The marks of the two runs: set at the same places, or one mark set before
    [b] begins, the part up to there already recorded by the second run. *)
Inductive linked (k1 k2 : ctx trace) : Prop :=
| linked_same :
    app k1 = app k2 ->
    (forall f, get_mark f k1 = option_map (Z.add o) (get_mark f k2)) -> linked k1 k2
| linked_carried f i :
    0 <= i < o -> get_mark f k1 = Some i -> get_mark f k2 = Some 0 ->
    (forall g, g <> f -> get_mark g k1 = None /\ get_mark g k2 = None) ->
    app k2 = record_data f (slice a i (o - i)) (app k1) -> linked k1 k2.

Record rel (k1 k2 : ctx trace) : Prop := {
  rel_core : core (pr k1) = core (pr k2);
  rel_nread : hp_nread (pr k1) <= hp_nread (pr k2);
  rel_state : p_state k1 = p_state k2;
  rel_p : p k1 = o + p k2;
  rel_linked : linked k1 k2
}.

(** How the two runs end up after a [case]: nothing is claimed when the second
    fails. *)
Definition ctl_rel (c1 c2 : ctl trace) : Prop :=
  match c1, c2 with
  | _, (Error _ | Abort _ | NoFuel) => True
  | Break k1, Break k2 => rel k1 k2
  | Reexecute k1, Reexecute k2 => rel k1 k2 /\ ch k1 = ch k2
  | Return x1 t1 n1, Return x2 t2 n2 =>
      core x1 = core x2 /\ hp_nread x1 <= hp_nread x2 /\ hp_state x1 = hp_state x2 /\ t1 = t2 /\ n1 = o + n2
  | _, _ => False
  end.

Lemma ctl_rel_failed c1 c2 :
  match c2 with Error _ | Abort _ | NoFuel => True | _ => False end -> ctl_rel c1 c2.
Proof. destruct c2; try contradiction; destruct c1; exact id. Qed.

(** * Positions in the two inputs *)

Lemma zlen_d1 : zlen d1 = o + zlen b.
Proof. apply zlen_app. Qed.

Lemma byte_at_shift i : 0 <= i -> byte_at d1 (o + i) = byte_at b i.
Proof.
  intros Hi. unfold byte_at. pose proof (zlen_nonneg a).
  replace (o + i <? 0) with false by lia. replace (i <? 0) with false by lia.
  rewrite lookup_app_r by (unfold zlen in *; lia). f_equal. unfold zlen. lia.
Qed.

Lemma drop_shift i : 0 <= i -> drop (Z.to_nat (o + i)) d1 = drop (Z.to_nat i) b.
Proof.
  intros Hi. rewrite drop_app_ge by (unfold zlen; lia). f_equal. unfold zlen. lia.
Qed.

Lemma slice_shift i n : 0 <= i -> slice d1 (o + i) n = slice b i n.
Proof. intros Hi. unfold slice. rewrite drop_shift by exact Hi. reflexivity. Qed.

(** A range that begins in [a] and ends in [b]. *)
Lemma slice_across i n : 0 <= i < o -> 0 <= n ->
  slice d1 i (o + n - i) = slice a i (o - i) ++ slice b 0 n.
Proof.
  intros Hi Hn. unfold slice. rewrite drop_app_le by (unfold zlen in *; lia).
  assert (Hl : length (drop (Z.to_nat i) a) = Z.to_nat (o - i)) by (rewrite length_drop; unfold zlen; lia).
  rewrite take_app_ge by lia. rewrite (take_ge (drop _ a)) by lia. do 2 f_equal.
  change (drop (Z.to_nat 0) b) with b. f_equal. lia.
Qed.

Lemma memchr_shift i c n : 0 <= i -> memchr d1 (o + i) c n = option_map (Z.add o) (memchr b i c n).
Proof.
  intros Hi. unfold memchr. rewrite slice_shift by exact Hi.
  destruct (index_of c (slice b i n)); [cbn; f_equal; lia | reflexivity].
Qed.

Lemma general_jump_shift i : 0 <= i -> general_jump d1 (o + i) = o + general_jump b i.
Proof.
  intros Hi. unfold general_jump, data_end. rewrite zlen_d1.
  replace (o + zlen b - (o + i)) with (zlen b - i) by lia. rewrite !memchr_shift by exact Hi.
  destruct (memchr b i CR _) as [r|], (memchr b i LF _) as [l|]; cbn; try lia.
  replace (o + l <=? o + r) with (l <=? r) by lia. destruct (_ <=? _); lia.
Qed.

(** * Building blocks of the cases *)

(** What [linked] looks at. *)
Lemma linked_keep k1 k2 k1' k2' :
  linked k1 k2 -> app k1' = app k1 -> app k2' = app k2 ->
  (forall f, get_mark f k1' = get_mark f k1) -> (forall f, get_mark f k2' = get_mark f k2) ->
  linked k1' k2'.
Proof.
  intros [Ha Hm | f i Hi H1 H2 Hg Ha] A1 A2 M1 M2.
  - apply linked_same; [congruence|]. intros f. rewrite M1, M2. apply Hm.
  - apply (linked_carried _ _ f i); rewrite ?A1, ?A2, ?M1, ?M2; try assumption.
    intros g Hne. rewrite M1, M2. auto.
Qed.

(** Without marks the two have recorded the same. *)
Lemma linked_no_marks k1 k2 :
  linked k1 k2 -> (forall f, get_mark f k1 = None) -> app k1 = app k2.
Proof. intros [Ha _ | f i _ H1 _ _ _] Hn; [exact Ha | rewrite Hn in H1; discriminate]. Qed.

Lemma put_mark_none_same f (k : ctx trace) :
  get_mark f k = None -> k = put_mark f None (put_app (app k) (put_pr (set_state (hp_state (pr k)) (pr k)) k)).
Proof. destruct k as [[] ? ? ? ? ? ? ? ? ?], f; cbn; intros ->; reflexivity. Qed.

(** A data callback of the recorder. *)
Lemma callback_data_recorded data f m last er k rest :
  hp_http_errno (pr k) = HPE_OK -> get_mark f k = Some m -> 0 <= m <= last -> last <= zlen data ->
  CALLBACK_DATA_ recorder data f last er k rest =
    rest (put_mark f None (put_app (record_data f (slice data m (last - m)) (app k))
      (put_pr (set_state (p_state k) (pr k)) k))).
Proof.
  intros He Hm Hl Hd. unfold CALLBACK_DATA_, errno_ok. rewrite He, Hm, data_cb_recorder. cbn [negb on_data].
  replace ((m <? 0) || (last <? m) || (data_end data <? last)) with false
    by (unfold data_end; symmetry; repeat (apply orb_false_iff; split); lia).
  destruct k as [[] ? ? ? ? ? ? ? ? ?]. cbn in He |- *. rewrite He. reflexivity.
Qed.

Lemma callback_data_unmarked data f last er k (rest : ctx trace -> ctl trace) :
  hp_http_errno (pr k) = HPE_OK -> get_mark f k = None -> CALLBACK_DATA_ recorder data f last er k rest = rest k.
Proof. intros He Hm. unfold CALLBACK_DATA_, errno_ok. rewrite He, Hm. reflexivity. Qed.

(** Both runs hand the string [f] over. *)
Lemma callback_data_rel f last er1 er2 k1 k2 r1 r2 :
  linked k1 k2 -> hp_http_errno (pr k1) = HPE_OK -> hp_http_errno (pr k2) = HPE_OK ->
  0 <= last <= zlen b -> (forall m, get_mark f k2 = Some m -> 0 <= m <= last) ->
  (forall g, g <> f -> get_mark g k1 = None) ->
  (forall s1 s2 t,
     ctl_rel (r1 (put_mark f None (put_app t (put_pr (set_state s1 (pr k1)) k1))))
             (r2 (put_mark f None (put_app t (put_pr (set_state s2 (pr k2)) k2))))) ->
  ctl_rel (CALLBACK_DATA_ recorder d1 f (o + last) er1 k1 r1) (CALLBACK_DATA_ recorder b f last er2 k2 r2).
Proof.
  intros Hl He1 He2 Hlast Hm Hg Hr. pose proof zlen_d1 as Hd. pose proof (zlen_nonneg a).
  destruct Hl as [Ha Hs | g i Hi H1 H2 Hn Ha].
  - specialize (Hs f). destruct (get_mark f k2) as [m|] eqn:H2; cbn in Hs.
    + specialize (Hm m eq_refl).
      rewrite (callback_data_recorded d1 f (o + m)), (callback_data_recorded b f m) by (try assumption; lia).
      replace (o + last - (o + m)) with (last - m) by lia. rewrite slice_shift, Ha by lia. apply Hr.
    + rewrite !callback_data_unmarked by assumption.
      rewrite (put_mark_none_same f k1), (put_mark_none_same f k2) by assumption. rewrite Ha. apply Hr.
  - assert (g = f) as -> by (destruct (decide (g = f)); [assumption | rewrite Hg in H1 by assumption; discriminate]).
    rewrite (callback_data_recorded d1 f i), (callback_data_recorded b f 0) by (try assumption; lia).
    rewrite slice_across by lia. rewrite record_data_app, <- Ha, Z.sub_0_r. apply Hr.
Qed.

(** Both runs count header bytes, the second at least as many. *)
Lemma count_rel v1 v2 k1 k2 r1 r2 :
  hp_nread (pr k1) + v1 <= hp_nread (pr k2) + v2 ->
  0 <= hp_nread (pr k1) <= HTTP_MAX_HEADER_SIZE -> 0 <= hp_nread (pr k2) <= HTTP_MAX_HEADER_SIZE ->
  0 <= v1 < 2 ^ 31 -> 0 <= v2 < 2 ^ 31 ->
  (forall n1 n2, n1 = hp_nread (pr k1) + v1 -> n2 = hp_nread (pr k2) + v2 -> n2 <= HTTP_MAX_HEADER_SIZE ->
     ctl_rel (r1 (upd_pr (set_nread n1) k1)) (r2 (upd_pr (set_nread n2) k2))) ->
  ctl_rel (COUNT_HEADER_SIZE v1 k1 r1) (COUNT_HEADER_SIZE v2 k2 r2).
Proof.
  intros Hn H1 H2 Hv1 Hv2 Hr. unfold COUNT_HEADER_SIZE, HTTP_MAX_HEADER_SIZE in *.
  assert (Hw : forall v (k : ctx trace), 0 <= v < 2 ^ 31 -> 0 <= hp_nread (pr k) <= 80 * 1024 ->
    upd_pr (fun x => set_nread (u32 (hp_nread x + v)) x) k = upd_pr (set_nread (hp_nread (pr k) + v)) k).
  { intros v k Hv Hk. unfold upd_pr. rewrite u32_small by lia. reflexivity. }
  rewrite !Hw by assumption. cbn [pr upd_pr put_pr set_nread hp_nread].
  destruct (80 * 1024 <? hp_nread (pr k2) + v2) eqn:Hb2.
  { apply ctl_rel_failed. exact I. }
  replace (80 * 1024 <? hp_nread (pr k1) + v1) with false by lia.
  apply Hr; lia.
Qed.

End Stream.
