(* ===== verification/HttpStreamCases.v ===== *)
(** Every [case] of the [switch] keeps the relation of [HttpStream] between a
    run on [a ++ b] and a run on [b]. *)
From Stdlib Require Import ZArith Lia Bool List String Ascii.
From stdpp Require Import base list strings.
From S2P Require Import Prelude HttpChars HttpTypes HttpUrl HttpExec HttpExecSafe HttpRecord HttpCases HttpHeaders HttpSafe HttpStream.

(** * Running the two [case]s side by side *)

(** Open the two runs on explicit contexts with common fields. *)
Ltac open_paired k1 k2 :=
  let x1 := fresh "x1" in let x2 := fresh "x2" in
  destruct k1 as [x1 ap1 ps1 pp1 cc1 m1 m2 m3 m4 m5];
  destruct x1 as [ty fl st1 hs ix ln nr1 cl ma mi sc me er up];
  destruct k2 as [x2 ap2 ps pp cc n1 n2 n3 n4 n5];
  destruct x2 as [ty' fl' st2 hs' ix' ln' nr2 cl' ma' mi' sc' me' er' up'];
  intros ((He1 & (Hnr1 & Hcl1 & Hst1) & (Hm1 & Hm2 & Hm3 & Hm4 & Hm5) & Hp1) &
          (He2 & (Hnr2 & Hcl2 & Hst2) & (Hn1 & Hn2 & Hn3 & Hn4 & Hn5) & Hp2) &
          [Hcore Hnr Hps Hpp Hl] & Hch);
  unfold core in Hcore; exec_simpl_in Hcore; cbn [set_state set_nread] in Hcore;
  injection Hcore as <- <- <- <- <- <- <- <- <- <- <- <-;
  cbn [p_state pr p ch hp_nread hp_http_errno hp_content_length hp_header_state hp_index hp_method hp_flags
       header_field_mark header_value_mark url_mark body_mark status_mark] in *;
  subst.

(** Without marks the traces agree. *)
Ltac plain_linked :=
  match goal with
  | H : HttpStream.linked _ _ _ |- _ =>
      apply linked_no_marks in H; [cbn [app] in H; subst | intros []; reflexivity]
  end.

Ltac notify_simpl :=
  unfold CALLBACK_NOTIFY_; cbn [on_message_begin on_headers_complete on_message_complete on_chunk_header
    on_chunk_complete recorder on_notify]; exec_simpl; rewrite ?Z.eqb_refl; exec_simpl.

(** Down to the fields of the parser. *)
Ltac field_simpl :=
  exec_simpl;
  unfold NEW_MESSAGE, http_should_keep_alive, http_message_needs_eof, start_state, upgrade_of, hasBody,
    body_length_ok, has_flag, finish_header, add_flag;
  exec_simpl.

Ltac linked_leaf :=
  first [ apply linked_same; [reflexivity | intros []; reflexivity]
        | eapply linked_keep; [eassumption | reflexivity | reflexivity | intros []; reflexivity | intros []; reflexivity] ].

(** The one state in which the counts of the two runs are the same. *)
Ltac chunk_start_count :=
  lazymatch goal with
  | H1 : wf_state 1 s_chunk_size_start _ _ _ _ ?n1 _, H2 : wf_state 1 s_chunk_size_start _ _ _ _ ?n2 _ |- _ =>
      destruct H1 as [_ H1]; destruct H2 as [_ H2]; subst n1 n2
  | _ => idtac
  end.

Ltac rel_leaf :=
  unfold goto_error, RETURN; exec_simpl;
  lazymatch goal with
  | |- HttpStream.ctl_rel _ _ (Error _) => apply ctl_rel_failed; exact I
  | |- HttpStream.ctl_rel _ _ (Abort _) => apply ctl_rel_failed; exact I
  | |- HttpStream.ctl_rel _ (Return _ _ _) _ => cbn [HttpStream.ctl_rel]; split_all; try reflexivity; exec_simpl; try lia
  | |- HttpStream.ctl_rel _ (Reexecute _) _ => cbn [HttpStream.ctl_rel]; split; [|reflexivity]
  | |- _ => cbn [HttpStream.ctl_rel]
  end;
  try lazymatch goal with
  | |- HttpStream.rel _ _ _ =>
      constructor; exec_simpl;
[ reflexivity | lia | reflexivity | lia | linked_leaf ]
  end.

Ltac rel_step :=
  field_simpl; cbn [on_notify Z.eqb];
  field_simpl;
  lazymatch goal with
  | |- HttpStream.ctl_rel _ _ (if ?b then _ else _) => destruct b eqn:?
  | |- HttpStream.ctl_rel _ _ (match ?b with _ => _ end) => destruct b eqn:?
  | |- HttpStream.ctl_rel _ _ (CALLBACK_NOTIFY_ _ _ _ _ _) => notify_simpl
  | |- HttpStream.ctl_rel _ _ (CALLBACK_DATA_ _ _ _ _ _ _ _) =>
      apply callback_data_rel;
        [ linked_leaf | reflexivity | reflexivity | exec_simpl; lia
        | let m := fresh in let Hm := fresh in intros m Hm; cbn in Hm; first [discriminate Hm | injection Hm as <- | subst];
          cbn [mark_ok] in *; exec_simpl; lia
        | intros [] ?; first [reflexivity | contradiction]
        | intros ? ? ? ]
  end.

Section StreamCases.
Variable a b : bytes.
Variable lenient : bool.
Hypothesis Hlen : zlen (a ++ b) < 2 ^ 31.

Notation o := (zlen a).
Notation d1 := (a ++ b).
Notation rel := (rel a).
Notation ctl_rel := (ctl_rel a).
Notation linked := (linked a).

(** The two runs at the [switch]. *)
Definition paired (k1 k2 : ctx trace) : Prop :=
  inv d1 1 k1 /\ inv b 1 k2 /\ rel k1 k2 /\ ch k1 = ch k2.

Definition case_rel (k1 k2 : ctx trace) : Prop :=
  ctl_rel (dispatch recorder d1 lenient k1) (dispatch recorder b lenient k2).

Lemma line_cases_rel (k1 k2 : ctx trace) :
  paired k1 k2 ->
  match p_state k2 with
  | s_dead | s_start_req_or_res | s_res_or_resp_H | s_start_res | s_res_H | s_res_HT | s_res_HTT
  | s_res_HTTP | s_res_http_major | s_res_http_dot | s_res_http_minor | s_res_http_end
  | s_res_first_status_code | s_res_status_code | s_res_status_start | s_res_status
  | s_res_line_almost_done | s_req_http_start | s_req_http_H | s_req_http_HT | s_req_http_HTT
  | s_req_http_HTTP | s_req_http_major | s_req_http_dot | s_req_http_minor | s_req_http_end
  | s_req_line_almost_done => case_rel k1 k2
  | _ => True
  end.
Proof.
  unfold paired, case_rel, dispatch. open_paired k1 k2. exec_simpl.
  destruct ps; try exact I; clear_marks; try plain_linked; autounfold with http_cases;
    repeat rel_step; rel_leaf.
Qed.

Lemma method_cases_rel (k1 k2 : ctx trace) :
  paired k1 k2 ->
  match p_state k2 with s_start_req | s_req_method => case_rel k1 k2 | _ => True end.
Proof.
  unfold paired, case_rel, dispatch. open_paired k1 k2. exec_simpl.
  destruct ps; try exact I; clear_marks; plain_linked; autounfold with http_cases;
    repeat rel_step; rel_leaf.
Qed.

Lemma url_cases_rel (k1 k2 : ctx trace) :
  paired k1 k2 ->
  match p_state k2 with
  | s_req_spaces_before_url | s_req_schema | s_req_schema_slash | s_req_schema_slash_slash
  | s_req_server_start | s_req_server | s_req_server_with_at | s_req_path
  | s_req_query_string_start | s_req_query_string | s_req_fragment_start | s_req_fragment =>
      case_rel k1 k2
  | _ => True
  end.
Proof.
  unfold paired, case_rel, dispatch. open_paired k1 k2. exec_simpl.
  destruct (eqb me HTTP_CONNECT) eqn:Hc, (cc =c CR) eqn:Hcr;
  destruct ps; try exact I; clear_marks; try plain_linked; autounfold with http_cases; unfold url_step;
    repeat (exec_simpl; rewrite ?Hc, ?Hcr; rel_step); rel_leaf.
Qed.

(** The trailing and end-of-headers cases. *)
Lemma headers_cases_rel (k1 k2 : ctx trace) :
  paired k1 k2 ->
  match p_state k2 with
  | s_header_field_start | s_header_value_discard_ws | s_header_value_start | s_header_almost_done
  | s_header_value_lws | s_header_value_discard_ws_almost_done | s_header_value_discard_lws
  | s_headers_almost_done | s_headers_done | s_message_done
  | s_chunk_size_start | s_chunk_size | s_chunk_parameters | s_chunk_size_almost_done
  | s_chunk_data_done => case_rel k1 k2
  | _ => True
  end.
Proof.
  unfold paired, case_rel, dispatch. open_paired k1 k2. exec_simpl.
  destruct (cl =? 0) eqn:Hcl0;
  destruct ps; try exact I; clear_marks; try plain_linked; autounfold with http_cases; unfold headers_complete;
    cbn [on_headers_complete recorder on_notify]; chunk_start_count;
    repeat (rewrite ?Hcl0; rel_step); rewrite ?Hcl0; rel_leaf.
Qed.

(** * Header names *)

Lemma header_field_char_same c0 c x1 x2 :
  hp_header_state x1 = hp_header_state x2 -> hp_index x1 = hp_index x2 -> field_hs (hp_header_state x1) = true ->
  exists hs ix, header_field_char c0 c x1 = Done (matched hs ix x1) /\
    header_field_char c0 c x2 = Done (matched hs ix x2) /\ field_hs hs = true.
Proof.
  intros Hh Hi Hf. destruct (header_field_char_ok c0 c x1 Hf) as (hs & ix & H1 & Hhs).
  exists hs, ix. split; [exact H1|]. split; [|exact Hhs]. revert H1.
  destruct x1, x2. cbn in Hh, Hi. subst. unfold header_field_char, match_header, matched, set_header_state, set_index.
  exec_simpl. destruct hp_header_state0; cbn; repeat case_match; intros [=]; subst; congruence.
Qed.

Lemma header_field_loop_same rest (k1 k2 : ctx trace) :
  hp_header_state (pr k1) = hp_header_state (pr k2) -> hp_index (pr k1) = hp_index (pr k2) ->
  ch k1 = ch k2 -> field_hs (hp_header_state (pr k1)) = true ->
  exists hs ix c n, 0 <= n <= zlen rest /\
    header_field_loop rest k1 = Done (put_ch c (put_p (p k1 + n) (upd_pr (matched hs ix) k1))) /\
    header_field_loop rest k2 = Done (put_ch c (put_p (p k2 + n) (upd_pr (matched hs ix) k2))).
Proof.
  revert k1 k2. induction rest as [|c0 rest IH]; intros k1 k2 Hh Hi Hc Hf; cbn [header_field_loop].
  - exists (hp_header_state (pr k1)), (hp_index (pr k1)), (ch k1), 0. rewrite Hc at 2. rewrite Hh at 2. rewrite Hi at 2.
    split; [unfold zlen; cbn; lia|]. rewrite !Z.add_0_r.
    split; [destruct k1 as [[] ? ? ? ? ? ? ? ? ?] | destruct k2 as [[] ? ? ? ? ? ? ? ? ?]]; reflexivity.
  - destruct (is_nul (TOKEN c0)).
    + exists (hp_header_state (pr k1)), (hp_index (pr k1)), c0, 0. rewrite Hh at 2. rewrite Hi at 2.
      split; [pose proof (zlen_nonneg rest); rewrite zlen_cons; lia|]. rewrite !Z.add_0_r.
      split; [destruct k1 as [[] ? ? ? ? ? ? ? ? ?] | destruct k2 as [[] ? ? ? ? ? ? ? ? ?]]; reflexivity.
    + cbn [pr put_ch]. destruct (header_field_char_same c0 (TOKEN c0) (pr k1) (pr k2) Hh Hi Hf) as (hs & ix & -> & -> & Hhs).
      destruct (IH (put_p (p k1 + 1) (put_pr (matched hs ix (pr k1)) (put_ch c0 k1)))
                   (put_p (p k2 + 1) (put_pr (matched hs ix (pr k2)) (put_ch c0 k2))))
        as (hs' & ix' & c & n & Hn & H1 & H2); [destruct k1 as [[]], k2 as [[]]; reflexivity
          | destruct k1 as [[]], k2 as [[]]; reflexivity | reflexivity | destruct k1 as [[]]; exact Hhs|].
      exists hs', ix', c, (1 + n). split; [rewrite zlen_cons; lia|].
      split; (etransitivity; [eassumption|]); rewrite Z.add_assoc;
        [destruct k1 as [[] ? ? ? ? ? ? ? ? ?] | destruct k2 as [[] ? ? ? ? ? ? ? ? ?]]; reflexivity.
Qed.

(** An update that keeps away from the scanner fields. *)
Lemma core_commutes (f : http_parser -> http_parser) x1 x2 :
  (forall x, core (f x) = f (core x)) -> core x1 = core x2 -> core (f x1) = core (f x2).
Proof. intros Hf H. rewrite !Hf, H. reflexivity. Qed.

(** What follows the loop of [s_header_field], entered at [start]. *)
Definition field_after (data : bytes) (start : Z) (k : ctx trace) : ctl trace :=
  COUNT_HEADER_SIZE (p k - start) k (fun k =>
    if p k =? data_end data then Break (put_p (p k - 1) k)
    else if (ch k =c ":")%char then
      CALLBACK_DATA recorder data For_header_field (UPDATE_STATE s_header_value_discard_ws k) Break
    else goto_error HPE_INVALID_HEADER_TOKEN k).

(** The state of the two runs inside [s_header_field], entered at [s1], [s2]. *)
Record field_at (s1 s2 : Z) (k1 k2 : ctx trace) : Prop := {
  fa_rel : rel k1 k2;
  fa_ch : ch k1 = ch k2;
  fa_state : p_state k2 = s_header_field;
  fa_errno : hp_http_errno (pr k2) = HPE_OK;
  fa_nread1 : 0 <= hp_nread (pr k1) <= HTTP_MAX_HEADER_SIZE;
  fa_nread2 : 0 <= hp_nread (pr k2) <= HTTP_MAX_HEADER_SIZE;
  fa_count : hp_nread (pr k1) + (p k1 - s1) <= hp_nread (pr k2) + (p k2 - s2);
  fa_s1 : 0 <= s1 <= p k1;
  fa_s2 : 0 <= s2 <= p k2;
  fa_p : p k2 <= zlen b;
  fa_marks : marks_ok s_header_field (p k2) k2
}.

Lemma field_after_rel s1 s2 k1 k2 :
  field_at s1 s2 k1 k2 -> marks_ok s_header_field (p k1) k1 -> ctl_rel (field_after d1 s1 k1) (field_after b s2 k2).
Proof.
  destruct k1 as [x1 ap1 ps1 pp1 cc1 m1 m2 m3 m4 m5];
  destruct x1 as [ty fl st1 hs ix ln nr1 cl ma mi sc me er up];
  destruct k2 as [x2 ap2 ps pp cc n1 n2 n3 n4 n5];
  destruct x2 as [ty' fl' st2 hs' ix' ln' nr2 cl' ma' mi' sc' me' er' up'].
  intros [[Hcore Hnr Hps Hpp Hl] Hch Hst He Hn1' Hn2' Hct Hs1 Hs2 Hp (Hn1 & Hn2 & Hn3 & Hn4 & Hn5)] (Hm1 & Hm2 & Hm3 & Hm4 & Hm5).
  unfold core in Hcore. exec_simpl_in Hcore. cbn [set_state set_nread] in Hcore.
  injection Hcore as <- <- <- <- <- <- <- <- <- <- <- <-.
  cbn in Hnr, Hps, Hpp, Hch, Hst, He, Hct, Hs1, Hs2, Hp, Hn1, Hn2, Hn3, Hn4, Hn5, Hm1, Hm2, Hm3, Hm4, Hm5.
  exec_simpl_in Hn1'; exec_simpl_in Hn2'. subst. clear_marks.
  pose proof (zlen_nonneg a). rewrite zlen_app in Hlen. unfold field_after. apply count_rel; exec_simpl; try (assumption || lia).
  intros c1 c2 -> -> _. unfold data_end. rewrite zlen_app.
  replace (o + pp =? o + zlen b) with (pp =? zlen b) by lia.
  autounfold with http_cases.
  repeat rel_step; rel_leaf.
Qed.

Lemma case_s_header_field_eq data k :
  case_s_header_field recorder data k =
    match header_field_loop (drop (Z.to_nat (p k)) data) k with
    | Stuck w => Abort w
    | Done k' => field_after data (p k) k'
    end.
Proof. reflexivity. Qed.

(** The loop keeps the two runs in step. *)
Lemma field_loop_rel s1 s2 k1 k2 :
  field_at s1 s2 k1 k2 -> marks_ok s_header_field (p k1) k1 -> field_hs (hp_header_state (pr k1)) = true ->
  exists k1' k2', header_field_loop (drop (Z.to_nat (p k1)) d1) k1 = Done k1' /\
    header_field_loop (drop (Z.to_nat (p k2)) b) k2 = Done k2' /\
    field_at s1 s2 k1' k2' /\ marks_ok s_header_field (p k1') k1'.
Proof.
  intros [[Hcore Hnr Hps Hpp Hl] Hch Hst He Hn1' Hn2' Hct Hs1 Hs2 Hp Hn] Hm Hf.
  rewrite Hpp, drop_shift by lia.
  assert (Hsame : hp_header_state (pr k1) = hp_header_state (pr k2) /\ hp_index (pr k1) = hp_index (pr k2)).
  { destruct k1 as [[]], k2 as [[]]. unfold core in Hcore. cbn in Hcore |- *. injection Hcore. auto. }
  destruct (header_field_loop_same (drop (Z.to_nat (p k2)) b) k1 k2) as (hs & ix & c & n & Hr & H1 & H2);
    try assumption; try apply Hsame.
  rewrite zlen_drop in Hr by lia. do 2 eexists. split; [exact H1|]. split; [exact H2|].
  split.
  - constructor; try (destruct k1 as [[]], k2 as [[]]; cbn in *; lia || assumption || reflexivity).
    + constructor; [| destruct k1 as [[]], k2 as [[]]; cbn in *; lia || assumption ..|].
      * exact (core_commutes (matched hs ix) _ _ (fun x => eq_refl) Hcore).
      * eapply linked_keep; [exact Hl|..]; try (intros []); destruct k1 as [[]], k2 as [[]]; reflexivity.
    + unfold marks_ok, mark_ok in *. destruct k2 as [[] ? ? ? ? [] [] [] [] []]; cbn in *; intuition lia.
  - unfold marks_ok, mark_ok in *. destruct k1 as [[] ? ? ? ? [] [] [] [] []]; cbn in *; intuition lia.
Qed.

Lemma header_field_rel k1 k2 : paired k1 k2 -> p_state k2 = s_header_field -> case_rel k1 k2.
Proof.
  intros ((He1 & (Hnr1 & Hcl1 & Hst1) & Hm1 & Hp1) & (He2 & (Hnr2 & Hcl2 & Hst2) & Hm2 & Hp2) & Hrel & Hch) Hs.
  pose proof (rel_state _ _ _ Hrel) as Hs1. pose proof (rel_nread _ _ _ Hrel). rewrite Hs in Hs1.
  rewrite Hs1 in Hst1, Hm1. rewrite Hs in Hm2. cbn in Hst1.
  unfold case_rel, dispatch. rewrite Hs1, Hs, !case_s_header_field_eq.
  destruct (field_loop_rel (p k1) (p k2) k1 k2) as (k1' & k2' & -> & -> & Hat & Hm); try assumption.
  - constructor; try assumption; lia.
  - apply field_after_rel; assumption.
Qed.

End StreamCases.
