(* ===== verification/HttpLenient.v ===== *)
(** The parser never changes its own [lenient_http_headers] bit. *)
From Stdlib Require Import ZArith Lia Bool List String Ascii.
From stdpp Require Import base list strings.
From S2P Require Import Prelude HttpChars HttpTypes HttpUrl HttpExec HttpExecSafe HttpRecord HttpCases HttpHeaders HttpSafe HttpStream HttpStreamCases.

Notation len x := (hp_lenient_http_headers x).

Definition ctl_lenient (l : bool) (r : ctl trace) : Prop :=
  match r with
  | Break k | Reexecute k | Error k => len (pr k) = l
  | Return x _ _ => len x = l
  | _ => True
  end.

Section Lenient.
Variable data : bytes.
Variable lenient l : bool.

Lemma callback_data_lenient f last er (k : ctx trace) rest :
  len (pr k) = l ->
  (forall k', len (pr k') = l -> ctl_lenient l (rest k')) ->
  ctl_lenient l (CALLBACK_DATA_ recorder data f last er k rest).
Proof.
  intros Hk Hr. unfold CALLBACK_DATA_. destruct (negb _); [exact I|].
  destruct (get_mark f k); [|apply Hr; exact Hk]. rewrite data_cb_recorder. destruct (_ || _); [exact I|].
  unfold on_data. cbn [Z.eqb]. destruct (errno_ok _); [|exact Hk]. apply Hr. destruct f; exact Hk.
Qed.

Lemma callback_notify_lenient n err er (k : ctx trace) rest :
  len (pr k) = l ->
  (forall k', len (pr k') = l -> ctl_lenient l (rest k')) ->
  ctl_lenient l (CALLBACK_NOTIFY_ (Some (on_notify n)) err er k rest).
Proof.
  intros Hk Hr. unfold CALLBACK_NOTIFY_. destruct (negb _); [exact I|].
  unfold on_notify. cbn [Z.eqb]. destruct (errno_ok _); [|exact Hk]. apply Hr. exact Hk.
Qed.

Lemma count_lenient v (k : ctx trace) rest :
  len (pr k) = l -> (forall k', len (pr k') = l -> ctl_lenient l (rest k')) ->
  ctl_lenient l (COUNT_HEADER_SIZE v k rest).
Proof. intros Hk Hr. unfold COUNT_HEADER_SIZE. destruct (_ <? _); [exact Hk | apply Hr; exact Hk]. Qed.

Lemma mark_lenient f (k : ctx trace) : len (pr (MARK f k)) = len (pr k).
Proof. unfold MARK. destruct (get_mark f k); [reflexivity | destruct f; reflexivity]. Qed.

Ltac lenient_step :=
  cbv beta zeta;
  lazymatch goal with
  | |- ctl_lenient _ (if ?b then _ else _) => destruct b
  | |- ctl_lenient _ (match ?b with _ => _ end) => destruct b
  | |- ctl_lenient _ (Break (if ?b then _ else _)) => destruct b
  | |- ctl_lenient _ (CALLBACK_NOTIFY_ _ _ _ _ _) => apply callback_notify_lenient; [|intros ? ?]
  | |- ctl_lenient _ (CALLBACK_DATA_ _ _ _ _ _ _ _) => apply callback_data_lenient; [|intros ? ?]
  | |- ctl_lenient _ (COUNT_HEADER_SIZE _ _ _) => apply count_lenient; [|intros ? ?]
  end.

Ltac lenient_leaf :=
  unfold ctl_lenient, goto_error, RETURN, url_step, add_flag in *;
  repeat first
    [ assumption | exact I
    | progress cbn [pr upd_pr put_pr SET_ERRNO UPDATE_STATE put_p_state put_p put_ch put_app set_header_state
        set_index set_flags set_nread set_content_length set_method set_type set_http_errno set_state
        set_http_major set_http_minor set_status_code set_upgrade hp_lenient_http_headers reset_message finish_header add_flag] in *
    | rewrite mark_lenient in *
    | match goal with
      | |- context [pr (if ?b then _ else _)] => destruct b
      | |- context [len (if ?b then _ else _)] => destruct b
      end ].

Lemma field_loop_lenient rest (k : ctx trace) :
  len (pr k) = l -> match header_field_loop rest k with Done k' => len (pr k') = l | Stuck _ => True end.
Proof.
  revert k. induction rest as [|c0 rest IH]; intros k Hk; cbn [header_field_loop]; [exact Hk|].
  destruct (is_nul _); [exact Hk|]. destruct (header_field_char c0 (TOKEN c0) (pr (put_ch c0 k))) as [x|w] eqn:E; [|exact I].
  apply IH. change (len x = l). rewrite <- Hk. change (pr (put_ch c0 k)) with (pr k) in E. revert E. clear.
  unfold header_field_char, match_header. destruct (hp_header_state (pr k)); repeat case_match; intros [=]; subst; reflexivity.
Qed.

Lemma value_loop_lenient fuel s h (k : ctx trace) :
  len (pr k) = l -> ctl_lenient l (header_value_loop recorder data lenient fuel s h k).
Proof.
  revert h k. induction fuel as [|fuel IH]; intros h k Hk; cbn [header_value_loop]; [exact I|].
  assert (Hdone : forall k, len (pr k) = l -> ctl_lenient l (header_value_done data s h k)).
  { intros k' Hk'. unfold header_value_done. apply count_lenient; [exact Hk'|]. intros k'' Hk''. cbn.
    destruct (_ =? _); exact Hk''. }
  destruct (_ =? _); [apply Hdone; exact Hk|]. destruct (byte_at _ _) as [d|]; [|exact I].
  destruct (d =c CR)%char; [apply callback_data_lenient; [exact Hk | exact Hdone]|].
  destruct (d =c LF)%char.
  { apply count_lenient; [exact Hk|]. intros k' Hk'. apply callback_data_lenient; [exact Hk' | auto]. }
  destruct (_ && _); [exact Hk|]. destruct (eqb h h_content_length).
  - unfold content_length_char. repeat case_match; try exact Hk;
      match goal with H : inl _ = inl _ |- _ => injection H as <- | H : inr _ = inl _ |- _ => discriminate | _ => idtac end;
      first [apply IH; exact Hk | exact Hk].
  - destruct (header_value_char data h (put_ch d k)) as [[k' h']|w] eqn:E; [|exact I]. apply IH.
    change (len (pr k') = l). rewrite <- Hk. revert E. clear.
    unfold header_value_char, match_value. destruct h; repeat case_match; intros [=]; subst; reflexivity.
Qed.

Lemma read_body_lenient (k : ctx trace) : len (pr (read_body data k)) = len (pr k).
Proof. exact (mark_lenient For_body k). Qed.

Lemma headers_complete_lenient (k : ctx trace) rest :
  len (pr k) = l -> (forall k', len (pr k') = l -> ctl_lenient l (rest k')) ->
  ctl_lenient l (headers_complete recorder k rest).
Proof. intros Hk Hr. unfold headers_complete. cbn [on_headers_complete recorder on_notify Z.eqb]. apply Hr. exact Hk. Qed.

Lemma dispatch_lenient (k : ctx trace) : len (pr k) = l -> ctl_lenient l (dispatch recorder data lenient k).
Proof.
  intros Hk. pose proof (read_body_lenient k) as Hb. rewrite Hk in Hb. unfold dispatch.
  destruct (p_state k); autounfold with http_cases; unfold url_step;
    try (pose proof (field_loop_lenient (drop (Z.to_nat (p k)) data) k Hk) as Hf; destruct (header_field_loop _ _));
    try (apply value_loop_lenient; exact Hk);
    repeat first [lenient_step | apply headers_complete_lenient; [exact Hk | intros ? ?]];
    lenient_leaf.
Qed.

Lemma reexecute_lenient fuel (k : ctx trace) :
  len (pr k) = l -> ctl_lenient l (reexecute recorder data lenient fuel k).
Proof.
  revert k. induction fuel as [|fuel IH]; intros k Hk; [exact I|]. cbn [reexecute].
  pose proof (dispatch_lenient k Hk) as Hd. destruct (dispatch _ _ _ _); try exact Hd. apply IH. exact Hd.
Qed.

Lemma exec_char_lenient (k : ctx trace) :
  len (pr k) = l -> ctl_lenient l (exec_char recorder data lenient k).
Proof.
  intros Hk. unfold exec_char. destruct (PARSING_HEADER _); [apply count_lenient; [exact Hk|]; intros|];
    apply reexecute_lenient; assumption.
Qed.
End Lenient.
