(* ===== verification/HttpStreamValue.v ===== *)
(** Header values and bodies, the two cases of the [switch] in which a run
    takes many bytes at once, keep the relation of [HttpStream]. *)
From Stdlib Require Import ZArith Lia Bool List String Ascii.
From stdpp Require Import base list strings.
From S2P Require Import Prelude HttpChars HttpTypes HttpUrl HttpExec HttpExecSafe HttpRecord HttpCases HttpHeaders HttpSafe HttpStream HttpStreamCases.

Section StreamValue.
Variable a b : bytes.
Variable lenient : bool.
Hypothesis Hlen : zlen (a ++ b) < 2 ^ 31.

Notation o := (zlen a).
Notation d1 := (a ++ b).
Notation rel := (rel a).
Notation ctl_rel := (ctl_rel a).
Notation linked := (linked a).
Notation paired := (paired a b).
Notation case_rel := (case_rel a b lenient).

Lemma core_fields x1 x2 :
  core x1 = core x2 ->
  hp_flags x1 = hp_flags x2 /\ hp_header_state x1 = hp_header_state x2 /\ hp_index x1 = hp_index x2 /\
  hp_content_length x1 = hp_content_length x2 /\ hp_http_errno x1 = hp_http_errno x2.
Proof. destruct x1, x2. unfold core. cbn. intros [=]. auto 10. Qed.

(** One character of a value, the same in both runs. *)
Lemma header_value_char_same h (k1 k2 : ctx trace) d :
  core (pr k1) = core (pr k2) -> p k1 = o + p k2 -> ch k1 = ch k2 ->
  value_hs h = true -> h <> h_content_length -> byte_at b (p k2) = Some d ->
  (d =c CR) = false -> (d =c LF) = false ->
  exists h' ix fl q, header_value_char d1 h k1 = Done (moved ix fl (o + q) k1, h') /\
    header_value_char b h k2 = Done (moved ix fl q k2, h') /\ value_hs h' = true /\ p k2 <= q < zlen b.
Proof.
  intros Hcore Hp Hch Hh Hcl Hd Hcr Hlf.
  destruct (header_value_char_ok b h k2 d Hh Hcl Hd Hcr Hlf) as (h' & ix & fl & q & H2 & Hh' & Hq).
  pose proof (byte_at_range _ _ _ Hd) as Hr.
  exists h', ix, fl, q. split; [|auto]. revert H2.
  destruct k1 as [[ty fl1 st1 hs ix1 ln nr1 cl ma mi sc me er up] ap1 ps1 pp1 cc1 m1 m2 m3 m4 m5].
  destruct k2 as [[ty' fl' st2 hs' ix' ln' nr2 cl' ma' mi' sc' me' er' up'] ap2 ps pp cc n1 n2 n3 n4 n5].
  unfold core in Hcore. cbn in Hcore, Hp, Hch, Hr, Hd. cbn [set_state set_nread] in Hcore.
  injection Hcore as <- <- <- <- <- <- <- <- <- <- <- <-. subst.
  unfold header_value_char, match_value, moved, upd_pr, set_flags, set_index, incr_index. exec_simpl.
  destruct h; try discriminate; try contradiction; exec_simpl; rewrite ?general_jump_shift by lia;
    try match goal with |- context [match_next ?s ?f ?k ?c ?i ?x] => destruct (match_next s f k c i x) end;
    try match goal with |- context [(?x =c ",")%char] => destruct (x =c ",")%char end;
    cbn; intros [=]; subst; reflexivity.
Qed.

Lemma content_length_char_same c x1 x2 :
  core x1 = core x2 ->
  match content_length_char c x1, content_length_char c x2 with
  | inl y1, inl y2 => exists cl, y1 = set_content_length cl x1 /\ y2 = set_content_length cl x2
  | inr e1, inr e2 => e1 = e2
  | _, _ => False
  end.
Proof.
  intros (_ & _ & _ & Hc & _)%core_fields. unfold content_length_char. rewrite Hc.
  destruct (c =c _)%char; [exists (hp_content_length x2); rewrite <- Hc at 1; destruct x1, x2; auto|].
  destruct (negb _); [reflexivity|]. destruct (_ <? _); [reflexivity|]. eauto.
Qed.

(** The two runs inside [s_header_value], entered at [s1] and [s2]. *)
Record value_at (s1 s2 : Z) (k1 k2 : ctx trace) : Prop := {
  va_rel : rel k1 k2;
  va_inv1 : value_inv d1 s1 k1;
  va_inv2 : value_inv b s2 k2;
  va_count : hp_nread (pr k1) + (p k1 - s1) <= hp_nread (pr k2) + (p k2 - s2)
}.

Ltac open_value k1 k2 :=
  destruct k1 as [x1 ap1 ps1 pp1 cc1 m1 m2 m3 m4 m5];
  destruct x1 as [ty fl st1 hs ix ln nr1 cl ma mi sc me er up];
  destruct k2 as [x2 ap2 ps pp cc n1 n2 n3 n4 n5];
  destruct x2 as [ty' fl' st2 hs' ix' ln' nr2 cl' ma' mi' sc' me' er' up'];
  intros [[Hcore Hnr Hps Hpp Hl]
          (He1 & Hps1 & Hnr1 & Hcl1 & (Hm1 & Hm2 & Hm3 & Hm4 & Hm5) & Hp1 & Hq1 & Hs1)
          (He2 & Hps2 & Hnr2 & Hcl2 & (Hn1 & Hn2 & Hn3 & Hn4 & Hn5) & Hp2 & Hq2 & Hs2) Hct];
  unfold core in Hcore; exec_simpl_in Hcore; cbn [set_state set_nread] in Hcore;
  injection Hcore as <- <- <- <- <- <- <- <- <- <- <- <-;
  cbn [p_state pr p ch hp_nread hp_http_errno hp_content_length hp_header_state hp_index hp_method hp_flags
       header_field_mark header_value_mark url_mark body_mark status_mark] in *;
  subst; clear_marks.

(** The end of the loop: the value complete, or the input at its end. *)
Lemma header_value_done_rel s1 s2 h k1 k2 :
  rel k1 k2 -> 0 <= hp_nread (pr k1) <= HTTP_MAX_HEADER_SIZE -> 0 <= hp_nread (pr k2) <= HTTP_MAX_HEADER_SIZE ->
  hp_nread (pr k1) + (p k1 - s1) <= hp_nread (pr k2) + (p k2 - s2) ->
  0 <= s1 <= p k1 -> 0 <= s2 <= p k2 -> p k2 <= zlen b ->
  ctl_rel (header_value_done d1 s1 h k1) (header_value_done b s2 h k2).
Proof.
  intros [Hcore Hnr Hps Hpp Hl] H1 H2 Hct Hs1 Hs2 Hq. unfold header_value_done.
  pose proof (zlen_nonneg a). rewrite zlen_app in Hlen. cbn [p upd_pr put_pr].
  apply count_rel; cbn [pr upd_pr put_pr set_header_state hp_nread]; try (assumption || lia).
  intros c1 c2 -> -> _. unfold data_end. rewrite zlen_app.
  assert (Hcore' : core (set_nread (hp_nread (pr k1) + (p k1 - s1)) (set_header_state h (pr k1))) =
                   core (set_nread (hp_nread (pr k2) + (p k2 - s2)) (set_header_state h (pr k2)))).
  { exact (core_commutes (set_header_state h) _ _ (fun x => eq_refl) Hcore). }
  cbn [p upd_pr put_pr]. rewrite Hpp. replace (o + p k2 =? o + zlen b) with (p k2 =? zlen b) by lia.
  destruct (p k2 =? zlen b); (constructor;
    [exact Hcore' | cbn; lia | exact Hps | cbn; lia
    | eapply linked_keep; [exact Hl | reflexivity | reflexivity | intros []; reflexivity | intros []; reflexivity]]).
Qed.

Lemma value_at_ch s1 s2 d k1 k2 : value_at s1 s2 k1 k2 -> value_at s1 s2 (put_ch d k1) (put_ch d k2).
Proof.
  intros [[Hcore Hnr Hps Hpp Hl] H1 H2 Hct]. constructor; [constructor|..]; try assumption.
  eapply linked_keep; [exact Hl | reflexivity | reflexivity | intros []; reflexivity | intros []; reflexivity].
Qed.

Lemma value_at_move s1 s2 ix fl q k1 k2 :
  value_at s1 s2 k1 k2 -> p k2 <= q < zlen b ->
  value_at s1 s2 (put_p (o + q + 1) (moved ix fl (o + q) k1)) (put_p (q + 1) (moved ix fl q k2)).
Proof.
  intros [[Hcore Hnr Hps Hpp Hl] H1 H2 Hct] Hq. pose proof zlen_app a b.
  constructor; [constructor | apply value_inv_moved; [exact H1 | lia] | apply value_inv_moved; [exact H2 | lia] | ].
  - exact (core_commutes (fun x => set_flags fl (set_index ix x)) _ _ (fun x => eq_refl) Hcore).
  - exact Hnr.
  - exact Hps.
  - cbn. lia.
  - eapply linked_keep; [exact Hl | reflexivity | reflexivity | intros []; reflexivity | intros []; reflexivity].
  - cbn. lia.
Qed.

Lemma value_at_length s1 s2 cl k1 k2 :
  value_at s1 s2 k1 k2 -> 0 <= cl <= ULLONG_MAX -> p k2 < zlen b ->
  value_at s1 s2 (put_p (p k1 + 1) (upd_pr (set_content_length cl) k1)) (put_p (p k2 + 1) (upd_pr (set_content_length cl) k2)).
Proof.
  intros [[Hcore Hnr Hps Hpp Hl] H1 H2 Hct] Hcl Hq. pose proof zlen_app a b.
  constructor; [constructor | apply value_inv_content_length; [exact H1 | exact Hcl | lia]
               | apply value_inv_content_length; [exact H2 | exact Hcl | lia] | ].
  - exact (core_commutes (set_content_length cl) _ _ (fun x => eq_refl) Hcore).
  - exact Hnr.
  - exact Hps.
  - cbn. lia.
  - eapply linked_keep; [exact Hl | reflexivity | reflexivity | intros []; reflexivity | intros []; reflexivity].
  - cbn. lia.
Qed.

Lemma value_loop_cr s1 s2 h k1 k2 :
  value_at s1 s2 k1 k2 -> p k2 < zlen b ->
  let k1 := put_ch CR k1 in let k2 := put_ch CR k2 in
  let k1 := upd_pr (set_header_state h) (UPDATE_STATE s_header_almost_done k1) in
  let k2 := upd_pr (set_header_state h) (UPDATE_STATE s_header_almost_done k2) in
  ctl_rel (CALLBACK_DATA recorder d1 For_header_value k1 (header_value_done d1 s1 h))
          (CALLBACK_DATA recorder b For_header_value k2 (header_value_done b s2 h)).
Proof.
  open_value k1 k2. intros Hlt. autounfold with http_cases.
  repeat rel_step. apply header_value_done_rel; exec_simpl; try (assumption || lia).
  rel_leaf.
Qed.

Lemma value_loop_lf s1 s2 h k1 k2 :
  value_at s1 s2 k1 k2 -> p k2 < zlen b ->
  let k1 := put_ch LF k1 in let k2 := put_ch LF k2 in
  ctl_rel (COUNT_HEADER_SIZE (p k1 - s1) (UPDATE_STATE s_header_almost_done k1) (fun k =>
             CALLBACK_DATA_NOADVANCE recorder d1 For_header_value (upd_pr (set_header_state h) k) Reexecute))
          (COUNT_HEADER_SIZE (p k2 - s2) (UPDATE_STATE s_header_almost_done k2) (fun k =>
             CALLBACK_DATA_NOADVANCE recorder b For_header_value (upd_pr (set_header_state h) k) Reexecute)).
Proof.
  open_value k1 k2. intros Hlt. cbv zeta. exec_simpl. pose proof (zlen_nonneg a). rewrite zlen_app in *.
  apply count_rel; exec_simpl; try (assumption || lia). intros c1 c2 -> -> _.
  autounfold with http_cases. repeat rel_step. rel_leaf.
Qed.

Lemma value_loop_rel fuel1 fuel2 s1 s2 h k1 k2 :
  value_at s1 s2 k1 k2 -> value_hs h = true ->
  zlen b - p k2 < Z.of_nat fuel1 -> zlen b - p k2 < Z.of_nat fuel2 ->
  ctl_rel (header_value_loop recorder d1 lenient fuel1 s1 h k1) (header_value_loop recorder b lenient fuel2 s2 h k2).
Proof.
  revert fuel1 h k1 k2. induction fuel2 as [|fuel2 IH]; intros fuel1 h k1 k2 Hat Hh Hf1 Hf2.
  { destruct Hat as [_ _ (_ & _ & _ & _ & _ & _ & ? & _) _]. lia. }
  destruct fuel1 as [|fuel1]; [destruct Hat as [_ _ (_ & _ & _ & _ & _ & _ & ? & _) _]; lia|].
  assert (Hr : p k1 = o + p k2 /\ 0 <= p k2 <= zlen b /\ 0 <= s1 <= p k1 /\ 0 <= s2 <= p k2 /\
    0 <= hp_nread (pr k1) <= HTTP_MAX_HEADER_SIZE /\ 0 <= hp_nread (pr k2) <= HTTP_MAX_HEADER_SIZE).
  { destruct Hat as [[_ _ _ Hpp _] (_ & _ & ? & _ & _ & ? & ? & _) (_ & _ & ? & _ & _ & ? & ? & _) _].
    split; [exact Hpp|]. repeat split; lia. }
  destruct Hr as (Hpp & Hp & Hs1 & Hs2 & Hn1 & Hn2).
  cbn [header_value_loop]. unfold data_end. rewrite zlen_app, Hpp, byte_at_shift by lia.
  replace (o + p k2 =? o + zlen b) with (p k2 =? zlen b) by lia.
  destruct (p k2 =? zlen b) eqn:Hend.
  { apply header_value_done_rel; try assumption; try lia; apply Hat. }
  destruct (byte_at b (p k2)) as [d|] eqn:Hd; [|apply ctl_rel_failed; exact I].
  destruct (d =c CR) eqn:Hcr; [apply Ascii.eqb_eq in Hcr; subst d; apply (value_loop_cr s1 s2 h k1 k2 Hat); lia|].
  destruct (d =c LF) eqn:Hlf; [apply Ascii.eqb_eq in Hlf; subst d; apply (value_loop_lf s1 s2 h k1 k2 Hat); lia|].
  destruct (negb lenient && _); [apply ctl_rel_failed; exact I|].
  apply (value_at_ch _ _ d) in Hat.
  destruct (eqb h h_content_length) eqn:Hhc.
  - cbn [pr put_ch]. pose proof (content_length_char_same d (pr k1) (pr k2) (rel_core _ _ _ (va_rel _ _ _ _ Hat))) as Hcl.
    pose proof (content_length_char_ok d (pr k2)) as Hok.
    destruct (content_length_char d (pr k1)), (content_length_char d (pr k2)); try contradiction;
      [|apply ctl_rel_failed; exact I].
    destruct Hcl as (cl & -> & ->). destruct Hok as (cl' & Heq & Hcl'); [apply Hat|].
    assert (cl = cl') as -> by (apply (f_equal hp_content_length) in Heq; exact Heq).
    cbn [p put_ch]. apply IH; [|exact Hh | cbn; lia | cbn; lia].
    exact (value_at_length s1 s2 cl' (put_ch d k1) (put_ch d k2) Hat Hcl' ltac:(cbn; lia)).
  - apply bool_decide_eq_false in Hhc.
    destruct (header_value_char_same h (put_ch d k1) (put_ch d k2) d) as (h' & ix & fl & q & H1 & H2 & Hh' & Hq);
      try assumption; try reflexivity; [apply Hat|].
    rewrite H1, H2. apply IH; [|exact Hh' | cbn in *; lia | cbn in *; lia].
    exact (value_at_move s1 s2 ix fl q (put_ch d k1) (put_ch d k2) Hat Hq).
Qed.

Lemma header_value_rel k1 k2 : paired k1 k2 -> p_state k2 = s_header_value -> case_rel k1 k2.
Proof.
  intros ((He1 & (Hnr1 & Hcl1 & Hst1) & Hm1 & Hp1) & (He2 & (Hnr2 & Hcl2 & Hst2) & Hm2 & Hp2) & Hrel & Hch) Hs.
  pose proof (rel_state _ _ _ Hrel) as Hs1. pose proof (rel_nread _ _ _ Hrel). pose proof (rel_p _ _ _ Hrel) as Hpp.
  rewrite Hs in Hs1. rewrite Hs1 in Hst1, Hm1. rewrite Hs in Hm2, Hst2. cbn in Hst1, Hst2.
  destruct (core_fields _ _ (rel_core _ _ _ Hrel)) as (_ & Hh & _).
  unfold HttpStreamCases.case_rel, dispatch, case_s_header_value. rewrite Hs1, Hs, Hh.
  apply value_loop_rel; [|exact Hst2 | unfold data_end; rewrite zlen_app; lia | unfold data_end; lia].
  constructor; [exact Hrel | | | lia]; repeat split; try assumption; try lia; try apply Hm1; try apply Hm2.
Qed.

(** * Bodies *)

(** The body mark after [MARK(body)] in both runs. *)
Lemma mark_body_linked (k1 k2 : ctx trace) :
  linked k1 k2 -> p k1 = o + p k2 -> (forall g, g <> For_body -> get_mark g k1 = None /\ get_mark g k2 = None) ->
  linked (MARK For_body k1) (MARK For_body k2).
Proof.
  intros Hl Hp Hg. destruct k1 as [x1 ap1 ps1 pp1 cc1 m1 m2 m3 m4 m5], k2 as [x2 ap2 ps pp cc n1 n2 n3 n4 n5].
  cbn in Hp. subst.
  destruct (Hg For_header_field ltac:(discriminate)) as [E1 F1]. destruct (Hg For_header_value ltac:(discriminate)) as [E2 F2].
  destruct (Hg For_url ltac:(discriminate)) as [E3 F3]. destruct (Hg For_status ltac:(discriminate)) as [E5 F5].
  cbn in E1, E2, E3, E5, F1, F2, F3, F5. subst. destruct Hl as [Ha Hm | f i Hi H1 H2 Hn Ha].
  - specialize (Hm For_body). cbn in Ha, Hm. subst. destruct n4; apply linked_same; try reflexivity; intros []; reflexivity.
  - destruct f; try discriminate. cbn in H1, H2. subst. apply (linked_carried _ _ _ For_body i); try assumption; try reflexivity.
Qed.

Lemma read_body_rel (k1 k2 : ctx trace) :
  rel k1 k2 -> (forall g, g <> For_body -> get_mark g k1 = None /\ get_mark g k2 = None) ->
  0 <= hp_content_length (pr k2) <= ULLONG_MAX ->
  rel (read_body d1 k1) (read_body b k2) /\
  p (read_body b k2) = p k2 + (Z.min (hp_content_length (pr k2)) (u64 (zlen b - p k2)) - 1).
Proof.
  intros [Hcore Hnr Hps Hpp Hl] Hg Hcl. destruct (core_fields _ _ Hcore) as (_ & _ & _ & Hc & _).
  assert (Hn : to_read d1 k1 = to_read b k2).
  { unfold to_read, data_end. rewrite Hc, Hpp, zlen_app.
    replace (o + zlen b - (o + p k2)) with (zlen b - p k2) by lia. reflexivity. }
  pose proof (mark_body_linked k1 k2 Hl Hpp Hg) as Hm.
  assert (HM : forall k : ctx trace, pr (MARK For_body k) = pr k /\ p (MARK For_body k) = p k /\ p_state (MARK For_body k) = p_state k).
  { intros k. destruct k as [? ? ? ? ? ? ? ? [] ?]; auto. }
  destruct (HM k1) as (A1 & B1 & C1). destruct (HM k2) as (A2 & B2 & C2).
  split; [constructor|]; unfold read_body; rewrite ?Hn; cbn [pr upd_pr put_pr put_p p p_state]; rewrite ?A1, ?A2, ?B1, ?B2, ?C1, ?C2.
  - rewrite Hc. exact (core_commutes (set_content_length (u64 (hp_content_length (pr k2) - to_read b k2))) _ _ (fun x => eq_refl) Hcore).
  - exact Hnr.
  - exact Hps.
  - lia.
  - eapply linked_keep; [exact Hm | reflexivity | reflexivity | intros []; reflexivity | intros []; reflexivity].
  - reflexivity.
Qed.

Definition body_state (s : state) : bool := mark_state For_body s.

Lemma body_other_marks (data : bytes) n (k : ctx trace) g :
  inv data n k -> body_state (p_state k) = true -> g <> For_body -> get_mark g k = None.
Proof.
  intros (_ & _ & (H1 & H2 & H3 & _ & H5) & _) Hs Hg.
  destruct g; try contradiction; cbn; eapply mark_ok_none; try eassumption;
    destruct (p_state k); try discriminate; reflexivity.
Qed.

(** What [read_body] leaves: the same marks but for that of the body. *)
Lemma read_body_marks (data : bytes) (k : ctx trace) :
  inv data 1 k -> body_state (p_state k) = true ->
  (forall g, g <> For_body -> get_mark g (read_body data k) = None) /\
  (forall m, get_mark For_body (read_body data k) = Some m -> 0 <= m <= p k) /\
  hp_http_errno (pr (read_body data k)) = HPE_OK.
Proof.
  intros Hi Hs. pose proof (body_other_marks data 1 k) as Hg. destruct Hi as (He & Hwf & Hm & Hp).
  split; [|split].
  - intros g Hne. rewrite <- (Hg g (conj He (conj Hwf (conj Hm Hp))) Hs Hne).
    destruct k as [? ? ? ? ? ? ? ? [] ?], g; first [contradiction | reflexivity].
  - destruct Hm as (_ & _ & _ & H4 & _). destruct k as [? ? ? ? ? ? ? ? [] ?]; cbn in *; intros m [= <-]; lia.
  - destruct k as [? ? ? ? ? ? ? ? [] ?]; exact He.
Qed.

Lemma rel_flags x1 x2 f : core x1 = core x2 -> has_flag f x1 = has_flag f x2.
Proof. intros (Hf & _)%core_fields. unfold has_flag. rewrite Hf. reflexivity. Qed.

Lemma rel_update_state s k1 k2 : rel k1 k2 -> rel (UPDATE_STATE s k1) (UPDATE_STATE s k2).
Proof.
  intros [Hcore Hnr Hps Hpp Hl]. constructor; try assumption; try reflexivity.
  eapply linked_keep; [exact Hl | reflexivity | reflexivity | intros []; reflexivity | intros []; reflexivity].
Qed.

(** A body of known length: [message_done] once it is complete. *)
Lemma body_done_rel k1 k2 :
  rel k1 k2 -> hp_http_errno (pr k1) = HPE_OK -> hp_http_errno (pr k2) = HPE_OK -> ch k1 = ch k2 ->
  0 <= p k2 < zlen b -> (forall g, g <> For_body -> get_mark g k1 = None /\ get_mark g k2 = None) ->
  (forall m, get_mark For_body k2 = Some m -> 0 <= m <= p k2) ->
  ctl_rel (CALLBACK_DATA_ recorder d1 For_body (p k1 + 1) (p k1) k1 Reexecute)
          (CALLBACK_DATA_ recorder b For_body (p k2 + 1) (p k2) k2 Reexecute).
Proof.
  intros [Hcore Hnr Hps Hpp Hl] He1 He2 Hch Hp Hg Hm. rewrite Hpp.
  replace (o + p k2 + 1) with (o + (p k2 + 1)) by lia.
  apply callback_data_rel; try assumption; [lia | intros m Hm'; specialize (Hm m Hm'); lia | apply Hg |].
  intros s1 s2 t. split; [constructor; try assumption | exact Hch].
  apply linked_same; [reflexivity|]. intros g. destruct (decide (g = For_body)) as [-> | Hne]; [reflexivity|].
  destruct (Hg g Hne) as [G1 G2].
  destruct k1 as [x1 ap1 ps1 pp1 cc1 m1 m2 m3 m4 m5], k2 as [x2 ap2 ps pp cc n1 n2 n3 n4 n5].
  destruct g; try contradiction; cbn in G1, G2 |- *; subst; reflexivity.
Qed.

Lemma body_identity_rel (k1 k2 : ctx trace) :
  paired k1 k2 -> p_state k2 = s_body_identity \/ p_state k2 = s_chunk_data -> case_rel k1 k2.
Proof.
  intros (Hi1 & Hi2 & Hrel & Hch) Hs. pose proof (rel_state _ _ _ Hrel) as Hs1.
  assert (Hb : body_state (p_state k2) = true) by (destruct Hs as [-> | ->]; reflexivity).
  assert (Hb1 : body_state (p_state k1) = true) by (rewrite Hs1; exact Hb).
  destruct (read_body_marks d1 k1 Hi1 Hb1) as (G1 & _ & E1).
  destruct (read_body_marks b k2 Hi2 Hb) as (G2 & M2 & E2).
  destruct (read_body_rel k1 k2 Hrel) as (Hr & Hp).
  { intros g Hg. split; eapply body_other_marks; eassumption. }
  { apply Hi2. }
  destruct (core_fields _ _ (rel_core _ _ _ Hrel)) as (_ & _ & _ & Hcl & _).
  destruct (core_fields _ _ (rel_core _ _ _ Hr)) as (_ & _ & _ & Hcl' & _).
  assert (Hch' : ch (read_body d1 k1) = ch (read_body b k2)).
  { destruct k1 as [? ? ? ? ? ? ? ? [] ?], k2 as [? ? ? ? ? ? ? ? [] ?]; exact Hch. }
  destruct Hi2 as (_ & (_ & Hc & Hst) & _ & Hp2).
  assert (Hcl0 : 0 < hp_content_length (pr k2) < ULLONG_MAX) by (destruct Hs as [E | E]; rewrite E in Hst; apply Hst).
  assert (Hpos : p k2 <= p (read_body b k2) < zlen b).
  { rewrite Hp. pose proof (zlen_app a b). pose proof (zlen_nonneg a).
    unfold u64, ULLONG_MAX in *. rewrite Z.mod_small by lia. lia. }
  unfold HttpStreamCases.case_rel, dispatch. rewrite Hs1.
  destruct Hs as [-> | ->]; unfold case_s_body_identity, case_s_chunk_data, body_length_ok;
    rewrite Hcl, Hcl', ?(rel_flags _ _ F_CHUNKED (rel_core _ _ _ Hrel));
    (destruct (_ || _) || destruct (negb _)); try (apply ctl_rel_failed; exact I);
    destruct (hp_content_length (pr (read_body b k2)) =? 0); try exact Hr.
  - cbv zeta. apply body_done_rel; try assumption; [apply rel_update_state; exact Hr | change (0 <= p (read_body b k2) < zlen b); lia | |].
    + intros g Hg. rewrite <- (G1 g Hg) at 1. rewrite <- (G2 g Hg) at 1. split; destruct g; reflexivity.
    + intros m Hm. specialize (M2 m Hm). change (0 <= m <= p (read_body b k2)). lia.
  - apply rel_update_state. exact Hr.
Qed.

Lemma body_eof_rel (k1 k2 : ctx trace) :
  paired k1 k2 -> p_state k2 = s_body_identity_eof \/ p_state k2 = s_chunk_data_almost_done -> case_rel k1 k2.
Proof.
  unfold HttpStreamCases.paired, HttpStreamCases.case_rel, dispatch. open_paired k1 k2. exec_simpl.
  intros [-> | ->]; clear_marks; autounfold with http_cases; pose proof (zlen_app a b) as Hd.
  - cbn [mark_ok] in *. unfold data_end. rewrite Hd.
    constructor; try (exact eq_refl || assumption); [destruct m4, n4; reflexivity | destruct m4, n4; assumption | destruct m4, n4; reflexivity | destruct m4, n4; cbn; lia |].
    unshelve epose proof (mark_body_linked _ _ Hl eq_refl _) as Hm; [intros []; try contradiction; auto|].
    eapply linked_keep; [exact Hm | reflexivity | reflexivity | intros []; reflexivity | intros []; reflexivity].
  - repeat rel_step; rel_leaf.
Qed.

(** Every [case]. *)
Lemma dispatch_rel (k1 k2 : ctx trace) : paired k1 k2 -> case_rel k1 k2.
Proof.
  intros Hp. pose proof (line_cases_rel _ _ lenient _ _ Hp) as H1.
  pose proof (method_cases_rel _ _ lenient _ _ Hp) as H2.
  pose proof (url_cases_rel _ _ lenient _ _ Hp) as H3.
  pose proof (headers_cases_rel _ _ lenient _ _ Hp) as H4.
  pose proof (header_field_rel _ _ lenient Hlen _ _ Hp) as H5.
  pose proof (header_value_rel _ _ Hp) as H6.
  pose proof (body_identity_rel _ _ Hp) as H7.
  pose proof (body_eof_rel _ _ Hp) as H8.
  destruct (p_state k2); auto.
Qed.
End StreamValue.
