(* ===== verification/HttpStreamStep.v ===== *)
(** The loops of [http_parser_execute] keep the relation of [HttpStream], and
    a byte given in a call of its own leaves the parser where the same byte of
    a longer input leaves it. *)
From Stdlib Require Import ZArith Lia Bool List String Ascii.
From stdpp Require Import base list strings.
From S2P Require Import Prelude HttpChars HttpTypes HttpUrl HttpExec HttpExecSafe HttpRecord HttpCases HttpHeaders HttpSafe HttpStream HttpStreamCases HttpStreamValue.

Section Loops.
Variable a b : bytes.
Variable lenient : bool.
Hypothesis Hlen : zlen (a ++ b) < 2 ^ 31.

Notation o := (zlen a).
Notation d1 := (a ++ b).
Notation rel := (rel a).
Notation ctl_rel := (ctl_rel a).
Notation linked := (linked a).
Notation paired := (paired a b).

Lemma b_short : zlen b < 2 ^ 31.
Proof. pose proof (zlen_app a b). pose proof (zlen_nonneg a). lia. Qed.

Lemma reexecute_rel fuel k1 k2 :
  paired k1 k2 -> ctl_rel (reexecute recorder d1 lenient fuel k1) (reexecute recorder b lenient fuel k2).
Proof.
  revert k1 k2. induction fuel as [|fuel IH]; intros k1 k2 Hp; [apply ctl_rel_failed; exact I|].
  cbn [reexecute]. pose proof (dispatch_rel a b lenient Hlen _ _ Hp) as Hd.
  destruct Hp as (Hi1 & Hi2 & _ & _).
  pose proof (dispatch_ok recorder d1 lenient recorder_ok Hlen k1 Hi1) as Ho1.
  pose proof (dispatch_ok recorder b lenient recorder_ok b_short k2 Hi2) as Ho2.
  unfold case_rel, case_ok in *.
  destruct (dispatch recorder b lenient k2) as [|k2'| | | |];
    try (apply ctl_rel_failed; exact I); destruct (dispatch recorder d1 lenient k1) as [|k1'| | | |];
    try contradiction; try exact Hd.
  apply IH. destruct Hd as [Hr Hc]. split; [apply Ho1|]. split; [apply Ho2|]. auto.
Qed.

Lemma rel_put_ch c k1 k2 : rel k1 k2 -> rel (put_ch c k1) (put_ch c k2).
Proof.
  intros [Hcore Hnr Hps Hpp Hl]. constructor; try assumption.
  eapply linked_keep; [exact Hl | reflexivity | reflexivity | intros []; reflexivity | intros []; reflexivity].
Qed.

Lemma inv_counted (data : bytes) (k : ctx trace) n :
  inv data 0 k -> PARSING_HEADER (p_state k) = true -> n = hp_nread (pr k) + 1 -> n <= HTTP_MAX_HEADER_SIZE ->
  inv data 1 (upd_pr (set_nread n) k).
Proof.
  intros (He & (Hn & Hc & Hs) & Hm & Hp) Hh -> Hmax. split; [exact He|]. split; [|split; [exact Hm | exact Hp]].
  split; [cbn; lia|]. split; [exact Hc|]. cbn. destruct (p_state k); try exact Hs.
  cbn in Hs |- *. split; [tauto | lia].
Qed.

Lemma exec_char_rel k1 k2 :
  inv d1 0 k1 -> inv b 0 k2 -> rel k1 k2 -> ch k1 = ch k2 ->
  ctl_rel (exec_char recorder d1 lenient k1) (exec_char recorder b lenient k2).
Proof.
  intros Hi1 Hi2 Hrel Hch. unfold exec_char. pose proof (rel_state _ _ _ Hrel) as Hs. rewrite Hs.
  pose proof (rel_nread _ _ _ Hrel). destruct (PARSING_HEADER (p_state k2)) eqn:Hh.
  - apply count_rel; [lia | apply Hi1 | apply Hi2 | lia | lia |].
    intros n1 n2 Hn1 Hn2 Hmax. apply reexecute_rel.
    split; [apply inv_counted; try assumption; [rewrite Hs; exact Hh | lia]|].
    split; [apply inv_counted; assumption|]. split; [|exact Hch].
    destruct Hrel as [Hcore Hnr Hps Hpp Hl]. constructor; try assumption; [cbn; lia|].
    eapply linked_keep; [exact Hl | reflexivity | reflexivity | intros []; reflexivity | intros []; reflexivity].
  - apply reexecute_rel. destruct Hi1 as (He1 & Hw1 & Hr1), Hi2 as (He2 & Hw2 & Hr2).
    split; [split; [exact He1 | split; [apply wf_switch; [exact Hw1 | rewrite Hs; exact Hh] | exact Hr1]]|].
    split; [split; [exact He2 | split; [apply wf_switch; assumption | exact Hr2]]|]. auto.
Qed.

(** The invariant between characters, the end of the input included. *)
Definition at_loop (data : bytes) (k : ctx trace) : Prop :=
  hp_http_errno (pr k) = HPE_OK /\ wf_at 0 (p_state k) (pr k) /\ marks_ok (p_state k) (p k) k /\
  0 <= p k <= zlen data.

Lemma at_loop_next (data : bytes) (k : ctx trace) : inv data 0 k -> at_loop data (put_p (p k + 1) k).
Proof.
  intros (He & Hwf & Hm & Hp). split; [exact He|]. split; [exact Hwf|]. split; [|cbn; lia].
  destruct k as [x' ap' ps' pp' cc' m1 m2 m3 m4 m5].
  destruct Hm as (Hm1 & Hm2 & Hm3 & Hm4 & Hm5). cbn in *.
  repeat split; cbn; match goal with |- mark_ok _ _ _ ?m => destruct m; cbn in *; intuition lia end.
Qed.

Lemma rel_next k1 k2 : rel k1 k2 -> rel (put_p (p k1 + 1) k1) (put_p (p k2 + 1) k2).
Proof.
  intros [Hcore Hnr Hps Hpp Hl]. constructor; try assumption; [cbn; lia|].
  eapply linked_keep; [exact Hl | reflexivity | reflexivity | intros []; reflexivity | intros []; reflexivity].
Qed.

Lemma exec_finish_rel k1 k2 :
  at_loop d1 k1 -> at_loop b k2 -> rel k1 k2 -> p k2 = zlen b ->
  ctl_rel (exec_finish recorder d1 k1) (exec_finish recorder b k2).
Proof.
  intros (He1 & _ & Hm1 & _) (He2 & _ & Hm2 & _) Hrel Hend. unfold exec_finish.
  pose proof (marks_ok_end _ _ _ Hm1) as Hc1. pose proof (marks_ok_end _ _ _ Hm2) as Hc2.
  replace (mark_count k1 <=? 1) with true by lia. replace (mark_count k2 <=? 1) with true by lia.
  clear Hc1 Hc2. revert He1 He2 Hm1 Hm2 Hrel Hend.
  destruct k1 as [x1 ap1 ps1 pp1 cc1 m1 m2 m3 m4 m5], k2 as [x2 ap2 ps pp cc n1 n2 n3 n4 n5].
  destruct x1 as [ty fl st1 hs ix ln nr1 cl ma mi sc me er up], x2 as [ty' fl' st2 hs' ix' ln' nr2 cl' ma' mi' sc' me' er' up'].
  intros He1 He2 (Hm1 & Hm2 & Hm3 & Hm4 & Hm5) (Hn1 & Hn2 & Hn3 & Hn4 & Hn5) [Hcore Hnr Hps Hpp Hl] Hend.
  unfold core in Hcore; exec_simpl_in Hcore; cbn [set_state set_nread] in Hcore;
  injection Hcore as <- <- <- <- <- <- <- <- <- <- <- <-;
  cbn [p_state pr p ch hp_nread hp_http_errno hp_content_length hp_header_state hp_index hp_method hp_flags
       header_field_mark header_value_mark url_mark body_mark status_mark] in *; subst.
  pose proof (zlen_nonneg b). pose proof (zlen_app a b) as Hd.
  destruct ps; clear_marks; try plain_linked; autounfold with http_cases;
    repeat first [rewrite (callback_data_unmarked d1), (callback_data_unmarked b) by reflexivity | rel_step];
    rel_leaf; apply zlen_app.
Qed.
Lemma at_loop_inv (data : bytes) c (k : ctx trace) : at_loop data k -> p k < zlen data -> inv data 0 (put_ch c k).
Proof. intros (He & Hw & Hm & Hp) Hlt. split; [exact He|]. split; [exact Hw|]. split; [exact Hm | cbn; lia]. Qed.

(** What follows a character. *)
Definition then_loop (data : bytes) (fuel : nat) (c : ctl trace) : ctl trace :=
  match c with
  | Break k => exec_loop recorder data lenient fuel (put_p (p k + 1) k)
  | r => r
  end.

Lemma exec_loop_end fuel (data : bytes) k :
  p k = zlen data -> exec_loop recorder data lenient fuel k = exec_finish recorder data k.
Proof. intros Hp. destruct fuel; cbn [exec_loop]; unfold data_end at 1; rewrite Hp, Z.eqb_refl; reflexivity. Qed.

Lemma exec_loop_next fuel (data : bytes) c k :
  byte_at data (p k) = Some c ->
  exec_loop recorder data lenient (S fuel) k = then_loop data fuel (exec_char recorder data lenient (put_ch c k)).
Proof.
  intros Hc. pose proof (byte_at_range _ _ _ Hc). cbn [exec_loop]. unfold data_end at 1.
  replace (p k =? zlen data) with false by lia. rewrite Hc.
  unfold then_loop. destruct (exec_char _ _ _ _); reflexivity.
Qed.

Lemma exec_char_inv (data : bytes) c k k' :
  zlen data < 2 ^ 31 -> at_loop data k -> p k < zlen data ->
  exec_char recorder data lenient (put_ch c k) = Break k' -> inv data 0 k' /\ p k <= p k'.
Proof.
  intros Hd Hat Hlt Heq.
  pose proof (exec_char_ok recorder data lenient recorder_ok Hd _ (at_loop_inv data c k Hat Hlt)) as Hok.
  rewrite Heq in Hok. exact Hok.
Qed.

Lemma byte_at_some (data : bytes) i : 0 <= i < zlen data -> exists c, byte_at data i = Some c.
Proof.
  intros Hi. unfold byte_at, zlen in *. replace (i <? 0) with false by lia.
  destruct (lookup_lt_is_Some_2 data (Z.to_nat i)) as [c Hc]; [lia | eauto].
Qed.

(** Once one more character has been read in related ways, so is the rest. *)
Lemma then_loop_rel fuel1 fuel2 c1 c2 :
  (forall k1 k2, at_loop d1 k1 -> at_loop b k2 -> rel k1 k2 -> zlen b - p k2 <= Z.of_nat fuel1 ->
     zlen b - p k2 <= Z.of_nat fuel2 ->
     ctl_rel (exec_loop recorder d1 lenient fuel1 k1) (exec_loop recorder b lenient fuel2 k2)) ->
  ctl_rel c1 c2 -> (forall k, c1 = Break k -> inv d1 0 k) ->
  (forall k, c2 = Break k -> inv b 0 k /\ zlen b - p k - 1 <= Z.of_nat fuel1 /\ zlen b - p k - 1 <= Z.of_nat fuel2) ->
  ctl_rel (then_loop d1 fuel1 c1) (then_loop b fuel2 c2).
Proof.
  intros IH Hc H1 H2.
  destruct c2 as [k2'| | | | |]; try (apply ctl_rel_failed; exact I); destruct c1 as [k1'| | | | |];
    try contradiction; try exact Hc.
  destruct (H2 _ eq_refl) as (Hi2 & Hf1 & Hf2). specialize (H1 _ eq_refl).
  apply IH; [apply at_loop_next; assumption | apply at_loop_next; assumption | apply rel_next; exact Hc | |];
    cbn; lia.
Qed.

Lemma exec_loop_rel fuel1 fuel2 k1 k2 :
  at_loop d1 k1 -> at_loop b k2 -> rel k1 k2 -> zlen b - p k2 <= Z.of_nat fuel1 ->
  zlen b - p k2 <= Z.of_nat fuel2 ->
  ctl_rel (exec_loop recorder d1 lenient fuel1 k1) (exec_loop recorder b lenient fuel2 k2).
Proof.
  revert fuel1 k1 k2. induction fuel2 as [|fuel2 IH]; intros fuel1 k1 k2 H1 H2 Hrel Hf1 Hf2;
    pose proof (rel_p _ _ _ Hrel) as Hp; pose proof (zlen_app a b) as Hd.
  - assert (Hend : p k2 = zlen b) by (destruct H2 as (_ & _ & _ & ?); lia).
    rewrite !exec_loop_end by lia. apply exec_finish_rel; assumption.
  - destruct (decide (p k2 = zlen b)) as [Hend | Hne].
    { rewrite !exec_loop_end by lia. apply exec_finish_rel; assumption. }
    assert (Hlt : 0 <= p k2 < zlen b) by (destruct H2 as (_ & _ & _ & ?); lia).
    destruct fuel1 as [|fuel1]; [lia|]. destruct (byte_at_some b (p k2) Hlt) as [c Hc].
    pose proof (byte_at_shift a b (p k2) ltac:(lia)) as Hc1. rewrite Hc, <- Hp in Hc1.
    rewrite (exec_loop_next _ d1 c), (exec_loop_next _ b c) by assumption.
    apply then_loop_rel; [intros; apply IH; assumption | | |].
    + apply exec_char_rel; [apply at_loop_inv; [assumption | lia].. | apply rel_put_ch; exact Hrel | reflexivity].
    + intros k Hk. eapply exec_char_inv; [exact Hlen | exact H1 | lia | exact Hk].
    + intros k Hk. destruct (exec_char_inv b c k2 k b_short H2 ltac:(lia) Hk). split; [assumption | lia].
Qed.
End Loops.
