(* ===== verification/HttpStreamByte.v ===== *)
(** One byte given in a call of its own, against the same byte at the head of
    a longer input: the two calls go through the same [case]s, except where a
    [case] reads on through the input. *)
From Stdlib Require Import ZArith Lia Bool List String Ascii.
From stdpp Require Import base list strings.
From S2P Require Import Prelude HttpChars HttpTypes HttpUrl HttpExec HttpExecSafe HttpRecord HttpCases HttpHeaders HttpSafe HttpStream HttpStreamCases HttpStreamValue HttpStreamStep.

(** The states whose [case] looks at one byte only. *)
Definition quiet (s : state) : bool :=
  match s with
  | s_header_field | s_header_value | s_body_identity | s_body_identity_eof | s_chunk_data => false
  | _ => true
  end.

(** A result that leaves the [switch] or goes on in a quiet state. *)
Definition ctl_quiet (c : ctl trace) : Prop :=
  match c with Reexecute k => quiet (p_state k) = true | _ => True end.

Definition same_quiet (c1 c2 : ctl trace) : Prop := c1 = c2 /\ ctl_quiet c2.

Ltac quiet_step :=
  field_simpl; cbn [on_notify Z.eqb]; field_simpl;
  lazymatch goal with
  | |- same_quiet _ (if ?b then _ else _) => destruct b eqn:?
  | |- same_quiet _ (match ?b with _ => _ end) => destruct b eqn:?
  | |- same_quiet _ (CALLBACK_NOTIFY_ _ _ _ _ _) => notify_simpl
  | |- same_quiet (CALLBACK_DATA_ _ _ ?f ?last ?er ?k ?r) _ =>
      first [ rewrite !callback_data_unmarked by reflexivity
            | rewrite (callback_data_recorded _ f 0 last er k r), (callback_data_recorded [_] f 0) by
                (first [reflexivity | unfold zlen; cbn [length List.app]; lia]) ]
  end.

(** A mark set before or at offset 0. *)
Ltac mark_zero :=
  match goal with
  | H : mark_ok _ _ 0 ?m |- _ =>
      let i := fresh "i" in
      destruct m as [i|]; cbn in H;
        [assert (i = 0) as -> by lia; clear H | first [destruct H; discriminate | clear H]]
  end.

Ltac linked_carried_leaf f :=
  apply (linked_carried _ _ _ f 0);
    [split; reflexivity || discriminate | reflexivity | reflexivity
    | intros [] ?; first [split; reflexivity | contradiction] | reflexivity].

Section Byte.
Variable c b0 : ascii.
Variable b' : bytes.
Variable lenient : bool.
Notation b := (b0 :: b').
Notation one := [c].
Notation d1 := ([c] ++ b0 :: b').
Hypothesis Hlen : zlen d1 < 2 ^ 31.

Notation rel := (rel one).
Notation ctl_rel := (ctl_rel one).
Notation linked := (linked one).
Notation dispatch1 := (dispatch recorder d1 lenient).
Notation dispatch0 := (dispatch recorder one lenient).

Lemma quiet_dispatch k :
  inv one 1 k -> quiet (p_state k) = true -> same_quiet (dispatch1 k) (dispatch0 k).
Proof.
  destruct k as [x ap ps pp cc m1 m2 m3 m4 m5]. destruct x as [ty fl st1 hs ix ln nr cl ma mi sc me er up].
  intros (He & (Hnr & Hcl & Hst) & (Hm1 & Hm2 & Hm3 & Hm4 & Hm5) & Hp) Hq.
  cbn in He, Hst, Hm1, Hm2, Hm3, Hm4, Hm5, Hq. assert (pp = 0) as -> by (cbn [p] in Hp; change (zlen one) with 1 in Hp; lia). subst er. clear Hp Hnr Hcl.
  unfold dispatch. exec_simpl.
  destruct ps; try discriminate; clear_marks; repeat mark_zero; autounfold with http_cases; unfold url_step;
    repeat quiet_step; try (split; [reflexivity | exact I || reflexivity]).
Qed.

Lemma zlen_one : zlen one = 1.
Proof. reflexivity. Qed.

Lemma one_short : zlen one < 2 ^ 31.
Proof. reflexivity. Qed.

Lemma two_bytes : 2 <= zlen d1.
Proof. pose proof (zlen_nonneg b'). cbn [List.app]. rewrite !zlen_cons. lia. Qed.

Lemma quiet_reexecute fuel k :
  inv one 1 k -> quiet (p_state k) = true ->
  reexecute recorder d1 lenient fuel k = reexecute recorder one lenient fuel k.
Proof.
  revert k. induction fuel as [|fuel IH]; intros k Hk Hq; [reflexivity|].
  cbn [reexecute]. destruct (quiet_dispatch k Hk Hq) as [-> Hd].
  pose proof (dispatch_ok recorder one lenient recorder_ok one_short k Hk) as Hok. unfold case_ok in Hok.
  destruct (dispatch0 k) as [|k'| | | |]; try reflexivity. apply IH; [apply Hok | exact Hd].
Qed.

Lemma quiet_char k :
  inv one 0 k -> quiet (p_state k) = true ->
  exec_char recorder d1 lenient k = exec_char recorder one lenient k.
Proof.
  intros (He & Hwf & Hm & Hp) Hq. unfold exec_char. destruct (PARSING_HEADER (p_state k)) eqn:Hh.
  - unfold COUNT_HEADER_SIZE. destruct (_ <? _) eqn:Hmax; [reflexivity|].
    apply quiet_reexecute; [|exact Hq]. revert Hmax.
    assert (Hu : u32 (hp_nread (pr k) + 1) = hp_nread (pr k) + 1).
    { destruct Hwf as (Hn & _). unfold HTTP_MAX_HEADER_SIZE in Hn. apply Z.mod_small. lia. }
    unfold upd_pr at 1 2. cbn [pr put_pr set_nread hp_nread]. rewrite Hu. intros Hmax.
    apply inv_counted; [repeat split; try assumption; try apply Hwf; try apply Hm; apply Hp | exact Hh | reflexivity | lia].
  - apply quiet_reexecute; [|exact Hq]. split; [exact He|]. split; [apply wf_switch; assumption | auto].
Qed.

(** * The second call is entered where the first left off *)

(** [k2] is the context in which a call of its own begins on [b], after the
    byte [c] has left the context [k1]: the body mark alone is not set again
    until a byte of the body has been read. *)
Definition entered (k1 k2 : ctx trace) : Prop :=
  inv d1 0 k1 /\ p k1 = 0 /\ at_loop b k2 /\ p k2 = 0 /\ body_mark k2 = None /\
  rel (put_p 1 k1) (match body_mark k1 with Some _ => put_body_mark (Some 0) k2 | None => k2 end).

Definition entry (x : http_parser) (t : trace) : ctx trace := entry_marks (initial_ctx x t).

(** The end of the one-byte call, and the beginning of the next. *)
Lemma flush_one k :
  inv one 0 k -> p k = 0 ->
  let x := set_state (p_state k) (pr k) in
  exists t, exec_finish recorder one (put_p 1 k) = Return x t 1 /\ entered k (entry x t).
Proof.
  intros Hk Hp. pose proof two_bytes as H2.
  assert (Hk1 : inv d1 0 k) by (destruct Hk as (E1 & E2 & E3 & _); split; [exact E1 | split; [exact E2 | split; [exact E3 | rewrite Hp; lia]]]).
  set (x := set_state (p_state k) (pr k)).
  assert (Hat : forall t, at_loop b (entry x t)).
  { intros t. destruct (entry_marks_pr x t) as (Hpr & Hps & Hp0). unfold at_loop, entry.
    rewrite Hpr, Hps, Hp0. split; [apply Hk|]. split; [apply Hk|]. split; [apply entry_marks_ok|].
    pose proof (zlen_nonneg b). lia. }
  cut (exists t, exec_finish recorder one (put_p 1 k) = Return x t 1 /\ body_mark (entry x t) = None /\
    rel (put_p 1 k) (match body_mark k with Some _ => put_body_mark (Some 0) (entry x t) | None => entry x t end)).
  { intros (t & H & Hb & Hr). exists t. split; [exact H|]. split; [exact Hk1|]. split; [exact Hp|].
    split; [apply Hat|]. split; [apply (entry_marks_pr x t) | auto]. }
  clear Hk1 Hat H2. subst x. unfold entry, exec_finish.
  destruct k as [x ap ps pp cc m1 m2 m3 m4 m5]. destruct x as [ty fl st1 hs ix ln nr cl ma mi sc me er up].
  destruct Hk as (He & _ & (Hm1 & Hm2 & Hm3 & Hm4 & Hm5) & _).
  cbn in He, Hp, Hm1, Hm2, Hm3, Hm4, Hm5. subst pp er.
  destruct ps; clear_marks; repeat mark_zero; eexists;
    (split; [lazy; reflexivity|]; split; [reflexivity|]);
    (constructor; [reflexivity | reflexivity | reflexivity | reflexivity |]);
    first [ apply linked_same; [reflexivity | intros []; reflexivity]
          | linked_carried_leaf For_header_field | linked_carried_leaf For_header_value
          | linked_carried_leaf For_url | linked_carried_leaf For_body | linked_carried_leaf For_status ].
Qed.
Lemma exec_char_body (data : bytes) k :
  body_state (p_state k) = true ->
  exec_char recorder data lenient k = reexecute recorder data lenient REEXECUTE_FUEL k.
Proof. intros Hs. unfold exec_char. destruct (p_state k); try discriminate; reflexivity. Qed.

(** In the three states that read on, the body mark is set when a byte is read. *)
Lemma exec_char_mark (data : bytes) k :
  p k = 0 -> body_mark k = None -> body_state (p_state k) = true -> p_state k <> s_chunk_data_almost_done ->
  exec_char recorder data lenient k = exec_char recorder data lenient (put_body_mark (Some 0) k).
Proof.
  intros Hp Hm Hs Hne. rewrite !exec_char_body by exact Hs. unfold REEXECUTE_FUEL. cbn [reexecute].
  replace (dispatch recorder data lenient (put_body_mark (Some 0) k)) with (dispatch recorder data lenient k);
    [reflexivity|].
  destruct k as [x ap ps pp cc m1 m2 m3 m4 m5]. cbn in Hp, Hm, Hs, Hne. subst.
  unfold dispatch. cbn [p_state put_body_mark]. destruct ps; try discriminate; try contradiction; reflexivity.
Qed.

(** The end of a chunk: the second run has recorded the data already. *)
Lemma almost_done_rel k1 k2 :
  inv d1 0 k1 -> inv b 0 k2 -> body_mark k2 = None -> rel k1 (put_body_mark (Some 0) k2) -> ch k1 = ch k2 ->
  p k2 = 0 -> body_mark k1 = Some 0 -> p_state k2 = s_chunk_data_almost_done ->
  ctl_rel (exec_char recorder d1 lenient k1) (exec_char recorder b lenient k2).
Proof.
  intros H1 H2 Hb Hrel Hch Hp Hb1 Hs. pose proof (rel_state _ _ _ Hrel) as Hs1. change (p_state k1 = p_state k2) in Hs1.
  rewrite !exec_char_body by (rewrite ?Hs1, Hs; reflexivity). unfold REEXECUTE_FUEL. cbn [reexecute].
  unfold dispatch. rewrite Hs1, Hs.
  revert H1 H2 Hb Hrel Hch Hp Hb1 Hs. clear Hs1.
  destruct k1 as [x1 ap1 ps1 pp1 cc1 m1 m2 m3 m4 m5]. destruct x1 as [ty fl st1 hs ix ln nr1 cl ma mi sc me er up].
  destruct k2 as [x2 ap2 ps pp cc n1 n2 n3 n4 n5]. destruct x2 as [ty' fl' st2 hs' ix' ln' nr2 cl' ma' mi' sc' me' er' up'].
  intros (He1 & _ & (Hm1 & Hm2 & Hm3 & Hm4 & Hm5) & Hp1) (He2 & _ & (Hn1 & Hn2 & Hn3 & Hn4 & Hn5) & Hp2)
    Hb [Hcore Hnr Hps Hpp Hl] Hch Hp Hb1 Hs.
  unfold core in Hcore. exec_simpl_in Hcore. cbn [set_state set_nread] in Hcore.
  injection Hcore as <- <- <- <- <- <- <- <- <- <- <- <-.
  cbn [p_state pr p ch hp_http_errno header_field_mark header_value_mark url_mark body_mark status_mark put_body_mark] in *.
  subst. clear_marks.
  unfold case_s_chunk_data_almost_done, STRICT_CHECK, CALLBACK_DATA, has_flag. exec_simpl.
  destruct (_ || _); [apply ctl_rel_failed; exact I|].
  destruct (cc <>c CR)%char; [apply ctl_rel_failed; exact I|].
  rewrite (callback_data_unmarked b) by reflexivity.
  rewrite (callback_data_recorded d1 For_body 0) by (first [reflexivity | exec_simpl; lia]).
  destruct Hl as [_ Hsame | f i Hi M1 M2 _ Hrec]; [discriminate (Hsame For_body)|].
  assert (f = For_body /\ i = 0) as [-> ->] by (destruct f; try discriminate; injection M1; auto).
  cbn [app put_body_mark] in Hrec. subst ap2.
  constructor; try reflexivity; [exact Hnr|]. apply linked_same; [reflexivity | intros []; reflexivity].
Qed.

Lemma entered_char k1 k2 :
  entered k1 k2 ->
  ctl_rel (exec_char recorder d1 lenient (put_ch b0 (put_p 1 k1))) (exec_char recorder b lenient (put_ch b0 k2)).
Proof.
  intros (H1 & Hp1 & H2 & Hp2 & Hb & Hrel). pose proof two_bytes as Hd. pose proof (zlen_nonneg b').
  assert (Hb2 : 0 < zlen b) by (rewrite zlen_cons; lia).
  assert (Hi1 : inv d1 0 (put_ch b0 (put_p 1 k1))).
  { apply at_loop_inv; [|cbn [p put_p]; lia]. rewrite <- (Z.add_0_l 1), <- Hp1. apply at_loop_next. exact H1. }
  assert (Hi2 : inv b 0 (put_ch b0 k2)) by (apply at_loop_inv; [exact H2 | lia]).
  destruct (body_mark k1) as [m|] eqn:Hm.
  2:{ apply (exec_char_rel one b); try assumption; [apply (rel_put_ch one); exact Hrel | reflexivity]. }
  assert (Hs : body_state (p_state k1) = true /\ m = 0).
  { destruct H1 as (_ & _ & (_ & _ & _ & M4 & _) & _). rewrite Hm, Hp1 in M4. cbn in M4. split; [apply M4 | lia]. }
  destruct Hs as [Hs ->]. pose proof (rel_state _ _ _ Hrel) as Hs2. cbn in Hs2.
  destruct (decide (p_state k2 = s_chunk_data_almost_done)) as [Hal | Hne].
  - apply almost_done_rel; try assumption; try reflexivity. apply (rel_put_ch one _ _ _ Hrel).
  - rewrite (exec_char_mark b) by (try assumption; cbn; rewrite <- Hs2; assumption).
    apply (exec_char_rel one b); try assumption; [|exact (rel_put_ch one b0 _ _ Hrel) | reflexivity].
    destruct Hi2 as (E1 & E2 & (M1 & M2 & M3 & M4 & M5) & E4). split; [exact E1|]. split; [exact E2|].
    split; [|exact E4]. split; [exact M1 | split; [exact M2 | split; [exact M3 | split; [|exact M5]]]].
    split; [cbn; lia|]. cbn. rewrite <- Hs2. exact Hs.
Qed.
End Byte.
