(* ===== verification/HttpStreamCross.v ===== *)
(** The [case]s that read on through the input, when the input ends after
    their first byte: the call on the rest takes up where they stopped. *)
From Stdlib Require Import ZArith Lia Bool List String Ascii.
From stdpp Require Import base list strings.
From S2P Require Import Prelude HttpChars HttpTypes HttpUrl HttpExec HttpExecSafe HttpRecord HttpCases HttpHeaders HttpSafe HttpStream HttpStreamCases HttpStreamValue HttpStreamStep HttpStreamByte.

Definition ctl_failed (r : ctl trace) : Prop := match r with Error _ | Abort _ | NoFuel => True | _ => False end.

(** Equal but for the last character looked at. *)
Definition same_but_ch (c1 c2 : ctl trace) : Prop :=
  match c1, c2 with
  | Break k1, Break k2 => k1 = put_ch (ch k1) k2
  | Return x1 t1 n1, Return x2 t2 n2 => x1 = x2 /\ t1 = t2 /\ n1 = n2
  | (Error _ | Abort _ | NoFuel), (Error _ | Abort _ | NoFuel) => True
  | _, _ => False
  end.

Lemma same_but_ch_rel a c1 c1' c2 : same_but_ch c1 c1' -> ctl_rel a c1' c2 -> ctl_rel a c1 c2.
Proof.
  intros Hs Hr. destruct c2; try (apply ctl_rel_failed; exact I); destruct c1'; try contradiction;
    destruct c1; try contradiction; cbn [same_but_ch] in Hs.
  - rewrite Hs. apply rel_put_ch with (c := ch k1) in Hr. destruct Hr as [Hcore Hnr Hps Hpp Hl]. constructor; try assumption.
    eapply linked_keep; [exact Hl | reflexivity | reflexivity | intros []; reflexivity | intros []; reflexivity].
  - destruct Hs as (-> & -> & ->). exact Hr.
Qed.

Lemma marks_ok_later {A} s i j (k : ctx A) : i <= j -> marks_ok s i k -> marks_ok s j k.
Proof.
  intros Hij (M1 & M2 & M3 & M4 & M5).
  assert (H : forall f m, mark_ok f s i m -> mark_ok f s j m) by (intros f [m|]; cbn; intuition lia).
  exact (conj (H _ _ M1) (conj (H _ _ M2) (conj (H _ _ M3) (conj (H _ _ M4) (H _ _ M5))))).
Qed.

Section Cross.
Variable c b0 : ascii.
Variable b' : bytes.
Variable lenient : bool.
Notation b := (b0 :: b').
Notation one := [c].
Notation d1 := ([c] ++ b0 :: b').
Hypothesis Hlen : zlen d1 < 2 ^ 31.

Notation rel := (rel one).
Notation ctl_rel := (ctl_rel one).
Notation entered := (entered c b0 b').

(** The three ways in which the byte [ch k] is dealt with: as in the longer
    input, not at all, or by both calls together. *)
Definition split_char (k : ctx trace) : Prop :=
  exec_char recorder d1 lenient k = exec_char recorder one lenient k \/
  ctl_failed (exec_char recorder one lenient k) \/
  exists k1, exec_char recorder one lenient k = Break k1 /\
    forall k2, entered k1 k2 -> ctl_rel (exec_char recorder d1 lenient k) (exec_char recorder b lenient (put_ch b0 k2)).

(** * Bodies *)

Lemma read_body_at (data : bytes) (k : ctx trace) :
  0 < hp_content_length (pr k) <= ULLONG_MAX -> 0 <= p k < zlen data -> zlen data < 2 ^ 31 ->
  let n := Z.min (hp_content_length (pr k)) (zlen data - p k) in
  read_body data k =
    put_p (p k + (n - 1)) (upd_pr (set_content_length (hp_content_length (pr k) - n)) (MARK For_body k)).
Proof.
  intros Hcl Hp Hd n. unfold ULLONG_MAX in *.
  assert (Hn : to_read data k = n) by (unfold to_read, u64, HttpExec.data_end; rewrite Z.mod_small by lia; reflexivity).
  unfold read_body. rewrite Hn. clear Hn. destruct k as [x ap ps pp cc m1 m2 m3 [m4|] m5]; destruct x as [ty fl st1 hs ix ln nr cl ma mi sc me er up];
    cbn [p MARK get_mark body_mark put_mark put_body_mark];
    unfold upd_pr; subst n; cbn [pr p put_pr put_body_mark hp_content_length] in *;
    assert (Hu : u64 (cl - cl `min` (zlen data - pp)) = cl - cl `min` (zlen data - pp)) by (apply Z.mod_small; lia);
    rewrite Hu; reflexivity.
Qed.

(** What the two counted body states do once they have read. *)
Definition body_tail (data : bytes) (s : state) (k : ctx trace) : ctl trace :=
  match s with
  | s_body_identity =>
      if hp_content_length (pr k) =? 0 then
        CALLBACK_DATA_ recorder data For_body (p k + 1) (p k) (UPDATE_STATE s_message_done k) Reexecute
      else Break k
  | _ => Break (if hp_content_length (pr k) =? 0 then UPDATE_STATE s_chunk_data_almost_done k else k)
  end.

Lemma counted_dispatch (data : bytes) (k : ctx trace) :
  wf_at 1 (p_state k) (pr k) -> p_state k = s_body_identity \/ p_state k = s_chunk_data ->
  dispatch recorder data lenient k = body_tail data (p_state k) (read_body data k).
Proof.
  intros (_ & _ & Hst) Hs. unfold dispatch.
  assert (Hcl : 0 < hp_content_length (pr k) < ULLONG_MAX) by (destruct Hs as [E | E]; rewrite E in Hst; apply Hst).
  assert (Hb : body_length_ok (pr k) = true).
  { unfold body_length_ok. replace (_ =? 0) with false by lia. replace (_ =? ULLONG_MAX) with false by lia. reflexivity. }
  destruct Hs as [E | E]; rewrite E in *; unfold case_s_body_identity, case_s_chunk_data; rewrite Hb; [reflexivity|].
  unfold has_flag. rewrite (proj1 Hst). reflexivity.
Qed.

(** What follows a [case]. *)
Definition resume (data : bytes) (fuel : nat) (r : ctl trace) : ctl trace :=
  match r with
  | Reexecute k => reexecute recorder data lenient fuel k
  | r => r
  end.

Lemma reexecute_next (data : bytes) fuel k :
  reexecute recorder data lenient (S fuel) k = resume data fuel (dispatch recorder data lenient k).
Proof. cbn [reexecute]. unfold resume. destruct (dispatch _ _ _ _); reflexivity. Qed.

Lemma body_tail_ch (data : bytes) s k z fuel :
  same_but_ch (resume data (S fuel) (body_tail data s k)) (resume data (S fuel) (body_tail data s (put_ch z k))).
Proof.
  destruct k as [x ap ps pp cc m1 m2 m3 m4 m5]. destruct x as [ty fl st1 hs ix ln nr cl ma mi sc me er up].
  unfold body_tail. exec_simpl.
  destruct s; try (destruct (cl =? 0); reflexivity). destruct (cl =? 0); [|reflexivity].
  unfold CALLBACK_DATA_. rewrite !data_cb_recorder. cbn [on_data]. exec_simpl. destruct er; try exact I. exec_simpl.
  destruct m4 as [m|]; exec_simpl; [destruct (_ || _); [exact I|]; exec_simpl; rewrite ?Z.eqb_refl; exec_simpl|];
    cbn [resume]; rewrite ?reexecute_next; unfold dispatch, case_s_message_done, message_complete; exec_simpl; cbn [p_state];
    unfold CALLBACK_NOTIFY; notify_simpl; cbn [on_notify]; exec_simpl; rewrite ?Z.eqb_refl; exec_simpl;
    destruct up; cbn; auto.
Qed.

(** Reading one byte and then the rest is reading all of it. *)
Lemma read_body_twice (k : ctx trace) :
  1 < hp_content_length (pr k) <= ULLONG_MAX -> p k = 0 ->
  read_body d1 (put_ch b0 (put_p 1 (read_body one k))) = put_ch b0 (read_body d1 k) /\
  p (read_body one k) = 0 /\ p_state (read_body one k) = p_state k /\
  hp_content_length (pr (read_body one k)) = hp_content_length (pr k) - 1.
Proof.
  intros Hcl Hp. pose proof (two_bytes c b0 b') as H2. pose proof (zlen_one c) as H1.
  rewrite (read_body_at one k), (read_body_at d1 k) by (try exact (one_short c); lia).
  rewrite Hp, H1. replace (Z.min (hp_content_length (pr k)) (1 - 0)) with 1 by lia.
  rewrite read_body_at; [|destruct k as [x ap ps pp cc m1 m2 m3 [m4|] m5]; cbn in *; lia | cbn [p put_p put_ch]; lia | exact Hlen].
  destruct k as [x ap ps pp cc m1 m2 m3 m4 m5]. destruct x as [ty fl st1 hs ix ln nr cl ma mi sc me er up].
  cbn [pr p put_p hp_content_length] in *. subst pp. cbv zeta.
  assert (Hn : Z.min (cl - 1) (zlen d1 - 1) = Z.min cl (zlen d1 - 0) - 1) by lia.
  destruct m4; (split; [|auto]); unfold upd_pr; cbn [p put_p put_ch pr put_pr set_content_length hp_content_length MARK get_mark body_mark put_mark put_body_mark];
    rewrite Hn; generalize (Z.min cl (zlen d1 - 0)); intros n;
    replace (1 + (n - 1 - 1)) with (0 + (n - 1)) by lia; replace (cl - 1 - (n - 1)) with (cl - n) by lia; reflexivity.
Qed.

(** The body read to its end, all of it in the byte. *)
Lemma body_tail_one s k :
  hp_http_errno (pr k) = HPE_OK -> p k = 0 -> body_mark k = Some 0 ->
  body_tail d1 s k = body_tail one s k /\ ctl_quiet (body_tail one s k).
Proof.
  intros He Hp Hm. pose proof (two_bytes c b0 b') as H2. pose proof (zlen_one c) as H1.
  unfold body_tail. destruct s; try (split; [reflexivity | exact I]).
  destruct (_ =? 0); [|split; [reflexivity | exact I]]. rewrite Hp.
  rewrite (callback_data_recorded d1 For_body 0), (callback_data_recorded one For_body 0)
    by (first [exact He | exact Hm | lia]).
  split; reflexivity.
Qed.

Lemma counted_cross k :
  inv one 0 k -> p k = 0 -> p_state k = s_body_identity \/ p_state k = s_chunk_data -> split_char k.
Proof.
  intros Hk Hp Hs. pose proof (two_bytes c b0 b') as H2. pose proof (zlen_one c) as H1.
  assert (Hb : body_state (p_state k) = true) by (destruct Hs as [-> | ->]; reflexivity).
  assert (Hh : PARSING_HEADER (p_state k) = false) by (destruct Hs as [-> | ->]; reflexivity).
  destruct Hk as (He & Hwf & Hm & Hpr). pose proof (wf_switch _ _ Hwf Hh) as Hwf1.
  assert (Hcl : 0 < hp_content_length (pr k) < ULLONG_MAX).
  { destruct Hwf as (_ & _ & Hst). destruct Hs as [E | E]; rewrite E in Hst; apply Hst. }
  unfold split_char. rewrite !exec_char_body by exact Hb. change REEXECUTE_FUEL with 6%nat.
  pose proof (dispatch_ok recorder one lenient recorder_ok (one_short c) k (conj He (conj Hwf1 (conj Hm Hpr)))) as Hok.
  unfold case_ok in Hok. rewrite counted_dispatch in Hok by assumption. rewrite !reexecute_next, !counted_dispatch by assumption.
  destruct (decide (hp_content_length (pr k) = 1)) as [Hc1 | Hc1].
  - left. assert (HR : read_body d1 k = read_body one k).
    { rewrite !read_body_at by (try exact (one_short c); try exact Hlen; lia).
      rewrite Hp, H1, Hc1. replace (Z.min 1 (zlen d1 - 0)) with 1 by lia. reflexivity. }
    assert (HM : hp_http_errno (pr (read_body one k)) = HPE_OK /\ p (read_body one k) = 0 /\ body_mark (read_body one k) = Some 0).
    { rewrite read_body_at by (try exact (one_short c); lia). rewrite H1, Hp, Hc1.
      destruct Hm as (_ & _ & _ & M4 & _). destruct k as [x ap ps pp cc m1 m2 m3 [m4|] m5]; cbn in *;
        (split; [exact He | split; [lia | f_equal; lia]]). }
    destruct HM as (M1 & M2 & M3). destruct (body_tail_one (p_state k) _ M1 M2 M3) as [T1 T2].
    rewrite HR, T1. destruct (body_tail one _ _) as [|k'| | | |]; try reflexivity.
    apply (quiet_reexecute c b0 b'); [apply Hok | exact T2].
  - right. right. destruct (read_body_twice k ltac:(lia) Hp) as (Htw & Hp1 & Hps1 & Hcl1).
    assert (Hbr : body_tail one (p_state k) (read_body one k) = Break (read_body one k)).
    { unfold body_tail. rewrite Hcl1. replace (_ - 1 =? 0) with false by lia. destruct (p_state k); reflexivity. }
    rewrite Hbr in *. destruct Hok as ((_ & HwR & _) & _). rewrite Hps1 in HwR.
    exists (read_body one k). split; [reflexivity|].
    intros k2 Hent. apply (same_but_ch_rel one) with (c1' := exec_char recorder d1 lenient (put_ch b0 (put_p 1 (read_body one k)))).
    2:{ apply entered_char; assumption. }
    assert (Hst : p_state (put_ch b0 (put_p 1 (read_body one k))) = p_state k) by exact Hps1.
    rewrite exec_char_body by (rewrite Hst; exact Hb). change REEXECUTE_FUEL with 6%nat.
    rewrite reexecute_next, counted_dispatch, Hst, Htw; [apply (body_tail_ch d1 _ _ b0 4) | | rewrite Hst; exact Hs].
    rewrite Hst. exact (wf_switch _ _ HwR Hh).
Qed.

Lemma eof_cross k :
  inv one 0 k -> p k = 0 -> p_state k = s_body_identity_eof -> split_char k.
Proof.
  intros Hk Hp Hs. right. right.
  assert (E : forall (data : bytes) k, p_state k = s_body_identity_eof ->
    exec_char recorder data lenient k = Break (put_p (data_end data - 1) (MARK For_body k))).
  { intros data k' Hs'. rewrite exec_char_body by (rewrite Hs'; reflexivity). change REEXECUTE_FUEL with 6%nat.
    rewrite reexecute_next. unfold dispatch. rewrite Hs'. reflexivity. }
  eexists. split; [apply E; exact Hs|]. intros k2 Hent.
  apply (same_but_ch_rel one) with (c1' := exec_char recorder d1 lenient (put_ch b0 (put_p 1 (put_p (data_end one - 1) (MARK For_body k))))).
  2:{ apply entered_char; assumption. }
  assert (Hs2 : p_state (MARK For_body k) = s_body_identity_eof) by (destruct k as [? ? ? ? ? ? ? ? [] ?]; exact Hs).
  rewrite !E by assumption. destruct k as [? ? ? ? ? ? ? ? [] ?]; reflexivity.
Qed.

(** * Header names *)

Definition counted (k : ctx trace) : ctx trace := upd_pr (set_nread (hp_nread (pr k) + 1)) k.

(** A character of a header: counted, unless that is one too many. *)
Lemma exec_char_header (data : bytes) k :
  PARSING_HEADER (p_state k) = true -> 0 <= hp_nread (pr k) <= HTTP_MAX_HEADER_SIZE ->
  exec_char recorder data lenient k =
    if HTTP_MAX_HEADER_SIZE <? hp_nread (pr k) + 1 then goto_error HPE_HEADER_OVERFLOW (counted k)
    else resume data 5 (dispatch recorder data lenient (counted k)).
Proof.
  intros Hh Hn. unfold exec_char. rewrite Hh. unfold COUNT_HEADER_SIZE, counted.
  assert (Hu : u32 (hp_nread (pr k) + 1) = hp_nread (pr k) + 1)
    by (unfold HTTP_MAX_HEADER_SIZE in Hn; apply Z.mod_small; lia).
  unfold upd_pr. rewrite Hu. cbn [pr put_pr set_nread hp_nread].
  change REEXECUTE_FUEL with 6%nat. rewrite reexecute_next. reflexivity.
Qed.

Lemma resume_rel (data1 data2 : bytes) fuel c1 c2 :
  ctl_rel c1 c2 -> match c2 with Reexecute _ => False | _ => True end ->
  ctl_rel (resume data1 fuel c1) (resume data2 fuel c2).
Proof.
  intros H Hn. destruct c2; try contradiction; try (apply ctl_rel_failed; exact I); destruct c1; try contradiction; exact H.
Qed.

Lemma resume_leaves (data : bytes) fuel r :
  match r with Reexecute _ => False | _ => True end -> resume data fuel r = r.
Proof. destruct r; [reflexivity | contradiction | reflexivity..]. Qed.

Lemma field_after_leaves (data : bytes) s k :
  match field_after data s k with Reexecute _ => False | _ => True end.
Proof.
  unfold field_after, COUNT_HEADER_SIZE, CALLBACK_DATA, CALLBACK_DATA_. destruct (_ <? _); [exact I|].
  destruct (_ =? _); [exact I|]. destruct (_ =c _)%char; [|exact I]. destruct (negb _); [exact I|].
  destruct (get_mark _ _); [|exact I]. rewrite data_cb_recorder. destruct (_ || _); [exact I|].
  unfold on_data. destruct (errno_ok _); exact I.
Qed.

Lemma entered_rel k1 k2 : entered k1 k2 -> body_mark k1 = None -> rel (put_p 1 k1) k2.
Proof. intros (_ & _ & _ & _ & _ & Hr) Hb. rewrite Hb in Hr. exact Hr. Qed.

(** The name stops at the byte. *)
Lemma field_stop k :
  inv one 1 k -> p k = 0 -> p_state k = s_header_field ->
  field_after d1 0 k = field_after one 0 k.
Proof.
  intros (He & (Hn & _) & Hm & Hp') Hp Hs. pose proof (two_bytes c b0 b') as H2. pose proof (zlen_one c) as H1.
  unfold field_after, COUNT_HEADER_SIZE. destruct (_ <? _); [reflexivity|]. unfold data_end.
  cbn [p upd_pr put_pr]. rewrite Hp, H1. replace (0 =? zlen d1) with false by lia. cbn [Z.eqb].
  destruct (_ =c _)%char; [|reflexivity]. rewrite Hs in Hm.
  destruct k as [x ap ps pp cc m1 m2 m3 m4 m5]. destruct x as [ty fl st1 hs ix ln nr cl ma mi sc me er up].
  cbn [pr p p_state hp_http_errno] in He, Hp, Hs. subst. destruct Hm as (M1 & _). cbn in M1.
  destruct m1 as [m1|]; [|destruct M1; discriminate]. assert (m1 = 0) as -> by (cbn in M1; lia).
  unfold CALLBACK_DATA. exec_simpl.
  rewrite (callback_data_recorded d1 For_header_field 0), (callback_data_recorded one For_header_field 0)
    by (first [reflexivity | exec_simpl; lia]).
  reflexivity.
Qed.

(** The name goes on in both runs. *)
Lemma field_resume K1 k2 :
  entered (put_p 0 (counted K1)) k2 -> inv one 1 (put_p 0 K1) -> p K1 = 1 -> p_state K1 = s_header_field ->
  field_hs (hp_header_state (pr K1)) = true -> (HTTP_MAX_HEADER_SIZE <? hp_nread (pr K1) + 1) = false ->
  ctl_rel
    (resume d1 5 (match header_field_loop (drop (Z.to_nat (p (put_ch b0 K1))) d1) (put_ch b0 K1) with
                  | Done k' => field_after d1 0 k' | Stuck w => Abort w end))
    (exec_char recorder b lenient (put_ch b0 k2)).
Proof.
  intros Hent HI Hp1 Hs1 Hhs Hmax. pose proof (zlen_nonneg b') as Hb'. pose proof (zlen_cons b0 b') as Hbl.
  pose proof (zlen_one c) as H1.
  destruct HI as (He & (Hn & _) & (M1 & M2 & M3 & M4 & M5) & _). cbn [p_state put_p pr] in *. rewrite Hs1 in *.
  assert (Hbm : body_mark K1 = None) by (eapply mark_ok_none; [|exact M4]; reflexivity).
  pose proof (entered_rel _ _ Hent Hbm) as [Hcore Hnr Hps Hpp Hl].
  destruct Hent as (_ & _ & (He2 & (Hn2 & Hw2) & Hm2 & _) & Hp2 & _).
  assert (Hs2 : p_state k2 = s_header_field) by (rewrite <- Hps; exact Hs1).
  rewrite exec_char_header by (cbn [p_state put_ch pr]; first [rewrite Hs2; reflexivity | exact Hn2]).
  destruct (HTTP_MAX_HEADER_SIZE <? hp_nread (pr (put_ch b0 k2)) + 1) eqn:Hmax2; [apply ctl_rel_failed; exact I|].
  cbn [pr put_ch] in Hmax2.
  unfold dispatch. change (p_state (counted (put_ch b0 k2))) with (p_state k2).
  rewrite Hs2, case_s_header_field_eq. change (p (counted (put_ch b0 k2))) with (p k2) at 2. rewrite Hp2.
  destruct (field_loop_rel one b 0 0 (put_ch b0 K1) (counted (put_ch b0 k2))) as (k1' & k2' & E1 & E2 & Hat & Hm').
  { constructor; try assumption; try reflexivity; cbn [p put_p put_ch counted upd_pr put_pr pr set_nread hp_nread] in *; try lia.
    - constructor; cbn [p put_p put_ch counted upd_pr put_pr pr set_nread hp_nread] in *; try assumption; try lia.
      eapply linked_keep; [exact Hl | reflexivity | reflexivity | intros []; reflexivity | intros []; reflexivity].
    - rewrite <- Hs2. exact Hm2. }
  { cbn [p put_ch]. rewrite Hp1. apply (marks_ok_later s_header_field 0 1); [lia|].
    exact (conj M1 (conj M2 (conj M3 (conj M4 M5)))). }
  { exact Hhs. }
  rewrite E1, E2, !resume_leaves by apply field_after_leaves. apply field_after_rel; assumption.
Qed.

Lemma field_cross k :
  inv one 0 k -> p k = 0 -> p_state k = s_header_field -> split_char k.
Proof.
  intros Hk Hp Hs. pose proof (two_bytes c b0 b') as H2. pose proof (zlen_one c) as H1.
  assert (Hh : PARSING_HEADER (p_state k) = true) by (rewrite Hs; reflexivity).
  unfold split_char. rewrite !exec_char_header by (try exact Hh; apply Hk).
  destruct (_ <? _) eqn:Hmax; [left; reflexivity|].
  assert (HK : inv one 1 (counted k)) by (apply inv_counted; [exact Hk | exact Hh | reflexivity | lia]).
  assert (HpK : p (counted k) = 0) by exact Hp.
  assert (HsK : p_state (counted k) = s_header_field) by exact Hs.
  unfold dispatch. rewrite HsK, !case_s_header_field_eq, HpK.
  change (drop (Z.to_nat 0) d1) with (c :: b). change (drop (Z.to_nat 0) one) with [c].
  destruct HK as (He & Hwf & Hm & Hr). pose proof Hwf as (Hn & Hcl & Hst). rewrite HsK in Hst, Hm. cbn [wf_state] in Hst.
  revert HpK HsK He Hwf Hm Hr Hn Hst. generalize (counted k). clear k Hk Hp Hs Hh Hmax Hcl.
  intros k Hp Hs He Hwf Hm Hr Hn Hst. cbn [header_field_loop].
  destruct (is_nul (TOKEN c)) eqn:Htok.
  { left. rewrite field_stop; [rewrite !resume_leaves by apply field_after_leaves; reflexivity | | exact Hp | exact Hs].
    split; [exact He | split; [exact Hwf | split; [cbn [p_state put_ch]; rewrite Hs; exact Hm | exact Hr]]]. }
  destruct (header_field_char_ok c (TOKEN c) (pr k) Hst) as (hs & ix & Hc & Hhs).
  cbn [pr put_ch]. rewrite Hc. set (K1 := put_p _ _).
  assert (HK1 : inv one 1 (put_p 0 K1) /\ p K1 = 1 /\ p_state K1 = s_header_field /\ pr K1 = matched hs ix (pr k)).
  { destruct Hwf as (W1 & W2 & W3). rewrite Hs in W3. split; [|split; [|split]].
    - split; [exact He|]. split; [|split].
      + split; [exact W1 | split; [exact W2|]]. cbn [p_state put_p put_pr put_ch K1]. rewrite Hs. exact Hhs.
      + cbn [p_state put_p put_pr put_ch K1 p]. rewrite Hs, <- Hp. exact Hm.
      + cbn [p put_p]. lia.
    - cbn [p put_p put_pr put_ch K1]. lia.
    - exact Hs.
    - reflexivity. }
  destruct HK1 as (HI & Hp1 & Hs1 & Hpr1). clearbody K1.
  cbn [header_field_loop resume]. right.
  replace (field_after one 0 K1) with
    (if HTTP_MAX_HEADER_SIZE <? hp_nread (pr K1) + 1 then goto_error HPE_HEADER_OVERFLOW (counted K1)
     else Break (put_p 0 (counted K1))).
  2:{ unfold field_after, COUNT_HEADER_SIZE, counted, upd_pr. cbn [pr p put_pr]. rewrite Hp1, Z.sub_0_r.
      assert (Hu : u32 (hp_nread (pr K1) + 1) = hp_nread (pr K1) + 1).
      { destruct HI as (_ & (HnK & _) & _). cbn in HnK. unfold HTTP_MAX_HEADER_SIZE in HnK. apply Z.mod_small. lia. }
      rewrite Hu. reflexivity. }
  destruct (_ <? _) eqn:Hmax; [left; exact I|]. right. eexists. split; [reflexivity|].
  intros k2 Hent.
  match goal with |- ctl_rel (resume d1 5 ?m) _ =>
    replace m with (match header_field_loop (drop (Z.to_nat (p (put_ch b0 K1))) d1) (put_ch b0 K1) with
                    | Done k' => field_after d1 0 k' | Stuck w => Abort w end)
      by (cbn [p put_ch]; rewrite Hp1; change (drop (Z.to_nat 1) d1) with (b0 :: b'); cbn [header_field_loop p put_ch pr]; rewrite Hp1; reflexivity) end.
  apply field_resume; try assumption. rewrite Hpr1. exact Hhs.
Qed.

End Cross.
