(* ===== verification/HttpStreamJump.v ===== *)
(** Header values, when the input ends after the first byte that
    [s_header_value] looks at.  Inside an uninteresting value the parser jumps
    to the next CR or LF: the jump over the longer input lands where the two
    jumps land, unless the header is about to be found too long. *)
From Stdlib Require Import ZArith Lia Bool List String Ascii.
From stdpp Require Import base list strings.
From S2P Require Import Prelude HttpChars HttpTypes HttpUrl HttpExec HttpExecSafe HttpRecord HttpCases HttpHeaders HttpSafe HttpStream HttpStreamCases HttpStreamValue HttpStreamStep HttpStreamByte HttpStreamCross.

(** * The first CR or LF *)

Definition stop (l : bytes) : option nat :=
  match index_of CR l, index_of LF l with
  | Some r, Some n => Some (Nat.min r n)
  | Some r, None => Some r
  | None, o => o
  end.

Lemma general_jump_stop data i :
  general_jump data i =
    match stop (slice data i (Z.min (zlen data - i) HTTP_MAX_HEADER_SIZE)) with
    | Some n => i + Z.of_nat n
    | None => zlen data
    end - 1.
Proof.
  unfold general_jump, stop, memchr, data_end. set (l := slice _ _ _).
  destruct (index_of CR l) as [r|], (index_of LF l) as [n|]; cbn [option_map]; try reflexivity.
  destruct (_ <=? _) eqn:H; f_equal; lia.
Qed.

Lemma index_of_take c l n :
  index_of c (take n l) = match index_of c l with Some m => if (m <? n)%nat then Some m else None | None => None end.
Proof.
  revert n. induction l as [|d l IH]; intros n; [destruct n; reflexivity|].
  destruct n as [|n]; cbn [take index_of].
  - destruct (c =c d); [reflexivity|]. destruct (index_of c l); reflexivity.
  - destruct (c =c d); [reflexivity|]. rewrite IH.
    destruct (index_of c l) as [m|]; [|reflexivity]. cbn [option_map].
    change (S m <? S n)%nat with (m <? n)%nat. destruct (_ <? _)%nat; reflexivity.
Qed.

Lemma stop_take l n : stop (take n l) = match stop l with Some m => if (m <? n)%nat then Some m else None | None => None end.
Proof.
  unfold stop. rewrite !index_of_take.
  destruct (index_of CR l) as [r|], (index_of LF l) as [m|]; try reflexivity.
  - destruct (Nat.ltb_spec r n), (Nat.ltb_spec m n), (Nat.ltb_spec (Nat.min r m) n); try (f_equal; lia); try lia; reflexivity.
  - destruct (r <? n)%nat; reflexivity.
Qed.

Lemma stop_cons d l : (d =c CR)%char = false -> (d =c LF)%char = false -> stop (d :: l) = option_map S (stop l).
Proof.
  intros H1 H2. unfold stop. cbn [index_of]. rewrite !(Ascii.eqb_sym _ d), H1, H2.
  destruct (index_of CR l), (index_of LF l); reflexivity.
Qed.

Lemma stop_head d l : (d =c CR)%char || (d =c LF)%char = true -> stop (d :: l) = Some 0%nat.
Proof.
  intros H. unfold stop. cbn [index_of]. rewrite !(Ascii.eqb_sym _ d).
  destruct (d =c CR)%char, (d =c LF)%char; try discriminate; try reflexivity.
  - destruct (option_map S (index_of LF l)); reflexivity.
  - destruct (option_map S (index_of CR l)); [rewrite Nat.min_0_r|]; reflexivity.
Qed.

Lemma stop_range l m : stop l = Some m -> (m < length l)%nat.
Proof.
  unfold stop. destruct (index_of CR l) as [r|] eqn:Hr, (index_of LF l) as [n|] eqn:Hn; intros [= <-];
    try apply index_of_range in Hr; try apply index_of_range in Hn; lia.
Qed.

(** One jump or two. *)
Lemma jump_split c l :
  (c =c CR)%char = false -> (c =c LF)%char = false -> l <> [] ->
  general_jump (c :: l) 0 = 1 + general_jump l 0 \/ HTTP_MAX_HEADER_SIZE - 2 <= general_jump l 0.
Proof.
  intros H1 H2 Hl. rewrite !general_jump_stop. unfold slice. change (Z.to_nat 0) with 0%nat. rewrite !drop_0, !Z.sub_0_r.
  rewrite zlen_cons. unfold HTTP_MAX_HEADER_SIZE in *.
  assert (Hn : (0 < length l)%nat) by (destruct l; [contradiction | cbn; lia]).
  rewrite !stop_take, (stop_cons c l H1 H2).
  destruct (stop l) as [m|] eqn:Hm; cbn [option_map]; [|left; lia].
  apply stop_range in Hm. unfold zlen in *.
  destruct (Nat.ltb_spec (S m) (Z.to_nat (Z.min (1 + Z.of_nat (length l)) (80 * 1024)))),
    (Nat.ltb_spec m (Z.to_nat (Z.min (Z.of_nat (length l)) (80 * 1024)))); lia.
Qed.

(** * A value that is too long *)

Section TooLong.
Variable data : bytes.
Variable lenient : bool.
Hypothesis Hlen : zlen data < 2 ^ 31.

Lemma count_too_long v k rest :
  0 <= hp_nread (pr k) <= HTTP_MAX_HEADER_SIZE -> 0 <= v < 2 ^ 31 -> HTTP_MAX_HEADER_SIZE < hp_nread (pr k) + v ->
  ctl_failed (COUNT_HEADER_SIZE v k rest).
Proof.
  intros Hn Hv Hmax. unfold COUNT_HEADER_SIZE, upd_pr. cbn [pr put_pr set_nread hp_nread].
  unfold HTTP_MAX_HEADER_SIZE in *. unfold u32. rewrite Z.mod_small by lia.
  replace (_ <? _) with true by lia. exact I.
Qed.

Lemma value_done_too_long s h k :
  0 <= hp_nread (pr k) <= HTTP_MAX_HEADER_SIZE -> 0 <= s <= p k -> p k <= zlen data ->
  HTTP_MAX_HEADER_SIZE < hp_nread (pr k) + (p k - s) -> ctl_failed (header_value_done data s h k).
Proof. intros Hn Hs Hp Hmax. unfold header_value_done. apply count_too_long; cbn [p upd_pr put_pr pr set_header_state hp_nread]; lia. Qed.

Lemma value_too_long fuel s h k :
  value_inv data s k -> value_hs h = true -> HTTP_MAX_HEADER_SIZE < hp_nread (pr k) + (p k - s) ->
  ctl_failed (header_value_loop recorder data lenient fuel s h k).
Proof.
  revert h k. induction fuel as [|fuel IH]; intros h k Hk Hh Hmax; [exact I|].
  pose proof Hk as (He & _ & Hn & Hcl & _ & Hs & Hp & _).
  cbn [header_value_loop]. destruct (p k =? data_end data); [apply value_done_too_long; assumption|].
  destruct (byte_at data (p k)) as [d|] eqn:Hd; [|exact I]. pose proof (byte_at_range _ _ _ Hd) as Hr.
  destruct (d =c CR)%char eqn:Hcr.
  { unfold CALLBACK_DATA, CALLBACK_DATA_. destruct (negb _); [exact I|].
    destruct (get_mark _ _); [|apply value_done_too_long; assumption]. rewrite data_cb_recorder.
    destruct (_ || _); [exact I|]. unfold on_data. cbn [Z.eqb].
    assert (Ho : errno_ok (set_state (p_state (upd_pr (set_header_state h) (UPDATE_STATE s_header_almost_done (put_ch d k))))
      (pr (upd_pr (set_header_state h) (UPDATE_STATE s_header_almost_done (put_ch d k))))) = true) by (apply errno_ok_spec; exact He).
    rewrite Ho. apply value_done_too_long; assumption. }
  destruct (d =c LF)%char eqn:Hlf; [apply count_too_long; cbn [p put_ch UPDATE_STATE put_p_state pr]; lia|].
  destruct (negb lenient && _); [exact I|].
  destruct (eqb h h_content_length) eqn:Hhc.
  - cbn [pr put_ch]. pose proof (content_length_char_ok d (pr k) Hcl) as Hc. destruct (content_length_char d (pr k)); [|exact I].
    destruct Hc as (cl & -> & Hcl').
    apply IH; [|exact Hh | cbn [p put_p pr put_pr set_content_length hp_nread put_ch]; lia].
    exact (value_inv_content_length data s cl (put_ch d k) (value_inv_ch data s d k Hk) Hcl' (proj2 Hr)).
  - apply bool_decide_eq_false in Hhc.
    destruct (header_value_char_ok data h (put_ch d k) d Hh Hhc Hd Hcr Hlf) as (h' & ix & fl & q & -> & Hh' & Hq).
    cbn [p put_ch] in Hq. apply IH; [exact (value_inv_moved data s ix fl q (put_ch d k) Hk Hq) | exact Hh' |].
    unfold moved, upd_pr. cbn [p put_p pr put_pr set_flags set_index hp_nread put_ch]. lia.
Qed.
End TooLong.

(** * The header state a value begins with *)

(** The loop works on its own copy of the header state. *)
Section Restate.
Variable data : bytes.
Variable lenient : bool.
Variable z : header_states.

Notation restate := (upd_pr (set_header_state z)).

Definition same_or_failed (c1 c2 : ctl trace) : Prop := c1 = c2 \/ (ctl_failed c1 /\ ctl_failed c2).

Lemma value_char_restate h (k : ctx trace) :
  header_value_char data h (restate k) =
    match header_value_char data h k with Done (k', h') => Done (restate k', h') | Stuck w => Stuck w end.
Proof.
  destruct k as [x ap ps pp cc m1 m2 m3 m4 m5]. destruct x as [ty fl st1 hs ix ln nr cl ma mi sc me er up].
  unfold header_value_char, match_value, upd_pr. cbn [pr put_pr ch p hp_index incr_index set_index set_header_state].
  destruct h; try reflexivity;
    try match goal with |- context [match_next ?s ?f ?k ?c ?i ?x] => destruct (match_next s f k c i x) end;
    try match goal with |- context [(?x =c ",")%char] => destruct (x =c ",")%char end; reflexivity.
Qed.

Lemma content_length_restate d x :
  content_length_char d (set_header_state z x) =
    match content_length_char d x with inl x' => inl (set_header_state z x') | inr e => inr e end.
Proof.
  unfold content_length_char. cbn [hp_content_length set_header_state].
  destruct (d =c _)%char; [reflexivity|]. destruct (negb _); [reflexivity|]. destruct (_ <? _); reflexivity.
Qed.

Lemma value_loop_restate fuel s h k :
  same_or_failed (header_value_loop recorder data lenient fuel s h (restate k))
    (header_value_loop recorder data lenient fuel s h k).
Proof.
  revert h k. induction fuel as [|fuel IH]; intros h k; [left; reflexivity|]. cbn [header_value_loop].
  change (p (restate k)) with (p k). destruct (p k =? data_end data); [left; reflexivity|].
  destruct (byte_at data (p k)) as [d|]; [|left; reflexivity].
  destruct (d =c CR)%char; [left; reflexivity|].
  destruct (d =c LF)%char.
  { unfold COUNT_HEADER_SIZE, upd_pr. cbn [pr put_pr UPDATE_STATE put_p_state put_ch set_nread set_header_state hp_nread].
    destruct (_ <? _); [right; split; exact I | left; reflexivity]. }
  destruct (negb lenient && _); [right; split; exact I|].
  destruct (eqb h h_content_length).
  - change (pr (put_ch d (restate k))) with (set_header_state z (pr (put_ch d k))). rewrite content_length_restate.
    destruct (content_length_char d (pr (put_ch d k))); [|right; split; exact I].
    exact (IH h (put_p (p (put_ch d k) + 1) (put_pr _ (put_ch d k)))).
  - change (put_ch d (restate k)) with (restate (put_ch d k)). rewrite value_char_restate.
    destruct (header_value_char data h (put_ch d k)) as [[k' h']|w]; [|left; reflexivity].
    exact (IH h' (put_p (p k' + 1) k')).
Qed.
End Restate.

Section Value.
Variable c b0 : ascii.
Variable b' : bytes.
Variable lenient : bool.
Notation b := (b0 :: b').
Notation one := [c].
Notation d1 := ([c] ++ b0 :: b').
Hypothesis Hlen : zlen d1 < 2 ^ 31.

Notation rel := (rel one).
Notation ctl_rel := (ctl_rel one).
Notation entered := (entered c b0 b').
Notation split_char := (split_char c b0 b' lenient).

(** * The value goes on in both runs *)

Lemma resume_both s1 r1 s2 r2 c1 c2 :
  ctl_rel c1 c2 -> ctl_ok d1 s1 r1 c1 -> ctl_ok b s2 r2 c2 ->
  ctl_rel (resume lenient d1 5 c1) (resume lenient b 5 c2).
Proof.
  intros Hr H1 H2. destruct c2 as [|k2| | | |]; try (apply ctl_rel_failed; exact I);
    destruct c1 as [|k1| | | |]; try contradiction; try exact Hr.
  apply (reexecute_rel one b lenient Hlen). destruct Hr as [Hr Hc].
  split; [apply H1 | split; [apply H2 | auto]].
Qed.

(** How the second call begins. *)
Definition entry_value (k2 : ctx trace) : ctx trace := counted (put_ch b0 k2).

Lemma value_entry h K1 k2 :
  entered (put_p 0 (counted (upd_pr (set_header_state h) K1))) k2 -> value_inv d1 0 K1 -> p K1 = 1 ->
  ctl_failed (exec_char recorder b lenient (put_ch b0 k2)) \/
  (exec_char recorder b lenient (put_ch b0 k2) =
     resume lenient b 5 (header_value_loop recorder b lenient (S (Z.to_nat (zlen b))) 0 h (entry_value k2)) /\
   value_at one b 0 0 (upd_pr (set_header_state h) K1) (entry_value k2) /\ 2 <= hp_nread (pr (entry_value k2))).
Proof.
  intros Hent (He & Hs1 & Hn & Hcl & Hm & _ & _ & _) Hp1. pose proof (zlen_nonneg b') as Hb'.
  pose proof (zlen_cons b0 b') as Hbl. pose proof (zlen_one c) as H1. pose proof (two_bytes c b0 b') as H2.
  assert (Hbm : body_mark K1 = None) by (destruct Hm as (_ & _ & _ & M4 & _); eapply mark_ok_none; [|exact M4]; reflexivity).
  pose proof (entered_rel _ _ _ _ _ Hent Hbm) as [Hcore Hnr Hps Hpp Hl].
  destruct Hent as (_ & _ & (He2 & (Hn2 & Hcl2 & _) & Hm2 & _) & Hp2 & _).
  assert (Hs2 : p_state k2 = s_header_value) by (rewrite <- Hps; exact Hs1).
  rewrite exec_char_header by (cbn [p_state put_ch pr]; first [rewrite Hs2; reflexivity | exact Hn2]).
  destruct (HTTP_MAX_HEADER_SIZE <? hp_nread (pr (put_ch b0 k2)) + 1) eqn:Hmax; [left; exact I|]. right.
  cbn [pr put_ch] in Hmax. cbn [p put_p put_ch counted upd_pr put_pr pr set_nread set_header_state hp_nread] in Hnr, Hpp.
  assert (Hh2 : hp_header_state (pr k2) = h) by (destruct (core_fields _ _ Hcore) as (_ & <- & _); reflexivity).
  unfold dispatch. change (p_state (counted (put_ch b0 k2))) with (p_state k2). rewrite Hs2.
  unfold case_s_header_value. fold (entry_value k2).
  change (hp_header_state (pr (entry_value k2))) with (hp_header_state (pr k2)).
  change (p (entry_value k2)) with (p k2). rewrite Hh2, Hp2, Z.sub_0_r.
  split; [reflexivity|]. split; [|cbn [entry_value counted upd_pr pr put_pr set_nread hp_nread put_ch]; lia].
  constructor.
  - constructor; try assumption; [exact (Z.le_trans _ _ _ (Z.le_succ_diag_r _) (Z.le_trans _ _ _ Hnr (Z.le_succ_diag_r _))) | cbn; lia |].
    eapply linked_keep; [exact Hl | reflexivity | reflexivity | intros []; reflexivity | intros []; reflexivity].
  - split; [exact He|]. split; [exact Hs1|]. split; [exact Hn|]. split; [exact Hcl|]. split; [exact Hm|].
    cbn [p upd_pr put_pr]. lia.
  - rewrite Hs2, Hp2 in Hm2. split; [exact He2|]. split; [exact Hs2|]. split; [cbn; lia|]. split; [exact Hcl2|].
    split; [exact Hm2|]. cbn [p entry_value counted upd_pr put_pr put_ch]. lia.
  - cbn [p entry_value counted upd_pr put_pr put_ch pr set_header_state set_nread hp_nread]. lia.
Qed.
Lemma ctl_rel_restate c1 c1' c2 : same_or_failed c1' c1 -> ctl_rel c1' c2 -> ctl_rel c1 c2.
Proof.
  intros [-> | [H1 _]] Hr; [exact Hr|].
  destruct c2; try (apply ctl_rel_failed; exact I); destruct c1'; contradiction.
Qed.

Lemma value_resume fuel1 fuel2 h q1 q2 K1 K2 :
  value_at one b 0 0 (put_p q1 (upd_pr (set_header_state h) K1)) (put_p q2 K2) ->
  value_hs h = true -> zlen b - q2 < Z.of_nat fuel1 -> zlen b - q2 < Z.of_nat fuel2 ->
  ctl_rel (resume lenient d1 5 (header_value_loop recorder d1 lenient fuel1 0 h (put_p q1 K1)))
          (resume lenient b 5 (header_value_loop recorder b lenient fuel2 0 h (put_p q2 K2))).
Proof.
  intros Hat Hh Hf1 Hf2. pose proof (rel_p _ _ _ (va_rel _ _ _ _ _ _ Hat)) as Hp. cbn in Hp.
  pose proof (b_short one b Hlen) as Hb. pose proof (zlen_app one b) as Hz. pose proof (zlen_one c) as H1.
  apply (resume_both 0 1 0 1).
  - apply (ctl_rel_restate _ (header_value_loop recorder d1 lenient fuel1 0 h (put_p q1 (upd_pr (set_header_state h) K1)))).
    + exact (value_loop_restate d1 lenient h fuel1 0 h (put_p q1 K1)).
    + apply (value_loop_rel one b lenient Hlen); try assumption.
  - apply header_value_loop_ok; [exact recorder_ok | exact Hlen | | exact Hh | cbn [p put_p]; lia].
    destruct Hat as [_ Hi _ _]. exact Hi.
  - apply header_value_loop_ok; [exact recorder_ok | exact Hb | exact (va_inv2 _ _ _ _ _ _ Hat) | exact Hh | cbn [p put_p]; lia].
Qed.

Lemma put_p_id (k : ctx trace) q : p k = q -> put_p q k = k.
Proof. destruct k. cbn. intros <-. reflexivity. Qed.

(** The byte has been looked at by itself, and the value goes on. *)
Lemma value_step h K1 k2 fuel :
  entered (put_p 0 (counted (upd_pr (set_header_state h) K1))) k2 -> value_inv d1 0 K1 -> p K1 = 1 ->
  value_hs h = true -> zlen b < Z.of_nat fuel ->
  ctl_rel (resume lenient d1 5 (header_value_loop recorder d1 lenient fuel 0 h K1))
          (exec_char recorder b lenient (put_ch b0 k2)).
Proof.
  intros Hent Hi Hp1 Hh Hf. pose proof (zlen_nonneg b).
  destruct (value_entry h K1 k2 Hent Hi Hp1) as [Hfail | (-> & Hat & _)].
  { apply ctl_rel_failed. exact Hfail. }
  pose proof (rel_p _ _ _ (va_rel _ _ _ _ _ _ Hat)) as Hp. change (p (upd_pr (set_header_state h) K1)) with (p K1) in Hp.
  rewrite Hp1, zlen_one in Hp.
  rewrite <- (put_p_id K1 1 Hp1), <- (put_p_id (entry_value k2) 0) by lia.
  apply value_resume; [|exact Hh | lia | lia].
  rewrite (put_p_id (entry_value k2) 0), put_p_id by (first [lia | exact Hp1]). exact Hat.
Qed.

Lemma value_at_ch2 s1 s2 d k1 k2 : value_at one b s1 s2 k1 k2 -> value_at one b s1 s2 k1 (put_ch d k2).
Proof.
  intros [[Hcore Hnr Hps Hpp Hl] H1 H2 Hct]. constructor; [constructor|..]; try assumption.
  eapply linked_keep; [exact Hl | reflexivity | reflexivity | intros []; reflexivity | intros []; reflexivity].
Qed.

Lemma moved_id (k : ctx trace) q ix fl :
  hp_index (pr k) = ix -> hp_flags (pr k) = fl -> moved ix fl q k = put_p q k.
Proof. destruct k as [[] ? ? ? ? ? ? ? ? ?]. cbn. intros <- <-. reflexivity. Qed.

(** The byte is in the middle of a value that is not looked at. *)
Lemma general_step K1 k2 fuel :
  entered (put_p 0 (counted (upd_pr (set_header_state h_general) K1))) k2 -> value_inv d1 0 K1 -> p K1 = 1 ->
  (c =c CR)%char = false -> (c =c LF)%char = false -> zlen b < Z.of_nat fuel ->
  ctl_rel (resume lenient d1 5 (header_value_loop recorder d1 lenient fuel 0 h_general (put_p (general_jump d1 0 + 1) K1)))
          (exec_char recorder b lenient (put_ch b0 k2)).
Proof.
  intros Hent Hi Hp1 Hcr Hlf Hf. pose proof (zlen_nonneg b') as Hb'. pose proof (zlen_cons b0 b') as Hbl.
  destruct ((b0 =c CR)%char || (b0 =c LF)%char) eqn:Hend.
  { replace (general_jump d1 0 + 1) with 1; [rewrite put_p_id by exact Hp1; apply value_step; try assumption; reflexivity|].
    change d1 with (c :: b). rewrite general_jump_stop. unfold slice. change (Z.to_nat 0) with 0%nat.
    rewrite drop_0, stop_take, stop_cons, Z.sub_0_r, zlen_cons by assumption.
    rewrite stop_head by exact Hend.
    cbn [option_map]. unfold HTTP_MAX_HEADER_SIZE. destruct (Nat.ltb_spec 1 (Z.to_nat (Z.min (1 + zlen b) (80 * 1024)))); lia. }
  apply orb_false_iff in Hend as [Hcr0 Hlf0].
  destruct (value_entry h_general K1 k2 Hent Hi Hp1) as [Hfail | (-> & Hat & Hn2)]; [apply ctl_rel_failed; exact Hfail|].
  pose proof (rel_p _ _ _ (va_rel _ _ _ _ _ _ Hat)) as Hp2. change (p (upd_pr (set_header_state h_general) K1)) with (p K1) in Hp2.
  rewrite Hp1, zlen_one in Hp2. assert (Hp0 : p (entry_value k2) = 0) by lia.
  remember (Z.to_nat (zlen b)) as F eqn:HF. cbn [header_value_loop]. rewrite Hp0.
  unfold data_end at 1. replace (0 =? zlen b) with false by lia. change (byte_at b 0) with (Some b0). cbv beta iota. rewrite Hcr0, Hlf0.
  destruct (negb lenient && _); [apply ctl_rel_failed; exact I|].
  change (eqb h_general h_content_length) with false. cbn [header_value_char].
  change (p (put_ch b0 (entry_value k2))) with (p (entry_value k2)). rewrite Hp0.
  pose proof (general_jump_progress b 0 b0 eq_refl Hcr0 Hlf0) as Hg1.
  pose proof (general_jump_range b 0 ltac:(lia)) as Hg2.
  assert (Hat' : value_at one b 0 0 (put_p (1 + general_jump b 0 + 1) (upd_pr (set_header_state h_general) K1))
    (put_p (general_jump b 0 + 1) (put_ch b0 (entry_value k2)))).
  { destruct (core_fields _ _ (rel_core _ _ _ (va_rel _ _ _ _ _ _ Hat))) as (Hfl & _ & Hix & _).
    apply (value_at_ch2 0 0 b0) in Hat.
    apply (value_at_move one b 0 0 (hp_index (pr K1)) (hp_flags (pr K1)) (general_jump b 0)) in Hat;
      [|change (p (put_ch b0 (entry_value k2))) with (p (entry_value k2)); lia].
    rewrite !moved_id in Hat by (first [reflexivity | symmetry; first [exact Hix | exact Hfl]]).
    rewrite zlen_one in Hat. exact Hat. }
  destruct (jump_split c b Hcr Hlf ltac:(discriminate)) as [Hj | Hlong].
  - assert (Hj' : general_jump d1 0 = 1 + general_jump b 0) by exact Hj. rewrite Hj'. apply value_resume; [exact Hat' | reflexivity | cbn [p put_p]; lia | cbn [p put_p]; lia].
  - apply ctl_rel_failed.
    assert (Hfail : ctl_failed (header_value_loop recorder b lenient F 0 h_general (put_p (general_jump b 0 + 1) (put_ch b0 (entry_value k2))))).
    { apply value_too_long; [exact (b_short one b Hlen) | exact (va_inv2 _ _ _ _ _ _ Hat') | reflexivity |].
      cbn [pr p put_p put_ch]. lia. }
    destruct (header_value_loop _ _ _ _ _ _ _); try contradiction; exact I.
Qed.
(** * The byte by itself *)

Lemma value_done_one h (k : ctx trace) :
  p k = 1 -> 0 <= hp_nread (pr k) <= HTTP_MAX_HEADER_SIZE ->
  header_value_done one 0 h k =
    if HTTP_MAX_HEADER_SIZE <? hp_nread (pr k) + 1 then goto_error HPE_HEADER_OVERFLOW (counted (upd_pr (set_header_state h) k))
    else Break (put_p 0 (counted (upd_pr (set_header_state h) k))).
Proof.
  intros Hp Hn. unfold header_value_done, COUNT_HEADER_SIZE, counted, upd_pr.
  cbn [p put_pr pr set_header_state hp_nread set_nread]. rewrite Hp, Z.sub_0_r.
  assert (Hu : u32 (hp_nread (pr k) + 1) = hp_nread (pr k) + 1)
    by (unfold HTTP_MAX_HEADER_SIZE in Hn; apply Z.mod_small; lia).
  rewrite Hu. destruct (_ <? _); reflexivity.
Qed.

Lemma value_cr h k :
  hp_http_errno (pr k) = HPE_OK -> p k = 0 -> header_value_mark k = Some 0 ->
  let k' := upd_pr (set_header_state h) (UPDATE_STATE s_header_almost_done (put_ch c k)) in
  same_quiet (CALLBACK_DATA recorder d1 For_header_value k' (header_value_done d1 0 h))
             (CALLBACK_DATA recorder one For_header_value k' (header_value_done one 0 h)).
Proof.
  intros He Hp Hm. pose proof (two_bytes c b0 b') as H2. pose proof (zlen_one c) as H1.
  unfold CALLBACK_DATA. cbn [p upd_pr put_pr UPDATE_STATE put_p_state put_ch]. rewrite Hp.
  rewrite (callback_data_recorded d1 For_header_value 0), (callback_data_recorded one For_header_value 0)
    by (first [exact He | exact Hm | lia]).
  unfold header_value_done, COUNT_HEADER_SIZE, data_end. destruct (_ <? _); [split; [reflexivity | exact I]|].
  cbn [p upd_pr put_pr put_mark put_header_value_mark put_app UPDATE_STATE put_p_state put_ch]. rewrite Hp, H1.
  replace (0 =? zlen d1) with false by lia. split; [reflexivity | exact I].
Qed.

Lemma value_lf h k :
  hp_http_errno (pr k) = HPE_OK -> p k = 0 -> header_value_mark k = Some 0 ->
  let k' := UPDATE_STATE s_header_almost_done (put_ch c k) in
  same_quiet
    (COUNT_HEADER_SIZE (0 - 0) k' (fun k => CALLBACK_DATA_NOADVANCE recorder d1 For_header_value (upd_pr (set_header_state h) k) Reexecute))
    (COUNT_HEADER_SIZE (0 - 0) k' (fun k => CALLBACK_DATA_NOADVANCE recorder one For_header_value (upd_pr (set_header_state h) k) Reexecute)).
Proof.
  intros He Hp Hm. pose proof (two_bytes c b0 b') as H2. pose proof (zlen_one c) as H1.
  unfold COUNT_HEADER_SIZE. destruct (_ <? _); [split; [reflexivity | exact I]|].
  unfold CALLBACK_DATA_NOADVANCE. cbn [p upd_pr put_pr UPDATE_STATE put_p_state put_ch]. rewrite Hp.
  rewrite (callback_data_recorded d1 For_header_value 0), (callback_data_recorded one For_header_value 0)
    by (first [exact He | exact Hm | lia]).
  split; reflexivity.
Qed.

(** A character of a value is dealt with without looking at the others, but
    for the jump. *)
Lemma value_char_split h (k : ctx trace) :
  value_hs h = true -> h <> h_content_length -> p k = 0 -> (c =c CR)%char = false -> (c =c LF)%char = false ->
  exists h' ix fl j, header_value_char d1 h k = Done (moved ix fl j k, h') /\
    header_value_char one h k = Done (moved ix fl 0 k, h') /\ value_hs h' = true /\
    (j = 0 \/ h' = h_general /\ j = general_jump d1 0).
Proof.
  intros Hh Hcl Hp Hcr Hlf.
  destruct (header_value_char_ok one h k c Hh Hcl ltac:(rewrite Hp; reflexivity) Hcr Hlf) as (h' & ix & fl & q & E & Hh' & Hq).
  rewrite Hp, zlen_one in Hq. assert (q = 0) as -> by lia.
  destruct (decide (h = h_general)) as [-> | Hne].
  - cbn [header_value_char] in E |- *. rewrite Hp in E |- *.
    assert (E1 : put_p (general_jump one 0) k = moved ix fl 0 k)
      by exact (f_equal (fun r => match r with Done (k', _) => k' | Stuck _ => k end) E).
    exists h_general, ix, fl, (general_jump d1 0). split; [|split; [rewrite E1; reflexivity | split; [reflexivity | right; auto]]].
    f_equal. f_equal. apply (f_equal (put_p (general_jump d1 0))) in E1. exact E1.
  - exists h', ix, fl, 0. split; [|auto]. rewrite <- E. destruct h; try reflexivity. contradiction.
Qed.

(** The loop, from the byte on: to an exit of the [case] that does not depend
    on the rest of the input, or on to the rest. *)
Lemma value_char_cases h k :
  inv one 1 k -> p k = 0 -> p_state k = s_header_value -> value_hs h = true ->
  let r1 := header_value_loop recorder d1 lenient (S (Z.to_nat (zlen d1))) 0 h k in
  let r0 := header_value_loop recorder one lenient (S (Z.to_nat (zlen one))) 0 h k in
  same_quiet r1 r0 \/
  exists h' K1 j, value_inv d1 0 K1 /\ p K1 = 1 /\ value_hs h' = true /\
    r1 = header_value_loop recorder d1 lenient (Z.to_nat (zlen d1)) 0 h' (put_p j K1) /\
    r0 = header_value_done one 0 h' K1 /\
    (j = 1 \/ h' = h_general /\ j = general_jump d1 0 + 1 /\ (c =c CR)%char = false /\ (c =c LF)%char = false).
Proof.
  intros (He & (Hn & Hcl & _) & Hm & _) Hp Hs Hh. cbv zeta.
  pose proof (two_bytes c b0 b') as H2. pose proof (zlen_one c) as H1.
  assert (Hi : forall x, hp_http_errno x = HPE_OK -> hp_nread x = hp_nread (pr k) ->
    0 <= hp_content_length x <= ULLONG_MAX -> value_inv d1 0 (put_p 1 (put_ch c (put_pr x k)))).
  { intros x Hx Hnx Hcx. rewrite Hs, Hp in Hm. split; [exact Hx|]. split; [exact Hs|]. split; [cbn; lia|].
    split; [exact Hcx|]. split; [exact Hm|]. cbn [p put_p]. lia. }
  cbn [header_value_loop]. rewrite Hp. unfold data_end at 1. replace (0 =? zlen d1) with false by lia.
  unfold data_end at 1. rewrite H1. change (0 =? 1) with false. cbv beta iota.
  change (byte_at d1 0) with (Some c). change (byte_at one 0) with (Some c). cbv beta iota.
  assert (Hm0 : header_value_mark k = Some 0).
  { rewrite Hs, Hp in Hm. destruct Hm as (_ & M2 & _). destruct (header_value_mark k) as [m|]; cbn in M2;
      [f_equal; lia | destruct M2; discriminate]. }
  destruct (c =c CR)%char eqn:Hcr.
  { left. apply value_cr; assumption. }
  destruct (c =c LF)%char eqn:Hlf; [left; change (p (put_ch c k)) with (p k); rewrite Hp; apply value_lf; assumption|].
  destruct (negb lenient && _); [left; split; [reflexivity | exact I]|].
  destruct (eqb h h_content_length) eqn:Hhc.
  - change (pr (put_ch c k)) with (pr k). pose proof (content_length_char_ok c (pr k) Hcl) as Hc.
    destruct (content_length_char c (pr k)) as [x|e]; [|left; split; [reflexivity | exact I]].
    right. destruct Hc as (cl & -> & Hcl').
    exists h, (put_p 1 (put_ch c (put_pr (set_content_length cl (pr k)) k))), 1.
    change (p (put_ch c k)) with (p k). rewrite Hp.
    split; [apply Hi; [exact He | reflexivity | exact Hcl']|]. split; [reflexivity|]. split; [exact Hh|].
    split; [reflexivity|]. split; [reflexivity | left; reflexivity].
  - apply bool_decide_eq_false in Hhc. right.
    destruct (value_char_split h (put_ch c k) Hh Hhc Hp Hcr Hlf) as (h' & ix & fl & j & E1 & E0 & Hh' & Hj).
    rewrite E1, E0. exists h', (put_p 1 (put_ch c (put_pr (set_flags fl (set_index ix (pr k))) k))), (j + 1).
    split; [apply Hi; [exact He | reflexivity | exact Hcl]|]. split; [reflexivity|]. split; [exact Hh'|].
    split; [reflexivity|]. split; [reflexivity|].
    destruct Hj as [-> | [-> ->]]; [left; reflexivity | right; auto].
Qed.
Lemma value_cross k : inv one 0 k -> p k = 0 -> p_state k = s_header_value -> split_char k.
Proof.
  intros Hk Hp Hs.
  assert (Hh : PARSING_HEADER (p_state k) = true) by (rewrite Hs; reflexivity).
  unfold HttpStreamCross.split_char. rewrite !exec_char_header by (try exact Hh; apply Hk).
  destruct (_ <? _) eqn:Hmax; [left; reflexivity|].
  assert (HK : inv one 1 (counted k)) by (apply inv_counted; [exact Hk | exact Hh | reflexivity | lia]).
  assert (HpK : p (counted k) = 0) by exact Hp. assert (HsK : p_state (counted k) = s_header_value) by exact Hs.
  pose proof (dispatch_ok recorder one lenient recorder_ok (one_short c) _ HK) as Hok. unfold case_ok in Hok. revert Hok.
  unfold dispatch. rewrite HsK. unfold case_s_header_value, data_end. rewrite HpK, !Z.sub_0_r.
  assert (Hst : value_hs (hp_header_state (pr (counted k))) = true).
  { destruct HK as (_ & (_ & _ & Hst) & _). rewrite HsK in Hst. exact Hst. }
  intros Hok.
  destruct (value_char_cases (hp_header_state (pr (counted k))) (counted k) HK HpK HsK Hst)
    as [[E Hq] | (h' & K1 & j & Hi & Hp1 & Hh' & E1 & E0 & Hj)].
  - left. rewrite E. destruct (header_value_loop recorder one _ _ _ _ _) as [|k'| | | |]; try reflexivity.
    apply (quiet_reexecute c b0 b'); [apply Hok | exact Hq].
  - right. rewrite E1, E0, value_done_one by (try exact Hp1; apply Hi).
    destruct (HTTP_MAX_HEADER_SIZE <? hp_nread (pr K1) + 1); [left; exact I|]. right. eexists.
    split; [reflexivity|]. intros k2 Hent.
    assert (Hf : zlen b < Z.of_nat (Z.to_nat (zlen d1))) by (rewrite (zlen_app one b), zlen_one; pose proof (zlen_nonneg b); lia).
    destruct Hj as [-> | (-> & -> & Hcr & Hlf)]; [rewrite put_p_id by exact Hp1; apply value_step | apply general_step]; assumption.
Qed.

(** Every byte. *)
Lemma split_every k : inv one 0 k -> p k = 0 -> split_char k.
Proof.
  intros Hk Hp. destruct (quiet (p_state k)) eqn:Hq; [left; apply quiet_char; assumption|].
  destruct (p_state k) eqn:Hs; try discriminate.
  - apply field_cross; assumption.
  - apply value_cross; assumption.
  - apply counted_cross; auto.
  - apply counted_cross; auto.
  - apply eof_cross; assumption.
Qed.
End Value.
