(* ===== verification/HttpSegments.v ===== *)
(** Independence of the segmentation of the input: a message that the parser
    accepts byte by byte is accepted in any other pieces, with the same
    parser and the same reported events.

    A run of calls stops, as the callers of [http_parser_execute] do, when the
    parser has an error or asks for an upgrade. *)
From Stdlib Require Import ZArith Lia Bool List String Ascii.
From stdpp Require Import base list strings.
From S2P Require Import Prelude HttpChars HttpTypes HttpUrl HttpExec HttpExecSafe HttpRecord HttpCases HttpHeaders HttpSafe HttpContract HttpStream HttpStreamCases HttpLenient HttpStreamValue HttpStreamStep HttpStreamByte HttpStreamCross HttpStreamJump.

(** * Comparing calls *)

(** The same parser but for the scanner's count of header bytes, which is not
    larger. *)
Definition alike (x1 x2 : http_parser) : Prop :=
  core x1 = core x2 /\ hp_nread x1 <= hp_nread x2 /\ hp_state x1 = hp_state x2.

(** What the second call returns without an error, the first returns too. *)
Definition agrees (n : Z) (r1 r2 : exec_result trace) : Prop :=
  match r2 with
  | Returned x2 t2 n2 =>
      hp_http_errno x2 = HPE_OK -> exists x1, r1 = Returned x1 t2 (n + n2) /\ alike x1 x2
  | _ => True
  end.

Definition finish (r : ctl trace) : exec_result trace :=
  match r with
  | Return x a n => Returned x a n
  | Error k =>
      let k := if errno_ok (pr k) then SET_ERRNO HPE_UNKNOWN k else k in
      Returned (set_state (p_state k) (pr k)) (app k) (p k)
  | Abort w => Aborted w
  | Break _ | Reexecute _ | NoFuel => OutOfFuel
  end.

Lemma finish_failed r x t n : ctl_failed r -> finish r = Returned x t n -> hp_http_errno x <> HPE_OK.
Proof.
  destruct r as [| |k| | |]; try contradiction; try discriminate. intros _. cbn [finish].
  destruct (errno_ok (pr k)) eqn:He; intros [= <- _ _]; [discriminate|].
  cbn. intros Hok. apply errno_ok_spec in Hok. congruence.
Qed.

Lemma rel_agrees a c1 c2 : ctl_rel a c1 c2 -> agrees (zlen a) (finish c1) (finish c2).
Proof.
  intros Hr. destruct c2 as [k2|k2|k2|x2 t2 n2|w|]; try exact I.
  - unfold agrees. destruct (finish (Error k2)) as [x t n| |] eqn:E; try exact I.
    intros Hok. exfalso. exact (finish_failed (Error k2) x t n I E Hok).
  - destruct c1; try contradiction. destruct Hr as (H1 & H2 & H3 & -> & ->). intros _.
    eexists. split; [reflexivity | split; auto].
Qed.

Lemma execute_loop x t d :
  hp_http_errno x = HPE_OK -> d <> [] ->
  http_parser_execute recorder x t d =
    finish (exec_loop recorder d (hp_lenient_http_headers x) (S (length d)) (entry x t)).
Proof.
  intros He Hd. unfold http_parser_execute, exec_body. apply errno_ok_spec in He. rewrite He. cbn [negb].
  destruct d as [|c d]; [contradiction|]. unfold data_end at 1. rewrite zlen_cons.
  pose proof (zlen_nonneg d). replace (1 + zlen d =? 0) with false by lia. reflexivity.
Qed.

Lemma entry_at_loop x t d :
  hp_http_errno x = HPE_OK -> parser_wf x -> at_loop d (entry x t).
Proof.
  intros He Hwf. unfold parser_wf in Hwf. rewrite He in Hwf. unfold at_loop, entry.
  destruct (entry_marks_pr x t) as (Hpr & Hps & Hp). rewrite Hpr, Hps, Hp.
  split; [exact He|]. split; [exact Hwf|]. split; [apply entry_marks_ok | pose proof (zlen_nonneg d); lia].
Qed.

Lemma alike_fields x1 x2 :
  core x1 = core x2 -> hp_http_errno x1 = hp_http_errno x2 /\ hp_upgrade x1 = hp_upgrade x2 /\
    hp_lenient_http_headers x1 = hp_lenient_http_headers x2.
Proof. destruct x1, x2. unfold core. cbn. intros [=]. auto. Qed.

(** Two calls on the same input. *)
Lemma execute_alike x1 x2 t d :
  alike x1 x2 -> parser_wf x1 -> parser_wf x2 -> hp_http_errno x2 = HPE_OK -> d <> [] -> zlen d < 2 ^ 31 ->
  agrees 0 (http_parser_execute recorder x1 t d) (http_parser_execute recorder x2 t d).
Proof.
  intros (Hcore & Hnr & Hst) Hw1 Hw2 He2 Hd Hlen. destruct (alike_fields _ _ Hcore) as (He & _ & Hl).
  rewrite He2 in He. rewrite !execute_loop, Hl by assumption. change 0 with (zlen (@nil ascii)). apply rel_agrees.
  destruct (entry_marks_pr x1 t) as (A1 & B1 & C1). destruct (entry_marks_pr x2 t) as (A2 & B2 & C2).
  apply (exec_loop_rel [] d); try assumption; try (apply entry_at_loop; assumption).
  - constructor; unfold entry; rewrite ?A1, ?A2, ?B1, ?B2, ?C1, ?C2; try assumption; [reflexivity|].
    apply linked_same; unfold entry, entry_marks, initial_ctx; cbn [p_state]; rewrite Hst;
      [destruct (hp_state x2); reflexivity | intros f; destruct (hp_state x2), f; reflexivity].
  - unfold entry. rewrite C2, Nat2Z.inj_succ. unfold zlen. lia.
  - unfold entry. rewrite C2, Nat2Z.inj_succ. unfold zlen. lia.
Qed.

(** * One byte and the rest *)

Section Step.
Variable c b0 : ascii.
Variable b' : bytes.
Notation b := (b0 :: b').
Notation one := [c].
Notation d1 := ([c] ++ b0 :: b').
Hypothesis Hlen : zlen d1 < 2 ^ 31.
Variable x : http_parser.
Variable t : trace.
Hypothesis Hwf : parser_wf x.
Hypothesis Hok : hp_http_errno x = HPE_OK.
Notation lenient := (hp_lenient_http_headers x).
Notation k0 := (put_ch c (entry x t)).

Lemma entry_inv d : 0 < zlen d -> inv d 0 k0.
Proof.
  intros Hd. apply at_loop_inv; [apply entry_at_loop; assumption|].
  unfold entry. destruct (entry_marks_pr x t) as (_ & _ & ->). exact Hd.
Qed.

(** How the one-byte call ends. *)
Lemma one_byte_call x1 t1 n1 :
  http_parser_execute recorder x t one = Returned x1 t1 n1 ->
  hp_http_errno x1 = HPE_OK -> hp_upgrade x1 = false ->
  ~ ctl_failed (exec_char recorder one lenient k0) /\
  (forall k1, exec_char recorder one lenient k0 = Break k1 ->
     p k1 = 0 /\ entered c b0 b' k1 (entry x1 t1) /\ hp_lenient_http_headers x1 = lenient) /\
  (exec_char recorder d1 lenient k0 = exec_char recorder one lenient k0 ->
     exists k1, exec_char recorder one lenient k0 = Break k1).
Proof.
  intros Hrun He Hu. rewrite execute_loop in Hrun by (try exact Hok; discriminate).
  destruct (entry_marks_pr x t) as (Hpr & Hps & Hp). pose proof (two_bytes c b0 b') as H2.
  rewrite (exec_loop_next lenient _ one c) in Hrun by (unfold entry; rewrite Hp; reflexivity).
  pose proof (exec_char_ok recorder one lenient recorder_ok (one_short c) k0 (entry_inv one ltac:(rewrite zlen_one; lia))) as Ho.
  pose proof (exec_char_ok recorder d1 lenient recorder_ok Hlen k0 (entry_inv d1 ltac:(lia))) as Ho1.
  pose proof (exec_char_lenient one lenient lenient k0 ltac:(cbn [pr put_ch]; unfold entry; rewrite Hpr; reflexivity)) as Hl.
  split; [|split].
  - intros Hf. assert (Hf' : ctl_failed (then_loop lenient one (length one) (exec_char recorder one lenient k0)))
      by (destruct (exec_char recorder one lenient k0); try contradiction; exact I).
    exact (finish_failed _ _ _ _ Hf' Hrun He).
  - intros k1 Hk1. rewrite Hk1 in *. cbn [then_loop] in Hrun. destruct Ho as (Hi & Hle).
    assert (Hp1 : p k1 = 0) by (destruct Hi as (_ & _ & _ & Hr); rewrite zlen_one in Hr; lia).
    rewrite Hp1 in Hrun. change (0 + 1) with 1 in Hrun.
    rewrite (exec_loop_end lenient _ one) in Hrun by reflexivity.
    destruct (flush_one c b0 b' k1 Hi Hp1) as (t' & Hfin & Hent). rewrite Hfin in Hrun.
    injection Hrun as <- <- <-. split; [exact Hp1|]. split; [exact Hent | exact Hl].
  - intros Heq. rewrite Heq in Ho1. destruct (exec_char recorder one lenient k0) as [k1|k1|k1|x' t' n'|w|]; eauto.
    + destruct Ho as (_ & _ & Hr). lia.
    + exfalso. exact (finish_failed (then_loop lenient one (length one) (Error k1)) _ _ _ I Hrun He).
    + exfalso. cbn [then_loop finish] in Hrun. injection Hrun as <- <- <-.
      destruct Ho as (_ & Hn & _), Ho1 as (_ & _ & [Hn1 | [Hn1 | Hn1]]); [rewrite zlen_one in Hn; lia | contradiction | congruence].
    + contradiction.
    + contradiction.
Qed.

(** From the first characters of the two calls to their ends. *)
Lemma rest_rel fuel1 k2 c1 c2 :
  ctl_rel one c1 c2 -> (forall k, c1 = Break k -> inv d1 0 k) ->
  (forall k, c2 = Break k -> inv b 0 k /\ p k2 <= p k) -> at_loop b k2 -> p k2 = 0 -> (length b <= fuel1)%nat ->
  ctl_rel one (then_loop lenient d1 fuel1 c1) (then_loop lenient b (length b) c2).
Proof.
  intros Hr H1 H2 _ Hp Hf. apply then_loop_rel; [ | exact Hr | exact H1 |].
  - intros. apply exec_loop_rel; assumption.
  - intros k Hk. destruct (H2 k Hk) as [Hi Hle]. split; [exact Hi|]. unfold zlen. lia.
Qed.

Lemma execute_step x1 t1 n1 :
  http_parser_execute recorder x t one = Returned x1 t1 n1 ->
  hp_http_errno x1 = HPE_OK -> hp_upgrade x1 = false ->
  agrees 1 (http_parser_execute recorder x t d1) (http_parser_execute recorder x1 t1 b).
Proof.
  intros Hrun He Hu. destruct (one_byte_call x1 t1 n1 Hrun He Hu) as (Hnf & Hbr & Heq).
  destruct (entry_marks_pr x t) as (Hpr & Hps & Hp). pose proof (two_bytes c b0 b') as H2.
  destruct (entry_marks_pr x1 t1) as (_ & _ & Hp1). pose proof (b_short one b Hlen) as Hbs.
  assert (Hb : forall k1, exec_char recorder one lenient k0 = Break k1 ->
    hp_lenient_http_headers x1 = lenient /\ at_loop b (entry x1 t1)).
  { intros k1 Hk1. destruct (Hbr k1 Hk1) as (_ & (_ & _ & Hat & _) & Hl). auto. }
  assert (Hex : exists k1, exec_char recorder one lenient k0 = Break k1 /\
    ctl_rel one (exec_loop recorder d1 lenient (S (length d1)) (entry x t))
      (exec_loop recorder b lenient (S (length b)) (entry x1 t1))).
  { rewrite (exec_loop_next lenient _ b b0) by (unfold entry; rewrite Hp1; reflexivity).
    rewrite (exec_loop_next lenient _ d1 c) by (unfold entry; rewrite Hp; reflexivity).
    destruct (split_every c b0 b' lenient Hlen k0 (entry_inv one ltac:(rewrite zlen_one; lia)) Hp) as [E | [F | (k1 & Hk1 & Hcr)]].
    - destruct (Heq E) as (k1 & Hk1). exists k1. split; [exact Hk1|]. rewrite E, Hk1.
      destruct (Hbr k1 Hk1) as (Hpk1 & Hent & _). cbn [then_loop]. rewrite Hpk1. change (0 + 1) with 1.
      change (length d1) with (S (length b)). rewrite (exec_loop_next lenient _ d1 b0) by reflexivity.
      apply (rest_rel _ (entry x1 t1)); [apply entered_char; assumption | | | apply (Hb k1 Hk1) | exact Hp1 | lia].
      + intros k Hk. eapply exec_char_inv; [exact Hlen | | | exact Hk]; [|cbn [p put_p]; lia].
        rewrite <- (Z.add_0_l 1), <- Hpk1. apply at_loop_next. apply Hent.
      + intros k Hk. eapply exec_char_inv; [exact Hbs | apply (Hb k1 Hk1) | | exact Hk].
        unfold entry. rewrite Hp1, zlen_cons. pose proof (zlen_nonneg b'). lia.
    - contradiction.
    - exists k1. split; [exact Hk1|]. destruct (Hbr k1 Hk1) as (_ & Hent & _).
      apply (rest_rel _ (entry x1 t1)); [apply Hcr; exact Hent | | | apply (Hb k1 Hk1) | exact Hp1 | cbn [length List.app]; lia].
      + intros k Hk. apply (exec_char_inv lenient d1 c (entry x t) k Hlen (entry_at_loop x t d1 Hok Hwf)); [|exact Hk].
        unfold entry. rewrite Hp. lia.
      + intros k Hk. eapply exec_char_inv; [exact Hbs | apply (Hb k1 Hk1) | | exact Hk].
        unfold entry. rewrite Hp1, zlen_cons. pose proof (zlen_nonneg b'). lia. }
  destruct Hex as (k1 & Hk1 & Hr). rewrite !execute_loop by (try assumption; discriminate).
  rewrite (proj1 (Hb k1 Hk1)). apply (rel_agrees one). exact Hr.
Qed.
End Step.

(** * Calls one after the other *)

(** The pieces of an input given in calls of their own; the count of bytes
    taken is that of the whole piece, by [execute_return_value]. *)
Fixpoint feed (x : http_parser) (t : trace) (pieces : list bytes) : option (http_parser * trace) :=
  match pieces with
  | [] => Some (x, t)
  | d :: pieces =>
      match http_parser_execute recorder x t d with
      | Returned x' t' n =>
          if errno_ok x' && negb (hp_upgrade x') && (n =? zlen d) then feed x' t' pieces else None
      | _ => None
      end
  end.

Definition feed_bytes (x : http_parser) (t : trace) (d : bytes) : option (http_parser * trace) :=
  feed x t (map (fun c => [c]) d).

Lemma feed_cons x t d pieces r :
  feed x t (d :: pieces) = Some r ->
  exists x' t', http_parser_execute recorder x t d = Returned x' t' (zlen d) /\
    hp_http_errno x' = HPE_OK /\ hp_upgrade x' = false /\ feed x' t' pieces = Some r.
Proof.
  cbn [feed]. destruct (http_parser_execute recorder x t d) as [x' t' n| |]; [|discriminate..].
  destruct (errno_ok x' && negb (hp_upgrade x') && (n =? zlen d)) eqn:Hb; [|discriminate].
  apply andb_true_iff in Hb as [Hb Hn]. apply andb_true_iff in Hb as [He%errno_ok_spec Hu%negb_true_iff].
  apply Z.eqb_eq in Hn as ->. eauto 6.
Qed.

Lemma feed_next x t d pieces x' t' :
  http_parser_execute recorder x t d = Returned x' t' (zlen d) -> hp_http_errno x' = HPE_OK ->
  hp_upgrade x' = false -> feed x t (d :: pieces) = feed x' t' pieces.
Proof.
  intros Hr He%errno_ok_spec Hu. cbn [feed]. rewrite Hr, He, Hu, Z.eqb_refl. reflexivity.
Qed.

Lemma feed_bytes_app x t d1 d2 :
  feed_bytes x t (d1 ++ d2) =
    match feed_bytes x t d1 with Some (x', t') => feed_bytes x' t' d2 | None => None end.
Proof.
  unfold feed_bytes. rewrite map_app. revert x t. induction (map _ d1) as [|d ds IH]; intros x t; [reflexivity|].
  cbn [List.app feed]. destruct (http_parser_execute recorder x t d) as [x' t' n| |]; [|reflexivity..].
  destruct (_ && _); [apply IH | reflexivity].
Qed.

Lemma execute_keeps_wf x t d x' t' n :
  parser_wf x -> zlen d < 2 ^ 31 -> http_parser_execute recorder x t d = Returned x' t' n -> parser_wf x'.
Proof.
  intros Hwf Hd Hr. destruct (execute_wf recorder x t d recorder_ok Hd Hwf) as (x2 & t2 & n2 & Heq & Hwf2 & _).
  rewrite Heq in Hr. injection Hr as <- <- <-. exact Hwf2.
Qed.

Lemma execute_errno x t d x' t' n :
  d <> [] -> hp_http_errno x <> HPE_OK -> http_parser_execute recorder x t d = Returned x' t' n -> hp_http_errno x' <> HPE_OK.
Proof.
  intros Hd He. unfold http_parser_execute, exec_body. destruct (errno_ok x) eqn:Hx; [apply errno_ok_spec in Hx; contradiction|].
  cbn [negb]. intros [= <- _ _]. exact He.
Qed.

(** The whole input at once, from the same bytes one by one. *)
Lemma whole_of_bytes d : forall x t x' t',
  d <> [] -> zlen d < 2 ^ 31 -> parser_wf x -> feed_bytes x t d = Some (x', t') ->
  hp_http_errno x' = HPE_OK /\ hp_upgrade x' = false /\ parser_wf x' /\
  exists y, http_parser_execute recorder x t d = Returned y t' (zlen d) /\ alike y x'.
Proof.
  induction d as [|c d IH]; [contradiction|]. intros x t x' t' _ Hlen Hwf Hf.
  apply feed_cons in Hf as (x1 & t1 & Hr & He & Hu & Hf). rewrite zlen_cons in Hlen.
  assert (Hwf1 : parser_wf x1) by (eapply execute_keeps_wf; [exact Hwf | | exact Hr]; reflexivity).
  destruct d as [|b0 d]; [injection Hf as -> ->|].
  - split; [exact He|]. split; [exact Hu|]. split; [exact Hwf1|]. exists x'. split; [exact Hr | repeat split; lia].
  - destruct (IH x1 t1 x' t' ltac:(discriminate) ltac:(lia) Hwf1 Hf) as (He' & Hu' & Hw' & y & Hy & Hal).
    split; [exact He'|]. split; [exact Hu'|]. split; [exact Hw'|].
    assert (Hx : hp_http_errno x = HPE_OK).
    { destruct (decide (hp_http_errno x = HPE_OK)) as [|Hne]; [assumption|].
      exfalso. exact (execute_errno x t [c] x1 t1 _ ltac:(discriminate) Hne Hr He). }
    assert (Hlen' : zlen ([c] ++ b0 :: d) < 2 ^ 31) by (change ([c] ++ b0 :: d) with (c :: b0 :: d); rewrite zlen_cons; lia).
    pose proof (execute_step c b0 d Hlen' x t Hwf Hx x1 t1 _ Hr He Hu) as Hag.
    rewrite Hy in Hag. destruct Hal as (Hc & Hn & Hst).
    destruct (Hag ltac:(rewrite (proj1 (alike_fields _ _ Hc)); exact He')) as (z & Hz & (Hc2 & Hn2 & Hs2)).
    exists z. split; [rewrite zlen_cons; exact Hz|]. split; [congruence|]. split; [lia | congruence].
Qed.

(** Any pieces. *)
Lemma pieces_of_bytes pieces : forall x y t x' t',
  Forall (fun d => d <> []) pieces -> zlen (concat pieces) < 2 ^ 31 ->
  parser_wf x -> parser_wf y -> alike y x -> hp_http_errno x = HPE_OK ->
  feed_bytes x t (concat pieces) = Some (x', t') ->
  exists y', feed y t pieces = Some (y', t') /\ alike y' x'.
Proof.
  induction pieces as [|d pieces IH]; intros x y t x' t' Hne Hlen Hx Hy Hal He Hf.
  { injection Hf as <- <-. exists y. split; [reflexivity | exact Hal]. }
  inversion Hne as [|? ? Hd Hne']; subst. cbn [concat] in Hlen, Hf. rewrite zlen_app in Hlen.
  pose proof (zlen_nonneg d). pose proof (zlen_nonneg (concat pieces)).
  rewrite feed_bytes_app in Hf. destruct (feed_bytes x t d) as [[x1 t1]|] eqn:Hd1; [|discriminate].
  destruct (whole_of_bytes d x t x1 t1 Hd ltac:(lia) Hx Hd1) as (He1 & Hu1 & Hw1 & z & Hz & (Hzc & Hzn & Hzs)).
  pose proof (execute_alike y x t d Hal Hy Hx He Hd ltac:(lia)) as Hag. rewrite Hz in Hag.
  destruct (Hag ltac:(rewrite (proj1 (alike_fields _ _ Hzc)); exact He1)) as (w & Hw & (Hwc & Hwn & Hws)).
  assert (Halw : alike w x1) by (split; [congruence | split; [lia | congruence]]).
  rewrite Z.add_0_l in Hw. destruct (alike_fields _ _ (proj1 Halw)) as (Ew & Uw & _).
  rewrite (feed_next y t d pieces w t1) by congruence.
  apply (IH x1); try assumption; [lia|]. exact (execute_keeps_wf y t d w t1 _ Hy ltac:(lia) Hw).
Qed.

(** C1: the parser does not depend on how its input is cut into pieces.  When
    a reachable parser accepts an input given byte by byte, with no error and
    no upgrade, it accepts the same input in any other non-empty pieces (one
    piece included), taking every byte, reporting exactly the same
    notifications and the same strings, and ending in the same parser but for
    the count of header bytes, which is at most that of the one-byte calls. *)
Theorem segmentation_independent x t pieces x' t'
    (Hx : parser_reach recorder x) (Hok : hp_http_errno x = HPE_OK)
    (Hne : Forall (fun d => d <> []) pieces) (Hlen : zlen (concat pieces) < 2 ^ 31)
    (Hbytes : feed_bytes x t (concat pieces) = Some (x', t')) :
  exists y, feed x t pieces = Some (y, t') /\
    core y = core x' /\ hp_state y = hp_state x' /\ hp_nread y <= hp_nread x'.
Proof.
  pose proof (reach_wf recorder x recorder_ok Hx) as Hwf.
  destruct (pieces_of_bytes pieces x x t x' t' Hne Hlen Hwf Hwf) as (y & Hy & Hc & Hn & Hs); try assumption.
  - repeat split; lia.
  - eauto.
Qed.

(** A request with a body, in three pieces cut inside the method, inside a
    header value and inside the body. *)
Definition post_pieces : list bytes :=
  [bs "PO"; bs "ST /a HTTP/1.1" ++ http_crlf ++ bs "Host: exa";
   bs "mple" ++ http_crlf ++ bs "Content-Length: 4" ++ http_crlf ++ http_crlf ++ bs "ab"; bs "cd"].

Lemma segmentation_independent_witness :
  exists y, feed fresh [] post_pieces = Some (y, match feed_bytes fresh [] (concat post_pieces) with Some (_, t) => t | None => [] end) /\
    hp_state y = s_start_req /\ length (match feed fresh [] post_pieces with Some (_, t) => t | None => [] end) = 9%nat.
Proof.
  destruct (feed_bytes fresh [] (concat post_pieces)) as [[x' t']|] eqn:Hb; [|vm_compute in Hb; discriminate].
  destruct (segmentation_independent fresh [] post_pieces x' t') as (y & Hy & _ & Hs & _).
  - apply reach_init.
  - reflexivity.
  - repeat constructor; discriminate.
  - reflexivity.
  - exact Hb.
  - exists y. split; [exact Hy|]. vm_compute in Hb. injection Hb as <- <-. split; [exact Hs|]. vm_compute. reflexivity.
Defined.

(** A request with a control byte inside the value of a header. *)
Definition control_byte_request : bytes :=
  bs "GET / HTTP/1.1" ++ http_crlf ++ bs "X: ab" ++ ["001"%char] ++ bs "c" ++ http_crlf ++ http_crlf.

(** The other direction does not hold.  Inside a header value that the
    parser does not interpret it jumps to the next CR or LF without looking at
    the bytes, while the first byte of every call is looked at: a control byte
    is accepted in a call that begins before it and refused in one that begins
    with it. *)
Lemma control_byte_depends_on_pieces :
  match feed fresh [] [control_byte_request] with Some (x, _) => hp_state x = s_start_req | None => False end /\
  feed_bytes fresh [] control_byte_request = None.
Proof. vm_compute. split; reflexivity. Qed.
