(* ===== verification/HttpPost.v ===== *)
(** Requests with a body of known length, from the bytes of the request to what
    the parser reports: any [POST] request with a well-formed path, any
    ordinary headers and a [Content-Length], in any pieces.

    The request is followed byte by byte, one lemma for each stretch of it;
    [HttpSegments.segmentation_independent] then gives the other pieces. *)
From Stdlib Require Import ZArith Lia Bool List String Ascii.
From stdpp Require Import base list strings.
From S2P Require Import Prelude HttpChars HttpTypes HttpUrl HttpExec HttpExecSafe HttpRecord HttpCases HttpSafe HttpContract HttpStream HttpStreamByte HttpSegments.

(** * Requests *)

(** A header line, and the bytes of a request. *)
Definition header_line (h : bytes * bytes) : bytes := fst h ++ bs ": " ++ snd h ++ http_crlf.
Definition header_lines (hs : list (bytes * bytes)) : bytes := concat (map header_line hs).

Definition post_head (path : bytes) (hs1 : list (bytes * bytes)) (len : bytes) (hs2 : list (bytes * bytes)) : bytes :=
  bs "POST /" ++ path ++ bs " HTTP/1.1" ++ http_crlf ++ header_lines hs1 ++
  bs "Content-Length: " ++ len ++ http_crlf ++ header_lines hs2 ++ http_crlf.

Definition post_request path hs1 len hs2 (body : bytes) : bytes := post_head path hs1 len hs2 ++ body.

(** Path characters, names of headers without meaning for the parser, header
    values, and decimal lengths. *)
Definition path_char (c : ascii) : bool := IS_URL_CHAR c && negb (c =c "?")%char && negb (c =c "#")%char.
Definition plain_start (c : ascii) : bool := negb (is_nul (TOKEN c)) && eqb (start_header_state (TOKEN c)) h_general.
Definition name_char (c : ascii) : bool := negb (is_nul (TOKEN c)).
Definition value_char (c : ascii) : bool := IS_HEADER_CHAR c && negb (c =c CR)%char && negb (c =c LF)%char.
Definition value_start (c : ascii) : bool := value_char c && negb (c =c " ")%char && negb (c =c "009")%char.

Definition header_ok (h : bytes * bytes) : Prop :=
  match h with
  | (c :: name, v :: value) =>
      plain_start c = true /\ forallb name_char name = true /\ value_start v = true /\ forallb value_char value = true
  | _ => False
  end.

Definition decimal_value (ds : bytes) : Z := fold_left (fun v d => v * 10 + digit d) ds 0.

(** * One byte at a time *)

(** No message is complete in the trace, and no headers but those of a [POST]
    with a body. *)
Definition ev_quiet (e : event) : bool :=
  match e with
  | EvNotify MessageComplete _ => false
  | EvNotify HeadersComplete y => eqb (hp_method y) HTTP_POST && negb (hp_content_length y =? 0)
  | _ => true
  end.
Definition quiet (t : trace) : bool := forallb ev_quiet t.

Inductive quiet_steps : http_parser -> trace -> bytes -> http_parser -> trace -> Prop :=
| steps_nil x t : quiet_steps x t [] x t
| steps_cons x t c d x1 t1 x' t' :
    http_parser_execute recorder x t [c] = Returned x1 t1 1 ->
    errno_ok x1 = true -> hp_upgrade x1 = false -> quiet t1 = true ->
    quiet_steps x1 t1 d x' t' -> quiet_steps x t (c :: d) x' t'.

Lemma quiet_steps_app x t d1 d2 x1 t1 x' t' :
  quiet_steps x t d1 x1 t1 -> quiet_steps x1 t1 d2 x' t' -> quiet_steps x t (d1 ++ d2) x' t'.
Proof. induction 1; cbn [List.app]; eauto using steps_cons. Qed.

Lemma quiet_steps_feed x t d x' t' : quiet_steps x t d x' t' -> feed_bytes x t d = Some (x', t').
Proof.
  induction 1 as [|x t c d x1 t1 x' t' Hr He Hu _ _ IH]; [reflexivity|].
  unfold feed_bytes in *. cbn [map]. apply errno_ok_spec in He.
  rewrite (feed_next x t [c] _ x1 t1) by assumption. exact IH.
Qed.

Lemma quiet_steps_prefix x t d1 d2 x' t' :
  quiet_steps x t (d1 ++ d2) x' t' -> quiet t = true -> exists x1 t1, quiet_steps x t d1 x1 t1 /\ quiet t1 = true.
Proof.
  revert x t. induction d1 as [|c d1 IH]; intros x t Hs Hq; [exists x, t; split; [constructor | exact Hq]|].
  inversion Hs as [|? ? ? ? x1 t1 ? ? Hr He Hu Hq1 Hs']; subst.
  destruct (IH x1 t1 Hs' Hq1) as (x2 & t2 & H2 & Hq2). exists x2, t2. eauto using steps_cons.
Qed.

(** The count of header bytes, kept apart from the rest of the arithmetic. *)
Definition nadd (n v : Z) : Z := n + v.

Lemma count_small v (k : ctx trace) rest :
  0 <= hp_nread (pr k) -> 0 <= v -> hp_nread (pr k) + v <= HTTP_MAX_HEADER_SIZE ->
  COUNT_HEADER_SIZE v k rest = rest (upd_pr (set_nread (nadd (hp_nread (pr k)) v)) k).
Proof.
  intros H1 H2 H3. unfold COUNT_HEADER_SIZE, nadd, upd_pr. rewrite u32_small by (unfold HTTP_MAX_HEADER_SIZE in *; lia).
  cbn [pr put_pr hp_nread set_nread].
  destruct (Z.ltb_spec HTTP_MAX_HEADER_SIZE (hp_nread (pr k) + v)); [lia | reflexivity].
Qed.

Lemma execute_one x t c : hp_http_errno x = HPE_OK ->
  http_parser_execute recorder x t [c] =
    finish (match exec_char recorder [c] (hp_lenient_http_headers x) (put_ch c (entry x t)) with
            | Break k => exec_loop recorder [c] (hp_lenient_http_headers x) 1 (put_p (p k + 1) k)
            | r => r
            end).
Proof.
  intros He. rewrite execute_loop by (assumption || discriminate). cbn [exec_loop length].
  unfold entry, entry_marks, initial_ctx; cbn [p_state]. destruct (hp_state x); reflexivity.
Qed.

Lemma reexecute_S d l fuel (k : ctx trace) :
  reexecute recorder d l (S fuel) k = match dispatch recorder d l k with Reexecute k => reexecute recorder d l fuel k | r => r end.
Proof. reflexivity. Qed.

(** Joining what is recorded. *)
Lemma record_same f b' b t : record_data f b (EvData f b' :: t) = EvData f (b' ++ b) :: t.
Proof. cbn. rewrite eqb_refl. reflexivity. Qed.

Definition head_not (f : data_for) (t : trace) : Prop := match t with EvData g _ :: _ => g <> f | _ => True end.

Lemma record_new f b t : head_not f t -> record_data f b t = EvData f b :: t.
Proof.
  destruct t as [|[g b'|] t]; intros H; [reflexivity | | reflexivity]. cbn.
  unfold eqb. rewrite bool_decide_false; [reflexivity | cbn in H; congruence].
Qed.

(** Running the parser on one known character; [t] may be any trace. *)
Ltac count_step :=
  rewrite count_small by (cbv beta iota delta [pr hp_nread nadd HTTP_MAX_HEADER_SIZE put_ch put_pr entry] in *; lia).
Ltac run_cbv := cbv -[COUNT_HEADER_SIZE nadd exec_loop reexecute record_data].
Ltac run_char :=
  rewrite execute_one by reflexivity;
  cbv [entry exec_char entry_marks initial_ctx put_ch put_url_mark put_header_field_mark put_header_value_mark p_state
    PARSING_HEADER hp_state hp_lenient_http_headers pr app p ch header_field_mark header_value_mark url_mark body_mark status_mark];
  repeat (count_step; cbv [upd_pr put_pr app p_state p ch header_field_mark header_value_mark url_mark body_mark status_mark
    pr set_nread hp_type hp_flags hp_state hp_header_state hp_index hp_lenient_http_headers hp_nread hp_content_length
    hp_http_major hp_http_minor hp_status_code hp_method hp_http_errno hp_upgrade]);
  unfold REEXECUTE_FUEL; repeat (rewrite reexecute_S; run_cbv; repeat (count_step; run_cbv));
  cbv -[COUNT_HEADER_SIZE nadd record_data].

(** * The stretches of a request *)

Definition req_parser (me : http_method) (fl : Z) (s : state) (hs : header_states) (ix n cl ma mi : Z) : http_parser :=
  mk_http_parser HTTP_REQUEST fl s hs ix false n cl ma mi 0 me HPE_OK false.
Notation post_parser := (req_parser HTTP_POST).

(** A run over [d] that keeps the count of header bytes within two per
    character. *)
Definition quiet_run (n : Z) (x : Z -> http_parser) (t : trace) (d : bytes) (x' : Z -> http_parser) (t' : trace) : Prop :=
  exists m, n <= m <= n + 2 * zlen d /\ quiet_steps (x n) t d (x' m) t'.

Lemma quiet_run_app n x t d1 d2 x1 t1 x' t' :
  quiet_run n x t d1 x1 t1 -> (forall m, n <= m <= n + 2 * zlen d1 -> quiet_run m x1 t1 d2 x' t') ->
  quiet_run n x t (d1 ++ d2) x' t'.
Proof.
  intros (m & Hm & H1) H2. destruct (H2 m Hm) as (m' & Hm' & H3). exists m'.
  rewrite zlen_app. split; [lia | eauto using quiet_steps_app].
Qed.

Lemma quiet_run_nil n x t : quiet_run n x t [] x t.
Proof. exists n. split; [unfold zlen; cbn; lia | constructor]. Qed.

Ltac quiet_leaf := cbn [quiet forallb ev_quiet andb]; first [assumption | reflexivity].
(** A known text, the joins of the trace left to [rec]. *)
Ltac run_text rec :=
  repeat (eapply steps_cons; [run_char; rec; reflexivity | reflexivity | reflexivity | quiet_leaf |]); apply steps_nil.
Ltac known_text rec := eexists; split; [|run_text rec]; unfold nadd; split; [lia|]; unfold zlen; cbn; lia.
Ltac joins := rewrite ?record_same, ?app_nil_r.

(** From the start of a request to its path. *)
Lemma run_method n fl hs ix cl ma mi me : 0 <= n <= 1000 ->
  exists y, quiet_run n (fun n => mk_http_parser HTTP_REQUEST fl s_start_req hs ix false n cl ma mi 0 me HPE_OK false) []
    (bs "POST /") (fun n => post_parser 0 s_req_path hs 5 n ULLONG_MAX ma mi) [EvData For_url (bs "/"); EvNotify MessageBegin y].
Proof.
  intros Hn. eexists. known_text ltac:(cbn [record_data]).
Qed.

(** A stretch of characters of one class, in a state that does not change. *)
Lemma quiet_run_class (P : ascii -> bool) (x : Z -> http_parser) (t : bytes -> trace) :
  (forall n u c, 0 <= n -> n + 2 <= HTTP_MAX_HEADER_SIZE -> P c = true ->
     quiet (t u) = true -> quiet_run n x (t u) [c] x (t (u ++ [c]))) ->
  forall d n u, forallb P d = true -> 0 <= n -> n + 2 * zlen d <= HTTP_MAX_HEADER_SIZE ->
    (forall u, quiet (t u) = true) -> quiet_run n x (t u) d x (t (u ++ d)).
Proof.
  intros Hstep d. induction d as [|c d IH]; intros n u Hd Hn Hb Hq.
  - rewrite app_nil_r. apply quiet_run_nil.
  - cbn in Hd. apply andb_true_iff in Hd as [Hc Hd]. rewrite zlen_cons in Hb. pose proof (zlen_nonneg d).
    change (c :: d) with ([c] ++ d). eapply quiet_run_app; [apply Hstep; auto; lia|].
    intros m Hm. rewrite app_assoc. apply IH; try assumption; unfold zlen in Hm; cbn in Hm; lia.
Qed.

(** Running the parser on a character known by its class: the tests on it are
    rewritten with [facts]. *)
Ltac sym_cbv := cbv -[COUNT_HEADER_SIZE nadd exec_loop reexecute record_data Ascii.eqb IS_URL_CHAR IS_HEADER_CHAR IS_NUM
  TOKEN is_nul start_header_state content_length_char digit LOWER].
Ltac run_sym facts :=
  rewrite execute_one by reflexivity;
  cbv [entry exec_char entry_marks initial_ctx put_ch put_url_mark put_header_field_mark put_header_value_mark p_state
    PARSING_HEADER hp_state hp_lenient_http_headers pr app p ch header_field_mark header_value_mark url_mark body_mark status_mark];
  repeat (count_step; cbv [upd_pr put_pr app p_state p ch header_field_mark header_value_mark url_mark body_mark status_mark
    pr set_nread hp_type hp_flags hp_state hp_header_state hp_index hp_lenient_http_headers hp_nread hp_content_length
    hp_http_major hp_http_minor hp_status_code hp_method hp_http_errno hp_upgrade]);
  unfold REEXECUTE_FUEL;
  repeat (rewrite reexecute_S; sym_cbv; repeat (progress facts; sym_cbv); repeat (count_step; sym_cbv; repeat (progress facts; sym_cbv)));
  cbv -[COUNT_HEADER_SIZE nadd record_data Ascii.eqb digit].
Ltac sym_text facts rec :=
  eapply steps_cons; [run_sym facts; rec; reflexivity | reflexivity | reflexivity | quiet_leaf |]; apply steps_nil.
Ltac known_char facts rec := eexists; split; [|sym_text facts rec]; unfold nadd; split; [lia|]; unfold zlen; cbn; lia.

Lemma path_char_facts c : path_char c = true ->
  (c =c " ")%char = false /\ (c =c CR)%char = false /\ (c =c LF)%char = false /\ (c =c "009")%char = false /\
  (c =c "012")%char = false /\ (c =c "?")%char = false /\ (c =c "#")%char = false /\ IS_URL_CHAR c = true.
Proof.
  intros Hc. assert (path_char c && negb (negb (c =c " ")%char && negb (c =c CR)%char && negb (c =c LF)%char
    && negb (c =c "009")%char && negb (c =c "012")%char) = false) as H.
  { apply negb_true_iff. revert c Hc. intros c _. revert c. apply forall_ascii. vm_compute. reflexivity. }
  rewrite Hc in H. cbn [andb] in H. apply negb_false_iff in H. unfold path_char in Hc.
  repeat match goal with H : _ && _ = true |- _ => apply andb_true_iff in H as [H ?] end.
  rewrite !negb_true_iff in *. auto 10.
Qed.

Section Method.
Variable me : http_method.

Lemma run_path path n u t hs ix ma mi :
  forallb path_char path = true -> 0 <= n -> n + 2 * zlen path <= HTTP_MAX_HEADER_SIZE -> quiet t = true ->
  quiet_run n (fun n => req_parser me 0 s_req_path hs ix n ULLONG_MAX ma mi) (EvData For_url u :: t) path
    (fun n => req_parser me 0 s_req_path hs ix n ULLONG_MAX ma mi) (EvData For_url (u ++ path) :: t).
Proof.
  intros Hp Hn Hb Hq.
  apply (quiet_run_class path_char _ (fun u => EvData For_url u :: t)); try assumption; [|intros; exact Hq].
  clear. intros n u c Hn Hb Hc Hq. cbn in Hq. unfold HTTP_MAX_HEADER_SIZE in Hb.
  destruct (path_char_facts c Hc) as (H1 & H2 & H3 & H4 & H5 & H6 & H7 & H8). clear Hc. unfold CR, LF in *.
  known_char ltac:(rewrite ?H1, ?H2, ?H3, ?H4, ?H5, ?H6, ?H7, ?H8) joins.
Qed.

Lemma run_version n u t hs ix ma mi :
  0 <= n -> n + 22 <= HTTP_MAX_HEADER_SIZE -> quiet t = true ->
  quiet_run n (fun n => req_parser me 0 s_req_path hs ix n ULLONG_MAX ma mi) (EvData For_url u :: t) (bs " HTTP/1.1" ++ http_crlf)
    (fun n => req_parser me 0 s_header_field_start hs ix n ULLONG_MAX 1 1) (EvData For_url u :: t).
Proof. intros Hn Hb Hq. unfold HTTP_MAX_HEADER_SIZE in Hb. known_text joins. Qed.

(** The state between two header lines: after the request line, or after a
    line whose header left no flag to set. *)
Definition between (fl : Z) (cl : Z) (x : Z -> http_parser) : Prop :=
  exists s hs ix, x = (fun n => req_parser me fl s hs ix n cl 1 1) /\ (fl = 0 \/ fl = F_CONTENTLENGTH) /\
    (s = s_header_field_start \/ s = s_header_value_lws /\ (hs = h_general \/ hs = h_content_length)).

Ltac open_between H :=
  let s := fresh "s" in let hs := fresh "hs" in let ix := fresh "ix" in
  destruct H as (s & hs & ix & -> & [-> | ->] & [-> | [-> [-> | ->]]]).

Definition no_field (t : trace) : Prop := head_not For_header_field t.

Lemma run_name_start n x t fl cl c :
  between fl cl x -> 0 <= n -> n + 2 <= HTTP_MAX_HEADER_SIZE -> plain_start c = true -> no_field t -> quiet t = true ->
  quiet_run n x t [c] (fun n => req_parser me fl s_header_field h_general 0 n cl 1 1) (EvData For_header_field [c] :: t).
Proof.
  intros Hx Hn Hb Hc Ht Hq. unfold HTTP_MAX_HEADER_SIZE in Hb. unfold plain_start, eqb in Hc.
  apply andb_true_iff in Hc as [H1%negb_true_iff H2%bool_decide_eq_true].
  assert ((c =c CR)%char = false /\ (c =c LF)%char = false /\ (c =c " ")%char = false /\ (c =c "009")%char = false)
    as (H3 & H4 & H5 & H6).
  { repeat split; match goal with |- (c =c ?d)%char = false => destruct (Ascii.eqb_spec c d) end;
      try reflexivity; subst c; vm_compute in H1; discriminate. }
  unfold CR, LF in *.
  open_between Hx; known_char ltac:(rewrite ?H1, ?H2, ?H3, ?H4, ?H5, ?H6) ltac:(rewrite ?record_new by exact Ht).
Qed.

Lemma run_name name n u t fl cl :
  forallb name_char name = true -> 0 <= n -> n + 2 * zlen name <= HTTP_MAX_HEADER_SIZE -> quiet t = true ->
  quiet_run n (fun n => req_parser me fl s_header_field h_general 0 n cl 1 1) (EvData For_header_field u :: t) name
    (fun n => req_parser me fl s_header_field h_general 0 n cl 1 1) (EvData For_header_field (u ++ name) :: t).
Proof.
  intros Hp Hn Hb Hq.
  apply (quiet_run_class name_char _ (fun u => EvData For_header_field u :: t)); try assumption; [|intros; exact Hq].
  clear. intros n u c Hn Hb Hc%negb_true_iff Hq. cbn in Hq. unfold HTTP_MAX_HEADER_SIZE in Hb.
  known_char ltac:(rewrite ?Hc) joins.
Qed.

Lemma run_colon n u t fl cl :
  0 <= n -> n + 4 <= HTTP_MAX_HEADER_SIZE -> quiet t = true ->
  quiet_run n (fun n => req_parser me fl s_header_field h_general 0 n cl 1 1) (EvData For_header_field u :: t) (bs ": ")
    (fun n => req_parser me fl s_header_value_discard_ws h_general 0 n cl 1 1) (EvData For_header_field u :: t).
Proof. intros Hn Hb Hq. unfold HTTP_MAX_HEADER_SIZE in Hb. known_text joins. Qed.

Lemma value_start_facts c : value_start c = true ->
  (c =c " ")%char = false /\ (c =c "009")%char = false /\ (c =c CR)%char = false /\ (c =c LF)%char = false /\ IS_HEADER_CHAR c = true.
Proof.
  unfold value_start, value_char. intros H.
  repeat match goal with H : _ && _ = true |- _ => apply andb_true_iff in H as [H ?] end.
  rewrite !negb_true_iff in *. auto.
Qed.

Lemma run_value_start n f t fl cl c :
  0 <= n -> n + 2 <= HTTP_MAX_HEADER_SIZE -> value_start c = true -> quiet t = true ->
  quiet_run n (fun n => req_parser me fl s_header_value_discard_ws h_general 0 n cl 1 1) (EvData For_header_field f :: t) [c]
    (fun n => req_parser me fl s_header_value h_general 0 n cl 1 1) (EvData For_header_value [c] :: EvData For_header_field f :: t).
Proof.
  intros Hn Hb Hc Hq. unfold HTTP_MAX_HEADER_SIZE in Hb. destruct (value_start_facts c Hc) as (H1 & H2 & H3 & H4 & H5).
  unfold CR, LF in *. known_char ltac:(rewrite ?H1, ?H2, ?H3, ?H4, ?H5) ltac:(rewrite ?record_new by discriminate).
Qed.

Lemma run_value value n u t fl cl :
  forallb value_char value = true -> 0 <= n -> n + 2 * zlen value <= HTTP_MAX_HEADER_SIZE -> quiet t = true ->
  quiet_run n (fun n => req_parser me fl s_header_value h_general 0 n cl 1 1) (EvData For_header_value u :: t) value
    (fun n => req_parser me fl s_header_value h_general 0 n cl 1 1) (EvData For_header_value (u ++ value) :: t).
Proof.
  intros Hp Hn Hb Hq.
  apply (quiet_run_class value_char _ (fun u => EvData For_header_value u :: t)); try assumption; [|intros; exact Hq].
  clear. intros n u c Hn Hb Hc Hq. cbn in Hq. unfold HTTP_MAX_HEADER_SIZE in Hb.
  unfold value_char in Hc. apply andb_true_iff in Hc as [[H1 H2%negb_true_iff]%andb_true_iff H3%negb_true_iff].
  assert ((CR =c c)%char = false /\ (LF =c c)%char = false) as [H4 H5] by (rewrite !(Ascii.eqb_sym _ c); auto).
  unfold CR, LF in *. known_char ltac:(rewrite ?H1, ?H2, ?H3, ?H4, ?H5) joins.
Qed.

(** The end of a header line whose value is [v]. *)
Lemma run_line_end n v t fl cl hs ix :
  fl = 0 \/ fl = F_CONTENTLENGTH -> hs = h_general \/ hs = h_content_length ->
  0 <= n -> n + 4 <= HTTP_MAX_HEADER_SIZE -> quiet t = true ->
  quiet_run n (fun n => req_parser me fl s_header_value hs ix n cl 1 1) (EvData For_header_value v :: t) http_crlf
    (fun n => req_parser me fl s_header_value_lws hs ix n cl 1 1) (EvData For_header_value v :: t).
Proof.
  intros Hfl Hhs Hn Hb Hq. unfold HTTP_MAX_HEADER_SIZE in Hb.
  destruct Hfl as [-> | ->], Hhs as [-> | ->]; known_text joins.
Qed.

(** ** Header lines *)

Definition header_events (h : bytes * bytes) : trace := [EvData For_header_value (snd h); EvData For_header_field (fst h)].

Lemma zlen_crlf : zlen http_crlf = 2.
Proof. reflexivity. Qed.
Lemma zlen_colon : zlen (bs ": ") = 2.
Proof. reflexivity. Qed.

Ltac run_bound := rewrite ?zlen_cons, ?zlen_app, ?zlen_crlf, ?zlen_colon in *; unfold zlen, HTTP_MAX_HEADER_SIZE in *; cbn [length List.app] in *; try lia.

Lemma run_header_line h n x t fl cl :
  between fl cl x -> header_ok h -> 0 <= n -> n + 2 * zlen (header_line h) <= HTTP_MAX_HEADER_SIZE ->
  no_field t -> quiet t = true ->
  exists x', between fl cl x' /\ quiet_run n x t (header_line h) x' (header_events h ++ t).
Proof.
  intros Hx Hh Hn Hb Ht Hq. pose proof Hx as (s0 & hs0 & ix0 & _ & Hfl & _).
  destruct h as [[|c name] [|v value]]; try contradiction. destruct Hh as (H1 & H2 & H3 & H4).
  exists (fun n => req_parser me fl s_header_value_lws h_general 0 n cl 1 1).
  split; [do 3 eexists; split; [reflexivity|]; auto|].
  unfold header_line, header_events in *. cbn [fst snd List.app] in *.
  change (c :: name ++ bs ": " ++ v :: value ++ http_crlf) with ([c] ++ name ++ bs ": " ++ [v] ++ value ++ http_crlf) in *.
  rewrite !zlen_app in Hb. pose proof (zlen_nonneg name). pose proof (zlen_nonneg value).
  eapply quiet_run_app; [apply (run_name_start n x t fl cl); auto; run_bound|]. intros n1 Hn1.
  eapply quiet_run_app; [apply run_name; auto; run_bound|]. intros n2 Hn2.
  eapply quiet_run_app; [apply run_colon; auto; run_bound|]. intros n3 Hn3.
  eapply quiet_run_app; [apply run_value_start; auto; run_bound|]. intros n4 Hn4.
  eapply quiet_run_app; [apply run_value; auto; run_bound|]. intros n5 Hn5.
  apply run_line_end; auto; run_bound.
Qed.

Lemma run_header_lines hs : forall n x t fl cl,
  between fl cl x -> Forall header_ok hs -> 0 <= n -> n + 2 * zlen (header_lines hs) <= HTTP_MAX_HEADER_SIZE ->
  no_field t -> quiet t = true ->
  exists x', between fl cl x' /\ quiet_run n x t (header_lines hs) x' (concat (map header_events (rev hs)) ++ t).
Proof.
  induction hs as [|h hs IH]; intros n x t fl cl Hx Hh Hn Hb Ht Hq.
  - exists x. split; [exact Hx | apply quiet_run_nil].
  - inversion Hh as [|? ? Hh1 Hh2]; subst. unfold header_lines in *. cbn [map concat] in *. rewrite zlen_app in Hb.
    pose proof (zlen_nonneg (concat (map header_line hs))). pose proof (zlen_nonneg (header_line h)).
    destruct (run_header_line h n x t fl cl) as (x1 & Hx1 & Hr1); auto; [lia|].
    assert (forall m, n <= m <= n + 2 * zlen (header_line h) -> exists x', between fl cl x' /\
      quiet_run m x1 (header_events h ++ t) (concat (map header_line hs)) x' (concat (map header_events (rev hs)) ++ header_events h ++ t)) as Hnext.
    { intros m Hm. apply IH; auto; [lia | lia | discriminate]. }
    destruct Hr1 as (m & Hm & Hs1). destruct (Hnext m Hm) as (x' & Hx' & m' & Hm' & Hs2).
    exists x'. split; [exact Hx'|]. exists m'. rewrite zlen_app. split; [lia|].
    cbn [rev]. rewrite map_app, concat_app, <- app_assoc. cbn [map concat]. rewrite app_nil_r.
    eapply quiet_steps_app; eassumption.
Qed.

End Method.
Notation post_between := (between HTTP_POST).

(** ** The length *)

Lemma run_length_name n x t :
  post_between 0 ULLONG_MAX x -> 0 <= n -> n + 32 <= HTTP_MAX_HEADER_SIZE -> no_field t -> quiet t = true ->
  exists ix, quiet_run n x t (bs "Content-Length: ")
    (fun n => post_parser 0 s_header_value_discard_ws h_content_length ix n ULLONG_MAX 1 1)
    (EvData For_header_field (bs "Content-Length") :: t).
Proof.
  intros (s & hs & ix & -> & _ & Hs) Hn Hb Ht Hq. unfold HTTP_MAX_HEADER_SIZE in Hb. eexists.
  destruct Hs as [-> | [-> [-> | ->]]]; known_text ltac:(rewrite ?record_new by exact Ht; rewrite ?record_same, ?app_nil_r; cbn [List.app]).
Qed.

Lemma digit_facts c : IS_NUM c = true ->
  (c =c " ")%char = false /\ (c =c "009")%char = false /\ (c =c CR)%char = false /\ (c =c LF)%char = false /\
  IS_HEADER_CHAR c = true /\ 0 <= digit c <= 9.
Proof.
  intros Hc. assert (IS_NUM c && negb (negb (c =c " ")%char && negb (c =c "009")%char && negb (c =c CR)%char
    && negb (c =c LF)%char && IS_HEADER_CHAR c && (0 <=? digit c) && (digit c <=? 9)) = false) as H.
  { apply negb_true_iff. revert Hc. intros _. revert c. apply forall_ascii. vm_compute. reflexivity. }
  rewrite Hc in H. cbn [andb] in H. apply negb_false_iff in H.
  repeat match goal with H : _ && _ = true |- _ => apply andb_true_iff in H as [H ?] end.
  rewrite !negb_true_iff in *. split_and!; auto; lia.
Qed.

Lemma run_first_digit n t f ix c :
  0 <= n -> n + 2 <= HTTP_MAX_HEADER_SIZE -> IS_NUM c = true -> quiet t = true ->
  quiet_run n (fun n => post_parser 0 s_header_value_discard_ws h_content_length ix n ULLONG_MAX 1 1)
    (EvData For_header_field f :: t) [c]
    (fun n => post_parser F_CONTENTLENGTH s_header_value h_content_length 0 n (digit c) 1 1)
    (EvData For_header_value [c] :: EvData For_header_field f :: t).
Proof.
  intros Hn Hb Hc Hq. unfold HTTP_MAX_HEADER_SIZE in Hb. destruct (digit_facts c Hc) as (H1 & H2 & H3 & H4 & H5 & _).
  unfold CR, LF in *. known_char ltac:(rewrite ?H1, ?H2, ?H3, ?H4, ?H5, ?Hc) ltac:(rewrite ?record_new by discriminate).
Qed.

Lemma content_length_step c x : IS_NUM c = true -> 0 <= hp_content_length x < 2 ^ 32 ->
  content_length_char c x = inl (set_content_length (hp_content_length x * 10 + digit c) x).
Proof.
  intros Hc Hx. destruct (digit_facts c Hc) as (H1 & _ & _ & _ & _ & Hd). unfold content_length_char.
  rewrite H1, Hc. cbn [negb]. rewrite !u64_small by (rewrite ?u64_small; lia).
  destruct (Z.ltb_spec ((ULLONG_MAX - 10) / 10) (hp_content_length x)) as [Hlt|_]; [|reflexivity].
  change ((ULLONG_MAX - 10) / 10) with 1844674407370955160 in Hlt. lia.
Qed.

Lemma run_digit n u t v c :
  0 <= n -> n + 2 <= HTTP_MAX_HEADER_SIZE -> IS_NUM c = true -> 0 <= v < 2 ^ 32 -> quiet t = true ->
  quiet_run n (fun n => post_parser F_CONTENTLENGTH s_header_value h_content_length 0 n v 1 1) (EvData For_header_value u :: t) [c]
    (fun n => post_parser F_CONTENTLENGTH s_header_value h_content_length 0 n (v * 10 + digit c) 1 1)
    (EvData For_header_value (u ++ [c]) :: t).
Proof.
  intros Hn Hb Hc Hv Hq. unfold HTTP_MAX_HEADER_SIZE in Hb. destruct (digit_facts c Hc) as (H1 & H2 & H3 & H4 & H5 & _).
  unfold CR, LF in *.
  known_char ltac:(rewrite ?content_length_step by assumption; rewrite ?H1, ?H2, ?H3, ?H4, ?H5, ?Hc) joins.
Qed.

Lemma fold_digits ds v : forallb IS_NUM ds = true -> 0 <= v -> v <= fold_left (fun v d => v * 10 + digit d) ds v.
Proof.
  revert v. induction ds as [|d ds IH]; intros v Hds Hv; cbn; [lia|]. cbn in Hds. apply andb_true_iff in Hds as [Hd Hds].
  destruct (digit_facts d Hd) as (_ & _ & _ & _ & _ & Hr). specialize (IH (v * 10 + digit d) Hds). lia.
Qed.

Lemma run_digits ds : forall n u t v,
  forallb IS_NUM ds = true -> 0 <= n -> n + 2 * zlen ds <= HTTP_MAX_HEADER_SIZE -> 0 <= v ->
  fold_left (fun v d => v * 10 + digit d) ds v < 2 ^ 32 -> quiet t = true ->
  quiet_run n (fun n => post_parser F_CONTENTLENGTH s_header_value h_content_length 0 n v 1 1) (EvData For_header_value u :: t) ds
    (fun n => post_parser F_CONTENTLENGTH s_header_value h_content_length 0 n (fold_left (fun v d => v * 10 + digit d) ds v) 1 1)
    (EvData For_header_value (u ++ ds) :: t).
Proof.
  induction ds as [|d ds IH]; intros n u t v Hds Hn Hb Hv Hsm Hq.
  - rewrite app_nil_r. apply quiet_run_nil.
  - cbn [forallb fold_left] in *. apply andb_true_iff in Hds as [Hd Hds]. rewrite zlen_cons in Hb. pose proof (zlen_nonneg ds).
    destruct (digit_facts d Hd) as (_ & _ & _ & _ & _ & Hr).
    pose proof (fold_digits ds (v * 10 + digit d) Hds ltac:(lia)).
    change (d :: ds) with ([d] ++ ds). eapply quiet_run_app; [apply run_digit; auto; lia|].
    intros m Hm. rewrite app_assoc. unfold zlen in Hm; cbn in Hm. apply IH; auto; lia.
Qed.

Lemma run_length n x t ds :
  post_between 0 ULLONG_MAX x -> forallb IS_NUM ds = true -> ds <> [] -> 0 < decimal_value ds < 2 ^ 32 ->
  0 <= n -> n + 2 * zlen (bs "Content-Length: " ++ ds ++ http_crlf) <= HTTP_MAX_HEADER_SIZE -> no_field t -> quiet t = true ->
  exists x', post_between F_CONTENTLENGTH (decimal_value ds) x' /\
    quiet_run n x t (bs "Content-Length: " ++ ds ++ http_crlf) x' (header_events (bs "Content-Length", ds) ++ t).
Proof.
  intros Hx Hds Hne Hv Hn Hb Ht Hq. destruct ds as [|d ds]; [contradiction|]. unfold decimal_value in *. cbn [fold_left] in *.
  change (0 * 10 + digit d) with (digit d) in *.
  cbn in Hds. apply andb_true_iff in Hds as [Hd Hds]. destruct (digit_facts d Hd) as (_ & _ & _ & _ & _ & Hr).
  exists (fun n => post_parser F_CONTENTLENGTH s_header_value_lws h_content_length 0 n (fold_left (fun v d => v * 10 + digit d) ds (digit d)) 1 1).
  split; [do 3 eexists; split; [reflexivity|]; auto|].
  rewrite !zlen_app, zlen_cons, zlen_crlf in Hb. change (zlen (bs "Content-Length: ")) with 16 in Hb. pose proof (zlen_nonneg ds).
  change (bs "Content-Length: " ++ (d :: ds) ++ http_crlf) with (bs "Content-Length: " ++ [d] ++ ds ++ http_crlf).
  destruct (run_length_name n x t) as (ix & Hname); auto; [lia|].
  eapply quiet_run_app; [exact Hname|]. intros n1 Hn1. change (zlen (bs "Content-Length: ")) with 16 in Hn1.
  eapply quiet_run_app; [apply run_first_digit; auto; lia|]. intros n2 Hn2. change (zlen [d]) with 1 in Hn2.
  eapply quiet_run_app; [apply (run_digits ds n2 [d]); auto; lia|]. intros n3 Hn3.
  apply run_line_end; auto; lia.
Qed.

(** ** The end of the headers *)

Ltac end_cbv := cbv -[COUNT_HEADER_SIZE nadd exec_loop reexecute record_data Pos.eqb].
Ltac run_end facts :=
  rewrite execute_one by reflexivity;
  cbv [entry exec_char entry_marks initial_ctx put_ch put_url_mark put_header_field_mark put_header_value_mark p_state
    PARSING_HEADER hp_state hp_lenient_http_headers pr app p ch header_field_mark header_value_mark url_mark body_mark status_mark];
  repeat (count_step; cbv [upd_pr put_pr app p_state p ch header_field_mark header_value_mark url_mark body_mark status_mark
    pr set_nread hp_type hp_flags hp_state hp_header_state hp_index hp_lenient_http_headers hp_nread hp_content_length
    hp_http_major hp_http_minor hp_status_code hp_method hp_http_errno hp_upgrade]);
  unfold REEXECUTE_FUEL;
  repeat (rewrite reexecute_S; end_cbv; repeat (progress facts; end_cbv); repeat (count_step; end_cbv; repeat (progress facts; end_cbv)));
  cbv -[COUNT_HEADER_SIZE nadd record_data Pos.eqb]; rewrite ?Pos.eqb_refl; cbv -[COUNT_HEADER_SIZE nadd record_data Pos.eqb].

Lemma run_headers_end n x t cl :
  post_between F_CONTENTLENGTH cl x -> 0 < cl < 2 ^ 32 -> 0 <= n -> n + 4 <= HTTP_MAX_HEADER_SIZE -> quiet t = true ->
  exists y hs ix, hp_method y = HTTP_POST /\ hp_content_length y = cl /\
    quiet_run n x t http_crlf (fun _ => post_parser F_CONTENTLENGTH s_body_identity hs ix 0 cl 1 1) (EvNotify HeadersComplete y :: t).
Proof.
  intros (s & hs & ix & -> & _ & Hs) Hcl Hn Hb Hq. unfold HTTP_MAX_HEADER_SIZE in Hb.
  destruct cl as [|q|q]; try lia.
  assert (Pos.eqb q 18446744073709551615 = false) as Hmax by (apply Pos.eqb_neq; lia).
  destruct Hs as [-> | [-> [-> | ->]]]; do 3 eexists; (split; [|split]; cycle 2;
    [exists n; split; [unfold zlen; cbn; lia|];
     eapply steps_cons; [run_char; reflexivity | reflexivity | reflexivity | quiet_leaf |];
     eapply steps_cons; [run_end ltac:(rewrite ?Hmax, ?Pos.eqb_refl); reflexivity | reflexivity | reflexivity | |apply steps_nil];
     cbn [quiet forallb ev_quiet andb hp_method hp_content_length]; exact Hq
    | reflexivity | reflexivity]).
Qed.

(** ** The body *)

Ltac body_cbv := cbv -[exec_loop reexecute record_data Z.eqb Z.min Z.sub u64 ULLONG_MAX].

(** One byte of the body: the rest is [cl - 1], which may be zero. *)
Lemma body_char ty fl hs ix cl ma mi sc me t c : 1 < cl < 2 ^ 32 ->
  http_parser_execute recorder (mk_http_parser ty fl s_body_identity hs ix false 0 cl ma mi sc me HPE_OK false) t [c] =
    Returned (mk_http_parser ty fl s_body_identity hs ix false 0 (cl - 1) ma mi sc me HPE_OK false) (record_data For_body [c] t) 1.
Proof.
  intros Hcl.
  assert ((cl =? 0) = false) as H1 by lia. assert ((cl =? ULLONG_MAX) = false) as H2 by (unfold ULLONG_MAX; lia).
  assert (Z.min cl (u64 (1 - 0)) = 1) as H3 by (rewrite u64_small by lia; lia).
  assert (u64 (cl - 1) = cl - 1) as H4 by (apply u64_small; lia).
  assert ((cl - 1 =? 0) = false) as H5 by lia.
  rewrite execute_one by reflexivity. unfold exec_char, entry, entry_marks, initial_ctx.
  cbn [hp_state p_state put_ch PARSING_HEADER]. unfold REEXECUTE_FUEL. rewrite reexecute_S.
  body_cbv. rewrite H1, H2, H3, H4, H5. clear. generalize (cl - 1). intros cl'. cbv -[record_data]. reflexivity.
Qed.

(** The last byte completes the message. *)
Lemma body_last hs ix t c : exists y,
  http_parser_execute recorder (post_parser F_CONTENTLENGTH s_body_identity hs ix 0 1 1 1) t [c] =
    Returned (post_parser F_CONTENTLENGTH s_start_req hs ix 0 0 1 1) (EvNotify MessageComplete y :: record_data For_body [c] t) 1.
Proof. eexists. run_char. reflexivity. Qed.

(** A body but for its last byte. *)
Lemma run_body body : forall fl hs ix cl t,
  zlen body < cl < 2 ^ 32 -> quiet t = true ->
  quiet_steps (post_parser fl s_body_identity hs ix 0 cl 1 1) t body
    (post_parser fl s_body_identity hs ix 0 (cl - zlen body) 1 1)
    (match body with [] => t | _ => record_data For_body body t end).
Proof.
  induction body as [|c body IH]; intros fl hs ix cl t Hcl Hq.
  - change (zlen (@nil ascii)) with 0. rewrite Z.sub_0_r. constructor.
  - rewrite zlen_cons in *. pose proof (zlen_nonneg body).
    assert (quiet (record_data For_body [c] t) = true) as Hq1.
    { destruct t as [|[g b'|] t]; cbn; try exact Hq. destruct (eqb For_body g); exact Hq. }
    eapply steps_cons; [apply body_char; lia | reflexivity | reflexivity | exact Hq1|].
    specialize (IH fl hs ix (cl - 1) (record_data For_body [c] t) ltac:(lia) Hq1).
    replace (cl - (1 + zlen body)) with (cl - 1 - zlen body) by lia.
    destruct body as [|c' body]; [exact IH|]. change (c :: c' :: body) with ([c] ++ c' :: body).
    rewrite record_data_app. exact IH.
Qed.

(** * The whole request *)

Record post_ok (path : bytes) (hs1 : list (bytes * bytes)) (len : bytes) (hs2 : list (bytes * bytes)) (body : bytes) : Prop := {
  post_path : forallb path_char path = true;
  post_hs1 : Forall header_ok hs1;
  post_hs2 : Forall header_ok hs2;
  post_len : forallb IS_NUM len = true /\ len <> [] /\ decimal_value len = zlen body;
  post_body : body <> [];
  post_small : zlen (post_request path hs1 len hs2 body) < 2 ^ 31;
  post_head_small : 2 * zlen (post_head path hs1 len hs2) <= HTTP_MAX_HEADER_SIZE
}.

(** A parser between requests: as [http_parser_init] makes it, or as it is
    after a request with a body. *)
Definition awaits_request (x : http_parser) : Prop :=
  hp_type x = HTTP_REQUEST /\ hp_state x = s_start_req /\ hp_lenient_http_headers x = false /\ hp_nread x = 0 /\
  hp_status_code x = 0 /\ hp_http_errno x = HPE_OK /\ hp_upgrade x = false.

Definition header_trace (hs : list (bytes * bytes)) : trace := concat (map header_events (rev hs)).

Lemma header_trace_quiet hs t : quiet t = true -> quiet (header_trace hs ++ t) = true.
Proof.
  intros Hq. unfold quiet. rewrite forallb_app. apply andb_true_iff. split; [|exact Hq].
  unfold header_trace. induction (rev hs) as [|h l IH]; [reflexivity | exact IH].
Qed.

Lemma header_trace_no_field hs t : no_field t -> no_field (header_trace hs ++ t).
Proof. intros Ht. unfold header_trace. destruct (rev hs) as [|h l]; [exact Ht | cbn; discriminate]. Qed.

(** What is reported of a request, up to the end of its headers. *)
Definition head_trace (path : bytes) (hs1 : list (bytes * bytes)) (len : bytes) (hs2 : list (bytes * bytes)) (y1 y2 : http_parser) : trace :=
  EvNotify HeadersComplete y2 :: header_trace hs2 ++ header_events (bs "Content-Length", len) ++ header_trace hs1 ++
  [EvData For_url (bs "/" ++ path); EvNotify MessageBegin y1].

Lemma run_post_head path hs1 len hs2 body x :
  post_ok path hs1 len hs2 body -> awaits_request x ->
  exists y1 y2 hs ix, hp_method y2 = HTTP_POST /\ hp_content_length y2 = zlen body /\
    quiet_steps x [] (post_head path hs1 len hs2) (post_parser F_CONTENTLENGTH s_body_identity hs ix 0 (zlen body) 1 1)
      (head_trace path hs1 len hs2 y1 y2).
Proof.
  intros [Hp Hh1 Hh2 (Hd & Hne & Hv) Hbody Hsm Hb] (Ht & Hs & Hl & Hnr & Hsc & He & Hu).
  destruct x as [ty fl st hsx ixx ln nr clx ma mi sc me er up]. cbn in Ht, Hs, Hl, Hnr, Hsc, He, Hu. subst.
  assert (0 < zlen body < 2 ^ 31) as Hbl.
  { unfold post_request in Hsm. rewrite zlen_app in Hsm. pose proof (zlen_nonneg (post_head path hs1 len hs2)).
    destruct body; [contradiction|]. rewrite zlen_cons in *. pose proof (zlen_nonneg body). lia. }
  unfold post_head in Hb |- *. rewrite !zlen_app, zlen_crlf in Hb.
  change (zlen (bs "POST /")) with 6 in Hb. change (zlen (bs " HTTP/1.1")) with 9 in Hb. change (zlen (bs "Content-Length: ")) with 16 in Hb.
  pose proof (zlen_nonneg path). pose proof (zlen_nonneg len). pose proof (zlen_nonneg (header_lines hs1)). pose proof (zlen_nonneg (header_lines hs2)).
  destruct (run_method 0 fl hsx ixx clx ma mi me) as (y1 & m1 & Hm1 & R1); [lia|]. change (zlen (bs "POST /")) with 6 in Hm1.
  destruct (run_path HTTP_POST path m1 (bs "/") [EvNotify MessageBegin y1] hsx 5 ma mi) as (m2 & Hm2 & R2); auto; [lia | lia|].
  destruct (run_version HTTP_POST m2 (bs "/" ++ path) [EvNotify MessageBegin y1] hsx 5 ma mi) as (m3 & Hm3 & R3); auto; [lia | unfold HTTP_MAX_HEADER_SIZE in *; lia|].
  change (zlen (bs " HTTP/1.1" ++ http_crlf)) with 11 in Hm3.
  set (t0 := [EvData For_url (bs "/" ++ path); EvNotify MessageBegin y1]) in *.
  destruct (run_header_lines HTTP_POST hs1 m3 (fun n => post_parser 0 s_header_field_start hsx 5 n ULLONG_MAX 1 1) t0 0 ULLONG_MAX)
    as (x4 & Hx4 & m4 & Hm4 & R4); auto; [do 3 eexists; split; [reflexivity | auto] | lia | lia | discriminate |].
  fold (header_trace hs1) in R4.
  destruct (run_length m4 x4 (header_trace hs1 ++ t0) len Hx4 Hd Hne) as (x5 & Hx5 & m5 & Hm5 & R5);
    [lia | lia | rewrite !zlen_app, zlen_crlf; change (zlen (bs "Content-Length: ")) with 16; lia
    | apply header_trace_no_field; discriminate | apply header_trace_quiet; reflexivity |].
  rewrite !zlen_app, zlen_crlf in Hm5. change (zlen (bs "Content-Length: ")) with 16 in Hm5.
  set (t5 := header_events (bs "Content-Length", len) ++ header_trace hs1 ++ t0) in *.
  assert (quiet t5 = true) as Hq5 by (apply header_trace_quiet; reflexivity).
  destruct (run_header_lines HTTP_POST hs2 m5 x5 t5 F_CONTENTLENGTH (decimal_value len)) as (x6 & Hx6 & m6 & Hm6 & R6); auto; [lia | lia | discriminate|].
  fold (header_trace hs2) in R6.
  destruct (run_headers_end m6 x6 (header_trace hs2 ++ t5) (decimal_value len)) as (y2 & hs & ix & Hy1 & Hy2 & m7 & _ & R7); auto;
    [lia | lia | lia | apply header_trace_quiet, Hq5 |].
  exists y1, y2, hs, ix. rewrite <- Hv. split; [exact Hy1|]. split; [exact Hy2|].
  eapply quiet_steps_app; [exact R1|]. eapply quiet_steps_app; [exact R2|]. rewrite app_assoc.
  eapply quiet_steps_app; [exact R3|]. eapply quiet_steps_app; [exact R4|]. rewrite (app_assoc len), app_assoc.
  eapply quiet_steps_app; [exact R5|]. eapply quiet_steps_app; [exact R6 | exact R7].
Qed.

(** The bytes of a request one by one: nothing is complete before the last
    byte, and with it the whole message is. *)
Lemma run_post path hs1 len hs2 body x :
  post_ok path hs1 len hs2 body -> awaits_request x ->
  exists init c y1 y2 y3 x1 t1 x2, post_request path hs1 len hs2 body = init ++ [c] /\
    hp_method y2 = HTTP_POST /\ hp_content_length y2 = zlen body /\
    quiet_steps x [] init x1 t1 /\
    http_parser_execute recorder x1 t1 [c] =
      Returned x2 (EvNotify MessageComplete y3 :: EvData For_body body :: head_trace path hs1 len hs2 y1 y2) 1 /\
    awaits_request x2.
Proof.
  intros Hok Hx. destruct (run_post_head path hs1 len hs2 body x Hok Hx) as (y1 & y2 & hs & ix & Hm & Hc & Hr).
  destruct (exists_last (post_body _ _ _ _ _ Hok)) as (b & c & Hb).
  pose proof (post_small _ _ _ _ _ Hok) as Hsm. unfold post_request in *. rewrite zlen_app in Hsm. pose proof (zlen_nonneg (post_head path hs1 len hs2)).
  rewrite Hb, zlen_app in *. change (zlen [c]) with 1 in *. pose proof (zlen_nonneg b).
  assert (quiet (head_trace path hs1 len hs2 y1 y2) = true) as Hq.
  { unfold head_trace. cbn [quiet forallb ev_quiet]. rewrite Hm, Hc. unfold eqb. rewrite bool_decide_true by reflexivity.
    replace (zlen b + 1 =? 0) with false by lia. cbn [negb andb]. apply header_trace_quiet, (header_trace_quiet hs1). reflexivity. }
  pose proof (run_body b F_CONTENTLENGTH hs ix (zlen b + 1) _ ltac:(lia) Hq) as Hrb.
  replace (zlen b + 1 - zlen b) with 1 in Hrb by lia.
  destruct (body_last hs ix (match b with [] => head_trace path hs1 len hs2 y1 y2 | _ => record_data For_body b (head_trace path hs1 len hs2 y1 y2) end) c)
    as (y3 & Hlast).
  exists (post_head path hs1 len hs2 ++ b), c, y1, y2, y3. do 3 eexists.
  split; [rewrite app_assoc; reflexivity|]. split; [exact Hm|]. split; [exact Hc|].
  split; [eapply quiet_steps_app; eassumption|]. split.
  - etrans; [exact Hlast|]. f_equal. f_equal. destruct b as [|b0 b]; [reflexivity|]. rewrite <- record_data_app. reflexivity.
  - split_and!; reflexivity.
Qed.

(** * Properties *)


Definition sample_headers : list (bytes * bytes) := [(bs "Host", bs "example.org:80"); (bs "Accept", bs "*/*")].
Definition sample_post : bytes := post_request (bs "calc/add") sample_headers (bs "05") [] (bs "1+2=3").

Lemma sample_post_ok : post_ok (bs "calc/add") sample_headers (bs "05") [] (bs "1+2=3").
Proof. split; try (vm_compute; congruence); repeat constructor; vm_compute; congruence. Qed.

Lemma fresh_awaits : awaits_request fresh.
Proof. split_and!; reflexivity. Qed.

