(* ===== verification/HttpGet.v ===== *)
(** [GET] requests, from the bytes of the request to what the parser reports:
    any [GET] request with a well-formed path and any ordinary headers, in any
    pieces.  The stretches up to the end of the headers are those of
    [HttpPost]; the last byte of the headers ends the message. *)
From Stdlib Require Import ZArith Lia Bool List String Ascii.
From stdpp Require Import base list strings.
From S2P Require Import Prelude HttpChars HttpTypes HttpUrl HttpExec HttpExecSafe HttpRecord HttpCases HttpSafe HttpContract HttpStream HttpStreamByte HttpSegments HttpPost.

Definition get_request (path : bytes) (hs : list (bytes * bytes)) : bytes :=
  bs "GET /" ++ path ++ bs " HTTP/1.1" ++ http_crlf ++ header_lines hs ++ http_crlf.

Record get_ok (path : bytes) (hs : list (bytes * bytes)) : Prop := {
  get_path : forallb path_char path = true;
  get_hs : Forall header_ok hs;
  get_small : 2 * zlen (get_request path hs) <= HTTP_MAX_HEADER_SIZE
}.

(** * The stretches *)

Lemma run_get_method n fl hs ix cl ma mi me : 0 <= n <= 1000 ->
  exists y, quiet_run n (fun n => mk_http_parser HTTP_REQUEST fl s_start_req hs ix false n cl ma mi 0 me HPE_OK false) []
    (bs "GET /") (fun n => req_parser HTTP_GET 0 s_req_path hs 4 n ULLONG_MAX ma mi) [EvData For_url (bs "/"); EvNotify MessageBegin y].
Proof. intros Hn. eexists. known_text ltac:(cbn [record_data]). Qed.

(** The CR that ends the headers. *)
Lemma run_get_end n x t :
  between HTTP_GET 0 ULLONG_MAX x -> 0 <= n -> n + 4 <= HTTP_MAX_HEADER_SIZE -> quiet t = true ->
  exists hs ix, quiet_run n x t [CR] (fun n => req_parser HTTP_GET 0 s_headers_almost_done hs ix n ULLONG_MAX 1 1) t.
Proof.
  intros (s & hs & ix & -> & _ & Hs) Hn Hb Hq. unfold HTTP_MAX_HEADER_SIZE in Hb.
  destruct Hs as [-> | [-> [-> | ->]]]; do 2 eexists; known_text idtac.
Qed.

(** Its LF ends the message. *)
Lemma get_last hs ix n t : 0 <= n -> n + 2 <= HTTP_MAX_HEADER_SIZE -> exists y2 y3,
  hp_method y2 = HTTP_GET /\
  http_parser_execute recorder (req_parser HTTP_GET 0 s_headers_almost_done hs ix n ULLONG_MAX 1 1) t [LF] =
    Returned (req_parser HTTP_GET 0 s_start_req hs ix 0 ULLONG_MAX 1 1) (EvNotify MessageComplete y3 :: EvNotify HeadersComplete y2 :: t) 1.
Proof. intros Hn Hb. unfold HTTP_MAX_HEADER_SIZE in Hb. do 2 eexists. split; cycle 1; [run_char; reflexivity | reflexivity]. Qed.

(** * The whole request *)

(** The bytes of a request one by one: nothing is complete before the last
    byte, and with it the headers and the message are. *)
Lemma run_get path hs x : get_ok path hs -> awaits_request x ->
  exists init c y1 y2 y3 x1 t1 x2, get_request path hs = init ++ [c] /\ hp_method y2 = HTTP_GET /\
    quiet_steps x [] init x1 t1 /\
    http_parser_execute recorder x1 t1 [c] =
      Returned x2 (EvNotify MessageComplete y3 :: EvNotify HeadersComplete y2 :: header_trace hs ++
        [EvData For_url (bs "/" ++ path); EvNotify MessageBegin y1]) 1 /\
    awaits_request x2.
Proof.
  intros [Hp Hh Hb] (Ht & Hs & Hl & Hnr & Hsc & He & Hu).
  destruct x as [ty fl st hsx ixx ln nr clx ma mi sc me er up]. cbn in Ht, Hs, Hl, Hnr, Hsc, He, Hu. subst.
  unfold get_request in *. rewrite !zlen_app, zlen_crlf in Hb.
  change (zlen (bs "GET /")) with 5 in Hb. change (zlen (bs " HTTP/1.1")) with 9 in Hb.
  pose proof (zlen_nonneg path). pose proof (zlen_nonneg (header_lines hs)).
  destruct (run_get_method 0 fl hsx ixx clx ma mi me) as (y1 & m1 & Hm1 & R1); [lia|]. change (zlen (bs "GET /")) with 5 in Hm1.
  destruct (run_path HTTP_GET path m1 (bs "/") [EvNotify MessageBegin y1] hsx 4 ma mi) as (m2 & Hm2 & R2); auto; [lia | lia|].
  destruct (run_version HTTP_GET m2 (bs "/" ++ path) [EvNotify MessageBegin y1] hsx 4 ma mi) as (m3 & Hm3 & R3);
    auto; [lia | unfold HTTP_MAX_HEADER_SIZE in *; lia|].
  change (zlen (bs " HTTP/1.1" ++ http_crlf)) with 11 in Hm3.
  set (t0 := [EvData For_url (bs "/" ++ path); EvNotify MessageBegin y1]) in *.
  destruct (run_header_lines HTTP_GET hs m3 (fun n => req_parser HTTP_GET 0 s_header_field_start hsx 4 n ULLONG_MAX 1 1) t0 0 ULLONG_MAX)
    as (x4 & Hx4 & m4 & Hm4 & R4); auto; [do 3 eexists; split; [reflexivity | auto] | lia | lia | discriminate |].
  fold (header_trace hs) in R4.
  destruct (run_get_end m4 x4 (header_trace hs ++ t0) Hx4) as (hs' & ix & m5 & Hm5 & R5);
    [lia | lia | apply header_trace_quiet; reflexivity |]. change (zlen [CR]) with 1 in Hm5.
  destruct (get_last hs' ix m5 (header_trace hs ++ t0)) as (y2 & y3 & Hy & Hlast); [lia | lia|].
  exists (bs "GET /" ++ path ++ (bs " HTTP/1.1" ++ http_crlf) ++ header_lines hs ++ [CR]), LF, y1, y2, y3. do 3 eexists.
  split; [rewrite <- !app_assoc; reflexivity|]. split; [exact Hy|]. split.
  { eapply quiet_steps_app; [exact R1|]. eapply quiet_steps_app; [exact R2|]. eapply quiet_steps_app; [exact R3|].
    eapply quiet_steps_app; [exact R4 | exact R5]. }
  split; [exact Hlast | split_and!; reflexivity].
Qed.

(** * Requests of both kinds *)

(** The requests that call a method over HTTP: a [POST] with its body, or a
    [GET], whose body is empty. *)
Inductive http_call (path : bytes) : bytes -> bytes -> Prop :=
| call_post hs1 len hs2 body : post_ok path hs1 len hs2 body -> http_call path body (post_request path hs1 len hs2 body)
| call_get hs : get_ok path hs -> http_call path [] (get_request path hs).

Lemma http_call_small path body request : http_call path body request -> zlen request < 2 ^ 31.
Proof.
  intros [hs1 len hs2 b Hok | hs [_ _ Hb]]; [exact (post_small _ _ _ _ _ Hok)|].
  unfold HTTP_MAX_HEADER_SIZE in Hb. lia.
Qed.

(** What a whole request leaves in the trace. *)
Inductive call_trace (path : bytes) : bytes -> trace -> Prop :=
| trace_post hs1 len hs2 body y1 y2 y3 : hp_method y2 = HTTP_POST -> hp_content_length y2 = zlen body -> body <> [] ->
    call_trace path body (EvNotify MessageComplete y3 :: EvData For_body body :: head_trace path hs1 len hs2 y1 y2)
| trace_get hs y1 y2 y3 : hp_method y2 = HTTP_GET ->
    call_trace path [] (EvNotify MessageComplete y3 :: EvNotify HeadersComplete y2 :: header_trace hs ++
      [EvData For_url (bs "/" ++ path); EvNotify MessageBegin y1]).

Lemma run_call path body request x : http_call path body request -> awaits_request x ->
  exists init c x1 t1 x2 t2, request = init ++ [c] /\ quiet_steps x [] init x1 t1 /\
    http_parser_execute recorder x1 t1 [c] = Returned x2 t2 1 /\ call_trace path body t2 /\ awaits_request x2.
Proof.
  intros [hs1 len hs2 b Hok | hs Hok] Hx.
  - destruct (run_post _ _ _ _ _ x Hok Hx) as (init & c & y1 & y2 & y3 & x1 & t1 & x2 & Hreq & Hm & Hc & Hs & Hr & Hx2).
    exists init, c, x1, t1, x2. eexists. split_and!; try eassumption. constructor; auto. exact (post_body _ _ _ _ _ Hok).
  - destruct (run_get _ _ x Hok Hx) as (init & c & y1 & y2 & y3 & x1 & t1 & x2 & Hreq & Hm & Hs & Hr & Hx2).
    exists init, c, x1, t1, x2. eexists. split_and!; try eassumption. constructor; auto.
Qed.

Lemma http_call_nonempty path body request : http_call path body request -> request <> [].
Proof. intros []; discriminate. Qed.
