(* ===== verification/Wire.v ===== *)
(** Wire-level data: 32-bit words in network order, the status codes of
    [RpcDefs.h], the packages of [RpcPackage.h] with their buffers, and the
    two protobuf messages of [rpc.proto] with the codec generated for them as
    an interface ([MessageCodec]). *)
From Stdlib Require Import ZArith Lia Bool List String Ascii.
From stdpp Require Import base list strings.
From S2P Require Import Prelude.

(** * Network order *)

(** The bytes [htonl(v)] leaves in memory for a [uint32_t] [v]. *)
Definition put32 (v : Z) : bytes :=
  [chr (v / 2 ^ 24); chr (v / 2 ^ 16); chr (v / 2 ^ 8); chr v].

(** [ntohl] of the word stored in four bytes; [None] if there are fewer. *)
Definition get32 (b : bytes) : option Z :=
  match b with
  | b0 :: b1 :: b2 :: b3 :: _ =>
      Some (code b0 * 2 ^ 24 + code b1 * 2 ^ 16 + code b2 * 2 ^ 8 + code b3)
  | _ => None
  end.

Lemma length_put32 v : length (put32 v) = 4%nat.
Proof. reflexivity. Qed.

Lemma get32_put32 v rest : 0 <= v < 2 ^ 32 -> get32 (put32 v ++ rest) = Some v.
Proof.
  intros Hv. unfold put32, get32. cbn [app]. rewrite !code_chr. f_equal.
  change (2 ^ 24) with (256 * (256 * 256)). change (2 ^ 16) with (256 * 256). change (2 ^ 8) with 256.
  rewrite <- !Z.div_div by lia.
  pose proof (Z.div_mod v 256 ltac:(lia)). pose proof (Z.div_mod (v / 256) 256 ltac:(lia)).
  pose proof (Z.div_mod (v / 256 / 256) 256 ltac:(lia)).
  assert (0 <= v / 256 / 256 / 256 < 256).
  { split; [repeat apply Z.div_pos; lia|]. rewrite !Z.div_div by lia. apply Z.div_lt_upper_bound; lia. }
  rewrite (Z.mod_small (v / 256 / 256 / 256)) by assumption. lia.
Qed.

Lemma get32_range b v : get32 b = Some v -> 0 <= v < 2 ^ 32.
Proof.
  destruct b as [|b0 [|b1 [|b2 [|b3 b]]]]; try discriminate. cbn [get32]. intros [= <-].
  pose proof (code_range b0). pose proof (code_range b1). pose proof (code_range b2).
  pose proof (code_range b3). lia.
Qed.

Lemma get32_app b c v : get32 b = Some v -> get32 (b ++ c) = Some v.
Proof. destruct b as [|b0 [|b1 [|b2 [|b3 b]]]]; try discriminate. exact id. Qed.

(** Four bytes are the network-order form of the word they hold. *)
Lemma put32_get32 b v : length b = 4%nat -> get32 b = Some v -> put32 v = b.
Proof.
  destruct b as [|b0 [|b1 [|b2 [|b3 [|]]]]]; try discriminate. intros _ [= <-].
  pose proof (code_range b0). pose proof (code_range b1). pose proof (code_range b2).
  pose proof (code_range b3).
  unfold put32. repeat f_equal; apply code_inj; rewrite code_chr; Z.to_euclidean_division_equations; lia.
Qed.

(** * Status codes *)

Inductive RpcStatus :=
| RPC_SEND_OK | RPC_SEND_FAIL | RPC_REQ_TOO_LARGE | RPC_DISCONNECTED | RPC_SEND_TIMEOUT
| RPC_CB_TIMEOUT | RPC_SRV_NOTFOUND | RPC_METHOD_NOTFOUND | RPC_SERVER_OK | RPC_SERVER_NONE
| RPC_SERVER_FAIL | RPC_MALLOC_PKG_FAIL.

Definition status_num (s : RpcStatus) : Z :=
  match s with
  | RPC_SEND_OK => 0 | RPC_SEND_FAIL => 1 | RPC_REQ_TOO_LARGE => 2 | RPC_DISCONNECTED => 3
  | RPC_SEND_TIMEOUT => 4 | RPC_CB_TIMEOUT => 5 | RPC_SRV_NOTFOUND => 6
  | RPC_METHOD_NOTFOUND => 7 | RPC_SERVER_OK => 8 | RPC_SERVER_NONE => 9
  | RPC_SERVER_FAIL => 10 | RPC_MALLOC_PKG_FAIL => 11
  end.

#[export] Instance RpcStatus_eq_dec : EqDecision RpcStatus.
Proof. solve_decision. Defined.

Lemma status_num_range s : 0 <= status_num s < 12.
Proof. destruct s; cbn; lia. Qed.

Lemma status_num_inj s t : status_num s = status_num t -> s = t.
Proof. destruct s, t; cbn; intros H; done || discriminate H. Qed.

Inductive PkgIOStatus := FAIL | PARTIAL | TIME_OUT | NODATA | FULL.

Definition io_num (s : PkgIOStatus) : Z :=
  match s with FAIL => -1 | PARTIAL => -2 | TIME_OUT => -3 | NODATA => -4 | FULL => 0 end.

Definition max_protobuf_data_len : Z := 10 * 1024 * 1024.
Definition RPCFRAME_VER : Z := 1.

(** * Package buffers *)

(** A [new char[size]]: bytes not yet written are [None]. *)
Notation buffer := (list (option ascii)).

Definition new_buffer (size : Z) : buffer := replicate (Z.to_nat size) None.

(** Writing [b] at offset [off]; [None] when a byte falls outside. *)
Definition write_at (buf : buffer) (off : Z) (b : bytes) : option buffer :=
  if (off <? 0) || (zlen buf <? off + zlen b) then None
  else Some (take (Z.to_nat off) buf ++ (Some <$> b) ++ drop (Z.to_nat off + length b) buf).

(** The bytes of a buffer that is written throughout. *)
Definition contents (buf : buffer) : option bytes := mapM id buf.

(** The [n] bytes at offset [off] of a buffer, all of them written. *)
Definition bytes_at (buf : buffer) (off n : Z) : outcome bytes :=
  if (off <? 0) || (n <? 0) || (zlen buf <? off + n) then Stuck OutOfBounds
  else need OutOfBounds (contents (take (Z.to_nat n) (drop (Z.to_nat off) buf))).

(** [ntohl] of the word at offset [off]. *)
Definition load32 (buf : buffer) (off : Z) : outcome Z :=
  let! b := bytes_at buf off 4 in need OutOfBounds (get32 b).

Lemma contents_some b : contents (Some <$> b) = Some b.
Proof. unfold contents. apply mapM_Some, Forall2_fmap_l, Forall_Forall2_diag, Forall_true. reflexivity. Qed.

Lemma bytes_at_some b off n :
  0 <= off -> 0 <= n -> off + n <= zlen b -> bytes_at (Some <$> b) off n = Done (slice b off n).
Proof.
  intros Ho Hn Hb. unfold bytes_at, slice.
  replace (zlen (Some <$> b)) with (zlen b) by (unfold zlen; rewrite length_fmap; reflexivity).
  replace (_ || _) with false by (symmetry; repeat (apply orb_false_iff; split); lia).
  rewrite <- fmap_drop, <- fmap_take, contents_some. reflexivity.
Qed.

Lemma length_new_buffer n : 0 <= n -> zlen (new_buffer n) = n.
Proof. intros Hn. unfold zlen, new_buffer. rewrite length_replicate. lia. Qed.

(** Writing right after the part already written extends it. *)
Lemma write_at_prefix pre b n :
  zlen b <= n ->
  write_at ((Some <$> pre) ++ new_buffer n) (zlen pre) b = Some ((Some <$> (pre ++ b)) ++ new_buffer (n - zlen b)).
Proof.
  intros Hn. unfold write_at, new_buffer, zlen in *. rewrite length_app, length_fmap, length_replicate.
  replace (_ || _) with false by (symmetry; apply orb_false_iff; split; [apply Z.ltb_ge; lia | apply Z.ltb_ge; lia]).
  rewrite Nat2Z.id, take_app_length', drop_app_ge by (rewrite length_fmap; lia).
  rewrite length_fmap, drop_replicate, fmap_app, <- app_assoc.
  do 4 f_equal. lia.
Qed.

Lemma write_next pre off b n :
  off = zlen pre -> zlen b <= n ->
  write_at ((Some <$> pre) ++ new_buffer n) off b = Some ((Some <$> (pre ++ b)) ++ new_buffer (n - zlen b)).
Proof. intros ->. apply write_at_prefix. Qed.

Lemma write_first b n :
  zlen b <= n -> write_at (new_buffer n) 0 b = Some ((Some <$> b) ++ new_buffer (n - zlen b)).
Proof. apply (write_at_prefix [] b n). Qed.

Lemma zlen_put32 v : zlen (put32 v) = 4.
Proof. reflexivity. Qed.

(** Writing over a part of the same length. *)
Lemma write_at_mid (l m r : buffer) b :
  zlen m = zlen b -> write_at (l ++ m ++ r) (zlen l) b = Some (l ++ (Some <$> b) ++ r).
Proof.
  intros Hm. unfold write_at. rewrite !zlen_app.
  pose proof (zlen_nonneg l). pose proof (zlen_nonneg r). unfold zlen in *.
  replace (_ || _) with false by (symmetry; apply orb_false_iff; split; apply Z.ltb_ge; lia).
  rewrite Nat2Z.id, take_app_length, <- drop_drop, drop_app_length.
  rewrite drop_app_length' by lia. reflexivity.
Qed.

(** The bytes a peer may receive for a buffer: those written, and anything
    for those never written. *)
Definition on_wire (buf : buffer) (b : bytes) : Prop :=
  Forall2 (fun o c => o = None \/ o = Some c) buf b.

Lemma on_wire_some b c : on_wire (Some <$> b) c -> c = b.
Proof.
  revert c. induction b as [|x b IH]; intros c H; cbn in H; inversion H as [|? ? ? ? [?|Hx] H']; subst;
    [reflexivity | discriminate |]. injection Hx as ->. f_equal. apply IH, H'.
Qed.

Lemma on_wire_app u v b :
  on_wire (u ++ v) b -> exists c d, b = c ++ d /\ on_wire u c /\ on_wire v d.
Proof. intros H. apply Forall2_app_inv_l in H as (c & d & Hc & Hd & ->). eauto. Qed.

Lemma on_wire_length u b : on_wire u b -> zlen b = zlen u.
Proof. intros H. unfold zlen. f_equal. symmetry. eapply Forall2_length, H. Qed.

Record request_pkg := {
  rq_data : buffer;
  rq_data_len : Z;
  rq_connection_id : string;
  rq_is_from_http : bool
}.

Record response_pkg := { rs_data : buffer; rs_data_len : Z }.

Definition new_request_pkg (size : Z) (conn_id : string) : request_pkg :=
  {| rq_data := new_buffer size; rq_data_len := size; rq_connection_id := conn_id;
     rq_is_from_http := false |}.

Definition new_response_pkg (size : Z) : response_pkg :=
  {| rs_data := new_buffer size; rs_data_len := size |}.

(** * Protobuf messages *)

Inductive RPC_TYPE := ONE_WAY | TWO_WAY.

#[export] Instance RPC_TYPE_eq_dec : EqDecision RPC_TYPE.
Proof. solve_decision. Defined.

Record RpcInnerReq := {
  req_version : Z;
  req_service_name : string;
  req_method_name : string;
  req_request_id : string;
  req_type : RPC_TYPE;
  req_timeout : Z;
  req_data : option bytes
}.

Record RpcInnerResp := { resp_version : Z; resp_request_id : string }.

(** The code [protoc] generates for a message: [SerializeToArray] (with
    [ByteSize] the length of its result) and [ParseFromArray]. *)
Class MessageCodec (M : Type) := {
  serialize : M -> bytes;
  parse : bytes -> option M
}.

(** What the program relies on: a message whose fields fit their types parses
    back from its serialized form. *)
Class MessageCodecLaw (M : Type) `{MessageCodec M} (fits : M -> Prop) := {
  parse_serialize : forall m, fits m -> parse (serialize m) = Some m
}.

Definition int32_fits (z : Z) : Prop := - 2 ^ 31 <= z < 2 ^ 31.
Definition req_fits (m : RpcInnerReq) : Prop :=
  int32_fits (req_version m) /\ 0 <= req_timeout m < 2 ^ 32.
Definition resp_fits (m : RpcInnerResp) : Prop := int32_fits (resp_version m).

Definition ByteSize {M} `{MessageCodec M} (m : M) : Z := zlen (serialize m).
