(* ===== verification/SampleCodec.v ===== *)
(** A concrete [MessageCodec] for the two messages of [rpc.proto]: not the
    protobuf encoding, only a self-delimiting one that satisfies the laws, so
    that the theorems stated over any codec can be run on an example. *)
From Stdlib Require Import ZArith Lia Bool List String Ascii.
From stdpp Require Import base list strings.
From S2P Require Import Prelude Wire.

(** A string: each character after a mark, then an end mark. *)
Fixpoint enc_bytes (b : bytes) : bytes :=
  match b with
  | [] => ["000"%char]
  | c :: b' => "001"%char :: c :: enc_bytes b'
  end.

Fixpoint dec_bytes (l : bytes) : option (bytes * bytes) :=
  match l with
  | "000"%char :: l' => Some ([], l')
  | "001"%char :: c :: l' =>
      match dec_bytes l' with Some (b, r) => Some (c :: b, r) | None => None end
  | _ => None
  end.

Definition dec_word (l : bytes) : option (Z * bytes) :=
  match get32 l with Some v => Some (v, drop 4 l) | None => None end.

Definition enc_req (m : RpcInnerReq) : bytes :=
  put32 (req_version m + 2 ^ 31) ++ enc_bytes (bs (req_service_name m)) ++
  enc_bytes (bs (req_method_name m)) ++ enc_bytes (bs (req_request_id m)) ++
  put32 (match req_type m with ONE_WAY => 0 | TWO_WAY => 1 end) ++ put32 (req_timeout m) ++
  match req_data m with None => ["000"%char] | Some d => "001"%char :: enc_bytes d end.

Definition dec_req (l : bytes) : option RpcInnerReq :=
  '(v, l) ← dec_word l; '(s, l) ← dec_bytes l; '(me, l) ← dec_bytes l; '(i, l) ← dec_bytes l;
  '(t, l) ← dec_word l; '(to, l) ← dec_word l;
  d ← match l with
      | "000"%char :: _ => Some None
      | "001"%char :: l => '(d, _) ← dec_bytes l; Some (Some d)
      | _ => None
      end;
  Some {| req_version := v - 2 ^ 31; req_service_name := string_of_list_ascii s;
          req_method_name := string_of_list_ascii me; req_request_id := string_of_list_ascii i;
          req_type := if t =? 0 then ONE_WAY else TWO_WAY; req_timeout := to; req_data := d |}.

Definition enc_resp (m : RpcInnerResp) : bytes :=
  put32 (resp_version m + 2 ^ 31) ++ enc_bytes (bs (resp_request_id m)).

Definition dec_resp (l : bytes) : option RpcInnerResp :=
  '(v, l) ← dec_word l; '(i, _) ← dec_bytes l;
  Some {| resp_version := v - 2 ^ 31; resp_request_id := string_of_list_ascii i |}.

#[export] Instance req_codec : MessageCodec RpcInnerReq := {| serialize := enc_req; parse := dec_req |}.
#[export] Instance resp_codec : MessageCodec RpcInnerResp := {| serialize := enc_resp; parse := dec_resp |}.

Lemma dec_enc_bytes b l : dec_bytes (enc_bytes b ++ l) = Some (b, l).
Proof. induction b as [|c b IH]; cbn [enc_bytes app dec_bytes]; [|rewrite IH]; reflexivity. Qed.

Lemma dec_put32 v l : 0 <= v < 2 ^ 32 -> dec_word (put32 v ++ l) = Some (v, l).
Proof. intros Hv. unfold dec_word. rewrite get32_put32 by exact Hv. reflexivity. Qed.

Lemma bs_back s : string_of_list_ascii (bs s) = s.
Proof. apply string_of_list_ascii_of_string. Qed.

Create Rewrite HintDb sample_codec.
#[export] Hint Rewrite dec_enc_bytes bs_back : sample_codec.
#[export] Hint Rewrite dec_put32 using lia : sample_codec.

#[export] Instance req_codec_law : MessageCodecLaw RpcInnerReq req_fits.
Proof.
  split. intros [v s me i t to d] [Hv Ht]. unfold int32_fits in Hv.
  cbn [req_version req_timeout] in Hv, Ht. cbn [parse serialize req_codec]. unfold dec_req, enc_req.
  cbn [req_version req_service_name req_method_name req_request_id req_type req_timeout req_data].
  assert (0 <= match t with ONE_WAY => 0 | TWO_WAY => 1 end < 2 ^ 32) by (destruct t; lia).
  repeat (autorewrite with sample_codec; cbn [mbind option_bind]).
  replace (v + 2 ^ 31 - 2 ^ 31) with v by lia.
  destruct d as [d|], t; try rewrite <- (app_nil_r (enc_bytes d)), dec_enc_bytes; reflexivity.
Qed.

#[export] Instance resp_codec_law : MessageCodecLaw RpcInnerResp resp_fits.
Proof.
  split. intros [v i] Hv. unfold resp_fits, int32_fits in Hv. cbn [resp_version] in Hv.
  cbn [parse serialize resp_codec]. unfold dec_resp, enc_resp. cbn [resp_version resp_request_id].
  rewrite <- (app_nil_r (enc_bytes _)).
  repeat (autorewrite with sample_codec; cbn [mbind option_bind]).
  replace (v + 2 ^ 31 - 2 ^ 31) with v by lia. reflexivity.
Qed.
