(* ===== verification/Socket.v ===== *)
(** Sockets as the program sees them: what each [recv] and [send] of a
    connection returns is fixed by a script of events, over which the theorems
    quantify.  A script fixes any segmentation of the byte stream, and any
    interleaving of it with [EAGAIN], [EINTR], errors and the end of the
    stream. *)
From Stdlib Require Import ZArith Lia Bool List String Ascii.
From stdpp Require Import base list.
From S2P Require Import Prelude.

(** * Receiving *)

Inductive rx_event :=
| RxData (b : bytes)    (* bytes that have arrived together *)
| RxAgain               (* EAGAIN *)
| RxIntr                (* EINTR *)
| RxClosed              (* the peer has closed: recv returns 0 *)
| RxError.              (* any other error *)

Inductive recv_ret :=
| Received (b : bytes)  (* rev_size = zlen b > 0 *)
| Closed                (* rev_size = 0 *)
| Again                 (* rev_size = -1, errno = EAGAIN *)
| Interrupted           (* rev_size = -1, errno = EINTR *)
| RecvError.            (* rev_size = -1, another errno *)

(** [recv(fd, buf, n, ..)] on a non-blocking socket, for [n > 0]: at most [n]
    of the bytes at hand, the rest staying in the socket.  A script that is
    used up gives [EAGAIN]; a closed or failed socket stays so. *)
Fixpoint recv (n : Z) (s : list rx_event) : recv_ret * list rx_event :=
  match s with
  | [] => (Again, [])
  | RxData [] :: s' => recv n s'
  | RxData b :: s' =>
      if zlen b <=? n then (Received b, s')
      else (Received (take (Z.to_nat n) b), RxData (drop (Z.to_nat n) b) :: s')
  | RxAgain :: s' => (Again, s')
  | RxIntr :: s' => (Interrupted, s')
  | RxClosed :: _ => (Closed, s)
  | RxError :: _ => (RecvError, s)
  end.

(** The bytes a script delivers. *)
Fixpoint rx_bytes (s : list rx_event) : bytes :=
  match s with
  | [] => []
  | RxData b :: s' => b ++ rx_bytes s'
  | RxClosed :: _ | RxError :: _ => []
  | _ :: s' => rx_bytes s'
  end.

(** The events and bytes left: what a call of [recv] makes smaller. *)
Fixpoint rx_size (s : list rx_event) : nat :=
  match s with
  | [] => 0
  | RxData b :: s' => S (length b + rx_size s')
  | _ :: s' => S (rx_size s')
  end.

(** [recv] hands out the bytes of the script in order, none lost. *)
Lemma recv_received n s b s' :
  0 < n -> recv n s = (Received b, s') ->
  0 < zlen b <= n /\ rx_bytes s = b ++ rx_bytes s' /\ (rx_size s' < rx_size s)%nat.
Proof.
  intros Hn. induction s as [|[[|c d]| | | |] s IH]; try discriminate; cbn [recv].
  - intros H. destruct (IH H) as (? & ? & ?). cbn. split; [assumption|]. split; [assumption | lia].
  - destruct (zlen (c :: d) <=? n) eqn:Hc; intros [= <- <-].
    + rewrite zlen_cons in *. pose proof (zlen_nonneg d). cbn. split; [lia|]. split; [reflexivity | lia].
    + rewrite zlen_cons in Hc. unfold zlen in *.
      rewrite length_take. cbn [length rx_bytes rx_size]. rewrite app_assoc, take_drop, length_drop.
      cbn [length]. split; [lia|]. split; [reflexivity | lia].
Qed.

Lemma recv_other n s r s' :
  recv n s = (r, s') -> (forall b, r <> Received b) ->
  rx_bytes s = rx_bytes s' /\ (rx_size s' <= rx_size s)%nat.
Proof.
  intros H Hr. induction s as [|[[|c d]| | | |] s IH]; cbn [recv] in H.
  - injection H as <- <-. auto.
  - destruct (IH H). cbn. auto.
  - destruct (_ <=? _); injection H as <- <-; edestruct Hr; reflexivity.
  - injection H as <- <-. cbn. auto.
  - injection H as <- <-. cbn. auto.
  - injection H as <- <-. auto.
  - injection H as <- <-. auto.
Qed.

(** * Sending *)

Inductive tx_event :=
| TxAccept (k : Z)      (* room for [k] bytes *)
| TxAgain
| TxIntr
| TxPipe                (* EPIPE *)
| TxError.

Inductive send_ret :=
| Sent (k : Z)          (* slen = k >= 0 *)
| SendAgain
| SendInterrupted
| SendPipe
| SendError.

(** [send(fd, data, n, MSG_NOSIGNAL | MSG_DONTWAIT)]: how much of the [n]
    bytes it takes.  A script that is used up gives [EAGAIN]. *)
Definition send (n : Z) (s : list tx_event) : send_ret * list tx_event :=
  match s with
  | [] => (SendAgain, [])
  | TxAccept k :: s' => (Sent (Z.max 0 (Z.min k n)), s')
  | TxAgain :: s' => (SendAgain, s')
  | TxIntr :: s' => (SendInterrupted, s')
  | TxPipe :: s' => (SendPipe, s')
  | TxError :: s' => (SendError, s')
  end.

Lemma send_range n s k s' : 0 <= n -> send n s = (Sent k, s') -> 0 <= k <= n.
Proof. destruct s as [|[j| | | |] s]; try discriminate. cbn. intros ? [= <- _]. lia. Qed.

Lemma send_consumes n s r s' : send n s = (r, s') -> s <> [] -> (length s' < length s)%nat.
Proof. destruct s as [|[]]; cbn; intros [= <- <-] ?; auto; contradiction. Qed.
