(* ===== verification/Queue.v ===== *)
(** [Queue<T>] of [common/include/Queue.h]: a bounded queue under one mutex.

    Every operation runs with the mutex held, so it is one atomic step on the
    queue; a wait on a condition variable gives the mutex up, and the state the
    queue has when the waiter gets it back is an argument of the model (the
    other threads may do anything meanwhile). *)
From Stdlib Require Import ZArith Lia Bool List.
From stdpp Require Import base list.
From S2P Require Import Prelude.

Section Queue.
Context {T : Type}.

Record Queue := mk_queue {
  m_queue : list T;
  m_max_q_len : Z;       (* uint32_t *)
  m_dropOldOnFull : bool
}.

Definition new_Queue (max_queuelen : Z) : Queue := mk_queue [] max_queuelen false.
Definition default_Queue : Queue := new_Queue (10 * 1024 * 1024).

Definition set_items (l : list T) (q : Queue) : Queue :=
  mk_queue l (m_max_q_len q) (m_dropOldOnFull q).
Definition setMaxSize (n : Z) (q : Queue) : Queue := mk_queue (m_queue q) n (m_dropOldOnFull q).
Definition setDropOnFull (d : bool) (q : Queue) : Queue := mk_queue (m_queue q) (m_max_q_len q) d.
Definition size (q : Queue) : Z := zlen (m_queue q).

(** What ends a [wait_for]: the timeout, or a wake-up (a notification or a
    spurious one) with the queue as it is then. *)
Inductive wait_end := TimedOut (q : Queue) | Woken (q : Queue).

Definition front_pop (q : Queue) : option (T * Queue) :=
  match m_queue q with
  | [] => None
  | x :: l => Some (x, set_items l q)
  end.

(** [pop(item, ms_val)]: the queue and the item, or [None] for [false].  The
    loop on the condition variable runs over the wake-ups; [Stuck] when they
    are used up (the caller is still waiting). *)
Fixpoint pop_wait (waits : list wait_end) (q : Queue) : option (option T * Queue) :=
  match front_pop q with
  | Some (x, q') => Some (Some x, q')
  | None =>
      match waits with
      | [] => None
      | TimedOut q' :: _ => Some (None, q')
      | Woken q' :: waits' => pop_wait waits' q'
      end
  end.

Definition pop (ms_val : Z) (waits : list wait_end) (q : Queue) : option (option T * Queue) :=
  if (ms_val =? 0) && (match m_queue q with [] => true | _ => false end) then Some (None, q)
  else pop_wait waits q.

(** [pop(item, 0)] *)
Definition pop_now (q : Queue) : option T * Queue :=
  match front_pop q with
  | Some (x, q') => (Some x, q')
  | None => (None, q)
  end.

Definition peek (q : Queue) : option T :=
  match m_queue q with [] => None | x :: _ => Some x end.

(** [push(item, ms_val)] with at most one wait; [Stuck] when an empty
    [std::queue] is popped. *)
Definition push (ms_val : Z) (wait : wait_end) (item : T) (q : Queue) : outcome (bool * Queue) :=
  let add (q : Queue) := Done (true, set_items (m_queue q ++ [item]) q) in
  if m_max_q_len q <=? size q then
    if m_dropOldOnFull q then
      match m_queue q with
      | [] => Stuck OutOfBounds
      | _ :: l => add (set_items l q)
      end
    else if ms_val =? 0 then Done (false, q)
    else match wait with
         | TimedOut q' => Done (false, q')
         | Woken q' => add q'
         end
  else add q.

(** [push(item, 0)] *)
Definition push_now (item : T) (q : Queue) : outcome (bool * Queue) := push 0 (TimedOut q) item q.

(** * A sequence of operations from any threads *)

Inductive queue_op :=
| OpPush (x : T)
| OpPop
| OpPeek
| OpSize.

Inductive queue_obs :=
| ObsPush (ok : bool)
| ObsItem (o : option T)
| ObsSize (n : Z).

Definition queue_step (o : queue_op) (q : Queue) : outcome (queue_obs * Queue) :=
  match o with
  | OpPush x => match push_now x q with
                | Done (b, q') => Done (ObsPush b, q')
                | Stuck w => Stuck w
                end
  | OpPop => let '(x, q') := pop_now q in Done (ObsItem x, q')
  | OpPeek => Done (ObsItem (peek q), q)
  | OpSize => Done (ObsSize (size q), q)
  end.

Fixpoint queue_run (ops : list queue_op) (q : Queue) : outcome (list queue_obs * Queue) :=
  match ops with
  | [] => Done ([], q)
  | o :: ops' =>
      match queue_step o q with
      | Stuck w => Stuck w
      | Done (b, q') =>
          match queue_run ops' q' with
          | Stuck w => Stuck w
          | Done (bs, q'') => Done (b :: bs, q'')
          end
      end
  end.

(** The items a run put in and took out. *)
Definition pushed (o : queue_op) (b : queue_obs) : list T :=
  match o, b with OpPush x, ObsPush true => [x] | _, _ => [] end.
Definition popped (o : queue_op) (b : queue_obs) : list T :=
  match o, b with OpPop, ObsItem (Some x) => [x] | _, _ => [] end.

Fixpoint all_pushed (ops : list queue_op) (obs : list queue_obs) : list T :=
  match ops, obs with o :: ops', b :: obs' => pushed o b ++ all_pushed ops' obs' | _, _ => [] end.
Fixpoint all_popped (ops : list queue_op) (obs : list queue_obs) : list T :=
  match ops, obs with o :: ops', b :: obs' => popped o b ++ all_popped ops' obs' | _, _ => [] end.

(** * Lemmas *)

Lemma push_now_full x q :
  m_dropOldOnFull q = false ->
  push_now x q = Done (if m_max_q_len q <=? size q then (false, q)
                       else (true, set_items (m_queue q ++ [x]) q)).
Proof. intros Hd. unfold push_now, push. rewrite Hd. destruct (_ <=? _); reflexivity. Qed.

(** What one operation does to the items, when old ones are not dropped. *)
Lemma queue_step_spec o q :
  m_dropOldOnFull q = false ->
  exists b q', queue_step o q = Done (b, q') /\
    m_queue q ++ pushed o b = popped o b ++ m_queue q' /\
    m_max_q_len q' = m_max_q_len q /\ m_dropOldOnFull q' = false /\
    (size q <= m_max_q_len q -> size q' <= m_max_q_len q) /\
    (b = ObsPush false -> m_max_q_len q <= size q).
Proof.
  intros Hd. destruct o as [x| | |]; cbn [queue_step].
  - rewrite push_now_full by exact Hd. destruct (_ <=? _) eqn:Hf; do 2 eexists; (split; [reflexivity|]); cbn.
    + rewrite app_nil_r. repeat split; auto; lia.
    + repeat split; auto; [|discriminate]. unfold size, set_items in *. cbn. rewrite zlen_app, zlen_cons.
      change (zlen (@nil T)) with 0. lia.
  - unfold pop_now, front_pop. destruct q as [[|x l] n d]; do 2 eexists; (split; [reflexivity|]); cbn;
      repeat split; auto; try discriminate; rewrite ?app_nil_r; auto.
    unfold size, set_items. cbn. rewrite zlen_cons. lia.
  - do 2 eexists; split; [reflexivity|]. cbn. rewrite app_nil_r. repeat split; auto; discriminate.
  - do 2 eexists; split; [reflexivity|]. cbn. rewrite app_nil_r. repeat split; auto; discriminate.
Qed.

Lemma queue_run_spec ops q :
  m_dropOldOnFull q = false ->
  exists obs q', queue_run ops q = Done (obs, q') /\
    m_queue q ++ all_pushed ops obs = all_popped ops obs ++ m_queue q' /\
    m_max_q_len q' = m_max_q_len q /\ (size q <= m_max_q_len q -> size q' <= m_max_q_len q).
Proof.
  revert q. induction ops as [|o ops IH]; intros q Hd; cbn [queue_run].
  - exists [], q. cbn. rewrite app_nil_r. auto.
  - destruct (queue_step_spec o q Hd) as (b & q1 & -> & Hio & Hm & Hd1 & Hs & _).
    destruct (IH q1 Hd1) as (obs & q2 & -> & Hio2 & Hm2 & Hs2).
    exists (b :: obs), q2. split; [reflexivity|]. cbn [all_pushed all_popped].
    split; [rewrite app_assoc, Hio, <- !app_assoc, Hio2; reflexivity|].
    split; [congruence|]. rewrite Hm in Hs2. auto.
Qed.
End Queue.
Arguments Queue : clear implicits.
Arguments wait_end : clear implicits.
Arguments queue_op : clear implicits.
Arguments queue_obs : clear implicits.

(** * Properties *)



(** Pushing a list of items one after the other. *)
Fixpoint push_all {T} (xs : list T) (q : Queue T) : outcome (Queue T) :=
  match xs with
  | [] => Done q
  | x :: xs' => match push_now x q with
                | Done (_, q') => push_all xs' q'
                | Stuck w => Stuck w
                end
  end.

Lemma push_now_drop {T} (x : T) l (n : nat) :
  (0 < n)%nat -> (length l <= n)%nat ->
  push_now x (mk_queue l (Z.of_nat n) true)
  = Done (true, mk_queue (drop (length (l ++ [x]) - n) (l ++ [x])) (Z.of_nat n) true).
Proof.
  intros Hn Hl. unfold push_now, push, size, zlen, set_items. cbn [m_queue m_max_q_len m_dropOldOnFull].
  rewrite length_app. cbn [length]. destruct (Z.leb_spec (Z.of_nat n) (Z.of_nat (length l))) as [Hf|Hf].
  - destruct l as [|y l]; cbn [length] in *; [lia|].
    replace (S (length l) + 1 - n)%nat with 1%nat by lia. reflexivity.
  - replace (length l + 1 - n)%nat with 0%nat by lia. reflexivity.
Qed.

Lemma push_all_drop {T} (xs l : list T) (n : nat) :
  (0 < n)%nat -> (length l <= n)%nat ->
  push_all xs (mk_queue l (Z.of_nat n) true)
  = Done (mk_queue (drop (length (l ++ xs) - n) (l ++ xs)) (Z.of_nat n) true).
Proof.
  intros Hn. revert l. induction xs as [|x xs IH]; intros l Hl; cbn [push_all].
  - rewrite app_nil_r. replace (length l - n)%nat with 0%nat by lia. reflexivity.
  - rewrite push_now_drop by assumption. rewrite IH.
    2:{ rewrite length_drop, length_app in *. cbn. lia. }
    replace (l ++ x :: xs) with ((l ++ [x]) ++ xs) by (rewrite <- app_assoc; reflexivity).
    set (k := (length (l ++ [x]) - n)%nat).
    rewrite <- (drop_app_le (l ++ [x]) xs k) by (unfold k; lia).
    rewrite drop_drop, length_drop. do 3 f_equal. rewrite !length_app. unfold k.
    rewrite !length_app. cbn [length]. lia.
Qed.

(** A queue set to drop on full never refuses an item and keeps the newest
    ones: after any sequence of pushes it holds exactly the last [n] items
    pushed (all of them if there were fewer), in order. *)
Theorem drop_on_full_keeps_newest {T} (xs : list T) (n : nat) (Hn : (0 < n)%nat) :
  push_all xs (setDropOnFull true (new_Queue (Z.of_nat n)))
  = Done (mk_queue (drop (length xs - n) xs) (Z.of_nat n) true).
Proof. apply (push_all_drop xs [] n Hn). cbn. lia. Qed.

Lemma drop_on_full_keeps_newest_witness :
  push_all [1; 2; 3; 4; 5] (setDropOnFull true (new_Queue 2)) = Done (mk_queue [4; 5] 2 true).
Proof. apply (drop_on_full_keeps_newest [1; 2; 3; 4; 5] 2). lia. Defined.

(** The maximum is not checked again after a wait: a [push] with a
    timeout that is woken while the queue is still full adds the item, and
    the queue then holds more than its maximum. *)
Theorem timed_push_exceeds_maximum {T} (x : T) (q : Queue T) ms_val
    (Hd : m_dropOldOnFull q = false) (Hms : ms_val <> 0) (Hfull : size q = m_max_q_len q) :
  exists q', push ms_val (Woken q) x q = Done (true, q') /\ size q' = m_max_q_len q' + 1.
Proof.
  unfold push. rewrite Hd. replace (m_max_q_len q <=? size q) with true by lia.
  replace (ms_val =? 0) with false by lia. eexists. split; [reflexivity|].
  unfold size, set_items in *. cbn. rewrite zlen_app. change (zlen [x]) with 1. lia.
Qed.

Lemma timed_push_exceeds_maximum_witness :
  exists q', push 10 (Woken (mk_queue [1] 1 false)) 2 (mk_queue [1] 1 false) = Done (true, q') /\
    size q' = m_max_q_len q' + 1.
Proof. apply (timed_push_exceeds_maximum 2 (mk_queue [1] 1 false) 10); [reflexivity | lia | reflexivity]. Defined.
