(* ===== verification/Stats.v ===== *)
(** The running statistics: [RpcMethodStatus::calcCallTime] of
    [RpcMethod.cpp] and the three [calc*] functions of [RpcServerImpl.cpp],
    which share one way of updating an average of [uint64_t] milliseconds. *)
From Stdlib Require Import ZArith Lia Bool List.
From stdpp Require Import base list.
From S2P Require Import Prelude.

(** The average after one more sample: the first sample, and any sample while
    the average is zero, replaces it. *)
Definition next_avg (avg num t : Z) : Z :=
  if avg =? 0 then t else u64 (u64 (avg * num) + t) / u64 (num + 1).

Module MethodStatus.
Record RpcMethodStatus := {
  enabled : bool;
  total_call_nums : Z;
  timeout_call_nums : Z;
  avg_call_time : Z;
  longest_call_time : Z;
  call_from_http_num : Z
}.

Definition new_status : RpcMethodStatus :=
  {| enabled := true; total_call_nums := 0; timeout_call_nums := 0; avg_call_time := 0;
     longest_call_time := 0; call_from_http_num := 0 |}.

Definition calcCallTime (call_time : Z) (s : RpcMethodStatus) : RpcMethodStatus :=
  {| enabled := enabled s;
     total_call_nums := u64 (total_call_nums s + 1);
     timeout_call_nums := timeout_call_nums s;
     avg_call_time := next_avg (avg_call_time s) (total_call_nums s) call_time;
     longest_call_time := if longest_call_time s <? call_time then call_time else longest_call_time s;
     call_from_http_num := call_from_http_num s |}.

(** [++(method_status->timeout_call_nums)] *)
Definition count_timeout (s : RpcMethodStatus) : RpcMethodStatus :=
  {| enabled := enabled s; total_call_nums := total_call_nums s;
     timeout_call_nums := u64 (timeout_call_nums s + 1); avg_call_time := avg_call_time s;
     longest_call_time := longest_call_time s; call_from_http_num := call_from_http_num s |}.

Definition calls (times : list Z) (s : RpcMethodStatus) : RpcMethodStatus :=
  fold_left (fun s t => calcCallTime t s) times s.
End MethodStatus.
Import MethodStatus.

Module ServerStatus.
(** The counters of [RpcServerImpl]. *)
Record counters := {
  avg_req_wait_time : Z;
  avg_resp_wait_time : Z;
  avg_call_time : Z;
  max_call_time : Z;
  total_req_num : Z;
  total_resp_num : Z;
  total_call_num : Z;
  rejected_conn : Z;
  req_inqueue_fail : Z;
  resp_inqueue_fail : Z
}.

Definition new_counters : counters :=
  {| avg_req_wait_time := 0; avg_resp_wait_time := 0; avg_call_time := 0; max_call_time := 0;
     total_req_num := 0; total_resp_num := 0; total_call_num := 0; rejected_conn := 0;
     req_inqueue_fail := 0; resp_inqueue_fail := 0 |}.

Definition calcReqQTime (t : Z) (c : counters) : counters :=
  {| avg_req_wait_time := next_avg (avg_req_wait_time c) (total_req_num c) t;
     avg_resp_wait_time := avg_resp_wait_time c; avg_call_time := avg_call_time c;
     max_call_time := max_call_time c; total_req_num := u64 (total_req_num c + 1);
     total_resp_num := total_resp_num c; total_call_num := total_call_num c;
     rejected_conn := rejected_conn c; req_inqueue_fail := req_inqueue_fail c;
     resp_inqueue_fail := resp_inqueue_fail c |}.

Definition calcRespQTime (t : Z) (c : counters) : counters :=
  {| avg_req_wait_time := avg_req_wait_time c;
     avg_resp_wait_time := next_avg (avg_resp_wait_time c) (total_resp_num c) t;
     avg_call_time := avg_call_time c; max_call_time := max_call_time c;
     total_req_num := total_req_num c; total_resp_num := u64 (total_resp_num c + 1);
     total_call_num := total_call_num c; rejected_conn := rejected_conn c;
     req_inqueue_fail := req_inqueue_fail c; resp_inqueue_fail := resp_inqueue_fail c |}.

Definition calcCallTime (t : Z) (c : counters) : counters :=
  {| avg_req_wait_time := avg_req_wait_time c; avg_resp_wait_time := avg_resp_wait_time c;
     avg_call_time := next_avg (avg_call_time c) (total_call_num c) t;
     max_call_time := if max_call_time c <? t then t else max_call_time c;
     total_req_num := total_req_num c; total_resp_num := total_resp_num c;
     total_call_num := u64 (total_call_num c + 1); rejected_conn := rejected_conn c;
     req_inqueue_fail := req_inqueue_fail c; resp_inqueue_fail := resp_inqueue_fail c |}.

Definition IncRejectedConn (c : counters) : counters :=
  {| avg_req_wait_time := avg_req_wait_time c; avg_resp_wait_time := avg_resp_wait_time c;
     avg_call_time := avg_call_time c; max_call_time := max_call_time c;
     total_req_num := total_req_num c; total_resp_num := total_resp_num c;
     total_call_num := total_call_num c; rejected_conn := u64 (rejected_conn c + 1);
     req_inqueue_fail := req_inqueue_fail c; resp_inqueue_fail := resp_inqueue_fail c |}.

Definition IncReqInQFail (c : counters) : counters :=
  {| avg_req_wait_time := avg_req_wait_time c; avg_resp_wait_time := avg_resp_wait_time c;
     avg_call_time := avg_call_time c; max_call_time := max_call_time c;
     total_req_num := total_req_num c; total_resp_num := total_resp_num c;
     total_call_num := total_call_num c; rejected_conn := rejected_conn c;
     req_inqueue_fail := u64 (req_inqueue_fail c + 1); resp_inqueue_fail := resp_inqueue_fail c |}.

Definition IncRespInQFail (c : counters) : counters :=
  {| avg_req_wait_time := avg_req_wait_time c; avg_resp_wait_time := avg_resp_wait_time c;
     avg_call_time := avg_call_time c; max_call_time := max_call_time c;
     total_req_num := total_req_num c; total_resp_num := total_resp_num c;
     total_call_num := total_call_num c; rejected_conn := rejected_conn c;
     req_inqueue_fail := req_inqueue_fail c; resp_inqueue_fail := u64 (resp_inqueue_fail c + 1) |}.
End ServerStatus.

(** * Lemmas *)

(** Within 64 bits the new average lies between the extremes seen so far. *)
Lemma next_avg_between avg num t lo hi :
  0 <= lo -> 0 <= num -> lo <= t <= hi -> (avg <> 0 -> lo <= avg <= hi) ->
  hi * (num + 1) < 2 ^ 64 -> num + 1 < 2 ^ 64 ->
  lo <= next_avg avg num t <= hi.
Proof.
  intros Hlo Hnum Ht Havg Hfit Hn. unfold next_avg. destruct (avg =? 0) eqn:Ha; [exact Ht|].
  specialize (Havg ltac:(lia)). unfold u64.
  rewrite (Z.mod_small (avg * num)) by nia. rewrite (Z.mod_small (avg * num + t)) by nia.
  rewrite (Z.mod_small (num + 1)) by lia.
  split; [apply Z.div_le_lower_bound; nia | apply Z.div_le_upper_bound; nia].
Qed.

(** What holds after the calls [times]. *)
Definition status_ok (times : list Z) (s : RpcMethodStatus) : Prop :=
  total_call_nums s = zlen times /\
  longest_call_time s = fold_right Z.max 0 times /\
  0 <= avg_call_time s <= longest_call_time s /\
  (times = [] -> avg_call_time s = 0) /\
  (times <> [] -> forall lo, Forall (fun t => 0 <= lo <= t) times -> lo <= avg_call_time s).

Lemma fold_right_max_app l t : fold_right Z.max 0 (l ++ [t]) = Z.max (fold_right Z.max 0 l) (Z.max t 0).
Proof. induction l as [|x l IH]; cbn; [lia|]. rewrite IH. lia. Qed.

Lemma max_nonneg l : 0 <= fold_right Z.max 0 l.
Proof. induction l; cbn; lia. Qed.

Lemma calls_ok times :
  Forall (fun t => 0 <= t) times -> zlen times < 2 ^ 64 ->
  fold_right Z.max 0 times * zlen times < 2 ^ 64 -> status_ok times (calls times new_status).
Proof.
  unfold calls. induction times as [|t times IH] using rev_ind; intros Hpos Hlen Hfit.
  - split; [reflexivity|]. split; [reflexivity|]. cbn. split; [lia|]. split; [reflexivity | contradiction].
  - apply Forall_app in Hpos as [Hpos Ht]. apply Forall_inv in Ht.
    rewrite fold_left_app. cbn [fold_left]. rewrite fold_right_max_app in Hfit.
    rewrite zlen_app in *. change (zlen [t]) with 1 in *.
    pose proof (max_nonneg times) as Hmax. pose proof (zlen_nonneg times) as Hl.
    destruct IH as (Htot & Hlong & Havg & Hnil & Hlow); [exact Hpos | lia | nia |].
    set (s := fold_left _ times new_status) in *.
    unfold status_ok, calcCallTime.
    cbn [total_call_nums longest_call_time MethodStatus.avg_call_time].
    rewrite Htot, Hlong, fold_right_max_app, zlen_app. change (zlen [t]) with 1.
    split; [unfold u64; rewrite Z.mod_small; lia|].
    assert (Hm : (if fold_right Z.max 0 times <? t then t else fold_right Z.max 0 times)
                 = Z.max (fold_right Z.max 0 times) (Z.max t 0)) by (destruct (_ <? _) eqn:?; lia).
    rewrite Hm. split; [reflexivity|].
    split; [apply next_avg_between; lia|]. split; [intros H; destruct times; discriminate H|].
    intros _ lo Hlo. apply Forall_app in Hlo as [Hlo Hlot]. apply Forall_inv in Hlot.
    refine (proj1 (next_avg_between _ _ _ lo (Z.max (fold_right Z.max 0 times) (Z.max t 0)) _ _ _ _ _ _)); try lia.
    intros Hne. split; [|lia]. apply Hlow; [|exact Hlo]. intros Hn. apply Hne, Hnil, Hn.
Qed.

(** * Properties *)

(** C31: the statistics of a method after any sequence of calls, as long as
    the sum of their times fits 64 bits: the number of calls, the longest
    call, and an average that lies between the shortest and the longest. *)
Theorem method_status_after_calls times
    (Hpos : Forall (fun t => 0 <= t) times) (Hlen : zlen times < 2 ^ 64)
    (Hfit : fold_right Z.max 0 times * zlen times < 2 ^ 64) :
  let s := calls times new_status in
  total_call_nums s = zlen times /\ longest_call_time s = fold_right Z.max 0 times /\
  0 <= avg_call_time s <= longest_call_time s /\
  (times <> [] -> forall lo, Forall (fun t => 0 <= lo <= t) times -> lo <= avg_call_time s).
Proof. destruct (calls_ok times Hpos Hlen Hfit) as (? & ? & ? & _ & ?). auto. Qed.

Lemma method_status_after_calls_witness :
  let s := calls [10; 20; 33] new_status in
  total_call_nums s = zlen [10; 20; 33] /\ longest_call_time s = fold_right Z.max 0 [10; 20; 33] /\
  0 <= avg_call_time s <= longest_call_time s /\
  ([10; 20; 33] <> [] -> forall lo, Forall (fun t => 0 <= lo <= t) [10; 20; 33] -> lo <= avg_call_time s).
Proof.
  apply (method_status_after_calls [10; 20; 33]);
    [repeat constructor; discriminate | reflexivity | reflexivity].
Defined.

(** The average starts over whenever it is zero: calls that took zero
    milliseconds, however many, are forgotten, and the next call alone is
    reported as the average of all of them. *)
Theorem average_forgets_zero_calls n t :
  avg_call_time (calls (replicate n 0 ++ [t]) new_status) = t.
Proof.
  unfold calls. rewrite fold_left_app. cbn [fold_left].
  assert (Hz : forall s, avg_call_time s = 0 ->
    avg_call_time (fold_left (fun s t => calcCallTime t s) (replicate n 0) s) = 0).
  { induction n as [|n IH]; intros s Hs; [exact Hs|]. cbn [replicate fold_left]. apply IH.
    unfold calcCallTime. cbn [MethodStatus.avg_call_time]. rewrite Hs. reflexivity. }
  unfold calcCallTime at 1. cbn [MethodStatus.avg_call_time]. rewrite Hz by reflexivity. reflexivity.
Qed.
