(* ===== verification/Locks.v ===== *)
(** The locks of [common/include/RWLock.h] and [SpinLock.h]: who holds them.
    A call of [pthread] that would block is [None]; giving up a lock that is
    not held, which [pthread] leaves undefined, is [Stuck].  The guards
    ([ReadLockGuard], [WriteLockGuard], [std::lock_guard]) take the lock in
    their constructor and give it up in their destructor. *)
From Stdlib Require Import ZArith Lia Bool List.
From stdpp Require Import base list.
From S2P Require Import Prelude.

(** * [RWLock] *)

Record RWLock := mk_rwlock { readers : nat; writer : bool }.

Definition new_RWLock : RWLock := mk_rwlock 0 false.

Definition lock_write (k : RWLock) : option RWLock :=
  if writer k then None else match readers k with O => Some (mk_rwlock 0 true) | S _ => None end.

Definition lock_read (k : RWLock) : option RWLock :=
  if writer k then None else Some (mk_rwlock (S (readers k)) false).

Definition rw_unlock (k : RWLock) : outcome RWLock :=
  if writer k then Done new_RWLock
  else match readers k with O => Stuck AssertFailed | S n => Done (mk_rwlock n false) end.

(** [k] is held by [r] readers, or by one writer. *)
Definition held (k : RWLock) (r : nat) (w : bool) : Prop := readers k = r /\ writer k = w /\ (w = true -> r = 0%nat).

Lemma lock_read_held k k' r w : held k r w -> lock_read k = Some k' -> w = false /\ held k' (S r) false.
Proof.
  intros (<- & <- & _). unfold lock_read. destruct (writer k); [discriminate|]. intros [= <-].
  split; [reflexivity|]. repeat split. discriminate.
Qed.

Lemma lock_write_held k k' r w : held k r w -> lock_write k = Some k' -> r = 0%nat /\ w = false /\ held k' 0 true.
Proof.
  intros (<- & <- & _). unfold lock_write. destruct (writer k); [discriminate|]. destruct (readers k); [|discriminate].
  intros [= <-]. repeat split.
Qed.

Lemma unlock_reader k r : held k (S r) false -> exists k', rw_unlock k = Done k' /\ held k' r false.
Proof.
  intros (Hr & Hw & _). unfold rw_unlock. rewrite Hw, Hr. eexists. split; [reflexivity|]. repeat split. discriminate.
Qed.

Lemma unlock_writer k r : held k r true -> exists k', rw_unlock k = Done k' /\ held k' 0 false.
Proof. intros (_ & Hw & _). unfold rw_unlock. rewrite Hw. eexists. split; [reflexivity|]. repeat split. Qed.

(** * [SpinLock] *)

Record SpinLock := mk_spinlock { locked : bool }.

Definition new_SpinLock : SpinLock := mk_spinlock false.

Definition lock (k : SpinLock) : option SpinLock := if locked k then None else Some (mk_spinlock true).

Definition try_lock (k : SpinLock) : bool * SpinLock := if locked k then (false, k) else (true, mk_spinlock true).

Definition spin_unlock (k : SpinLock) : outcome SpinLock :=
  if locked k then Done new_SpinLock else Stuck AssertFailed.
