(* ===== verification/ServerConn.v ===== *)
(** A connection of the server: [RpcServerConn] (the base class, which sends
    responses) and [RpcServerRpcConn] (which reads length-prefixed requests),
    over the socket scripts of [Socket]. *)
From Stdlib Require Import ZArith Lia Bool List String Ascii.
From stdpp Require Import base list.
From S2P Require Import Prelude Wire Socket Queue.

(** * State *)

Record RpcServerConn := mk_conn {
  m_seqid : string;
  m_cur_left_len : Z;             (* uint32_t *)
  m_cur_pkg_size : Z;             (* uint32_t *)
  m_rpk : option request_pkg;
  is_connected : bool;
  m_sent_len : Z;                 (* uint32_t *)
  m_sent_pkg : option response_pkg;
  MAX_REQ_LIMIT_BYTE : Z;
  m_response_q : Queue response_pkg
}.

Definition put_left (v : Z) (c : RpcServerConn) : RpcServerConn :=
  mk_conn (m_seqid c) v (m_cur_pkg_size c) (m_rpk c) (is_connected c) (m_sent_len c) (m_sent_pkg c) (MAX_REQ_LIMIT_BYTE c) (m_response_q c).
Definition put_pkg_size (v : Z) (c : RpcServerConn) : RpcServerConn :=
  mk_conn (m_seqid c) (m_cur_left_len c) v (m_rpk c) (is_connected c) (m_sent_len c) (m_sent_pkg c) (MAX_REQ_LIMIT_BYTE c) (m_response_q c).
Definition put_rpk (v : option request_pkg) (c : RpcServerConn) : RpcServerConn :=
  mk_conn (m_seqid c) (m_cur_left_len c) (m_cur_pkg_size c) v (is_connected c) (m_sent_len c) (m_sent_pkg c) (MAX_REQ_LIMIT_BYTE c) (m_response_q c).
Definition put_connected (v : bool) (c : RpcServerConn) : RpcServerConn :=
  mk_conn (m_seqid c) (m_cur_left_len c) (m_cur_pkg_size c) (m_rpk c) v (m_sent_len c) (m_sent_pkg c) (MAX_REQ_LIMIT_BYTE c) (m_response_q c).
Definition put_sent (len : Z) (pkg : option response_pkg) (c : RpcServerConn) : RpcServerConn :=
  mk_conn (m_seqid c) (m_cur_left_len c) (m_cur_pkg_size c) (m_rpk c) (is_connected c) len pkg (MAX_REQ_LIMIT_BYTE c) (m_response_q c).
Definition put_response_q (v : Queue response_pkg) (c : RpcServerConn) : RpcServerConn :=
  mk_conn (m_seqid c) (m_cur_left_len c) (m_cur_pkg_size c) (m_rpk c) (is_connected c) (m_sent_len c) (m_sent_pkg c) (MAX_REQ_LIMIT_BYTE c) v.

(** The constructor; [max_req_size] is the server's configuration. *)
Definition new_conn (seqid : string) (max_req_size : Z) : RpcServerConn :=
  mk_conn seqid 0 0 None true 0 None max_req_size default_Queue.

Definition reset (c : RpcServerConn) : RpcServerConn :=
  put_rpk None (put_pkg_size 0 (put_left 0 (put_connected false c))).

Definition isSending (c : RpcServerConn) : bool :=
  match m_sent_pkg c with Some _ => true | None => false end.

(** * Sending: [RpcServerConn.cpp] *)

(** The loop of [sendData]: the status, the bytes put on the wire and the
    connection.  Only [EINTR] goes round again. *)
Fixpoint sendData_loop (fuel : nat) (c : RpcServerConn) (tx : list tx_event)
    : outcome (PkgIOStatus * buffer * RpcServerConn * list tx_event) :=
  match fuel with
  | O => Stuck Spinning
  | S fuel =>
      let! pkg := need NullPointer (m_sent_pkg c) in
      let data_to_send := i32 (u32 (rs_data_len pkg - m_sent_len c)) in
      let '(r, tx') := send (u64 data_to_send) tx in
      match r with
      | Sent slen =>
          if slen =? 0 then Done (FAIL, [], c, tx')
          else if zlen (rs_data pkg) <? m_sent_len c + slen then Stuck OutOfBounds
          else
            let out := take (Z.to_nat slen) (drop (Z.to_nat (m_sent_len c)) (rs_data pkg)) in
            let sent := u32 (m_sent_len c + slen) in
            if rs_data_len pkg =? sent then Done (FULL, out, put_sent 0 None c, tx')
            else Done (PARTIAL, out, put_sent sent (Some pkg) c, tx')
      | SendPipe => Done (FAIL, [], c, tx')
      | SendAgain => Done (PARTIAL, [], c, tx')
      | SendInterrupted => sendData_loop fuel c tx'
      | SendError => Done (FAIL, [], c, tx')
      end
  end.

Definition sendData (c : RpcServerConn) (tx : list tx_event) :=
  sendData_loop (S (length tx)) c tx.

(** [sendResponse]; the queue-time statistics are left to [Stats]. *)
Definition sendResponse (c : RpcServerConn) (tx : list tx_event)
    : outcome (PkgIOStatus * buffer * RpcServerConn * list tx_event) :=
  if negb (is_connected c) then Done (FAIL, [], c, tx)
  else if isSending c then sendData c tx
  else
    match pop_now (m_response_q c) with
    | (Some pkg, q) => sendData (put_sent 0 (Some pkg) (put_response_q q c)) tx
    | (None, q) => Done (NODATA, [], put_response_q q c, tx)
    end.

(** * Receiving: [RpcServerRpcConn.cpp] *)

(** The loop of [readPkgLen] with the bytes of the length it has: [None] for
    [false], otherwise the length ([pkg_len], 0 when there is no data). *)
Fixpoint readPkgLen_loop (fuel : nat) (got : bytes) (pkg_len : Z) (rx : list rx_event)
    : outcome (option Z * list rx_event) :=
  match fuel with
  | O => Stuck Spinning
  | S fuel =>
      let left_size := 4 - zlen got in
      let '(r, rx') := recv left_size rx in
      match r with
      | Closed => if negb (left_size =? 0) then Done (None, rx')
                  else let! v := need OutOfBounds (get32 got) in Done (Some v, rx')
      | Again | Interrupted =>
          if left_size =? 4 then Done (Some pkg_len, rx')
          else readPkgLen_loop fuel got pkg_len rx'
      | RecvError => Done (None, rx')
      | Received b =>
          let got := got ++ b in
          let left_size := left_size - zlen b in
          if left_size =? 0 then
            let! v := need OutOfBounds (get32 got) in Done (Some v, rx')
          else if 0 <? left_size then readPkgLen_loop fuel got pkg_len rx'
          else Done (None, rx')
      end
  end.

Definition readPkgLen (fuel : nat) (c : RpcServerConn) (rx : list rx_event)
    : outcome (option Z * list rx_event) :=
  if negb (is_connected c) then Done (None, rx)
  else readPkgLen_loop fuel [] (m_cur_pkg_size c) rx.

(** The loop of [readPkgData]. *)
Fixpoint readPkgData_loop (fuel : nat) (c : RpcServerConn) (rx : list rx_event)
    : outcome (PkgIOStatus * RpcServerConn * list rx_event) :=
  match fuel with
  | O => Stuck Spinning
  | S fuel =>
      let! pkg := need NullPointer (m_rpk c) in
      let '(r, rx') := recv (m_cur_left_len c) rx in
      match r with
      | Closed => Done (FAIL, c, rx')
      | Again => Done (PARTIAL, c, rx')
      | Interrupted => readPkgData_loop fuel c rx'
      | RecvError => Done (FAIL, c, rx')
      | Received b =>
          let! d := need OutOfBounds
                      (write_at (rq_data pkg) (u32 (m_cur_pkg_size c - m_cur_left_len c)) b) in
          let pkg := {| rq_data := d; rq_data_len := rq_data_len pkg;
                        rq_connection_id := rq_connection_id pkg;
                        rq_is_from_http := rq_is_from_http pkg |} in
          let c := put_rpk (Some pkg) c in
          if zlen b =? m_cur_left_len c then
            Done (FULL, put_pkg_size 0 (put_left 0 c), rx')
          else Done (PARTIAL, put_left (u32 (m_cur_left_len c - zlen b)) c, rx')
      end
  end.

Definition readPkgData (fuel : nat) (c : RpcServerConn) (rx : list rx_event)
    : outcome (PkgIOStatus * RpcServerConn * list rx_event) :=
  match m_rpk c with
  | None => Done (FAIL, c, rx)
  | Some _ =>
      if negb (is_connected c) then Done (FAIL, c, rx) else readPkgData_loop fuel c rx
  end.

(** [pkg_ret_t] *)
Definition pkg_ret_t : Type := Z * option request_pkg.

(** What [getRequest] does once the length is known. *)
Definition getRequest_data (fuel : nat) (c : RpcServerConn) (rx : list rx_event)
    : outcome (pkg_ret_t * RpcServerConn * list rx_event) :=
  let! (data_ret, c, rx) := readPkgData fuel c rx in
  match data_ret with
  | FAIL => Done ((-1, None), c, rx)
  | PARTIAL => Done ((0, None), c, rx)
  | _ => Done ((0, m_rpk c), put_rpk None c, rx)
  end.

Definition getRequest (fuel : nat) (c : RpcServerConn) (rx : list rx_event)
    : outcome (pkg_ret_t * RpcServerConn * list rx_event) :=
  if m_cur_pkg_size c =? 0 then
    let! (r, rx) := readPkgLen fuel c rx in
    match r with
    | None => Done ((-1, None), c, rx)
    | Some len =>
        let c := put_pkg_size len c in
        if m_cur_pkg_size c =? 0 then Done ((0, None), c, rx)
        else if MAX_REQ_LIMIT_BYTE c <? m_cur_pkg_size c then Done ((-1, None), c, rx)
        else
          let c := put_rpk (Some (new_request_pkg (m_cur_pkg_size c) (m_seqid c))) c in
          getRequest_data fuel (put_left (m_cur_pkg_size c) c) rx
    end
  else getRequest_data fuel c rx.
