(* ===== verification/ServerConnProps.v ===== *)
(** What [ServerConn] guarantees: requests are cut out of the byte stream
    exactly as it was framed, however the stream is segmented, and responses
    go on the wire complete and in order. *)
From Stdlib Require Import ZArith Lia Bool List String Ascii.
From stdpp Require Import base list.
From S2P Require Import Prelude Wire Socket Queue ServerConn.

(** * The framing invariant *)

(** A request on the wire. *)
Definition frame (payload : bytes) : bytes := put32 (zlen payload) ++ payload.

(** A package of [size] bytes of which [pre] have arrived. *)
Definition pkg_with (size : Z) (id : string) (pre : bytes) : request_pkg :=
  {| rq_data := (Some <$> pre) ++ new_buffer (size - zlen pre); rq_data_len := size;
     rq_connection_id := id; rq_is_from_http := false |}.

(** The package of a request that has arrived. *)
Definition delivered (id : string) (payload : bytes) : request_pkg :=
  {| rq_data := Some <$> payload; rq_data_len := zlen payload; rq_connection_id := id;
     rq_is_from_http := false |}.

Lemma pkg_with_all id payload : pkg_with (zlen payload) id payload = delivered id payload.
Proof. unfold pkg_with, delivered. rewrite Z.sub_diag. f_equal. apply app_nil_r. Qed.

(** The connection between two calls: [part] are the bytes of the current
    request it has taken from the socket. *)
Inductive conn_at (c : RpcServerConn) : bytes -> Prop :=
| at_start :
    m_cur_pkg_size c = 0 -> m_rpk c = None -> conn_at c []
| at_data pre :
    0 <= zlen pre < m_cur_pkg_size c -> m_cur_pkg_size c < 2 ^ 32 ->
    m_cur_left_len c = m_cur_pkg_size c - zlen pre ->
    m_rpk c = Some (pkg_with (m_cur_pkg_size c) (m_seqid c) pre) ->
    conn_at c (put32 (m_cur_pkg_size c) ++ pre).

(** What one call of [getRequest] did to the byte stream. *)
Definition framed (id : string) (part used part' : bytes) (ret : pkg_ret_t) : Prop :=
  match ret with
  | (_, Some pkg) =>
      exists payload, pkg = delivered id payload /\
        payload <> [] /\ zlen payload < 2 ^ 32 /\ part ++ used = frame payload /\ part' = []
  | (_, None) => part ++ used = part' \/ part ++ used = put32 0 /\ part' = []
  end.

(** What a completed call promises about the connection it leaves. *)
Definition request_ok (c : RpcServerConn) (part : bytes) (rx : list rx_event)
    (r : outcome (pkg_ret_t * RpcServerConn * list rx_event)) : Prop :=
  match r with
  | Done ((st, o), c', rx') =>
      (st = -1 /\ o = None) \/
      (st = 0 /\ is_connected c' = is_connected c /\ m_seqid c' = m_seqid c /\
       MAX_REQ_LIMIT_BYTE c' = MAX_REQ_LIMIT_BYTE c /\
       exists used part', rx_bytes rx = used ++ rx_bytes rx' /\
         conn_at c' part' /\ framed (m_seqid c) part used part' (st, o))
  | Stuck Spinning => True
  | Stuck _ => False
  end.

Lemma readPkgLen_loop_ok fuel got rx :
  zlen got < 4 ->
  match readPkgLen_loop fuel got 0 rx with
  | Done (Some v, rx') =>
      exists used, rx_bytes rx = used ++ rx_bytes rx' /\ 0 <= v < 2 ^ 32 /\
        (got ++ used = put32 v \/ got = [] /\ used = [] /\ v = 0)
  | Done (None, _) => True
  | Stuck Spinning => True
  | Stuck _ => False
  end.
Proof.
  revert got rx. induction fuel as [|fuel IH]; intros got rx Hgot; [exact I|]. cbn [readPkgLen_loop].
  pose proof (zlen_nonneg got) as H0.
  destruct (recv (4 - zlen got) rx) as [r rx'] eqn:Hr.
  assert (Hagain : (forall b, r <> Received b) ->
    match (if 4 - zlen got =? 4 then Done (Some 0, rx') else readPkgLen_loop fuel got 0 rx') with
    | Done (Some v, rx') => exists used, rx_bytes rx = used ++ rx_bytes rx' /\ 0 <= v < 2 ^ 32 /\
        (got ++ used = put32 v \/ got = [] /\ used = [] /\ v = 0)
    | Done (None, _) => True
    | Stuck Spinning => True
    | Stuck _ => False
    end).
  { intros Hne. destruct (recv_other _ _ _ _ Hr Hne) as [Hb _]. destruct (_ =? 4) eqn:H4.
    - exists []. split; [exact Hb|]. split; [lia|]. right.
      destruct got; [auto | rewrite zlen_cons in H4; pose proof (zlen_nonneg got); lia].
    - rewrite Hb. apply IH. exact Hgot. }
  destruct r as [b| | | |].
  - apply recv_received in Hr as (Hb & Hbytes & _); [|lia].
    destruct (_ =? 0) eqn:Hz.
    + assert (Hlen : length (got ++ b) = 4%nat) by (rewrite length_app; unfold zlen in *; lia).
      destruct (get32 (got ++ b)) as [v|] eqn:Hv.
      * cbn. exists b. split; [exact Hbytes|]. split; [exact (get32_range _ _ Hv)|]. left.
        symmetry. apply put32_get32; assumption.
      * destruct (got ++ b) as [|? [|? [|? [|? ?]]]]; discriminate.
    + replace (0 <? 4 - zlen got - zlen b) with true by lia.
      specialize (IH (got ++ b) rx' ltac:(rewrite zlen_app; lia)).
      destruct (readPkgLen_loop fuel (got ++ b) 0 rx') as [[[v|] rx2]|[]]; try exact IH.
      destruct IH as (used & Hu & Hv & Hcase). exists (b ++ used). rewrite Hbytes, Hu, app_assoc.
      split; [reflexivity|]. split; [exact Hv|]. left.
      destruct Hcase as [Hc | (Hc & _)]; [rewrite <- app_assoc in Hc; exact Hc|].
      destruct got, b; try discriminate. unfold zlen in Hb. cbn in Hb. lia.
  - replace (negb (4 - zlen got =? 0)) with true by (symmetry; apply negb_true_iff, Z.eqb_neq; lia). exact I.
  - apply Hagain. discriminate.
  - apply Hagain. discriminate.
  - exact I.
Qed.

Lemma readPkgData_loop_ok fuel c pre rx :
  conn_at c (put32 (m_cur_pkg_size c) ++ pre) -> m_cur_pkg_size c <> 0 ->
  match readPkgData_loop fuel c rx with
  | Done (FAIL, _, _) => True
  | Done (st, c', rx') =>
      is_connected c' = is_connected c /\ m_seqid c' = m_seqid c /\
      MAX_REQ_LIMIT_BYTE c' = MAX_REQ_LIMIT_BYTE c /\
      exists used, rx_bytes rx = used ++ rx_bytes rx' /\
      ((st = PARTIAL /\ conn_at c' (put32 (m_cur_pkg_size c) ++ pre ++ used)) \/
       (st = FULL /\ m_cur_pkg_size c' = 0 /\ zlen (pre ++ used) = m_cur_pkg_size c /\
        m_rpk c' = Some (pkg_with (m_cur_pkg_size c) (m_seqid c) (pre ++ used))))
  | Stuck Spinning => True
  | Stuck _ => False
  end.
Proof.
  intros Hc Hsize. inversion Hc as [|pre' Hpre Hmax Hleft Hrpk Heq]. subst pre'. clear Hc.
  revert rx. induction fuel as [|fuel IH]; intros rx; [exact I|]. cbn [readPkgData_loop].
  rewrite Hrpk. cbn [need outcome_bind]. pose proof (zlen_nonneg pre) as H0.
  destruct (recv (m_cur_left_len c) rx) as [r rx'] eqn:Hr. destruct r as [b| | | |].
  - apply recv_received in Hr as (Hb & Hbytes & _); [|lia].
    cbn [pkg_with rq_data rq_data_len rq_connection_id rq_is_from_http].
    rewrite u32_small by lia. replace (m_cur_pkg_size c - m_cur_left_len c) with (zlen pre) by lia.
    rewrite write_at_prefix by lia. cbn [need outcome_bind].
    cbn [put_rpk m_cur_left_len]. destruct (_ =? _) eqn:Hfull; cbn [put_pkg_size put_left put_rpk is_connected m_seqid MAX_REQ_LIMIT_BYTE m_cur_pkg_size m_rpk];
      (do 3 (split; [reflexivity|])); exists b; (split; [exact Hbytes|]).
    + right. split; [reflexivity|]. split; [reflexivity|]. rewrite zlen_app. split; [lia|].
      unfold pkg_with. rewrite zlen_app. do 4 f_equal. lia.
    + left. split; [reflexivity|]. rewrite u32_small by lia.
      refine (at_data _ (pre ++ b) _ _ _ _); cbn; rewrite ?zlen_app; try lia.
      unfold pkg_with. rewrite zlen_app. do 4 f_equal. lia.
  - exact I.
  - destruct (recv_other _ _ _ _ Hr) as [Hb _]; [discriminate|]. do 3 (split; [reflexivity|]).
    exists []. rewrite app_nil_r. split; [exact Hb|]. left. split; [reflexivity|].
    apply at_data; assumption.
  - destruct (recv_other _ _ _ _ Hr) as [Hb _]; [discriminate|]. rewrite Hb. apply IH.
  - exact I.
Qed.

Lemma getRequest_data_ok fuel c pre rx part0 used0 rx0 :
  conn_at c (put32 (m_cur_pkg_size c) ++ pre) -> m_cur_pkg_size c <> 0 ->
  part0 ++ used0 = put32 (m_cur_pkg_size c) ++ pre -> rx_bytes rx0 = used0 ++ rx_bytes rx ->
  request_ok c part0 rx0 (getRequest_data fuel c rx).
Proof.
  intros Hc Hsize Hpart Hrx. unfold getRequest_data, readPkgData.
  assert (Hr : exists pkg, m_rpk c = Some pkg) by (inversion Hc; eauto).
  destruct Hr as (pkg & Hr). rewrite Hr.
  destruct (negb (is_connected c)); [cbn; auto|].
  pose proof (readPkgData_loop_ok fuel c pre rx Hc Hsize) as Hl.
  destruct (readPkgData_loop fuel c rx) as [[[st c'] rx']|w]; cbn [outcome_bind]; [|destruct w; done].
  destruct st; [left; auto| | destruct Hl as (_ & _ & _ & used & _ & [[? _] | [? _]]); discriminate
    | destruct Hl as (_ & _ & _ & used & _ & [[? _] | [? _]]); discriminate |];
    destruct Hl as (H1 & H2 & H3 & used & Hu & Hcase); right; (do 4 (split; [assumption || reflexivity|]));
    exists (used0 ++ used).
  - destruct Hcase as [[_ Hat] | [? _]]; [|discriminate].
    exists (put32 (m_cur_pkg_size c) ++ pre ++ used). rewrite Hrx, Hu, <- app_assoc.
    split; [reflexivity|]. split; [exact Hat|]. left. rewrite app_assoc, Hpart, <- app_assoc. reflexivity.
  - destruct Hcase as [[? _] | (_ & Hz & Hlen & Hrpk)]; [discriminate|].
    exists []. rewrite Hrx, Hu, <- app_assoc. split; [reflexivity|].
    split; [apply at_start; [exact Hz | reflexivity]|]. cbn [framed]. rewrite Hrpk.
    exists (pre ++ used). rewrite <- Hlen, pkg_with_all. split; [reflexivity|].
    split; [intros Hnil; rewrite Hnil in Hlen; apply Hsize; symmetry; exact Hlen|].
    split; [rewrite Hlen; inversion Hc; assumption|].
    split; [|reflexivity]. unfold frame. rewrite Hlen, app_assoc, Hpart, <- app_assoc. reflexivity.
Qed.

(** One call of [getRequest] keeps the byte stream. *)
Lemma getRequest_ok fuel c part rx :
  conn_at c part -> MAX_REQ_LIMIT_BYTE c < 2 ^ 32 -> request_ok c part rx (getRequest fuel c rx).
Proof.
  intros Hc Hmax. unfold getRequest.
  inversion Hc as [Hz Hrpk Hp | pre Hpre Hsz Hleft Hrpk Hp]; subst part.
  2:{ replace (m_cur_pkg_size c =? 0) with false by lia.
      apply (getRequest_data_ok fuel c pre rx _ [] rx); [exact Hc | lia | apply app_nil_r | reflexivity]. }
  rewrite Hz, Z.eqb_refl. unfold readPkgLen. destruct (negb (is_connected c)); [cbn; auto|].
  rewrite Hz. pose proof (readPkgLen_loop_ok fuel [] rx ltac:(reflexivity)) as Hl.
  destruct (readPkgLen_loop fuel [] 0 rx) as [[[v|] rx']|w]; cbn [outcome_bind];
    [|left; auto|destruct w; done].
  destruct Hl as (used & Hu & Hv & Hcase). cbn [app] in Hcase.
  change (m_cur_pkg_size (put_pkg_size v c)) with v. change (MAX_REQ_LIMIT_BYTE (put_pkg_size v c)) with (MAX_REQ_LIMIT_BYTE c).
  destruct (v =? 0) eqn:Hv0.
  - apply Z.eqb_eq in Hv0. subst v. right. do 4 (split; [reflexivity|]). exists used, [].
    split; [exact Hu|]. split; [apply at_start; [reflexivity | exact Hrpk]|]. cbn [framed app].
    destruct Hcase as [Hc' | (_ & Hc' & _)]; auto.
  - destruct (_ <? v) eqn:Hbig; [left; auto|].
    assert (Hused : used = put32 v) by (destruct Hcase as [? | (_ & _ & ?)]; [assumption | lia]).
    set (c1 := put_left v (put_rpk (Some (new_request_pkg v (m_seqid c))) (put_pkg_size v c))).
    refine (getRequest_data_ok fuel c1 [] rx' [] used rx _ _ _ _).
    + refine (at_data c1 [] _ _ _ _); change (zlen (@nil ascii)) with 0; cbn [c1 put_left put_rpk put_pkg_size m_cur_pkg_size m_cur_left_len m_rpk m_seqid];
        try lia.
      unfold new_request_pkg, pkg_with. change (zlen (@nil ascii)) with 0.
      rewrite Z.sub_0_r. reflexivity.
    + cbn. lia.
    + change (used = put32 v ++ []). rewrite app_nil_r. exact Hused.
    + exact Hu.
Qed.

(** * Any number of calls *)

(** [getRequest] called [calls] times, as [onDataIn] does once per event: the
    requests handed out, and the connection unless a call failed. *)
Fixpoint requests (calls fuel : nat) (c : RpcServerConn) (rx : list rx_event)
    : outcome (list request_pkg * option RpcServerConn * list rx_event) :=
  match calls with
  | O => Done ([], Some c, rx)
  | S calls =>
      let! ((st, o), c, rx) := getRequest fuel c rx in
      if st <? 0 then Done ([], None, rx)
      else
        let! (l, c, rx) := requests calls fuel c rx in
        Done (match o with Some pkg => pkg :: l | None => l end, c, rx)
  end.

(** The payloads that make a request: empty frames are skipped. *)
Definition payloads (frames : list bytes) : list bytes := filter (fun f => f <> []) frames.

Lemma requests_ok calls fuel c part rx pkgs oc rx' :
  conn_at c part -> MAX_REQ_LIMIT_BYTE c < 2 ^ 32 ->
  requests calls fuel c rx = Done (pkgs, oc, rx') ->
  exists frames part', pkgs = map (delivered (m_seqid c)) (payloads frames) /\
    match oc with
    | Some c' => part ++ rx_bytes rx = concat (map frame frames) ++ part' ++ rx_bytes rx' /\ conn_at c' part'
    | None => part ++ rx_bytes rx = concat (map frame frames) ++ part'
    end.
Proof.
  revert c part rx pkgs. induction calls as [|calls IH]; intros c part rx pkgs Hc Hmax; cbn [requests].
  - intros [= <- <- <-]. exists [], part. split; [reflexivity|]. split; [reflexivity | exact Hc].
  - pose proof (getRequest_ok fuel c part rx Hc Hmax) as Hok.
    destruct (getRequest fuel c rx) as [[[[st o] c1] rx1]|w]; cbn [outcome_bind]; [|discriminate].
    cbn [request_ok] in Hok. destruct Hok as [[-> ->] | (-> & H1 & H2 & H3 & used & part1 & Hu & Hat & Hf)].
    + cbn. intros [= <- <- <-]. exists [], (part ++ rx_bytes rx). split; reflexivity.
    + cbn [Z.ltb Z.compare]. destruct (requests calls fuel c1 rx1) as [[[l oc1] rx2]|w] eqn:Hreq; [|discriminate].
      cbn [outcome_bind]. intros [= <- <- <-].
      destruct (IH c1 part1 rx1 l Hat ltac:(rewrite H3; exact Hmax) Hreq) as (frames & part' & -> & Hend). rewrite H2.
      destruct o as [pkg|]; cbn [framed] in Hf.
      * destruct Hf as (payload & -> & Hne & _ & Hpu & ->). exists (payload :: frames), part'.
        split.
        { unfold payloads. rewrite filter_cons_True by exact Hne. reflexivity. }
        rewrite Hu, app_assoc, Hpu. cbn [map concat]. rewrite <- !app_assoc. cbn [app] in Hend.
        destruct oc1; [destruct Hend as [-> ?]; auto | rewrite Hend; reflexivity].
      * destruct Hf as [Hpu | [Hpu ->]].
        { exists frames, part'. split; [reflexivity|]. rewrite Hu, app_assoc, Hpu. exact Hend. }
        { exists ([] :: frames), part'. split.
          { unfold payloads. rewrite filter_cons_False by (intros H; apply H; reflexivity). reflexivity. }
          rewrite Hu, app_assoc, Hpu. cbn [map concat]. change (frame []) with (put32 0 ++ []).
          rewrite app_nil_r, <- app_assoc. cbn [app] in Hend.
          destruct oc1; [destruct Hend as [-> ?]; auto | rewrite Hend; reflexivity]. }
Qed.

(** * Progress on data *)

Definition data_only (rx : list rx_event) : Prop :=
  Forall (fun e => match e with RxData (_ :: _) => True | _ => False end) rx.

Lemma recv_data n rx :
  0 < n -> data_only rx -> rx <> [] ->
  exists b rx', recv n rx = (Received b, rx') /\ data_only rx'.
Proof.
  intros Hn Hd Hne. destruct rx as [|e rx]; [contradiction|]. inversion Hd as [|? ? He Hd']; subst.
  destruct e as [[|x b]| | | |]; try contradiction. cbn [recv].
  destruct (zlen (x :: b) <=? n) eqn:Hle; [eauto|]. do 2 eexists. split; [reflexivity|].
  constructor; [|exact Hd']. destruct (drop (Z.to_nat n) (x :: b)) eqn:Hdr; [|exact I].
  apply Z.leb_gt in Hle. apply (f_equal length) in Hdr. rewrite length_drop in Hdr. unfold zlen in Hle. cbn [length] in *. lia.
Qed.

Lemma readPkgLen_progress fuel got rx :
  data_only rx -> zlen got < 4 -> 4 <= zlen got + zlen (rx_bytes rx) -> (rx_size rx < fuel)%nat ->
  exists v rx', readPkgLen_loop fuel got 0 rx = Done (Some v, rx') /\ data_only rx' /\ (rx_size rx' < rx_size rx)%nat.
Proof.
  revert got rx. induction fuel as [|fuel IH]; intros got rx Hd Hgot Hall Hf; [lia|].
  cbn [readPkgLen_loop]. pose proof (zlen_nonneg got) as H0.
  assert (Hne : rx <> []) by (intros ->; change (zlen (rx_bytes [])) with 0 in Hall; lia).
  destruct (recv_data (4 - zlen got) rx ltac:(lia) Hd Hne) as (b & rx' & Hr & Hd'). rewrite Hr.
  apply recv_received in Hr as (Hb & Hbytes & Hs); [|lia].
  rewrite Hbytes, zlen_app in Hall.
  destruct (_ =? 0) eqn:Hz.
  - assert (Hlen : length (got ++ b) = 4%nat) by (rewrite length_app; unfold zlen in *; lia).
    destruct (got ++ b) as [|? [|? [|? [|? ?]]]]; try discriminate. cbn [get32 need outcome_bind].
    eauto.
  - replace (0 <? 4 - zlen got - zlen b) with true by lia.
    destruct (IH (got ++ b) rx' Hd') as (v & rx2 & Hl & Hd2 & Hs2);
      [rewrite zlen_app; lia | rewrite zlen_app; lia | lia |].
    exists v, rx2. split; [exact Hl|]. split; [exact Hd2 | lia].
Qed.

Lemma readPkgData_progress fuel c part rx :
  conn_at c part -> m_cur_pkg_size c <> 0 -> is_connected c = true ->
  data_only rx -> rx <> [] -> (0 < fuel)%nat ->
  exists o c' rx', getRequest_data fuel c rx = Done ((0, o), c', rx') /\
    data_only rx' /\ (rx_size rx' < rx_size rx)%nat.
Proof.
  intros Hc Hsz Hconn Hd Hne Hf. inversion Hc as [|pre Hpre Hmax Hleft Hrpk Hp]; [contradiction|]. subst part.
  unfold getRequest_data, readPkgData. rewrite Hrpk, Hconn. cbn [negb]. destruct fuel as [|fuel]; [lia|].
  cbn [readPkgData_loop]. rewrite Hrpk. cbn [need outcome_bind].
  destruct (recv_data (m_cur_left_len c) rx ltac:(lia) Hd Hne) as (b & rx' & Hr & Hd'). rewrite Hr.
  apply recv_received in Hr as (Hb & _ & Hs); [|lia].
  pose proof (zlen_nonneg pre). cbn [pkg_with rq_data].
  rewrite u32_small by lia. replace (m_cur_pkg_size c - m_cur_left_len c) with (zlen pre) by lia.
  rewrite write_at_prefix by lia. cbn [need outcome_bind].
  destruct (_ =? _); cbn [outcome_bind]; eauto 8.
Qed.

(** There is something to take. *)
Definition ready (c : RpcServerConn) (rx : list rx_event) : Prop :=
  m_cur_pkg_size c <> 0 /\ rx <> [] \/
  m_cur_pkg_size c = 0 /\ exists payload rest, rx_bytes rx = frame payload ++ rest /\
    zlen payload <= MAX_REQ_LIMIT_BYTE c /\ zlen payload < 2 ^ 32 /\ payload <> [].

(** With a length and data at hand, a call of [getRequest] takes some. *)
Lemma getRequest_progress fuel c part rx :
  conn_at c part -> is_connected c = true -> data_only rx -> (rx_size rx < fuel)%nat ->
  ready c rx ->
  exists o c' rx', getRequest fuel c rx = Done ((0, o), c', rx') /\
    data_only rx' /\ (rx_size rx' < rx_size rx)%nat.
Proof.
  intros Hc Hconn Hd Hf [[Hsz Hne] | (Hsz & payload & rest & Hrx & Hmax & H32 & Hnil)]; unfold getRequest.
  { replace (m_cur_pkg_size c =? 0) with false by lia.
    apply (readPkgData_progress fuel c part rx); auto; lia. }
  rewrite Hsz, Z.eqb_refl. unfold readPkgLen. rewrite Hconn, Hsz. cbn [negb].
  destruct (readPkgLen_progress fuel [] rx Hd) as (v & rx1 & Hl & Hd1 & Hs1); [reflexivity | | exact Hf |].
  { rewrite Hrx. unfold frame. rewrite !zlen_app. pose proof (zlen_nonneg payload). pose proof (zlen_nonneg rest).
    change (zlen (put32 (zlen payload))) with 4. change (zlen (@nil ascii)) with 0. lia. }
  pose proof (readPkgLen_loop_ok fuel [] rx ltac:(reflexivity)) as Hok. rewrite Hl in Hok |- *.
  destruct Hok as (used & Hu & Hv & Hcase). cbn [outcome_bind].
  change (m_cur_pkg_size (put_pkg_size v c)) with v. change (MAX_REQ_LIMIT_BYTE (put_pkg_size v c)) with (MAX_REQ_LIMIT_BYTE c).
  destruct (v =? 0) eqn:Hv0; [eauto 8|].
  destruct Hcase as [Hcase | (_ & _ & ?)]; [|lia]. cbn [app] in Hcase. subst used.
  assert (Hveq : v = zlen payload).
  { pose proof (get32_put32 v (rx_bytes rx1) Hv) as H1. rewrite <- Hu, Hrx in H1. unfold frame in H1.
    rewrite <- app_assoc, get32_put32 in H1 by (pose proof (zlen_nonneg payload); lia). congruence. }
  replace (MAX_REQ_LIMIT_BYTE c <? v) with false by lia.
  set (c1 := put_left v (put_rpk (Some (new_request_pkg v (m_seqid c))) (put_pkg_size v c))).
  destruct (readPkgData_progress fuel c1 (put32 v ++ []) rx1) as (o & c' & rx' & He & Hd' & Hs').
  - refine (at_data c1 [] _ _ _ _); change (zlen (@nil ascii)) with 0;
      cbn [c1 put_left put_rpk put_pkg_size m_cur_pkg_size m_cur_left_len m_rpk m_seqid]; try lia.
    unfold new_request_pkg, pkg_with. change (zlen (@nil ascii)) with 0. rewrite Z.sub_0_r. reflexivity.
  - cbn. lia.
  - exact Hconn.
  - exact Hd1.
  - intros ->. rewrite Hrx in Hu. unfold frame in Hu. rewrite <- Hveq in Hu. cbn [rx_bytes] in Hu.
    rewrite <- app_assoc in Hu. apply app_inv_head in Hu. destruct payload; [contradiction | discriminate Hu].
  - lia.
  - exists o, c', rx'. split; [exact He|]. split; [exact Hd' | lia].
Qed.

(** * Whole streams *)

Lemma frame_inj p q x y :
  zlen p < 2 ^ 32 -> zlen q < 2 ^ 32 -> frame p ++ x = frame q ++ y -> p = q /\ x = y.
Proof.
  intros Hp Hq H. unfold frame in H. rewrite <- !app_assoc in H.
  pose proof (zlen_nonneg p). pose proof (zlen_nonneg q).
  assert (Hl : zlen p = zlen q).
  { pose proof (get32_put32 (zlen p) (p ++ x) ltac:(lia)) as Hg. rewrite H, get32_put32 in Hg by lia. congruence. }
  rewrite Hl in H. apply app_inv_head in H.
  apply app_inj_1 in H; [exact H | unfold zlen in Hl; lia].
Qed.

(** A stream the connection accepts: non-empty requests within the limit. *)
Definition acceptable (limit : Z) (p : bytes) : Prop := p <> [] /\ zlen p <= limit.

Lemma data_only_nonempty rx : data_only rx -> rx <> [] -> rx_bytes rx <> [].
Proof. intros Hd Hne. destruct Hd as [|[[|]| | | |] rx]; try contradiction. discriminate. Qed.

(** Nothing is left to take when the stream is used up. *)
Lemma conn_at_end c part ps :
  conn_at c part -> Forall (acceptable (MAX_REQ_LIMIT_BYTE c)) ps -> MAX_REQ_LIMIT_BYTE c < 2 ^ 32 ->
  part = concat (map frame ps) -> ps = [] /\ m_cur_pkg_size c = 0.
Proof.
  intros Hc Hps Hmax Hp. destruct ps as [|q ps].
  - split; [reflexivity|]. inversion Hc as [Hz Hr Hpt|pre Hpre Hsz Hl Hr Hpt]; [assumption|]. subst part. discriminate.
  - exfalso. inversion Hps as [|? ? [Hq Hql] _]; subst x l.
    inversion Hc as [Hz Hr Hpt|pre Hpre Hsz Hl Hr Hpt]; [rewrite Hp in Hpt; discriminate|].
    rename Hpt into Hc1. rewrite Hp in Hc1. cbn [map concat] in Hc1. unfold frame at 1 in Hc1.
    rewrite <- app_assoc in Hc1.
    pose proof (zlen_nonneg q). pose proof (zlen_nonneg pre).
    assert (Hs : m_cur_pkg_size c = zlen q).
    { pose proof (get32_put32 (m_cur_pkg_size c) pre ltac:(lia)) as H2.
      rewrite Hc1, get32_put32 in H2 by lia. congruence. }
    rewrite Hs in Hc1. apply app_inv_head in Hc1. subst pre.
    rewrite zlen_app in Hpre. pose proof (zlen_nonneg (concat (map frame ps))). lia.
Qed.

(** A connection, the part it holds, the data in its socket, and the requests
    [ps] these bytes make up. *)
Record deliverable (c : RpcServerConn) (part : bytes) (rx : list rx_event) (ps : list bytes) : Prop := {
  dl_at : conn_at c part;
  dl_connected : is_connected c = true;
  dl_data : data_only rx;
  dl_limit : MAX_REQ_LIMIT_BYTE c < 2 ^ 32;
  dl_ps : Forall (acceptable (MAX_REQ_LIMIT_BYTE c)) ps;
  dl_bytes : part ++ rx_bytes rx = concat (map frame ps)
}.

Lemma deliverable_ready c part rx ps : deliverable c part rx ps -> rx <> [] -> ready c rx.
Proof.
  intros [Hc Hconn Hd Hmax Hps Heq] Hne.
  inversion Hc as [Hz Hr Hp|pre Hpre Hsz Hl Hr Hp];
    [right | left; split; [pose proof (zlen_nonneg pre); lia | exact Hne]].
  split; [exact Hz|]. subst part. cbn [app] in Heq.
  destruct ps as [|q ps]; [apply (data_only_nonempty rx Hd) in Hne; contradiction|].
  inversion Hps as [|? ? [Hq Hql] _]; subst. exists q, (concat (map frame ps)).
  split; [exact Heq|]. split; [exact Hql|]. split; [lia | exact Hq].
Qed.

(** One call takes some of the data, and hands out the first request when it
    has all of it. *)
Lemma deliver_step fuel c part rx ps :
  deliverable c part rx ps -> rx <> [] -> (rx_size rx < fuel)%nat ->
  exists o c1 rx1 part1 ps1, getRequest fuel c rx = Done ((0, o), c1, rx1) /\
    deliverable c1 part1 rx1 ps1 /\ (rx_size rx1 < rx_size rx)%nat /\ m_seqid c1 = m_seqid c /\
    match o with
    | Some pkg => exists p, ps = p :: ps1 /\ pkg = delivered (m_seqid c) p
    | None => ps = ps1
    end.
Proof.
  intros Hdl Hne Hf. pose proof (deliverable_ready c part rx ps Hdl Hne) as Hready.
  destruct Hdl as [Hc Hconn Hd Hmax Hps Heq].
  destruct (getRequest_progress fuel c part rx Hc Hconn Hd Hf Hready) as (o & c1 & rx1 & Hg & Hd1 & Hs1).
  pose proof (getRequest_ok fuel c part rx Hc Hmax) as Hok. rewrite Hg in Hok.
  destruct Hok as [[? _] | (_ & Hk1 & Hk2 & Hk3 & used & part1 & Hu & Hat & Hfr)]; [discriminate|].
  rewrite Hu, app_assoc in Heq. exists o, c1, rx1, part1.
  destruct o as [pkg|]; cbn [framed] in Hfr.
  - destruct Hfr as (payload & -> & Hpne & H32 & Hpu & ->). rewrite Hpu in Heq.
    destruct ps as [|q ps]; [apply app_eq_nil in Heq as [Heq _]; discriminate|].
    inversion Hps as [|? ? [Hq Hql] Hps']; subst. cbn [map concat] in Heq.
    apply frame_inj in Heq as [-> Heq]; [|exact H32|lia].
    exists ps. split; [exact Hg|]. split; [split; rewrite ?Hk1, ?Hk3; assumption|]. split; [exact Hs1|].
    split; [exact Hk2|]. exists q. auto.
  - exists ps. split; [exact Hg|]. split; [|split; [exact Hs1 | auto]].
    split; rewrite ?Hk1, ?Hk3; try assumption.
    destruct Hfr as [Hpu | [Hpu ->]]; [rewrite <- Hpu; exact Heq|].
    rewrite Hpu in Heq. change (put32 0) with (frame []) in Heq.
    destruct ps as [|q ps]; [discriminate|]. inversion Hps as [|? ? [Hq Hql] _]; subst.
    cbn [map concat] in Heq. apply frame_inj in Heq as [<- _]; [contradiction | reflexivity | lia].
Qed.

(** A call without data changes nothing. *)
Lemma getRequest_idle fuel c part :
  deliverable c part [] [] -> getRequest (S fuel) c [] = Done ((0, None), put_pkg_size 0 c, []) /\
    deliverable (put_pkg_size 0 c) part [] [].
Proof.
  intros [Hc Hconn Hd Hmax Hps Heq]. rewrite app_nil_r in Heq.
  destruct (conn_at_end c part [] Hc Hps Hmax Heq) as [_ Hz]. split.
  - unfold getRequest, readPkgLen. rewrite Hz, Hconn. reflexivity.
  - split; try assumption; [|rewrite app_nil_r; exact Heq].
    inversion Hc as [? Hr|pre]; [apply at_start; [reflexivity | exact Hr] | pose proof (zlen_nonneg pre); lia].
Qed.

Lemma requests_deliver calls fuel ps c part rx :
  deliverable c part rx ps -> (rx_size rx <= calls)%nat -> (rx_size rx < fuel)%nat ->
  exists c', requests calls fuel c rx = Done (map (delivered (m_seqid c)) ps, Some c', []).
Proof.
  revert ps c part rx. induction calls as [|calls IH]; intros ps c part rx Hdl Hcalls Hf.
  - destruct rx as [|[] rx]; cbn in Hcalls; try lia. destruct Hdl as [Hc Hconn Hd Hmax Hps Heq].
    rewrite app_nil_r in Heq. destruct (conn_at_end c part ps Hc Hps Hmax Heq) as [-> _]. cbn. eauto.
  - cbn [requests]. destruct (decide (rx = [])) as [-> | Hne].
    + assert (ps = []) as ->.
      { destruct Hdl as [Hc Hconn Hd Hmax Hps Heq]. rewrite app_nil_r in Heq.
        apply (conn_at_end c part ps Hc Hps Hmax Heq). }
      destruct fuel as [|fuel]; [cbn in Hf; lia|].
      destruct (getRequest_idle fuel c part Hdl) as [-> Hdl']. cbn [outcome_bind Z.ltb Z.compare].
      destruct (IH [] _ part [] Hdl') as (c' & ->); [cbn; lia | cbn; lia |]. cbn. eauto.
    + destruct (deliver_step fuel c part rx ps Hdl Hne Hf)
        as (o & c1 & rx1 & part1 & ps1 & Hg & Hdl1 & Hs & Hid & Ho).
      rewrite Hg. cbn [outcome_bind Z.ltb Z.compare].
      destruct (IH ps1 c1 part1 rx1 Hdl1) as (c' & ->); [lia | lia |]. cbn [outcome_bind]. rewrite Hid.
      destruct o as [pkg|]; [destruct Ho as (p & -> & ->) | subst ps1]; eexists; reflexivity.
Qed.

(** * The sending invariant *)

(** A package as the response broker makes it. *)
Definition resp_ok (p : response_pkg) : Prop :=
  rs_data_len p = zlen (rs_data p) /\ 0 < rs_data_len p < 2 ^ 31.

(** The bytes a connection has still to put on the wire. *)
Definition unsent (c : RpcServerConn) : buffer :=
  match m_sent_pkg c with
  | Some p => drop (Z.to_nat (m_sent_len c)) (rs_data p)
  | None => []
  end ++ concat (map rs_data (m_queue (m_response_q c))).

Definition sender_ok (c : RpcServerConn) : Prop :=
  Forall resp_ok (m_queue (m_response_q c)) /\
  match m_sent_pkg c with
  | Some p => resp_ok p /\ 0 <= m_sent_len c < rs_data_len p
  | None => True
  end.

(** What a call that sends promises. *)
Definition sent_ok (c : RpcServerConn) (tx : list tx_event)
    (r : outcome (PkgIOStatus * buffer * RpcServerConn * list tx_event)) : Prop :=
  match r with
  | Done (st, out, c', tx') =>
      out ++ unsent c' = unsent c /\ sender_ok c' /\ is_connected c' = is_connected c /\
      (length tx' <= length tx)%nat /\
      (st = FULL -> m_sent_pkg c' = None /\ out <> []) /\
      (st = PARTIAL -> isSending c' = true)
  | Stuck _ => False
  end.

Lemma sendData_loop_ok fuel c p tx :
  sender_ok c -> m_sent_pkg c = Some p -> (length tx < fuel)%nat ->
  sent_ok c tx (sendData_loop fuel c tx).
Proof.
  intros Hok Hp. revert tx. induction fuel as [|fuel IH]; intros tx Hf; [lia|].
  destruct Hok as (Hq & Hs). rewrite Hp in Hs. destruct Hs as ((Hlen & Hsz) & Hsent).
  assert (Hok : sender_ok c) by (split; [exact Hq | rewrite Hp; repeat split; assumption || lia]).
  cbn [sendData_loop]. rewrite Hp. cbn [need outcome_bind].
  rewrite u32_small, i32_small, u64_small by lia.
  assert (Hsame : forall st tx', st <> FULL -> (length tx' <= length tx)%nat -> sent_ok c tx (Done (st, [], c, tx'))).
  { intros st tx' Hst Hl. split; [reflexivity|]. split; [exact Hok|]. split; [reflexivity|].
    split; [exact Hl|]. split; [contradiction|]. unfold isSending. rewrite Hp. reflexivity. }
  destruct tx as [|e tx]; [apply Hsame; [discriminate | cbn; lia]|].
  destruct e as [k| | | |]; cbn [send]; try (apply Hsame; [discriminate | cbn; lia]).
  - set (slen := Z.max 0 (Z.min k (rs_data_len p - m_sent_len c))).
    destruct (slen =? 0) eqn:Hz; [apply Hsame; [discriminate | cbn; lia]|].
    assert (Hslen : 0 < slen <= rs_data_len p - m_sent_len c) by lia. clearbody slen.
    replace (zlen (rs_data p) <? m_sent_len c + slen) with false by lia.
    rewrite u32_small by lia.
    assert (Hout : forall (d : list (option ascii)), 0 < slen <= zlen d -> take (Z.to_nat slen) d <> []).
    { intros d Hd Hn. apply (f_equal length) in Hn. rewrite length_take in Hn. unfold zlen in Hd.
      cbn [length] in Hn. lia. }
    specialize (Hout (drop (Z.to_nat (m_sent_len c)) (rs_data p)) ltac:(rewrite zlen_drop; lia)).
    assert (Hcat : take (Z.to_nat slen) (drop (Z.to_nat (m_sent_len c)) (rs_data p)) ++
              drop (Z.to_nat (m_sent_len c + slen)) (rs_data p) = drop (Z.to_nat (m_sent_len c)) (rs_data p)).
    { rewrite Z2Nat.inj_add, <- drop_drop, take_drop by lia. reflexivity. }
    destruct (rs_data_len p =? m_sent_len c + slen) eqn:Hfull; [apply Z.eqb_eq in Hfull | apply Z.eqb_neq in Hfull].
    + cbn [sent_ok]. unfold unsent. rewrite Hp. cbn [put_sent m_sent_pkg m_response_q m_sent_len].
      split; [|split; [split; [exact Hq | exact I]|]].
      { rewrite (drop_ge _ (Z.to_nat (m_sent_len c + slen))), app_nil_r in Hcat by (unfold zlen in Hlen; lia).
        rewrite Hcat. reflexivity. }
      split; [reflexivity|]. split; [cbn; lia|]. split; [auto | discriminate].
    + cbn [sent_ok]. unfold unsent. rewrite Hp. cbn [put_sent m_sent_pkg m_response_q m_sent_len].
      split; [rewrite app_assoc, Hcat; reflexivity|].
      split; [split; [exact Hq | cbn; repeat split; assumption || lia]|].
      split; [reflexivity|]. split; [cbn; lia|]. split; [discriminate | reflexivity].
  - specialize (IH tx ltac:(cbn in Hf; lia)). unfold sent_ok in *. 
    destruct (sendData_loop fuel c tx) as [[[[st out] c'] tx']|w]; [|exact IH].
    cbn [length]. intuition lia.
Qed.

Lemma sendResponse_ok c tx : sender_ok c -> sent_ok c tx (sendResponse c tx).
Proof.
  intros Hok. unfold sendResponse, isSending. destruct (is_connected c) eqn:Hconn; cbn [negb].
  2:{ cbn. split; [reflexivity|]. split; [exact Hok|]. split; [reflexivity|]. split; [lia|]. split; discriminate. }
  destruct (m_sent_pkg c) as [p|] eqn:Hp.
  - apply (sendData_loop_ok _ c p); [exact Hok | exact Hp | lia].
  - destruct Hok as (Hq & _). unfold pop_now, front_pop.
    destruct (m_queue (m_response_q c)) as [|q l] eqn:Hl.
    + cbn. unfold unsent. cbn [put_response_q m_sent_pkg m_response_q]. split; [reflexivity|].
      split; [split; cbn; [rewrite Hl; constructor | rewrite Hp; exact I]|].
      split; [reflexivity|]. split; [lia|]. split; discriminate.
    + inversion Hq as [|? ? Hq1 Hq2]; subst.
      set (c1 := put_sent 0 (Some q) (put_response_q (set_items l (m_response_q c)) c)).
      assert (Hu : unsent c1 = unsent c).
      { unfold unsent. rewrite Hp, Hl. cbn. reflexivity. }
      assert (Hok1 : sender_ok c1) by (split; [exact Hq2 | split; [exact Hq1 | destruct Hq1; cbn; lia]]).
      pose proof (sendData_loop_ok (S (length tx)) c1 q tx Hok1 eq_refl ltac:(lia)) as Hs.
      unfold sent_ok, sendData in *. rewrite Hu in Hs. exact Hs.
Qed.

(** [sendResponse] called [calls] times, as [onDataOut] does once per event,
    until a call fails: the bytes on the wire and the connection. *)
Fixpoint responses (calls : nat) (c : RpcServerConn) (tx : list tx_event)
    : outcome (buffer * RpcServerConn * list tx_event) :=
  match calls with
  | O => Done ([], c, tx)
  | S calls =>
      let! (st, out, c, tx) := sendResponse c tx in
      match st with
      | FAIL => Done (out, c, tx)
      | _ => let! (out', c, tx) := responses calls c tx in Done (out ++ out', c, tx)
      end
  end.

Lemma responses_ok calls c tx :
  sender_ok c ->
  exists out c' tx', responses calls c tx = Done (out, c', tx') /\ out ++ unsent c' = unsent c /\ sender_ok c'.
Proof.
  revert c tx. induction calls as [|calls IH]; intros c tx Hok; cbn [responses].
  - exists [], c, tx. auto.
  - pose proof (sendResponse_ok c tx Hok) as Hs. unfold sent_ok in Hs.
    destruct (sendResponse c tx) as [[[[st out] c1] tx1]|w]; [|contradiction]. cbn [outcome_bind].
    destruct Hs as (Hu & Hok1 & _).
    destruct (IH c1 tx1 Hok1) as (out' & c' & tx' & Hr & Hu' & Hok').
    destruct st; try (rewrite Hr; cbn [outcome_bind]; exists (out ++ out'), c', tx';
      rewrite <- app_assoc, Hu'; auto).
    exists out, c1, tx1. auto.
Qed.

(** * Properties *)

(** C10: framing.  Whatever arrives on a fresh connection, in whatever
    segments and with whatever interruptions, the requests handed out by any
    number of [getRequest] calls are the non-empty frames of the byte stream,
    in order, each with exactly the bytes of its payload; the stream is those
    frames (and empty ones), then the part of a frame the connection holds,
    then the bytes still in the socket. *)
Theorem requests_are_the_frames calls fuel seqid max_req_size rx pkgs c' rx'
    (Hmax : max_req_size < 2 ^ 32)
    (Hrun : requests calls fuel (new_conn seqid max_req_size) rx = Done (pkgs, Some c', rx')) :
  exists frames part, pkgs = map (delivered seqid) (payloads frames) /\
    rx_bytes rx = concat (map frame frames) ++ part ++ rx_bytes rx' /\ conn_at c' part.
Proof.
  destruct (requests_ok calls fuel _ [] rx pkgs (Some c') rx' (at_start (new_conn seqid max_req_size) eq_refl eq_refl)
    Hmax Hrun) as (frames & part & Hall & Heq & Hat). eauto.
Qed.

(** Two requests, the first in three segments that split its length. *)
Definition split_rx : list rx_event :=
  [RxAgain; RxData (take 2 (frame (bs "hello"))); RxIntr; RxData (drop 2 (take 7 (frame (bs "hello"))));
   RxAgain; RxData (drop 7 (frame (bs "hello")) ++ frame (bs "bye"))].

Lemma requests_are_the_frames_witness :
  exists pkgs c' rx', requests 6 50 (new_conn "c1" 1000) split_rx = Done (pkgs, Some c', rx') /\
    exists frames part, pkgs = map (delivered "c1") (payloads frames) /\
      rx_bytes split_rx = concat (map frame frames) ++ part ++ rx_bytes rx' /\ conn_at c' part.
Proof.
  do 3 eexists. split; [vm_compute; reflexivity|].
  apply (requests_are_the_frames 6 50 "c1" 1000 split_rx); [reflexivity | vm_compute; reflexivity].
Defined.

(** C9: delivery.  When the bytes of a sequence of requests, each non-empty
    and within the limit, arrive on a connection in any segments, enough calls
    of [getRequest] (one per byte and segment is enough) hand out exactly
    these requests, in order, and take everything from the socket. *)
Theorem requests_delivered calls fuel seqid max_req_size ps rx
    (Hmax : max_req_size < 2 ^ 32) (Hps : Forall (acceptable max_req_size) ps)
    (Hd : data_only rx) (Hrx : rx_bytes rx = concat (map frame ps))
    (Hcalls : (rx_size rx <= calls)%nat) (Hfuel : (rx_size rx < fuel)%nat) :
  exists c', requests calls fuel (new_conn seqid max_req_size) rx
             = Done (map (delivered seqid) ps, Some c', []).
Proof.
  apply (requests_deliver calls fuel ps (new_conn seqid max_req_size) [] rx); try assumption.
  split; try assumption; [apply at_start; reflexivity | reflexivity].
Qed.

Lemma requests_delivered_witness :
  exists c', requests 30 40 (new_conn "c1" 1000)
      [RxData (take 2 (frame (bs "hello"))); RxData (drop 2 (frame (bs "hello")) ++ frame (bs "bye"))]
      = Done (map (delivered "c1") [bs "hello"; bs "bye"], Some c', []).
Proof.
  apply (requests_delivered 30 40 "c1" 1000 [bs "hello"; bs "bye"]);
    [reflexivity | repeat constructor; discriminate | repeat constructor | reflexivity | cbn; lia | cbn; lia].
Defined.

(** A connection that has read one to three bytes of a length and finds
    no more data goes round the loop of [readPkgLen] for ever ([EAGAIN] only
    ends the loop before the first byte): no number of turns is enough. *)
Theorem partial_length_spins fuel seqid max_req_size b
    (Hb : 0 < zlen b < 4) :
  getRequest fuel (new_conn seqid max_req_size) [RxData b] = Stuck Spinning.
Proof.
  unfold getRequest, readPkgLen. cbn [new_conn m_cur_pkg_size is_connected negb]. rewrite Z.eqb_refl.
  assert (Hspin : forall fuel, readPkgLen_loop fuel b 0 [] = Stuck Spinning).
  { clear fuel. intros fuel. induction fuel as [|fuel IH]; [reflexivity|]. cbn [readPkgLen_loop recv].
    replace (4 - zlen b =? 4) with false by lia. exact IH. }
  destruct fuel as [|fuel]; [reflexivity|]. cbn [readPkgLen_loop].
  destruct b as [|x b]; [change (zlen []) with 0 in Hb; lia|]. cbn [recv].
  change (4 - zlen (@nil ascii)) with 4. replace (zlen (x :: b) <=? 4) with true by lia.
  cbn [app]. replace (4 - zlen (x :: b) =? 0) with false by lia.
  replace (0 <? 4 - zlen (x :: b)) with true by lia. rewrite Hspin. reflexivity.
Qed.

Lemma partial_length_spins_witness :
  getRequest 1000 (new_conn "c1" 1000) [RxData [chr 0; chr 0]] = Stuck Spinning.
Proof. apply (partial_length_spins 1000 "c1" 1000 [chr 0; chr 0]). split; reflexivity. Defined.

(** C11: sending.  However the socket accepts, refuses or interrupts the
    writes, the calls of [sendResponse] put on the wire a prefix of the
    responses in the order they were queued, none twice and none left out:
    what is on the wire followed by what is unsent is always the same bytes;
    and none of the calls uses a null package or reads past its end. *)
Theorem responses_in_order calls c tx (Hok : sender_ok c) :
  exists out c' tx', responses calls c tx = Done (out, c', tx') /\
    out ++ unsent c' = unsent c /\ sender_ok c'.
Proof. exact (responses_ok calls c tx Hok). Qed.

Definition two_responses : RpcServerConn :=
  put_response_q (set_items [{| rs_data := Some <$> bs "first"; rs_data_len := 5 |};
                             {| rs_data := Some <$> bs "second"; rs_data_len := 6 |}] default_Queue)
    (new_conn "c1" 1000).

Lemma responses_in_order_witness :
  exists out c' tx', responses 4 two_responses [TxAccept 3; TxAgain; TxAccept 9; TxIntr; TxAccept 4]
      = Done (out, c', tx') /\ out ++ unsent c' = unsent two_responses /\ sender_ok c'.
Proof.
  apply (responses_in_order 4 two_responses). split; [|exact I].
  repeat constructor; discriminate.
Defined.
