(* ===== verification/HttpConn.v ===== *)
(** [RpcServerHttpConn] of [server/src/RpcServerHttpConn.cpp]: the callbacks
    through which the HTTP parser fills a connection, and [getRequest], which
    makes a request package of what they gathered.

    The [printf] of the received bytes is left out (it reads the buffer as a C
    string). *)
From Stdlib Require Import ZArith Lia Bool List String Ascii.
From stdpp Require Import base list strings.
From S2P Require Import Prelude Wire Socket Queue ServerConn HttpTypes HttpExec.

(** * State *)

(** [m_base] is the [RpcServerConn] part. *)
Record RpcServerHttpConn := mk_http_conn {
  m_base : RpcServerConn;
  m_http_parser : http_parser;
  m_body : bytes;
  m_url : bytes;
  m_is_body_final : bool;
  m_keep_alive : bool;
  m_parse_fail : bool
}.

Definition put_http_parser (v : http_parser) (c : RpcServerHttpConn) : RpcServerHttpConn :=
  mk_http_conn (m_base c) v (m_body c) (m_url c) (m_is_body_final c) (m_keep_alive c) (m_parse_fail c).
Definition appendBody (buf : bytes) (c : RpcServerHttpConn) : RpcServerHttpConn :=
  mk_http_conn (m_base c) (m_http_parser c) (m_body c ++ buf) (m_url c) (m_is_body_final c) (m_keep_alive c) (m_parse_fail c).
Definition appendURL (buf : bytes) (c : RpcServerHttpConn) : RpcServerHttpConn :=
  mk_http_conn (m_base c) (m_http_parser c) (m_body c) (m_url c ++ buf) (m_is_body_final c) (m_keep_alive c) (m_parse_fail c).
Definition bodyFinal (f : bool) (c : RpcServerHttpConn) : RpcServerHttpConn :=
  mk_http_conn (m_base c) (m_http_parser c) (m_body c) (m_url c) f (m_keep_alive c) (m_parse_fail c).
Definition setKeepAlive (f : bool) (c : RpcServerHttpConn) : RpcServerHttpConn :=
  mk_http_conn (m_base c) (m_http_parser c) (m_body c) (m_url c) (m_is_body_final c) f (m_parse_fail c).
Definition setFail (f : bool) (c : RpcServerHttpConn) : RpcServerHttpConn :=
  mk_http_conn (m_base c) (m_http_parser c) (m_body c) (m_url c) (m_is_body_final c) (m_keep_alive c) f.

(** * Callbacks *)

Definition request_url_cb : http_data_cb RpcServerHttpConn :=
  fun p buf httpconn => (p, appendURL buf httpconn, 0).

Definition headers_complete_cb : http_cb RpcServerHttpConn :=
  fun p httpconn =>
    let httpconn := if eqb (hp_method p) HTTP_GET then bodyFinal true httpconn else httpconn in
    let httpconn :=
      if eqb (hp_method p) HTTP_POST && (hp_content_length p =? 0) then setFail true httpconn else httpconn in
    (p, setKeepAlive (http_should_keep_alive p) httpconn, 0).

Definition body_cb : http_data_cb RpcServerHttpConn :=
  fun p buf httpconn => (p, bodyFinal (http_body_is_final p) (appendBody buf httpconn), 0).

Definition m_setting : http_parser_settings RpcServerHttpConn :=
  {| on_message_begin := None;
     on_url := Some request_url_cb;
     on_status := None;
     on_header_field := None;
     on_header_value := None;
     on_headers_complete := Some headers_complete_cb;
     on_body := Some body_cb;
     on_message_complete := None;
     on_chunk_header := None;
     on_chunk_complete := None |}.

Definition new_http_conn (id : string) (max_req_size : Z) : RpcServerHttpConn :=
  mk_http_conn (new_conn id max_req_size) (http_parser_init HTTP_REQUEST) [] [] false false false.

(** * [getRequest] *)

Definition npos : Z := 2 ^ 64 - 1.

(** [s.find(ch, pos)] and [s.substr(pos, n)] of [std::string]; [substr]
    throws when [pos] is past the end. *)
Definition find_char (c : ascii) (pos : Z) (s : bytes) : Z :=
  match index_of c (drop (Z.to_nat pos) s) with
  | Some j => pos + Z.of_nat j
  | None => npos
  end.

Definition substr (pos n : Z) (s : bytes) : option bytes :=
  if zlen s <? pos then None else Some (take (Z.to_nat n) (drop (Z.to_nat pos) s)).

(** The service and the method a URL names. *)
Definition service_method (url : bytes) : option (bytes * bytes) :=
  let service_pos := find_char "/" 1 url in
  match substr 1 (u64 (service_pos - 1)) url, substr (u64 (service_pos + 1)) (zlen url) url with
  | Some s, Some m => Some (s, m)
  | _, _ => None
  end.

Section Codec.
Context `{MessageCodec RpcInnerReq}.

Definition http_request (service_name method_name m_body : bytes) : RpcInnerReq :=
  {| req_version := 1; req_service_name := string_of_list_ascii service_name;
     req_method_name := string_of_list_ascii method_name; req_request_id := "http"; req_type := TWO_WAY;
     req_timeout := 0; req_data := Some m_body |}.

(** The package of a complete request. *)
Definition http_package (c : RpcServerHttpConn) : outcome request_pkg :=
  let! (service_name, method_name) := need OutOfBounds (service_method (m_url c)) in
  let req := http_request service_name method_name (m_body c) in
  let proto_len := u32 (ByteSize req) in
  let reqpkg := new_request_pkg (u32 (proto_len + 4)) (m_seqid (m_base c)) in
  let! d := need OutOfBounds (write_at (rq_data reqpkg) 0 (put32 proto_len)) in
  let! d := need OutOfBounds (write_at d 4 (serialize req)) in
  Done {| rq_data := d; rq_data_len := proto_len; rq_connection_id := rq_connection_id reqpkg; rq_is_from_http := true |}.

(** What follows the [recv] of [data] ([rsize = 0] when it is empty). *)
Definition parse_received (data : bytes) (c : RpcServerHttpConn) : outcome (pkg_ret_t * RpcServerHttpConn) :=
  match http_parser_execute m_setting (m_http_parser c) c data with
  | Aborted w => Stuck w
  | OutOfFuel => Stuck Spinning
  | Returned x c nparsed =>
      let c := put_http_parser x c in
      if hp_upgrade x then Done ((-1, None), c)
      else if negb (nparsed =? zlen data) then Done ((-1, None), c)
      else if zlen data =? 0 then Done ((-1, None), c)
      else if m_parse_fail c then Done ((-1, None), c)
      else if m_is_body_final c then
        let c := bodyFinal false c in
        let! pkg := http_package c in
        Done ((0, Some pkg), c)
      else Done ((0, None), c)
  end.

Definition getRequest (c : RpcServerHttpConn) (rx : list rx_event)
    : outcome (pkg_ret_t * RpcServerHttpConn * list rx_event) :=
  if negb (is_connected (m_base c)) then Done ((-1, None), c, rx)
  else
    let '(r, rx) := recv 4096 rx in
    match r with
    | Again | Interrupted => Done ((0, None), c, rx)
    | RecvError => Done ((-1, None), c, rx)
    | Closed => let! (ret, c) := parse_received [] c in Done (ret, c, rx)
    | Received data => let! (ret, c) := parse_received data c in Done (ret, c, rx)
    end.
End Codec.
