(* ===== verification/Connection.v ===== *)
(** The virtual class [RpcServerConn] as what its user, the connection
    worker, relies on: the class [ServerConnection] has a connection's sending
    side ([base]) and its [getRequest], the law class says that [getRequest]
    leaves the sending side alone.  [RpcServerRpcConn] ([ServerConn]) and
    [RpcServerHttpConn] ([HttpConn]) are its instances. *)
From Stdlib Require Import ZArith Lia Bool List String Ascii.
From stdpp Require Import base list strings.
From S2P Require Import Prelude Wire Socket Queue HttpTypes HttpExec HttpExecSafe HttpKeeps ServerConn.
From S2P Require HttpConn.
Import HttpConn(RpcServerHttpConn, mk_http_conn, m_base, m_http_parser, m_body, m_url, m_is_body_final, m_keep_alive, m_parse_fail).

(** * The interface *)

(** [new_connection id max_req_size] is the constructor; [getRequest] gets the
    fuel of its loops. *)
Class ServerConnection (C : Type) := {
  base : C -> RpcServerConn;
  put_base : RpcServerConn -> C -> C;
  conn_getRequest : nat -> C -> list rx_event -> outcome (pkg_ret_t * C * list rx_event);
  new_connection : string -> Z -> C
}.

(** The same name and the same sending side. *)
Definition same_sender (c c' : RpcServerConn) : Prop :=
  m_seqid c' = m_seqid c /\ m_response_q c' = m_response_q c /\ m_sent_pkg c' = m_sent_pkg c /\
  m_sent_len c' = m_sent_len c /\ is_connected c' = is_connected c.

#[global] Instance same_sender_preorder : PreOrder same_sender.
Proof.
  split; unfold same_sender; [repeat split | intros x y z (? & ? & ? & ? & ?) (? & ? & ? & ? & ?); repeat split; congruence].
Qed.

Class ServerConnectionLaw (C : Type) `{ServerConnection C} : Prop := {
  base_put_base b (c : C) : base (put_base b c) = b;
  base_new_connection id max_req_size : base (new_connection id max_req_size : C) = new_conn id max_req_size;
  getRequest_keeps_sender fuel (c : C) rx r c' rx' :
    conn_getRequest fuel c rx = Done (r, c', rx') -> same_sender (base c) (base c');
  getRequest_status fuel (c : C) rx st o c' rx' :
    conn_getRequest fuel c rx = Done ((st, o), c', rx') -> st = 0 \/ st = -1
}.

(** * [RpcServerRpcConn] *)

#[global] Instance rpc_connection : ServerConnection RpcServerConn := {
  base c := c;
  put_base b _ := b;
  conn_getRequest := getRequest;
  new_connection := new_conn
}.

Lemma readPkgData_sender fuel : forall c rx st c' rx',
  readPkgData_loop fuel c rx = Done (st, c', rx') -> same_sender c c'.
Proof.
  induction fuel as [|fuel IH]; intros c rx st c' rx'; cbn [readPkgData_loop]; [discriminate|].
  destruct (m_rpk c) as [pkg|]; [|discriminate]. cbn [need outcome_bind].
  destruct (recv _ rx) as [[b| | | |] rx1]; try (intros [= _ <- _]; reflexivity); [|apply IH].
  destruct (write_at _ _ b); [|discriminate]. cbn [need outcome_bind].
  destruct (_ =? _); intros [= _ <- _]; repeat split.
Qed.

Lemma getRequest_data_sender fuel c rx r c' rx' : getRequest_data fuel c rx = Done (r, c', rx') -> same_sender c c'.
Proof.
  unfold getRequest_data, readPkgData. destruct (m_rpk c); [|intros [= _ <- _]; reflexivity].
  destruct (negb _); [intros [= _ <- _]; reflexivity|].
  destruct (readPkgData_loop fuel c rx) as [[[st c1] rx1]|] eqn:E; [|discriminate]. apply readPkgData_sender in E. cbn [outcome_bind].
  destruct st; intros [= _ <- _]; exact E.
Qed.

Lemma getRequest_sender fuel c rx r c' rx' : getRequest fuel c rx = Done (r, c', rx') -> same_sender c c'.
Proof.
  unfold getRequest. destruct (_ =? 0); [|apply getRequest_data_sender].
  destruct (readPkgLen fuel c rx) as [[[len|] rx1]|]; cbn [outcome_bind]; [|intros [= _ <- _]; reflexivity | discriminate].
  cbv zeta. destruct (_ =? 0); [intros [= _ <- _]; repeat split|]. destruct (_ <? _); [intros [= _ <- _]; repeat split|].
  intros Hg. apply getRequest_data_sender in Hg. exact Hg.
Qed.

Lemma rpc_getRequest_status fuel c rx st o c' rx' : getRequest fuel c rx = Done ((st, o), c', rx') -> st = 0 \/ st = -1.
Proof.
  assert (Hdata : forall c rx, getRequest_data fuel c rx = Done ((st, o), c', rx') -> st = 0 \/ st = -1).
  { intros c0 rx0. unfold getRequest_data. destruct (readPkgData fuel c0 rx0) as [[[[] c1] rx1]|]; [..|discriminate];
      intros [= <- _ _ _]; auto. }
  unfold getRequest. destruct (_ =? 0); [|apply Hdata].
  destruct (readPkgLen fuel c rx) as [[[len|] rx1]|]; cbn [outcome_bind]; [|intros [= <- _ _ _]; auto | discriminate].
  cbv zeta. destruct (_ =? 0); [intros [= <- _ _ _]; auto|]. destruct (_ <? _); [intros [= <- _ _ _]; auto | apply Hdata].
Qed.

#[global] Instance rpc_connection_law : ServerConnectionLaw RpcServerConn.
Proof. split; [reflexivity | reflexivity | apply getRequest_sender | apply rpc_getRequest_status]. Qed.

(** * [RpcServerHttpConn] *)

Section Http.
Context `{MessageCodec RpcInnerReq}.

Definition put_m_base (b : RpcServerConn) (c : RpcServerHttpConn) : RpcServerHttpConn :=
  mk_http_conn b (m_http_parser c) (m_body c) (m_url c) (m_is_body_final c) (m_keep_alive c) (m_parse_fail c).

#[global] Instance http_connection : ServerConnection RpcServerHttpConn := {
  base := m_base;
  put_base := put_m_base;
  conn_getRequest _ := HttpConn.getRequest;
  new_connection := HttpConn.new_http_conn
}.

(** The callbacks of the HTTP parser fill the HTTP part of the connection. *)
Lemma m_setting_keeps b : settings_keep (fun c => m_base c = b) HttpConn.m_setting.
Proof.
  split; try exact I; [|intros []; try exact I]; cbn.
  - intros x c Hc. cbn. repeat (match goal with |- context [if ?t then _ else _] => destruct t end); exact Hc.
  - intros x d c Hc. exact Hc.
  - intros x d c Hc. exact Hc.
Qed.

Lemma parse_received_base data c r c' : HttpConn.parse_received data c = Done (r, c') -> m_base c' = m_base c.
Proof.
  unfold HttpConn.parse_received. destruct (http_parser_execute _ _ _ data) as [x c1 n| |] eqn:E; try discriminate.
  apply (execute_keeps _ _ _ _ _ _ _ _ (m_setting_keeps (m_base c)) eq_refl) in E.
  repeat (match goal with |- context [if ?t then _ else _] => destruct t end;
    try (intros [= _ <-]; exact E)).
  destruct (HttpConn.http_package _); [|discriminate]. intros [= _ <-]. exact E.
Qed.

Lemma http_getRequest_base c rx r c' rx' : HttpConn.getRequest c rx = Done (r, c', rx') -> m_base c' = m_base c.
Proof.
  unfold HttpConn.getRequest. destruct (negb _); [intros [= _ <- _]; reflexivity|].
  destruct (recv 4096 rx) as [[data| | | |] rx1]; try (intros [= _ <- _]; reflexivity).
  all: match goal with |- context [HttpConn.parse_received ?d ?c0] => destruct (HttpConn.parse_received d c0) as [[r1 c1]|] eqn:E end;
    [|discriminate]; intros [= _ <- _]; exact (parse_received_base _ _ _ _ E).
Qed.

Lemma parse_received_status data c st o c' : HttpConn.parse_received data c = Done ((st, o), c') -> st = 0 \/ st = -1.
Proof.
  unfold HttpConn.parse_received. destruct (http_parser_execute _ _ _ data) as [x c1 n| |]; try discriminate.
  repeat (match goal with |- context [if ?t then _ else _] => destruct t end; try (intros [= <- _ _]; auto)).
  destruct (HttpConn.http_package _); [|discriminate]. intros [= <- _ _]. auto.
Qed.

Lemma http_getRequest_status c rx st o c' rx' : HttpConn.getRequest c rx = Done ((st, o), c', rx') -> st = 0 \/ st = -1.
Proof.
  unfold HttpConn.getRequest. destruct (negb _); [intros [= <- _ _ _]; auto|].
  destruct (recv 4096 rx) as [[data| | | |] rx1]; try (intros [= <- _ _ _]; auto).
  all: match goal with |- context [HttpConn.parse_received ?d ?c0] => destruct (HttpConn.parse_received d c0) as [[[s1 o1] c1]|] eqn:E end;
    [|discriminate]; intros [= <- _ _ _]; exact (parse_received_status _ _ _ _ _ E).
Qed.

#[global] Instance http_connection_law : ServerConnectionLaw RpcServerHttpConn.
Proof.
  split; [reflexivity | reflexivity | |].
  - intros fuel c rx r c' rx' Hg. apply http_getRequest_base in Hg. cbn. rewrite Hg. reflexivity.
  - intros fuel. apply http_getRequest_status.
Qed.
End Http.
