(* ===== verification/HttpConnSim.v ===== *)
(** The parser under the callbacks of [RpcServerHttpConn] and under those of
    the recorder: the same run, the connection holding what the recorded events
    say.  This carries the theorems on what is reported over to the
    connection. *)
From Stdlib Require Import ZArith Lia Bool List String Ascii.
From stdpp Require Import base list strings.
From S2P Require Import Prelude HttpChars HttpTypes HttpUrl HttpExec HttpExecSafe HttpRecord HttpCases HttpSafe HttpContract HttpStream HttpSegments HttpConn.

(** * The connection behind a trace *)

Definition body_head (t : trace) : bool := match t with EvData For_body _ :: _ => true | _ => false end.

Section Follow.
(** The connection before the events. *)
Variable c0 : RpcServerHttpConn.

Fixpoint conn_of (t : trace) : RpcServerHttpConn :=
  match t with
  | [] => c0
  | EvData For_url b :: t => appendURL b (conn_of t)
  | EvData For_body b :: t => bodyFinal false (appendBody b (conn_of t))
  | EvNotify HeadersComplete x :: t => snd (fst (headers_complete_cb x (conn_of t)))
  | EvNotify MessageComplete _ :: t => if body_head t then bodyFinal true (conn_of t) else conn_of t
  | _ :: t => conn_of t
  end.

(** [body_cb] knows that the body is final from the state of the parser, the
    trace from the end of the message that follows. *)
Definition conn_rel (s : state) (t : trace) (c : RpcServerHttpConn) : Prop :=
  c = (if body_head t && eqb s s_message_done then bodyFinal true (conn_of t) else conn_of t) /\
  (s = s_headers_done -> body_head t = false).

Lemma conn_rel_plain s t c : eqb s s_message_done = false -> conn_rel s t c -> c = conn_of t.
Proof. intros Hs [Hc _]. rewrite Hs, andb_false_r in Hc. exact Hc. Qed.

Lemma conn_rel_intro s t c : eqb s s_message_done = false -> eqb s s_headers_done = false -> c = conn_of t -> conn_rel s t c.
Proof.
  intros Hs Hh ->. unfold conn_rel. rewrite Hs, andb_false_r. split; [reflexivity|].
  intros ->. discriminate.
Qed.

Lemma conn_rel_notify s n x t : conn_rel s (EvNotify n x :: t) (conn_of (EvNotify n x :: t)).
Proof. split; reflexivity. Qed.

(** The part of the request side the parser can be in. *)
Definition request_state (s : state) : bool :=
  match s with s_start_req_or_res | s_res_or_resp_H | s_body_identity_eof => false | _ => true end.

(** * Contexts of the two runs *)

Definition retarget (st : state) (c : RpcServerHttpConn) (k : ctx trace) : ctx RpcServerHttpConn :=
  mk_ctx (set_state st (pr k)) c (p_state k) (p k) (ch k) (header_field_mark k) (header_value_mark k) (url_mark k)
    (body_mark k) (status_mark k).

Definition follows (k1 : ctx trace) (k2 : ctx RpcServerHttpConn) : Prop :=
  exists st c, k2 = retarget st c k1 /\ hp_type (pr k1) = HTTP_REQUEST /\ request_state (p_state k1) = true /\
    conn_rel (p_state k1) (app k1) c.

(** The loop never comes to a new character in these two states. *)
Definition settled (s : state) : bool := negb (eqb s s_message_done) && negb (eqb s s_headers_done).

(** Nothing is claimed of runs on which the recorder's fails. *)
Definition ctl_follows (r1 : ctl trace) (r2 : ctl RpcServerHttpConn) : Prop :=
  match r1, r2 with
  | Break k1, Break k2 => follows k1 k2 /\ settled (p_state k1) = true
  | Reexecute k1, Reexecute k2 => follows k1 k2
  | Return x1 t n1, Return x2 c n2 =>
      x2 = x1 /\ n2 = n1 /\ hp_type x1 = HTTP_REQUEST /\ request_state (hp_state x1) = true /\
      (errno_ok x1 = true -> settled (hp_state x1) = true) /\ conn_rel (hp_state x1) t c
  | (Error _ | Abort _ | NoFuel), _ => True
  | _, _ => False
  end.

Lemma conn_of_record f b t :
  conn_of (record_data f b t) =
    match f with
    | For_url => appendURL b (conn_of t)
    | For_body => bodyFinal false (appendBody b (conn_of t))
    | _ => conn_of t
    end.
Proof.
  destruct t as [|[g b'|n x] t]; [destruct f; reflexivity| |destruct f; reflexivity].
  cbn [record_data]. destruct f, g; cbn [eqb bool_decide decide_rel data_for_eq_dec]; try reflexivity;
    cbn [conn_of]; unfold appendURL, appendBody, bodyFinal; cbn [m_base m_http_parser m_body m_url m_is_body_final m_keep_alive m_parse_fail];
    rewrite <- app_assoc; reflexivity.
Qed.

Lemma body_head_record f b t : body_head (record_data f b t) = match f with For_body => true | _ => false end.
Proof.
  destruct t as [|[g b'|n x] t]; [destruct f; reflexivity| |destruct f; reflexivity]. cbn [record_data].
  destruct f, g; reflexivity.
Qed.

(** The connection after a data callback in state [s]. *)
Definition data_conn (f : data_for) (s : state) (b : bytes) (t : trace) : RpcServerHttpConn :=
  match f with
  | For_url => appendURL b (conn_of t)
  | For_body => bodyFinal (eqb s s_message_done) (appendBody b (conn_of t))
  | _ => conn_of t
  end.

Lemma data_conn_rel f s b t :
  eqb s s_headers_done = false -> (f <> For_body -> eqb s s_message_done = false) ->
  conn_rel s (record_data f b t) (data_conn f s b t).
Proof.
  intros Hh Hm. unfold conn_rel. rewrite body_head_record, conn_of_record.
  split; [|intros ->; discriminate]. destruct f; try (rewrite Hm by discriminate); try reflexivity.
  unfold data_conn. destruct (eqb s s_message_done); reflexivity.
Qed.
End Follow.

(** * The callbacks side by side *)

Section Cases.
Variable c0 : RpcServerHttpConn.
Variable data : bytes.
Variable lenient : bool.

Notation conn_of := (conn_of c0).
Notation conn_rel := (conn_rel c0).
Notation follows := (follows c0).
Notation ctl_follows := (ctl_follows c0).
Notation data_conn := (data_conn c0).

Lemma callback_data_follows f last er k st r1 r2 :
  (get_mark f k = None -> ctl_follows (r1 k) (r2 (retarget st (conn_of (app k)) k))) ->
  (forall b st', let k' := put_mark f None (put_app (record_data f b (app k)) (put_pr (set_state (p_state k) (pr k)) k)) in
     ctl_follows (r1 k') (r2 (retarget st' (data_conn f (p_state k) b (app k)) k'))) ->
  ctl_follows (CALLBACK_DATA_ recorder data f last er k r1)
              (CALLBACK_DATA_ m_setting data f last er (retarget st (conn_of (app k)) k) r2).
Proof.
  destruct k as [[ty fl sx hs ix ln nr cl ma mi sc me er' up] t ps pp cc m1 m2 m3 m4 m5].
  unfold retarget, CALLBACK_DATA_. cbn [get_mark pr app p_state p ch header_field_mark header_value_mark url_mark body_mark status_mark].
  intros Hn Hs. change (errno_ok (set_state st ?x)) with (errno_ok x). destruct (errno_ok _) eqn:He; [|exact I]. cbn [negb].
  destruct f; cbn [get_mark put_mark header_field_mark header_value_mark url_mark body_mark status_mark data_cb recorder m_setting
    on_header_field on_header_value on_url on_body on_status] in Hn, Hs |- *;
    match goal with |- context [match ?m with Some _ => _ | None => _ end] => destruct m as [i|]; [|exact (Hn eq_refl)] end;
    (destruct ((i <? 0) || (last <? i) || (data_end data <? last)); [exact I|]);
    unfold on_data, request_url_cb, body_cb; rewrite Z.eqb_refl;
    unfold errno_ok in He |- *; cbn [hp_http_errno set_state] in He |- *; rewrite He;
    apply (Hs _ _).
Qed.

Lemma callback_notify_follows n err er k st c r1 r2 :
  (forall st', let k' := put_app (EvNotify n (core (pr k)) :: app k) (put_pr (set_state (p_state k) (pr k)) k) in
     ctl_follows (r1 k') (r2 (retarget st' c k'))) ->
  ctl_follows (CALLBACK_NOTIFY_ (Some (on_notify n)) err er k r1) (CALLBACK_NOTIFY_ None err er (retarget st c k) r2).
Proof.
  destruct k as [[ty fl sx hs ix ln nr cl ma mi sc me er' up] t ps pp cc m1 m2 m3 m4 m5].
  unfold retarget, CALLBACK_NOTIFY_. cbn [pr app p_state]. intros Hs.
  change (errno_ok (set_state st ?x)) with (errno_ok x). destruct (errno_ok _) eqn:He; [|exact I]. cbn [negb].
  unfold on_notify. rewrite Z.eqb_refl. unfold errno_ok in He |- *. cbn [hp_http_errno set_state] in He |- *. rewrite He.
  apply (Hs st).
Qed.

Lemma headers_complete_follows k st r1 r2 :
  (forall st', let k' := put_app (EvNotify HeadersComplete (core (pr k)) :: app k) k in
     ctl_follows (r1 k') (r2 (retarget st' (conn_of (app k')) k'))) ->
  ctl_follows (headers_complete recorder k r1) (headers_complete m_setting (retarget st (conn_of (app k)) k) r2).
Proof.
  destruct k as [[ty fl sx hs ix ln nr cl ma mi sc me er' up] t ps pp cc m1 m2 m3 m4 m5].
  unfold headers_complete, retarget. cbn [on_headers_complete recorder m_setting pr app p_state].
  unfold on_notify, headers_complete_cb. rewrite Z.eqb_refl. intros Hs. apply (Hs st).
Qed.

Lemma count_follows v k st c r1 r2 :
  (forall n, let k' := upd_pr (set_nread n) k in ctl_follows (r1 k') (r2 (retarget st c k'))) ->
  ctl_follows (COUNT_HEADER_SIZE v k r1) (COUNT_HEADER_SIZE v (retarget st c k) r2).
Proof.
  intros Hr. unfold COUNT_HEADER_SIZE. destruct k as [[ty fl sx hs ix ln nr cl ma mi sc me er' up] t ps pp cc m1 m2 m3 m4 m5].
  unfold retarget, upd_pr, put_pr in *. cbn [pr app p_state p ch set_nread set_state hp_nread header_field_mark header_value_mark
    url_mark body_mark status_mark hp_type hp_flags hp_state hp_header_state hp_index hp_lenient_http_headers hp_content_length hp_http_major
    hp_http_minor hp_status_code hp_method hp_http_errno hp_upgrade] in *.
  destruct (HTTP_MAX_HEADER_SIZE <? u32 (nr + v)); [exact I | apply Hr].
Qed.

(** * The cases of the [switch] *)

Lemma conn_rel_complete s x t c :
  (body_head t = false /\ c = conn_of t) \/ conn_rel s_message_done t c -> conn_rel s (EvNotify MessageComplete x :: t) c.
Proof.
  intros [[Hb ->]|[-> _]]; (split; [|reflexivity]); cbn.
  - rewrite Hb. reflexivity.
  - rewrite andb_true_r. reflexivity.
Qed.

Lemma message_complete_follows k st c r1 r2 :
  hp_type (pr k) = HTTP_REQUEST ->
  (body_head (app k) = false /\ c = conn_of (app k)) \/ conn_rel s_message_done (app k) c ->
  (forall k' st', follows k' (retarget st' c k') -> settled (p_state k') = true -> ctl_follows (r1 k') (r2 (retarget st' c k'))) ->
  ctl_follows (message_complete recorder k r1) (message_complete m_setting (retarget st c k) r2).
Proof.
  intros Ht Hc Hr. unfold message_complete, CALLBACK_NOTIFY. cbn [on_message_complete recorder m_setting].
  assert (NEW_MESSAGE (pr (retarget st c k)) = NEW_MESSAGE (pr k)) as -> by reflexivity.
  refine (callback_notify_follows _ _ _ (UPDATE_STATE (NEW_MESSAGE (pr k)) k) st c r1 r2 _).
  assert (Hs : request_state (NEW_MESSAGE (pr k)) = true /\ settled (NEW_MESSAGE (pr k)) = true).
  { unfold NEW_MESSAGE, start_state. rewrite Ht. destruct (http_should_keep_alive (pr k)); split; reflexivity. }
  intros st'. apply Hr; [|exact (proj2 Hs)]. do 2 eexists. split; [reflexivity|]. split; [exact Ht|].
  split; [exact (proj1 Hs) | apply conn_rel_complete, Hc].
Qed.

Lemma return_follows k st c n :
  follows k (retarget st c k) -> settled (p_state k) = true -> ctl_follows (RETURN n k) (RETURN n (retarget st c k)).
Proof.
  intros (st' & c' & Heq & Ht & Hs & Hc). injection Heq as _ <-. intros Hset. cbn [HttpConnSim.ctl_follows RETURN].
  destruct k as [[ty fl sx hs ix ln nr cl ma mi sc me er up] t ps pp cc m1 m2 m3 m4 m5]. split_and!; auto.
Qed.

Ltac follow_open k :=
  destruct k as [[ty fl sx hs ix ln nr cl ma mi sc me er up] t ps pp cc m1 m2 m3 m4 m5];
  unfold dispatch, retarget; cbn [pr app p_state p ch header_field_mark header_value_mark url_mark body_mark status_mark
    hp_type hp_flags hp_state hp_header_state hp_index hp_lenient_http_headers hp_nread hp_content_length hp_http_major
    hp_http_minor hp_status_code hp_method hp_http_errno hp_upgrade set_state].

(** One pair of contexts. *)
Ltac rel_now :=
  first [ assumption
        | apply conn_rel_complete; solve [auto]
        | apply conn_rel_notify
        | apply data_conn_rel; [reflexivity | reflexivity || (intros; reflexivity) || (intros []; reflexivity)]
        | apply conn_rel_intro; [reflexivity | reflexivity | reflexivity] ].

Ltac follow_leaf :=
  unfold goto_error, RETURN, retarget; exec_simpl;
  lazymatch goal with
  | |- HttpConnSim.ctl_follows _ (Error _) _ => exact I
  | |- HttpConnSim.ctl_follows _ (Abort _) _ => exact I
  | |- HttpConnSim.ctl_follows _ (Return _ _ _) _ => cbn [HttpConnSim.ctl_follows]; split_and!; try reflexivity;
      first [intros _; reflexivity | let H := fresh in intros H; unfold errno_ok in H; cbn [hp_http_errno set_state set_upgrade] in H; congruence | exec_simpl; rel_now]
  | |- _ => cbn [HttpConnSim.ctl_follows]; try (split; [|reflexivity]);
      do 2 eexists; split; [reflexivity|]; exec_simpl; split; [reflexivity|]; split; [reflexivity | rel_now]
  end.

Ltac follow_step :=
  unfold retarget; exec_simpl; unfold CALLBACK_NOTIFY, CALLBACK_NOTIFY_NOADVANCE, CALLBACK_DATA, CALLBACK_DATA_NOADVANCE,
    http_should_keep_alive, http_message_needs_eof, start_state, upgrade_of, hasBody, body_length_ok, has_flag,
    finish_header, add_flag, content_length_char, errno_ok;
  exec_simpl;
  lazymatch goal with
  | |- HttpConnSim.ctl_follows _ (if ?b then _ else _) _ => destruct b eqn:?
  | |- HttpConnSim.ctl_follows _ (match ?b with _ => _ end) _ => destruct b eqn:?
  | |- HttpConnSim.ctl_follows _ (CALLBACK_NOTIFY_ _ ?err ?er ?k1 ?r1) (CALLBACK_NOTIFY_ _ _ _ ?k2 ?r2) =>
      refine (callback_notify_follows _ err er k1 (hp_state (pr k2)) (app k2) r1 r2 _); intros ?; cbv zeta
  | |- HttpConnSim.ctl_follows _ (CALLBACK_DATA_ _ _ ?f ?last ?er ?k1 ?r1) (CALLBACK_DATA_ _ _ _ _ _ ?k2 ?r2) =>
      refine (callback_data_follows f last er k1 (hp_state (pr k2)) r1 r2 _ _); [let H := fresh in intros H; try discriminate H; clear H | intros ? ?; cbv zeta]
  | |- HttpConnSim.ctl_follows _ (message_complete _ ?k1 ?r1) (message_complete _ ?k2 ?r2) =>
      refine (message_complete_follows k1 (hp_state (pr k2)) (app k2) r1 r2 eq_refl _ _);
        [solve [auto] | intros ? ? ? ?]
  | |- HttpConnSim.ctl_follows _ (headers_complete _ ?k1 ?r1) (headers_complete _ ?k2 ?r2) =>
      refine (headers_complete_follows k1 (hp_state (pr k2)) r1 r2 _); intros ?; cbv zeta
  | |- HttpConnSim.ctl_follows _ (COUNT_HEADER_SIZE ?v ?k1 ?r1) (COUNT_HEADER_SIZE _ ?k2 ?r2) =>
      refine (count_follows v k1 (hp_state (pr k2)) (app k2) r1 r2 _); intros ?; cbv zeta
  end.

(** A mark that may be set already. *)
Ltac mark_split :=
  repeat match goal with
  | |- context [MARK ?f ?k] => let m := eval cbn in (get_mark f k) in is_var m; destruct m
  end.

(** The cases without loops, in groups. *)
Definition case_follows (k : ctx trace) (st : state) (c : RpcServerHttpConn) : Prop :=
  ctl_follows (dispatch recorder data lenient k) (dispatch m_setting data lenient (retarget st c k)).

Ltac follow_cases k :=
  unfold case_follows; follow_open k; intros -> Hc;
  match goal with H : HttpConnSim.conn_rel _ ?s _ _ |- _ => destruct s end; try exact I;
  (apply conn_rel_plain in Hc as ->; [|reflexivity]); autounfold with http_cases; unfold url_step;
  mark_split; repeat follow_step; try follow_leaf.

Lemma line_cases_follow k st c :
  hp_type (pr k) = HTTP_REQUEST -> conn_rel (p_state k) (app k) c ->
  match p_state k with
  | s_dead | s_start_res | s_res_H | s_res_HT | s_res_HTT
  | s_res_HTTP | s_res_http_major | s_res_http_dot | s_res_http_minor | s_res_http_end
  | s_res_first_status_code | s_res_status_code | s_res_status_start | s_res_status
  | s_res_line_almost_done | s_req_http_start | s_req_http_H | s_req_http_HT | s_req_http_HTT
  | s_req_http_HTTP | s_req_http_major | s_req_http_dot | s_req_http_minor | s_req_http_end
  | s_req_line_almost_done => case_follows k st c
  | _ => True
  end.
Proof. follow_cases k. Qed.

Lemma method_cases_follow k st c :
  hp_type (pr k) = HTTP_REQUEST -> conn_rel (p_state k) (app k) c ->
  match p_state k with s_start_req | s_req_method => case_follows k st c | _ => True end.
Proof. follow_cases k. Qed.

Lemma header_cases_follow k st c :
  hp_type (pr k) = HTTP_REQUEST -> conn_rel (p_state k) (app k) c ->
  match p_state k with
  | s_header_field_start | s_header_value_discard_ws | s_header_value_start | s_header_almost_done
  | s_header_value_lws | s_header_value_discard_ws_almost_done | s_header_value_discard_lws => case_follows k st c
  | _ => True
  end.
Proof. follow_cases k. Qed.

Lemma parse_url_char_state s c :
  let s' := parse_url_char s c in
  request_state s' = true /\ eqb s' s_message_done = false /\ eqb s' s_headers_done = false.
Proof.
  unfold parse_url_char, parse_url_server_char. destruct s; repeat case_match; split_and!; reflexivity.
Qed.

Lemma url_step_follows k st :
  hp_type (pr k) = HTTP_REQUEST -> ctl_follows (url_step k) (url_step (retarget st (conn_of (app k)) k)).
Proof.
  intros Ht. unfold url_step. destruct (parse_url_char_state (p_state k) (ch k)) as (H1 & H2 & H3).
  change (p_state (retarget st (conn_of (app k)) k)) with (p_state k).
  change (ch (retarget st (conn_of (app k)) k)) with (ch k). unfold UPDATE_STATE. cbn [p_state put_p_state].
  destruct (eqb _ s_dead); [exact I|]. cbn [HttpConnSim.ctl_follows].
  split; [|unfold settled; cbn [p_state put_p_state]; rewrite H2, H3; reflexivity]. do 2 eexists.
  split; [reflexivity|]. split; [exact Ht|]. split; [exact H1|]. apply conn_rel_intro; [exact H2 | exact H3 | reflexivity].
Qed.

Lemma url_cases_follow k st c :
  hp_type (pr k) = HTTP_REQUEST -> conn_rel (p_state k) (app k) c ->
  match p_state k with
  | s_req_spaces_before_url | s_req_schema | s_req_schema_slash | s_req_schema_slash_slash
  | s_req_server_start | s_req_server | s_req_server_with_at | s_req_path
  | s_req_query_string_start | s_req_query_string | s_req_fragment_start | s_req_fragment => case_follows k st c
  | _ => True
  end.
Proof.
  unfold case_follows. follow_open k. intros -> Hc. destruct ps; try exact I;
    (apply conn_rel_plain in Hc as ->; [|reflexivity]); autounfold with http_cases; mark_split;
    destruct (eqb me HTTP_CONNECT) eqn:Hme, (cc =c CR)%char eqn:Hcr;
    repeat (exec_simpl; rewrite ?Hme, ?Hcr;
      first [ lazymatch goal with
              | |- HttpConnSim.ctl_follows _ (url_step ?k1) (url_step ?k2) =>
                  exact (url_step_follows k1 (hp_state (pr k2)) eq_refl)
              end
            | follow_step ]); rewrite ?Hcr; try follow_leaf.
Qed.

Lemma end_cases_follow k st c :
  hp_type (pr k) = HTTP_REQUEST -> conn_rel (p_state k) (app k) c ->
  match p_state k with
  | s_headers_almost_done | s_chunk_size_start | s_chunk_size | s_chunk_parameters | s_chunk_size_almost_done
  | s_chunk_data_done | s_chunk_data_almost_done => case_follows k st c
  | _ => True
  end.
Proof.
  unfold case_follows. follow_open k. intros -> Hc. destruct ps; try exact I;
    (apply conn_rel_plain in Hc as ->; [|reflexivity]); autounfold with http_cases;
    destruct (cl =? 0) eqn:Hcl; repeat (exec_simpl; rewrite ?Hcl; follow_step); rewrite ?Hcl; try follow_leaf.
Qed.

Lemma body_cases_follow k st c :
  hp_type (pr k) = HTTP_REQUEST -> conn_rel (p_state k) (app k) c ->
  match p_state k with
  | s_headers_done | s_body_identity | s_message_done | s_chunk_data => case_follows k st c
  | _ => True
  end.
Proof.
  unfold case_follows. follow_open k. intros -> Hc. destruct ps; try exact I.
  - destruct Hc as [Hc Hb]. specialize (Hb eq_refl). rewrite Hb in Hc. cbn [andb] in Hc. subst c.
    unfold case_s_headers_done, STRICT_CHECK. repeat follow_step;
    lazymatch goal with
    | H : HttpConnSim.follows _ _ _ |- HttpConnSim.ctl_follows _ (RETURN _ _) _ => apply return_follows; assumption
    | H : HttpConnSim.follows _ _ _, H' : settled _ = true |- _ => exact (conj H H')
    | H : negb (if eqb HTTP_REQUEST HTTP_REQUEST then _ else _) = false |- _ => discriminate H
    | |- _ => follow_leaf
    end.
  - apply conn_rel_plain in Hc as ->; [|reflexivity]. autounfold with http_cases. unfold read_body, to_read; mark_split;
    destruct (u64 (cl - Z.min cl (u64 (data_end data - pp))) =? 0) eqn:Hz;
    repeat (exec_simpl; rewrite ?Hz; follow_step); exec_simpl; rewrite ?Hz; follow_leaf.
  - apply conn_rel_plain in Hc as ->; [|reflexivity]. autounfold with http_cases. unfold read_body, to_read; mark_split;
    repeat follow_step; follow_leaf.
  - unfold case_s_message_done. follow_step. cbn [pr retarget set_state hp_upgrade]. destruct (hp_upgrade _).
    + apply return_follows; assumption.
    + split; assumption.
Qed.

(** * The loops inside header names and values *)

Lemma header_field_char_state c1 c2 st x :
  match header_field_char c1 c2 x with
  | Done y => header_field_char c1 c2 (set_state st x) = Done (set_state st y) /\ hp_type y = hp_type x
  | Stuck _ => True
  end.
Proof.
  destruct x as [ty fl sx hs ix ln nr cl ma mi sc me er up]. unfold header_field_char, match_header, incr_index.
  cbn [hp_header_state set_state hp_index set_index].
  destruct hs; cbn [hp_header_state]; try exact I; try (split; reflexivity);
    try (destruct (match_next _ _ _ _ _ _); [split; reflexivity | exact I]); destruct (negb _); split; reflexivity.
Qed.

Lemma field_loop_follows rest k st c :
  match header_field_loop rest k, header_field_loop rest (retarget st c k) with
  | Done k1, Done k2 => k2 = retarget st c k1 /\ hp_type (pr k1) = hp_type (pr k) /\ p_state k1 = p_state k /\ app k1 = app k
  | Stuck _, _ => True
  | _, _ => False
  end.
Proof.
  revert k. induction rest as [|c1 rest IH]; intros k; cbn [header_field_loop]; [auto|].
  destruct (is_nul (TOKEN c1)); [auto|].
  pose proof (header_field_char_state c1 (TOKEN c1) st (pr k)) as H.
  change (pr (put_ch c1 (retarget st c k))) with (set_state st (pr k)). change (pr (put_ch c1 k)) with (pr k).
  destruct (header_field_char c1 (TOKEN c1) (pr k)) as [x|w]; [|exact I]. destruct H as [-> Ht].
  specialize (IH (put_p (p (put_ch c1 k) + 1) (put_pr x (put_ch c1 k)))). cbn in IH.
  change (put_p (p (put_ch c1 (retarget st c k)) + 1) (put_pr (set_state st x) (put_ch c1 (retarget st c k))))
    with (retarget st c (put_p (p (put_ch c1 k) + 1) (put_pr x (put_ch c1 k)))).
  destruct (header_field_loop rest _) as [k1|]; [|exact I]. destruct (header_field_loop rest _) as [k2|]; [|contradiction].
  destruct IH as (-> & H1 & H2 & H3). rewrite H1, Ht. auto.
Qed.

Lemma field_case_follows k st c :
  hp_type (pr k) = HTTP_REQUEST -> conn_rel (p_state k) (app k) c -> p_state k = s_header_field -> case_follows k st c.
Proof.
  intros Ht Hc Hs. rewrite Hs in Hc. apply conn_rel_plain in Hc as ->; [|reflexivity].
  unfold case_follows, dispatch. cbn [p_state retarget]. rewrite Hs. unfold case_s_header_field. cbn [p retarget].
  pose proof (field_loop_follows (drop (Z.to_nat (p k)) data) k st (conn_of (app k))) as H. unfold retarget in H at 1 |- * at 1.
  destruct (header_field_loop _ k) as [k1|]; [|exact I]. destruct (header_field_loop _ _) as [k2|]; [|contradiction].
  destruct H as (-> & H1 & H2 & H3). rewrite Ht in H1. rewrite Hs in H2. rewrite <- H3. clear - H1 H2.
  destruct k1 as [[ty fl sx hs ix ln nr cl ma mi sc me er up] t ps pp cc m1 m2 m3 m4 m5]. cbn in H1, H2. subst.
  cbn [p app retarget]. repeat follow_step; follow_leaf.
Qed.
Lemma content_length_char_state c st x :
  match content_length_char c x with
  | inl y => content_length_char c (set_state st x) = inl (set_state st y) /\ hp_type y = hp_type x
  | inr e => content_length_char c (set_state st x) = inr e
  end.
Proof.
  unfold content_length_char. cbn [hp_content_length set_state].
  destruct (c =c " ")%char; [auto|]. destruct (negb (IS_NUM c)); [reflexivity|].
  repeat case_match; simplify_eq; auto.
Qed.

Lemma header_value_char_follows h st c k :
  match header_value_char data h k with
  | Done (k', h') => header_value_char data h (retarget st c k) = Done (retarget st c k', h') /\
      hp_type (pr k') = hp_type (pr k) /\ app k' = app k /\ (p_state k = s_header_value -> p_state k' = s_header_value)
  | Stuck _ => True
  end.
Proof.
  follow_open k. unfold header_value_char, match_value. cbn [ch p]. destruct h; exec_simpl; repeat case_match; simplify_eq;
    try exact I; split_and!; auto.
Qed.

Lemma value_done_follows start h st k :
  hp_type (pr k) = HTTP_REQUEST -> request_state (p_state k) = true -> settled (p_state k) = true ->
  ctl_follows (header_value_done data start h k) (header_value_done data start h (retarget st (conn_of (app k)) k)).
Proof.
  intros Ht Hr Hs. unfold header_value_done.
  change (upd_pr (set_header_state h) (retarget st (conn_of (app k)) k))
    with (retarget st (conn_of (app k)) (upd_pr (set_header_state h) k)).
  change (p (retarget st (conn_of (app k)) k)) with (p k).
  refine (count_follows (p k - start) (upd_pr (set_header_state h) k) st (conn_of (app k)) _ _ _). intros n. cbv zeta.
  assert (Hrel : conn_rel (p_state k) (app k) (conn_of (app k))).
  { apply andb_prop in Hs as [H1%negb_true_iff H2%negb_true_iff]. apply conn_rel_intro; auto. }
  cbn. destruct (_ =? _); cbn; (split; [|exact Hs]); do 2 eexists; split_and!; try reflexivity; assumption || apply Hrel.
Qed.

Lemma value_loop_follows fuel start h st k :
  hp_type (pr k) = HTTP_REQUEST -> p_state k = s_header_value ->
  ctl_follows (header_value_loop recorder data lenient fuel start h k)
              (header_value_loop m_setting data lenient fuel start h (retarget st (conn_of (app k)) k)).
Proof.
  revert h k. induction fuel as [|fuel IH]; intros h k Ht Hs; cbn [header_value_loop]; [exact I|].
  change (p (retarget st (conn_of (app k)) k)) with (p k). destruct (p k =? data_end data).
  { apply value_done_follows; rewrite ?Hs; auto. }
  destruct (byte_at data (p k)) as [d|]; [|exact I]. cbv zeta.
  destruct (d =c CR)%char.
  { unfold CALLBACK_DATA. refine (callback_data_follows For_header_value (p k) _
      (upd_pr (set_header_state h) (UPDATE_STATE s_header_almost_done (put_ch d k))) st _ _ _ _).
    - intros _. exact (value_done_follows start h st (upd_pr (set_header_state h) (UPDATE_STATE s_header_almost_done (put_ch d k))) Ht eq_refl eq_refl).
    - intros b st'. cbv zeta. cbn [data_conn]. 
      match goal with |- ctl_follows (header_value_done _ _ _ ?k') _ =>
        refine (eq_rect (conn_of (app k')) (fun c => ctl_follows (header_value_done data start h k') (header_value_done data start h (retarget st' c k')))
          (value_done_follows start h st' k' Ht eq_refl eq_refl) _ _) end.
      apply (conn_of_record c0 For_header_value b (app k)). }
  destruct (d =c LF)%char.
  { refine (count_follows (p k - start) (UPDATE_STATE s_header_almost_done (put_ch d k)) st (conn_of (app k)) _ _ _). intros n. cbv zeta.
    unfold CALLBACK_DATA_NOADVANCE. 
    refine (callback_data_follows For_header_value (p k) _
      (upd_pr (set_header_state h) (upd_pr (set_nread n) (UPDATE_STATE s_header_almost_done (put_ch d k)))) st _ _ _ _).
    - intros _. do 2 eexists. split; [reflexivity|]. split; [exact Ht|]. split; [reflexivity|]. apply conn_rel_intro; reflexivity.
    - intros b st'. do 2 eexists. split; [reflexivity|]. split; [exact Ht|]. split; [reflexivity|]. 
      apply (data_conn_rel c0 For_header_value s_header_almost_done b (app k)); reflexivity. }
  destruct (_ && _); [exact I|]. destruct (eqb h h_content_length).
  - change (pr (put_ch d (retarget st (conn_of (app k)) k))) with (set_state st (pr k)). change (pr (put_ch d k)) with (pr k).
    pose proof (content_length_char_state d st (pr k)) as H. destruct (content_length_char d (pr k)) as [x|e]; [|rewrite H; exact I].
    destruct H as [-> Hx]. rewrite Ht in Hx.
    exact (IH h (put_p (p k + 1) (put_pr x (put_ch d k))) Hx Hs).
  - pose proof (header_value_char_follows h st (conn_of (app k)) (put_ch d k)) as H.
    change (put_ch d (retarget st (conn_of (app k)) k)) with (retarget st (conn_of (app k)) (put_ch d k)).
    destruct (header_value_char data h (put_ch d k)) as [[k' h']|w]; [|exact I]. destruct H as (-> & H1 & H2 & H3).
    specialize (IH h' (put_p (p k' + 1) k') (eq_trans H1 Ht) (H3 Hs)). 
    change (app (put_p (p k' + 1) k')) with (app k') in IH. rewrite H2 in IH. exact IH.
Qed.

Lemma dispatch_follows k st c :
  hp_type (pr k) = HTTP_REQUEST -> request_state (p_state k) = true -> conn_rel (p_state k) (app k) c -> case_follows k st c.
Proof.
  intros Ht Hr Hc.
  pose proof (line_cases_follow k st c Ht Hc). pose proof (method_cases_follow k st c Ht Hc).
  pose proof (header_cases_follow k st c Ht Hc). pose proof (url_cases_follow k st c Ht Hc).
  pose proof (end_cases_follow k st c Ht Hc). pose proof (body_cases_follow k st c Ht Hc).
  pose proof (field_case_follows k st c Ht Hc) as Hfield.
  destruct (p_state k) eqn:Hs; try assumption; try discriminate; [exact (Hfield eq_refl)|].
  apply conn_rel_plain in Hc as ->; [|reflexivity]. unfold case_follows, dispatch. cbn [p_state retarget]. rewrite Hs.
  apply value_loop_follows; assumption.
Qed.

Lemma reexecute_follows fuel k1 k2 :
  follows k1 k2 -> ctl_follows (reexecute recorder data lenient fuel k1) (reexecute m_setting data lenient fuel k2).
Proof.
  revert k1 k2. induction fuel as [|fuel IH]; intros k1 k2 H; [exact I|]. destruct H as (st & c & -> & Ht & Hr & Hc).
  cbn [reexecute]. pose proof (dispatch_follows k1 st c Ht Hr Hc) as Hd. unfold case_follows in Hd.
  destruct (dispatch recorder data lenient k1), (dispatch m_setting data lenient (retarget st c k1)); try exact Hd; try exact I; try contradiction;
    try (apply IH; exact Hd); match goal with |- ctl_follows ?r _ => destruct r; try exact I; contradiction end.
Qed.

Lemma exec_char_follows k1 k2 :
  follows k1 k2 -> ctl_follows (exec_char recorder data lenient k1) (exec_char m_setting data lenient k2).
Proof.
  intros H. destruct H as (st & c & -> & Ht & Hr & Hc). unfold exec_char. cbn [p_state retarget].
  destruct (PARSING_HEADER (p_state k1)).
  - refine (count_follows 1 k1 st c _ _ _). intros n. apply reexecute_follows. do 2 eexists. split_and!; try reflexivity; assumption.
  - apply reexecute_follows. do 2 eexists. split_and!; try reflexivity; assumption.
Qed.

(** * Whole calls *)

Lemma finish_data_follows f k st r1 r2 :
  hp_type (pr k) = HTTP_REQUEST -> settled (p_state k) = true ->
  (forall k' st', hp_type (pr k') = HTTP_REQUEST -> p_state k' = p_state k ->
     ctl_follows (r1 k') (r2 (retarget st' (conn_of (app k')) k'))) ->
  ctl_follows (CALLBACK_DATA_NOADVANCE recorder data f k r1)
              (CALLBACK_DATA_NOADVANCE m_setting data f (retarget st (conn_of (app k)) k) r2).
Proof.
  intros Ht Hs Hr. unfold CALLBACK_DATA_NOADVANCE. change (p (retarget st (conn_of (app k)) k)) with (p k).
  apply callback_data_follows; [intros _; apply Hr; auto|]. intros b st'. cbv zeta.
  apply andb_prop in Hs as [Hm%negb_true_iff _].
  replace (data_conn f (p_state k) b (app k)) with (conn_of (record_data f b (app k))).
  - specialize (Hr (put_mark f None (put_app (record_data f b (app k)) (put_pr (set_state (p_state k) (pr k)) k))) st').
    destruct f; exact (Hr Ht eq_refl).
  - rewrite conn_of_record. destruct f; cbn [HttpConnSim.data_conn]; rewrite ?Hm; reflexivity.
Qed.

Lemma exec_finish_follows k st c :
  hp_type (pr k) = HTTP_REQUEST -> request_state (p_state k) = true -> settled (p_state k) = true ->
  conn_rel (p_state k) (app k) c ->
  ctl_follows (exec_finish recorder data k) (exec_finish m_setting data (retarget st c k)).
Proof.
  intros Ht Hr Hs Hc. pose proof (andb_prop _ _ Hs) as [Hm%negb_true_iff Hh%negb_true_iff].
  apply conn_rel_plain in Hc as ->; [|exact Hm]. unfold exec_finish.
  change (mark_count (retarget st (conn_of (app k)) k)) with (mark_count k). destruct (negb _); [exact I|].
  do 5 (apply finish_data_follows; [assumption | unfold settled in *; congruence | intros ? ? ? ?]).
  apply return_follows; [|replace (p_state k'3) with (p_state k) by congruence; exact Hs]. do 2 eexists. split; [reflexivity|]. split; [assumption|].
  replace (p_state k'3) with (p_state k) by congruence. split; [assumption|]. apply conn_rel_intro; [assumption..|reflexivity].
Qed.

Lemma exec_loop_follows fuel k1 k2 :
  follows k1 k2 -> settled (p_state k1) = true ->
  ctl_follows (exec_loop recorder data lenient fuel k1) (exec_loop m_setting data lenient fuel k2).
Proof.
  revert k1 k2. induction fuel as [|fuel IH]; intros k1 k2 H Hs.
  all: pose proof H as (st & c & -> & Ht & Hr & Hc); cbn [exec_loop]; cbn [p retarget].
  - destruct (_ =? _); [apply exec_finish_follows; assumption | exact I].
  - destruct (_ =? _); [apply exec_finish_follows; assumption|]. destruct (byte_at data (p k1)) as [d|]; [|exact I].
    assert (Hf : follows (put_ch d k1) (put_ch d (retarget st c k1))) by (do 2 eexists; split_and!; try reflexivity; assumption).
    pose proof (exec_char_follows _ _ Hf) as He.
    change (mk_ctx (set_state st (pr k1)) c (p_state k1) (p k1) d (header_field_mark k1) (header_value_mark k1) (url_mark k1)
      (body_mark k1) (status_mark k1)) with (put_ch d (retarget st c k1)) in *.
    destruct (exec_char recorder data lenient (put_ch d k1)) as [k1'|k1'|k1'|x1 t1 n1|w1|],
      (exec_char m_setting data lenient (put_ch d (retarget st c k1))) as [k2'|k2'|k2'|x2 c2 n2|w2|];
      try exact He; try exact I; try contradiction;
      try (match goal with |- HttpConnSim.ctl_follows _ ?r _ => destruct r; try exact I; contradiction end).
    destruct He as [(st' & c' & -> & He) Hs']. apply IH; [|exact Hs']. do 2 eexists. split; [reflexivity | exact He].
Qed.

Lemma exec_body_follows x t c :
  hp_type x = HTTP_REQUEST -> request_state (hp_state x) = true -> settled (hp_state x) = true -> conn_rel (hp_state x) t c ->
  ctl_follows (exec_body recorder data lenient x t) (exec_body m_setting data lenient x c).
Proof.
  intros Ht Hr Hs Hc. unfold exec_body. destruct (errno_ok x); [|cbn; auto 10]. cbn [negb].
  destruct (data_end data =? 0).
  - unfold exec_eof. cbn [p_state initial_ctx].
    destruct (hp_state x) eqn:E; try discriminate; cbn; rewrite ?E; auto 10.
  - apply exec_loop_follows.
    + exists (hp_state x), c. unfold entry_marks, initial_ctx, retarget. cbn [p_state].
      destruct x as [ty fl sx hs ix ln nr cl ma mi sc me er up]. cbn in *.
      destruct sx; cbn; split_and!; auto.
    + unfold entry_marks, initial_ctx. cbn [p_state]. destruct (hp_state x); exact Hs.
Qed.
End Cases.

(** Where the recorder's run ends without error, the server's ends the same
    way, its connection holding what the trace says. *)
Theorem execute_follows c0 x t c d x' t' n :
  hp_type x = HTTP_REQUEST -> request_state (hp_state x) = true -> settled (hp_state x) = true -> conn_rel c0 (hp_state x) t c ->
  http_parser_execute recorder x t d = Returned x' t' n -> errno_ok x' = true ->
  exists c', http_parser_execute m_setting x c d = Returned x' c' n /\ hp_type x' = HTTP_REQUEST /\
    request_state (hp_state x') = true /\ settled (hp_state x') = true /\ conn_rel c0 (hp_state x') t' c'.
Proof.
  intros Ht Hr Hs Hc. unfold http_parser_execute.
  pose proof (exec_body_follows c0 d (hp_lenient_http_headers x) x t c Ht Hr Hs Hc) as H.
  destruct (exec_body recorder d _ x t) as [| |k|x1 t1 n1| |]; try discriminate.
  - destruct (errno_ok (pr k)) eqn:E; cbn; intros [= <- <- <-] He; unfold errno_ok in E, He; cbn in He; congruence.
  - intros [= <- <- <-] He. destruct (exec_body m_setting d _ x c) as [| | |x2 c2 n2| |]; try contradiction.
    destruct H as (-> & -> & H1 & H2 & H3 & H4). exists c2. auto 10.
Qed.

Lemma settled_plain c0 s t c : settled s = true -> conn_rel c0 s t c <-> c = conn_of c0 t.
Proof.
  intros [Hm%negb_true_iff Hh%negb_true_iff]%andb_prop. split; [apply conn_rel_plain, Hm | apply conn_rel_intro; assumption].
Qed.

(** * Any number of calls *)

(** The calls of [http_parser_execute] that [getRequest] makes while nothing
    goes wrong. *)
Fixpoint serve (x : http_parser) (c : RpcServerHttpConn) (pieces : list bytes) : option (http_parser * RpcServerHttpConn) :=
  match pieces with
  | [] => Some (x, c)
  | d :: pieces =>
      match http_parser_execute m_setting x c d with
      | Returned x' c' n => if errno_ok x' && negb (hp_upgrade x') && (n =? zlen d) then serve x' c' pieces else None
      | _ => None
      end
  end.

(** C32: the connection refines the abstract parser.  Whatever pieces the
    abstract parser, which only records what is reported, accepts from a state
    between calls, the parser with the callbacks of [RpcServerHttpConn] accepts
    too, call by call with the same parser object; and the URL, the body and
    the flags of the connection are the ones the abstraction [conn_of] reads
    from the events recorded. *)
Theorem connection_refines_recorder c0 pieces x t x' t'
    (Ht : hp_type x = HTTP_REQUEST) (Hr : request_state (hp_state x) = true) (Hs : settled (hp_state x) = true)
    (Hfeed : feed x t pieces = Some (x', t')) :
  serve x (conn_of c0 t) pieces = Some (x', conn_of c0 t').
Proof.
  revert x t Ht Hr Hs Hfeed. induction pieces as [|d pieces IH]; intros x t Ht Hr Hs Hf; [injection Hf as <- <-; reflexivity|].
  apply feed_cons in Hf as (x1 & t1 & Hx & He%errno_ok_spec & Hu & Hf). cbn [serve].
  assert (Hrel : conn_rel c0 (hp_state x) t (conn_of c0 t)) by (apply settled_plain; auto).
  destruct (execute_follows c0 x t _ d x1 t1 _ Ht Hr Hs Hrel Hx He) as (c1 & -> & H1 & H2 & H3 & H4).
  apply settled_plain in H4 as ->; [|exact H3]. rewrite He, Hu, Z.eqb_refl. apply IH; assumption.
Qed.

Lemma connection_refines_recorder_witness :
  exists x' t', feed fresh [] post_pieces = Some (x', t') /\
    serve fresh (new_http_conn "c1" 1000) post_pieces = Some (x', conn_of (new_http_conn "c1" 1000) t') /\
    m_url (conn_of (new_http_conn "c1" 1000) t') = bs "/a" /\ m_body (conn_of (new_http_conn "c1" 1000) t') = bs "abcd".
Proof.
  destruct (feed fresh [] post_pieces) as [[x' t']|] eqn:Hf; [|vm_compute in Hf; discriminate].
  exists x', t'. split; [reflexivity|].
  split; [exact (connection_refines_recorder (new_http_conn "c1" 1000) post_pieces fresh [] x' t' eq_refl eq_refl eq_refl Hf)|].
  vm_compute in Hf. injection Hf as <- <-. split; vm_compute; reflexivity.
Defined.
