(* ===== verification/RespBroker.v ===== *)
(** [RpcRespBroker] of [server/src/RpcRespBroker.cpp]: the response of one
    request, built as an RPC package (length, header length, header, user
    data, return value) or as an HTTP response. *)
From Stdlib Require Import ZArith Lia Bool List String Ascii.
From stdpp Require Import base list strings.
From S2P Require Import Prelude Wire.

(** * Decimal output of [std::stringstream] *)

(** The decimal digits of [z >= 0]; [fuel] digits are enough for the value. *)
Fixpoint digits (fuel : nat) (z : Z) : bytes :=
  match fuel with
  | O => []
  | S fuel => (if z / 10 =? 0 then [] else digits fuel (z / 10)) ++ [chr (48 + z mod 10)]
  end.

(** [ss << v] for a [size_t] or a non-negative [int]: at most 20 digits. *)
Definition decimal (v : Z) : bytes := digits 20 v.

(** * State *)

Record RpcRespBroker := mk_broker {
  m_conn_id : string;
  m_req_id : string;
  m_need_resp : bool;
  m_is_responed : bool;
  m_from_http : bool;
  m_resp_proto : RpcInnerResp;
  m_resp_pkg : option response_pkg;
  m_return_val_pos : Z;    (* uint32_t *)
  m_user_data_pos : Z      (* uint32_t *)
}.

Definition put_pkg (p : response_pkg) (b : RpcRespBroker) : RpcRespBroker :=
  mk_broker (m_conn_id b) (m_req_id b) (m_need_resp b) (m_is_responed b) (m_from_http b)
    (m_resp_proto b) (Some p) (m_return_val_pos b) (m_user_data_pos b).
Definition put_positions (ret user : Z) (b : RpcRespBroker) : RpcRespBroker :=
  mk_broker (m_conn_id b) (m_req_id b) (m_need_resp b) (m_is_responed b) (m_from_http b)
    (m_resp_proto b) (m_resp_pkg b) ret user.
Definition put_responed (b : RpcRespBroker) : RpcRespBroker :=
  mk_broker (m_conn_id b) (m_req_id b) (m_need_resp b) true (m_from_http b)
    (m_resp_proto b) (m_resp_pkg b) (m_return_val_pos b) (m_user_data_pos b).

Definition new_broker (conn_id req_id : string) (needResp is_from_http : bool) : RpcRespBroker :=
  mk_broker conn_id req_id needResp false is_from_http
    {| resp_version := RPCFRAME_VER; resp_request_id := req_id |} None 0 0.

Definition isNeedResp (b : RpcRespBroker) : bool := m_need_resp b.
Definition isResponed (b : RpcRespBroker) : bool := m_is_responed b.
Definition isFromHttp (b : RpcRespBroker) : bool := m_from_http b.
Definition isAlloced (b : RpcRespBroker) : bool := negb (m_return_val_pos b =? 0).
Definition getRespPkg (b : RpcRespBroker) : option response_pkg := m_resp_pkg b.

(** [getUserData]: the offset of the user data in the package. *)
Definition getUserData (b : RpcRespBroker) : outcome Z :=
  let! _ := need NullPointer (m_resp_pkg b) in Done (m_user_data_pos b).

(** Writing through a pointer into the package: [memcpy], [strcpy], or the
    user's own code. *)
Definition write_pkg (off : Z) (d : bytes) (b : RpcRespBroker) : outcome RpcRespBroker :=
  let! p := need NullPointer (m_resp_pkg b) in
  let! buf := need OutOfBounds (write_at (rs_data p) off d) in
  Done (put_pkg {| rs_data := buf; rs_data_len := rs_data_len p |} b).

(** * HTTP responses *)

Definition getHttpCode (rs : RpcStatus) : Z :=
  match rs with RPC_SRV_NOTFOUND | RPC_METHOD_NOTFOUND => 404 | _ => 200 end.

Definition CRLF : bytes := [CR; LF].

Definition setupHttpHdr (status len : Z) : bytes :=
  bs "HTTP/1.1 " ++ decimal status ++ CRLF ++
  bs "Content-Type: text/html" ++ CRLF ++
  bs "Content-Length: " ++ decimal len ++ CRLF ++
  bs "Connection: close" ++ CRLF ++ CRLF.

(** [allocHttpResp]: the pointer it returns is the start of the package; the
    size of a package is a [uint32_t]. *)
Definition allocHttpResp (status : Z) (resp : bytes) (b : RpcRespBroker) : outcome (Z * RpcRespBroker) :=
  let ss := setupHttpHdr status (zlen resp) ++ resp in
  let b := put_pkg (new_response_pkg (u32 (zlen ss))) b in
  let! b := write_pkg 0 ss b in
  Done (0, put_positions (u32 (zlen ss)) (m_user_data_pos b) b).

(** [allocHttpBuf]: the pointer it returns is after the header. *)
Definition allocHttpBuf (status len : Z) (b : RpcRespBroker) : outcome (Z * RpcRespBroker) :=
  let ss := setupHttpHdr status len in
  let b := put_pkg (new_response_pkg (u32 (zlen ss + len))) b in
  let! b := write_pkg 0 ss b in
  Done (zlen ss, put_positions (u32 (zlen ss + len)) (m_user_data_pos b) b).

(** * RPC responses *)

Section Codec.
Context `{MessageCodec RpcInnerResp}.

(** [allocRespBuf]: the offset of the user data and the broker. *)
Definition allocRespBuf (len : Z) (b : RpcRespBroker) : outcome (Z * RpcRespBroker) :=
  if m_from_http b then allocHttpBuf 200 len b
  else
    let proto_size := u32 (ByteSize (m_resp_proto b)) in
    let pkg_size := u64 (4 + proto_size + len + 4) in
    let b := put_pkg (new_response_pkg (u32 (pkg_size + 4))) b in
    let! b := write_pkg 0 (put32 (u32 pkg_size)) b in
    let! b := write_pkg 4 (put32 proto_size) b in
    let! b := write_pkg 8 (serialize (m_resp_proto b)) b in
    let user := u32 (4 + 4 + proto_size) in
    Done (4 + 4 + proto_size, put_positions (u32 (user + len)) user b).

(** The characters of a C string: up to the first NUL. *)
Fixpoint c_str (s : bytes) : bytes :=
  match s with
  | [] => []
  | c :: s' => if (c =c "000")%char then [] else c :: c_str s'
  end.

(** [allocRespBufFrom(const std::string &)] *)
Definition allocRespBufFrom_string (resp : bytes) (b : RpcRespBroker) : outcome (Z * RpcRespBroker) :=
  if m_from_http b then allocHttpResp 200 resp b
  else
    let! (p_ss, b) := allocRespBuf (zlen resp + 1) b in
    let! b := write_pkg p_ss (c_str resp ++ ["000"%char]) b in
    let! b := write_pkg (p_ss + zlen resp) ["000"%char] b in
    Done (p_ss, b).

(** [allocRespBufFrom(const google::protobuf::Message &)], for a message whose
    serialized form is [resp]. *)
Definition allocRespBufFrom_message (resp : bytes) (b : RpcRespBroker) : outcome (Z * RpcRespBroker) :=
  let! (p_ss, b) := if m_from_http b then allocHttpBuf 200 (zlen resp) b
                    else allocRespBuf (zlen resp) b in
  let! b := write_pkg p_ss resp b in
  Done (p_ss, b).

Definition setReturnVal (rs : RpcStatus) (b : RpcRespBroker) : outcome RpcRespBroker :=
  let! b :=
    match m_resp_pkg b with
    | None =>
        if m_return_val_pos b =? 0 then
          let! (_, b) := if negb (m_from_http b) then allocRespBuf 1 b
                         else allocHttpBuf (getHttpCode rs) 1 b in
          Done b
        else Done b
    | Some _ => Done b
    end in
  if negb (m_from_http b) then write_pkg (m_return_val_pos b) (put32 (status_num rs)) b
  else Done b.

(** The [std::string] made from [m_resp_pkg->data]: it needs a written NUL
    inside the package. *)
Fixpoint string_of_chars (buf : buffer) : outcome bytes :=
  match buf with
  | [] => Stuck OutOfBounds
  | None :: _ => Stuck OutOfBounds
  | Some c :: buf' =>
      if (c =c "000")%char then Done []
      else let! s := string_of_chars buf' in Done (c :: s)
  end.

(** What [RpcServerConnWorker::pushResp] queues for a broker. *)
Definition pushed_pkg (b : RpcRespBroker) : outcome (response_pkg * RpcRespBroker) :=
  let! b := if isAlloced b then Done b else let! (_, b) := allocRespBuf 1 b in Done b in
  let! p := need AssertFailed (getRespPkg b) in
  Done (p, b).

(** [response(rs)]: the result, and the package it pushes. *)
Definition response (rs : RpcStatus) (b : RpcRespBroker)
    : outcome (bool * option response_pkg * RpcRespBroker) :=
  if negb (m_need_resp b) then Done (false, None, b)
  else
    let! b :=
      if m_from_http b then
        let! p := need NullPointer (m_resp_pkg b) in
        let! s := string_of_chars (rs_data p) in
        let! (_, b) := allocHttpResp (getHttpCode rs) s b in
        Done b
      else setReturnVal rs b in
    let b := put_responed b in
    let! (p, b) := pushed_pkg b in
    Done (true, Some p, b).
End Codec.
