(* ===== verification/ThreadPool.v ===== *)
(** [ThreadPool] and [HashThreadPool] of [common/include/ThreadPool.h]: worker
    threads that take tasks from one queue, or each from its own.

    A worker's loop is cut into the steps between which the other threads can
    run: the test of [m_stop], the end of the [pop] and the end of
    [m_real_worker->run]. *)
From Stdlib Require Import ZArith Lia Bool List String.
From stdpp Require Import base list strings.
From S2P Require Import Prelude Queue.

Section Pool.
(** [TaskT] *)
Context {T : Type}.

(** * Workers *)

(** Where a worker thread is. *)
Inductive worker_at :=
| Testing               (* before the test of m_stop *)
| Popping               (* inside pop *)
| Running (t : T)       (* inside m_real_worker->run(t) *)
| Left.                 (* out of the loop *)

Record Worker := mk_worker { m_stop : bool; w_at : worker_at }.

Definition new_Worker : Worker := mk_worker false Testing.
Definition set_at (a : worker_at) (w : Worker) : Worker := mk_worker (m_stop w) a.
Definition stop (w : Worker) : Worker := mk_worker true (w_at w).

(** What a step of a worker does that others can see. *)
Inductive work := Start (t : T) | Finish (t : T).

(** One step of [Worker::run]; a [pop] of an empty queue goes on waiting or
    times out. *)
Definition worker_turn (timed_out : bool) (w : Worker) (q : Queue T) : Worker * Queue T * option work :=
  match w_at w with
  | Testing => (set_at (if m_stop w then Left else Popping) w, q, None)
  | Popping =>
      match pop_now q with
      | (Some task, q) => (set_at (Running task) w, q, Some (Start task))
      | (None, q) => (if timed_out then set_at Testing w else w, q, None)
      end
  | Running task => (set_at Testing w, q, Some (Finish task))
  | Left => (w, q, None)
  end.

(** * [ThreadPool] *)

Record ThreadPool := mk_pool { m_taskQ : Queue T; m_worker_threads : list Worker }.

Definition new_pool (thread_num : nat) : ThreadPool := mk_pool default_Queue (replicate thread_num new_Worker).
Definition getTaskQSize (p : ThreadPool) : Z := size (m_taskQ p).
Definition setTaskQSize (qmaxsize : Z) (p : ThreadPool) : ThreadPool :=
  mk_pool (setMaxSize (u32 qmaxsize) (m_taskQ p)) (m_worker_threads p).
Definition addTask (task : T) (timeout : Z) (wait : wait_end T) (p : ThreadPool) : outcome (bool * ThreadPool) :=
  let! (ok, q) := push timeout wait task (m_taskQ p) in Done (ok, mk_pool q (m_worker_threads p)).
(** The body of [~ThreadPool]; what follows it joins the threads. *)
Definition stop_all (p : ThreadPool) : ThreadPool := mk_pool (m_taskQ p) (map stop (m_worker_threads p)).

(** The steps of the threads that use a pool. *)
Inductive pool_action :=
| AddTask (t : T)                      (* addTask(t), without a timeout *)
| SetTaskQSize (n : Z)
| Turn (i : nat) (timed_out : bool)    (* a step of worker i *)
| StopAll.

Inductive pool_event :=
| Accepted (t : T)
| Refused (t : T)
| Worked (i : nat) (w : work).

Definition pool_step (a : pool_action) (p : ThreadPool) : outcome (ThreadPool * list pool_event) :=
  match a with
  | AddTask t =>
      let! (ok, p') := addTask t 0 (TimedOut (m_taskQ p)) p in
      Done (p', [if ok then Accepted t else Refused t])
  | SetTaskQSize n => Done (setTaskQSize n p, [])
  | Turn i timed_out =>
      match m_worker_threads p !! i with
      | Some w =>
          let '(w, q, o) := worker_turn timed_out w (m_taskQ p) in
          Done (mk_pool q (<[i := w]> (m_worker_threads p)), match o with Some e => [Worked i e] | None => [] end)
      | None => Done (p, [])
      end
  | StopAll => Done (stop_all p, [])
  end.

Fixpoint pool_run (l : list pool_action) (p : ThreadPool) : outcome (ThreadPool * list pool_event) :=
  match l with
  | [] => Done (p, [])
  | a :: l => let! (p, e) := pool_step a p in let! (p, es) := pool_run l p in Done (p, e ++ es)
  end.

(** * [HashThreadPool] *)

(** Each worker has its queue. *)
Record HashWorker := mk_hash_worker { h_taskQ : Queue T; h_worker : Worker }.
Notation HashThreadPool := (list HashWorker).

(** [std::hash<std::string>] *)
Variable hash : string -> Z.

Definition new_HashWorker : HashWorker := mk_hash_worker default_Queue new_Worker.
Definition hworker_stop (h : HashWorker) : HashWorker := mk_hash_worker (h_taskQ h) (stop (h_worker h)).
Definition hworker_addTask (task : T) (timeout : Z) (wait : wait_end T) (h : HashWorker) : outcome (bool * HashWorker) :=
  let! (ok, q) := push timeout wait task (h_taskQ h) in Done (ok, mk_hash_worker q (h_worker h)).
Definition hworker_setTaskQSize (qmaxsize : Z) (h : HashWorker) : HashWorker :=
  mk_hash_worker (setMaxSize (u32 qmaxsize) (h_taskQ h)) (h_worker h).
Definition hworker_turn (timed_out : bool) (h : HashWorker) : HashWorker * option work :=
  let '(w, q, o) := worker_turn timed_out (h_worker h) (h_taskQ h) in (mk_hash_worker q w, o).

Definition new_hash_pool (thread_num : nat) : HashThreadPool := replicate thread_num new_HashWorker.
Definition hash_setTaskQSize (qmaxsize : Z) (p : HashThreadPool) : HashThreadPool := map (hworker_setTaskQSize qmaxsize) p.
Definition hash_stop_all (p : HashThreadPool) : HashThreadPool := map hworker_stop p.

(** [str_hash % m_worker_threads.size()]; a pool without workers divides by
    zero. *)
Definition worker_of (p : HashThreadPool) (key : string) : option nat :=
  match p with [] => None | _ => Some (Z.to_nat (hash key mod zlen p)) end.

Definition hash_addTask (task : T) (key : string) (timeout : Z) (wait : wait_end T) (p : HashThreadPool)
    : outcome (bool * HashThreadPool) :=
  let! i := need OutOfBounds (worker_of p key) in
  let! h := need OutOfBounds (p !! i) in
  let! (ok, h) := hworker_addTask task timeout wait h in
  Done (ok, <[i := h]> p).

Inductive hash_action :=
| HashAdd (t : T) (key : string)
| HashSetSize (n : Z)
| HashTurn (i : nat) (timed_out : bool)
| HashStop.

Inductive hash_event :=
| HashAccepted (key : string) (t : T)
| HashRefused (key : string) (t : T)
| HashWorked (i : nat) (w : work).

Definition hash_step (a : hash_action) (p : HashThreadPool) : outcome (HashThreadPool * list hash_event) :=
  match a with
  | HashAdd t key =>
      let! (ok, p') := hash_addTask t key 0 (TimedOut default_Queue) p in
      Done (p', [if ok then HashAccepted key t else HashRefused key t])
  | HashSetSize n => Done (hash_setTaskQSize n p, [])
  | HashTurn i timed_out =>
      match p !! i with
      | Some h =>
          let '(h, o) := hworker_turn timed_out h in
          Done (<[i := h]> p, match o with Some e => [HashWorked i e] | None => [] end)
      | None => Done (p, [])
      end
  | HashStop => Done (hash_stop_all p, [])
  end.

Fixpoint hash_run (l : list hash_action) (p : HashThreadPool) : outcome (HashThreadPool * list hash_event) :=
  match l with
  | [] => Done (p, [])
  | a :: l => let! (p, e) := hash_step a p in let! (p, es) := hash_run l p in Done (p, e ++ es)
  end.

(** * What happened in a run *)

(** The task a worker is running. *)
Definition running (w : Worker) : list T := match w_at w with Running t => [t] | _ => [] end.
Definition started (o : work) : list T := match o with Start t => [t] | Finish _ => [] end.
Definition finished (o : work) : list T := match o with Start _ => [] | Finish t => [t] end.

Definition accepted_tasks (es : list pool_event) : list T :=
  flat_map (fun e => match e with Accepted t => [t] | _ => [] end) es.
Definition started_tasks (es : list pool_event) : list T :=
  flat_map (fun e => match e with Worked _ o => started o | _ => [] end) es.
(** The tasks worker [i] started, and those it finished. *)
Definition started_by (i : nat) (es : list pool_event) : list T :=
  flat_map (fun e => match e with Worked j o => if decide (j = i) then started o else [] | _ => [] end) es.
Definition finished_by (i : nat) (es : list pool_event) : list T :=
  flat_map (fun e => match e with Worked j o => if decide (j = i) then finished o else [] | _ => [] end) es.

Definition running_at (i : nat) (p : ThreadPool) : list T :=
  match m_worker_threads p !! i with Some w => running w | None => [] end.

(** The tasks accepted for worker [i] of a pool of [n]. *)
Definition hash_accepted (n : Z) (i : nat) (es : list hash_event) : list T :=
  flat_map (fun e => match e with HashAccepted key t => if decide (Z.to_nat (hash key mod n) = i) then [t] else [] | _ => [] end) es.
Definition hash_started (i : nat) (es : list hash_event) : list T :=
  flat_map (fun e => match e with HashWorked j o => if decide (j = i) then started o else [] | _ => [] end) es.
Definition hash_finished (i : nat) (es : list hash_event) : list T :=
  flat_map (fun e => match e with HashWorked j o => if decide (j = i) then finished o else [] | _ => [] end) es.
Definition hash_queue (i : nat) (p : HashThreadPool) : list T :=
  match p !! i with Some h => m_queue (h_taskQ h) | None => [] end.
Definition hash_running (i : nat) (p : HashThreadPool) : list T :=
  match p !! i with Some h => running (h_worker h) | None => [] end.

(** * Lemmas *)

(** A turn moves a task from the queue to the worker, and from the worker to
    the finished ones. *)
Lemma worker_turn_moves b w q w' q' o :
  worker_turn b w q = (w', q', o) ->
  m_queue q = match o with Some e => started e | None => [] end ++ m_queue q' /\
  running w ++ match o with Some e => started e | None => [] end
    = match o with Some e => finished e | None => [] end ++ running w' /\
  m_max_q_len q' = m_max_q_len q /\ m_dropOldOnFull q' = m_dropOldOnFull q /\ m_stop w' = m_stop w.
Proof.
  destruct w as [s [| |t|]]; unfold worker_turn, pop_now, front_pop; cbn [w_at].
  - intros [= <- <- <-]. destruct s; auto.
  - destruct q as [[|x l] n d]; cbn; [destruct b|]; intros [= <- <- <-]; auto.
  - intros [= <- <- <-]. auto.
  - intros [= <- <- <-]. auto.
Qed.

Lemma push_now_moves (x : T) (q : Queue T) : m_dropOldOnFull q = false ->
  exists ok q', push 0 (TimedOut q) x q = Done (ok, q') /\
    m_queue q' = m_queue q ++ (if (ok : bool) then [x] else []) /\ m_dropOldOnFull q' = false.
Proof.
  intros Hd. unfold push. rewrite Hd. destruct (_ <=? _).
  - exists false, q. rewrite app_nil_r. auto.
  - exists true, (set_items (m_queue q ++ [x]) q). auto.
Qed.

(** Moves in a row. *)
Lemma moves_app {A} (q0 q1 q2 a1 a2 s1 s2 : list A) :
  q0 ++ a1 = s1 ++ q1 -> q1 ++ a2 = s2 ++ q2 -> q0 ++ a1 ++ a2 = (s1 ++ s2) ++ q2.
Proof. intros H1 H2. rewrite app_assoc, H1, <- app_assoc, H2, app_assoc. reflexivity. Qed.

(** What a step of a pool keeps: the queue holds the tasks accepted and not
    started, each worker the task it has started and not finished. *)
Definition pool_moves (p : ThreadPool) (es : list pool_event) (p' : ThreadPool) : Prop :=
  m_queue (m_taskQ p) ++ accepted_tasks es = started_tasks es ++ m_queue (m_taskQ p') /\
  (forall i, running_at i p ++ started_by i es = finished_by i es ++ running_at i p') /\
  m_dropOldOnFull (m_taskQ p') = false.

Lemma running_stop ws i :
  match map stop ws !! i with Some w => running w | None => [] end = match ws !! i with Some w => running w | None => [] end.
Proof. rewrite lookup_map. destruct (ws !! i); reflexivity. Qed.

Lemma pool_step_moves a p : m_dropOldOnFull (m_taskQ p) = false ->
  exists p' es, pool_step a p = Done (p', es) /\ pool_moves p es p'.
Proof.
  intros Hd. destruct a as [t|n|i b|]; cbn [pool_step].
  - unfold addTask. destruct (push_now_moves t (m_taskQ p) Hd) as (ok & q & -> & Hq & Hd'). cbn [outcome_bind].
    do 2 eexists. split; [reflexivity|]. split; [|split; [|exact Hd']].
    + cbn [m_taskQ]. rewrite Hq. destruct ok; cbn; rewrite ?app_nil_r; reflexivity.
    + intros i. destruct ok; cbn; rewrite app_nil_r; reflexivity.
  - do 2 eexists. split; [reflexivity|]. split; [|split; [|exact Hd]]; [|intros i]; cbn; rewrite ?app_nil_r; reflexivity.
  - destruct (m_worker_threads p !! i) as [w|] eqn:Hw.
    + destruct (worker_turn b w (m_taskQ p)) as [[w' q] o] eqn:Ht.
      destruct (worker_turn_moves _ _ _ _ _ _ Ht) as (Hq & Hr & _ & Hdr & _).
      do 2 eexists. split; [reflexivity|]. split; [|split; [|cbn; congruence]].
      * cbn [m_taskQ]. rewrite Hq. destruct o; cbn; rewrite ?app_nil_r; reflexivity.
      * intros j. unfold running_at. cbn [m_worker_threads]. destruct (decide (i = j)) as [<-|Hj].
        -- rewrite list_lookup_insert_eq by (eapply lookup_lt_Some; exact Hw). rewrite Hw.
           destruct o; cbn; rewrite ?decide_True, ?app_nil_r in * by reflexivity; rewrite ?app_nil_r; exact Hr.
        -- rewrite list_lookup_insert_ne by exact Hj. destruct o; cbn; rewrite ?decide_False by exact Hj; cbn; rewrite app_nil_r; reflexivity.
    + do 2 eexists. split; [reflexivity|]. split; [|split; [|exact Hd]]; [|intros j]; cbn; rewrite ?app_nil_r; reflexivity.
  - do 2 eexists. split; [reflexivity|]. split; [|split; [|exact Hd]]; [|intros j; unfold running_at; cbn; rewrite running_stop];
      cbn; rewrite ?app_nil_r; reflexivity.
Qed.

Lemma pool_run_moves l : forall p, m_dropOldOnFull (m_taskQ p) = false ->
  exists p' es, pool_run l p = Done (p', es) /\ pool_moves p es p'.
Proof.
  induction l as [|a l IH]; intros p Hd; cbn [pool_run].
  - do 2 eexists. split; [reflexivity|]. split; [|split; [|exact Hd]]; [|intros i]; cbn; rewrite app_nil_r; reflexivity.
  - destruct (pool_step_moves a p Hd) as (p1 & es1 & -> & Hq1 & Hr1 & Hd1). cbn [outcome_bind].
    destruct (IH p1 Hd1) as (p2 & es2 & -> & Hq2 & Hr2 & Hd2). cbn [outcome_bind].
    do 2 eexists. split; [reflexivity|].
    split; [|split; [|exact Hd2]]; unfold accepted_tasks, started_tasks, started_by, finished_by in *; [|intros i];
      rewrite !flat_map_app; eapply moves_app; eauto.
Qed.

(** How far a stopped worker is from leaving. *)
Definition rank (w : Worker) : nat := match w_at w with Left => 0 | Testing => 1 | Running _ => 2 | Popping => 3 end.
Definition in_pop (w : Worker) : nat := match w_at w with Popping => 1 | _ => 0 end.
(** The turns of worker [i] in which a [pop] does not go on waiting. *)
Definition turn_of (i : nat) (a : pool_action) : nat := match a with Turn j true => if decide (j = i) then 1 else 0 | _ => 0 end.
Fixpoint turns (i : nat) (l : list pool_action) : nat := match l with [] => 0 | a :: l => turn_of i a + turns i l end.

Lemma worker_turn_leaves b w q w' q' o : m_stop w = true -> worker_turn b w q = (w', q', o) ->
  m_stop w' = true /\ (rank w' <= rank w - (if b then 1 else 0))%nat /\
  (match o with Some e => length (started e) | None => 0 end + in_pop w' <= in_pop w)%nat.
Proof.
  destruct w as [s [| |t|]]; unfold worker_turn, pop_now, front_pop; cbn [w_at m_stop]; intros ->.
  - intros [= <- <- <-]. destruct b; cbn; lia.
  - destruct q as [[|x l] n d]; cbn; destruct b; intros [= <- <- <-]; cbn; lia.
  - intros [= <- <- <-]. destruct b; cbn; lia.
  - intros [= <- <- <-]. destruct b; cbn; lia.
Qed.

Lemma stopped_run l i : forall p p' es w,
  pool_run l p = Done (p', es) -> m_worker_threads p !! i = Some w -> m_stop w = true ->
  exists w', m_worker_threads p' !! i = Some w' /\ (rank w' <= rank w - turns i l)%nat /\
    (length (started_by i es) + in_pop w' <= in_pop w)%nat.
Proof.
  induction l as [|a l IH]; intros p p' es w; cbn [pool_run].
  { intros [= <- <-] Hw _. exists w. cbn. split; [exact Hw | lia]. }
  destruct (pool_step a p) as [[p1 es1]|] eqn:Hs; [|discriminate]. cbn [outcome_bind].
  destruct (pool_run l p1) as [[p2 es2]|] eqn:Hr; [|discriminate]. intros [= <- <-] Hw Hstop.
  assert (exists w1, m_worker_threads p1 !! i = Some w1 /\ m_stop w1 = true /\
    (rank w1 <= rank w - turn_of i a)%nat /\ (length (started_by i es1) + in_pop w1 <= in_pop w)%nat) as (w1 & Hw1 & Hs1 & Hk1 & Hc1).
  { destruct a as [t|n|j b|]; cbn [pool_step] in Hs.
    - unfold addTask in Hs. destruct (push _ _ _ _) as [[ok q]|]; [|discriminate]. injection Hs as <- <-.
      exists w. unfold turn_of. destruct ok; cbn; split_and!; auto; lia.
    - injection Hs as <- <-. exists w. unfold turn_of. cbn. split_and!; auto; lia.
    - destruct (m_worker_threads p !! j) as [v|] eqn:Hv.
      + destruct (worker_turn b v (m_taskQ p)) as [[v' q] o] eqn:Ht. injection Hs as <- <-. cbn [m_worker_threads].
        destruct (decide (j = i)) as [->|Hj].
        * rewrite Hw in Hv. injection Hv as <-. destruct (worker_turn_leaves _ _ _ _ _ _ Hstop Ht) as (H1 & H2 & H3).
          exists v'. rewrite list_lookup_insert_eq by (eapply lookup_lt_Some; exact Hw). split_and!; auto.
          -- unfold turn_of. destruct b; rewrite ?decide_True by reflexivity; lia.
          -- destruct o; cbn; rewrite ?decide_True by reflexivity; cbn; rewrite ?app_nil_r; lia.
        * exists w. rewrite list_lookup_insert_ne by exact Hj. split_and!; auto; [cbn; destruct b; rewrite ?decide_False by exact Hj; lia|].
          destruct o; cbn; rewrite ?decide_False by exact Hj; cbn; lia.
      + injection Hs as <- <-. assert (j <> i) by congruence. exists w. cbn. rewrite decide_False by assumption. destruct b; split_and!; auto; lia.
    - injection Hs as <- <-. exists (stop w). cbn [stop_all m_worker_threads]. rewrite lookup_map, Hw.
      change (rank (stop w)) with (rank w). change (in_pop (stop w)) with (in_pop w). cbn. split_and!; auto; lia. }
  destruct (IH p1 p2 es2 w1 Hr Hw1 Hs1) as (w2 & Hw2 & Hk2 & Hc2). exists w2. split; [exact Hw2|].
  cbn [turns].
  unfold started_by in *. rewrite flat_map_app, length_app. lia.
Qed.

(** ** Pools with a queue per worker *)

Definition hash_moves (i : nat) (n : Z) (p : HashThreadPool) (es : list hash_event) (p' : HashThreadPool) : Prop :=
  hash_queue i p ++ hash_accepted n i es = hash_started i es ++ hash_queue i p' /\
  hash_running i p ++ hash_started i es = hash_finished i es ++ hash_running i p'.

(** No queue drops tasks, which no operation changes. *)
Definition hash_keeps (p : HashThreadPool) : Prop := Forall (fun h => m_dropOldOnFull (h_taskQ h) = false) p.

Lemma hash_map_moves i n p f :
  (forall h, m_queue (h_taskQ (f h)) = m_queue (h_taskQ h) /\ running (h_worker (f h)) = running (h_worker h)) ->
  hash_moves i n p [] (map f p).
Proof.
  intros Hf. unfold hash_moves, hash_queue, hash_running. rewrite lookup_map. cbn.
  rewrite !app_nil_r. destruct (p !! i) as [h|]; [|auto]. destruct (Hf h) as [H1 H2]. cbn. auto.
Qed.

Lemma worker_of_range p key : p <> [] ->
  worker_of p key = Some (Z.to_nat (hash key mod zlen p)) /\ (Z.to_nat (hash key mod zlen p) < length p)%nat.
Proof.
  intros Hne. unfold worker_of. destruct p as [|h p]; [contradiction|]. split; [reflexivity|].
  rewrite zlen_cons. pose proof (zlen_nonneg p). pose proof (Z.mod_pos_bound (hash key) (1 + zlen p)).
  cbn [length]. unfold zlen in *. lia.
Qed.

(** One worker is replaced. *)
Lemma hash_insert_moves p i h h' es n :
  p !! i = Some h ->
  m_queue (h_taskQ h) ++ hash_accepted n i es = hash_started i es ++ m_queue (h_taskQ h') ->
  running (h_worker h) ++ hash_started i es = hash_finished i es ++ running (h_worker h') ->
  (forall j, j <> i -> hash_accepted n j es = [] /\ hash_started j es = [] /\ hash_finished j es = []) ->
  forall j, hash_moves j n p es (<[i := h']> p).
Proof.
  intros Hh Hq Hr Ho j. unfold hash_moves, hash_queue, hash_running. destruct (decide (i = j)) as [<-|Hj].
  - rewrite list_lookup_insert_eq by (eapply lookup_lt_Some; exact Hh). rewrite Hh. auto.
  - rewrite list_lookup_insert_ne by exact Hj. destruct (Ho j) as (-> & -> & ->); [congruence|]. rewrite !app_nil_r. auto.
Qed.

Lemma hash_step_moves a p : p <> [] -> hash_keeps p ->
  exists p' es, hash_step a p = Done (p', es) /\ hash_keeps p' /\ length p' = length p /\ forall i, hash_moves i (zlen p) p es p'.
Proof.
  intros Hne Hk. destruct a as [t key|n|i b|]; cbn [hash_step].
  - unfold hash_addTask. destruct (worker_of_range p key Hne) as [-> Hi]. cbn [need outcome_bind].
    set (i := Z.to_nat (hash key mod zlen p)) in *. destruct (lookup_lt_is_Some_2 p i Hi) as [h Hh]. rewrite Hh. cbn [need outcome_bind].
    pose proof (proj1 (Forall_lookup _ _) Hk i h Hh) as Hd. cbn in Hd.
    destruct (push_now_moves t (h_taskQ h) Hd) as (ok & q & Hp & Hq & Hd'). unfold hworker_addTask, push in *. rewrite Hd in *. cbn [Z.eqb] in *.
    destruct (m_max_q_len (h_taskQ h) <=? size (h_taskQ h)); injection Hp as <- <-; cbn [outcome_bind].
    + do 2 eexists. split; [reflexivity|]. split; [apply Forall_insert; assumption|]. split; [apply length_insert|].
      apply (hash_insert_moves p i h); auto; cbn; rewrite app_nil_r; reflexivity.
    + do 2 eexists. split; [reflexivity|]. split; [apply Forall_insert; assumption|]. split; [apply length_insert|].
      apply (hash_insert_moves p i h); cbn; fold i; [exact Hh | rewrite decide_True by reflexivity; reflexivity | apply app_nil_r|].
      intros j Hj. rewrite decide_False by congruence. auto.
  - do 2 eexists. split; [reflexivity|]. split; [apply Forall_fmap; exact Hk|]. split; [apply length_fmap|].
    intros i. apply hash_map_moves. auto.
  - destruct (p !! i) as [h|] eqn:Hh.
    + unfold hworker_turn. destruct (worker_turn b (h_worker h) (h_taskQ h)) as [[w q] o] eqn:Ht.
      destruct (worker_turn_moves _ _ _ _ _ _ Ht) as (Hq & Hr & _ & Hdr & _).
      pose proof (proj1 (Forall_lookup _ _) Hk i h Hh) as Hd. cbn in Hd.
      do 2 eexists. split; [reflexivity|]. split; [apply Forall_insert; [exact Hk | cbn; congruence]|]. split; [apply length_insert|].
      apply (hash_insert_moves p i h); [exact Hh|..]; destruct o as [e|]; cbn in *; rewrite ?decide_True by reflexivity;
        rewrite ?app_nil_r in *; auto.
      intros j Hj. rewrite !decide_False by congruence. auto.
    + do 2 eexists. split; [reflexivity|]. split; [exact Hk|]. split; [reflexivity|]. intros j. split; cbn; apply app_nil_r.
  - do 2 eexists. split; [reflexivity|]. split; [apply Forall_fmap; exact Hk|]. split; [apply length_fmap|].
    intros i. apply hash_map_moves. auto.
Qed.

Lemma hash_run_moves l : forall p, p <> [] -> hash_keeps p ->
  exists p' es, hash_run l p = Done (p', es) /\ forall i, hash_moves i (zlen p) p es p'.
Proof.
  induction l as [|a l IH]; intros p Hne Hk; cbn [hash_run].
  - do 2 eexists. split; [reflexivity|]. intros i. split; cbn; apply app_nil_r.
  - destruct (hash_step_moves a p Hne Hk) as (p1 & es1 & -> & Hk1 & Hlen & Hm1). cbn [outcome_bind].
    assert (Hne1 : p1 <> []) by (intros ->; destruct p; [contradiction | discriminate]).
    destruct (IH p1 Hne1 Hk1) as (p2 & es2 & -> & Hm2). cbn [outcome_bind]. do 2 eexists. split; [reflexivity|].
    intros i. destruct (Hm1 i) as [Hq1 Hr1], (Hm2 i) as [Hq2 Hr2].
    replace (zlen p1) with (zlen p) in Hq2 by (unfold zlen; congruence).
    unfold hash_moves, hash_accepted, hash_started, hash_finished in *. rewrite !flat_map_app. split; eapply moves_app; eauto.
Qed.

(** * Properties *)

(** C33: a pool runs every task once.  Whatever the steps of the threads that
    add tasks, change the size of the queue or stop the pool, and of its
    workers: no step fails, the tasks accepted are, in order, those that a
    worker has started and those still in the queue, and each worker has
    finished the tasks it has started but for the one it is running. *)
Theorem pool_runs_each_task_once thread_num l :
  exists p es, pool_run l (new_pool thread_num) = Done (p, es) /\
    accepted_tasks es = started_tasks es ++ m_queue (m_taskQ p) /\
    forall i, started_by i es = finished_by i es ++ running_at i p.
Proof.
  destruct (pool_run_moves l (new_pool thread_num) eq_refl) as (p & es & Hr & Hq & Hw & _).
  exists p, es. split; [exact Hr|]. split; [exact Hq|]. intros i. rewrite <- (Hw i). unfold running_at, new_pool. cbn.
  destruct (replicate thread_num new_Worker !! i) as [w|] eqn:Hi; [|reflexivity].
  apply lookup_replicate in Hi as [-> _]. reflexivity.
Qed.

(** C35: a stopped worker leaves.  Once [m_stop] is set, a worker starts at most
    one more task, and after three of its own steps, whatever the other
    threads do in between, it has left its loop, so that [join] returns. *)
Theorem stopped_worker_leaves l i p p' es w
    (Hrun : pool_run l p = Done (p', es)) (Hw : m_worker_threads p !! i = Some w) (Hstop : m_stop w = true) :
  (length (started_by i es) <= 1)%nat /\
  ((3 <= turns i l)%nat -> exists w', m_worker_threads p' !! i = Some w' /\ w_at w' = Left).
Proof.
  destruct (stopped_run l i p p' es w Hrun Hw Hstop) as (w' & Hw' & Hk & Hc).
  assert (in_pop w <= 1)%nat by (unfold in_pop; destruct (w_at w); lia). split; [lia|].
  intros Ht. exists w'. split; [exact Hw'|].
  assert (rank w <= 3)%nat by (unfold rank; destruct (w_at w); lia).
  unfold rank in Hk at 1. destruct (w_at w'); try lia; reflexivity.
Qed.

(** C34: the tasks of one key run in order and one at a time.  In a pool with a
    queue per worker, whatever the steps of the threads, the tasks accepted
    under the keys that hash to worker [i] are, in order, those it has started
    and those in its queue; it starts one when it has finished the one before;
    and so two tasks with the same key never overlap or overtake. *)
Theorem keyed_tasks_in_order thread_num l (Hn : (0 < thread_num)%nat) :
  exists p es, hash_run l (new_hash_pool thread_num) = Done (p, es) /\
    forall i, hash_accepted (Z.of_nat thread_num) i es = hash_started i es ++ hash_queue i p /\
      hash_started i es = hash_finished i es ++ hash_running i p.
Proof.
  destruct (hash_run_moves l (new_hash_pool thread_num)) as (p & es & Hr & Hm).
  { unfold new_hash_pool. destruct thread_num; [lia | discriminate]. }
  { apply Forall_replicate. reflexivity. }
  exists p, es. split; [exact Hr|]. intros i. destruct (Hm i) as [H1 H2].
  replace (zlen (new_hash_pool thread_num)) with (Z.of_nat thread_num) in H1 by (unfold zlen, new_hash_pool; rewrite length_replicate; reflexivity).
  rewrite <- H1, <- H2. unfold hash_queue, hash_running, new_hash_pool.
  destruct (replicate thread_num _ !! i) as [h|] eqn:Hi; [|auto]. apply lookup_replicate in Hi as [-> _]. auto.
Qed.
End Pool.

(** * Witnesses *)

(** A worker stopped while it waits in [pop] still takes a task. *)
Definition stopped_pool : ThreadPool (T:=nat) := mk_pool (set_items [7%nat; 8%nat] default_Queue) [mk_worker true Popping; new_Worker].

Lemma stopped_worker_leaves_witness :
  exists p' es, pool_run [Turn 0 true; Turn 1 false; Turn 0 true; AddTask 9%nat; Turn 0 true] stopped_pool = Done (p', es) /\
    (length (started_by 0 es) <= 1)%nat /\
    ((3 <= turns 0 [Turn 0 true; Turn 1 false; Turn 0 true; AddTask 9%nat; Turn 0 true])%nat ->
     exists w', m_worker_threads p' !! 0%nat = Some w' /\ w_at w' = Left).
Proof.
  do 2 eexists. split; [vm_compute; reflexivity|].
  apply (stopped_worker_leaves _ 0 stopped_pool _ _ (mk_worker true Popping)); [vm_compute|..]; reflexivity.
Defined.

Lemma keyed_tasks_in_order_witness :
  exists p es, hash_run (fun k => Z.of_nat (String.length k)) [HashAdd 1%nat "a"; HashTurn 1 true; HashTurn 1 true; HashAdd 2%nat "b"]
      (new_hash_pool 2) = Done (p, es) /\
    forall i, hash_accepted (fun k => Z.of_nat (String.length k)) 2 i es = hash_started i es ++ hash_queue i p /\
      hash_started i es = hash_finished i es ++ hash_running i p.
Proof. apply (keyed_tasks_in_order _ 2). lia. Defined.
