(* ===== verification/Service.v ===== *)
(** Services and their methods on the server: [IServiceImpl], [RpcMethod] and
    [RpcWorker], which runs one request. *)
From Stdlib Require Import ZArith Lia Bool List String Ascii.
From stdpp Require Import base list strings gmap.
From S2P Require Import Prelude Wire Stats RespBroker.

(** * Services *)

(** [RPC_FUNC_T]: the user's method.  It gets the request data and the broker
    and returns its status, the broker as it left it, and the packages it
    pushed by calling [response] on it. *)
Definition RPC_FUNC_T : Type :=
  bytes -> RpcRespBroker -> outcome (RpcStatus * RpcRespBroker * list response_pkg).

Record RpcMethod := mk_method {
  m_func : RPC_FUNC_T;
  m_status : MethodStatus.RpcMethodStatus;
  m_allow_http : bool
}.

Definition new_method (func : RPC_FUNC_T) (allow_http : bool) : RpcMethod :=
  mk_method func MethodStatus.new_status allow_http.

(** [m_method_map] of an [IServiceImpl]. *)
Definition IServiceImpl : Type := gmap string RpcMethod.

(** [add_method]: [emplace] keeps a method that is already there. *)
Definition add_method (name : string) (func : RPC_FUNC_T) (allow_http : bool) (s : IServiceImpl) : IServiceImpl :=
  match s !! name with
  | Some _ => s
  | None => <[name := new_method func allow_http]> s
  end.

Definition is_method_allow_http (name : string) (s : IServiceImpl) : bool :=
  match s !! name with Some m => m_allow_http m | None => false end.

(** [runMethod]: the status, the method found ([method_status] is its
    statistics), the broker and the packages pushed. *)
Definition runMethod (name : string) (req_data : bytes) (b : RpcRespBroker) (s : IServiceImpl)
    : outcome (RpcStatus * option RpcMethod * RpcRespBroker * list response_pkg) :=
  match s !! name with
  | Some m =>
      let! (rs, b, pushed) := m_func m req_data b in
      Done (rs, Some m, b, pushed)
  | None => Done (RPC_METHOD_NOTFOUND, None, b, [])
  end.

(** * The worker *)

Record ServiceBlock := { pSrv : option IServiceImpl; owner : bool }.

Record RpcWorker := mk_worker {
  m_srvmap : gmap string ServiceBlock;
  m_server : ServerStatus.counters
}.

Definition put_server (c : ServerStatus.counters) (w : RpcWorker) : RpcWorker :=
  mk_worker (m_srvmap w) c.

Definition addService (name : string) (service : option IServiceImpl) (own : bool) (w : RpcWorker) : RpcWorker :=
  mk_worker (<[name := {| pSrv := service; owner := own |}]> (m_srvmap w)) (m_server w).

(** The method with its statistics updated. *)
Definition put_method_status (service name : string) (st : MethodStatus.RpcMethodStatus) (w : RpcWorker) : RpcWorker :=
  match m_srvmap w !! service with
  | Some {| pSrv := Some s; owner := own |} =>
      match s !! name with
      | Some m => addService service (Some (<[name := mk_method (m_func m) st (m_allow_http m)]> s)) own w
      | None => w
      end
  | _ => w
  end.

(** What a request does outside the worker: a call of a method, a package
    pushed to a connection, and a return value written into the broker's
    package after the broker has pushed one: the package pushed, which a
    connection thread may be sending, unless the method has allocated another
    since. *)
Inductive effect :=
| Called (service method : string) (data : bytes)
| Pushed (conn_id : string) (pkg : response_pkg)
| LateReturnVal (conn_id : string) (rs : RpcStatus).

(** The clock readings of one run: time in the queue and in the method in
    milliseconds, age of the request after the call in seconds. *)
Record timing := { queue_ms : Z; call_ms : Z; age_s : Z }.

Section Run.
Context `{MessageCodec RpcInnerReq} `{MessageCodec RpcInnerResp}.

(** [pushResponse] *)
Definition pushResponse (b : RpcRespBroker) (connid : string) (type : RPC_TYPE) : outcome (list effect) :=
  match type with
  | TWO_WAY => let! (p, _) := pushed_pkg b in Done [Pushed connid p]
  | ONE_WAY => Done []
  end.

(** The data of a request: the field of the message, or what the worker takes
    for the blob that follows it. *)
Definition request_data (req : RpcInnerReq) (pkg : request_pkg) (proto_len : Z) : outcome bytes :=
  match req_data req with
  | Some d => Done d
  | None => bytes_at (rq_data pkg) 4 (u64 (rq_data_len pkg - 4 - proto_len))
  end.

(** The write of [setReturnVal] after the method has responded; for HTTP it
    writes nothing. *)
Definition late_return (b : RpcRespBroker) (connid : string) (ret : RpcStatus) : list effect :=
  if isResponed b && negb (m_from_http b) then [LateReturnVal connid ret] else [].

(** What follows a method's return: the [switch] on its status. *)
Definition finish_call (ret : RpcStatus) (b : RpcRespBroker) (req : RpcInnerReq) (connid : string)
    : outcome (list effect) :=
  match ret with
  | RPC_SERVER_OK =>
      let! b := setReturnVal ret b in
      if isResponed b then Done (late_return b connid ret)
      else pushResponse b connid (req_type req)
  | RPC_METHOD_NOTFOUND | RPC_SERVER_FAIL =>
      let! b := setReturnVal ret b in
      let! l := pushResponse b connid (req_type req) in
      Done (late_return b connid ret ++ l)
  | RPC_SERVER_NONE => Done []
  | _ => pushResponse b connid (req_type req)
  end.

(** Whether the client has given up on the request. *)
Definition client_timed_out (req : RpcInnerReq) (t : timing) : bool :=
  (0 <? req_timeout req) && (u32 (req_timeout req + 3) <? age_s t).

(** The call of the method of service [s] and what follows it. *)
Definition run_service (s : IServiceImpl) (req : RpcInnerReq) (rd : bytes) (b : RpcRespBroker)
    (connid : string) (t : timing) (w : RpcWorker) : outcome (RpcWorker * list effect) :=
  let name := req_method_name req in
  let! (ret, method, b, pushed) := runMethod name rd b s in
  let calls := match method with Some _ => [Called (req_service_name req) name rd] | None => [] end in
  let before := calls ++ map (Pushed connid) pushed in
  match method with
  | Some m =>
      let during := Z.max 0 (call_ms t) in
      let w := put_server (ServerStatus.calcCallTime during (m_server w)) w in
      let st := MethodStatus.calcCallTime during (m_status m) in
      if client_timed_out req t then
        Done (put_method_status (req_service_name req) name (MethodStatus.count_timeout st) w, before)
      else
        let! l := finish_call ret b req connid in
        Done (put_method_status (req_service_name req) name st w, before ++ l)
  | None =>
      let! l := finish_call ret b req connid in
      Done (w, before ++ l)
  end.

(** [RpcWorker::run]; [has_conn_worker] is [pkg->conn_worker != nullptr]. *)
Definition run (pkg : request_pkg) (has_conn_worker : bool) (t : timing) (w : RpcWorker)
    : outcome (RpcWorker * list effect) :=
  let w := put_server (ServerStatus.calcReqQTime (Z.max 0 (queue_ms t)) (m_server w)) w in
  let! proto_len := load32 (rq_data pkg) 0 in
  let! hdr := bytes_at (rq_data pkg) 4 proto_len in
  match parse hdr with
  | None => Done (w, [])
  | Some req =>
      let! rd := request_data req pkg proto_len in
      if negb has_conn_worker then Done (w, [])
      else
        let connid := rq_connection_id pkg in
        let b := new_broker connid (req_request_id req) (bool_decide (req_type req = TWO_WAY))
                   (rq_is_from_http pkg) in
        match m_srvmap w !! req_service_name req with
        | None =>
            let! b := setReturnVal RPC_SRV_NOTFOUND b in
            let! l := pushResponse b connid (req_type req) in
            Done (w, l)
        | Some blk =>
            let! allowed :=
              if rq_is_from_http pkg then
                let! s := need NullPointer (pSrv blk) in
                Done (is_method_allow_http (req_method_name req) s)
              else Done true in
            if negb allowed then
              let! b := setReturnVal RPC_METHOD_NOTFOUND b in
              let! l := pushResponse b connid (req_type req) in
              Done (w, l)
            else
              match pSrv blk with
              | Some s => run_service s req rd b connid t w
              | None => let! l := pushResponse b connid (req_type req) in Done (w, l)
              end
        end
  end.
End Run.
