(* ===== verification/ServerImpl.v ===== *)
(** Configuration and life of the server: [RpcServerConfig], and of
    [RpcServerImpl] what it builds, starts and stops.  (Its counters are in
    [Stats], the work of its connection threads in [ConnWorker].)

    Also [RpcClientConfig], the client's counterpart. *)
From Stdlib Require Import ZArith Lia Bool List String Ascii.
From stdpp Require Import base list strings gmap.
From S2P Require Import Prelude Wire Queue Stats ThreadPool Service.

(** * [RpcServerConfig] *)

Record RpcServerConfig := mk_config {
  m_thread_num : Z;        (* uint32_t *)
  m_hostname : string;
  m_port : Z;
  m_max_conn_num : Z;      (* std::atomic<uint32_t> *)
  m_max_req_size : Z;      (* std::atomic<uint32_t> *)
  m_http_port : Z;
  m_http_thread_num : Z;
  m_max_req_qsize : Z;     (* std::atomic<uint32_t> *)
  m_conn_thread_num : Z    (* uint16_t *)
}.

(** [cores] is [std::thread::hardware_concurrency()], which may be 0. *)
Definition new_config (cores : Z) (hostname : string) (port : Z) : RpcServerConfig :=
  mk_config (u32 cores) hostname port (1024 * 10) (1024 * 1024 * 128) 8000 cores (10 * 1024 * 1024) (u16 cores).

Definition setThreadNum (thread_num : Z) (c : RpcServerConfig) : RpcServerConfig :=
  if 0 <? thread_num then
    mk_config thread_num (m_hostname c) (m_port c) (m_max_conn_num c) (m_max_req_size c) (m_http_port c) (m_http_thread_num c)
      (m_max_req_qsize c) (m_conn_thread_num c)
  else c.
Definition getThreadNum (c : RpcServerConfig) : Z := m_thread_num c.
Definition setConnThreadNum (thread_num : Z) (c : RpcServerConfig) : RpcServerConfig :=
  if 0 <? thread_num then
    mk_config (m_thread_num c) (m_hostname c) (m_port c) (m_max_conn_num c) (m_max_req_size c) (m_http_port c) (m_http_thread_num c)
      (m_max_req_qsize c) thread_num
  else c.
Definition getConnThreadNum (c : RpcServerConfig) : Z := m_conn_thread_num c.
Definition setMaxConnection (n : Z) (c : RpcServerConfig) : RpcServerConfig :=
  mk_config (m_thread_num c) (m_hostname c) (m_port c) n (m_max_req_size c) (m_http_port c) (m_http_thread_num c)
    (m_max_req_qsize c) (m_conn_thread_num c).
Definition setMaxReqPkgSize (n : Z) (c : RpcServerConfig) : RpcServerConfig :=
  mk_config (m_thread_num c) (m_hostname c) (m_port c) (m_max_conn_num c) n (m_http_port c) (m_http_thread_num c)
    (m_max_req_qsize c) (m_conn_thread_num c).
Definition setMaxReqQSize (n : Z) (c : RpcServerConfig) : RpcServerConfig :=
  mk_config (m_thread_num c) (m_hostname c) (m_port c) (m_max_conn_num c) (m_max_req_size c) (m_http_port c) (m_http_thread_num c)
    n (m_conn_thread_num c).
Definition enableHttp (port thread_num : Z) (c : RpcServerConfig) : RpcServerConfig :=
  mk_config (m_thread_num c) (m_hostname c) (m_port c) (m_max_conn_num c) (m_max_req_size c) port thread_num
    (m_max_req_qsize c) (m_conn_thread_num c).
Definition disableHttp (c : RpcServerConfig) : RpcServerConfig := enableHttp (-1) (m_http_thread_num c) c.
Definition getHttpPort (c : RpcServerConfig) : Z := m_http_port c.

(** * [RpcClientConfig] *)

Module Client.
Record RpcClientConfig := mk_client_config {
  m_thread_num : Z;
  m_connect_timeout : Z;
  m_max_req_size : Z;
  m_eps : list (string * Z)
}.
Definition new_client_config (eps : list (string * Z)) : RpcClientConfig := mk_client_config 1 1 (1024 * 1024 * 128) eps.
Definition setThreadNum (n : Z) (c : RpcClientConfig) : RpcClientConfig :=
  if 0 <? n then mk_client_config n (m_connect_timeout c) (m_max_req_size c) (m_eps c) else c.
Definition setMaxReqPkgSize (n : Z) (c : RpcClientConfig) : RpcClientConfig :=
  mk_client_config (m_thread_num c) (m_connect_timeout c) n (m_eps c).
Definition getThreadNum (c : RpcClientConfig) : Z := m_thread_num c.
End Client.

(** * [RpcServerImpl] *)

(** The thread of a connection worker, as far as the server steers it. *)
Inductive conn_at := AtTest | InEvents | Gone.
Record conn_thread := mk_thread { ct_name : string; ct_stop : bool; ct_at : conn_at }.

Record RpcServerImpl := mk_server {
  m_cfg : RpcServerConfig;
  m_stop : bool;
  m_rpclisten : Z;
  m_httplisten : Z;
  m_rpcconnworker : list conn_thread;
  m_httpconnworker : list conn_thread;
  m_worker_thread_pool : option (ThreadPool (T:=request_pkg));   (* None: deleted *)
  m_workers : list RpcWorker                                    (* the real workers of the pool *)
}.

Definition put_stop (v : bool) (s : RpcServerImpl) : RpcServerImpl :=
  mk_server (m_cfg s) v (m_rpclisten s) (m_httplisten s) (m_rpcconnworker s) (m_httpconnworker s) (m_worker_thread_pool s) (m_workers s).
Definition put_listen (rpc http : Z) (s : RpcServerImpl) : RpcServerImpl :=
  mk_server (m_cfg s) (m_stop s) rpc http (m_rpcconnworker s) (m_httpconnworker s) (m_worker_thread_pool s) (m_workers s).
Definition put_threads (rpc http : list conn_thread) (s : RpcServerImpl) : RpcServerImpl :=
  mk_server (m_cfg s) (m_stop s) (m_rpclisten s) (m_httplisten s) rpc http (m_worker_thread_pool s) (m_workers s).
Definition put_pool (v : option (ThreadPool (T:=request_pkg))) (s : RpcServerImpl) : RpcServerImpl :=
  mk_server (m_cfg s) (m_stop s) (m_rpclisten s) (m_httplisten s) (m_rpcconnworker s) (m_httpconnworker s) v (m_workers s).
Definition put_workers (v : list RpcWorker) (s : RpcServerImpl) : RpcServerImpl :=
  mk_server (m_cfg s) (m_stop s) (m_rpclisten s) (m_httplisten s) (m_rpcconnworker s) (m_httpconnworker s) (m_worker_thread_pool s) v.

(** [connworkername.append(std::to_string(i))] for each [i]; [name_of] is
    [std::to_string]. *)
Definition new_threads (name_of : nat -> string) (prefix : string) (n : Z) : list conn_thread :=
  map (fun i => mk_thread (prefix ++ name_of i) false AtTest) (seq 0 (Z.to_nat n)).

(** [RpcServerImpl::RpcServerImpl]; [status] is the status service. *)
Definition new_server (name_of : nat -> string) (status : IServiceImpl) (cfg : RpcServerConfig) : RpcServerImpl :=
  mk_server cfg false (-1) (-1)
    (new_threads name_of "rpcconnworker_" (getConnThreadNum cfg))
    (if getHttpPort cfg =? -1 then [] else new_threads name_of "httpconnworker_" (getConnThreadNum cfg))
    (Some (setTaskQSize (m_max_req_qsize cfg) (new_pool (Z.to_nat (getThreadNum cfg)))))
    (replicate (Z.to_nat (getThreadNum cfg)) (addService "status" (Some status) false (Service.mk_worker ∅ ServerStatus.new_counters))).

(** [RpcServerImpl::addService] *)
Definition server_addService (name : string) (p_service : option IServiceImpl) (s : RpcServerImpl) : RpcServerImpl :=
  put_workers (map (addService name p_service false) (m_workers s)) s.

(** [addTask] of a deleted pool is a use after free. *)
Definition pushReqToWorkers (req : request_pkg) (s : RpcServerImpl) : outcome (bool * RpcServerImpl) :=
  let! p := need UseAfterFree (m_worker_thread_pool s) in
  let! (ok, p) := addTask req 0 (TimedOut (m_taskQ p)) p in
  Done (ok, put_pool (Some p) s).

(** [start] up to the start of its threads; [startListen port] is the result of
    [RpcServerImpl::startListen]. *)
Definition start (startListen : Z -> Z) (s : RpcServerImpl) : bool * RpcServerImpl :=
  let cfg := m_cfg s in
  let http := if getHttpPort cfg =? -1 then m_httplisten s else startListen (getHttpPort cfg) in
  let s := put_listen (m_rpclisten s) http s in
  if negb (getHttpPort cfg =? -1) && (http =? -1) then (false, s)
  else
    let s := put_listen (startListen (m_port cfg)) http s in
    if m_rpclisten s =? -1 then (false, s) else (true, s).

Definition stop_thread (t : conn_thread) : conn_thread := mk_thread (ct_name t) true (ct_at t).

(** [stop]; deleting the pool stops and joins its workers. *)
Definition stop (s : RpcServerImpl) : RpcServerImpl :=
  if m_stop s then s
  else
    let s := put_stop true s in
    let s := put_threads (map stop_thread (m_rpcconnworker s)) (map stop_thread (m_httpconnworker s)) s in
    put_pool None s.

(** * The threads of a running server *)

(** A step of a connection thread: the test of [m_stop], the request it takes
    from a socket, and the end of its turn. *)
Inductive thread_step := Test | TakeRequest (req : request_pkg) | EndTurn.

Definition conn_turn (a : thread_step) (t : conn_thread) (s : RpcServerImpl) : outcome (conn_thread * RpcServerImpl) :=
  match a, ct_at t with
  | Test, AtTest => Done (mk_thread (ct_name t) (ct_stop t) (if ct_stop t then Gone else InEvents), s)
  | TakeRequest req, InEvents => let! (_, s) := pushReqToWorkers req s in Done (t, s)
  | EndTurn, InEvents => Done (mk_thread (ct_name t) (ct_stop t) AtTest, s)
  | _, _ => Done (t, s)
  end.

(** Steps of the RPC connection threads, and the call of [stop]. *)
Inductive server_action := ConnTurn (i : nat) (a : thread_step) | CallStop.

Definition server_step (a : server_action) (s : RpcServerImpl) : outcome RpcServerImpl :=
  match a with
  | ConnTurn i a =>
      match m_rpcconnworker s !! i with
      | Some t =>
          let! (t, s) := conn_turn a t s in
          Done (put_threads (<[i := t]> (m_rpcconnworker s)) (m_httpconnworker s) s)
      | None => Done s
      end
  | CallStop => Done (stop s)
  end.

Fixpoint server_run (l : list server_action) (s : RpcServerImpl) : outcome RpcServerImpl :=
  match l with [] => Done s | a :: l => let! s := server_step a s in server_run l s end.

(** * Configuration *)

(** The setters, with arguments of their parameter types. *)
Inductive config_op :=
| OpThreadNum (n : Z) | OpConnThreadNum (n : Z) | OpMaxConnection (n : Z) | OpMaxReqPkgSize (n : Z) | OpMaxReqQSize (n : Z)
| OpEnableHttp (port thread_num : Z) | OpDisableHttp.

Definition op_typed (o : config_op) : Prop :=
  match o with
  | OpThreadNum n | OpMaxConnection n | OpMaxReqPkgSize n | OpMaxReqQSize n => 0 <= n < 2 ^ 32
  | OpConnThreadNum n => 0 <= n < 2 ^ 16
  | OpEnableHttp port n => int32_fits port /\ int32_fits n
  | OpDisableHttp => True
  end.

Definition config_step (c : RpcServerConfig) (o : config_op) : RpcServerConfig :=
  match o with
  | OpThreadNum n => setThreadNum n c
  | OpConnThreadNum n => setConnThreadNum n c
  | OpMaxConnection n => setMaxConnection n c
  | OpMaxReqPkgSize n => setMaxReqPkgSize n c
  | OpMaxReqQSize n => setMaxReqQSize n c
  | OpEnableHttp port n => enableHttp port n c
  | OpDisableHttp => disableHttp c
  end.

Record config_typed (c : RpcServerConfig) : Prop := {
  ty_thread_num : 1 <= m_thread_num c < 2 ^ 32;
  ty_conn_thread_num : 1 <= m_conn_thread_num c < 2 ^ 16;
  ty_max_conn_num : 0 <= m_max_conn_num c < 2 ^ 32;
  ty_max_req_size : 0 <= m_max_req_size c < 2 ^ 32;
  ty_max_req_qsize : 0 <= m_max_req_qsize c < 2 ^ 32;
  ty_http_port : int32_fits (m_http_port c);
  ty_http_thread_num : int32_fits (m_http_thread_num c)
}.

Lemma config_step_typed c o : op_typed o -> config_typed c -> config_typed (config_step c o).
Proof.
  intros Ho [H1 H2 H3 H4 H5 H6 H7].
  destruct o; cbn in Ho |- *; unfold setThreadNum, setConnThreadNum, disableHttp, enableHttp;
    try destruct (Z.ltb_spec 0 n); split; cbn; try assumption; try lia; try tauto; split; discriminate || reflexivity.
Qed.

Lemma config_steps_typed ops : forall c, Forall op_typed ops -> config_typed c -> config_typed (fold_left config_step ops c).
Proof.
  induction ops as [|o ops IH]; intros c Ho Hc; [exact Hc|]. inversion Ho; subst. apply IH; [assumption|]. apply config_step_typed; assumption.
Qed.

(** * The pool *)

(** A server whose pool is there, with a queue that does not drop requests. *)
Definition pool_alive (s : RpcServerImpl) : Prop :=
  exists p, m_worker_thread_pool s = Some p /\ m_dropOldOnFull (m_taskQ p) = false.

Lemma pushReqToWorkers_alive req s : pool_alive s -> exists ok s', pushReqToWorkers req s = Done (ok, s') /\ pool_alive s'.
Proof.
  intros (p & Hp & Hd). unfold pushReqToWorkers, addTask. rewrite Hp. cbn [need outcome_bind].
  destruct (push_now_moves req (m_taskQ p) Hd) as (ok & q & -> & _ & Hq). cbn [outcome_bind].
  do 2 eexists. split; [reflexivity|]. eexists. split; [reflexivity | exact Hq].
Qed.

Lemma conn_turn_alive i a s : pool_alive s -> exists s', server_step (ConnTurn i a) s = Done s' /\ pool_alive s'.
Proof.
  intros Hs. cbn [server_step]. destruct (m_rpcconnworker s !! i) as [t|]; [|eauto]. unfold conn_turn.
  destruct a as [|req|], (ct_at t); cbn [outcome_bind]; try (eexists; split; [reflexivity | exact Hs]).
  destruct (pushReqToWorkers_alive req s Hs) as (ok & s' & -> & Hs'). cbn [outcome_bind].
  eexists. split; [reflexivity | exact Hs'].
Qed.

(** * Properties *)


(** [stop] frees the pool under the connection threads.  As long as nobody
    calls [stop], no step of the connection threads fails; but [stop] deletes
    the pool of workers without waiting for them: whatever thread is then in
    the middle of its events uses the deleted pool for its next request. *)
Theorem stop_frees_pool_in_use name_of status cfg l :
  exists s, server_run (map (fun '(i, a) => ConnTurn i a) l) (new_server name_of status cfg) = Done s /\
    (m_stop s = false ->
     forall i t req, m_rpcconnworker s !! i = Some t -> ct_at t = InEvents ->
       server_run [CallStop; ConnTurn i (TakeRequest req)] s = Stuck UseAfterFree).
Proof.
  assert (Hrun : forall s0, pool_alive s0 -> exists s, server_run (map (fun '(i, a) => ConnTurn i a) l) s0 = Done s).
  { induction l as [|[i a] l IH]; intros s0 Hs0; cbn [map server_run]; [eauto|].
    destruct (conn_turn_alive i a s0 Hs0) as (s1 & -> & Hs1). exact (IH s1 Hs1). }
  destruct (Hrun (new_server name_of status cfg)) as (s & Hs). { eexists. split; reflexivity. }
  exists s. split; [exact Hs|]. intros Hstop i t req Ht Hat. cbn [server_run server_step outcome_bind]. unfold stop. rewrite Hstop.
  cbn [put_pool put_threads put_stop m_rpcconnworker]. rewrite lookup_map, Ht. cbn [fmap option_fmap option_map].
  unfold conn_turn. cbn [stop_thread ct_at]. rewrite Hat. reflexivity.
Qed.

(** * Witnesses *)


(** A machine whose number of cores is not known has no workers: the requests
    accepted are never started. *)
Lemma no_cores_no_workers l p es :
  pool_run l (new_pool (T:=request_pkg) (Z.to_nat (getThreadNum (new_config 0 "localhost" 8801)))) = Done (p, es) ->
  started_tasks es = [].
Proof.
  change (Z.to_nat _) with 0%nat. assert (forall q, m_worker_threads q = [] -> pool_run l q = Done (p, es) -> started_tasks es = []) as H.
  { revert es. induction l as [|a l IH]; intros es q Hq; cbn [pool_run]; [intros [= <- <-]; reflexivity|].
    destruct (pool_step a q) as [[q1 es1]|] eqn:Hs; [|discriminate]. cbn [outcome_bind].
    destruct (pool_run l q1) as [[q2 es2]|] eqn:Hr; [|discriminate]. intros [= <- <-].
    assert (m_worker_threads q1 = [] /\ started_tasks es1 = []) as [Hq1 He1].
    { destruct a as [t|n|i b|]; cbn [pool_step] in Hs.
      - unfold addTask in Hs. destruct (push _ _ _ _) as [[ok r]|]; [|discriminate]. injection Hs as <- <-. destruct ok; auto.
      - injection Hs as <- <-. auto.
      - rewrite Hq in Hs. injection Hs as <- <-. auto.
      - injection Hs as <- <-. cbn. rewrite Hq. auto. }
    unfold started_tasks in *. rewrite flat_map_app, He1. exact (IH es2 q1 Hq1 Hr). }
  intros Hr. exact (H (new_pool 0) eq_refl Hr).
Qed.
