(* ===== verification/ClientConn.v ===== *)
(** [RpcClientConn] of [client/src/RpcClientConn.cpp]: the client's end of a
    connection, which frames and sends requests and cuts responses out of the
    byte stream; and [RpcClientWorker::run], which takes a response apart. *)
From Stdlib Require Import ZArith Lia Bool List String Ascii.
From stdpp Require Import base list strings.
From S2P Require Import Prelude Wire Socket.

(** * State *)

(** [m_rpk]: [setInvalid] deletes the package but keeps the pointer. *)
Inductive rpk_ptr := RpkNull | RpkLive (p : response_pkg) | RpkFreed.

Record RpcClientConn := mk_client_conn {
  m_fd : Z;
  m_cur_left_len : Z;             (* uint32_t *)
  m_cur_pkg_size : Z;             (* uint32_t *)
  m_rpk : rpk_ptr;
  is_connected : bool;
  m_last_invalid_time : Z
}.

Definition put_fd (v : Z) (c : RpcClientConn) : RpcClientConn :=
  mk_client_conn v (m_cur_left_len c) (m_cur_pkg_size c) (m_rpk c) (is_connected c) (m_last_invalid_time c).
Definition put_left (v : Z) (c : RpcClientConn) : RpcClientConn :=
  mk_client_conn (m_fd c) v (m_cur_pkg_size c) (m_rpk c) (is_connected c) (m_last_invalid_time c).
Definition put_pkg_size (v : Z) (c : RpcClientConn) : RpcClientConn :=
  mk_client_conn (m_fd c) (m_cur_left_len c) v (m_rpk c) (is_connected c) (m_last_invalid_time c).
Definition put_rpk (v : rpk_ptr) (c : RpcClientConn) : RpcClientConn :=
  mk_client_conn (m_fd c) (m_cur_left_len c) (m_cur_pkg_size c) v (is_connected c) (m_last_invalid_time c).
Definition put_connected (v : bool) (c : RpcClientConn) : RpcClientConn :=
  mk_client_conn (m_fd c) (m_cur_left_len c) (m_cur_pkg_size c) (m_rpk c) v (m_last_invalid_time c).
Definition put_invalid_time (v : Z) (c : RpcClientConn) : RpcClientConn :=
  mk_client_conn (m_fd c) (m_cur_left_len c) (m_cur_pkg_size c) (m_rpk c) (is_connected c) v.

Definition new_client_conn : RpcClientConn := mk_client_conn (-1) 0 0 RpkNull true 0.

(** * Life cycle; [now] is [std::time(nullptr)] *)

Definition isValid (c : RpcClientConn) : bool := 0 <? m_fd c.

Definition shouldRetry (now : Z) (c : RpcClientConn) : bool :=
  if m_fd c =? -1 then 60 <? now - m_last_invalid_time c else false.

Definition setInvalid (now : Z) (c : RpcClientConn) : outcome RpcClientConn :=
  match m_rpk c with
  | RpkFreed => Stuck UseAfterFree
  | RpkNull => Done (put_invalid_time now (put_fd (-1) c))
  | RpkLive _ => Done (put_invalid_time now (put_fd (-1) (put_rpk RpkFreed c)))
  end.

(** [connect]: [host] is the descriptor [connectHost] leaves in [m_fd], or
    [None] when no address of the endpoint answers. *)
Definition connect (host : option Z) (now : Z) (c : RpcClientConn) : bool * RpcClientConn :=
  if negb (m_fd c =? -1) then (true, c)
  else match host with
       | None => (false, put_invalid_time now (put_fd (-1) c))
       | Some fd => (true, put_fd fd c)
       end.

(** * Receiving *)

(** The loop of [readPkgLen]: the four bytes of [data], [recved] and
    [recv_left].  An [EAGAIN] or [EINTR] counts as [rev_size = -1]. *)
Fixpoint readPkgLen_loop (fuel : nat) (data : buffer) (recved recv_left : Z) (rx : list rx_event)
    : outcome (option Z * list rx_event) :=
  match fuel with
  | O => Stuck Spinning
  | S fuel =>
      let continue (data : buffer) (rev_size : Z) (rx' : list rx_event) :=
        let recved := recved + rev_size in
        if recved =? 4 then let! v := load32 data 0 in Done (Some v, rx')
        else readPkgLen_loop fuel data recved (recv_left - rev_size) rx' in
      let '(r, rx') := recv recv_left rx in
      match r with
      | Closed | RecvError => Done (None, rx')
      | Again | Interrupted => continue data (-1) rx'
      | Received b =>
          let! data := need OutOfBounds (write_at data recved b) in
          continue data (zlen b) rx'
      end
  end.

Definition readPkgLen (fuel : nat) (c : RpcClientConn) (rx : list rx_event)
    : outcome (option Z * list rx_event) :=
  if negb (is_connected c) then Done (None, rx)
  else readPkgLen_loop fuel (new_buffer 4) 0 4 rx.

Definition readPkgData (c : RpcClientConn) (rx : list rx_event)
    : outcome (PkgIOStatus * RpcClientConn * list rx_event) :=
  match m_rpk c with
  | RpkNull => Done (FAIL, c, rx)
  | RpkFreed => if negb (is_connected c) then Done (FAIL, c, rx) else Stuck UseAfterFree
  | RpkLive pkg =>
      if negb (is_connected c) then Done (FAIL, c, rx)
      else
        let '(r, rx') := recv (m_cur_left_len c) rx in
        match r with
        | Closed | RecvError => Done (FAIL, c, rx')
        | Again | Interrupted => Done (PARTIAL, c, rx')
        | Received b =>
            let! d := need OutOfBounds
                        (write_at (rs_data pkg) (u32 (m_cur_pkg_size c - m_cur_left_len c)) b) in
            let c := put_rpk (RpkLive {| rs_data := d; rs_data_len := rs_data_len pkg |}) c in
            if zlen b =? m_cur_left_len c then Done (FULL, put_pkg_size 0 (put_left 0 c), rx')
            else Done (PARTIAL, put_left (u32 (m_cur_left_len c - zlen b)) c, rx')
        end
  end.

Definition getResponse_data (c : RpcClientConn) (rx : list rx_event)
    : outcome (Z * option response_pkg * RpcClientConn * list rx_event) :=
  let! (data_ret, c, rx) := readPkgData c rx in
  match data_ret with
  | FAIL => Done (-1, None, c, rx)
  | PARTIAL => Done (0, None, c, rx)
  | _ => Done (0, match m_rpk c with RpkLive p => Some p | _ => None end, put_rpk RpkNull c, rx)
  end.

Definition getResponse (fuel : nat) (c : RpcClientConn) (rx : list rx_event)
    : outcome (Z * option response_pkg * RpcClientConn * list rx_event) :=
  if m_cur_pkg_size c =? 0 then
    let! (r, rx) := readPkgLen fuel c rx in
    match r with
    | None => Done (-1, None, c, rx)
    | Some len =>
        let c := put_pkg_size len c in
        if m_cur_pkg_size c =? 0 then Done (0, None, c, rx)
        else
          let c := put_rpk (RpkLive (new_response_pkg (m_cur_pkg_size c))) c in
          getResponse_data (put_left (m_cur_pkg_size c) c) rx
    end
  else getResponse_data c rx.

(** * Sending *)

(** The loop of [sendData] at its [i]-th turn; [elapsed i] is the time since
    the call began, in seconds, and [data] the bytes at the pointer. *)
Fixpoint sendData_loop (fuel : nat) (i : nat) (elapsed : nat -> Z) (timeout : Z)
    (data : buffer) (total_len sent_len : Z) (c : RpcClientConn) (tx : list tx_event)
    : outcome (RpcStatus * buffer * RpcClientConn * list tx_event) :=
  match fuel with
  | O => Stuck Spinning
  | S fuel =>
      if (0 <? timeout) && (timeout <? elapsed i) then Done (RPC_SEND_TIMEOUT, [], c, tx)
      else
        let len := u32 (total_len - sent_len) in
        let again tx' := sendData_loop fuel (S i) elapsed timeout data total_len sent_len c tx' in
        let '(r, tx') := send len tx in
        match r with
        | SendAgain | SendInterrupted => again tx'
        | SendPipe | SendError => Done (RPC_SEND_FAIL, [], put_connected false c, tx')
        | Sent s_ret =>
            if s_ret <=? 0 then Done (RPC_SEND_FAIL, [], put_connected false c, tx')
            else if zlen data <? sent_len + s_ret then Stuck OutOfBounds
            else
              let out := take (Z.to_nat s_ret) (drop (Z.to_nat sent_len) data) in
              let sent_len := u32 (sent_len + s_ret) in
              if sent_len =? total_len then Done (RPC_SEND_OK, out, c, tx')
              else
                let! (rc, out', c, tx'') :=
                  sendData_loop fuel (S i) elapsed timeout data total_len sent_len c tx' in
                Done (rc, out ++ out', c, tx'')
        end
  end.

Definition sendData (fuel : nat) (elapsed : nat -> Z) (timeout : Z) (data : buffer) (len : Z)
    (c : RpcClientConn) (tx : list tx_event) : outcome (RpcStatus * buffer * RpcClientConn * list tx_event) :=
  sendData_loop fuel 0 elapsed timeout data (u32 len) 0 c tx.

Section Codec.
Context `{MessageCodec RpcInnerReq} `{MessageCodec RpcInnerResp}.

(** The message [sendReq] builds and whether the data goes after it. *)
Definition inner_req (service_name method_name : string) (request_data : bytes) (reqid : string)
    (is_oneway : bool) (timeout : Z) : RpcInnerReq * bool :=
  let hasBlob := negb ((0 <? zlen request_data) && (zlen request_data <? max_protobuf_data_len)) in
  ({| req_version := RPCFRAME_VER; req_service_name := service_name; req_method_name := method_name;
      req_request_id := reqid; req_type := if is_oneway then ONE_WAY else TWO_WAY;
      req_timeout := timeout; req_data := if hasBlob then None else Some request_data |}, hasBlob).

(** The bytes of [out_data] and the length handed to [sendData]. *)
Definition out_data (service_name method_name : string) (request_data : bytes) (reqid : string)
    (is_oneway : bool) (timeout : Z) : outcome (buffer * Z) :=
  let '(req, hasBlob) := inner_req service_name method_name request_data reqid is_oneway timeout in
  let proto_len := i32 (ByteSize req) in
  let pkg_len := u64 (4 + proto_len) in
  let pkg_len := if hasBlob then u64 (pkg_len + zlen request_data) else pkg_len in
  let out := new_buffer (u64 (pkg_len + 4 + 4)) in
  let! out := need OutOfBounds (write_at out 0 (put32 (u32 pkg_len))) in
  let! out := need OutOfBounds (write_at out 4 (put32 (u32 proto_len))) in
  let! out := need OutOfBounds (write_at out 8 (serialize req)) in
  let! out := if hasBlob then need OutOfBounds (write_at out (8 + proto_len) request_data) else Done out in
  Done (out, u64 (pkg_len + 4)).

Definition sendReq (fuel : nat) (elapsed : nat -> Z) (service_name method_name : string)
    (request_data : bytes) (reqid : string) (is_oneway : bool) (timeout : Z)
    (c : RpcClientConn) (tx : list tx_event) : outcome (RpcStatus * buffer * RpcClientConn * list tx_event) :=
  let! (out, len) := out_data service_name method_name request_data reqid is_oneway timeout in
  sendData fuel elapsed timeout out len c tx.

(** * [RpcClientWorker::run], up to the callback: the request id, the status
    and the data of a response package. *)
Definition client_response (pkg : response_pkg) : outcome (option (string * Z * bytes)) :=
  let! proto_len := load32 (rs_data pkg) 0 in
  let! hdr := bytes_at (rs_data pkg) 4 proto_len in
  match parse hdr with
  | None => Done None
  | Some resp =>
      let! ret_val := load32 (rs_data pkg) (rs_data_len pkg - 4) in
      let! rd := bytes_at (rs_data pkg) (4 + proto_len) (u64 (rs_data_len pkg - 4 - 4 - proto_len)) in
      Done (Some (resp_request_id resp, ret_val, rd))
  end.
End Codec.
