(* ===== verification/ClientConnProps.v ===== *)
(** The client cuts responses out of the byte stream the way the server cuts
    requests: on a stream without interruptions the two readers are the same
    machine ([getResponse_simulates]), so what [ServerConnProps] shows of
    delivery holds of the client. *)
From Stdlib Require Import ZArith Lia Bool List String Ascii.
From stdpp Require Import base list.
From S2P Require Import Prelude Wire Socket Queue.
From S2P Require ServerConn ServerConnProps.
From S2P Require Import ClientConn.
Module Srv := ServerConn.
Import ServerConnProps(frame, data_only, recv_data, acceptable).

(** * The simulation *)

(** A client connection and a server connection (without a size limit) that
    have read the same. *)
Definition sim (c : RpcClientConn) (s : Srv.RpcServerConn) : Prop :=
  m_cur_left_len c = Srv.m_cur_left_len s /\ m_cur_pkg_size c = Srv.m_cur_pkg_size s /\
  is_connected c = Srv.is_connected s /\ Srv.MAX_REQ_LIMIT_BYTE s = 2 ^ 32 - 1 /\
  match m_rpk c, Srv.m_rpk s with
  | RpkNull, None => True
  | RpkLive p, Some q => rs_data p = rq_data q /\ rs_data_len p = rq_data_len q
  | _, _ => False
  end.

(** The same package on both sides. *)
Definition same_pkg (p : option response_pkg) (q : option request_pkg) : Prop :=
  match p, q with
  | None, None => True
  | Some p, Some q => rs_data p = rq_data q /\ rs_data_len p = rq_data_len q
  | _, _ => False
  end.


Lemma readPkgLen_same fuel got rx v rx' :
  data_only rx -> zlen got < 4 -> 4 <= zlen got + zlen (rx_bytes rx) -> (rx_size rx < fuel)%nat ->
  Srv.readPkgLen_loop fuel got 0 rx = Done (Some v, rx') ->
  readPkgLen_loop fuel ((Some <$> got) ++ new_buffer (4 - zlen got)) (zlen got) (4 - zlen got) rx
  = Done (Some v, rx').
Proof.
  revert got rx. induction fuel as [|fuel IH]; intros got rx Hd Hgot Hall Hf; [discriminate|].
  cbn [Srv.readPkgLen_loop readPkgLen_loop]. pose proof (zlen_nonneg got) as H0.
  assert (Hne : rx <> []) by (intros ->; change (zlen (rx_bytes [])) with 0 in Hall; lia).
  destruct (recv_data (4 - zlen got) rx ltac:(lia) Hd Hne) as (b & rx1 & Hr & Hd1). rewrite Hr.
  apply recv_received in Hr as (Hb & Hbytes & Hs); [|lia].
  rewrite Hbytes, zlen_app in Hall. rewrite write_at_prefix by lia. cbn [need outcome_bind].
  replace (4 - zlen got - zlen b) with (4 - zlen (got ++ b)) by (rewrite zlen_app; lia).
  rewrite <- (zlen_app got b).
  destruct (4 - zlen (got ++ b) =? 0) eqn:Hz.
  - replace (zlen (got ++ b) =? 4) with true by lia.
    replace (4 - zlen (got ++ b)) with 0 by lia. change (new_buffer 0) with (@nil (option ascii)).
    rewrite app_nil_r. destruct (get32 (got ++ b)) as [u|] eqn:Hg; [|discriminate].
    unfold load32. rewrite bytes_at_some by lia. unfold slice.
    replace (take (Z.to_nat 4) (drop (Z.to_nat 0) (got ++ b))) with (got ++ b)
      by (change (Z.to_nat 0) with 0%nat; rewrite drop_0, take_ge; [reflexivity | unfold zlen in Hz; lia]).
    cbn [outcome_bind]. rewrite Hg. exact id.
  - rewrite zlen_app in *. replace (zlen got + zlen b =? 4) with false by lia.
    replace (0 <? 4 - (zlen got + zlen b)) with true by lia. rewrite <- zlen_app.
    apply IH; [exact Hd1 | rewrite zlen_app; lia | rewrite zlen_app; lia | lia].
Qed.

Lemma readPkgData_same fuel c s rx o s' rx' :
  sim c s -> is_connected c = true -> data_only rx -> rx <> [] -> 0 < m_cur_left_len c ->
  Srv.getRequest_data fuel s rx = Done ((0, o), s', rx') ->
  exists p c', getResponse_data c rx = Done (0, p, c', rx') /\ same_pkg p o /\ sim c' s' /\ is_connected c' = true.
Proof.
  intros (Hl & Hz & Hi & Hm & Hp) Hconn Hd Hne Hleft.
  unfold Srv.getRequest_data, Srv.readPkgData, getResponse_data, readPkgData. rewrite <- Hi, Hconn. cbn [negb].
  destruct (m_rpk c) as [|p|], (Srv.m_rpk s) as [q|] eqn:Hq; try contradiction; [discriminate|].
  destruct Hp as [Hp1 Hp2]. destruct fuel as [|fuel]; [discriminate|]. cbn [Srv.readPkgData_loop].
  rewrite Hq. cbn [need outcome_bind]. rewrite <- Hl, <- Hz.
  destruct (recv_data (m_cur_left_len c) rx Hleft Hd Hne) as (b & rx1 & -> & _). rewrite Hp1.
  destruct (write_at _ _ _) as [d|]; [|discriminate]. cbn [need outcome_bind].
  change (Srv.m_cur_left_len (Srv.put_rpk (Some {| rq_data := d; rq_data_len := rq_data_len q;
    rq_connection_id := rq_connection_id q; rq_is_from_http := rq_is_from_http q |}) s)) with (Srv.m_cur_left_len s).
  change (m_cur_left_len (put_rpk (RpkLive {| rs_data := d; rs_data_len := rs_data_len p |}) c)) with (m_cur_left_len c).
  rewrite <- Hl. destruct (zlen b =? m_cur_left_len c); cbn [outcome_bind]; intros [= <- <- <-];
    do 2 eexists; (split; [reflexivity|]); cbn;
    repeat split; cbn; try assumption; congruence.
Qed.

(** A call of [getResponse] is a call of [getRequest] on the server's side. *)
Lemma getResponse_same fuel c s part rx ps o s' rx' :
  sim c s -> ServerConnProps.deliverable s part rx ps -> rx <> [] -> (rx_size rx < fuel)%nat ->
  Srv.getRequest fuel s rx = Done ((0, o), s', rx') ->
  exists p c', getResponse fuel c rx = Done (0, p, c', rx') /\ same_pkg p o /\ sim c' s'.
Proof.
  intros Hsim Hdl Hne Hf. pose proof (ServerConnProps.deliverable_ready s part rx ps Hdl Hne) as Hready.
  destruct Hdl as [Hat Hconn Hd Hmax _ _].
  pose proof Hsim as (Hl & Hz & Hi & Hm & Hp).
  assert (Hconn' : is_connected c = true) by congruence.
  unfold Srv.getRequest, getResponse. rewrite <- Hz.
  destruct Hready as [[Hsz _] | (Hsz & payload & rest & Hrx & Hpl & H32 & Hnil)].
  - rewrite <- Hz in Hsz. replace (m_cur_pkg_size c =? 0) with false by lia. intros Hg.
    inversion Hat as [|pre Hpre Hs2 Hleft Hr Hpt]; [congruence|].
    destruct (readPkgData_same fuel c s rx o s' rx' Hsim Hconn' Hd Hne) as (p & c' & H1 & H2 & H3 & _);
      [lia | exact Hg |]. eauto.
  - rewrite <- Hz in Hsz. rewrite Hsz, Z.eqb_refl.
    unfold Srv.readPkgLen, readPkgLen. rewrite <- Hi, Hconn'. cbn [negb].
    assert (Hlen4 : 4 <= zlen (@nil ascii) + zlen (rx_bytes rx)).
    { rewrite Hrx. unfold frame. rewrite !zlen_app. pose proof (zlen_nonneg payload). pose proof (zlen_nonneg rest).
      change (zlen (put32 (zlen payload))) with 4. change (zlen (@nil ascii)) with 0. lia. }
    destruct (ServerConnProps.readPkgLen_progress fuel [] rx Hd ltac:(reflexivity) Hlen4 Hf)
      as (v & rx1 & Hs & Hd1 & Hs1).
    rewrite <- Hz, Hsz, Hs.
    pose proof (readPkgLen_same fuel [] rx v rx1 Hd ltac:(reflexivity) Hlen4 Hf Hs) as Hc.
    change (readPkgLen_loop fuel (new_buffer 4) 0 4 rx = Done (Some v, rx1)) in Hc. rewrite Hc.
    cbn [outcome_bind].
    change (Srv.m_cur_pkg_size (Srv.put_pkg_size v s)) with v. change (m_cur_pkg_size (put_pkg_size v c)) with v.
    change (Srv.MAX_REQ_LIMIT_BYTE (Srv.put_pkg_size v s)) with (Srv.MAX_REQ_LIMIT_BYTE s).
    destruct (v =? 0) eqn:Hv0.
    + intros [= <- <- <-]. do 2 eexists. split; [reflexivity|]. split; [exact I|].
      repeat split; cbn; assumption.
    + destruct (_ <? v); [discriminate|].
      assert (Hne1 : rx1 <> []).
      { intros ->. pose proof (ServerConnProps.readPkgLen_loop_ok fuel [] rx ltac:(reflexivity)) as Hok.
        rewrite Hs in Hok. destruct Hok as (used & Hu & _ & [Hcase | (_ & _ & ?)]); [|lia].
        cbn [app] in Hcase. subst used. rewrite Hrx in Hu. unfold frame in Hu.
        apply (f_equal length) in Hu. rewrite !length_app, !length_put32 in Hu. cbn in Hu.
        destruct payload; [contradiction | cbn in Hu; lia]. }
      intros Hg. eapply readPkgData_same in Hg as (p & c' & H1 & H2 & H3 & _); [eauto | .. ].
      * repeat split; cbn; try assumption; reflexivity.
      * exact Hconn'.
      * exact Hd1.
      * exact Hne1.
      * cbn. pose proof (ServerConnProps.readPkgLen_loop_ok fuel [] rx ltac:(reflexivity)) as Hok.
        rewrite Hs in Hok. destruct Hok as (_ & _ & ? & _). lia.
Qed.

(** * Any number of calls *)

(** [getResponse] called while there is something to read, at most [calls]
    times, as the event loop does on [EPOLLIN]. *)
Fixpoint received (calls fuel : nat) (c : RpcClientConn) (rx : list rx_event)
    : outcome (list response_pkg * option RpcClientConn * list rx_event) :=
  match rx, calls with
  | [], _ | _, O => Done ([], Some c, rx)
  | _, S calls =>
      let! (st, o, c, rx) := getResponse fuel c rx in
      if st <? 0 then Done ([], None, rx)
      else
        let! (l, c, rx) := received calls fuel c rx in
        Done (match o with Some pkg => pkg :: l | None => l end, c, rx)
  end.

(** The package of a response that has arrived. *)
Definition delivered_response (payload : bytes) : response_pkg :=
  {| rs_data := Some <$> payload; rs_data_len := zlen payload |}.

Lemma received_deliver calls fuel ps c s part rx :
  sim c s -> ServerConnProps.deliverable s part rx ps -> (rx_size rx <= calls)%nat -> (rx_size rx < fuel)%nat ->
  exists c', received calls fuel c rx = Done (map delivered_response ps, Some c', []).
Proof.
  revert ps c s part rx. induction calls as [|calls IH]; intros ps c s part rx Hsim Hdl Hcalls Hf.
  - destruct rx as [|[] rx]; cbn in Hcalls; try lia. destruct Hdl as [Hat Hconn Hd Hmax Hps Heq].
    rewrite app_nil_r in Heq. destruct (ServerConnProps.conn_at_end s part ps Hat Hps Hmax Heq) as [-> _].
    cbn. eauto.
  - cbn [received]. destruct rx as [|e rx].
    + destruct Hdl as [Hat Hconn Hd Hmax Hps Heq]. rewrite app_nil_r in Heq.
      destruct (ServerConnProps.conn_at_end s part ps Hat Hps Hmax Heq) as [-> _]. eauto.
    + destruct (ServerConnProps.deliver_step fuel s part (e :: rx) ps Hdl ltac:(discriminate) Hf)
        as (o & s1 & rx1 & part1 & ps1 & Hg & Hdl1 & Hs & _ & Ho).
      destruct (getResponse_same fuel c s part (e :: rx) ps o s1 rx1 Hsim Hdl ltac:(discriminate) Hf Hg)
        as (p & c1 & -> & Hsame & Hsim1).
      cbn [outcome_bind Z.ltb Z.compare].
      destruct (IH ps1 c1 s1 part1 rx1 Hsim1 Hdl1) as (c' & ->); [lia | lia |].
      cbn [outcome_bind]. destruct o as [pkg|], p as [[d n]|]; try contradiction; eexists.
      * destruct Ho as (q & -> & ->). destruct Hsame as [He1 He2]. cbn in He1, He2. subst d n. reflexivity.
      * subst ps1. reflexivity.
Qed.

Lemma sim_fresh fd seqid : sim (put_fd fd new_client_conn) (Srv.new_conn seqid (2 ^ 32 - 1)).
Proof. repeat split. Qed.

(** * Properties *)

(** C12: delivery of responses.  When the bytes of a sequence of responses
    arrive on a fresh connection of the client in any segments, the calls of
    [getResponse] the event loop makes hand out exactly these responses, in
    order, each with exactly its bytes. *)
Theorem responses_delivered calls fuel fd ps rx
    (Hps : Forall (acceptable (2 ^ 32 - 1)) ps) (Hd : data_only rx)
    (Hrx : rx_bytes rx = concat (map frame ps))
    (Hcalls : (rx_size rx <= calls)%nat) (Hfuel : (rx_size rx < fuel)%nat) :
  exists c', received calls fuel (put_fd fd new_client_conn) rx
             = Done (map delivered_response ps, Some c', []).
Proof.
  apply (received_deliver calls fuel ps _ (Srv.new_conn "" (2 ^ 32 - 1)) [] rx (sim_fresh fd "")); try assumption.
  split; try assumption; try reflexivity. apply ServerConnProps.at_start; reflexivity.
Qed.

Lemma responses_delivered_witness :
  exists c', received 30 40 (put_fd 5 new_client_conn)
      [RxData (take 3 (frame (bs "hello"))); RxData (drop 3 (frame (bs "hello")) ++ frame (bs "bye"))]
      = Done (map delivered_response [bs "hello"; bs "bye"], Some c', []).
Proof.
  apply (responses_delivered 30 40 5 [bs "hello"; bs "bye"]);
    [repeat constructor; discriminate | repeat constructor | reflexivity | cbn; lia | cbn; lia].
Defined.

(** An interrupted read of the length is not harmless: the client counts
    [EINTR] or [EAGAIN] as minus one byte, so the bytes that come next are
    stored one place before the length, outside the variable. *)
Theorem interrupted_length_out_of_bounds fuel fd b rx (Hb : b <> []) :
  getResponse (S (S fuel)) (put_fd fd new_client_conn) (RxIntr :: RxData b :: rx) = Stuck OutOfBounds /\
  getResponse (S (S fuel)) (put_fd fd new_client_conn) (RxAgain :: RxData b :: rx) = Stuck OutOfBounds.
Proof.
  destruct b as [|x b]; [contradiction|].
  assert (H : forall left, readPkgLen_loop (S fuel) (new_buffer 4) (-1) left (RxData (x :: b) :: rx) = Stuck OutOfBounds).
  { intros left. cbn [readPkgLen_loop recv]. destruct (_ <=? _); reflexivity. }
  assert (Hi : forall e, e = RxIntr \/ e = RxAgain ->
    readPkgLen_loop (S (S fuel)) (new_buffer 4) 0 4 (e :: RxData (x :: b) :: rx)
    = readPkgLen_loop (S fuel) (new_buffer 4) (-1) 5 (RxData (x :: b) :: rx)) by (intros e [-> | ->]; reflexivity).
  split; unfold getResponse, readPkgLen; cbn [put_fd new_client_conn m_cur_pkg_size is_connected negb Z.eqb];
    rewrite Hi, H by auto; reflexivity.
Qed.

Lemma interrupted_length_out_of_bounds_witness :
  getResponse 2 (put_fd 5 new_client_conn) [RxIntr; RxData (frame (bs "hello"))] = Stuck OutOfBounds /\
  getResponse 2 (put_fd 5 new_client_conn) [RxAgain; RxData (frame (bs "hello"))] = Stuck OutOfBounds.
Proof. apply (interrupted_length_out_of_bounds 0 5 (frame (bs "hello")) []). discriminate. Defined.

(** [setInvalid] keeps the pointer to the package it deletes.  A
    connection that fails in the middle of a response is invalidated by the
    event loop, and invalidating it again (its destructor does) deletes the
    package a second time. *)
Theorem second_setInvalid_double_free c p now now' (Hp : m_rpk c = RpkLive p) :
  exists c', setInvalid now c = Done c' /\ setInvalid now' c' = Stuck UseAfterFree.
Proof. unfold setInvalid. rewrite Hp. eexists. split; reflexivity. Qed.

(** Half of a response, then the end of the stream. *)
Definition half_response : outcome (Z * option response_pkg * RpcClientConn * list rx_event) :=
  getResponse 10 (put_fd 5 new_client_conn) [RxData (take 6 (frame (bs "hello"))); RxClosed].
Definition broken_conn : RpcClientConn :=
  match half_response with
  | Done (_, _, c, rx) => match getResponse 10 c rx with Done (_, _, c, _) => c | Stuck _ => c end
  | Stuck _ => new_client_conn
  end.

Lemma second_setInvalid_double_free_witness :
  exists c', setInvalid 100 broken_conn = Done c' /\ setInvalid 101 c' = Stuck UseAfterFree.
Proof.
  apply (second_setInvalid_double_free broken_conn
    match m_rpk broken_conn with RpkLive p => p | _ => new_response_pkg 0 end 100 101).
  vm_compute. reflexivity.
Defined.
