(* ===== verification/RoundTrip.v ===== *)
(** A remote call end to end: the request the client frames is the one the
    server's worker runs, and the response the broker builds is the one the
    client's worker takes apart. *)
From Stdlib Require Import ZArith Lia Bool List String Ascii.
From stdpp Require Import base list strings gmap.
From S2P Require Import Prelude Wire Socket Stats SampleCodec RespBroker Service.
From S2P Require ServerConn ServerConnProps ClientConnProps.
From S2P Require Import ClientConn.
Import ServerConnProps(frame, data_only, acceptable, delivered).
Import ClientConnProps(delivered_response, received).

Section RoundTrip.
Context `{MessageCodec RpcInnerReq} `{MessageCodec RpcInnerResp}.

(** * The request on the wire *)

(** The payload of a request: header length, header, and the blob if any. *)
Definition request_payload (req : RpcInnerReq) (blob : bytes) : bytes :=
  put32 (ByteSize req) ++ serialize req ++ blob.

Lemma new_buffer_split n : new_buffer n = (Some <$> []) ++ new_buffer n.
Proof. reflexivity. Qed.

Lemma out_data_bytes service method data reqid oneway timeout req hasBlob :
  inner_req service method data reqid oneway timeout = (req, hasBlob) ->
  ByteSize req + zlen data < 2 ^ 31 - 16 ->
  let blob := if hasBlob then data else [] in
  let payload := request_payload req blob in
  out_data service method data reqid oneway timeout
  = Done ((Some <$> (put32 (zlen payload) ++ payload)) ++ new_buffer 4, 4 + zlen payload).
Proof.
  intros Hreq Hsz. unfold out_data. rewrite Hreq. cbv zeta.
  pose proof (zlen_nonneg data) as Hd. pose proof (zlen_nonneg (serialize req)) as Hs. fold (ByteSize req) in Hs.
  unfold request_payload. rewrite !zlen_app. change (zlen (put32 (ByteSize req))) with 4. fold (ByteSize req).
  rewrite i32_small by lia.
  assert (Hu : u64 (4 + ByteSize req) = 4 + ByteSize req) by (apply u64_small; lia).
  set (plen := if hasBlob then u64 (u64 (4 + ByteSize req) + zlen data) else u64 (4 + ByteSize req)).
  assert (Hp : plen = 4 + (ByteSize req + zlen (if hasBlob then data else []))).
  { unfold plen. rewrite Hu. destruct hasBlob; [rewrite u64_small by lia; lia | change (zlen (@nil ascii)) with 0; lia]. }
  assert (Hb : 0 <= zlen (if hasBlob then data else []) <= zlen data)
    by (destruct hasBlob; change (zlen (@nil ascii)) with 0; lia).
  clearbody plen. rewrite Hp. rewrite !u64_small, !u32_small by lia.
  set (n := 4 + (ByteSize req + zlen (if hasBlob then data else []))).
  rewrite write_first by (rewrite zlen_put32; lia). cbn [need outcome_bind]. rewrite zlen_put32.
  rewrite write_next by (rewrite zlen_put32; lia). cbn [need outcome_bind]. rewrite zlen_put32.
  rewrite write_next by (rewrite ?zlen_app, ?zlen_put32; fold (ByteSize req); lia). cbn [need outcome_bind].
  fold (ByteSize req).
  destruct hasBlob.
  - rewrite write_next by (rewrite ?zlen_app, ?zlen_put32; fold (ByteSize req); lia).
    cbn [need outcome_bind]. rewrite <- !app_assoc. do 2 f_equal; [|lia]. do 2 f_equal. lia.
  - cbn [outcome_bind]. change (zlen (@nil ascii)) with 0 in *. rewrite app_nil_r, <- !app_assoc.
    do 2 f_equal; [|lia]. do 2 f_equal. lia.
Qed.

(** * Sending *)

(** However the socket behaves, the client puts on the wire a prefix of the
    data, all of it exactly when it reports [RPC_SEND_OK]. *)
Lemma sendData_loop_prefix fuel i elapsed timeout data total sent c tx :
  0 <= sent < total -> total <= zlen data -> total < 2 ^ 32 ->
  match sendData_loop fuel i elapsed timeout data total sent c tx with
  | Done (rc, out, _, _) =>
      exists n, 0 <= n <= total - sent /\
        out = take (Z.to_nat n) (drop (Z.to_nat sent) data) /\ (rc = RPC_SEND_OK <-> n = total - sent)
  | Stuck Spinning => True
  | Stuck _ => False
  end.
Proof.
  revert i sent c tx. induction fuel as [|fuel IH]; intros i sent c tx Hs Hd Ht; [exact I|].
  cbn [sendData_loop].
  assert (Hnone : forall rc (c' : RpcClientConn) (tx' : list tx_event), rc <> RPC_SEND_OK ->
    exists n, 0 <= n <= total - sent /\
      @nil (option ascii) = take (Z.to_nat n) (drop (Z.to_nat sent) data) /\ (rc = RPC_SEND_OK <-> n = total - sent)).
  { intros rc c' tx' Hrc. exists 0. split; [lia|]. split; [reflexivity|]. split; [contradiction | lia]. }
  destruct (_ && _); [apply (Hnone _ c tx); discriminate|].
  rewrite u32_small by lia.
  destruct (send (total - sent) tx) as [r tx'] eqn:Hr. destruct r as [k| | | |];
    try (apply IH; assumption); try (apply (Hnone _ (put_connected false c) tx'); discriminate).
  apply send_range in Hr; [|lia].
  destruct (k <=? 0) eqn:Hk; [apply (Hnone _ (put_connected false c) tx'); discriminate|].
  replace (zlen data <? sent + k) with false by lia. rewrite u32_small by lia.
  destruct (_ =? total) eqn:Hfull.
  - exists k. split; [lia|]. split; [reflexivity|]. split; [lia | reflexivity].
  - specialize (IH (S i) (sent + k) c tx' ltac:(lia) Hd Ht).
    destruct (sendData_loop _ _ _ _ _ _ _ _ _) as [[[[rc out'] c'] tx2]|w]; cbn [outcome_bind]; [|exact IH].
    destruct IH as (n & Hn & -> & Hrc). exists (k + n). split; [lia|].
    split; [|rewrite Hrc; lia].
    rewrite !Z2Nat.inj_add by lia. rewrite <- (drop_drop data), take_take_drop. reflexivity.
Qed.

(** * The request at the worker *)

Lemma load32_some b off v :
  0 <= off -> off + 4 <= zlen b -> get32 (slice b off 4) = Some v -> load32 (Some <$> b) off = Done v.
Proof. intros Ho Hb Hv. unfold load32. rewrite bytes_at_some by lia. cbn [outcome_bind]. rewrite Hv. reflexivity. Qed.

Lemma slice_app l m r off n :
  off = zlen l -> n = zlen m -> slice (l ++ m ++ r) off n = m.
Proof.
  intros -> ->. unfold slice, zlen. rewrite !Nat2Z.id, drop_app_length, take_app_length. reflexivity.
Qed.

Lemma slice_head m r n : n = zlen m -> slice (m ++ r) 0 n = m.
Proof. intros Hn. exact (slice_app [] m r 0 n eq_refl Hn). Qed.

(** The header of a package parses back. *)
Lemma request_header `{!MessageCodecLaw RpcInnerReq req_fits} req blob :
  req_fits req -> ByteSize req < 2 ^ 32 ->
  load32 (Some <$> request_payload req blob) 0 = Done (ByteSize req) /\
  bytes_at (Some <$> request_payload req blob) 4 (ByteSize req) = Done (serialize req) /\
  parse (serialize req) = Some req.
Proof.
  intros Hfit Hsz. pose proof (zlen_nonneg (serialize req)) as H1. pose proof (zlen_nonneg blob) as H2.
  fold (ByteSize req) in H1. unfold request_payload. split; [|split].
  - apply load32_some; [lia | rewrite !zlen_app, zlen_put32; fold (ByteSize req); lia |].
    rewrite slice_head by reflexivity.
    rewrite <- (app_nil_r (put32 _)). apply get32_put32. lia.
  - rewrite bytes_at_some by (rewrite ?zlen_app, ?zlen_put32; fold (ByteSize req); lia).
    rewrite slice_app by reflexivity. reflexivity.
  - apply parse_serialize, Hfit.
Qed.

(** What the worker makes of a package: the method's data, and the run of the
    service the request names. *)
Lemma run_request `{!MessageCodecLaw RpcInnerReq req_fits} req blob pkg t w s own :
  req_fits req -> ByteSize req + zlen blob < 2 ^ 31 ->
  rq_data pkg = Some <$> request_payload req blob ->
  rq_data_len pkg = zlen (request_payload req blob) -> rq_is_from_http pkg = false ->
  m_srvmap w !! req_service_name req = Some {| pSrv := Some s; owner := own |} ->
  run pkg true t w =
    run_service s req
      match req_data req with
      | Some d => d
      | None => take (length blob) (serialize req ++ blob)
      end
      (new_broker (rq_connection_id pkg) (req_request_id req) (bool_decide (req_type req = TWO_WAY)) false)
      (rq_connection_id pkg) t
      (put_server (ServerStatus.calcReqQTime (Z.max 0 (queue_ms t)) (m_server w)) w).
Proof.
  intros Hfit Hsz Hdata Hlen Hhttp Hsrv.
  pose proof (zlen_nonneg (serialize req)) as H1. pose proof (zlen_nonneg blob) as H2. fold (ByteSize req) in H1.
  destruct (request_header req blob Hfit ltac:(lia)) as (Hw & Hh & Hp).
  unfold run, request_data. rewrite Hdata, Hw. cbn [outcome_bind]. rewrite Hh. cbn [outcome_bind].
  rewrite Hp, Hlen, Hhttp.
  assert (Hrd : match req_data req with
      | Some d => Done d
      | None => bytes_at (Some <$> request_payload req blob) 4
                  (u64 (zlen (request_payload req blob) - 4 - ByteSize req))
      end = Done match req_data req with
                 | Some d => d
                 | None => take (length blob) (serialize req ++ blob)
                 end).
  { destruct (req_data req); [reflexivity|]. unfold request_payload.
    rewrite !zlen_app, zlen_put32. fold (ByteSize req).
    replace (4 + (ByteSize req + zlen blob) - 4 - ByteSize req) with (zlen blob) by lia.
    rewrite u64_small by lia.
    rewrite bytes_at_some by (rewrite ?zlen_app, ?zlen_put32; fold (ByteSize req); lia).
    unfold slice, zlen. rewrite Nat2Z.id. reflexivity. }
  rewrite Hrd. cbn [outcome_bind negb put_server m_srvmap]. rewrite Hsrv. reflexivity.
Qed.

(** * The response *)

(** The bytes of a response package before the user data. *)
Definition response_header (resp : RpcInnerResp) (len : Z) : bytes :=
  put32 (8 + ByteSize resp + len) ++ put32 (ByteSize resp) ++ serialize resp.

(** A broker with room for [len] bytes of user data, of which the user has
    written [u]; [tail] is the place of the return value. *)
Definition allocated (b : RpcRespBroker) (u : buffer) (tail : buffer) : RpcRespBroker :=
  let ps := ByteSize (m_resp_proto b) in
  put_positions (8 + ps + zlen u) (8 + ps)
    (put_pkg {| rs_data := (Some <$> response_header (m_resp_proto b) (zlen u)) ++ u ++ tail;
                rs_data_len := 12 + ps + zlen u |} b).

Lemma allocRespBuf_spec b len :
  m_from_http b = false -> 0 <= len -> ByteSize (m_resp_proto b) + len < 2 ^ 31 ->
  allocRespBuf len b =
    Done (8 + ByteSize (m_resp_proto b), allocated b (new_buffer len) (new_buffer 4)).
Proof.
  intros Hhttp Hlen Hsz. unfold allocRespBuf, allocated. rewrite Hhttp. cbv zeta.
  pose proof (zlen_nonneg (serialize (m_resp_proto b))) as Hs. fold (ByteSize (m_resp_proto b)) in Hs.
  set (ps := ByteSize (m_resp_proto b)) in *. rewrite length_new_buffer by exact Hlen.
  rewrite !(u32_small ps), u64_small, (u32_small (4 + ps + len + 4)), (u32_small (4 + ps + len + 4 + 4)) by lia.
  unfold write_pkg, new_response_pkg. cbn [m_resp_pkg put_pkg rs_data rs_data_len need outcome_bind].
  rewrite write_first by (rewrite zlen_put32; lia). cbn [need outcome_bind m_resp_pkg put_pkg rs_data rs_data_len].
  rewrite write_next by (rewrite ?zlen_put32; lia). cbn [need outcome_bind m_resp_pkg put_pkg rs_data rs_data_len m_resp_proto].
  rewrite write_next by (rewrite ?zlen_app, ?zlen_put32; change (zlen (serialize (m_resp_proto b))) with ps; lia).
  cbn [need outcome_bind].
  rewrite (u32_small (4 + 4 + ps)), (u32_small (4 + 4 + ps + len)) by lia.
  unfold response_header. change (ByteSize (m_resp_proto b)) with ps. rewrite !zlen_put32. rewrite <- !app_assoc.
  unfold put_positions, put_pkg. cbn [m_conn_id m_req_id m_need_resp m_is_responed m_from_http m_resp_proto m_resp_pkg].
  assert (Hbuf : new_buffer (4 + ps + len + 4 + 4 - 4 - 4 - ps) = new_buffer len ++ new_buffer 4).
  { unfold new_buffer. rewrite <- replicate_add. f_equal. lia. }
  change (zlen (serialize (m_resp_proto b))) with ps. rewrite Hbuf.
  replace (4 + ps + len + 4) with (8 + ps + len) by lia.
  replace (8 + ps + len + 4) with (12 + ps + len) by lia. reflexivity.
Qed.

(** The user fills in the data; the rest of the package is not touched. *)
Lemma fill_spec b u tail d :
  zlen d = zlen u ->
  write_pkg (8 + ByteSize (m_resp_proto b)) d (allocated b u tail) = Done (allocated b (Some <$> d) tail).
Proof.
  intros Hd. unfold write_pkg, allocated. cbn [m_resp_pkg put_pkg put_positions rs_data rs_data_len need outcome_bind].
  replace (8 + ByteSize (m_resp_proto b)) with (zlen (Some <$> response_header (m_resp_proto b) (zlen u))).
  2:{ unfold response_header, zlen. rewrite length_fmap, !length_app, !length_put32. unfold ByteSize, zlen. lia. }
  rewrite write_at_mid by (symmetry; exact Hd). cbn [need outcome_bind].
  replace (zlen (Some <$> d)) with (zlen u) by (rewrite <- Hd; unfold zlen; rewrite length_fmap; reflexivity).
  reflexivity.
Qed.

Lemma setReturnVal_spec b u tail rs :
  m_from_http b = false -> zlen tail = 4 ->
  setReturnVal rs (allocated b u tail) = Done (allocated b u (Some <$> put32 (status_num rs))).
Proof.
  intros Hhttp Ht. unfold setReturnVal.
  replace (m_from_http (allocated b u tail)) with false by (symmetry; exact Hhttp).
  destruct (m_resp_pkg (allocated b u tail)) eqn:Hpkg; [clear Hpkg | discriminate]. cbn [outcome_bind].
  replace (m_from_http (allocated b u tail)) with false by (symmetry; exact Hhttp). cbn [negb].
  unfold write_pkg, allocated. cbn [m_resp_pkg put_pkg put_positions rs_data rs_data_len need outcome_bind m_return_val_pos].
  rewrite app_assoc.
  replace (8 + ByteSize (m_resp_proto b) + zlen u)
    with (zlen ((Some <$> response_header (m_resp_proto b) (zlen u)) ++ u)).
  2:{ rewrite zlen_app. unfold response_header, zlen. rewrite length_fmap, !length_app, !length_put32.
      unfold ByteSize, zlen. lia. }
  rewrite <- (app_nil_r tail), write_at_mid by (rewrite zlen_put32; exact Ht).
  cbn [need outcome_bind]. rewrite app_nil_r, <- app_assoc. reflexivity.
Qed.

(** What the client finds in the bytes of a response. *)
Lemma client_response_spec `{!MessageCodecLaw RpcInnerResp resp_fits} resp d rs :
  resp_fits resp -> ByteSize resp + zlen d < 2 ^ 31 ->
  let payload := put32 (ByteSize resp) ++ serialize resp ++ d ++ put32 (status_num rs) in
  client_response {| rs_data := Some <$> payload; rs_data_len := zlen payload |}
  = Done (Some (resp_request_id resp, status_num rs, d)).
Proof.
  intros Hfit Hsz payload. unfold client_response. cbn [rs_data rs_data_len].
  pose proof (zlen_nonneg (serialize resp)) as H1. pose proof (zlen_nonneg d) as H2. fold (ByteSize resp) in H1.
  assert (Hlen : zlen payload = 8 + ByteSize resp + zlen d)
    by (unfold payload; rewrite !zlen_app, !zlen_put32; fold (ByteSize resp); lia).
  assert (Hl0 : load32 (Some <$> payload) 0 = Done (ByteSize resp)).
  { apply load32_some; [lia | lia |]. unfold payload. rewrite slice_head by reflexivity.
    rewrite <- (app_nil_r (put32 _)). apply get32_put32. lia. }
  rewrite Hl0. cbn [outcome_bind].
  rewrite bytes_at_some by lia. unfold payload at 1. rewrite slice_app by reflexivity. cbn [outcome_bind].
  rewrite parse_serialize by exact Hfit.
  pose proof (status_num_range rs) as Hrs.
  assert (Hv : load32 (Some <$> payload) (zlen payload - 4) = Done (status_num rs)).
  { apply load32_some; [lia | lia |]. unfold payload at 1.
    replace (put32 (ByteSize resp) ++ serialize resp ++ d ++ put32 (status_num rs))
      with ((put32 (ByteSize resp) ++ serialize resp ++ d) ++ put32 (status_num rs) ++ [])
      by (rewrite app_nil_r, <- !app_assoc; reflexivity).
    rewrite slice_app; [| rewrite Hlen, !zlen_app, zlen_put32; fold (ByteSize resp); lia | reflexivity].
    rewrite <- (app_nil_r (put32 _)). apply get32_put32. lia. }
  rewrite Hv. cbn [outcome_bind].
  replace (zlen payload - 4 - 4 - ByteSize resp) with (zlen d) by lia. rewrite u64_small by lia.
  rewrite bytes_at_some by lia. cbn [outcome_bind]. unfold payload.
  rewrite app_assoc, slice_app; [reflexivity | rewrite zlen_app, zlen_put32; reflexivity | reflexivity].
Qed.
End RoundTrip.

(** * Properties *)

Section Properties.
Context `{MessageCodecLaw RpcInnerReq req_fits} `{MessageCodecLaw RpcInnerResp resp_fits}.

(** The message of a request whose data travels inside it. *)
Definition embedded (service method : string) (data : bytes) (reqid : string) (oneway : bool) (timeout : Z)
    : RpcInnerReq :=
  fst (inner_req service method data reqid oneway timeout).

Lemma embedded_inner service method data reqid oneway timeout :
  0 < zlen data < max_protobuf_data_len ->
  inner_req service method data reqid oneway timeout = (embedded service method data reqid oneway timeout, false)
  /\ req_data (embedded service method data reqid oneway timeout) = Some data.
Proof.
  intros Hd. unfold embedded, inner_req.
  replace ((0 <? zlen data) && (zlen data <? max_protobuf_data_len)) with true
    by (symmetry; apply andb_true_iff; lia).
  cbn. split; reflexivity.
Qed.

Lemma embedded_fits service method data reqid oneway timeout :
  0 <= timeout < 2 ^ 32 -> req_fits (embedded service method data reqid oneway timeout).
Proof. intros Ht. split; [split; cbn; discriminate || reflexivity | exact Ht]. Qed.

(** A successful [sendReq] has put exactly the framed request on the wire. *)
Lemma sendReq_frame fuel elapsed service method data reqid oneway timeout c tx out c' tx' req hasBlob :
  inner_req service method data reqid oneway timeout = (req, hasBlob) ->
  ByteSize req + zlen data < 2 ^ 31 - 16 ->
  sendReq fuel elapsed service method data reqid oneway timeout c tx = Done (RPC_SEND_OK, out, c', tx') ->
  out = Some <$> frame (request_payload req (if hasBlob then data else [])).
Proof.
  intros Hreq Hsz. unfold sendReq. rewrite (out_data_bytes _ _ _ _ _ _ _ _ Hreq Hsz). cbn [outcome_bind].
  set (payload := request_payload req _).
  assert (Hlen : 4 <= zlen payload < 2 ^ 31 - 10).
  { unfold payload, request_payload. rewrite !zlen_app, zlen_put32. fold (ByteSize req).
    pose proof (zlen_nonneg (serialize req)) as Hs. fold (ByteSize req) in Hs. pose proof (zlen_nonneg data).
    destruct hasBlob; [|change (zlen (@nil ascii)) with 0]; lia. }
  unfold sendData. rewrite u32_small by lia.
  set (buf := (Some <$> put32 (zlen payload) ++ payload) ++ new_buffer 4).
  assert (Hbuf : zlen buf = 8 + zlen payload).
  { unfold buf. rewrite zlen_app, length_new_buffer by lia. unfold zlen.
    rewrite length_fmap, length_app, length_put32. lia. }
  pose proof (sendData_loop_prefix fuel 0 elapsed timeout buf (4 + zlen payload) 0 c tx
    ltac:(lia) ltac:(lia) ltac:(lia)) as Hp.
  intros Hsend. rewrite Hsend in Hp. destruct Hp as (n & Hn & -> & Hok).
  rewrite (proj1 Hok eq_refl). change (Z.to_nat 0) with 0%nat. rewrite drop_0. unfold buf.
  rewrite take_app_le by (rewrite length_fmap, length_app, length_put32; unfold zlen; lia).
  rewrite take_ge by (rewrite length_fmap, length_app, length_put32; unfold zlen; lia). reflexivity.
Qed.

(** The payload of a request whose data is inside it. *)
Lemma embedded_payload service method data reqid oneway timeout limit :
  4 + ByteSize (embedded service method data reqid oneway timeout) <= limit ->
  acceptable limit (request_payload (embedded service method data reqid oneway timeout) []).
Proof.
  intros Hl. pose proof (zlen_nonneg (serialize (embedded service method data reqid oneway timeout))).
  assert (Hp : zlen (request_payload (embedded service method data reqid oneway timeout) []) =
    4 + ByteSize (embedded service method data reqid oneway timeout))
    by (unfold request_payload; rewrite app_nil_r, zlen_app, zlen_put32; reflexivity).
  split; [|lia]. intros Hn. rewrite Hn in Hp. change (zlen (@nil ascii)) with 0 in Hp. unfold ByteSize in Hp. lia.
Qed.

(** The bytes of a successful [sendReq], arrived at a connection of the
    server: the request it hands out, and what of the connection is as it
    was. *)
Lemma sent_request_delivered fuel elapsed service method data reqid oneway timeout c tx out c' tx' seqid limit rx :
  0 < zlen data < max_protobuf_data_len ->
  ByteSize (embedded service method data reqid oneway timeout) + zlen data < 2 ^ 31 - 16 ->
  4 + ByteSize (embedded service method data reqid oneway timeout) <= limit < 2 ^ 32 ->
  sendReq fuel elapsed service method data reqid oneway timeout c tx = Done (RPC_SEND_OK, out, c', tx') ->
  data_only rx -> out = Some <$> rx_bytes rx ->
  exists conn,
    ServerConnProps.requests (rx_size rx) (S (rx_size rx)) (ServerConn.new_conn seqid limit) rx
      = Done ([delivered seqid (request_payload (embedded service method data reqid oneway timeout) [])], Some conn, []).
Proof.
  intros Hdata Hsz Hlimit Hsend Hrx Hwire.
  destruct (embedded_inner service method data reqid oneway timeout Hdata) as [Hinner _].
  set (req := embedded service method data reqid oneway timeout) in *.
  pose proof (zlen_nonneg (serialize req)) as Hs. fold (ByteSize req) in Hs.
  pose proof (sendReq_frame fuel elapsed service method data reqid oneway timeout c tx out c' tx' req false
    Hinner Hsz Hsend) as Hout.
  rewrite Hwire in Hout. apply (inj (fmap Some)) in Hout. cbn [request_payload] in Hout.
  set (payload := request_payload req []) in *.
  assert (Hpl : zlen payload = 4 + ByteSize req)
    by (unfold payload, request_payload; rewrite app_nil_r, zlen_app, zlen_put32; reflexivity).
  apply (ServerConnProps.requests_deliver (rx_size rx) (S (rx_size rx)) [payload]
    (ServerConn.new_conn seqid limit) [] rx); [| lia | lia].
  split; try assumption; [apply ServerConnProps.at_start; reflexivity | reflexivity | apply Hlimit | |].
  - apply Forall_singleton. split; [|change (zlen payload <= limit); lia]. intros Hn. rewrite Hn in Hpl.
    change (zlen (@nil ascii)) with 0 in Hpl. lia.
  - change (rx_bytes rx = frame payload ++ []). rewrite app_nil_r. exact Hout.
Qed.

(** The worker's run of it. *)
Lemma run_embedded service method data reqid oneway timeout seqid t w s own :
  0 < zlen data < max_protobuf_data_len -> 0 <= timeout < 2 ^ 32 ->
  ByteSize (embedded service method data reqid oneway timeout) + zlen data < 2 ^ 31 - 16 ->
  m_srvmap w !! service = Some {| pSrv := Some s; owner := own |} ->
  run (delivered seqid (request_payload (embedded service method data reqid oneway timeout) [])) true t w =
  run_service s (embedded service method data reqid oneway timeout) data
    (new_broker seqid reqid (negb oneway) false) seqid t
    (put_server (ServerStatus.calcReqQTime (Z.max 0 (queue_ms t)) (m_server w)) w).
Proof.
  intros Hdata Ht Hsz Hsrv. destruct (embedded_inner service method data reqid oneway timeout Hdata) as [_ Hreq].
  set (req := embedded service method data reqid oneway timeout) in *. pose proof (zlen_nonneg data).
  rewrite (run_request req [] (delivered seqid (request_payload req [])) t w s own);
    [ | apply embedded_fits, Ht | change (zlen (@nil ascii)) with 0; lia | reflexivity | reflexivity | reflexivity | exact Hsrv].
  rewrite Hreq. destruct oneway; reflexivity.
Qed.


(** Data of 10 MB or more does not arrive.  It travels after the message,
    but the worker takes it from right after the header length: the method
    gets the bytes of the message first and loses as many at the end. *)
Theorem blob_data_is_shifted service method data reqid oneway timeout pkg t w s own
    (Hdata : max_protobuf_data_len <= zlen data) (Ht : 0 <= timeout < 2 ^ 32)
    (Hsz : ByteSize (fst (inner_req service method data reqid oneway timeout)) + zlen data < 2 ^ 31 - 16)
    (Hpkg : pkg = delivered (rq_connection_id pkg)
                    (request_payload (fst (inner_req service method data reqid oneway timeout)) data))
    (Hsrv : m_srvmap w !! service = Some {| pSrv := Some s; owner := own |}) :
  let req := fst (inner_req service method data reqid oneway timeout) in
  run pkg true t w =
  run_service s req (take (length data) (serialize req ++ data))
    (new_broker (rq_connection_id pkg) reqid (negb oneway) false) (rq_connection_id pkg) t
    (put_server (ServerStatus.calcReqQTime (Z.max 0 (queue_ms t)) (m_server w)) w).
Proof.
  intros req. pose proof (zlen_nonneg (serialize req)) as Hs. fold (ByteSize req) in Hs. fold req in Hsz, Hpkg.
  assert (Hnone : req_data req = None).
  { unfold req, inner_req. replace ((0 <? zlen data) && (zlen data <? max_protobuf_data_len)) with false
      by (symmetry; apply andb_false_iff; lia). reflexivity. }
  rewrite (run_request req data pkg t w s own).
  - rewrite Hnone. destruct oneway; reflexivity.
  - split; [split; discriminate || reflexivity | exact Ht].
  - lia.
  - rewrite Hpkg. reflexivity.
  - rewrite Hpkg. reflexivity.
  - rewrite Hpkg. reflexivity.
  - exact Hsrv.
Qed.

(** The package of a method that allocates room for its data, writes it and
    sets its status. *)
Definition answer (b : RpcRespBroker) (d : bytes) (rs : RpcStatus) : outcome RpcRespBroker :=
  let! (p, b) := allocRespBuf (zlen d) b in
  let! b := write_pkg p d b in
  setReturnVal rs b.

(** The payload of a response. *)
Definition response_payload (resp : RpcInnerResp) (d : bytes) (rs : RpcStatus) : bytes :=
  put32 (ByteSize resp) ++ serialize resp ++ d ++ put32 (status_num rs).

Lemma zlen_response_payload resp d rs : zlen (response_payload resp d rs) = 8 + ByteSize resp + zlen d.
Proof. unfold response_payload. rewrite !zlen_app, !zlen_put32. fold (ByteSize resp). lia. Qed.

(** The package of a broker that has been filled in is the framed payload. *)
Lemma allocated_pkg b d rs :
  getRespPkg (allocated b (Some <$> d) (Some <$> put32 (status_num rs))) =
  Some {| rs_data := Some <$> frame (response_payload (m_resp_proto b) d rs);
          rs_data_len := zlen (frame (response_payload (m_resp_proto b) d rs)) |}.
Proof.
  unfold getRespPkg, allocated. cbn [m_resp_pkg put_positions put_pkg]. unfold response_header, frame.
  replace (zlen (Some <$> d)) with (zlen d) by (unfold zlen; rewrite length_fmap; reflexivity).
  rewrite zlen_app, zlen_response_payload. change (zlen (put32 _)) with 4. unfold response_payload.
  rewrite <- !fmap_app, <- !app_assoc. do 2 f_equal. lia.
Qed.

Lemma answer_spec conn_id reqid needResp d rs :
  ByteSize {| resp_version := RPCFRAME_VER; resp_request_id := reqid |} + zlen d < 2 ^ 31 - 16 ->
  let b0 := new_broker conn_id reqid needResp false in
  answer b0 d rs = Done (allocated b0 (Some <$> d) (Some <$> put32 (status_num rs))).
Proof.
  intros Hsz b0. pose proof (zlen_nonneg d). unfold answer.
  rewrite allocRespBuf_spec; [|reflexivity | lia |].
  2:{ change (m_resp_proto b0) with {| resp_version := RPCFRAME_VER; resp_request_id := reqid |}. lia. }
  cbn [outcome_bind]. rewrite fill_spec by (rewrite length_new_buffer; lia). cbn [outcome_bind].
  apply setReturnVal_spec; reflexivity.
Qed.

(** A response at the client, in any segments. *)
Lemma response_received reqid d rs rx fd :
  ByteSize {| resp_version := RPCFRAME_VER; resp_request_id := reqid |} + zlen d < 2 ^ 31 - 16 ->
  data_only rx -> rx_bytes rx = frame (response_payload {| resp_version := RPCFRAME_VER; resp_request_id := reqid |} d rs) ->
  exists conn pkg,
    received (rx_size rx) (S (rx_size rx)) (put_fd fd new_client_conn) rx = Done ([pkg], Some conn, []) /\
    client_response pkg = Done (Some (reqid, status_num rs, d)).
Proof.
  set (resp := {| resp_version := RPCFRAME_VER; resp_request_id := reqid |}). intros Hsz Hrx Hbytes.
  pose proof (zlen_nonneg d) as Hd. pose proof (zlen_nonneg (serialize resp)) as Hs. fold (ByteSize resp) in Hs.
  pose proof (zlen_response_payload resp d rs) as Hlen. set (payload := response_payload resp d rs) in *.
  destruct (ClientConnProps.received_deliver (rx_size rx) (S (rx_size rx)) [payload]
    (put_fd fd new_client_conn) (ServerConn.new_conn "" (2 ^ 32 - 1)) [] rx) as (conn & Hrec);
    [apply ClientConnProps.sim_fresh | | lia | lia |].
  { split; try assumption; try reflexivity; [apply ServerConnProps.at_start; reflexivity | |].
    - apply Forall_singleton. split; [|change (zlen payload <= 2 ^ 32 - 1); lia].
      intros Hn. rewrite Hn in Hlen. change (zlen (@nil ascii)) with 0 in Hlen. lia.
    - change (rx_bytes rx = frame payload ++ []). rewrite app_nil_r. exact Hbytes. }
  exists conn, (delivered_response payload). split; [exact Hrec|].
  apply (client_response_spec resp d rs); [split; discriminate || reflexivity | lia].
Qed.

(** A response arrives.  Take a broker of an RPC request, data written
    through the pointer [allocRespBuf] gave, and the status set: when the
    bytes of the package arrive at the client in any segments, the client gets
    exactly one response, and finds in it the request id of the broker, the
    status and the data. *)
Theorem response_arrives conn_id reqid needResp d rs rx fd
    (Hsz : ByteSize {| resp_version := RPCFRAME_VER; resp_request_id := reqid |} + zlen d < 2 ^ 31 - 16)
    (Hrx : data_only rx)
    (Hwire : forall b p, answer (new_broker conn_id reqid needResp false) d rs = Done b ->
       getRespPkg b = Some p -> rs_data p = Some <$> rx_bytes rx) :
  exists b p conn pkg, answer (new_broker conn_id reqid needResp false) d rs = Done b /\
    getRespPkg b = Some p /\ rs_data_len p = zlen (rs_data p) /\
    received (rx_size rx) (S (rx_size rx)) (put_fd fd new_client_conn) rx = Done ([pkg], Some conn, []) /\
    client_response pkg = Done (Some (reqid, status_num rs, d)).
Proof.
  pose proof (answer_spec conn_id reqid needResp d rs Hsz) as Hans. cbv zeta in Hans.
  pose proof (allocated_pkg (new_broker conn_id reqid needResp false) d rs) as Hp. specialize (Hwire _ _ Hans Hp).
  apply (inj (fmap Some)) in Hwire.
  destruct (response_received reqid d rs rx fd Hsz Hrx (eq_sym Hwire)) as (conn & pkg & Hrec & Hread).
  do 2 eexists. exists conn, pkg. split; [exact Hans|]. split; [exact Hp|]. split; [|split; assumption].
  cbn [rs_data rs_data_len]. unfold zlen. rewrite length_fmap. reflexivity.
Qed.

(** The worker trusts the inner length of a request: a package whose
    first word is larger than what follows it makes the parser read past the
    end of the package. *)
Theorem inner_length_not_checked pkg has_worker t w b len
    (Hdata : rq_data pkg = Some <$> b) (Hlen : get32 b = Some len) (Hbig : zlen b < 4 + len) :
  run pkg has_worker t w = Stuck OutOfBounds.
Proof.
  pose proof (get32_range _ _ Hlen) as Hr. unfold run. rewrite Hdata.
  assert (Hl : 4 <= zlen b).
  { destruct b as [|? [|? [|? [|? b]]]]; try discriminate. rewrite !zlen_cons. pose proof (zlen_nonneg b). lia. }
  rewrite (load32_some b 0 len); [|lia | lia |].
  - cbn [outcome_bind]. unfold bytes_at. replace (zlen (Some <$> b)) with (zlen b)
      by (unfold zlen; rewrite length_fmap; reflexivity).
    replace (_ || (zlen b <? 4 + len)) with true by (symmetry; apply orb_true_iff; right; lia). reflexivity.
  - destruct b as [|? [|? [|? [|? b]]]]; try discriminate. exact Hlen.
Qed.
End Properties.

(** * Examples *)

Definition sample_req : RpcInnerReq := embedded "calc" "add" (bs "1+2") "id1" false 10.
Definition sample_wire : bytes := frame (request_payload sample_req []).
Definition sample_request_rx : list rx_event :=
  [RxData (take 3 sample_wire); RxData (take 20 (drop 3 sample_wire)); RxData (drop 23 sample_wire)].


Definition sample_response_wire : bytes :=
  frame (put32 (ByteSize {| resp_version := RPCFRAME_VER; resp_request_id := "id1" |})
    ++ serialize {| resp_version := RPCFRAME_VER; resp_request_id := "id1" |} ++ bs "3" ++ put32 8).

Lemma response_arrives_witness :
  exists b p conn pkg, answer (new_broker "c1" "id1" true false) (bs "3") RPC_SERVER_OK = Done b /\
    getRespPkg b = Some p /\ rs_data_len p = zlen (rs_data p) /\
    received (rx_size [RxData (take 5 sample_response_wire); RxData (drop 5 sample_response_wire)])
      (S (rx_size [RxData (take 5 sample_response_wire); RxData (drop 5 sample_response_wire)]))
      (put_fd 5 new_client_conn)
      [RxData (take 5 sample_response_wire); RxData (drop 5 sample_response_wire)] = Done ([pkg], Some conn, []) /\
    client_response pkg = Done (Some ("id1"%string, status_num RPC_SERVER_OK, bs "3")).
Proof.
  apply (response_arrives "c1" "id1" true (bs "3") RPC_SERVER_OK).
  - vm_compute. reflexivity.
  - repeat constructor.
  - intros b p Hb. vm_compute in Hb. injection Hb as <-. cbn [getRespPkg m_resp_pkg]. intros [= <-].
    vm_compute. reflexivity.
Defined.

Lemma inner_length_not_checked_witness :
  run (delivered "c1" (put32 100 ++ bs "short")) true {| queue_ms := 0; call_ms := 0; age_s := 0 |}
    (mk_worker ∅ ServerStatus.new_counters) = Stuck OutOfBounds.
Proof.
  apply (inner_length_not_checked _ true _ _ (put32 100 ++ bs "short") 100); reflexivity.
Defined.

(** Ten megabytes of data, never evaluated. *)
Definition big_data : bytes := replicate (Z.to_nat (10 * 1024 * 1024)) "x"%char.

Lemma zlen_big_data : zlen big_data = 10 * 1024 * 1024.
Proof. unfold big_data, zlen. rewrite length_replicate. rewrite Z2Nat.id; [reflexivity | discriminate]. Qed.

Lemma blob_inner service method data reqid oneway timeout :
  max_protobuf_data_len <= zlen data ->
  fst (inner_req service method data reqid oneway timeout) =
  {| req_version := RPCFRAME_VER; req_service_name := service; req_method_name := method;
     req_request_id := reqid; req_type := if oneway then ONE_WAY else TWO_WAY;
     req_timeout := timeout; req_data := None |}.
Proof.
  intros Hd. unfold inner_req. replace ((0 <? zlen data) && (zlen data <? max_protobuf_data_len)) with false
    by (symmetry; apply andb_false_iff; lia). reflexivity.
Qed.

Definition echo_service : IServiceImpl :=
  add_method "echo" (fun d b => Done (RPC_SERVER_OK, b, [])) false ∅.
Definition echo_worker : RpcWorker :=
  addService "s" (Some echo_service) true (mk_worker ∅ ServerStatus.new_counters).
Definition big_req : RpcInnerReq := fst (inner_req "s" "echo" big_data "id1" false 10).

Lemma blob_data_is_shifted_witness :
  run (delivered "c1" (request_payload big_req big_data)) true {| queue_ms := 0; call_ms := 0; age_s := 0 |} echo_worker
  = run_service echo_service big_req (take (length big_data) (serialize big_req ++ big_data))
      (new_broker "c1" "id1" (negb false) false) "c1" {| queue_ms := 0; call_ms := 0; age_s := 0 |}
      (put_server (ServerStatus.calcReqQTime (Z.max 0 0) (m_server echo_worker)) echo_worker).
Proof.
  apply (blob_data_is_shifted "s" "echo" big_data "id1" false 10
    (delivered "c1" (request_payload big_req big_data)) {| queue_ms := 0; call_ms := 0; age_s := 0 |}
    echo_worker echo_service true).
  - rewrite zlen_big_data. discriminate.
  - split; [discriminate | reflexivity].
  - rewrite blob_inner by (rewrite zlen_big_data; discriminate). rewrite zlen_big_data. reflexivity.
  - reflexivity.
  - reflexivity.
Defined.
