(* ===== verification/HttpConnProps.v ===== *)
(** What [RpcServerHttpConn] guarantees: a [POST] request becomes exactly one
    package, which the worker reads as a call of the service and method its
    path names, with its body - the first time; the URL and the body of a
    connection are never cleared, so that the next request is read as the
    continuation of the one before it. *)
From Stdlib Require Import ZArith Lia Bool List String Ascii.
From stdpp Require Import base list strings gmap.
From S2P Require Import Prelude HttpChars HttpTypes HttpUrl HttpExec HttpExecSafe HttpRecord HttpCases HttpSafe HttpContract HttpStream HttpStreamByte HttpSegments HttpPost HttpGet Wire SampleCodec Socket Stats HttpConn HttpConnSim RespBroker Service RoundTrip.
From S2P Require ServerConn.
Import ServerConn(is_connected, m_seqid, new_conn).

(** * The socket *)

(** Bytes that arrive in any segments, with any interruptions. *)
Definition arrives (rx : list rx_event) : Prop :=
  Forall (fun e => match e with RxClosed | RxError => False | _ => True end) rx.

Lemma recv_arrives n rx r rx' :
  0 < n -> arrives rx -> recv n rx = (r, rx') ->
  arrives rx' /\ ((rx_size rx' < rx_size rx)%nat \/ rx = [] /\ rx' = []) /\
  match r with
  | Received b => 0 < zlen b <= n /\ rx_bytes rx = b ++ rx_bytes rx'
  | Again | Interrupted => rx_bytes rx = rx_bytes rx'
  | _ => False
  end.
Proof.
  intros Hn Ha Hr.
  assert (Hrest : arrives rx' /\ ((rx_size rx' < rx_size rx)%nat \/ rx = [] /\ rx' = []) /\
    match r with Closed | RecvError => False | _ => True end).
  { revert Hr. induction Ha as [|e rx He Ha IH]; cbn [recv]; [intros [= <- <-]; split_and!; auto; constructor|].
    destruct e as [[|c b]| | | |]; try contradiction.
    - intros Hr. destruct (IH Hr) as (H1 & H2 & H3). split_and!; auto. left. cbn [rx_size length].
      destruct H2 as [H2|[-> ->]]; [lia | cbn; lia].
    - destruct (zlen (c :: b) <=? n) eqn:Hle; intros [= <- <-].
      + split_and!; auto. left. cbn [rx_size]. lia.
      + split_and!; [constructor; auto | | exact I]. left. cbn [rx_size]. rewrite length_drop.
        apply Z.leb_gt in Hle. unfold zlen in Hle. lia.
    - intros [= <- <-]. split_and!; auto.
    - intros [= <- <-]. split_and!; auto. }
  destruct Hrest as (H1 & H2 & H3). split_and!; auto. destruct r as [b| | | |]; try contradiction.
  - apply recv_received in Hr as (H4 & H5 & _); auto.
  - apply recv_other in Hr as [H4 _]; [exact H4 | discriminate].
  - apply recv_other in Hr as [H4 _]; [exact H4 | discriminate].
Qed.

(** * Connections and traces *)

Lemma conn_of_parser x c0 t : conn_of (put_http_parser x c0) t = put_http_parser x (conn_of c0 t).
Proof.
  induction t as [|[[] b|[] y] t IH]; cbn [conn_of]; rewrite ?IH; try reflexivity.
  - unfold headers_complete_cb. destruct (eqb _ HTTP_GET), (_ && _); reflexivity.
  - destruct (body_head t); reflexivity.
Qed.

Lemma conn_of_base c0 t : m_base (conn_of c0 t) = m_base c0.
Proof.
  induction t as [|[f b|n y] t IH]; [reflexivity|destruct f; exact IH|].
  destruct n; try exact IH; cbn [conn_of].
  - unfold headers_complete_cb. destruct (eqb (hp_method y) HTTP_GET), (_ && _); exact IH.
  - destruct (body_head t); exact IH.
Qed.

(** Before the end of a request, the connection neither has a whole body nor
    has given up. *)
Lemma quiet_flags c0 t :
  m_is_body_final c0 = false -> m_parse_fail c0 = false -> quiet t = true ->
  m_is_body_final (conn_of c0 t) = false /\ m_parse_fail (conn_of c0 t) = false.
Proof.
  intros Hf Hp. induction t as [|e t IH]; [auto|]. cbn [quiet forallb]. intros [He Ht]%andb_prop.
  destruct (IH Ht) as [H1 H2]. destruct e as [[] b|[] y]; cbn [conn_of]; try discriminate; auto.
  cbn [ev_quiet] in He. apply andb_prop in He as [Hm%bool_decide_eq_true Hc%negb_true_iff].
  unfold headers_complete_cb, eqb. rewrite Hm, Hc.
  rewrite (bool_decide_false (HTTP_POST = HTTP_GET)), andb_false_r by discriminate. auto.
Qed.

Lemma header_trace_conn c0 hs t : conn_of c0 (header_trace hs ++ t) = conn_of c0 t.
Proof. unfold header_trace. induction (rev hs) as [|h l IH]; [reflexivity | exact IH]. Qed.

(** What a whole request leaves in the connection. *)
Lemma request_conn c0 path body t :
  m_parse_fail c0 = false -> call_trace path body t ->
  m_base (conn_of c0 t) = m_base c0 /\ m_url (conn_of c0 t) = m_url c0 ++ (bs "/" ++ path) /\
  m_body (conn_of c0 t) = m_body c0 ++ body /\ m_is_body_final (conn_of c0 t) = true /\ m_parse_fail (conn_of c0 t) = false.
Proof.
  intros Hp [hs1 len hs2 b y1 y2 y3 Hm Hc Hb | hs y1 y2 y3 Hm]; cbn [conn_of body_head]; unfold head_trace, headers_complete_cb;
    cbn [conn_of body_head]; unfold headers_complete_cb; rewrite Hm, ?Hc, ?(zlen_nonempty body) by exact Hb; unfold eqb.
  - rewrite zlen_nonempty by exact Hb. rewrite (bool_decide_false (HTTP_POST = HTTP_GET)), andb_false_r by discriminate.
    rewrite header_trace_conn. change (header_events (bs "Content-Length", len)) with (header_trace [(bs "Content-Length", len)]).
    rewrite !header_trace_conn. cbn. auto.
  - rewrite (bool_decide_false (HTTP_GET = HTTP_POST)) by discriminate. cbn [andb].
    rewrite header_trace_conn. cbn. rewrite app_nil_r. auto.
Qed.

(** * Inside a request *)

Section Request.
(** The parser and the connection before the request. *)
Variable x0 : http_parser.
Variable c0 : RpcServerHttpConn.

(** The connection when the bytes [pre] of the request have been received. *)
Record at_point (pre : bytes) (t : trace) (c : RpcServerHttpConn) : Prop := {
  ap_fed : exists x1, feed_bytes x0 [] pre = Some (x1, t) /\ alike (m_http_parser c) x1 /\ parser_wf x1;
  ap_wf : parser_wf (m_http_parser c);
  ap_ok : errno_ok (m_http_parser c) = true;
  ap_type : hp_type (m_http_parser c) = HTTP_REQUEST;
  ap_side : request_state (hp_state (m_http_parser c)) = true;
  ap_settled : settled (hp_state (m_http_parser c)) = true;
  ap_conn : c = put_http_parser (m_http_parser c) (conn_of c0 t)
}.

(** The next piece of the request. *)
Lemma receive_piece pre t c d x2 t2 :
  at_point pre t c -> d <> [] -> zlen d < 2 ^ 31 -> feed_bytes x0 [] (pre ++ d) = Some (x2, t2) ->
  exists y c2, http_parser_execute m_setting (m_http_parser c) c d = Returned y c2 (zlen d) /\
    hp_upgrade y = false /\ alike y x2 /\ at_point (pre ++ d) t2 (put_http_parser y c2).
Proof.
  intros [(x1 & Hf1 & Hal & Hw1) Hwf Hok Ht Hr Hs Hc] Hd Hlen Hf. pose proof Hf as Hf2. rewrite feed_bytes_app, Hf1 in Hf2.
  pose proof (proj1 (errno_ok_spec _) Hok) as Hok'. destruct (alike_fields _ _ (proj1 Hal)) as (He1 & _).
  destruct (pieces_of_bytes [d] x1 (m_http_parser c) t x2 t2) as (y & Hy & Haly); try assumption; try congruence.
  { constructor; [exact Hd | constructor]. }
  { cbn [concat]. rewrite app_nil_r. exact Hlen. }
  { cbn [concat]. rewrite app_nil_r. exact Hf2. }
  destruct (whole_of_bytes d x1 t x2 t2 Hd Hlen Hw1 Hf2) as (_ & _ & Hw2 & _).
  apply feed_cons in Hy as (y' & t' & Hy & He & Hu & [= -> ->]).
  apply errno_ok_spec in He. set (x := m_http_parser c) in *.
  assert (Hrel : conn_rel (put_http_parser x c0) (hp_state x) t c).
  { apply settled_plain; [exact Hs|]. rewrite conn_of_parser. exact Hc. }
  destruct (execute_follows _ x t c d y t2 _ Ht Hr Hs Hrel Hy He) as (c2 & Hc2 & H1 & H2 & H3 & H4).
  apply settled_plain in H4; [|exact H3]. rewrite conn_of_parser in H4.
  exists y, c2. split; [exact Hc2|]. split; [exact Hu|]. split; [exact Haly|].
  split; cbn [m_http_parser put_http_parser]; try assumption; [exists x2; auto | |].
  - exact (execute_keeps_wf x t d y t2 _ Hwf Hlen Hy).
  - rewrite H4. reflexivity.
Qed.
End Request.

(** * The request package *)

Lemma service_method_split s m : index_of "/" s = None -> s <> [] ->
  zlen s + zlen m < 2 ^ 32 -> service_method (bs "/" ++ s ++ bs "/" ++ m) = Some (s, m).
Proof.
  intros Hs Hne Hlen. unfold service_method, find_char, substr.
  pose proof (zlen_nonneg s). pose proof (zlen_nonneg m).
  change (drop (Z.to_nat 1) (bs "/" ++ s ++ bs "/" ++ m)) with (s ++ bs "/" ++ m).
  assert (Hi : index_of "/" (s ++ bs "/" ++ m) = Some (length s)).
  { clear - Hs. induction s as [|c s IH]; [reflexivity|]. cbn [index_of List.app length] in *.
    destruct (Ascii.eqb _ c); [discriminate|].
    destruct (index_of "/" s); [discriminate|]. rewrite IH; reflexivity. }
  rewrite Hi. fold (zlen s). rewrite !zlen_app. change (zlen (bs "/")) with 1.
  rewrite !u64_small by lia. replace (1 + (zlen s + (1 + zlen m)) <? 1) with false by lia.
  replace (1 + (zlen s + (1 + zlen m)) <? 1 + zlen s + 1) with false by lia.
  do 2 f_equal.
  - change (drop (Z.to_nat 1) (bs "/" ++ s ++ bs "/" ++ m)) with (s ++ bs "/" ++ m).
    replace (Z.to_nat (1 + zlen s - 1)) with (length s) by (unfold zlen; lia). apply take_app_length.
  - replace (Z.to_nat (1 + zlen s + 1)) with (S (length s + 1)) by (unfold zlen; lia).
    change (drop (S (length s + 1)) (bs "/" ++ s ++ bs "/" ++ m)) with (drop (length s + 1) (s ++ bs "/" ++ m)).
    rewrite <- drop_drop, drop_app_length. change (drop 1 (bs "/" ++ m)) with m. apply take_ge. unfold zlen. lia.
Qed.

Section Package.
Context `{MessageCodecLaw RpcInnerReq req_fits} {CR : MessageCodec RpcInnerResp}.

(** The package [getRequest] makes of a URL that names [service] and [method]
    and a body. *)
Definition http_pkg (seqid : string) (service method body : bytes) : request_pkg :=
  let req := http_request service method body in
  {| rq_data := Some <$> request_payload req []; rq_data_len := ByteSize req; rq_connection_id := seqid; rq_is_from_http := true |}.

Lemma http_package_spec c service method :
  service_method (m_url c) = Some (service, method) -> ByteSize (http_request service method (m_body c)) < 2 ^ 31 ->
  http_package c = Done (http_pkg (m_seqid (m_base c)) service method (m_body c)).
Proof.
  intros Hu Hs. unfold http_package, http_pkg. rewrite Hu. cbn [need outcome_bind]. set (req := http_request _ _ _) in *.
  pose proof (zlen_nonneg (serialize req)) as H1. fold (ByteSize req) in H1.
  rewrite (u32_small (ByteSize req)), (u32_small (ByteSize req + 4)) by lia. cbn [new_request_pkg rq_data rq_connection_id].
  rewrite write_first by (rewrite zlen_put32; lia). cbn [need outcome_bind].
  rewrite write_next by (rewrite ?zlen_put32; fold (ByteSize req); lia). cbn [need outcome_bind].
  rewrite zlen_put32. fold (ByteSize req). replace (ByteSize req + 4 - 4 - ByteSize req) with 0 by lia.
  unfold request_payload. change (new_buffer 0) with (@nil (option ascii)). rewrite !app_nil_r. reflexivity.
Qed.

(** The worker's reading of it. *)
Lemma run_http seqid service method body t w s own :
  ByteSize (http_request service method body) < 2 ^ 31 ->
  m_srvmap w !! string_of_list_ascii service = Some {| pSrv := Some s; owner := own |} ->
  is_method_allow_http (string_of_list_ascii method) s = true ->
  run (http_pkg seqid service method body) true t w =
    run_service s (http_request service method body) body (new_broker seqid "http" true true) seqid t
      (put_server (ServerStatus.calcReqQTime (Z.max 0 (queue_ms t)) (m_server w)) w).
Proof.
  intros Hsz Hsrv Hallow. pose proof (zlen_nonneg (serialize (http_request service method body))) as Hs. set (req := http_request service method body) in *.
  assert (Hfit : req_fits req) by (split; [split; [discriminate | reflexivity] | split; [discriminate | reflexivity]]).
  assert (Hb : ByteSize req < 2 ^ 32) by lia. destruct (request_header req [] Hfit Hb) as (Hw & Hh & Hp).
  unfold run, http_pkg. fold req. cbn [rq_data rq_connection_id rq_is_from_http]. rewrite Hw. cbn [outcome_bind]. rewrite Hh. cbn [outcome_bind].
  rewrite Hp. change (req_service_name req) with (string_of_list_ascii service). change (req_method_name req) with (string_of_list_ascii method).
  cbn [request_data req_data outcome_bind negb put_server m_srvmap]. rewrite Hsrv. cbn [pSrv need outcome_bind]. rewrite Hallow. reflexivity.
Qed.
End Package.

(** * Whole requests *)

Section Delivery.
Context `{MessageCodecLaw RpcInnerReq req_fits}.

(** [getRequest] called [calls] times, as [onDataIn] does once per event: the
    requests handed out, and the connection unless a call failed. *)
Fixpoint http_requests (calls : nat) (c : RpcServerHttpConn) (rx : list rx_event)
    : outcome (list request_pkg * option RpcServerHttpConn * list rx_event) :=
  match calls with
  | O => Done ([], Some c, rx)
  | S calls =>
      let! ((st, o), c, rx) := getRequest c rx in
      if st <? 0 then Done ([], None, rx)
      else
        let! (l, c, rx) := http_requests calls c rx in
        Done (match o with Some pkg => pkg :: l | None => l end, c, rx)
  end.

(** A connection between requests. *)
Record idle (c : RpcServerHttpConn) : Prop := {
  idle_parser : awaits_request (m_http_parser c);
  idle_wf : parser_wf (m_http_parser c);
  idle_connected : is_connected (m_base c) = true;
  idle_final : m_is_body_final c = false;
  idle_fail : m_parse_fail c = false
}.

Lemma idle_at_point c : idle c -> at_point (m_http_parser c) c [] [] c.
Proof.
  intros [(Ht & Hs & _ & _ & _ & He & _) Hw _ _ _]. split; rewrite ?Hs; try reflexivity; try assumption.
  - exists (m_http_parser c). repeat split; auto; lia.
  - apply errno_ok_spec, He.
  - destruct c. reflexivity.
Qed.

(** Nothing more arrives. *)
Lemma http_requests_silent calls : forall c rx,
  is_connected (m_base c) = true -> arrives rx -> rx_bytes rx = [] -> (rx_size rx <= calls)%nat ->
  http_requests calls c rx = Done ([], Some c, []).
Proof.
  induction calls as [|calls IH]; intros c rx Hc Ha Hb Hsz; cbn [http_requests].
  - destruct rx as [|[] rx]; [reflexivity | cbn in Hsz; lia..].
  - unfold getRequest. rewrite Hc. cbn [negb]. destruct (recv 4096 rx) as [r rx'] eqn:Hr.
    destruct (recv_arrives 4096 rx r rx' eq_refl Ha Hr) as (Ha' & Hsz' & Hb').
    assert (Hd : (rx_size rx' <= calls)%nat) by (destruct Hsz' as [|[-> ->]]; cbn; lia).
    destruct r as [b| | | |]; try contradiction.
    + destruct Hb' as [Hlen Hb']. rewrite Hb in Hb'. destruct b; [unfold zlen in Hlen; cbn in Hlen; lia | discriminate].
    + cbn [outcome_bind Z.ltb Z.compare]. rewrite (IH c rx') by congruence. reflexivity.
    + cbn [outcome_bind Z.ltb Z.compare]. rewrite (IH c rx') by congruence. reflexivity.
Qed.

(** After a whole request: the connection is idle again, but keeps the URL and
    the body. *)
Definition after_request (c0 : RpcServerHttpConn) (path body : bytes) (c : RpcServerHttpConn) : Prop :=
  idle c /\ m_base c = m_base c0 /\ m_url c = m_url c0 ++ (bs "/" ++ path) /\ m_body c = m_body c0 ++ body.

Lemma awaits_alike y x : alike y x -> parser_wf y -> awaits_request x -> awaits_request y.
Proof.
  intros (Hc & Hn & Hs) Hw (H1 & H2 & H3 & H4 & H5 & H6 & H7).
  destruct (alike_fields _ _ Hc) as (He & Hu & Hl). unfold parser_wf in Hw. rewrite He, H6 in Hw. destruct Hw as (Hn0 & _).
  assert (hp_type y = hp_type x /\ hp_status_code y = hp_status_code x) as [Ht Hsc].
  { destruct x, y. unfold core in Hc. cbn in Hc |- *. injection Hc. auto. }
  split_and!; try congruence. lia.
Qed.

Section Calls.
Variable c0 : RpcServerHttpConn.
Variables path body request : bytes.
Variables (service method : bytes).
Hypothesis Hidle : idle c0.
Hypothesis Hok : http_call path body request.
Hypothesis Hurl : service_method (m_url c0 ++ (bs "/" ++ path)) = Some (service, method).
Hypothesis Hsize : ByteSize (http_request service method (m_body c0 ++ body)) < 2 ^ 31.
Notation x0 := (m_http_parser c0).

(** A piece that is not the last. *)
Lemma inner_piece pre d rest t c :
  at_point x0 c0 pre t c -> pre ++ d ++ rest = request -> d <> [] -> rest <> [] ->
  exists t' c', parse_received d c = Done ((0, None), c') /\ at_point x0 c0 (pre ++ d) t' c' /\ m_base c' = m_base c0.
Proof.
  intros Hat Hbytes Hd Hrest.
  destruct (run_call _ _ _ x0 Hok (idle_parser _ Hidle)) as (init & b & x1 & t1 & x2 & t2 & Hreq & Hsteps & _).
  destruct (exists_last Hrest) as (rest' & b' & ->). rewrite Hreq, !app_assoc in Hbytes.
  apply app_inj_tail in Hbytes as [Hinit _]. rewrite <- Hinit in Hsteps.
  destruct (quiet_steps_prefix _ _ _ _ _ _ Hsteps eq_refl) as (x3 & t3 & Hs3 & Hq). apply quiet_steps_feed in Hs3.
  pose proof (http_call_small _ _ _ Hok) as Hsm. rewrite Hreq, <- Hinit, !zlen_app in Hsm.
  pose proof (zlen_nonneg pre). pose proof (zlen_nonneg rest'). pose proof (zlen_nonneg [b]).
  destruct (receive_piece x0 c0 pre t c d x3 t3 Hat Hd ltac:(lia) Hs3) as (y & c2 & He & Hu & _ & Hat').
  destruct (quiet_flags c0 t3 (idle_final _ Hidle) (idle_fail _ Hidle) Hq) as [Hf Hp].
  exists t3, (put_http_parser y c2). unfold parse_received. rewrite He, Hu, Z.eqb_refl. cbn [negb].
  rewrite zlen_nonempty by exact Hd.
  pose proof (ap_conn _ _ _ _ _ Hat') as Hconn. cbn [put_http_parser m_http_parser] in Hconn.
  replace (m_parse_fail (put_http_parser y c2)) with false by (rewrite Hconn; symmetry; exact Hp).
  replace (m_is_body_final (put_http_parser y c2)) with false by (rewrite Hconn; symmetry; exact Hf).
  split; [reflexivity|]. split; [exact Hat'|]. rewrite Hconn. apply conn_of_base.
Qed.

(** The whole request, byte by byte. *)
Lemma whole_request : exists x2 t2,
  feed_bytes x0 [] request = Some (x2, t2) /\ awaits_request x2 /\
  m_base (conn_of c0 t2) = m_base c0 /\ m_url (conn_of c0 t2) = m_url c0 ++ (bs "/" ++ path) /\
  m_body (conn_of c0 t2) = m_body c0 ++ body /\ m_is_body_final (conn_of c0 t2) = true /\ m_parse_fail (conn_of c0 t2) = false.
Proof.
  destruct (run_call _ _ _ x0 Hok (idle_parser _ Hidle)) as (init & b & x1 & t1 & x2 & t2 & Hreq & Hsteps & Hr & Htr & Hx2).
  exists x2, t2. split; [|split; [exact Hx2 | exact (request_conn c0 path body t2 (idle_fail _ Hidle) Htr)]].
  rewrite Hreq, feed_bytes_app, (quiet_steps_feed _ _ _ _ _ Hsteps). unfold feed_bytes. cbn [map].
  destruct Hx2 as (_ & _ & _ & _ & _ & He & Hu). rewrite (feed_next _ _ [b] [] x2 _ Hr He Hu). reflexivity.
Qed.

(** The last piece. *)
Lemma last_piece pre d t c :
  at_point x0 c0 pre t c -> pre ++ d = request -> d <> [] ->
  exists c', parse_received d c = Done ((0, Some (http_pkg (m_seqid (m_base c0)) service method (m_body c0 ++ body))), c') /\
    after_request c0 path body c'.
Proof.
  intros Hat Hbytes Hd. destruct whole_request as (x2 & t2 & Hall & Hx2 & Hbase & Hcu & Hcb & Hf & Hp).
  pose proof (http_call_small _ _ _ Hok) as Hsm. rewrite <- Hbytes in Hall, Hsm. rewrite zlen_app in Hsm. pose proof (zlen_nonneg pre).
  destruct (receive_piece x0 c0 pre t c d x2 t2 Hat Hd ltac:(lia) Hall) as (y & c2 & He & Hu & Hal & Hat').
  pose proof (ap_conn _ _ _ _ _ Hat') as Hconn. pose proof (ap_wf _ _ _ _ _ Hat') as Hwf. cbn [put_http_parser m_http_parser] in Hconn, Hwf.
  unfold parse_received. rewrite He, Hu, Z.eqb_refl. cbn [negb].
  rewrite zlen_nonempty by exact Hd.
  rewrite Hconn. cbn [put_http_parser m_parse_fail m_is_body_final]. rewrite Hp, Hf. clear Hat Hat' Hall Hconn He Hsm Hbytes.
  set (c3 := bodyFinal false _).
  assert (Hc3 : after_request c0 path body c3).
  { unfold after_request, c3. cbn [bodyFinal put_http_parser m_url m_body m_base]. split_and!; try assumption.
    split; cbn [bodyFinal put_http_parser m_http_parser m_base m_is_body_final m_parse_fail];
      [exact (awaits_alike _ _ Hal Hwf Hx2) | exact Hwf | rewrite Hbase; apply Hidle | reflexivity | exact Hp]. }
  clearbody c3. destruct Hc3 as (Hc1 & Hc2 & Hc3 & Hc4). exists c3. split; [|split_and!; assumption].
  rewrite (http_package_spec c3 service method), Hc2, Hc4; rewrite ?Hc3, ?Hc4; auto.
Qed.

Lemma http_requests_deliver calls : forall pre t c rx,
  at_point x0 c0 pre t c -> m_base c = m_base c0 -> arrives rx -> pre ++ rx_bytes rx = request -> rx_bytes rx <> [] ->
  (rx_size rx <= calls)%nat ->
  exists c', http_requests calls c rx = Done ([http_pkg (m_seqid (m_base c0)) service method (m_body c0 ++ body)], Some c', []) /\
    after_request c0 path body c'.
Proof.
  pose proof (idle_connected _ Hidle) as Hconn.
  induction calls as [|calls IH]; intros pre t c rx Hat Hbase Ha Hbytes Hne Hsz; cbn [http_requests].
  - destruct rx as [|[] rx]; [contradiction | cbn in Hsz; lia..].
  - unfold getRequest. rewrite Hbase, Hconn. cbn [negb]. destruct (recv 4096 rx) as [r rx'] eqn:Hr.
    destruct (recv_arrives 4096 rx r rx' eq_refl Ha Hr) as (Ha' & Hsz' & Hb').
    assert (Hsize' : (rx_size rx' <= calls)%nat) by (destruct Hsz' as [|[-> ->]]; [lia | contradiction]).
    destruct r as [d| | | |]; try contradiction.
    + destruct Hb' as [Hlen Hb']. assert (Hd : d <> []) by (intros ->; unfold zlen in Hlen; cbn in Hlen; lia). rewrite Hb' in Hbytes.
      destruct (decide (rx_bytes rx' = [])) as [Hend | Hmore].
      * rewrite Hend, app_nil_r in Hbytes. destruct (last_piece pre d t c Hat Hbytes Hd) as (c' & -> & Hafter).
        cbn [outcome_bind Z.ltb Z.compare].
        rewrite (http_requests_silent calls c' rx') by (try assumption; destruct Hafter as (_ & -> & _); exact Hconn).
        exists c'. split; [reflexivity | exact Hafter].
      * destruct (inner_piece pre d (rx_bytes rx') t c Hat Hbytes Hd Hmore) as (t' & c1 & -> & Hat' & Hbase').
        cbn [outcome_bind Z.ltb Z.compare]. rewrite app_assoc in Hbytes.
        destruct (IH (pre ++ d) t' c1 rx' Hat' Hbase' Ha' Hbytes Hmore Hsize') as (c' & -> & Hafter).
        exists c'. split; [reflexivity | exact Hafter].
    + cbn [outcome_bind Z.ltb Z.compare]. rewrite Hb' in Hbytes, Hne.
      destruct (IH pre t c rx' Hat Hbase Ha' Hbytes Hne Hsize') as (c' & -> & Hafter). exists c'. split; [reflexivity | exact Hafter].
    + cbn [outcome_bind Z.ltb Z.compare]. rewrite Hb' in Hbytes, Hne.
      destruct (IH pre t c rx' Hat Hbase Ha' Hbytes Hne Hsize') as (c' & -> & Hafter). exists c'. split; [reflexivity | exact Hafter].
Qed.
End Calls.
End Delivery.

Lemma new_idle id max_req_size : idle (new_http_conn id max_req_size).
Proof. split; try reflexivity; [exact fresh_awaits | apply init_wf]. Qed.

(** A URL that names a method of a service. *)
Definition named_path (service method : bytes) : bytes := service ++ bs "/" ++ method.
Definition names_ok (service method : bytes) : Prop :=
  service <> [] /\ index_of "/" service = None /\ zlen service + zlen method < 2 ^ 31.

(** * Properties *)

Section Properties.
Context `{MessageCodecLaw RpcInnerReq req_fits} {CR : MessageCodec RpcInnerResp}.

(** A request on a new connection. *)
Lemma http_delivered id max_req_size service method body request rx :
  names_ok service method -> http_call (named_path service method) body request ->
  ByteSize (http_request service method body) < 2 ^ 31 -> arrives rx -> rx_bytes rx = request ->
  exists c', http_requests (rx_size rx) (new_http_conn id max_req_size) rx = Done ([http_pkg id service method body], Some c', []) /\
    after_request (new_http_conn id max_req_size) (named_path service method) body c'.
Proof.
  intros (Hne & Hidx & Hlen) Hok Hsize Hrx Hbytes. pose proof (zlen_nonneg service). pose proof (zlen_nonneg method).
  apply (http_requests_deliver (new_http_conn id max_req_size) (named_path service method) body request service method
    (new_idle id max_req_size) Hok (service_method_split service method Hidx Hne ltac:(lia)) Hsize (rx_size rx) [] [] _ rx
    (idle_at_point _ (new_idle id max_req_size)) eq_refl Hrx Hbytes); [|lia].
  rewrite Hbytes. exact (http_call_nonempty _ _ _ Hok).
Qed.

(** An HTTP call reaches its method.  A [POST] or [GET] request for
    [/service/method] with any other headers and any body, arriving in any
    segments and with any interruptions on a new connection, becomes exactly
    one package, and the worker that runs it calls that method of that service,
    where it allows HTTP, with the body as its data, for a broker that answers
    in HTTP on the same connection. *)
Theorem http_call_reaches_method id max_req_size service method body request rx
    (Hnames : names_ok service method) (Hok : http_call (named_path service method) body request)
    (Hsize : ByteSize (http_request service method body) < 2 ^ 31)
    (Hrx : arrives rx) (Hbytes : rx_bytes rx = request) :
  exists pkg c', http_requests (rx_size rx) (new_http_conn id max_req_size) rx = Done ([pkg], Some c', []) /\
    forall t w s own, m_srvmap w !! string_of_list_ascii service = Some {| pSrv := Some s; owner := own |} ->
      is_method_allow_http (string_of_list_ascii method) s = true ->
      run pkg true t w =
      run_service s (http_request service method body) body (new_broker id "http" true true) id t
        (put_server (ServerStatus.calcReqQTime (Z.max 0 (queue_ms t)) (m_server w)) w).
Proof.
  destruct (http_delivered id max_req_size _ _ _ _ rx Hnames Hok Hsize Hrx Hbytes) as (c' & Hc' & _).
  exists (http_pkg id service method body), c'. split; [exact Hc'|]. intros t w s own Hs Ha. exact (run_http id service method body t w s own Hsize Hs Ha).
Qed.

(** The connection does not forget a request.  After a first call
    [/service1/method1] with body [body1], a second well-formed request on the
    same connection for [/service2/method2] with body [body2] is handed out as
    a call of [service1], method [method1/service2/method2], with the data
    [body1] followed by [body2]: [m_url] and [m_body] are never cleared. *)
Theorem http_requests_run_together id max_req_size service1 method1 service2 method2 body1 request1 body2 request2 rx1 rx2
    (Hnames : names_ok service1 (method1 ++ bs "/" ++ named_path service2 method2))
    (Hok1 : http_call (named_path service1 method1) body1 request1) (Hok2 : http_call (named_path service2 method2) body2 request2)
    (Hsize1 : ByteSize (http_request service1 method1 body1) < 2 ^ 31)
    (Hsize2 : ByteSize (http_request service1 (method1 ++ bs "/" ++ named_path service2 method2) (body1 ++ body2)) < 2 ^ 31)
    (Hrx1 : arrives rx1) (Hbytes1 : rx_bytes rx1 = request1) (Hrx2 : arrives rx2) (Hbytes2 : rx_bytes rx2 = request2) :
  exists c1 c2,
    http_requests (rx_size rx1) (new_http_conn id max_req_size) rx1 = Done ([http_pkg id service1 method1 body1], Some c1, []) /\
    http_requests (rx_size rx2) c1 rx2 =
      Done ([http_pkg id service1 (method1 ++ bs "/" ++ named_path service2 method2) (body1 ++ body2)], Some c2, []).
Proof.
  destruct Hnames as (Hne & Hidx & Hlen). pose proof (zlen_nonneg service1). pose proof (zlen_nonneg method1).
  assert (Hlen1 : zlen service1 + zlen method1 < 2 ^ 32).
  { rewrite !zlen_app in Hlen. pose proof (zlen_nonneg (bs "/")). pose proof (zlen_nonneg (named_path service2 method2)). lia. }
  destruct (http_requests_deliver (new_http_conn id max_req_size) _ body1 request1 service1 method1
    (new_idle id max_req_size) Hok1 (service_method_split service1 method1 Hidx Hne Hlen1) Hsize1 (rx_size rx1) [] [] _ rx1
    (idle_at_point _ (new_idle id max_req_size)) eq_refl Hrx1 Hbytes1
    ltac:(rewrite Hbytes1; exact (http_call_nonempty _ _ _ Hok1)) ltac:(lia)) as (c1 & Hc1 & Hi1 & Hb1 & Hu1 & Hd1).
  cbn [new_http_conn m_url m_body m_base List.app] in Hu1, Hd1.
  destruct (http_requests_deliver c1 _ body2 request2 service1 (method1 ++ bs "/" ++ named_path service2 method2) Hi1 Hok2)
    with (calls := rx_size rx2) (pre := @nil ascii) (t := @nil event) (c := c1) (rx := rx2) as (c2 & Hc2 & _);
    try assumption; try reflexivity; rewrite ?Hd1; auto.
  - rewrite Hu1. unfold named_path at 1. rewrite <- !app_assoc.
    rewrite (service_method_split service1 (method1 ++ bs "/" ++ named_path service2 method2) Hidx Hne) by lia. reflexivity.
  - apply idle_at_point, Hi1.
  - rewrite Hbytes2. exact (http_call_nonempty _ _ _ Hok2).
  - exists c1, c2. split; [exact Hc1|]. rewrite Hc2, Hb1, Hd1. reflexivity.
Qed.
End Properties.

(** Two requests, the first cut inside its header, the second interrupted. *)
Definition first_rx : list rx_event := [RxData (take 30 sample_post); RxAgain; RxData (drop 30 sample_post)].
Definition second_post : bytes := post_request (bs "bank/pay") [] (bs "2") sample_headers (bs "99").
Definition second_rx : list rx_event := [RxIntr; RxData second_post].

Lemma first_call : http_call (named_path (bs "calc") (bs "add")) (bs "1+2=3") sample_post.
Proof. apply call_post, sample_post_ok. Qed.

Lemma second_post_ok : post_ok (bs "bank/pay") [] (bs "2") sample_headers (bs "99").
Proof. split; try (vm_compute; congruence); repeat constructor; vm_compute; congruence. Qed.

(** A [GET] request, cut inside its header. *)
Definition sample_get : bytes := get_request (bs "calc/add") sample_headers.
Definition get_rx : list rx_event := [RxData (take 20 sample_get); RxAgain; RxData (drop 20 sample_get)].

Lemma sample_get_ok : get_ok (bs "calc/add") sample_headers.
Proof. split; try (vm_compute; congruence); repeat constructor; vm_compute; congruence. Qed.

Lemma http_call_reaches_method_witness :
  exists pkg c', http_requests (rx_size get_rx) (new_http_conn "c1" 1000) get_rx = Done ([pkg], Some c', []) /\
    forall t w s own, m_srvmap w !! "calc"%string = Some {| pSrv := Some s; owner := own |} ->
      is_method_allow_http "add" s = true ->
      run pkg true t w =
      run_service s (http_request (bs "calc") (bs "add") []) [] (new_broker "c1" "http" true true) "c1" t
        (put_server (ServerStatus.calcReqQTime (Z.max 0 (queue_ms t)) (m_server w)) w).
Proof.
  apply (http_call_reaches_method "c1" 1000 (bs "calc") (bs "add") [] sample_get get_rx).
  - split; [discriminate | split; reflexivity].
  - exact (call_get _ _ sample_get_ok).
  - vm_compute. reflexivity.
  - repeat constructor.
  - vm_compute. reflexivity.
Defined.

Lemma http_requests_run_together_witness :
  exists c1 c2,
    http_requests (rx_size first_rx) (new_http_conn "c1" 1000) first_rx =
      Done ([http_pkg "c1" (bs "calc") (bs "add") (bs "1+2=3")], Some c1, []) /\
    http_requests (rx_size second_rx) c1 second_rx =
      Done ([http_pkg "c1" (bs "calc") (bs "add/bank/pay") (bs "1+2=399")], Some c2, []).
Proof.
  apply (http_requests_run_together "c1" 1000 (bs "calc") (bs "add") (bs "bank") (bs "pay") (bs "1+2=3") sample_post
    (bs "99") second_post first_rx second_rx).
  - split; [discriminate | split; reflexivity].
  - exact first_call.
  - exact (call_post _ _ _ _ _ second_post_ok).
  - vm_compute. reflexivity.
  - vm_compute. reflexivity.
  - repeat constructor.
  - vm_compute. reflexivity.
  - repeat constructor.
  - vm_compute. reflexivity.
Defined.

(** * Further behaviour *)

(** A URL with one part names a method that is the whole URL. *)
Lemma one_part_url s : index_of "/" s = None -> zlen s < 2 ^ 32 -> service_method (bs "/" ++ s) = Some (s, bs "/" ++ s).
Proof.
  intros Hs Hlen. unfold service_method, find_char, substr. pose proof (zlen_nonneg s).
  change (drop (Z.to_nat 1) (bs "/" ++ s)) with s. rewrite Hs, zlen_app. change (zlen (bs "/")) with 1.
  change (u64 (npos - 1)) with (2 ^ 64 - 2). change (u64 (npos + 1)) with 0.
  replace (1 + zlen s <? 1) with false by lia. replace (1 + zlen s <? 0) with false by lia.
  do 2 f_equal; apply take_ge; unfold zlen in *; cbn [length List.app bs list_ascii_of_string drop Z.to_nat]; lia.
Qed.

(** A body sent in chunks is never final: [body_cb] is not called in the state
    that ends the message, and the request is not handed out. *)
Definition chunked_post : bytes :=
  bs "POST /calc/add HTTP/1.1" ++ http_crlf ++ bs "Transfer-Encoding: chunked" ++ http_crlf ++ http_crlf ++
  bs "5" ++ http_crlf ++ bs "1+2=3" ++ http_crlf ++ bs "0" ++ http_crlf ++ http_crlf.

Lemma chunked_request_lost :
  match http_requests 3 (new_http_conn "c1" 1000) [RxData chunked_post] with
  | Done (pkgs, Some c, rx) => pkgs = [] /\ rx = [] /\ m_body c = bs "1+2=3" /\ hp_state (m_http_parser c) = s_start_req
  | _ => False
  end.
Proof. vm_compute. auto. Qed.
