(* ===== verification/CallBack.v ===== *)
(** The callbacks of the client: [RpcClientCallBack] of
    [client/src/RpcClient.cpp], and [RpcClientBlocker] of
    [client/include/RpcClientBlocker.h], the callback on which a synchronous
    call waits. *)
From Stdlib Require Import ZArith Lia Bool List String Ascii.
From stdpp Require Import base list strings.
From S2P Require Import Prelude Wire.

(** * Callbacks *)

(** [calls] records the calls of the user's [callback], the latest last: the
    status, which may be any word a peer sent, and the data. *)
Record RpcClientCallBack := mk_cb {
  m_type_mark : string;
  m_timeout : Z;                  (* uint32_t *)
  m_reqid : string;
  m_has_timeout : bool;
  m_is_done : bool;
  m_is_shared : bool;
  calls : list (Z * bytes)
}.

Definition new_callback : RpcClientCallBack := mk_cb "" 0 "" false false false [].

Definition setType (v : string) (c : RpcClientCallBack) : RpcClientCallBack :=
  mk_cb v (m_timeout c) (m_reqid c) (m_has_timeout c) (m_is_done c) (m_is_shared c) (calls c).
Definition setTimeout (v : Z) (c : RpcClientCallBack) : RpcClientCallBack :=
  mk_cb (m_type_mark c) v (m_reqid c) (m_has_timeout c) (m_is_done c) (m_is_shared c) (calls c).
Definition setReqId (v : string) (c : RpcClientCallBack) : RpcClientCallBack :=
  mk_cb (m_type_mark c) (m_timeout c) v (m_has_timeout c) (m_is_done c) (m_is_shared c) (calls c).
Definition markTimeout (c : RpcClientCallBack) : RpcClientCallBack :=
  mk_cb (m_type_mark c) (m_timeout c) (m_reqid c) true (m_is_done c) (m_is_shared c) (calls c).
Definition set_done (c : RpcClientCallBack) : RpcClientCallBack :=
  mk_cb (m_type_mark c) (m_timeout c) (m_reqid c) (m_has_timeout c) true (m_is_shared c) (calls c).
Definition setShared (v : bool) (c : RpcClientCallBack) : RpcClientCallBack :=
  mk_cb (m_type_mark c) (m_timeout c) (m_reqid c) (m_has_timeout c) (m_is_done c) v (calls c).
Definition isTimeout (c : RpcClientCallBack) : bool := m_has_timeout c.

(** The virtual [callback]. *)
Definition callback (status : Z) (resp_data : bytes) (c : RpcClientCallBack) : RpcClientCallBack :=
  mk_cb (m_type_mark c) (m_timeout c) (m_reqid c) (m_has_timeout c) (m_is_done c) (m_is_shared c)
    (calls c ++ [(status, resp_data)]).

(** [callback_safe], with the callback's mutex held. *)
Definition callback_safe (status : Z) (resp_data : bytes) (c : RpcClientCallBack) : RpcClientCallBack :=
  if m_is_shared c then callback status resp_data c
  else if negb (m_is_done c) then set_done (callback status resp_data c)
  else c.

(** * The blocker of a synchronous call *)

(** [m_cb_st] has no initial value. *)
Record RpcClientBlocker := mk_blocker {
  m_done : bool;
  m_resp_data : bytes;
  m_cb_st : option Z
}.

Definition new_blocker : RpcClientBlocker := mk_blocker false [] None.

(** Its [callback]. *)
Definition blocker_callback (status : Z) (resp_data : bytes) (b : RpcClientBlocker) : RpcClientBlocker :=
  mk_blocker true resp_data (Some status).

(** The blocker behind a callback object that was called as [calls] says. *)
Definition blocker_of (c : RpcClientCallBack) : RpcClientBlocker :=
  foldl (fun b call => blocker_callback (fst call) (snd call) b) new_blocker (calls c).

(** How the [wait_for] of [wait] ends: after [getTimeout()] seconds, or by a
    wake-up, with the blocker as it is then. *)
Inductive blocker_end := BlockerTimeout (b : RpcClientBlocker) | BlockerWoken (b : RpcClientBlocker).

(** [wait]: the status and [resp_data]; [None] is a status never written. *)
Definition wait (e : blocker_end) (b : RpcClientBlocker) : option Z * bytes :=
  if negb (m_done b) then
    match e with
    | BlockerTimeout b => (Some (status_num RPC_CB_TIMEOUT), m_resp_data b)
    | BlockerWoken b => (m_cb_st b, m_resp_data b)
    end
  else (m_cb_st b, m_resp_data b).

(** * Lemmas *)

(** A callback of its own has been called once when it is done, and never
    before. *)
Definition called_once (c : RpcClientCallBack) : Prop :=
  m_is_shared c = false /\ length (calls c) = (if m_is_done c then 1 else 0)%nat.

Lemma new_callback_once : called_once new_callback.
Proof. split; reflexivity. Qed.

Lemma callback_safe_once st d c :
  called_once c -> called_once (callback_safe st d c) /\ m_is_done (callback_safe st d c) = true.
Proof.
  intros [Hs Hl]. unfold callback_safe, called_once. rewrite Hs. destruct (m_is_done c) eqn:Hd; cbn.
  - rewrite Hd. auto.
  - rewrite Hs, length_app, Hl. auto.
Qed.

Lemma setReqId_once req_id c : called_once c -> called_once (setReqId req_id c).
Proof. intros H. exact H. Qed.

Lemma callback_safe_flags st d c :
  m_has_timeout (callback_safe st d c) = m_has_timeout c /\ m_is_shared (callback_safe st d c) = m_is_shared c.
Proof. unfold callback_safe. destruct (m_is_shared c) eqn:Hs, (m_is_done c) eqn:Hd; cbn; auto. Qed.

(** * Properties *)

(** A synchronous call that was not answered does not always report a
    timeout: [wait_for] has no predicate, so a spurious wake-up before the
    callback has run ends [wait] with the status field that nobody has
    written. *)
Theorem spurious_wakeup_reads_no_status (b : RpcClientBlocker)
    (Hnew : m_done b = false) (Hst : m_cb_st b = None) :
  fst (wait (BlockerWoken b) b) = None.
Proof. unfold wait. rewrite Hnew. exact Hst. Qed.

Lemma spurious_wakeup_reads_no_status_witness : fst (wait (BlockerWoken new_blocker) new_blocker) = None.
Proof. apply (spurious_wakeup_reads_no_status new_blocker); reflexivity. Defined.
