(* ===== verification/EventLooper.v ===== *)
(** [RpcEventLooper] of [client/src/RpcEventLooper.cpp]: the table of
    callbacks waiting for responses, the timers, the connections, and the
    steps of its loop; with [RpcClientWorker::run] and the calls of
    [RpcClient].

    [m_mutex] is taken and released inside the operations: each definition
    that runs under it is one atomic step, and an operation that takes it
    several times is split there.  Callback objects are shared between calls,
    the table and the workers, so they live in a heap, [m_heap], and a
    [std::shared_ptr] is an address in it. *)
From Stdlib Require Import ZArith Lia Bool List String Ascii.
From stdpp Require Import base list strings gmap pretty.
From S2P Require Import Prelude Wire Socket Queue CallBack ClientConn.

(** * State *)

Definition Endpoint : Type := string * Z.

(** [std::shared_ptr<RpcClientCallBack>] *)
Definition RpcCBPtr : Type := option nat.

(** A connection is known by its endpoint: [m_ep_conn_map] has one for each
    and never deletes one. *)
Record RpcEventLooper := mk_looper {
  m_heap : gmap nat RpcClientCallBack;
  m_id_cb_map : gmap string RpcCBPtr;
  m_conn_cb_map : gmap Endpoint (list RpcCBPtr);
  m_cb_timer_map : list (Z * string);       (* std::multimap, in its order *)
  m_req_seqid : Z;                          (* uint32_t *)
  m_ep_conn_map : gmap Endpoint RpcClientConn;
  m_eps : list Endpoint;                    (* of the client's configuration *)
  m_max_req_size : Z;
  m_epoll : gset Z;
  m_task_q : Queue response_pkg;            (* of m_thread_pool *)
  m_stop : bool
}.

Definition put_heap (v : gmap nat RpcClientCallBack) (l : RpcEventLooper) : RpcEventLooper :=
  mk_looper v (m_id_cb_map l) (m_conn_cb_map l) (m_cb_timer_map l) (m_req_seqid l) (m_ep_conn_map l) (m_eps l) (m_max_req_size l) (m_epoll l) (m_task_q l) (m_stop l).
Definition put_id_cb_map (v : gmap string RpcCBPtr) (l : RpcEventLooper) : RpcEventLooper :=
  mk_looper (m_heap l) v (m_conn_cb_map l) (m_cb_timer_map l) (m_req_seqid l) (m_ep_conn_map l) (m_eps l) (m_max_req_size l) (m_epoll l) (m_task_q l) (m_stop l).
Definition put_conn_cb_map (v : gmap Endpoint (list RpcCBPtr)) (l : RpcEventLooper) : RpcEventLooper :=
  mk_looper (m_heap l) (m_id_cb_map l) v (m_cb_timer_map l) (m_req_seqid l) (m_ep_conn_map l) (m_eps l) (m_max_req_size l) (m_epoll l) (m_task_q l) (m_stop l).
Definition put_cb_timer_map (v : list (Z * string)) (l : RpcEventLooper) : RpcEventLooper :=
  mk_looper (m_heap l) (m_id_cb_map l) (m_conn_cb_map l) v (m_req_seqid l) (m_ep_conn_map l) (m_eps l) (m_max_req_size l) (m_epoll l) (m_task_q l) (m_stop l).
Definition put_req_seqid (v : Z) (l : RpcEventLooper) : RpcEventLooper :=
  mk_looper (m_heap l) (m_id_cb_map l) (m_conn_cb_map l) (m_cb_timer_map l) v (m_ep_conn_map l) (m_eps l) (m_max_req_size l) (m_epoll l) (m_task_q l) (m_stop l).
Definition put_ep_conn_map (v : gmap Endpoint RpcClientConn) (l : RpcEventLooper) : RpcEventLooper :=
  mk_looper (m_heap l) (m_id_cb_map l) (m_conn_cb_map l) (m_cb_timer_map l) (m_req_seqid l) v (m_eps l) (m_max_req_size l) (m_epoll l) (m_task_q l) (m_stop l).
Definition put_eps (v : list Endpoint) (l : RpcEventLooper) : RpcEventLooper :=
  mk_looper (m_heap l) (m_id_cb_map l) (m_conn_cb_map l) (m_cb_timer_map l) (m_req_seqid l) (m_ep_conn_map l) v (m_max_req_size l) (m_epoll l) (m_task_q l) (m_stop l).
Definition put_epoll (v : gset Z) (l : RpcEventLooper) : RpcEventLooper :=
  mk_looper (m_heap l) (m_id_cb_map l) (m_conn_cb_map l) (m_cb_timer_map l) (m_req_seqid l) (m_ep_conn_map l) (m_eps l) (m_max_req_size l) v (m_task_q l) (m_stop l).
Definition put_task_q (v : Queue response_pkg) (l : RpcEventLooper) : RpcEventLooper :=
  mk_looper (m_heap l) (m_id_cb_map l) (m_conn_cb_map l) (m_cb_timer_map l) (m_req_seqid l) (m_ep_conn_map l) (m_eps l) (m_max_req_size l) (m_epoll l) v (m_stop l).
Definition stop (l : RpcEventLooper) : RpcEventLooper :=
  mk_looper (m_heap l) (m_id_cb_map l) (m_conn_cb_map l) (m_cb_timer_map l) (m_req_seqid l) (m_ep_conn_map l) (m_eps l) (m_max_req_size l) (m_epoll l) (m_task_q l) true.

Definition put_conn (ep : Endpoint) (c : RpcClientConn) (l : RpcEventLooper) : RpcEventLooper :=
  put_ep_conn_map (<[ep := c]> (m_ep_conn_map l)) l.

(** A method called through a [shared_ptr]. *)
Definition on_cb (p : nat) (f : RpcClientCallBack -> RpcClientCallBack) (l : RpcEventLooper) : RpcEventLooper :=
  put_heap (alter f p (m_heap l)) l.

(** [std::map::insert] keeps an entry that is already there. *)
Definition insert_cb (id : string) (p : RpcCBPtr) (l : RpcEventLooper) : RpcEventLooper :=
  match m_id_cb_map l !! id with
  | Some _ => l
  | None => put_id_cb_map (<[id := p]> (m_id_cb_map l)) l
  end.

Definition erase_cb (id : string) (l : RpcEventLooper) : RpcEventLooper :=
  put_id_cb_map (delete id (m_id_cb_map l)) l.

(** [std::multimap::insert] and [erase] by key: an insertion goes behind the
    entries with the same key, an erasure takes all of them. *)
Fixpoint timer_insert (tm : Z) (id : string) (t : list (Z * string)) : list (Z * string) :=
  match t with
  | [] => [(tm, id)]
  | (k, i) :: t' => if k <=? tm then (k, i) :: timer_insert tm id t' else (tm, id) :: t
  end.

Definition timer_erase (tm : Z) (t : list (Z * string)) : list (Z * string) :=
  List.filter (fun e => negb (fst e =? tm)) t.

(** * Connections *)

Definition addConnection (fd : Z) (l : RpcEventLooper) : RpcEventLooper :=
  if negb (fd =? -1) then put_epoll ({[fd]} ∪ m_epoll l) l else l.

(** [callback_safe] through the pointers of a list, and erasing the ids the
    callbacks carry. *)
Definition disconnect_cb (p : RpcCBPtr) (l : RpcEventLooper) : RpcEventLooper :=
  match p with
  | None => l
  | Some p =>
      let l := on_cb p (callback_safe (status_num RPC_DISCONNECTED) []) l in
      match m_heap l !! p with Some c => erase_cb (m_reqid c) l | None => l end
  end.

Definition removeConnection (fd : Z) (ep : Endpoint) (now : Z) (l : RpcEventLooper) : outcome RpcEventLooper :=
  let l := put_epoll (m_epoll l ∖ {[fd]}) l in
  let! c := need NullPointer (m_ep_conn_map l !! ep) in
  let! c := setInvalid now c in
  let l := put_conn ep c l in
  match m_conn_cb_map l !! ep with
  | None => Done l
  | Some cbs => Done (put_conn_cb_map (<[ep := []]> (m_conn_cb_map l)) (foldl (fun l p => disconnect_cb p l) l cbs))
  end.

(** [order] is the order in which the unordered map is gone through. *)
Definition removeAllConnections (order : list (string * RpcCBPtr)) (l : RpcEventLooper) : RpcEventLooper :=
  let l := foldl (fun l cb => match snd cb with
                              | Some p => on_cb p (callback_safe (status_num RPC_DISCONNECTED) []) l
                              | None => l
                              end) l order in
  put_cb_timer_map [] (put_id_cb_map ∅ l).

(** [conn->connect()]; [host] is the outcome of [connectHost]. *)
Definition connect_ep (ep : Endpoint) (host : option Z) (now : Z) (c : RpcClientConn) (l : RpcEventLooper)
    : bool * RpcEventLooper :=
  let '(ok, c') := connect host now c in
  let l := put_conn ep c' l in
  (ok, if (m_fd c =? -1) && ok then addConnection (m_fd c') l else l).

(** The loop of [tryGetAvaliableConn] at its [try_times]-th turn, with the
    connection of [ep] selected; [host] gives the outcomes of [connectHost]. *)
Fixpoint tryGet_loop (fuel : nat) (host : Z -> option Z) (now : Z) (max_ep_num n try_times : Z)
    (ep : Endpoint) (l : RpcEventLooper) : outcome (Endpoint * RpcEventLooper) :=
  match fuel with
  | O => Stuck Spinning
  | S fuel =>
      let! c := need NullPointer (m_ep_conn_map l !! ep) in
      if isValid c then Done (ep, l)
      else
        let '(ok, l) := if shouldRetry now c then connect_ep ep (host try_times) now c l else (false, l) in
        if ok then Done (ep, l)
        else if max_ep_num <? try_times then Done (ep, l)
        else
          let n := n + 1 in
          let! ep := need OutOfBounds (m_eps l !! Z.to_nat (n mod max_ep_num)) in
          tryGet_loop fuel host now max_ep_num n (try_times + 1) ep l
  end.

(** [tryGetAvaliableConn]: the connection, or [None] for [nullptr]. *)
Definition tryGetAvaliableConn (host : Z -> option Z) (now : Z) (l : RpcEventLooper)
    : outcome (option Endpoint * RpcEventLooper) :=
  let max_ep_num := zlen (m_eps l) in
  if max_ep_num =? 0 then Done (None, l)
  else
    let n := m_req_seqid l mod max_ep_num in
    let! ep := need OutOfBounds (m_eps l !! Z.to_nat n) in
    let! (ep, l) := tryGet_loop (Z.to_nat (max_ep_num + 3)) host now max_ep_num n 0 ep l in
    Done (Some ep, l).

(** [refreshEndpoints]; [host] gives the outcome of [connectHost] for each
    new endpoint. *)
Definition refreshEndpoints (host : Endpoint -> option Z) (now : Z) (l : RpcEventLooper) : RpcEventLooper :=
  foldl (fun l ep =>
    match m_ep_conn_map l !! ep with
    | Some _ => l
    | None => snd (connect_ep ep (host ep) now new_client_conn l)
    end) l (m_eps l).

(** The constructor, over the endpoints of the configuration. *)
Definition new_looper (eps : list Endpoint) (max_req_size : Z) (host : Endpoint -> option Z) (now : Z) : RpcEventLooper :=
  foldl (fun l ep => snd (connect_ep ep (host ep) now new_client_conn l))
    (mk_looper ∅ ∅ ∅ [] 0 ∅ eps max_req_size ∅ default_Queue false) eps.

(** [RpcClient::reloadEndpoints] *)
Definition reloadEndpoints (eps : list Endpoint) (host : Endpoint -> option Z) (now : Z) (l : RpcEventLooper) : RpcEventLooper :=
  refreshEndpoints host now (put_eps eps l).

(** * Sending *)

(** [GenReqID]: [pid], [thread] (what the stream prints for the thread's id)
    and [ip] are those of the caller, [fd] the connection's descriptor. *)
Definition GenReqID (pid : Z) (thread : string) (fd tm : Z) (ip : string) (l : RpcEventLooper) : string :=
  (pretty pid +:+ "_" +:+ thread +:+ "_" +:+ pretty fd +:+ "_" +:+ pretty tm +:+ "_" +:+ ip
   +:+ "_" +:+ pretty (m_req_seqid l))%string.

(** Registering the callback, the first time [sendReq] takes the mutex for it. *)
Definition register (req_id : string) (p : nat) (l : RpcEventLooper) : RpcEventLooper :=
  insert_cb req_id (Some p) (on_cb p (setReqId req_id) l).

(** Its timer, if it has a timeout. *)
Definition start_timer (tm_id : Z) (req_id : string) (l : RpcEventLooper) : RpcEventLooper :=
  put_cb_timer_map (timer_insert tm_id req_id (m_cb_timer_map l)) l.

(** The end of a send that has failed. *)
Definition send_failed (timed : bool) (tm_id : Z) (req_id : string) (p : nat) (st : RpcStatus) (l : RpcEventLooper) : RpcEventLooper :=
  let l := if timed then put_cb_timer_map (timer_erase tm_id (m_cb_timer_map l)) l else l in
  on_cb p (callback_safe (status_num st) []) (erase_cb req_id l).

Section Codec.
Context `{MessageCodec RpcInnerReq} `{MessageCodec RpcInnerResp}.

(** What one [sendReq] finds around it: the clock, the caller, the
    [connectHost] outcomes and the socket. *)
Record send_env := {
  env_now : Z;
  env_id : string -> string;      (* GenReqID up to its sequence number *)
  env_host : Z -> option Z;
  env_fuel : nat;
  env_elapsed : nat -> Z;
  env_tx : list tx_event
}.

(** [++m_req_seqid; conn->sendReq(..)] *)
Definition conn_send (e : send_env) (ep : Endpoint) (service method : string) (request_data : bytes)
    (req_id : string) (oneway : bool) (timeout : Z) (l : RpcEventLooper)
    : outcome (RpcStatus * buffer * RpcEventLooper) :=
  let l := put_req_seqid (u32 (m_req_seqid l + 1)) l in
  let! c := need NullPointer (m_ep_conn_map l !! ep) in
  let! (st, out, c, _) := sendReq (env_fuel e) (env_elapsed e) service method request_data req_id oneway timeout c (env_tx e) in
  Done (st, out, put_conn ep c l).

(** [sendReq] run without interruption: the status, the bytes sent, the
    request id (left empty when none is made). *)
Definition sendReq (e : send_env) (service method : string) (request_data : bytes) (cb_obj : RpcCBPtr)
    (l : RpcEventLooper) : outcome (RpcStatus * buffer * string * RpcEventLooper) :=
  if m_max_req_size l <? zlen request_data then Done (RPC_REQ_TOO_LARGE, [], "", l)
  else
    let! (conn, l) := tryGetAvaliableConn (env_host e) (env_now e) l in
    match conn with
    | None =>
        Done (RPC_SEND_FAIL, [], "",
              match cb_obj with Some p => on_cb p (callback_safe (status_num RPC_SEND_FAIL) []) l | None => l end)
    | Some ep =>
        let req_id := env_id e (pretty (m_req_seqid l)) in
        match cb_obj with
        | None =>
            let! (st, out, l) := conn_send e ep service method request_data req_id true 0 l in
            Done (st, out, req_id, l)
        | Some p =>
            let l := register req_id p l in
            let! cb := need NullPointer (m_heap l !! p) in
            let cb_timeout := m_timeout cb in
            let tm_id := env_now e + cb_timeout in
            let l := if 0 <? cb_timeout then start_timer tm_id req_id l else l in
            let! (st, out, l) := conn_send e ep service method request_data req_id false cb_timeout l in
            Done (st, out, req_id,
                  if bool_decide (st = RPC_SEND_OK) then l
                  else send_failed (0 <? cb_timeout) tm_id req_id p st l)
        end
    end.

(** [RpcClient::async_call] *)
Definition async_call (e : send_env) (service method : string) (request_data : bytes) (timeout : Z) (cb_obj : RpcCBPtr)
    (l : RpcEventLooper) : outcome (RpcStatus * buffer * string * RpcEventLooper) :=
  let l := match cb_obj with Some p => on_cb p (setTimeout timeout) l | None => l end in
  sendReq e service method request_data cb_obj l.

(** [RpcClient::call], up to [wait]: a new blocker is made at the address
    [p]. *)
Definition call_send (e : send_env) (service method : string) (request_data : bytes) (timeout : Z) (p : nat)
    (l : RpcEventLooper) : outcome (RpcStatus * buffer * string * RpcEventLooper) :=
  let rb := setTimeout (u32 (i32 timeout)) (setType "blocker" new_callback) in
  sendReq e service method request_data (Some p) (put_heap (<[p := rb]> (m_heap l)) l).

(** The overloads for a protobuf message send its serialized form. *)
Definition call_message_send {M} `{MessageCodec M} (e : send_env) (service method : string) (request_data : M) (timeout : Z) (p : nat)
    (l : RpcEventLooper) : outcome (RpcStatus * buffer * string * RpcEventLooper) :=
  call_send e service method (serialize request_data) timeout p l.
Definition async_call_message {M} `{MessageCodec M} (e : send_env) (service method : string) (request_data : M) (timeout : Z)
    (cb_obj : RpcCBPtr) (l : RpcEventLooper) : outcome (RpcStatus * buffer * string * RpcEventLooper) :=
  async_call e service method (serialize request_data) timeout cb_obj l.
End Codec.

Definition blocker_at (p : nat) (l : RpcEventLooper) : RpcClientBlocker :=
  match m_heap l !! p with Some c => blocker_of c | None => new_blocker end.

(** [RpcClient::call] from there on: [at_wait] is the looper when [wait]
    begins, [woken] tells a wake-up from a timeout and [l] is the looper when
    [wait_for] has ended. *)
Definition call_return (st : RpcStatus) (req_id : string) (p : nat) (at_wait : RpcEventLooper) (woken : bool)
    (l : RpcEventLooper) : option Z * bytes * RpcEventLooper :=
  let '(ret_st, response_data) :=
    if bool_decide (st = RPC_SEND_OK) then
      wait (if woken then BlockerWoken (blocker_at p l) else BlockerTimeout (blocker_at p l)) (blocker_at p at_wait)
    else (Some (status_num st), []) in
  (ret_st, response_data, erase_cb req_id l).

(** * Responses *)

Definition getCb (req_id : string) (l : RpcEventLooper) : RpcCBPtr :=
  match m_id_cb_map l !! req_id with Some p => p | None => None end.

Definition removeCb (req_id : string) (l : RpcEventLooper) : RpcEventLooper := erase_cb req_id l.

(** The call of the callback by a worker, outside [m_mutex]. *)
Definition worker_call (p : nat) (ret_val : Z) (rd : bytes) (l : RpcEventLooper) : RpcEventLooper :=
  match m_heap l !! p with
  | Some c => if negb (isTimeout c) then on_cb p (callback_safe ret_val rd) l else l
  | None => l
  end.

(** [RpcClientWorker::run], without interruption. *)
Definition worker_run `{MessageCodec RpcInnerResp} (pkg : response_pkg) (l : RpcEventLooper) : outcome RpcEventLooper :=
  let! r := client_response pkg in
  match r with
  | None => Done l
  | Some (req_id, ret_val, rd) =>
      match getCb req_id l with
      | Some p => Done (removeCb req_id (worker_call p ret_val rd l))
      | None => Done l
      end
  end.

(** * Timers *)

(** The loop of [dealTimeoutCb] over the timers left; [now i] is the clock at
    the [i]-th timer. *)
Fixpoint deal_timers (now : nat -> Z) (i : nat) (t : list (Z * string)) (l : RpcEventLooper)
    : list (Z * string) * RpcEventLooper :=
  match t with
  | [] => ([], l)
  | (tm, reqid) :: t' =>
      match m_id_cb_map l !! reqid with
      | Some (Some p) =>
          if tm <? now i then
            deal_timers now (S i) t'
              (erase_cb reqid (on_cb p (callback_safe (status_num RPC_CB_TIMEOUT) []) l))
          else (t, l)
      | _ => deal_timers now (S i) t' l
      end
  end.

Definition dealTimeoutCb (now : nat -> Z) (l : RpcEventLooper) : RpcEventLooper :=
  let '(t, l) := deal_timers now 0 (m_cb_timer_map l) l in put_cb_timer_map t l.

(** [waitAllCBDone]: the looper as it is at each look at it, until the
    function returns; [None] when it is still waiting after all of them. *)
Fixpoint waitAllCBDone (timeout : Z) (looks : list RpcEventLooper) : option nat :=
  if timeout =? 0 then Some 0%nat
  else
    match looks with
    | [] => None
    | l :: looks' =>
        if bool_decide (m_id_cb_map l = ∅) then Some 0%nat
        else option_map S (waitAllCBDone timeout looks')
    end.

(** * The loop *)

(** One ready descriptor: [EPOLLIN] with the data in the socket, or another
    event. *)
Definition on_event (fuel : nat) (ep : Endpoint) (epollin : bool) (rx : list rx_event) (now : Z) (l : RpcEventLooper)
    : outcome (RpcEventLooper * list rx_event) :=
  let! c := need NullPointer (m_ep_conn_map l !! ep) in
  let client_socket := m_fd c in
  if epollin then
    let! (ret, pkg, c, rx) := getResponse fuel c rx in
    let l := put_conn ep c l in
    if ret <? 0 then
      let! l := removeConnection client_socket ep now l in Done (l, rx)
    else
      match pkg with
      | Some pkg => let! (_, q) := push_now pkg (m_task_q l) in Done (put_task_q q l, rx)
      | None => Done (l, rx)
      end
  else Done (put_epoll (m_epoll l ∖ {[client_socket]}) l, rx).

(** The events of one [Wait], in order; each with the data its socket holds. *)
Fixpoint on_events (fuel : nat) (now : Z) (events : list (Endpoint * bool * list rx_event)) (l : RpcEventLooper)
    : outcome RpcEventLooper :=
  match events with
  | [] => Done l
  | (ep, epollin, rx) :: events =>
      let! (l, _) := on_event fuel ep epollin rx now l in on_events fuel now events l
  end.

(** One turn of [run]: [l] is the looper when the turn begins, [lw] when
    [m_epoll.Wait] has returned; the result tells whether [run] goes on.  The
    orders are those of the table in [removeAllConnections]. *)
Definition run_turn (order order_w : list (string * RpcCBPtr)) (fuel : nat) (clock : nat -> Z) (now : Z)
    (events : list (Endpoint * bool * list rx_event)) (l lw : RpcEventLooper) : outcome (RpcEventLooper * bool) :=
  if m_stop l then Done (removeAllConnections order l, false)
  else if m_stop lw then Done (removeAllConnections order_w lw, false)
  else let! l := on_events fuel now events (dealTimeoutCb clock lw) in Done (l, true).
