(* ===== verification/EventLooperCalls.v ===== *)
(** Which callbacks [RpcEventLooper] calls and how often, whatever the order
    in which callers, workers and the loop take the mutex: the steps of the
    client's threads, their invariant, and what follows from it. *)
From Stdlib Require Import ZArith Lia Bool List String Ascii Sorted.
From stdpp Require Import base list strings gmap pretty relations.
From S2P Require Import Prelude Wire SampleCodec Socket Queue CallBack ClientConn EventLooper.

(** * What the operations leave alone *)

(** The part of the looper that decides which callbacks are called. *)
Record same_calls (l l' : RpcEventLooper) : Prop := {
  same_heap : m_heap l' = m_heap l;
  same_id_cb : m_id_cb_map l' = m_id_cb_map l;
  same_conn_cb : m_conn_cb_map l' = m_conn_cb_map l;
  same_timers : m_cb_timer_map l' = m_cb_timer_map l
}.

#[export] Instance same_calls_preorder : PreOrder same_calls.
Proof.
  split; [intros l; split; reflexivity|].
  intros l1 l2 l3 [] []. split; congruence.
Qed.

Create HintDb looper.
#[export] Hint Constructors same_calls : looper.

Lemma on_cb_heap p f l : m_heap (on_cb p f l) = alter f p (m_heap l).
Proof. reflexivity. Qed.

Lemma connect_ep_same ep host now c l : same_calls l (snd (connect_ep ep host now c l)).
Proof.
  unfold connect_ep, addConnection, put_conn. destruct (connect host now c) as [ok c'].
  destruct ((m_fd c =? -1) && ok); [destruct (negb (m_fd c' =? -1))|]; split; reflexivity.
Qed.

Lemma tryGet_loop_same fuel host now maxn n tries ep l ep' l' :
  tryGet_loop fuel host now maxn n tries ep l = Done (ep', l') -> same_calls l l'.
Proof.
  revert n tries ep l. induction fuel as [|fuel IH]; intros n tries ep l; cbn [tryGet_loop]; [discriminate|].
  destruct (m_ep_conn_map l !! ep) as [c|]; [|discriminate]. cbn [need outcome_bind].
  destruct (isValid c). { intros [= <- <-]. reflexivity. }
  destruct (if shouldRetry now c then _ else _) as [ok l1] eqn:Hc.
  assert (same_calls l l1) as Hl.
  { destruct (shouldRetry now c); [|injection Hc as <- <-; reflexivity].
    pose proof (connect_ep_same ep (host tries) now c l) as H. rewrite Hc in H. exact H. }
  destruct ok. { intros [= <- <-]. exact Hl. }
  destruct (maxn <? tries). { intros [= <- <-]. exact Hl. }
  destruct (m_eps l1 !! _) as [ep1|]; [|discriminate]. cbn [need outcome_bind].
  intros H. etrans; [exact Hl | exact (IH _ _ _ _ H)].
Qed.

Lemma tryGet_same host now l r l' : tryGetAvaliableConn host now l = Done (r, l') -> same_calls l l'.
Proof.
  unfold tryGetAvaliableConn. destruct (zlen (m_eps l) =? 0). { intros [= <- <-]. reflexivity. }
  destruct (m_eps l !! _) as [ep|]; [|discriminate]. cbn [need outcome_bind].
  destruct (tryGet_loop _ _ _ _ _ _ _ _) as [[ep' l1]|] eqn:H; [|discriminate]. cbn [outcome_bind].
  intros [= <- <-]. eapply tryGet_loop_same, H.
Qed.

Lemma foldl_same {A} (f : RpcEventLooper -> A -> RpcEventLooper) xs l :
  (forall l x, same_calls l (f l x)) -> same_calls l (foldl f l xs).
Proof.
  intros Hf. revert l. induction xs as [|x xs IH]; intros l; [reflexivity|].
  cbn [foldl]. etrans; [apply Hf | apply IH].
Qed.

Lemma refresh_same host now l : same_calls l (refreshEndpoints host now l).
Proof.
  apply foldl_same. intros l' ep. destruct (m_ep_conn_map l' !! ep); [reflexivity | apply connect_ep_same].
Qed.

Lemma reload_same eps host now l : same_calls l (reloadEndpoints eps host now l).
Proof. unfold reloadEndpoints. etrans; [|apply refresh_same]. split; reflexivity. Qed.

Lemma conn_send_same `{MessageCodec RpcInnerReq} e ep service method data req_id oneway timeout l st out l' :
  conn_send e ep service method data req_id oneway timeout l = Done (st, out, l') -> same_calls l l'.
Proof.
  unfold conn_send. cbn [m_ep_conn_map put_req_seqid].
  destruct (m_ep_conn_map l !! ep) as [c|]; [|discriminate]. cbn [need outcome_bind].
  destruct (ClientConn.sendReq _ _ _ _ _ _ _ _ _ _) as [[[[? ?] ?] ?]|]; [|discriminate]. cbn [outcome_bind].
  intros [= <- <- <-]. split; reflexivity.
Qed.

(** While no callback is filed under a connection, losing it calls nobody. *)
Lemma removeConnection_same fd ep now l l' :
  m_conn_cb_map l = ∅ -> removeConnection fd ep now l = Done l' -> same_calls l l'.
Proof.
  intros Hc. unfold removeConnection. cbn [m_ep_conn_map put_epoll].
  destruct (m_ep_conn_map l !! ep) as [c|]; [|discriminate]. cbn [need outcome_bind].
  destruct (setInvalid now c) as [c'|]; [|discriminate]. cbn [outcome_bind].
  cbn. rewrite Hc, lookup_empty. intros [= <-]. split; reflexivity.
Qed.

Lemma on_event_same fuel ep epollin rx now l l' rx' :
  m_conn_cb_map l = ∅ -> on_event fuel ep epollin rx now l = Done (l', rx') -> same_calls l l'.
Proof.
  intros Hc. unfold on_event. destruct (m_ep_conn_map l !! ep) as [c|]; [|discriminate]. cbn [need outcome_bind].
  destruct epollin; [|intros [= <- <-]; split; reflexivity].
  destruct (getResponse fuel c rx) as [[[[ret pkg] c'] rx1]|]; [|discriminate]. cbn [outcome_bind].
  destruct (ret <? 0).
  - destruct (removeConnection _ _ _ _) as [l1|] eqn:Hr; [|discriminate]. cbn [outcome_bind].
    intros [= <- <-]. apply removeConnection_same in Hr; [|exact Hc].
    destruct Hr; cbn in *; split; assumption.
  - destruct pkg as [pkg|]; [|intros [= <- <-]; split; reflexivity].
    destruct (push_now pkg _) as [[? q]|]; [|discriminate]. cbn [outcome_bind].
    intros [= <- <-]. split; reflexivity.
Qed.

(** * Which callbacks are called *)

(** The client with what its threads have in hand: [regs] are all the calls
    whose callback was registered, under their request ids; [held] those whose
    callback a worker has fetched; [finishing] those a worker has called and
    is about to remove; [returned] the synchronous calls that have returned. *)
Record client_sys := mk_sys {
  looper : RpcEventLooper;
  regs : list (string * nat);
  held : list (string * nat);
  finishing : list (string * nat);
  returned : list string
}.

Definition on_looper (l : RpcEventLooper) (s : client_sys) : client_sys :=
  mk_sys l (regs s) (held s) (finishing s) (returned s).

Section Steps.
Context `{MessageCodec RpcInnerReq}.

(** The atomic steps of the client's threads, in any order.  A callback is
    used for one call, as [RpcClient.h] asks, and a request id is new (see
    [GenReqID_unique]). *)
Inductive client_step (s : client_sys) : client_sys -> Prop :=
| StepNew p ty tm
    (Hp : m_heap (looper s) !! p = None) :
    client_step s (on_looper (put_heap (<[p := setTimeout tm (setType ty new_callback)]> (m_heap (looper s))) (looper s)) s)
| StepSelect host now r l'
    (Hr : tryGetAvaliableConn host now (looper s) = Done (r, l')) :
    client_step s (on_looper l' s)
| StepNoConnection p
    (Hp : p ∉ (regs s).*2) :
    client_step s (on_looper (on_cb p (callback_safe (status_num RPC_SEND_FAIL) []) (looper s)) s)
| StepRegister req_id p c
    (Hid : req_id ∉ (regs s).*1) (Hp : p ∉ (regs s).*2)
    (Hc : m_heap (looper s) !! p = Some c) (Hnew : calls c = []) (Hdone : m_is_done c = false)
    (Hshared : m_is_shared c = false) (Htm : m_has_timeout c = false) :
    client_step s (mk_sys (register req_id p (looper s)) ((req_id, p) :: regs s) (held s) (finishing s) (returned s))
| StepTimer tm_id req_id p
    (Hreg : (req_id, p) ∈ regs s) :
    client_step s (on_looper (start_timer tm_id req_id (looper s)) s)
| StepSend e ep service method data req_id oneway timeout st out l'
    (Hs : conn_send e ep service method data req_id oneway timeout (looper s) = Done (st, out, l')) :
    client_step s (on_looper l' s)
| StepSendFailed timed tm_id req_id p st
    (Hreg : (req_id, p) ∈ regs s) :
    client_step s (on_looper (send_failed timed tm_id req_id p st (looper s)) s)
| StepReturn req_id p
    (Hreg : (req_id, p) ∈ regs s) :
    client_step s (mk_sys (removeCb req_id (looper s)) (regs s) (held s) (finishing s) (req_id :: returned s))
| StepReload eps host now :
    client_step s (on_looper (reloadEndpoints eps host now (looper s)) s)
| StepGetCb req_id p
    (Hg : getCb req_id (looper s) = Some p) :
    client_step s (mk_sys (looper s) (regs s) ((req_id, p) :: held s) (finishing s) (returned s))
| StepWorkerCall req_id p h1 h2 ret_val rd
    (Hh : held s = h1 ++ (req_id, p) :: h2) :
    client_step s (mk_sys (worker_call p ret_val rd (looper s)) (regs s) (h1 ++ h2) ((req_id, p) :: finishing s) (returned s))
| StepRemoveCb req_id p f1 f2
    (Hf : finishing s = f1 ++ (req_id, p) :: f2) :
    client_step s (mk_sys (removeCb req_id (looper s)) (regs s) (held s) (f1 ++ f2) (returned s))
| StepTimeouts now :
    client_step s (on_looper (dealTimeoutCb now (looper s)) s)
| StepEvent fuel ep epollin rx now l' rx'
    (He : on_event fuel ep epollin rx now (looper s) = Done (l', rx')) :
    client_step s (on_looper l' s)
| StepStop :
    client_step s (on_looper (stop (looper s)) s)
| StepStopped order
    (Hstop : m_stop (looper s) = true) (Horder : order ≡ₚ map_to_list (m_id_cb_map (looper s))) :
    client_step s (on_looper (removeAllConnections order (looper s)) s).

(** The client as the constructor of the looper leaves it. *)
Definition client_start (eps : list Endpoint) (max_req_size : Z) (host : Endpoint -> option Z) (now : Z) : client_sys :=
  mk_sys (new_looper eps max_req_size host now) [] [] [] [].

Definition client_reach (s : client_sys) : Prop :=
  exists eps max_req_size host now, rtc client_step (client_start eps max_req_size host now) s.
End Steps.

(** The invariant, of the looper and the calls: a registered callback has been
    called at most once, and it has been called, or it is in the table still,
    or its synchronous call has returned. *)
Definition cb_ok (c : RpcClientCallBack) : Prop := called_once c /\ m_has_timeout c = false.

Definition cb_done (l : RpcEventLooper) (p : nat) : Prop :=
  exists c, m_heap l !! p = Some c /\ m_is_done c = true.

Definition timer_le (e e' : Z * string) : Prop := fst e <= fst e'.

Record calls_ok (rs : list (string * nat)) (ret : list string) (l : RpcEventLooper) : Prop := {
  ok_ids : NoDup rs.*1;
  ok_ptrs : NoDup rs.*2;
  ok_cb id p : (id, p) ∈ rs -> exists c, m_heap l !! p = Some c /\ cb_ok c;
  ok_kept id p : (id, p) ∈ rs -> cb_done l p \/ m_id_cb_map l !! id = Some (Some p) \/ id ∈ ret;
  ok_table id q : m_id_cb_map l !! id = Some q -> exists p, q = Some p /\ (id, p) ∈ rs;
  ok_conn : m_conn_cb_map l = ∅;
  ok_timers : StronglySorted timer_le (m_cb_timer_map l)
}.

Lemma calls_ok_same rs ret l l' : same_calls l l' -> calls_ok rs ret l -> calls_ok rs ret l'.
Proof.
  intros [Hh Hi Hc Ht] [? ? Hcb Hk Htb ? ?]. split; rewrite ?Hh, ?Hi, ?Hc, ?Ht; auto.
  intros id p Hp. unfold cb_done. rewrite Hh. apply Hk, Hp.
Qed.

Lemma ids_functional rs (id : string) (p q : nat) : NoDup rs.*1 -> (id, p) ∈ rs -> (id, q) ∈ rs -> p = q.
Proof.
  induction rs as [|[i r] rs IH]; cbn; [set_solver|]. intros [Hi Hn]%NoDup_cons.
  rewrite !elem_of_cons. intros [[= -> ->]|Hp] [[= ->]|Hq]; try reflexivity.
  - destruct Hi. apply list_elem_of_fmap. exists (i, q). auto.
  - subst. destruct Hi. apply list_elem_of_fmap. exists (i, p). auto.
  - apply IH; assumption.
Qed.

Lemma on_cb_some p f l q c : m_heap l !! q = Some c ->
  m_heap (on_cb p f l) !! q = Some (if decide (p = q) then f c else c).
Proof.
  intros Hc. cbn. destruct (decide (p = q)) as [<-|Hn].
  - rewrite lookup_alter_eq, Hc. reflexivity.
  - rewrite lookup_alter_ne by exact Hn. exact Hc.
Qed.

Lemma callback_safe_ok st d c : cb_ok c -> cb_ok (callback_safe st d c) /\ m_is_done (callback_safe st d c) = true.
Proof.
  intros [Ho Ht]. destruct (callback_safe_once st d c Ho) as [Ho' Hd].
  destruct (callback_safe_flags st d c) as [Ht' _]. unfold cb_ok. rewrite Ht'. auto.
Qed.

Lemma cb_done_call st d p q l : cb_done l q -> cb_done (on_cb p (callback_safe st d) l) q.
Proof.
  intros (c & Hc & Hd). unfold cb_done. rewrite (on_cb_some _ _ _ _ _ Hc).
  eexists. split; [reflexivity|]. destruct (decide (p = q)); [|exact Hd].
  unfold callback_safe. rewrite Hd. destruct (m_is_shared c); [|exact Hd]. exact Hd.
Qed.

Lemma call_ok rs ret st d p l : calls_ok rs ret l -> calls_ok rs ret (on_cb p (callback_safe st d) l).
Proof.
  intros [? ? Hcb Hk Htb ? ?]. split; cbn; auto.
  - intros id q Hq. destruct (Hcb id q Hq) as (c & Hc & Hok).
    pose proof (on_cb_some p (callback_safe st d) l q c Hc) as Hc'. cbn in Hc'. rewrite Hc'.
    eexists. split; [reflexivity|]. destruct (decide (p = q)); [apply callback_safe_ok|]; exact Hok.
  - intros id q Hq. destruct (Hk id q Hq) as [Hd|[Ht|Hr]]; [left; apply cb_done_call, Hd | auto | auto].
Qed.

Lemma call_done rs ret st d id p l :
  calls_ok rs ret l -> (id, p) ∈ rs -> cb_done (on_cb p (callback_safe st d) l) p.
Proof.
  intros Hok Hp. destruct (ok_cb _ _ _ Hok id p Hp) as (c & Hc & Hcok).
  unfold cb_done. rewrite (on_cb_some _ _ _ _ _ Hc), decide_True by reflexivity.
  eexists. split; [reflexivity | apply callback_safe_ok, Hcok].
Qed.

Lemma erase_ok rs ret id l :
  (forall p, (id, p) ∈ rs -> cb_done l p \/ id ∈ ret) -> calls_ok rs ret l -> calls_ok rs ret (erase_cb id l).
Proof.
  intros Hid [? ? Hcb Hk Htb ? ?]. split; cbn; auto.
  - intros id' p Hp. destruct (decide (id' = id)) as [->|Hn].
    + destruct (Hid p Hp); auto.
    + rewrite lookup_delete_ne by congruence. apply Hk, Hp.
  - intros id' q [_ Hq]%lookup_delete_Some. apply Htb, Hq.
Qed.

Lemma erase_done_ok rs ret id p l :
  (id, p) ∈ rs -> cb_done l p -> calls_ok rs ret l -> calls_ok rs ret (erase_cb id l).
Proof.
  intros Hp Hd Hok. apply erase_ok; [|exact Hok]. intros q Hq. left.
  rewrite (ids_functional rs id q p (ok_ids _ _ _ Hok) Hq Hp). exact Hd.
Qed.

Lemma timers_ok rs ret t l :
  StronglySorted timer_le t -> calls_ok rs ret l -> calls_ok rs ret (put_cb_timer_map t l).
Proof. intros Ht [? ? Hcb Hk Htb ? ?]. split; cbn; auto. Qed.

Lemma ret_ok rs ret id l : calls_ok rs ret l -> calls_ok rs (id :: ret) l.
Proof.
  intros [? ? Hcb Hk Htb ? ?]. split; auto. intros id' p Hp.
  destruct (Hk id' p Hp) as [?|[?|?]]; auto. do 2 right. apply list_elem_of_further. assumption.
Qed.

(** Timers. *)
Lemma timer_insert_Forall tm id t e : timer_le e (tm, id) -> Forall (timer_le e) t -> Forall (timer_le e) (timer_insert tm id t).
Proof.
  intros He. induction 1 as [|[k i] t Hk Ht IH]; cbn; [auto|].
  destruct (k <=? tm); constructor; auto.
Qed.

Lemma timer_insert_sorted tm id t : StronglySorted timer_le t -> StronglySorted timer_le (timer_insert tm id t).
Proof.
  induction 1 as [|[k i] t Ht IH Hk]; cbn; [repeat constructor|].
  destruct (Z.leb_spec k tm).
  - constructor; [exact IH | apply timer_insert_Forall; [exact H | exact Hk]].
  - constructor; [constructor; assumption|]. constructor; [unfold timer_le; cbn; lia|].
    eapply Forall_impl; [exact Hk|]. intros [k' i']. unfold timer_le; cbn. lia.
Qed.

Lemma timer_erase_sorted tm t : StronglySorted timer_le t -> StronglySorted timer_le (timer_erase tm t).
Proof.
  induction 1 as [|[k i] t Ht IH Hk]; cbn; [constructor|].
  destruct (negb (k =? tm)); [|exact IH]. constructor; [exact IH|].
  apply List.Forall_forall. intros e [He _]%List.filter_In. rewrite List.Forall_forall in Hk. apply Hk, He.
Qed.

Lemma timer_insert_elem tm id t e : e ∈ timer_insert tm id t <-> e = (tm, id) \/ e ∈ t.
Proof.
  induction t as [|[k i] t IH]; cbn; [set_solver|].
  destruct (k <=? tm); rewrite !elem_of_cons, ?IH; tauto.
Qed.

Lemma timer_erase_elem tm t e : e ∈ timer_erase tm t <-> e ∈ t /\ fst e <> tm.
Proof.
  unfold timer_erase. rewrite !list_elem_of_In, List.filter_In, negb_true_iff, Z.eqb_neq. reflexivity.
Qed.

Lemma deal_timers_ok rs ret now i t l t' l' :
  deal_timers now i t l = (t', l') -> StronglySorted timer_le t -> calls_ok rs ret l ->
  calls_ok rs ret l' /\ StronglySorted timer_le t' /\ (forall q, cb_done l q -> cb_done l' q).
Proof.
  revert i l. induction t as [|[tm id] t IH]; intros i l; cbn [deal_timers].
  { intros [= <- <-]. auto. }
  intros Hd Hs Hok. pose proof (StronglySorted_inv Hs) as [Hs' _].
  destruct (m_id_cb_map l !! id) as [[p|]|] eqn:Hid; [|exact (IH _ _ Hd Hs' Hok)..].
  destruct (tm <? now i); [|injection Hd as <- <-; auto].
  destruct (ok_table _ _ _ Hok id _ Hid) as (p' & [= <-] & Hp).
  assert (calls_ok rs ret (erase_cb id (on_cb p (callback_safe (status_num RPC_CB_TIMEOUT) []) l))) as Hok'.
  { apply erase_done_ok with p; [exact Hp | eapply call_done; eassumption | apply call_ok, Hok]. }
  destruct (IH _ _ Hd Hs' Hok') as (? & ? & Hmono). split_and!; auto.
  intros q Hq. apply Hmono. exact (cb_done_call _ _ p q l Hq).
Qed.

(** What one pass over the timers does when the clock reads [now]. *)
Lemma deal_gone now i t l t' l' id :
  deal_timers now i t l = (t', l') -> m_id_cb_map l !! id = None -> m_id_cb_map l' !! id = None.
Proof.
  revert i l. induction t as [|[tm id0] t IH]; intros i l; cbn [deal_timers]; [intros [= <- <-]; auto|].
  destruct (m_id_cb_map l !! id0) as [[p|]|] eqn:Hid; [|apply IH..].
  destruct (tm <? now i); [|intros [= <- <-]; auto].
  intros Hd Hn. apply (IH _ _ Hd). cbn. apply lookup_delete_None. auto.
Qed.

Lemma deal_unexpired now i t l t' l' id :
  deal_timers (fun _ => now) i t l = (t', l') -> (forall tm, (tm, id) ∈ t -> now <= tm) ->
  m_id_cb_map l' !! id = m_id_cb_map l !! id.
Proof.
  revert i l. induction t as [|[tm id0] t IH]; intros i l; cbn [deal_timers]; [intros [= <- <-]; auto|].
  intros Hd Ht. assert (forall tm, (tm, id) ∈ t -> now <= tm) as Ht' by (intros; apply Ht; set_solver).
  destruct (m_id_cb_map l !! id0) as [[p|]|] eqn:Hid; [|exact (IH _ _ Hd Ht')..].
  destruct (Z.ltb_spec tm now); [|injection Hd as <- <-; reflexivity].
  rewrite (IH _ _ Hd Ht'). cbn. apply lookup_delete_ne. intros ->.
  specialize (Ht tm ltac:(set_solver)). lia.
Qed.

Lemma deal_untouched now i t l t' l' p :
  deal_timers (fun _ => now) i t l = (t', l') ->
  (forall tm id, (tm, id) ∈ t -> tm < now -> m_id_cb_map l !! id <> Some (Some p)) ->
  m_heap l' !! p = m_heap l !! p.
Proof.
  revert i l. induction t as [|[tm id0] t IH]; intros i l; cbn [deal_timers]; [intros [= <- <-]; auto|].
  intros Hd Ht. assert (forall tm id, (tm, id) ∈ t -> tm < now -> m_id_cb_map l !! id <> Some (Some p)) as Ht'
    by (intros tm' id Hin; apply Ht; set_solver).
  destruct (m_id_cb_map l !! id0) as [[p0|]|] eqn:Hid; [|exact (IH _ _ Hd Ht')..].
  destruct (Z.ltb_spec tm now); [|injection Hd as <- <-; reflexivity].
  rewrite (IH _ _ Hd).
  - cbn. apply lookup_alter_ne. intros ->. exact (Ht tm id0 ltac:(set_solver) H Hid).
  - intros tm' id Hin Hlt. cbn. intros [_ Hm]%lookup_delete_Some. exact (Ht' _ _ Hin Hlt Hm).
Qed.

Lemma ptrs_functional rs (id id' : string) (p : nat) : NoDup rs.*2 -> (id, p) ∈ rs -> (id', p) ∈ rs -> id = id'.
Proof.
  induction rs as [|[i r] rs IH]; cbn; [set_solver|]. intros [Hi Hn]%NoDup_cons.
  rewrite !elem_of_cons. intros [[= -> ->]|Hp] [[= ->]|Hq]; try reflexivity.
  - destruct Hi. apply list_elem_of_fmap. exists (id', r). auto.
  - subst. destruct Hi. apply list_elem_of_fmap. exists (id, r). auto.
  - apply IH; assumption.
Qed.

Lemma table_ptrs rs ret l id id' p : calls_ok rs ret l ->
  m_id_cb_map l !! id = Some (Some p) -> m_id_cb_map l !! id' = Some (Some p) -> id = id'.
Proof.
  intros Hok H1 H2. destruct (ok_table _ _ _ Hok _ _ H1) as (q & [= <-] & Hin).
  destruct (ok_table _ _ _ Hok _ _ H2) as (q & [= <-] & Hin').
  eapply ptrs_functional; [apply Hok | eassumption..].
Qed.

Lemma deal_fires rs ret now i t l t' l' tm id p c :
  deal_timers (fun _ => now) i t l = (t', l') -> StronglySorted timer_le t -> calls_ok rs ret l ->
  (tm, id) ∈ t -> tm < now -> m_id_cb_map l !! id = Some (Some p) -> m_heap l !! p = Some c ->
  m_heap l' !! p = Some (callback_safe (status_num RPC_CB_TIMEOUT) [] c) /\ m_id_cb_map l' !! id = None.
Proof.
  revert i l. induction t as [|[tm0 id0] t IH]; intros i l; cbn [deal_timers]; [set_solver|].
  intros Hd Hs Hok Hin Hlt Hid Hp. pose proof (StronglySorted_inv Hs) as [Hs' Hall].
  destruct (decide (id0 = id)) as [->|Hne].
  - rewrite Hid in Hd. assert (tm0 < now) as Hlt0.
    { apply elem_of_cons in Hin as [[= ->]|Hin]; [exact Hlt|].
      rewrite Forall_forall in Hall. specialize (Hall _ Hin). unfold timer_le in Hall. cbn in Hall. lia. }
    destruct (Z.ltb_spec tm0 now); [|lia]. split.
    + rewrite (deal_untouched _ _ _ _ _ _ p Hd); cbn; [rewrite lookup_alter_eq, Hp; reflexivity|].
      intros tm' id' _ _ [Hn Hm]%lookup_delete_Some. apply Hn. eapply table_ptrs; eassumption.
    + apply (deal_gone _ _ _ _ _ _ id Hd). cbn. apply lookup_delete_eq.
  - apply elem_of_cons in Hin as [[= -> ->]|Hin]; [congruence|].
    destruct (m_id_cb_map l !! id0) as [[p0|]|] eqn:Hid0; [|exact (IH _ _ Hd Hs' Hok Hin Hlt Hid Hp)..].
    assert (tm0 < now) as Hlt0.
    { rewrite Forall_forall in Hall. specialize (Hall _ Hin). unfold timer_le in Hall. cbn in Hall. lia. }
    destruct (Z.ltb_spec tm0 now); [|lia]. destruct (ok_table _ _ _ Hok _ _ Hid0) as (p' & [= <-] & Hreg).
    apply (IH _ _ Hd Hs'); auto.
    + apply erase_done_ok with p0; [exact Hreg | eapply call_done; eassumption | apply call_ok, Hok].
    + cbn. rewrite lookup_delete_ne by exact Hne. exact Hid.
    + cbn. rewrite lookup_alter_ne; [exact Hp|]. intros ->. apply Hne. eapply table_ptrs; eassumption.
Qed.

Lemma dealTimeoutCb_ok rs ret now l : calls_ok rs ret l -> calls_ok rs ret (dealTimeoutCb now l).
Proof.
  intros Hok. unfold dealTimeoutCb. destruct (deal_timers _ _ _ _) as [t l'] eqn:Hd.
  destruct (deal_timers_ok _ _ _ _ _ _ _ _ Hd (ok_timers _ _ _ Hok) Hok) as (? & ? & _).
  apply timers_ok; assumption.
Qed.

(** The calls [removeAllConnections] makes. *)
Definition call_all (l : RpcEventLooper) (order : list (string * RpcCBPtr)) : RpcEventLooper :=
  foldl (fun l cb => match snd cb with
                     | Some p => on_cb p (callback_safe (status_num RPC_DISCONNECTED) []) l
                     | None => l
                     end) l order.

Lemma call_all_ok rs ret order l :
  calls_ok rs ret l ->
  calls_ok rs ret (call_all l order) /\ m_id_cb_map (call_all l order) = m_id_cb_map l /\
  (forall q, cb_done l q -> cb_done (call_all l order) q) /\
  (forall id id' p, (id, Some p) ∈ order -> (id', p) ∈ rs -> cb_done (call_all l order) p).
Proof.
  revert l. induction order as [|[i [q|]] order IH]; intros l Hok; cbn.
  - split_and!; auto. set_solver.
  - destruct (IH _ (call_ok _ _ (status_num RPC_DISCONNECTED) [] q _ Hok)) as (H1 & H2 & H3 & H4).
    split_and!; [exact H1 | exact H2 | | ].
    + intros p Hp. apply H3, cb_done_call, Hp.
    + intros id id' p [[= -> ->]|Hin]%elem_of_cons Hp; [|exact (H4 _ _ _ Hin Hp)].
      apply H3. eapply call_done; eassumption.
  - destruct (IH _ Hok) as (H1 & H2 & H3 & H4). split_and!; auto.
    intros id id' p [[= ->]|Hin]%elem_of_cons Hp. exact (H4 _ _ _ Hin Hp).
Qed.

Lemma removeAll_ok rs ret order l :
  order ≡ₚ map_to_list (m_id_cb_map l) -> calls_ok rs ret l ->
  calls_ok rs ret (removeAllConnections order l) /\
  (forall id p, (id, p) ∈ rs -> id ∉ ret -> cb_done (removeAllConnections order l) p).
Proof.
  intros Ho Hok. destruct (call_all_ok rs ret order l Hok) as (H1 & H2 & H3 & H4).
  assert (forall id p, (id, p) ∈ rs -> cb_done (call_all l order) p \/ id ∈ ret) as Hall.
  { intros id p Hp. destruct (ok_kept _ _ _ Hok id p Hp) as [Hd|[Ht|Hr]]; [left; auto | | auto].
    left. eapply H4, Hp. rewrite Ho. apply elem_of_map_to_list. exact Ht. }
  split.
  - change (calls_ok rs ret (put_cb_timer_map [] (put_id_cb_map ∅ (call_all l order)))).
    destruct H1 as [? ? Hcb _ _ ? _]. split; cbn; auto.
    + intros id p Hp. destruct (Hall id p Hp); auto.
    + intros id q. rewrite lookup_empty. discriminate.
    + constructor.
  - intros id p Hp Hn. destruct (Hall id p Hp) as [Hd|Hr]; [exact Hd | contradiction].
Qed.

Lemma setReqId_some id p l q c : m_heap l !! q = Some c ->
  exists c', m_heap (on_cb p (setReqId id) l) !! q = Some c' /\ (cb_ok c -> cb_ok c') /\ m_is_done c' = m_is_done c.
Proof.
  intros Hc. rewrite (on_cb_some _ _ _ _ _ Hc). eexists. split; [reflexivity|].
  destruct (decide (p = q)); auto.
Qed.

Lemma insert_cb_fresh id p l : m_id_cb_map l !! id = None -> insert_cb id p l = put_id_cb_map (<[id := p]> (m_id_cb_map l)) l.
Proof. intros Hn. unfold insert_cb. rewrite Hn. reflexivity. Qed.

Lemma register_ok rs ret id p c l :
  id ∉ rs.*1 -> p ∉ rs.*2 -> m_heap l !! p = Some c -> cb_ok c -> calls_ok rs ret l ->
  calls_ok ((id, p) :: rs) ret (register id p l).
Proof.
  intros Hid Hp Hc Hcok Hok. unfold register. rewrite insert_cb_fresh.
  2: { cbn. destruct (m_id_cb_map l !! id) as [q|] eqn:Hq; [|reflexivity]. destruct Hid.
       destruct (ok_table _ _ _ Hok id q Hq) as (p' & _ & Hin). apply list_elem_of_fmap. exists (id, p'). auto. }
  destruct Hok as [Hn1 Hn2 Hcb Hk Htb ? ?]. split; cbn; auto.
  - apply NoDup_cons. auto.
  - apply NoDup_cons. auto.
  - intros id' q [[= -> ->]|Hq]%elem_of_cons.
    + destruct (setReqId_some id p l p c Hc) as (c' & Hc' & Ho & _). exists c'. auto.
    + destruct (Hcb id' q Hq) as (c0 & Hc0 & Hok0). destruct (setReqId_some id p l q c0 Hc0) as (c' & Hc' & Ho & _). exists c'. auto.
  - intros id' q [[= -> ->]|Hq]%elem_of_cons.
    + right. left. apply lookup_insert_eq.
    + destruct (Hk id' q Hq) as [(c0 & Hc0 & Hd)|[Ht|Hr]]; [left | right; left | auto].
      * destruct (setReqId_some id p l q c0 Hc0) as (c' & Hc' & _ & Hd'). exists c'. rewrite Hd'. auto.
      * rewrite lookup_insert_ne; [exact Ht|]. intros <-. destruct Hid. apply list_elem_of_fmap. exists (id, q). auto.
  - intros id' q [[<- <-]|[_ Hq]]%lookup_insert_Some; [set_solver|].
    destruct (Htb id' q Hq) as (p' & -> & Hin). set_solver.
Qed.

(** A call that has been made stays made. *)
Definition keeps_done (l l' : RpcEventLooper) : Prop := forall q, cb_done l q -> cb_done l' q.

Lemma keeps_same l l' : same_calls l l' -> keeps_done l l'.
Proof. intros [Hh _ _ _] q. unfold cb_done. rewrite Hh. auto. Qed.

Lemma keeps_timeouts rs ret now l : calls_ok rs ret l -> keeps_done l (dealTimeoutCb now l).
Proof.
  intros Hok. unfold dealTimeoutCb. destruct (deal_timers _ _ _ _) as [t l'] eqn:Hd.
  exact (proj2 (proj2 (deal_timers_ok _ _ _ _ _ _ _ _ Hd (ok_timers _ _ _ Hok) Hok))).
Qed.

Lemma keeps_register id p l : keeps_done l (register id p l).
Proof.
  intros q (c & Hc & Hd). destruct (setReqId_some id p l q c Hc) as (c' & Hc' & _ & Hd').
  exists c'. rewrite Hd'. split; [|exact Hd]. unfold register, insert_cb.
  destruct (m_id_cb_map _ !! id); exact Hc'.
Qed.

Lemma new_ok rs ret p c l : m_heap l !! p = None -> calls_ok rs ret l ->
  calls_ok rs ret (put_heap (<[p := c]> (m_heap l)) l) /\ keeps_done l (put_heap (<[p := c]> (m_heap l)) l).
Proof.
  intros Hn Hok.
  assert (forall q c0, m_heap l !! q = Some c0 -> <[p := c]> (m_heap l) !! q = Some c0) as Hq.
  { intros q c0 Hq. rewrite lookup_insert_ne; [exact Hq | congruence]. }
  assert (keeps_done l (put_heap (<[p := c]> (m_heap l)) l)) as Hkeep.
  { intros q (c0 & Hc0 & Hd). exists c0. split; [apply Hq, Hc0 | exact Hd]. }
  split; [|exact Hkeep]. destruct Hok as [? ? Hcb Hk Htb ? ?]. split; auto.
  - intros id q Hin. destruct (Hcb id q Hin) as (c0 & Hc0 & Ho). exists c0. split; [apply Hq, Hc0 | exact Ho].
  - intros id q Hin. destruct (Hk id q Hin); auto.
Qed.

Lemma send_failed_ok rs ret timed tm id p st l :
  (id, p) ∈ rs -> calls_ok rs ret l ->
  calls_ok rs ret (send_failed timed tm id p st l) /\ keeps_done l (send_failed timed tm id p st l).
Proof.
  intros Hp Hok. unfold send_failed.
  set (l1 := if timed then _ else l).
  assert (calls_ok rs ret l1 /\ keeps_done l l1) as [H1 Hk1].
  { subst l1. destruct timed; [|split; [exact Hok | intros q; auto]]. split; [|intros q; auto].
    apply timers_ok; [apply timer_erase_sorted, Hok | exact Hok]. }
  split.
  - pose proof (call_ok rs ret (status_num st) [] p l1 H1) as H2.
    exact (erase_done_ok rs ret id p _ Hp (call_done rs ret (status_num st) [] id p l1 H1 Hp) H2).
  - intros q Hq. apply (cb_done_call (status_num st) [] p q (erase_cb id l1)), Hk1, Hq.
Qed.

Lemma worker_call_ok rs ret id p st rd l :
  (id, p) ∈ rs -> calls_ok rs ret l ->
  calls_ok rs ret (worker_call p st rd l) /\ keeps_done l (worker_call p st rd l) /\ cb_done (worker_call p st rd l) p.
Proof.
  intros Hp Hok. unfold worker_call. destruct (ok_cb _ _ _ Hok id p Hp) as (c & Hc & Ho & Ht).
  rewrite Hc. unfold isTimeout. rewrite Ht. cbn [negb]. split_and!.
  - apply call_ok, Hok.
  - intros q. apply cb_done_call.
  - eapply call_done; eassumption.
Qed.

Lemma new_looper_ok eps maxs host now : calls_ok [] [] (new_looper eps maxs host now).
Proof.
  eapply calls_ok_same.
  - apply foldl_same. intros l ep. apply connect_ep_same.
  - split; cbn; try solve [constructor | reflexivity];
      intros id q H; rewrite ?lookup_empty in H; first [discriminate | set_solver].
Qed.

Record sys_ok (s : client_sys) : Prop := {
  sys_calls : calls_ok (regs s) (returned s) (looper s);
  sys_held : forall x, x ∈ held s -> x ∈ regs s;
  sys_finishing : forall id p, (id, p) ∈ finishing s -> (id, p) ∈ regs s /\ cb_done (looper s) p
}.

(** The steps that only change the looper. *)
Lemma on_looper_ok l s :
  sys_ok s -> calls_ok (regs s) (returned s) l -> keeps_done (looper s) l -> sys_ok (on_looper l s).
Proof.
  intros [? ? Hf] Hok Hk. split; cbn; auto. intros id p Hp. destruct (Hf id p Hp). auto.
Qed.

Lemma on_looper_same l s : sys_ok s -> same_calls (looper s) l -> sys_ok (on_looper l s).
Proof.
  intros Hs Hl. apply on_looper_ok; [exact Hs | | apply keeps_same, Hl].
  eapply calls_ok_same; [exact Hl | apply Hs].
Qed.

Section StepsOk.
Context `{MessageCodec RpcInnerReq}.

Lemma step_ok s s' : client_step s s' -> sys_ok s -> sys_ok s'.
Proof.
  intros Hstep Hs. pose proof Hs as [Hc Hh Hf]. destruct Hstep.
  - destruct (new_ok _ _ _ (setTimeout tm (setType ty new_callback)) _ Hp Hc). apply on_looper_ok; assumption.
  - apply on_looper_same; [exact Hs | eapply tryGet_same, Hr].
  - apply on_looper_ok; [exact Hs | apply call_ok, Hc | intros q; apply cb_done_call].
  - split; cbn.
    + eapply register_ok; try eassumption. repeat split; [exact Hshared | | exact Htm].
      rewrite Hdone, Hnew. reflexivity.
    + intros x Hx. apply list_elem_of_further, Hh, Hx.
    + intros id q Hq. destruct (Hf id q Hq). split; [apply list_elem_of_further; assumption | apply keeps_register; assumption].
  - apply on_looper_ok; [exact Hs | | intros q; auto]. apply timers_ok; [apply timer_insert_sorted, Hc | exact Hc].
  - apply on_looper_same; [exact Hs | eapply conn_send_same, Hs0].
  - destruct (send_failed_ok _ _ timed tm_id _ _ st _ Hreg Hc). apply on_looper_ok; assumption.
  - split; cbn; [|exact Hh | exact Hf]. apply erase_ok; [|apply ret_ok, Hc].
    intros q _. right. apply list_elem_of_here.
  - apply on_looper_same; [exact Hs | apply reload_same].
  - split; cbn; [exact Hc | | exact Hf]. intros x [->|Hx]%elem_of_cons; [|apply Hh, Hx].
    unfold getCb in Hg. destruct (m_id_cb_map (looper s) !! req_id) as [q|] eqn:Hq; [|discriminate]. subst q.
    destruct (ok_table _ _ _ Hc _ _ Hq) as (p' & [= <-] & Hin). exact Hin.
  - assert ((req_id, p) ∈ regs s) as Hin. { apply Hh. rewrite Hh0. set_solver. }
    destruct (worker_call_ok _ _ _ _ ret_val rd _ Hin Hc) as (H1 & H2 & H3). split; cbn; [exact H1 | | ].
    + intros x Hx. apply Hh. rewrite Hh0. set_solver.
    + intros id q [[= -> ->]|Hq]%elem_of_cons; [auto|]. destruct (Hf id q Hq). auto.
  - assert ((req_id, p) ∈ regs s /\ cb_done (looper s) p) as [Hin Hd]. { apply Hf. rewrite Hf0. set_solver. }
    split; cbn; [eapply erase_done_ok; eassumption | exact Hh|].
    intros id q Hq. apply Hf. rewrite Hf0. set_solver.
  - apply on_looper_ok; [exact Hs | apply dealTimeoutCb_ok, Hc | eapply keeps_timeouts, Hc].
  - apply on_looper_same; [exact Hs | eapply on_event_same, He; apply Hc].
  - apply on_looper_same; [exact Hs | split; reflexivity].
  - destruct (removeAll_ok _ _ _ _ Horder Hc) as [H1 _]. apply on_looper_ok; [exact Hs | exact H1|].
    intros q Hq. destruct (call_all_ok _ _ order _ Hc) as (_ & _ & H3 & _). apply H3, Hq.
Qed.

Lemma client_reach_ok s : client_reach s -> sys_ok s.
Proof.
  intros (eps & maxs & host & now & Hr). remember (client_start eps maxs host now) as s0 eqn:Hs0.
  assert (sys_ok s0) as Hok.
  { subst s0. split; [apply new_looper_ok | cbn; set_solver..]. }
  clear Hs0. induction Hr as [|s1 s2 s3 H12 _ IH]; [exact Hok | eauto using step_ok].
Qed.

(** * Properties *)

(** C13: a callback is never called twice and never forgotten: whatever the
    order in which callers, workers, timers, lost connections and the end of
    the client take their steps, the callback registered for a request has been
    called at most once, and if it has not been called it is still in the
    table, or it is the blocker of a synchronous call that has returned. *)
Theorem callbacks_called_at_most_once s req_id p
    (Hr : client_reach s) (Hreg : (req_id, p) ∈ regs s) :
  exists c, m_heap (looper s) !! p = Some c /\
    ((length (calls c) = 1)%nat \/
     (calls c = [] /\ (m_id_cb_map (looper s) !! req_id = Some (Some p) \/ req_id ∈ returned s))).
Proof.
  destruct (client_reach_ok s Hr) as [Hok _ _]. destruct (ok_cb _ _ _ Hok _ _ Hreg) as (c & Hc & [_ Hl] & _).
  exists c. split; [exact Hc|]. destruct (m_is_done c) eqn:Hd; [left; exact Hl | right].
  apply nil_length_inv in Hl. split; [exact Hl|].
  destruct (ok_kept _ _ _ Hok _ _ Hreg) as [(c' & Hc' & Hd')|Hk]; [congruence | exact Hk].
Qed.

(** C28: when the loop ends after [stop], every callback that was registered
    and whose call has not returned has been called exactly once. *)
Theorem stop_calls_everyone s order req_id p
    (Hr : client_reach s) (Hstop : m_stop (looper s) = true)
    (Horder : order ≡ₚ map_to_list (m_id_cb_map (looper s)))
    (Hreg : (req_id, p) ∈ regs s) (Hret : req_id ∉ returned s) :
  let l' := removeAllConnections order (looper s) in
  m_id_cb_map l' = ∅ /\ m_cb_timer_map l' = [] /\
  exists c, m_heap l' !! p = Some c /\ (length (calls c) = 1)%nat.
Proof.
  destruct (client_reach_ok s Hr) as [Hok _ _]. destruct (removeAll_ok _ _ order _ Horder Hok) as [Hok' Hd].
  split; [reflexivity|]. split; [reflexivity|].
  destruct (Hd _ _ Hreg Hret) as (c & Hc & Hdone). exists c. split; [exact Hc|].
  destruct (ok_cb _ _ _ Hok' _ _ Hreg) as (c' & Hc' & [_ Hl] & _).
  replace c' with c in Hl by congruence. rewrite Hl, Hdone. reflexivity.
Qed.
End StepsOk.

(** * Examples *)

(** A client of one unreachable endpoint with two calls registered, whose
    timers have the same key. *)
Definition demo_new (p : nat) (s : client_sys) : client_sys :=
  on_looper (put_heap (<[p := setTimeout 5 (setType "" new_callback)]> (m_heap (looper s))) (looper s)) s.
Definition demo_register (req_id : string) (p : nat) (s : client_sys) : client_sys :=
  mk_sys (register req_id p (looper s)) ((req_id, p) :: regs s) (held s) (finishing s) (returned s).
Definition demo_call (req_id : string) (p : nat) (s : client_sys) : client_sys :=
  let s := demo_register req_id p (demo_new p s) in on_looper (start_timer 5 req_id (looper s)) s.
Definition demo_sys : client_sys :=
  demo_call "q" 1 (demo_call "r" 0 (client_start [("h"%string, 80)] 1000 (fun _ => None) 0)).
Definition demo_stopped : client_sys := on_looper (stop (looper demo_sys)) demo_sys.

Lemma demo_call_steps req_id p s :
  m_heap (looper s) !! p = None -> req_id ∉ (regs s).*1 -> p ∉ (regs s).*2 ->
  rtc client_step s (demo_call req_id p s).
Proof.
  intros Hp Hid Hr. eapply rtc_l; [apply (StepNew s p "" 5), Hp|].
  eapply rtc_l; [eapply (StepRegister _ req_id p); [exact Hid | exact Hr | apply lookup_insert_eq | reflexivity..]|].
  apply rtc_once, StepTimer with p. apply list_elem_of_here.
Qed.

Lemma demo_reach : client_reach demo_sys.
Proof.
  exists [("h"%string, 80)], 1000, (fun _ => None), 0.
  etrans; apply demo_call_steps; try reflexivity; cbn; set_solver.
Qed.

Lemma demo_stopped_reach : client_reach demo_stopped.
Proof.
  destruct demo_reach as (? & ? & ? & ? & H). do 4 eexists. eapply rtc_r; [exact H|]. apply StepStop.
Qed.

Lemma callbacks_called_at_most_once_witness :
  exists c, m_heap (looper demo_sys) !! 0%nat = Some c /\
    ((length (calls c) = 1)%nat \/
     (calls c = [] /\ (m_id_cb_map (looper demo_sys) !! "r"%string = Some (Some 0%nat) \/ "r"%string ∈ returned demo_sys))).
Proof.
  apply (callbacks_called_at_most_once demo_sys "r" 0); [exact demo_reach|].
  cbn. apply list_elem_of_further, list_elem_of_here.
Defined.

Lemma stop_calls_everyone_witness :
  let l' := removeAllConnections (map_to_list (m_id_cb_map (looper demo_stopped))) (looper demo_stopped) in
  m_id_cb_map l' = ∅ /\ m_cb_timer_map l' = [] /\
  exists c, m_heap l' !! 0%nat = Some c /\ (length (calls c) = 1)%nat.
Proof.
  apply (stop_calls_everyone demo_stopped (map_to_list (m_id_cb_map (looper demo_stopped))) "r" 0).
  - exact demo_stopped_reach.
  - reflexivity.
  - reflexivity.
  - cbn. apply list_elem_of_further, list_elem_of_here.
  - cbn. apply not_elem_of_nil.
Defined.
