(* ===== verification/EventLooperProps.v ===== *)
(** More of what holds of [RpcEventLooper] and of the calls of [RpcClient]:
    timers, answered calls, request ids, the choice of a connection, and the
    defects of losing one. *)
From Stdlib Require Import ZArith Lia Bool List String Ascii Sorted.
From stdpp Require Import base list strings gmap pretty relations.
From S2P Require Import Prelude Wire SampleCodec Socket Queue CallBack ClientConn EventLooper EventLooperCalls.

(** * Request ids *)

Lemma GenReqID_inj pid th fd tm ip l pid' th' fd' tm' ip' l'
    (Hth : no_underscore th = true) (Hth' : no_underscore th' = true)
    (Hip : no_underscore ip = true) (Hip' : no_underscore ip' = true) :
  GenReqID pid th fd tm ip l = GenReqID pid' th' fd' tm' ip' l' ->
  th = th' /\ m_req_seqid l = m_req_seqid l'.
Proof.
  unfold GenReqID. pose proof no_underscore_pretty as Hp. intros H.
  apply split_underscore in H as [_ H]; [|apply Hp..].
  apply split_underscore in H as [Ht H]; [|assumption..].
  apply split_underscore in H as [_ H]; [|apply Hp..].
  apply split_underscore in H as [_ H]; [|apply Hp..].
  apply split_underscore in H as [_ H]; [|assumption..].
  split; [exact Ht|]. apply (inj pretty), H.
Qed.

(** * Choosing a connection *)

Definition ep_valid (l : RpcEventLooper) (ep : Endpoint) : Prop :=
  exists c, m_ep_conn_map l !! ep = Some c /\ isValid c = true.

Definition eps_known (l : RpcEventLooper) : Prop :=
  forall ep, ep ∈ m_eps l -> is_Some (m_ep_conn_map l !! ep).

Lemma connect_ep_maps ep host now c l ok l' :
  connect_ep ep host now c l = (ok, l') ->
  m_eps l' = m_eps l /\ m_ep_conn_map l' = <[ep := snd (connect host now c)]> (m_ep_conn_map l) /\
  ok = fst (connect host now c).
Proof.
  unfold connect_ep, addConnection, put_conn. destruct (connect host now c) as [ok' c']. cbn [fst snd].
  destruct ((m_fd c =? -1) && ok'); [destruct (negb (m_fd c' =? -1))|]; intros [= <- <-]; auto.
Qed.

Section Choice.
Context (host : Z -> option Z) (now : Z).
(** The descriptors [connectHost] makes are not that of standard input. *)
Context (Hhost : forall i fd, host i = Some fd -> 0 < fd).

(** One turn on a connection that is not valid. *)
Lemma try_connect ep tries c l ok l1 :
  m_ep_conn_map l !! ep = Some c -> isValid c = false -> eps_known l ->
  (if shouldRetry now c then connect_ep ep (host tries) now c l else (false, l)) = (ok, l1) ->
  m_eps l1 = m_eps l /\ eps_known l1 /\ (ok = true -> ep_valid l1 ep) /\
  (forall ep', ep_valid l ep' -> ep_valid l1 ep').
Proof.
  intros Hc Hv Hk. unfold shouldRetry. destruct (Z.eqb_spec (m_fd c) (-1)) as [Hfd|Hfd];
    [|intros [= <- <-]; split_and!; [reflexivity | exact Hk | discriminate | auto]].
  destruct (60 <? now - m_last_invalid_time c);
    [|intros [= <- <-]; split_and!; [reflexivity | exact Hk | discriminate | auto]].
  intros H. destruct (connect_ep_maps _ _ _ _ _ _ _ H) as (He & Hm & Hok). split_and!; [exact He | | |].
  - intros ep' Hin. rewrite Hm. rewrite He in Hin. destruct (decide (ep = ep')) as [<-|Hn].
    + rewrite lookup_insert_eq. eauto.
    + rewrite lookup_insert_ne by exact Hn. apply Hk, Hin.
  - intros ->. unfold ep_valid. rewrite Hm, lookup_insert_eq. eexists. split; [reflexivity|].
    revert Hok. unfold connect. rewrite Hfd. cbn. destruct (host tries) as [fd|] eqn:Hh; [|discriminate].
    intros _. unfold isValid. cbn. apply Z.ltb_lt, (Hhost _ _ Hh).
  - intros ep' (c' & Hc' & Hv'). exists c'. rewrite Hm, lookup_insert_ne; [auto | congruence].
Qed.

Lemma tryGet_loop_returns n0 fuel k ep l :
  let N := zlen (m_eps l) in
  0 < N -> 0 <= n0 -> 0 <= k <= N + 1 -> N + 3 - k <= Z.of_nat fuel ->
  m_eps l !! Z.to_nat ((n0 + k) mod N) = Some ep -> eps_known l ->
  exists ep' l', tryGet_loop fuel host now N (n0 + k) k ep l = Done (ep', l') /\ ep' ∈ m_eps l /\
    ((exists d epd, k <= d < N /\ m_eps l !! Z.to_nat ((n0 + d) mod N) = Some epd /\ ep_valid l epd) ->
     ep_valid l' ep').
Proof.
  intros N. subst N. revert k ep l. induction fuel as [|fuel IH]; intros k ep l HN Hn0 Hk Hf Hep Hkn; [lia|].
  cbn [tryGet_loop]. pose proof (list_elem_of_lookup_2 _ _ _ Hep) as Hin.
  destruct (Hkn ep Hin) as [c Hc]. rewrite Hc. cbn [need outcome_bind].
  destruct (isValid c) eqn:Hv.
  { exists ep, l. split_and!; [reflexivity | exact Hin | intros _; exists c; auto]. }
  destruct (if shouldRetry now c then _ else _) as [ok l1] eqn:Ht.
  destruct (try_connect _ _ _ _ _ _ Hc Hv Hkn Ht) as (He & Hkn1 & Hok & Hmono).
  destruct ok. { exists ep, l1. split_and!; auto. }
  destruct (Z.ltb_spec (zlen (m_eps l)) k).
  { exists ep, l1. split_and!; [reflexivity | exact Hin | intros (d & epd & Hd & _); lia]. }
  pose proof (Z.mod_pos_bound (n0 + k + 1) (zlen (m_eps l)) HN) as Hb.
  destruct (lookup_lt_is_Some_2 (m_eps l1) (Z.to_nat ((n0 + k + 1) mod zlen (m_eps l)))) as [ep1 Hep1].
  { rewrite He. unfold zlen in *. lia. }
  rewrite Hep1. cbn [need outcome_bind]. rewrite He in Hep1.
  specialize (IH (k + 1) ep1 l1). rewrite He, Z.add_assoc in IH.
  destruct IH as (ep' & l' & Hdone & Hin' & Htarget); [lia.. | exact Hep1 | exact Hkn1|].
  exists ep', l'. split_and!; [exact Hdone | exact Hin'|].
  intros (d & epd & Hd & Hepd & Hvd). apply Htarget. exists d, epd. split_and!; auto; [|lia].
  destruct (Z.eq_dec d k) as [->|]; [|lia]. destruct Hvd as (c' & Hc' & Hv').
  rewrite Hep in Hepd. injection Hepd as <-. congruence.
Qed.
End Choice.

Lemma tryGetAvaliableConn_ends host now l
    (Hhost : forall i fd, host i = Some fd -> 0 < fd) (Hk : eps_known l) :
  exists r l', tryGetAvaliableConn host now l = Done (r, l') /\
    (m_eps l = [] -> r = None) /\
    (m_eps l <> [] -> exists ep, r = Some ep /\ ep ∈ m_eps l /\
       ((exists ep', ep' ∈ m_eps l /\ ep_valid l ep') -> ep_valid l' ep)).
Proof.
  unfold tryGetAvaliableConn. destruct (Z.eqb_spec (zlen (m_eps l)) 0) as [Hz|Hz].
  { exists None, l. split_and!; [reflexivity | auto | intros Hn; destruct (m_eps l); [congruence|discriminate]]. }
  pose proof (zlen_nonneg (m_eps l)). set (N := zlen (m_eps l)) in *.
  pose proof (Z.mod_pos_bound (m_req_seqid l) N ltac:(lia)) as Hn0. set (n0 := m_req_seqid l mod N) in *.
  destruct (lookup_lt_is_Some_2 (m_eps l) (Z.to_nat n0)) as [ep Hep]. { unfold N, zlen in *. lia. }
  rewrite Hep. cbn [need outcome_bind].
  destruct (tryGet_loop_returns host now Hhost n0 (Z.to_nat (N + 3)) 0 ep l) as (ep' & l' & Hd & Hin & Hv);
    [lia..| |exact Hk|].
  { fold N. rewrite Z.add_0_r, Z.mod_small by lia. exact Hep. }
  fold N in Hd, Hv. rewrite Z.add_0_r in Hd. rewrite Hd. cbn [outcome_bind]. exists (Some ep'), l'.
  split_and!; [reflexivity | intros Hnil; contradiction Hz; unfold N; rewrite Hnil; reflexivity |].
  intros _. exists ep'. split_and!; [reflexivity | exact Hin|]. intros (epd & Hd' & Hvd). apply Hv.
  apply list_elem_of_lookup in Hd' as [j Hj]. pose proof (lookup_lt_Some _ _ _ Hj) as Hlt.
  exists ((Z.of_nat j - n0) mod N), epd. pose proof (Z.mod_pos_bound (Z.of_nat j - n0) N ltac:(lia)).
  split_and!; [lia | lia | | exact Hvd]. rewrite Zplus_mod_idemp_r.
  replace (n0 + (Z.of_nat j - n0)) with (Z.of_nat j) by lia. rewrite Z.mod_small by (unfold N, zlen; lia).
  rewrite Nat2Z.id. exact Hj.
Qed.

(** [refreshEndpoints] gives every endpoint its connection. *)
Lemma reload_known eps host now l : eps_known (reloadEndpoints eps host now l).
Proof.
  unfold reloadEndpoints, refreshEndpoints. cbn [m_eps put_eps].
  set (f := fun l ep => _).
  assert (forall xs l, m_eps (foldl f l xs) = m_eps l /\
            forall ep, ep ∈ xs \/ is_Some (m_ep_conn_map l !! ep) -> is_Some (m_ep_conn_map (foldl f l xs) !! ep)) as Hfold.
  { clear l. induction xs as [|x xs IH]; intros l; cbn [foldl]; [split; [reflexivity | set_solver]|].
    destruct (IH (f l x)) as [He Hm].
    assert (m_eps (f l x) = m_eps l /\ is_Some (m_ep_conn_map (f l x) !! x) /\
            forall ep, is_Some (m_ep_conn_map l !! ep) -> is_Some (m_ep_conn_map (f l x) !! ep)) as (H1 & H2 & H3).
    { unfold f. destruct (m_ep_conn_map l !! x) as [c|] eqn:Hx; [rewrite Hx; eauto|].
      destruct (connect_ep x (host x) now new_client_conn l) as [ok l1] eqn:Hc. cbn [snd].
      destruct (connect_ep_maps _ _ _ _ _ _ _ Hc) as (He1 & Hm1 & _). rewrite Hm1. split_and!.
      - exact He1.
      - rewrite lookup_insert_eq. eauto.
      - intros ep Hep. destruct (decide (x = ep)) as [<-|Hn]; [rewrite lookup_insert_eq; eauto|].
        rewrite lookup_insert_ne by exact Hn. exact Hep. }
    rewrite He, H1. split; [reflexivity|]. intros ep [[->|Hin]%elem_of_cons|Hs]; apply Hm; auto. }
  intros ep Hin. destruct (Hfold eps (put_eps eps l)) as [He Hm]. apply Hm. left.
  rewrite He in Hin. exact Hin.
Qed.

(** * Lost connections *)

(** An operation on a connection that has been found broken leaves it so. *)
Lemma getResponse_broken fuel c rx : is_connected c = false -> getResponse fuel c rx = Done (-1, None, c, rx).
Proof.
  intros Hb. assert (getResponse_data c rx = Done (-1, None, c, rx)) as Hd.
  { unfold getResponse_data, readPkgData. rewrite Hb. destruct (m_rpk c); reflexivity. }
  unfold getResponse, readPkgLen. rewrite Hb. destruct (m_cur_pkg_size c =? 0); [reflexivity | exact Hd].
Qed.

Lemma sendData_loop_fail fuel i elapsed timeout data total sent c tx out c' tx' :
  sendData_loop fuel i elapsed timeout data total sent c tx = Done (RPC_SEND_FAIL, out, c', tx') ->
  is_connected c' = false.
Proof.
  revert i sent tx out tx'. induction fuel as [|fuel IH]; intros i sent tx out tx'; cbn [sendData_loop]; [discriminate|].
  destruct ((0 <? timeout) && (timeout <? elapsed i)); [discriminate|].
  destruct (send _ _) as [r tx1]. destruct r as [n| | | |]; try apply IH; try (intros [= <- <- <-]; reflexivity).
  destruct (n <=? 0); [intros [= <- <- <-]; reflexivity|].
  destruct (zlen data <? sent + n); [discriminate|].
  destruct (u32 (sent + n) =? total); [discriminate|].
  destruct (sendData_loop _ _ _ _ _ _ _ _ _) as [[[[rc out1] c1] tx2]|] eqn:Hl; [|discriminate].
  cbn [outcome_bind]. intros [= -> _ <- _]. exact (IH _ _ _ _ _ Hl).
Qed.

Lemma setInvalid_connected now c c' : setInvalid now c = Done c' -> is_connected c' = is_connected c /\ m_fd c' = -1.
Proof. unfold setInvalid. destruct (m_rpk c); intros [= <-]; auto. Qed.

(** * One call *)

(** A callback object as [new] makes it, up to its type and timeout. *)
Definition unused (c : RpcClientCallBack) : Prop :=
  calls c = [] /\ m_is_done c = false /\ m_is_shared c = false /\ m_has_timeout c = false.

Section Call.
Context `{MessageCodec RpcInnerReq} `{MessageCodec RpcInnerResp}.

(** What a call that could be sent leaves: its callback in the table. *)
Lemma sendReq_effect e service method data p l out req_id l1 c :
  sendReq e service method data (Some p) l = Done (RPC_SEND_OK, out, req_id, l1) ->
  m_heap l !! p = Some c -> m_id_cb_map l !! req_id = None ->
  m_heap l1 = alter (setReqId req_id) p (m_heap l) /\ m_id_cb_map l1 = <[req_id := Some p]> (m_id_cb_map l).
Proof.
  intros Hs Hc Hid. unfold sendReq in Hs. destruct (m_max_req_size l <? zlen data); [discriminate|].
  destruct (tryGetAvaliableConn _ _ l) as [[conn l0]|] eqn:Ht; [|discriminate]. cbn [outcome_bind] in Hs.
  destruct (tryGet_same _ _ _ _ _ Ht) as [Hh0 Hi0 _ _].
  destruct conn as [ep|]; [|discriminate].
  set (id := env_id e _) in Hs. set (lr := register id p l0) in Hs.
  destruct (m_heap lr !! p) as [cb|] eqn:Hcb; [|discriminate]. cbn [need outcome_bind] in Hs.
  set (lt := if 0 <? m_timeout cb then _ else lr) in Hs.
  destruct (conn_send _ _ _ _ _ _ _ _ lt) as [[[st out'] l2]|] eqn:Hsend; [|discriminate]. cbn [outcome_bind] in Hs.
  destruct (bool_decide (st = RPC_SEND_OK)) eqn:Hst.
  2: { apply bool_decide_eq_false in Hst. injection Hs as Hs _ _ _. contradiction. }
  injection Hs as _ _ Hid' <-. destruct (conn_send_same _ _ _ _ _ _ _ _ _ _ _ _ Hsend) as [Hh2 Hi2 _ _].
  assert (m_heap lt = m_heap lr /\ m_id_cb_map lt = m_id_cb_map lr) as [Hht Hit]
    by (subst lt; destruct (0 <? m_timeout cb); auto).
  rewrite Hh2, Hi2, Hht, Hit, <- Hid' in *. subst lr. unfold register.
  rewrite insert_cb_fresh by (cbn; rewrite Hi0; exact Hid). cbn. rewrite Hh0, Hi0. auto.
Qed.

Lemma sendReq_registers e service method data p l out req_id l1 c :
  sendReq e service method data (Some p) l = Done (RPC_SEND_OK, out, req_id, l1) ->
  m_heap l !! p = Some c -> m_id_cb_map l !! req_id = None ->
  m_heap l1 !! p = Some (setReqId req_id c) /\ m_id_cb_map l1 = <[req_id := Some p]> (m_id_cb_map l).
Proof.
  intros Hs Hc Hid. destruct (sendReq_effect _ _ _ _ _ _ _ _ _ _ Hs Hc Hid) as [-> ->].
  rewrite lookup_alter_eq, Hc. auto.
Qed.

Lemma getCb_some id l p : m_id_cb_map l !! id = Some (Some p) -> getCb id l = Some p.
Proof. intros Hid. unfold getCb. destruct (m_id_cb_map l !! id); [injection Hid as ->; reflexivity | discriminate]. Qed.

Lemma getCb_none id l : m_id_cb_map l !! id = None -> getCb id l = None.
Proof. intros Hid. unfold getCb. destruct (m_id_cb_map l !! id); [discriminate | reflexivity]. Qed.

(** A worker's turn with a response to a call that is waiting. *)
Lemma worker_effect pkg l req_id ret rd p c :
  client_response pkg = Done (Some (req_id, ret, rd)) ->
  m_id_cb_map l !! req_id = Some (Some p) -> m_heap l !! p = Some c -> unused c ->
  exists l', worker_run pkg l = Done l' /\ m_id_cb_map l' = delete req_id (m_id_cb_map l) /\
    m_heap l' = alter (callback_safe ret rd) p (m_heap l).
Proof.
  intros Hr Hid Hp (_ & _ & _ & Htm). unfold worker_run. rewrite Hr. cbn [outcome_bind].
  rewrite (getCb_some _ _ _ Hid). eexists. split; [reflexivity|]. unfold worker_call. rewrite Hp. unfold isTimeout. rewrite Htm.
  split; reflexivity.
Qed.

Lemma unused_called ret rd c : unused c -> calls (callback_safe ret rd c) = [(ret, rd)].
Proof. intros (Hcalls & Hd & Hsh & _). unfold callback_safe. rewrite Hsh, Hd. cbn. rewrite Hcalls. reflexivity. Qed.

Lemma worker_delivers pkg l req_id ret rd p c :
  client_response pkg = Done (Some (req_id, ret, rd)) ->
  m_id_cb_map l !! req_id = Some (Some p) -> m_heap l !! p = Some c -> unused c ->
  exists l', worker_run pkg l = Done l' /\ m_id_cb_map l' = delete req_id (m_id_cb_map l) /\
    exists c', m_heap l' !! p = Some c' /\ calls c' = [(ret, rd)].
Proof.
  intros Hr Hid Hp Hu. destruct (worker_effect _ _ _ _ _ _ _ Hr Hid Hp Hu) as (l' & Hw & Hi & Hh).
  exists l'. split; [exact Hw|]. split; [exact Hi|]. rewrite Hh, lookup_alter_eq, Hp. eexists. split; [reflexivity|].
  apply unused_called, Hu.
Qed.

Lemma worker_ignores pkg l req_id ret rd :
  client_response pkg = Done (Some (req_id, ret, rd)) -> m_id_cb_map l !! req_id = None -> worker_run pkg l = Done l.
Proof. intros Hr Hid. unfold worker_run. rewrite Hr. cbn. rewrite (getCb_none _ _ Hid). reflexivity. Qed.
End Call.

(** * Properties *)

(** C14: choosing a connection ends: when every configured endpoint has its
    connection object, [tryGetAvaliableConn] goes round at most two times more
    than there are endpoints, gives [nullptr] only if there are none, gives one
    of them otherwise, and gives a valid connection whenever one is valid. *)
Theorem tryGetAvaliableConn_returns host now l
    (Hhost : forall i fd, host i = Some fd -> 0 < fd) (Hk : eps_known l) :
  exists r l', tryGetAvaliableConn host now l = Done (r, l') /\
    (m_eps l = [] -> r = None) /\
    (m_eps l <> [] -> exists ep, r = Some ep /\ ep ∈ m_eps l /\
       ((exists ep', ep' ∈ m_eps l /\ ep_valid l ep') -> ep_valid l' ep)).
Proof. apply tryGetAvaliableConn_ends; assumption. Qed.

(** [reloadEndpoints] stores the new endpoints before [refreshEndpoints]
    takes the mutex to make their connections: a caller that chooses a
    connection in between, and whose sequence number selects a new endpoint,
    goes through a null pointer, while after [refreshEndpoints] the same choice
    is safe. *)
Theorem reload_races_with_choice host host' now l eps ep
    (Hhost : forall i fd, host i = Some fd -> 0 < fd)
    (Hsel : eps !! Z.to_nat (m_req_seqid l mod zlen eps) = Some ep)
    (Hnew : m_ep_conn_map l !! ep = None) :
  tryGetAvaliableConn host now (put_eps eps l) = Stuck NullPointer /\
  exists r l', tryGetAvaliableConn host now (reloadEndpoints eps host' now l) = Done (r, l').
Proof.
  split.
  - unfold tryGetAvaliableConn. cbn [m_eps put_eps m_req_seqid]. destruct (Z.eqb_spec (zlen eps) 0) as [Hz|Hz].
    { destruct eps; [discriminate Hsel | unfold zlen in Hz; discriminate]. }
    rewrite Hsel. cbn [need outcome_bind]. pose proof (zlen_nonneg eps).
    destruct (Z.to_nat (zlen eps + 3)) as [|fuel] eqn:Hf; [lia|].
    cbn [tryGet_loop m_ep_conn_map put_eps]. rewrite Hnew. reflexivity.
  - destruct (tryGetAvaliableConn_ends host now (reloadEndpoints eps host' now l)) as (r & l' & H & _); eauto.
    apply reload_known.
Qed.

(** C27: timeouts fire: in any reachable state a pass over the timers at the
    time [now] calls the callback of every expired timer that is still in the
    table, with the status [RPC_CB_TIMEOUT], and takes it out of the table; a
    request without an expired timer stays in the table, its callback
    untouched. *)
Theorem expired_callbacks_fire `{MessageCodec RpcInnerReq} s now req_id p c
    (Hr : client_reach s) (Hid : m_id_cb_map (looper s) !! req_id = Some (Some p))
    (Hc : m_heap (looper s) !! p = Some c) :
  let l' := dealTimeoutCb (fun _ => now) (looper s) in
  if existsb (fun t => (fst t <? now) && String.eqb (snd t) req_id) (m_cb_timer_map (looper s)) then
    m_heap l' !! p = Some (callback_safe (status_num RPC_CB_TIMEOUT) [] c) /\ m_id_cb_map l' !! req_id = None
  else m_heap l' !! p = Some c /\ m_id_cb_map l' !! req_id = Some (Some p).
Proof.
  destruct (client_reach_ok s Hr) as [Hok _ _]. cbv zeta. unfold dealTimeoutCb.
  destruct (deal_timers _ _ _ _) as [t l'] eqn:Hd. cbn [m_heap m_id_cb_map put_cb_timer_map].
  destruct (existsb _ _) eqn:He.
  - apply existsb_exists in He as ([tm id] & Hin%list_elem_of_In & [Hlt%Z.ltb_lt Heq%String.eqb_eq]%andb_prop).
    cbn in Hlt, Heq. subst id. eapply deal_fires; eauto. apply Hok.
  - assert (forall tm, (tm, req_id) ∈ m_cb_timer_map (looper s) -> now <= tm) as Ht.
    { intros tm Hin%list_elem_of_In. destruct (Z.ltb_spec tm now); [|assumption].
      assert (existsb (fun t => (fst t <? now) && String.eqb (snd t) req_id) (m_cb_timer_map (looper s)) = true); [|congruence].
      apply existsb_exists. exists (tm, req_id). split; [exact Hin|]. cbn. rewrite String.eqb_refl. lia. }
    split; [|etrans; [exact (deal_unexpired _ _ _ _ _ _ _ Hd Ht) | exact Hid]].
    rewrite (deal_untouched _ _ _ _ _ _ p Hd); [exact Hc|].
    intros tm id Hin Hlt Hm. rewrite (table_ptrs _ _ _ _ _ _ Hok Hm Hid) in Hin. specialize (Ht tm Hin). lia.
Qed.

(** A send that fails erases every timer of its second, not its own alone:
    another request whose timer has the same key keeps its callback in the
    table, and no later pass over the timers calls it, at whatever time. *)
Theorem failed_send_drops_timers `{MessageCodec RpcInnerReq} s tm req_id p st req_id' p' now
    (Hr : client_reach s) (Hreg : (req_id, p) ∈ regs s) (Hne : req_id <> req_id')
    (Hid : m_id_cb_map (looper s) !! req_id' = Some (Some p'))
    (Honly : forall tm', (tm', req_id') ∈ m_cb_timer_map (looper s) -> tm' = tm) :
  let l' := dealTimeoutCb (fun _ => now) (send_failed true tm req_id p st (looper s)) in
  m_heap l' !! p' = m_heap (looper s) !! p' /\ m_id_cb_map l' !! req_id' = Some (Some p').
Proof.
  destruct (client_reach_ok s Hr) as [Hok _ _]. cbv zeta. unfold dealTimeoutCb.
  destruct (deal_timers _ _ _ _) as [t l'] eqn:Hd. cbn [m_heap m_id_cb_map put_cb_timer_map].
  destruct (send_failed_ok _ _ true tm _ _ st _ Hreg Hok) as [Hok' _].
  destruct (ok_table _ _ _ Hok _ _ Hid) as (q & [= <-] & Hreg').
  assert (m_id_cb_map (send_failed true tm req_id p st (looper s)) !! req_id' = Some (Some p')) as Hid'.
  { cbn. rewrite lookup_delete_ne by exact Hne. exact Hid. }
  assert (forall tm', (tm', req_id') ∉ m_cb_timer_map (send_failed true tm req_id p st (looper s))) as Hnone.
  { intros tm' Hin. cbn in Hin. apply timer_erase_elem in Hin as [Hin Hn]. apply Hn. cbn. apply Honly, Hin. }
  split.
  2: { etrans; [|exact Hid']. apply (deal_unexpired _ _ _ _ _ _ req_id' Hd). intros tm' Hin. destruct (Hnone _ Hin). }
  rewrite (deal_untouched _ _ _ _ _ _ p' Hd).
  - cbn. apply lookup_alter_ne. intros <-. apply Hne.
    exact (ptrs_functional _ _ _ _ (ok_ptrs _ _ _ Hok) Hreg Hreg').
  - intros tm' id Hin _ Hm. rewrite (table_ptrs _ _ _ _ _ _ Hok' Hm Hid') in Hin. exact (Hnone _ Hin).
Qed.

(** No step of the client files a callback under its connection, so when
    the loop finds a connection broken and removes it, no callback is called
    and none leaves the table: the requests sent on it are left to their
    timeouts. *)
Theorem lost_connection_tells_nobody `{MessageCodec RpcInnerReq} s fd ep now l'
    (Hr : client_reach s) (Hrm : removeConnection fd ep now (looper s) = Done l') :
  m_heap l' = m_heap (looper s) /\ m_id_cb_map l' = m_id_cb_map (looper s).
Proof.
  destruct (client_reach_ok s Hr) as [Hok _ _].
  destruct (removeConnection_same _ _ _ _ _ (ok_conn _ _ _ Hok) Hrm) as [H1 H2 _ _]. auto.
Qed.

(** [waitAllCBDone] has no timeout: given any timeout but zero, it is
    still waiting however often it has looked, as long as the table holds a
    callback at each look. *)
Theorem waitAllCBDone_waits_for_ever timeout looks
    (Ht : timeout <> 0) (Hl : Forall (fun l => m_id_cb_map l <> ∅) looks) :
  waitAllCBDone timeout looks = None.
Proof.
  induction Hl as [|l looks Hl _ IH]; cbn; (destruct (Z.eqb_spec timeout 0); [contradiction|]); [reflexivity|].
  rewrite bool_decide_false by exact Hl. rewrite IH. reflexivity.
Qed.

(** A connection on which a send has failed never receives again: once it
    has been invalidated and has connected anew it is valid and requests are
    sent on it, but every attempt to read a response fails, whatever arrives. *)
Theorem failed_send_deafens `{MessageCodec RpcInnerReq} fuel elapsed service method data req_id oneway timeout c tx out c' tx'
    now c'' fd now'
    (Hs : ClientConn.sendReq fuel elapsed service method data req_id oneway timeout c tx = Done (RPC_SEND_FAIL, out, c', tx'))
    (Hi : setInvalid now c' = Done c'') (Hfd : 0 < fd) :
  let c3 := snd (connect (Some fd) now' c'') in
  isValid c3 = true /\ forall fuel rx, getResponse fuel c3 rx = Done (-1, None, c3, rx).
Proof.
  unfold ClientConn.sendReq in Hs. destruct (out_data _ _ _ _ _ _) as [[o len]|]; [|discriminate].
  apply sendData_loop_fail in Hs. destruct (setInvalid_connected _ _ _ Hi) as [Hb Hf]. rewrite Hs in Hb.
  unfold connect. rewrite Hf. cbn. split; [apply Z.ltb_lt, Hfd|].
  intros fuel' rx. apply getResponse_broken. exact Hb.
Qed.

(** C29: request ids tell calls apart: two ids made by the same client differ
    when different threads made them, and when one thread made them with
    different sequence numbers. *)
Theorem GenReqID_unique pid th fd tm ip l th' fd' tm' l'
    (Hth : no_underscore th = true) (Hth' : no_underscore th' = true) (Hip : no_underscore ip = true)
    (Hn : th <> th' \/ m_req_seqid l <> m_req_seqid l') :
  GenReqID pid th fd tm ip l <> GenReqID pid th' fd' tm' ip l'.
Proof. intros H. destruct (GenReqID_inj _ _ _ _ _ _ _ _ _ _ _ _ Hth Hth' Hip Hip H). tauto. Qed.

Section Calls.
Context `{MessageCodec RpcInnerReq} `{MessageCodec RpcInnerResp}.

(** An asynchronous call that was sent is answered once: when a worker
    takes a response with the call's request id, the callback is called with
    the status and the data of the response, it leaves the table, and another
    response with the same id is dropped. *)
Theorem async_call_answered e service method data timeout p l out req_id l1 c pkg ret rd
    (Hs : async_call e service method data timeout (Some p) l = Done (RPC_SEND_OK, out, req_id, l1))
    (Hc : m_heap l !! p = Some c) (Hu : unused c) (Hid : m_id_cb_map l !! req_id = None)
    (Hp : client_response pkg = Done (Some (req_id, ret, rd))) :
  exists l2, worker_run pkg l1 = Done l2 /\ m_id_cb_map l2 = m_id_cb_map l /\
    (exists c', m_heap l2 !! p = Some c' /\ calls c' = [(ret, rd)]) /\
    worker_run pkg l2 = Done l2.
Proof.
  destruct (sendReq_registers _ _ _ _ _ _ _ _ _ (setTimeout timeout c) Hs) as [Hh Hi].
  { cbn. rewrite lookup_alter_eq, Hc. reflexivity. }
  { exact Hid. }
  cbn in Hi. destruct (worker_delivers pkg l1 req_id ret rd p (setReqId req_id (setTimeout timeout c)) Hp)
    as (l2 & Hw & Hi2 & Hcalls);
    [rewrite Hi; apply lookup_insert_eq | exact Hh | exact Hu |].
  exists l2. rewrite Hi in Hi2. rewrite (delete_insert_id _ _ _ Hid) in Hi2. split_and!; auto.
  eapply worker_ignores; [exact Hp|]. rewrite Hi2. exact Hid.
Qed.

(** C18: a synchronous call returns its answer: when a worker has taken a
    response with the call's request id before [wait] begins, or while it
    waits and is woken by it, the call returns the status and the data of that
    response and leaves no callback behind. *)
Theorem sync_call_answered e service method data timeout p l out req_id l1 pkg ret rd
    (Hs : call_send e service method data timeout p l = Done (RPC_SEND_OK, out, req_id, l1))
    (Hid : m_id_cb_map l !! req_id = None) (Hp : client_response pkg = Done (Some (req_id, ret, rd))) :
  exists l2, worker_run pkg l1 = Done l2 /\
    (forall woken, fst (call_return RPC_SEND_OK req_id p l2 woken l2) = (Some ret, rd)) /\
    fst (call_return RPC_SEND_OK req_id p l1 true l2) = (Some ret, rd) /\
    m_id_cb_map (snd (call_return RPC_SEND_OK req_id p l2 true l2)) = m_id_cb_map l.
Proof.
  destruct (sendReq_registers _ _ _ _ _ _ _ _ _ _ Hs (lookup_insert_eq _ _ _) Hid) as [Hh Hi].
  cbn in Hi. edestruct (worker_delivers pkg l1 req_id ret rd p) as (l2 & Hw & Hi2 & c' & Hc' & Hcalls);
    [exact Hp | rewrite Hi; apply lookup_insert_eq | exact Hh | repeat split |].
  exists l2. rewrite Hi in Hi2. rewrite (delete_insert_id _ _ _ Hid) in Hi2.
  unfold call_return, blocker_at. rewrite bool_decide_true by reflexivity. rewrite Hc', Hh.
  unfold blocker_of. rewrite Hcalls. cbn. split_and!; auto. rewrite Hi2. apply delete_id, Hid.
Qed.
End Calls.

(** * Examples *)

Definition two_eps : list Endpoint := [("h"%string, 80); ("h"%string, 81)].
Definition two_looper : RpcEventLooper :=
  new_looper two_eps 1000 (fun ep => if snd ep =? 81 then Some 5 else None) 0.

Lemma tryGetAvaliableConn_returns_witness :
  exists r l', tryGetAvaliableConn (fun _ => Some 7) 10 two_looper = Done (r, l') /\
    (m_eps two_looper = [] -> r = None) /\
    (m_eps two_looper <> [] -> exists ep, r = Some ep /\ ep ∈ m_eps two_looper /\
       ((exists ep', ep' ∈ m_eps two_looper /\ ep_valid two_looper ep') -> ep_valid l' ep)).
Proof.
  apply (tryGetAvaliableConn_returns (fun _ => Some 7) 10 two_looper).
  - intros i fd [= <-]. lia.
  - intros ep [->|[->|[]%elem_of_nil]%elem_of_cons]%elem_of_cons; eexists; reflexivity.
Defined.

Lemma reload_races_with_choice_witness :
  tryGetAvaliableConn (fun _ => None) 10 (put_eps [("new"%string, 1)] two_looper) = Stuck NullPointer /\
  exists r l', tryGetAvaliableConn (fun _ => None) 10
    (reloadEndpoints [("new"%string, 1)] (fun _ => None) 10 two_looper) = Done (r, l').
Proof.
  apply (reload_races_with_choice (fun _ => None) (fun _ => None) 10 two_looper [("new"%string, 1)] ("new"%string, 1));
    [discriminate | reflexivity | reflexivity].
Defined.

Lemma expired_callbacks_fire_witness :
  let l' := dealTimeoutCb (fun _ => 6) (looper demo_sys) in
  if existsb (fun t => (fst t <? 6) && String.eqb (snd t) "r") (m_cb_timer_map (looper demo_sys)) then
    m_heap l' !! 0%nat = Some (callback_safe (status_num RPC_CB_TIMEOUT) [] (setReqId "r" (setTimeout 5 (setType "" new_callback))))
    /\ m_id_cb_map l' !! "r"%string = None
  else m_heap l' !! 0%nat = Some (setReqId "r" (setTimeout 5 (setType "" new_callback)))
    /\ m_id_cb_map l' !! "r"%string = Some (Some 0%nat).
Proof.
  assert (m_id_cb_map (looper demo_sys) !! "r"%string = Some (Some 0%nat)) as Hid by (vm_compute; reflexivity).
  assert (m_heap (looper demo_sys) !! 0%nat = Some (setReqId "r" (setTimeout 5 (setType "" new_callback)))) as Hc
    by (vm_compute; reflexivity).
  exact (expired_callbacks_fire demo_sys 6 "r" 0 _ demo_reach Hid Hc).
Defined.

Lemma failed_send_drops_timers_witness :
  let l' := dealTimeoutCb (fun _ => 1000) (send_failed true 5 "q" 1 RPC_SEND_FAIL (looper demo_sys)) in
  m_heap l' !! 0%nat = m_heap (looper demo_sys) !! 0%nat /\ m_id_cb_map l' !! "r"%string = Some (Some 0%nat).
Proof.
  apply (failed_send_drops_timers demo_sys 5 "q" 1 RPC_SEND_FAIL "r" 0 1000).
  - exact demo_reach.
  - cbn. apply list_elem_of_here.
  - discriminate.
  - vm_compute. reflexivity.
  - intros tm' Hin%list_elem_of_In. cbn in Hin. destruct Hin as [[= ?]|[[= ?]|[]]]; congruence.
Defined.

Lemma lost_connection_tells_nobody_witness : exists l',
  removeConnection 5 ("h"%string, 80) 9 (looper demo_sys) = Done l' /\
  m_heap l' = m_heap (looper demo_sys) /\ m_id_cb_map l' = m_id_cb_map (looper demo_sys).
Proof.
  destruct (removeConnection 5 ("h"%string, 80) 9 (looper demo_sys)) as [l'|] eqn:Hl; [|vm_compute in Hl; discriminate].
  exists l'. split; [reflexivity|].
  exact (lost_connection_tells_nobody demo_sys 5 ("h"%string, 80) 9 l' demo_reach Hl).
Defined.

Lemma waitAllCBDone_waits_for_ever_witness : waitAllCBDone 3 (repeat (looper demo_sys) 100) = None.
Proof.
  apply (waitAllCBDone_waits_for_ever 3 (repeat (looper demo_sys) 100)); [discriminate|].
  apply List.Forall_forall. intros l ->%repeat_spec H.
  apply (f_equal (fun m : gmap string RpcCBPtr => m !! "r"%string)) in H. vm_compute in H. discriminate.
Defined.

Lemma failed_send_deafens_witness :
  let c3 := snd (connect (Some 6) 100 (put_invalid_time 30 (put_fd (-1) (put_connected false (put_fd 5 new_client_conn))))) in
  isValid c3 = true /\ forall fuel rx, getResponse fuel c3 rx = Done (-1, None, c3, rx).
Proof.
  eapply (failed_send_deafens 5 (fun _ => 0) "calc" "add" (bs "1+2") "id1" false 10 (put_fd 5 new_client_conn)
    [TxError] _ _ _ 30); [vm_compute; reflexivity | reflexivity | reflexivity].
Defined.

Lemma GenReqID_unique_witness :
  GenReqID 12 "140" 5 99 "10.0.0.1" two_looper <> GenReqID 12 "140" 5 99 "10.0.0.1" (put_req_seqid 1 two_looper).
Proof.
  apply (GenReqID_unique 12 "140" 5 99 "10.0.0.1" two_looper "140" 5 99 (put_req_seqid 1 two_looper));
    [reflexivity.. | right; discriminate].
Defined.

Definition demo_env : send_env :=
  {| env_now := 10; env_id := fun s => ("1_2_5_10_ip_" +:+ s)%string; env_host := fun _ => None;
     env_fuel := 5; env_elapsed := fun _ => 0; env_tx := [TxAccept 10000] |}.
Definition one_looper : RpcEventLooper := new_looper [("h"%string, 80)] 1000 (fun _ => Some 5) 0.
Definition with_cb (l : RpcEventLooper) : RpcEventLooper := put_heap (<[0%nat := new_callback]> (m_heap l)) l.

Definition demo_response : response_pkg :=
  let wire := put32 (ByteSize {| resp_version := RPCFRAME_VER; resp_request_id := "1_2_5_10_ip_0" |})
    ++ serialize {| resp_version := RPCFRAME_VER; resp_request_id := "1_2_5_10_ip_0" |} ++ bs "3" ++ put32 8 in
  {| rs_data := Some <$> wire; rs_data_len := zlen wire |}.

Lemma async_call_answered_witness : exists out l1 l2,
  async_call demo_env "calc" "add" (bs "1+2") 7 (Some 0%nat) (with_cb one_looper)
    = Done (RPC_SEND_OK, out, "1_2_5_10_ip_0"%string, l1) /\
  worker_run demo_response l1 = Done l2 /\ m_id_cb_map l2 = m_id_cb_map (with_cb one_looper) /\
  (exists c', m_heap l2 !! 0%nat = Some c' /\ calls c' = [(8, bs "3")]) /\
  worker_run demo_response l2 = Done l2.
Proof.
  destruct (async_call demo_env "calc" "add" (bs "1+2") 7 (Some 0%nat) (with_cb one_looper))
    as [[[[st out] id] l1]|] eqn:Hs; [|exfalso; vm_compute in Hs; discriminate].
  assert (st = RPC_SEND_OK /\ id = "1_2_5_10_ip_0"%string) as [-> ->]
    by (vm_compute in Hs; injection Hs as <- _ <- _; auto).
  exists out, l1.
  destruct (async_call_answered demo_env "calc" "add" (bs "1+2") 7 0 (with_cb one_looper) out "1_2_5_10_ip_0" l1
    new_callback demo_response 8 (bs "3") Hs) as (l2 & H); [reflexivity | repeat split | reflexivity | vm_compute; reflexivity |].
  exists l2. split; [reflexivity | exact H].
Defined.

Lemma sync_call_answered_witness : exists out l1 l2,
  call_send demo_env "calc" "add" (bs "1+2") 7 0 one_looper = Done (RPC_SEND_OK, out, "1_2_5_10_ip_0"%string, l1) /\
  worker_run demo_response l1 = Done l2 /\
  (forall woken, fst (call_return RPC_SEND_OK "1_2_5_10_ip_0" 0 l2 woken l2) = (Some 8, bs "3")) /\
  fst (call_return RPC_SEND_OK "1_2_5_10_ip_0" 0 l1 true l2) = (Some 8, bs "3") /\
  m_id_cb_map (snd (call_return RPC_SEND_OK "1_2_5_10_ip_0" 0 l2 true l2)) = m_id_cb_map one_looper.
Proof.
  destruct (call_send demo_env "calc" "add" (bs "1+2") 7 0 one_looper)
    as [[[[st out] id] l1]|] eqn:Hs; [|exfalso; vm_compute in Hs; discriminate].
  assert (st = RPC_SEND_OK /\ id = "1_2_5_10_ip_0"%string) as [-> ->]
    by (vm_compute in Hs; injection Hs as <- _ <- _; auto).
  exists out, l1.
  destruct (sync_call_answered demo_env "calc" "add" (bs "1+2") 7 0 one_looper out "1_2_5_10_ip_0" l1
    demo_response 8 (bs "3") Hs) as (l2 & H); [reflexivity | vm_compute; reflexivity |].
  exists l2. split; [reflexivity | exact H].
Defined.
