(* ===== verification/ServiceProps.v ===== *)
(** What the worker answers: the responses it makes itself for unknown
    services and methods, and how many responses a request gets. *)
From Stdlib Require Import ZArith Lia Bool List String Ascii.
From stdpp Require Import base list strings gmap.
From S2P Require Import Prelude Wire Socket Stats SampleCodec RespBroker Service.
From S2P Require ServerConnProps.
From S2P Require Import ClientConn ClientConnProps RoundTrip.
Import ServerConnProps(frame, delivered).

Definition zero_time : timing := {| queue_ms := 0; call_ms := 0; age_s := 0 |}.

Section Dispatch.
Context `{MessageCodecLaw RpcInnerReq req_fits} `{MessageCodecLaw RpcInnerResp resp_fits}.

(** The header of the responses to request [reqid]. *)
Definition resp_of (reqid : string) : RpcInnerResp :=
  {| resp_version := RPCFRAME_VER; resp_request_id := reqid |}.

(** The package the server makes when no method has made one. *)
Definition default_pkg (reqid : string) (rs : RpcStatus) : response_pkg :=
  {| rs_data := (Some <$> response_header (resp_of reqid) 1) ++ new_buffer 1 ++ (Some <$> put32 (status_num rs));
     rs_data_len := 12 + ByteSize (resp_of reqid) + 1 |}.

Lemma default_response conn_id reqid needResp rs :
  ByteSize (resp_of reqid) < 2 ^ 30 ->
  setReturnVal rs (new_broker conn_id reqid needResp false) =
    Done (allocated (new_broker conn_id reqid needResp false) (new_buffer 1) (Some <$> put32 (status_num rs))).
Proof.
  intros Hsz. set (b := new_broker conn_id reqid needResp false).
  pose proof (setReturnVal_spec b (new_buffer 1) (new_buffer 4) rs eq_refl eq_refl) as Hs.
  rewrite <- Hs. unfold setReturnVal at 1. cbn [b new_broker m_resp_pkg m_return_val_pos m_from_http negb Z.eqb].
  fold b. rewrite allocRespBuf_spec; [|reflexivity | lia | change (m_resp_proto b) with (resp_of reqid); lia].
  reflexivity.
Qed.

Lemma pushed_default conn_id reqid needResp rs type connid :
  pushResponse (allocated (new_broker conn_id reqid needResp false) (new_buffer 1) (Some <$> put32 (status_num rs)))
    connid type
  = Done (match type with TWO_WAY => [Pushed connid (default_pkg reqid rs)] | ONE_WAY => [] end).
Proof.
  destruct type; [reflexivity|]. unfold pushResponse, pushed_pkg, isAlloced.
  set (b := allocated _ _ _).
  assert (Hpos : (m_return_val_pos b =? 0) = false).
  { change (m_return_val_pos b) with (8 + ByteSize (resp_of reqid) + 1).
    pose proof (zlen_nonneg (serialize (resp_of reqid))) as Hs. fold (ByteSize (resp_of reqid)) in Hs. lia. }
  rewrite Hpos. reflexivity.
Qed.

(** What a client reads from such a package: the status, and one byte that
    was never written. *)
Lemma default_pkg_read reqid rs wire :
  ByteSize (resp_of reqid) < 2 ^ 30 -> on_wire (rs_data (default_pkg reqid rs)) wire ->
  exists payload junk, wire = frame payload /\
    client_response (delivered_response payload) = Done (Some (reqid, status_num rs, [junk])).
Proof.
  intros Hsz Hw. pose proof (zlen_nonneg (serialize (resp_of reqid))) as Hs. fold (ByteSize (resp_of reqid)) in Hs.
  apply on_wire_app in Hw as (h & rest & -> & Hh & Hr). apply on_wire_app in Hr as (u & tl & -> & Hu & Ht).
  apply on_wire_some in Hh. apply on_wire_some in Ht. subst h tl.
  pose proof (on_wire_length _ _ Hu) as Hul. rewrite length_new_buffer in Hul by lia.
  destruct u as [|junk [|j u]]; [discriminate | | rewrite !zlen_cons in Hul; pose proof (zlen_nonneg u); lia].
  exists (put32 (ByteSize (resp_of reqid)) ++ serialize (resp_of reqid) ++ [junk] ++ put32 (status_num rs)), junk.
  split.
  - unfold frame, response_header. rewrite <- !app_assoc. do 2 f_equal. rewrite !zlen_app, !zlen_put32.
    change (zlen [junk]) with 1. fold (ByteSize (resp_of reqid)). lia.
  - apply (client_response_spec (resp_of reqid) [junk] rs); [split; discriminate || reflexivity|].
    change (zlen [junk]) with 1. lia.
Qed.

(** A request package of an RPC client. *)
Lemma run_unknown_service req pkg t w :
  req_fits req -> ByteSize req < 2 ^ 31 -> ByteSize (resp_of (req_request_id req)) < 2 ^ 30 ->
  req_data req <> None ->
  rq_data pkg = Some <$> request_payload req [] -> rq_data_len pkg = zlen (request_payload req []) ->
  rq_is_from_http pkg = false -> m_srvmap w !! req_service_name req = None ->
  run pkg true t w = Done (put_server (ServerStatus.calcReqQTime (Z.max 0 (queue_ms t)) (m_server w)) w,
    match req_type req with
    | TWO_WAY => [Pushed (rq_connection_id pkg) (default_pkg (req_request_id req) RPC_SRV_NOTFOUND)]
    | ONE_WAY => []
    end).
Proof.
  intros Hfit Hsz Hsz2 Hd Hdata Hlen Hhttp Hsrv.
  pose proof (zlen_nonneg (serialize req)) as Hs. fold (ByteSize req) in Hs.
  assert (Hsz32 : ByteSize req < 2 ^ 32) by lia.
  destruct (request_header req [] Hfit Hsz32) as (Hw & Hh & Hp).
  unfold run, request_data. rewrite Hdata, Hw. cbn [outcome_bind]. rewrite Hh. cbn [outcome_bind].
  rewrite Hp. destruct (req_data req) as [d|]; [|contradiction]. cbn [outcome_bind negb put_server m_srvmap].
  rewrite Hsrv, Hhttp, default_response by exact Hsz2. cbn [outcome_bind]. rewrite pushed_default.
  reflexivity.
Qed.

(** The responses among the effects. *)
Definition responses_of (l : list effect) : list (string * response_pkg) :=
  omap (fun e => match e with Pushed c p => Some (c, p) | _ => None end) l.

Lemma responses_of_app l k : responses_of (l ++ k) = responses_of l ++ responses_of k.
Proof. apply omap_app. Qed.

Lemma responses_of_pushed c l : responses_of (map (Pushed c) l) = map (pair c) l.
Proof. induction l as [|p l IH]; cbn; [reflexivity|]. f_equal. exact IH. Qed.

(** Writing the package of a broker leaves the rest of it. *)
Lemma write_pkg_responed off d b b' : write_pkg off d b = Done b' -> m_is_responed b' = m_is_responed b.
Proof. unfold write_pkg. intros H3. outcome_inv. reflexivity. Qed.

Lemma allocHttpBuf_responed status len b p b' :
  allocHttpBuf status len b = Done (p, b') -> m_is_responed b' = m_is_responed b.
Proof.
  unfold allocHttpBuf. cbv zeta. intros H3. apply outcome_bind_done in H3 as (b1 & Hw & H3).
  injection H3 as <- <-. cbn. exact (write_pkg_responed _ _ _ _ Hw).
Qed.

Lemma allocRespBuf_responed len b p b' : allocRespBuf len b = Done (p, b') -> m_is_responed b' = m_is_responed b.
Proof.
  unfold allocRespBuf. destruct (m_from_http b); [apply allocHttpBuf_responed|]. cbv zeta. intros H3.
  apply outcome_bind_done in H3 as (b1 & H4 & H3). apply outcome_bind_done in H3 as (b2 & H5 & H3).
  apply outcome_bind_done in H3 as (b3 & H6 & H3). injection H3 as <- <-. cbn.
  apply write_pkg_responed in H4, H5, H6. cbn in H4. congruence.
Qed.

Lemma setReturnVal_responed rs b b' : setReturnVal rs b = Done b' -> m_is_responed b' = m_is_responed b.
Proof.
  unfold setReturnVal. intros H3. apply outcome_bind_done in H3 as (b1 & H4 & H3).
  assert (Hb1 : m_is_responed b1 = m_is_responed b).
  { destruct (m_resp_pkg b); [injection H4 as <-; reflexivity|].
    destruct (_ =? 0); [|injection H4 as <-; reflexivity].
    apply outcome_bind_done in H4 as ([p b2] & H4 & H5). injection H5 as <-.
    destruct (negb _); [exact (allocRespBuf_responed _ _ _ _ H4) | exact (allocHttpBuf_responed _ _ _ _ _ H4)]. }
  destruct (negb (m_from_http b1)); [apply write_pkg_responed in H3; congruence | injection H3 as <-; exact Hb1].
Qed.

Lemma late_return_responses b connid ret : responses_of (late_return b connid ret) = [].
Proof. unfold late_return. destruct (_ && _); reflexivity. Qed.

(** What follows a call adds at most one response, to the same connection;
    none for a one-way request, none when the method says [RPC_SERVER_NONE],
    and none when it says [RPC_SERVER_OK] and has responded. *)
Lemma finish_call_responses ret b req connid l :
  finish_call ret b req connid = Done l ->
  responses_of l = [] \/ exists p, responses_of l = [(connid, p)] /\ req_type req = TWO_WAY /\
    ret <> RPC_SERVER_NONE /\ (ret = RPC_SERVER_OK -> m_is_responed b = false).
Proof.
  assert (Hpush : forall b l, pushResponse b connid (req_type req) = Done l ->
    responses_of l = [] \/ exists p, responses_of l = [(connid, p)] /\ req_type req = TWO_WAY).
  { intros b' l'. unfold pushResponse. destruct (req_type req); [intros [= <-]; auto|].
    destruct (pushed_pkg b') as [[p ?]|]; [|discriminate]. cbn. intros [= <-]. right. exists p. auto. }
  assert (Hstop : [] = @nil effect -> responses_of [] = []) by reflexivity.
  intros Hf. destruct ret; cbn [finish_call] in Hf;
    try (destruct (Hpush _ _ Hf) as [? | (p & ? & ?)]; [auto | right; exists p; repeat split; auto; discriminate]);
    try (injection Hf as <-; auto; fail).
  - apply outcome_bind_done in Hf as (b1 & Hs & Hf). apply outcome_bind_done in Hf as (l1 & Hl & Hf).
    injection Hf as <-. rewrite responses_of_app.
    rewrite late_return_responses. cbn [List.app].
    destruct (Hpush _ _ Hl) as [? | (p & ? & ?)]; [auto | right; exists p; repeat split; auto; discriminate].
  - apply outcome_bind_done in Hf as (b1 & Hs & Hf). apply setReturnVal_responed in Hs. unfold isResponed in Hf.
    rewrite Hs in Hf. destruct (m_is_responed b); [injection Hf as <-; left; apply late_return_responses|].
    destruct (Hpush _ _ Hf) as [? | (p & ? & ?)]; [auto | right; exists p; repeat split; auto; discriminate].
  - apply outcome_bind_done in Hf as (b1 & Hs & Hf). apply outcome_bind_done in Hf as (l1 & Hl & Hf).
    injection Hf as <-. rewrite responses_of_app.
    rewrite late_return_responses. cbn [List.app].
    destruct (Hpush _ _ Hl) as [? | (p & ? & ?)]; [auto | right; exists p; repeat split; auto; discriminate].
Qed.

(** * Properties *)

(** C30: an unknown service.  The worker calls nothing, and a two-way request
    gets exactly one response, on its connection, from which the client reads
    the request id, the status [RPC_SRV_NOTFOUND] and one byte of data: a byte
    the server never wrote. *)
Theorem unknown_service_answered req pkg t w
    (Hfit : req_fits req) (Hsz : ByteSize req < 2 ^ 31) (Hsz2 : ByteSize (resp_of (req_request_id req)) < 2 ^ 30)
    (Hd : req_data req <> None) (Htwo : req_type req = TWO_WAY)
    (Hpkg : pkg = delivered (rq_connection_id pkg) (request_payload req []))
    (Hsrv : m_srvmap w !! req_service_name req = None) :
  exists w' p, run pkg true t w = Done (w', [Pushed (rq_connection_id pkg) p]) /\
    forall wire, on_wire (rs_data p) wire -> exists payload junk, wire = frame payload /\
      client_response (delivered_response payload)
      = Done (Some (req_request_id req, status_num RPC_SRV_NOTFOUND, [junk])).
Proof.
  do 2 eexists. split.
  - rewrite (run_unknown_service req pkg t w Hfit Hsz Hsz2 Hd);
      [rewrite Htwo; reflexivity | rewrite Hpkg; reflexivity | rewrite Hpkg; reflexivity
      | rewrite Hpkg; reflexivity | exact Hsrv].
  - intros wire Hw. apply default_pkg_read; assumption.
Qed.


(** A method that has responded and then fails is answered twice: the
    worker writes its status into the response that is already queued and
    queues the same package again. *)
Theorem failing_after_response_answers_twice conn_id reqid rs ret req rd t w m s
    (Hsz : ByteSize (resp_of reqid) < 2 ^ 30) (Htwo : req_type req = TWO_WAY)
    (Hret : ret = RPC_SERVER_FAIL \/ ret = RPC_METHOD_NOTFOUND)
    (Hm : s !! req_method_name req = Some m) (Hlate : client_timed_out req t = false)
    (Hfunc : forall d b, m_func m d b =
       let! (_, o, b) := response rs b in Done (ret, b, match o with Some p => [p] | None => [] end)) :
  exists w' l, run_service s req rd (new_broker conn_id reqid true false) conn_id t w = Done (w', l) /\
    length (responses_of l) = 2%nat.
Proof.
  set (b0 := new_broker conn_id reqid true false).
  set (b1 := allocated b0 (new_buffer 1) (Some <$> put32 (status_num rs))).
  pose proof (zlen_nonneg (serialize (resp_of reqid))) as Hs. fold (ByteSize (resp_of reqid)) in Hs.
  assert (Hpos : forall u, (m_return_val_pos (allocated b0 (new_buffer 1) u) =? 0) = false).
  { intros u. change (m_return_val_pos (allocated b0 (new_buffer 1) u)) with (8 + ByteSize (resp_of reqid) + 1). lia. }
  assert (Hresp : exists p, response rs b0 = Done (true, Some p, put_responed b1)).
  { unfold response. change (negb (m_need_resp b0)) with false. cbv iota.
    change (m_from_http b0) with false. cbv iota. unfold b0 at 1. rewrite default_response by exact Hsz.
    cbn [outcome_bind]. fold b0. fold b1. unfold pushed_pkg, isAlloced.
    change (m_return_val_pos (put_responed b1)) with (m_return_val_pos b1). unfold b1 at 1. rewrite Hpos.
    eexists. reflexivity. }
  destruct Hresp as (p & Hresp).
  unfold run_service, runMethod. rewrite Hm, Hfunc, Hresp. cbn [outcome_bind]. rewrite Hlate.
  assert (Hfin : exists q, finish_call ret (put_responed b1) req conn_id
                  = Done [LateReturnVal conn_id ret; Pushed conn_id q]).
  { assert (Hset : setReturnVal ret (put_responed b1)
                   = Done (put_responed (allocated b0 (new_buffer 1) (Some <$> put32 (status_num ret))))).
    { exact (setReturnVal_spec (put_responed b0) (new_buffer 1) (Some <$> put32 (status_num rs)) ret eq_refl eq_refl). }
    assert (Hpush : exists q, pushResponse (put_responed (allocated b0 (new_buffer 1) (Some <$> put32 (status_num ret))))
                      conn_id (req_type req) = Done [Pushed conn_id q]).
    { rewrite Htwo. unfold pushResponse, pushed_pkg, isAlloced.
      change (m_return_val_pos (put_responed ?b)) with (m_return_val_pos b).
      set (u := Some <$> put32 (status_num ret)). rewrite (Hpos u). eexists. reflexivity. }
    destruct Hpush as (q & Hpush). exists q.
    destruct Hret as [-> | ->]; cbn [finish_call]; rewrite Hset; cbn [outcome_bind];
      rewrite Hpush; reflexivity. }
  destruct Hfin as (q & Hfin). rewrite Hfin. cbn [outcome_bind].
  do 2 eexists. split; [reflexivity|]. reflexivity.
Qed.
End Dispatch.

(** * Examples *)

Definition no_services : RpcWorker := mk_worker ∅ ServerStatus.new_counters.

Lemma unknown_service_answered_witness :
  exists w' p, run (delivered "c1" (request_payload sample_req [])) true zero_time no_services
      = Done (w', [Pushed "c1" p]) /\
    forall wire, on_wire (rs_data p) wire -> exists payload junk, wire = frame payload /\
      client_response (delivered_response payload) = Done (Some ("id1"%string, status_num RPC_SRV_NOTFOUND, [junk])).
Proof.
  apply (unknown_service_answered sample_req (delivered "c1" (request_payload sample_req [])) zero_time no_services).
  - split; split; discriminate || reflexivity.
  - vm_compute. reflexivity.
  - vm_compute. reflexivity.
  - discriminate.
  - reflexivity.
  - reflexivity.
  - reflexivity.
Defined.

(** A method that responds and then fails. *)
Definition respond_then_fail : RPC_FUNC_T := fun _ b =>
  let! (_, o, b) := response RPC_SERVER_OK b in
  Done (RPC_SERVER_FAIL, b, match o with Some p => [p] | None => [] end).
Definition failing_service : IServiceImpl := add_method "add" respond_then_fail false ∅.

Definition failing_method : RpcMethod := new_method respond_then_fail false.

Lemma failing_after_response_answers_twice_witness :
  exists w' l, run_service failing_service sample_req (bs "1+2") (new_broker "c1" "id1" true false) "c1" zero_time no_services
      = Done (w', l) /\ length (responses_of l) = 2%nat.
Proof.
  apply (failing_after_response_answers_twice "c1" "id1" RPC_SERVER_OK RPC_SERVER_FAIL sample_req (bs "1+2")
    zero_time no_services failing_method failing_service).
  - vm_compute. reflexivity.
  - reflexivity.
  - left. reflexivity.
  - reflexivity.
  - reflexivity.
  - intros d b. reflexivity.
Defined.

(** A method that leaves the response to the worker. *)
Definition quiet_service : IServiceImpl := add_method "add" (fun _ b => Done (RPC_SERVER_OK, b, [])) false ∅.
Definition quiet_run : outcome (RpcWorker * list effect) :=
  run_service quiet_service sample_req (bs "1+2") (new_broker "c1" "id1" true false) "c1" zero_time no_services.
Definition quiet_effects : list effect := match quiet_run with Done (_, l) => l | Stuck _ => [] end.

