(* ===== verification/ConnWorker.v ===== *)
(** [RpcServerConnWorker] of [server/src/RpcServerConnWorker.cpp]: one thread
    that accepts connections, reads requests into the queue of the worker
    threads, and sends the responses these threads push.

    A worker serves connections of one class, RPC or HTTP ([m_conn_type]): the
    type [C] with its [ServerConnection].  The connections are keyed by
    [m_seqid], as in [m_conn_set]; [EpollStruct] and the connection it points
    to are identified with that key.  Of the epoll set only the connections
    whose [EPOLLOUT] is armed are kept. *)
From Stdlib Require Import ZArith Lia Bool List String Ascii.
From stdpp Require Import base list strings gmap pretty.
From S2P Require Import Prelude Wire Socket Queue Stats ServerConn Connection.

Section Worker.
Context {C : Type}.

(** * State *)

Record RpcServerConnWorker := mk_worker {
  m_conn_set : gmap string C;
  m_epoll_out : gset string;
  m_resp_conn_q : Queue string;
  m_name : string;
  m_resp_ev : Z;                   (* the counter behind m_resp_ev_fd *)
  m_worker_seqid : Z;              (* uint32_t m_seqid *)
  m_task_q : Queue request_pkg;    (* the queue of m_worker_thread_pool *)
  m_conn_num : Z;                  (* std::atomic<uint64_t> of the server *)
  m_counters : ServerStatus.counters
}.

Definition put_conn_set (v : gmap string C) (w : RpcServerConnWorker) : RpcServerConnWorker :=
  mk_worker v (m_epoll_out w) (m_resp_conn_q w) (m_name w) (m_resp_ev w) (m_worker_seqid w) (m_task_q w) (m_conn_num w) (m_counters w).
Definition put_epoll_out (v : gset string) (w : RpcServerConnWorker) : RpcServerConnWorker :=
  mk_worker (m_conn_set w) v (m_resp_conn_q w) (m_name w) (m_resp_ev w) (m_worker_seqid w) (m_task_q w) (m_conn_num w) (m_counters w).
Definition put_resp_conn_q (v : Queue string) (w : RpcServerConnWorker) : RpcServerConnWorker :=
  mk_worker (m_conn_set w) (m_epoll_out w) v (m_name w) (m_resp_ev w) (m_worker_seqid w) (m_task_q w) (m_conn_num w) (m_counters w).
Definition put_resp_ev (v : Z) (w : RpcServerConnWorker) : RpcServerConnWorker :=
  mk_worker (m_conn_set w) (m_epoll_out w) (m_resp_conn_q w) (m_name w) v (m_worker_seqid w) (m_task_q w) (m_conn_num w) (m_counters w).
Definition put_worker_seqid (v : Z) (w : RpcServerConnWorker) : RpcServerConnWorker :=
  mk_worker (m_conn_set w) (m_epoll_out w) (m_resp_conn_q w) (m_name w) (m_resp_ev w) v (m_task_q w) (m_conn_num w) (m_counters w).
Definition put_task_q (v : Queue request_pkg) (w : RpcServerConnWorker) : RpcServerConnWorker :=
  mk_worker (m_conn_set w) (m_epoll_out w) (m_resp_conn_q w) (m_name w) (m_resp_ev w) (m_worker_seqid w) v (m_conn_num w) (m_counters w).
Definition put_conn_num (v : Z) (w : RpcServerConnWorker) : RpcServerConnWorker :=
  mk_worker (m_conn_set w) (m_epoll_out w) (m_resp_conn_q w) (m_name w) (m_resp_ev w) (m_worker_seqid w) (m_task_q w) v (m_counters w).
Definition put_counters (v : ServerStatus.counters) (w : RpcServerConnWorker) : RpcServerConnWorker :=
  mk_worker (m_conn_set w) (m_epoll_out w) (m_resp_conn_q w) (m_name w) (m_resp_ev w) (m_worker_seqid w) (m_task_q w) (m_conn_num w) v.

Definition put_conn (id : string) (c : C) (w : RpcServerConnWorker) : RpcServerConnWorker :=
  put_conn_set (<[id := c]> (m_conn_set w)) w.

Definition new_worker (name : string) (max_req_qsize : Z) : RpcServerConnWorker :=
  mk_worker ∅ ∅ default_Queue name 0 0 (new_Queue max_req_qsize) 0 ServerStatus.new_counters.

(** [m_epoll.Mod(fd, eps, EPOLLIN | EPOLLOUT)] and
    [m_epoll.Mod(fd, eps, EPOLLIN | EPOLLET)] *)
Definition arm_out (id : string) (w : RpcServerConnWorker) : RpcServerConnWorker :=
  put_epoll_out ({[id]} ∪ m_epoll_out w) w.
Definition disarm_out (id : string) (w : RpcServerConnWorker) : RpcServerConnWorker :=
  put_epoll_out (m_epoll_out w ∖ {[id]}) w.

(** * Connections *)

Context `{ServerConnection C}.

(** [emplace] keeps a connection that is already there. *)
Definition addConnection (c : C) (w : RpcServerConnWorker) : RpcServerConnWorker :=
  let id := m_seqid (base c) in
  let w := match m_conn_set w !! id with Some _ => w | None => put_conn id c w end in
  put_conn_num (u64 (m_conn_num w + 1)) (disarm_out id w).

Definition removeConnection (id : string) (w : RpcServerConnWorker) : RpcServerConnWorker :=
  put_conn_num (u64 (m_conn_num w - 1))
    (put_conn_set (delete id (m_conn_set w)) (disarm_out id w)).

(** What a new connection is made of: the time, the descriptor [accept] gives,
    and the limit in the server's configuration. *)
Record accepted := { acc_time : Z; acc_fd : Z; acc_max_req_size : Z }.

(** [m_seqid]: the time, the worker's name and counter, and the descriptor. *)
Definition conn_seqid (name : string) (n : Z) (a : accepted) : string :=
  (pretty (acc_time a) +:+ "_" +:+ name +:+ "_" +:+ pretty n +:+ "_" +:+ pretty (acc_fd a))%string.

(** [onAccept]: [None] when [accept] fails.  The result also says whether the
    new socket has been closed. *)
Definition onAccept (max_conn_num : Z) (a : option accepted) (w : RpcServerConnWorker)
    : bool * RpcServerConnWorker :=
  match a with
  | None => (false, w)
  | Some a =>
      let full := max_conn_num <=? m_conn_num w in
      let w := if full then put_counters (ServerStatus.IncRejectedConn (m_counters w)) w else w in
      let w := put_worker_seqid (u32 (m_worker_seqid w + 1)) w in
      let c := new_connection (conn_seqid (m_name w) (m_worker_seqid w) a) (acc_max_req_size a) in
      (full, addConnection c w)
  end.

(** * Requests *)

(** [pushReqToWorkers], the failure count included. *)
Definition push_request (pkg : request_pkg) (w : RpcServerConnWorker) : outcome RpcServerConnWorker :=
  let! (ok, q) := push_now pkg (m_task_q w) in
  let w := put_task_q q w in
  Done (if ok : bool then w else put_counters (ServerStatus.IncReqInQFail (m_counters w)) w).

(** [onDataIn] for the connection [id] with the data [rx] in its socket, up to
    the removal of a connection that failed ([false]); the loop goes round only
    if [getRequest] were to return a positive number. *)
Fixpoint onDataIn_read (turns fuel : nat) (id : string) (rx : list rx_event) (w : RpcServerConnWorker)
    : outcome (bool * RpcServerConnWorker * list rx_event) :=
  match turns with
  | O => Stuck Spinning
  | S turns =>
      let! c := need NullPointer (m_conn_set w !! id) in
      let! ((st, o), c, rx) := conn_getRequest fuel c rx in
      let w := put_conn id c w in
      if st <? 0 then Done (false, w, rx)
      else
        match o with
        | Some pkg => let! w := push_request pkg w in Done (true, w, rx)
        | None => if st =? 0 then Done (true, w, rx) else onDataIn_read turns fuel id rx w
        end
  end.

(** [onDataIn] run without interruption. *)
Definition onDataIn (turns fuel : nat) (id : string) (rx : list rx_event) (w : RpcServerConnWorker)
    : outcome (bool * RpcServerConnWorker * list rx_event) :=
  let! (go, w, rx) := onDataIn_read turns fuel id rx w in
  Done (go, if go : bool then w else removeConnection id w, rx).

(** * Responses *)

(** [onDataOut], up to and with the call of [sendResponse]. *)
Definition onDataOut_send (id : string) (tx : list tx_event) (w : RpcServerConnWorker)
    : outcome (PkgIOStatus * buffer * RpcServerConnWorker * list tx_event) :=
  let! c := need NullPointer (m_conn_set w !! id) in
  let! (st, out, b, tx) := sendResponse (base c) tx in
  Done (st, out, put_conn id (put_base b c) w, tx).

(** [conn->m_response_q.size() == 0] *)
Definition response_q_empty (id : string) (w : RpcServerConnWorker) : bool :=
  match m_conn_set w !! id with Some c => size (m_response_q (base c)) =? 0 | None => true end.

(** [onDataOut] run without interruption. *)
Definition onDataOut (id : string) (tx : list tx_event) (w : RpcServerConnWorker)
    : outcome (bool * buffer * RpcServerConnWorker * list tx_event) :=
  let! (st, out, w, tx) := onDataOut_send id tx w in
  match st with
  | FAIL => Done (false, out, removeConnection id w, tx)
  | PARTIAL => Done (true, out, w, tx)
  | NODATA => Done (true, out, disarm_out id w, tx)
  | _ => Done (true, out, if response_q_empty id w then disarm_out id w else w, tx)
  end.

(** [onDataOutEvent], in the three steps other threads can come between: the
    event, the queue of ids, and the connection.  The descriptor is a
    semaphore: [eventfd_read] takes one off the counter.  At zero there is
    nothing to take (the descriptor blocks; epoll reports it only when the
    counter is positive), which is here the branch of a failing read. *)
Definition onDataOutEvent_read (w : RpcServerConnWorker) : option RpcServerConnWorker :=
  if m_resp_ev w =? 0 then None else Some (put_resp_ev (m_resp_ev w - 1) w).

Definition onDataOutEvent_pop (w : RpcServerConnWorker) : option string * RpcServerConnWorker :=
  let '(connid, q) := pop_now (m_resp_conn_q w) in (connid, put_resp_conn_q q w).

Definition onDataOutEvent_arm (connid : string) (w : RpcServerConnWorker) : RpcServerConnWorker :=
  match m_conn_set w !! connid with
  | Some c => if negb (isSending (base c)) then arm_out connid w else w
  | None => w
  end.

(** [onDataOutEvent] run without interruption. *)
Definition onDataOutEvent (w : RpcServerConnWorker) : bool * RpcServerConnWorker :=
  match onDataOutEvent_read w with
  | None => (false, w)
  | Some w =>
      match onDataOutEvent_pop w with
      | (Some connid, w) => (true, onDataOutEvent_arm connid w)
      | (None, w) => (true, w)
      end
  end.

(** [pushResp] for a package, in the three steps other threads can come
    between: the connection's queue, the worker's queue, the event. *)
Definition pushResp_queue (id : string) (pkg : response_pkg) (w : RpcServerConnWorker)
    : outcome (bool * RpcServerConnWorker) :=
  match m_conn_set w !! id with
  | None => Done (false, w)
  | Some c =>
      let! (ok, q) := push_now pkg (m_response_q (base c)) in
      let w := put_conn id (put_base (put_response_q q (base c)) c) w in
      Done (ok, if ok : bool then w else put_counters (ServerStatus.IncRespInQFail (m_counters w)) w)
  end.

Definition pushResp_conn (id : string) (w : RpcServerConnWorker) : outcome RpcServerConnWorker :=
  let! (_, q) := push_now id (m_resp_conn_q w) in Done (put_resp_conn_q q w).

Definition pushResp_event (w : RpcServerConnWorker) : RpcServerConnWorker :=
  put_resp_ev (m_resp_ev w + 1) w.

(** [pushResp] run without interruption. *)
Definition pushResp (id : string) (pkg : response_pkg) (w : RpcServerConnWorker) : outcome RpcServerConnWorker :=
  let! (ok, w) := pushResp_queue id pkg w in
  if ok : bool then let! w := pushResp_conn id w in Done (pushResp_event w) else Done w.

Definition dumpConnIDs (w : RpcServerConnWorker) : list string := (map_to_list (m_conn_set w)).*1.

(** * The loop *)

(** What [epoll_wait] reports: the listening socket with what [accept] will
    give, the event descriptor, or a connection with what its socket holds and
    takes. *)
Inductive ready :=
| ReadyListen (a : option accepted)
| ReadyResp
| ReadyConn (id : string) (epollin epollout : bool) (rx : list rx_event) (tx : list tx_event).

(** One turn of the inner loop of [start]: the worker and the bytes sent. *)
Definition start_event (max_conn_num : Z) (fuel : nat) (e : ready) (w : RpcServerConnWorker)
    : outcome (RpcServerConnWorker * buffer) :=
  match e with
  | ReadyListen a => Done (snd (onAccept max_conn_num a w), [])
  | ReadyResp => Done (snd (onDataOutEvent w), [])
  | ReadyConn id epollin epollout rx tx =>
      let! (go, w) := if epollin then let! (go, w, _) := onDataIn fuel fuel id rx w in Done (go, w) else Done (true, w) in
      if negb go || negb epollout then Done (w, [])
      else let! (_, out, w, _) := onDataOut id tx w in Done (w, out)
  end.

(** The events of one [Wait], in order. *)
Fixpoint start_events (max_conn_num : Z) (fuel : nat) (l : list ready) (w : RpcServerConnWorker)
    : outcome (RpcServerConnWorker * buffer) :=
  match l with
  | [] => Done (w, [])
  | e :: l =>
      let! (w, out) := start_event max_conn_num fuel e w in
      let! (w, out') := start_events max_conn_num fuel l w in
      Done (w, out ++ out')
  end.

(** One turn of the outer loop: [m_stop] when the loop tests it, what [Wait]
    gives ([None] for -1), and [m_stop] when a failed wait tests it. *)
Record turn := { stop_at_test : bool; waited : option (list ready); stop_at_error : bool }.

(** The outer loop, over the turns it takes: it ends, with [true], when it sees
    [m_stop]; [false] when it is still running after the turns given. *)
Fixpoint start_loop (max_conn_num : Z) (fuel : nat) (turns : list turn) (w : RpcServerConnWorker)
    : outcome (bool * RpcServerConnWorker * buffer) :=
  match turns with
  | [] => Done (false, w, [])
  | t :: turns =>
      if stop_at_test t then Done (true, w, [])
      else
        match waited t with
        | None => if stop_at_error t then Done (true, w, []) else start_loop max_conn_num fuel turns w
        | Some l =>
            let! (w, out) := start_events max_conn_num fuel l w in
            let! (ended, w, out') := start_loop max_conn_num fuel turns w in
            Done (ended, w, out ++ out')
        end
  end.

(** [start]: [None] for [false], when the epoll set or the event descriptor
    could not be made. *)
Definition start (epoll_fd ev_fd : Z) (max_conn_num : Z) (fuel : nat) (turns : list turn) (w : RpcServerConnWorker)
    : outcome (option bool * RpcServerConnWorker * buffer) :=
  if epoll_fd <? 0 then Done (None, w, [])
  else if ev_fd =? -1 then Done (None, w, [])
  else let! (ended, w, out) := start_loop max_conn_num fuel turns w in Done (Some ended, w, out).
End Worker.

Arguments RpcServerConnWorker : clear implicits.
