(* ===== verification/ConnWorkerProps.v ===== *)
(** The connection worker while other threads push responses: in every
    interleaving of the steps in which the threads touch what they share, a
    connection with something to send is armed for [EPOLLOUT] or about to be,
    and every connection is found under its own name.  What is done under the
    lock of the connections is here done with no thread in the middle of
    pushing; [ConnThreads] has the lock. *)
From Stdlib Require Import ZArith Lia Bool List String Ascii.
From stdpp Require Import base list strings gmap pretty.
From S2P Require Import Prelude Wire Socket Queue Stats ServerConn Connection ConnWorker.
From S2P Require ServerConnProps.
Import ServerConnProps(frame, delivered).

(** * The interleaving *)

Section Sys.
Context {C : Type} `{SC : ServerConnection C, SCL : !ServerConnectionLaw C}.

(** Where the connection thread is inside [onDataOutEvent] and [onDataOut]. *)
Inductive out_phase :=
| Idle
| EventRead                   (* has taken an event; the queue of ids is next *)
| Seen (id : string)          (* has taken an id; its connection is next *)
| SentFull (id : string)      (* a response is complete; the queue's size is next *)
| WillDisarm (id : string)    (* about to give [EPOLLOUT] up *)
| WillRemove (id : string).   (* about to remove the connection *)

(** The worker, the threads that have pushed a response but not yet the
    connection's id, those that have not yet written the event, and the
    connection thread. *)
Record sys := mk_sys {
  wk : RpcServerConnWorker C;
  at_connq : list string;
  at_event : nat;
  phase : out_phase
}.

(** What follows [sendResponse] in [onDataOut]. *)
Definition after_send (id : string) (st : PkgIOStatus) : out_phase :=
  match st with
  | FAIL => WillRemove id
  | PARTIAL => Idle
  | NODATA => WillDisarm id
  | _ => SentFull id
  end.

(** The steps of the connection thread that take no lock. *)
Inductive conn_step : RpcServerConnWorker C -> out_phase -> RpcServerConnWorker C -> out_phase -> Prop :=
| step_in w w' turns fuel id rx go rx' :
    onDataIn_read turns fuel id rx w = Done (go, w', rx') ->
    conn_step w Idle w' (if go : bool then Idle else WillRemove id)
| step_event_read w w' :
    onDataOutEvent_read w = Some w' -> conn_step w Idle w' EventRead
| step_event_pop w w' o :
    onDataOutEvent_pop w = (o, w') -> conn_step w EventRead w' (match o with Some id => Seen id | None => Idle end)
| step_send w w' id tx tx' st out :      (* the event says EPOLLOUT is armed *)
    id ∈ m_epoll_out w -> onDataOut_send id tx w = Done (st, out, w', tx') ->
    conn_step w Idle w' (after_send id st)
| step_check w id :
    conn_step w (SentFull id) w (if response_q_empty id w then WillDisarm id else Idle)
| step_disarm w id :
    conn_step w (WillDisarm id) (disarm_out id w) Idle.

(** All threads; what is done under the write lock needs that no thread is
    pushing ([ConnThreads] has the lock itself). *)
Inductive sys_step : sys -> sys -> Prop :=
| step_conn w ph w' ph' l n :
    conn_step w ph w' ph' -> sys_step (mk_sys w l n ph) (mk_sys w' l n ph')
| step_arm w l n id :
    sys_step (mk_sys w l n (Seen id)) (mk_sys (onDataOutEvent_arm id w) l n Idle)
| step_accept w w' max_conn_num a closed :
    m_worker_seqid w < 2 ^ 32 - 1 -> onAccept max_conn_num (Some a) w = (closed, w') ->
    sys_step (mk_sys w [] 0 Idle) (mk_sys w' [] 0 Idle)
| step_remove w id :
    sys_step (mk_sys w [] 0 (WillRemove id)) (mk_sys (removeConnection id w) [] 0 Idle)
| step_push w w' l l' n ph id pkg ok :
    pushResp_queue id pkg w = Done (ok, w') -> l' ≡ₚ (if ok : bool then id :: l else l) ->
    sys_step (mk_sys w l n ph) (mk_sys w' l' n ph)
| step_push_conn w w' l l' n ph id :     (* the queue of ids is not full *)
    l ≡ₚ id :: l' -> size (m_resp_conn_q w) < m_max_q_len (m_resp_conn_q w) ->
    pushResp_conn id w = Done w' ->
    sys_step (mk_sys w l n ph) (mk_sys w' l' (S n) ph)
| step_push_event w l n ph :
    sys_step (mk_sys w l (S n) ph) (mk_sys (pushResp_event w) l n ph)
| step_tasks w l n ph q :                (* the worker threads take tasks *)
    sys_step (mk_sys w l n ph) (mk_sys (put_task_q q w) l n ph).

Inductive sys_reach (name : string) (max_req_qsize : Z) : sys -> Prop :=
| sys_start : sys_reach name max_req_qsize (mk_sys (new_worker name max_req_qsize) [] 0 Idle)
| sys_next s s' : sys_reach name max_req_qsize s -> sys_step s s' -> sys_reach name max_req_qsize s'.

(** * The invariant *)

(** A connection with something to send. *)
Definition pending (c : RpcServerConn) : Prop :=
  isSending c = true \/ m_queue (m_response_q c) <> [].

(** The id is on its way to the connection thread. *)
Definition notified (s : sys) (id : string) : Prop :=
  id ∈ m_queue (m_resp_conn_q (wk s)) \/ id ∈ at_connq s \/ phase s = Seen id.

(** Events taken whose id is still in the queue. *)
Definition taking (ph : out_phase) : Z := match ph with EventRead => 1 | _ => 0 end.

Record sys_ok (s : sys) : Prop := {
  ok_event : m_resp_ev (wk s) + Z.of_nat (at_event s) + taking (phase s) = size (m_resp_conn_q (wk s));
  ok_positive : 0 <= m_resp_ev (wk s);
  ok_nodrop : m_dropOldOnFull (m_resp_conn_q (wk s)) = false;
  ok_pending : forall id c, m_conn_set (wk s) !! id = Some c -> pending (base c) ->
    id ∈ m_epoll_out (wk s) \/ notified s id;
  ok_sending : forall id c, m_conn_set (wk s) !! id = Some c -> isSending (base c) = true -> id ∈ m_epoll_out (wk s);
  ok_conn_nodrop : forall id c, m_conn_set (wk s) !! id = Some c -> m_dropOldOnFull (m_response_q (base c)) = false;
  ok_phase : forall id c, m_conn_set (wk s) !! id = Some c ->
    match phase s with
    | SentFull i => i = id -> isSending (base c) = false /\ id ∈ m_epoll_out (wk s)
    | WillDisarm i => i = id -> isSending (base c) = false /\ (pending (base c) -> notified s id)
    | _ => True
    end
}.

(** What [sendResponse] leaves. *)
Lemma sendData_loop_left fuel c tx st out c' tx' :
  sendData_loop fuel c tx = Done (st, out, c', tx') ->
  m_seqid c' = m_seqid c /\ m_response_q c' = m_response_q c /\ (st = FULL -> isSending c' = false) /\ st <> NODATA /\ st <> TIME_OUT.
Proof.
  revert tx. induction fuel as [|fuel IH]; intros tx; [discriminate|]. cbn [sendData_loop].
  destruct (m_sent_pkg c) as [p|]; [|discriminate]. cbn [need outcome_bind].
  destruct (send _ tx) as [[k| | | |] tx1]; try (intros [= <- <- <- <-]; repeat split; discriminate);
    [|apply IH].
  destruct (k =? 0); [intros [= <- <- <- <-]; repeat split; discriminate|].
  destruct (_ <? _); [discriminate|].
  destruct (_ =? _); intros [= <- <- <- <-]; repeat split; discriminate.
Qed.

Lemma sendResponse_left c tx st out c' tx' :
  sendResponse c tx = Done (st, out, c', tx') ->
  m_seqid c' = m_seqid c /\ m_dropOldOnFull (m_response_q c') = m_dropOldOnFull (m_response_q c) /\
  (st = FULL \/ st = TIME_OUT -> isSending c' = false) /\
  (st = NODATA -> isSending c' = false /\ m_queue (m_response_q c') = []).
Proof.
  unfold sendResponse. destruct (negb _); [intros [= <- <- <- <-]; repeat (split; [reflexivity|]); split; [intros [|]; discriminate | discriminate]|].
  destruct (isSending c) eqn:Hs.
  - intros Hl. apply sendData_loop_left in Hl as (-> & -> & Hf & Hn & Ht).
    repeat (split; [reflexivity|]). split; [intros [?|?]; [auto | contradiction] | contradiction].
  - destruct (pop_now (m_response_q c)) as [[pkg|] q] eqn:Hp.
    + intros Hl. apply sendData_loop_left in Hl as (-> & -> & Hf & Hn & Ht).
      split; [reflexivity|]. split; [|split; [intros [?|?]; [auto | contradiction] | contradiction]].
      unfold pop_now, front_pop in Hp. destruct (m_queue (m_response_q c)); [discriminate|]. injection Hp as <- <-. reflexivity.
    + unfold pop_now, front_pop in Hp. destruct (m_queue (m_response_q c)) eqn:Hq; [injection Hp as <- | discriminate].
      intros [= <- <- <- <-]. cbn. repeat (split; [reflexivity|]). split; [intros [|]; discriminate|]. auto.
Qed.

(** * The steps keep the invariant *)

Lemma lookup_put_conn id (c : C) w i :
  m_conn_set (put_conn id c w) !! i = if decide (i = id) then Some c else m_conn_set w !! i.
Proof. cbn. destruct (decide (i = id)) as [->|]; [apply lookup_insert_eq | apply lookup_insert_ne; auto]. Qed.

Lemma lookup_delete_case (m : gmap string C) id i c :
  delete id m !! i = Some c -> i <> id /\ m !! i = Some c.
Proof. intros H. apply lookup_delete_Some in H as [Hne H]. auto. Qed.

(** A step of the connection thread that only replaces a connection by one
    with the same sending side. *)
Lemma put_conn_ok w l n ph id c c' :
  sys_ok (mk_sys w l n ph) -> m_conn_set w !! id = Some c ->
  m_sent_pkg (base c') = m_sent_pkg (base c) -> m_response_q (base c') = m_response_q (base c) ->
  sys_ok (mk_sys (put_conn id c' w) l n ph).
Proof.
  intros [] Hc Hs Hq. unfold pending, isSending, notified in *.
  constructor; try assumption; cbn [wk at_connq phase] in *; intros i d Hd; rewrite lookup_put_conn in Hd;
    destruct (decide (i = id)) as [->|]; try (injection Hd as <-); unfold pending, isSending in *; rewrite ?Hs, ?Hq; eauto.
  - apply (ok_phase0 _ _ Hc).
  - apply (ok_phase0 _ _ Hd).
Qed.

Lemma push_now_items {T} (x : T) q ok q' :
  push_now x q = Done (ok, q') -> m_dropOldOnFull q = false ->
  (ok = true /\ q' = set_items (m_queue q ++ [x]) q) \/ (ok = false /\ q' = q).
Proof.
  unfold push_now, push. intros H Hd. rewrite Hd in H.
  destruct (_ <=? _); injection H as <- <-; auto.
Qed.

Lemma push_now_room {T} (x : T) q :
  size q < m_max_q_len q -> push_now x q = Done (true, set_items (m_queue q ++ [x]) q).
Proof. intros H. unfold push_now, push. apply Z.leb_gt in H. rewrite H. reflexivity. Qed.

Ltac sys_cases := constructor; cbn [wk at_connq at_event phase] in *; unfold notified in *; cbn [wk at_connq at_event phase] in *.

Lemma add_ok w c :
  sys_ok (mk_sys w [] 0 Idle) -> m_conn_set w !! m_seqid (base c) = None ->
  isSending (base c) = false -> m_queue (m_response_q (base c)) = [] -> m_dropOldOnFull (m_response_q (base c)) = false ->
  sys_ok (mk_sys (addConnection c w) [] 0 Idle).
Proof.
  intros [] Hn Hs Hq Hd. unfold addConnection. rewrite Hn.
  sys_cases; try assumption; intros i d Hi; try exact I;
    change (m_conn_set (put_conn (m_seqid (base c)) c w) !! i = Some d) in Hi; rewrite lookup_put_conn in Hi;
    destruct (decide (i = m_seqid (base c))) as [->|Hne]; try (injection Hi as <-); cbn.
  - unfold pending. rewrite Hs, Hq. intros [|]; [discriminate | contradiction].
  - intros Hp. destruct (ok_pending0 _ _ Hi Hp) as [|[|[|[=]]]]; [left; set_solver | auto..].
  - rewrite Hs. discriminate.
  - intros Hp. specialize (ok_sending0 _ _ Hi Hp). set_solver.
  - assumption.
  - eauto.
Qed.

Lemma remove_ok w id :
  sys_ok (mk_sys w [] 0 (WillRemove id)) -> sys_ok (mk_sys (removeConnection id w) [] 0 Idle).
Proof.
  intros []. sys_cases; try assumption; intros i d Hi; try exact I;
    apply lookup_delete_case in Hi as [Hne Hi]; cbn.
  - intros Hp. destruct (ok_pending0 _ _ Hi Hp) as [|[|[|[=]]]]; [left; set_solver | auto..].
  - intros Hp. specialize (ok_sending0 _ _ Hi Hp). set_solver.
  - eauto.
Qed.

(** The worker changes only in its statistics. *)
Definition same_sending (w w' : RpcServerConnWorker C) : Prop :=
  m_conn_set w' = m_conn_set w /\ m_epoll_out w' = m_epoll_out w /\
  m_resp_conn_q w' = m_resp_conn_q w /\ m_resp_ev w' = m_resp_ev w.

Lemma same_sending_ok w w' l n ph :
  same_sending w w' -> sys_ok (mk_sys w l n ph) -> sys_ok (mk_sys w' l n ph).
Proof.
  intros (Hc & He & Hq & Hv) []. sys_cases; rewrite ?Hc, ?He, ?Hq, ?Hv; assumption.
Qed.

(** A response in a connection's queue: its id is on its way. *)
Lemma enqueue_ok w l n ph id c x :
  sys_ok (mk_sys w l n ph) -> m_conn_set w !! id = Some c ->
  sys_ok (mk_sys (put_conn id (put_base (put_response_q (set_items (m_queue (m_response_q (base c)) ++ [x]) (m_response_q (base c))) (base c)) c) w)
                 (id :: l) n ph).
Proof.
  intros [] Hc. sys_cases; try assumption; intros i d Hi; rewrite lookup_put_conn in Hi;
    destruct (decide (i = id)) as [->|Hne]; try (injection Hi as <-); rewrite ?base_put_base.
  - intros _. right. right. left. left.
  - intros Hp. destruct (ok_pending0 _ _ Hi Hp) as [|[|[|]]]; auto. right. right. left. right. assumption.
  - intros Hp. exact (ok_sending0 _ _ Hc Hp).
  - eauto.
  - cbn. eauto.
  - eauto.
  - specialize (ok_phase0 _ _ Hc). destruct ph; try exact I; intros ->.
    + exact (ok_phase0 eq_refl).
    + destruct (ok_phase0 eq_refl) as [H _]. split; [exact H | intros _; right; left; left].
  - specialize (ok_phase0 _ _ Hi). destruct ph; try exact I; intros ->.
    + exact (ok_phase0 eq_refl).
    + destruct (ok_phase0 eq_refl) as [H Hp]. split; [exact H|].
      intros Hd. destruct (Hp Hd) as [|[|]]; auto. right. left. right. assumption.
Qed.

Lemma permuted_ok w l l' n ph : l' ≡ₚ l -> sys_ok (mk_sys w l n ph) -> sys_ok (mk_sys w l' n ph).
Proof.
  intros Hl []. assert (Hin : forall i, i ∈ l' <-> i ∈ l) by (intros i; rewrite Hl; reflexivity).
  sys_cases; try assumption; intros i d Hi.
  - rewrite Hin. eauto.
  - specialize (ok_phase0 _ _ Hi). destruct ph; auto. rewrite Hin. exact ok_phase0.
Qed.

Lemma push_ok w w' l l' n ph id pkg ok :
  sys_ok (mk_sys w l n ph) -> pushResp_queue id pkg w = Done (ok, w') -> l' ≡ₚ (if ok : bool then id :: l else l) ->
  sys_ok (mk_sys w' l' n ph).
Proof.
  intros Hok Hpush Hl. apply (permuted_ok _ _ _ _ _ Hl). clear l' Hl. unfold pushResp_queue in Hpush.
  destruct (m_conn_set w !! id) as [c|] eqn:Hc; [|injection Hpush as <- <-; exact Hok].
  destruct (push_now pkg _) as [[b q]|] eqn:Hp; [|discriminate]. injection Hpush as <- <-.
  apply push_now_items in Hp as [[-> ->]|[-> ->]]; [| |exact (ok_conn_nodrop _ Hok _ _ Hc)].
  - apply enqueue_ok; assumption.
  - apply (same_sending_ok (put_conn id (put_base (put_response_q (m_response_q (base c)) (base c)) c) w)); [repeat split|].
    apply (put_conn_ok w l n ph id c); try assumption; rewrite base_put_base; reflexivity.
Qed.

Lemma push_conn_ok w w' l l' n ph id :
  sys_ok (mk_sys w l n ph) -> l ≡ₚ id :: l' ->
  size (m_resp_conn_q w) < m_max_q_len (m_resp_conn_q w) -> pushResp_conn id w = Done w' ->
  sys_ok (mk_sys w' l' (S n) ph).
Proof.
  intros [] Hl Hroom H. unfold pushResp_conn in H. rewrite (push_now_room _ _ Hroom) in H. injection H as <-.
  assert (Hmove : forall i (P : Prop), i ∈ m_queue (m_resp_conn_q w) \/ i ∈ l \/ P ->
                            i ∈ m_queue (m_resp_conn_q w) ++ [id] \/ i ∈ l' \/ P).
  { intros i P. rewrite Hl, elem_of_app, list_elem_of_singleton, elem_of_cons. tauto. }
  sys_cases; try assumption.
  - cbn [m_resp_ev put_resp_conn_q m_resp_conn_q] in *. unfold size in *. cbn [set_items m_queue].
    rewrite zlen_app. unfold zlen at 2. cbn [length]. lia.
  - intros i d Hi Hp. destruct (ok_pending0 _ _ Hi Hp); auto.
  - intros i d Hi. specialize (ok_phase0 _ _ Hi). destruct ph; try exact I; intros ->.
    + auto.
    + destruct (ok_phase0 eq_refl) as [Hs Hp]. split; auto.
Qed.

Lemma push_event_ok w l n ph : sys_ok (mk_sys w l (S n) ph) -> sys_ok (mk_sys (pushResp_event w) l n ph).
Proof. intros []. sys_cases; try assumption; cbn [pushResp_event put_resp_ev m_resp_ev m_resp_conn_q] in *; lia. Qed.

Lemma event_read_ok w w' l n :
  sys_ok (mk_sys w l n Idle) -> onDataOutEvent_read w = Some w' -> sys_ok (mk_sys w' l n EventRead).
Proof.
  unfold onDataOutEvent_read. intros [] Hr. destruct (m_resp_ev w =? 0) eqn:Hv; [discriminate|]. injection Hr as <-.
  apply Z.eqb_neq in Hv. sys_cases; try assumption; cbn in *; try lia.
  intros i d Hi Hp. destruct (ok_pending0 _ _ Hi Hp) as [|[|[|]]]; auto. discriminate.
Qed.

Lemma event_pop_ok w w' o l n :
  sys_ok (mk_sys w l n EventRead) -> onDataOutEvent_pop w = (o, w') ->
  exists i, o = Some i /\ sys_ok (mk_sys w' l n (Seen i)).
Proof.
  unfold onDataOutEvent_pop, pop_now, front_pop. intros [] Hp. cbn in *. unfold size, zlen in *.
  destruct (m_queue (m_resp_conn_q w)) as [|i q] eqn:Hq; [cbn in ok_event0; lia|]. injection Hp as <- <-.
  exists i. split; [reflexivity|]. sys_cases; try assumption; cbn in *; unfold size, zlen in *; cbn in *; try lia; auto.
  intros j d Hj Hpe. destruct (ok_pending0 _ _ Hj Hpe) as [|[Hin|[|]]]; auto; [|discriminate].
  rewrite Hq in Hin. apply elem_of_cons in Hin as [->|]; auto.
Qed.

Lemma event_arm_ok w l n i : sys_ok (mk_sys w l n (Seen i)) -> sys_ok (mk_sys (onDataOutEvent_arm i w) l n Idle).
Proof.
  intros []. unfold onDataOutEvent_arm. destruct (m_conn_set w !! i) as [c|] eqn:Hc.
  2:{ sys_cases; try assumption; auto. intros j d Hj Hp. destruct (ok_pending0 _ _ Hj Hp) as [|[|[|[= ->]]]]; auto. congruence. }
  destruct (isSending (base c)) eqn:Hs; cbn [negb]; sys_cases; try assumption; cbn; auto.
  - intros j d Hj Hp. destruct (ok_pending0 _ _ Hj Hp) as [|[|[|[= ->]]]]; auto. left. apply (ok_sending0 _ _ Hc Hs).
  - intros j d Hj Hp. destruct (ok_pending0 _ _ Hj Hp) as [|[|[|[= ->]]]]; auto; left; set_solver.
  - intros j d Hj Hp. specialize (ok_sending0 _ _ Hj Hp). set_solver.
Qed.

Lemma out_event_ok w w' l n :
  sys_ok (mk_sys w l n Idle) -> onDataOutEvent w = (true, w') -> sys_ok (mk_sys w' l n Idle).
Proof.
  intros Hok. unfold onDataOutEvent. destruct (onDataOutEvent_read w) as [w1|] eqn:Hr; [|discriminate].
  destruct (onDataOutEvent_pop w1) as [o w2] eqn:Hp.
  destruct (event_pop_ok _ _ _ _ _ (event_read_ok _ _ _ _ Hok Hr) Hp) as (i & -> & Hok2). intros [= <-].
  exact (event_arm_ok _ _ _ _ Hok2).
Qed.

(** The connection thread goes on, the worker as it was. *)
Lemma phase_change w l n ph ph' :
  sys_ok (mk_sys w l n ph) -> taking ph' = taking ph -> (forall i, ph <> Seen i) ->
  (forall id c, m_conn_set w !! id = Some c ->
    match ph' with
    | SentFull i => i = id -> isSending (base c) = false /\ id ∈ m_epoll_out w
    | WillDisarm i => i = id -> isSending (base c) = false /\ (pending (base c) -> notified (mk_sys w l n ph) id)
    | _ => True
    end) ->
  sys_ok (mk_sys w l n ph').
Proof.
  intros [] Ht Hne Hph. sys_cases; try assumption; [rewrite Ht; assumption | |].
  - intros i d Hi Hp. destruct (ok_pending0 _ _ Hi Hp) as [|[|[|Hs]]]; auto. destruct (Hne _ Hs).
  - intros i d Hi. specialize (Hph i d Hi). destruct ph'; auto. intros He. destruct (Hph He) as [Hs Hn]. split; [exact Hs|].
    intros Hp. destruct (Hn Hp) as [|[|Hc]]; auto. destruct (Hne _ Hc).
Qed.

Lemma send_ok w w' l n id tx tx' st out :
  sys_ok (mk_sys w l n Idle) -> id ∈ m_epoll_out w -> onDataOut_send id tx w = Done (st, out, w', tx') ->
  sys_ok (mk_sys w' l n (after_send id st)).
Proof.
  intros [] Hin Hsend. unfold onDataOut_send in Hsend. destruct (m_conn_set w !! id) as [c|] eqn:Hc; [|discriminate].
  cbn [need outcome_bind] in Hsend. destruct (sendResponse (base c) tx) as [[[[st1 o1] c1] tx1]|] eqn:Hs; [|discriminate].
  injection Hsend as <- <- <- <-. apply sendResponse_left in Hs as (_ & Hd & Hf & Hn).
  apply (phase_change _ _ _ Idle); [|destruct st1; reflexivity | discriminate |].
  - sys_cases; try assumption; intros i d Hi; rewrite lookup_put_conn in Hi;
      destruct (decide (i = id)) as [->|Hne]; try (injection Hi as <-); rewrite ?base_put_base in *; eauto.
  - intros i d Hi. rewrite lookup_put_conn in Hi. destruct (decide (i = id)) as [->|Hne]; [injection Hi as <-|].
    + rewrite base_put_base. destruct st1; cbn; auto. destruct (Hn eq_refl) as [Hs Hq]. intros _. split; [exact Hs|].
      unfold pending. rewrite Hs, Hq. intros [|]; [discriminate | contradiction].
    + destruct st1; cbn; auto; intros ->; contradiction.
Qed.

Lemma check_ok w l n id :
  sys_ok (mk_sys w l n (SentFull id)) ->
  sys_ok (mk_sys w l n (if response_q_empty id w then WillDisarm id else Idle)).
Proof.
  intros Hok. apply (phase_change _ _ _ (SentFull id)); [exact Hok | destruct (response_q_empty id w); reflexivity | discriminate |].
  intros i d Hi. pose proof (ok_phase _ Hok _ _ Hi) as Hph. cbn [phase] in Hph. unfold response_q_empty.
  destruct (m_conn_set w !! id) as [c|] eqn:Hc; [|intros ->; cbn in Hi; congruence].
  destruct (size (m_response_q (base c)) =? 0) eqn:Hz; [|exact I]. intros ->. cbn in Hi. rewrite Hi in Hc. injection Hc as ->.
  destruct (Hph eq_refl) as [Hs _]. split; [exact Hs|]. unfold pending. rewrite Hs.
  apply Z.eqb_eq in Hz. unfold size, zlen in Hz. intros [|He]; [discriminate|].
  destruct (m_queue (m_response_q (base c))); [contradiction | discriminate].
Qed.

Lemma disarm_ok w l n id :
  sys_ok (mk_sys w l n (WillDisarm id)) -> sys_ok (mk_sys (disarm_out id w) l n Idle).
Proof.
  intros []. sys_cases; try assumption; cbn.
  - intros i d Hi Hp. specialize (ok_phase0 _ _ Hi). destruct (decide (i = id)) as [->|Hne].
    + right. destruct (proj2 (ok_phase0 eq_refl) Hp) as [|[|[=]]]; auto.
    + clear ok_phase0. destruct (ok_pending0 _ _ Hi Hp) as [|[|[|[=]]]]; [left; set_solver | auto..].
  - intros i d Hi Hp. specialize (ok_phase0 _ _ Hi). destruct (decide (i = id)) as [->|Hne].
    + destruct (ok_phase0 eq_refl). congruence.
    + specialize (ok_sending0 _ _ Hi Hp). clear ok_phase0. set_solver.
  - auto.
Qed.

Lemma start_ok name max : sys_ok (mk_sys (new_worker name max) [] 0 Idle).
Proof. sys_cases; try reflexivity; try lia; intros i d Hi; try exact I; cbn in Hi; rewrite lookup_empty in Hi; discriminate. Qed.

Lemma idle_remove_ok w l n id : sys_ok (mk_sys w l n Idle) -> sys_ok (mk_sys w l n (WillRemove id)).
Proof. intros Hok. apply (phase_change _ _ _ Idle); [exact Hok | reflexivity | discriminate | auto]. Qed.

(** Reading leaves what is to be sent alone. *)
Lemma push_request_sending pkg w w' : push_request pkg w = Done w' -> same_sending w w'.
Proof.
  unfold push_request. destruct (push_now pkg (m_task_q w)) as [[b q]|]; [|discriminate]. cbn [outcome_bind].
  destruct b; intros [= <-]; repeat split.
Qed.

Lemma read_ok turns fuel id : forall rx w l n go w' rx',
  sys_ok (mk_sys w l n Idle) -> onDataIn_read turns fuel id rx w = Done (go, w', rx') ->
  sys_ok (mk_sys w' l n (if go : bool then Idle else WillRemove id)).
Proof.
  induction turns as [|turns IH]; intros rx w l n go w' rx' Hok; cbn [onDataIn_read]; [discriminate|].
  destruct (m_conn_set w !! id) as [c|] eqn:Hc; [|discriminate]. cbn [need outcome_bind].
  destruct (conn_getRequest fuel c rx) as [[[[st o] c1] rx1]|] eqn:E; [|discriminate]. cbn [outcome_bind].
  apply getRequest_keeps_sender in E as (_ & Hq & Hs & _).
  pose proof (put_conn_ok _ _ _ _ _ _ _ Hok Hc Hs Hq) as Hok1.
  destruct (st <? 0); [intros [= <- <- _]; apply idle_remove_ok, Hok1|].
  destruct o as [pkg|].
  - destruct (push_request pkg _) as [w1|] eqn:Hp; [|discriminate]. cbn [outcome_bind]. intros [= <- <- _].
    exact (same_sending_ok _ _ _ _ _ (push_request_sending _ _ _ Hp) Hok1).
  - destruct (st =? 0); [intros [= <- <- _]; exact Hok1 | apply IH, Hok1].
Qed.

Lemma conn_step_ok w ph w' ph' l n : conn_step w ph w' ph' -> sys_ok (mk_sys w l n ph) -> sys_ok (mk_sys w' l n ph').
Proof.
  destruct 1; intros Hok; eauto using read_ok, event_read_ok, send_ok, check_ok, disarm_ok.
  destruct (event_pop_ok _ _ _ _ _ Hok H) as (i & -> & Hok'). exact Hok'.
Qed.

Lemma tasks_ok w l n ph q : sys_ok (mk_sys w l n ph) -> sys_ok (mk_sys (put_task_q q w) l n ph).
Proof. apply same_sending_ok. repeat split. Qed.

(** * The names of the connections *)

(** The names under which the connections are found, with their own. *)
Definition names (w : RpcServerConnWorker C) : gmap string string := (fun c => m_seqid (base c)) <$> m_conn_set w.

(** Every connection is found under its own name, which was made of the
    worker's name and a value the counter has had. *)
Record names_ok (w : RpcServerConnWorker C) : Prop := {
  ok_counter : 0 <= m_worker_seqid w < 2 ^ 32;
  ok_names : forall id own, names w !! id = Some own ->
    own = id /\ exists n a, id = conn_seqid (m_name w) n a /\ 1 <= n <= m_worker_seqid w
}.

(** No connection comes, goes or changes its name. *)
Definition same_names (w w' : RpcServerConnWorker C) : Prop :=
  m_name w' = m_name w /\ m_worker_seqid w' = m_worker_seqid w /\ names w' = names w.

#[global] Instance same_names_preorder : PreOrder same_names.
Proof.
  split; unfold same_names; [repeat split|]. intros x y z (? & ? & ?) (? & ? & ?). repeat split; congruence.
Qed.

Lemma same_names_ok w w' : same_names w w' -> names_ok w -> names_ok w'.
Proof. intros (Hn & Hq & Hc) [Hr Hs]. split; rewrite ?Hn, ?Hq, ?Hc; assumption. Qed.

Lemma same_names_known w w' id :
  same_names w w' -> is_Some (m_conn_set w !! id) -> is_Some (m_conn_set w' !! id).
Proof.
  intros (_ & _ & Hc). apply (f_equal (lookup id)) in Hc. unfold names in Hc. rewrite !lookup_fmap in Hc.
  intros [c Hi]. rewrite Hi in Hc. destruct (m_conn_set w' !! id); [eauto | discriminate].
Qed.

Lemma put_conn_names id c c' w :
  m_conn_set w !! id = Some c -> m_seqid (base c') = m_seqid (base c) -> same_names w (put_conn id c' w).
Proof.
  intros Hc He. do 2 (split; [reflexivity|]). unfold names, put_conn, put_conn_set. cbn [m_conn_set].
  rewrite fmap_insert, He. apply insert_id. rewrite lookup_fmap, Hc. reflexivity.
Qed.

Lemma conn_set_names w w' :
  m_name w' = m_name w -> m_worker_seqid w' = m_worker_seqid w -> m_conn_set w' = m_conn_set w -> same_names w w'.
Proof. intros Hn Hq Hc. unfold same_names, names. rewrite Hn, Hq, Hc. auto. Qed.

Lemma remove_names id w : names_ok w -> names_ok (removeConnection id w).
Proof.
  intros [Hr Hn]. split; [exact Hr|]. intros i own Hi. unfold names, removeConnection in Hi. cbn in Hi.
  rewrite fmap_delete in Hi. apply lookup_delete_Some in Hi as [_ Hi]. exact (Hn _ _ Hi).
Qed.

Lemma push_request_names pkg w w' : push_request pkg w = Done w' -> same_names w w'.
Proof.
  unfold push_request. destruct (push_now pkg (m_task_q w)) as [[b q]|]; [|discriminate]. cbn [outcome_bind].
  destruct b; intros [= <-]; apply conn_set_names; reflexivity.
Qed.

Lemma read_names turns fuel id : forall rx w go w' rx',
  onDataIn_read turns fuel id rx w = Done (go, w', rx') -> same_names w w'.
Proof.
  induction turns as [|turns IH]; intros rx w go w' rx'; cbn [onDataIn_read]; [discriminate|].
  destruct (m_conn_set w !! id) as [c|] eqn:Hc; [|discriminate]. cbn [need outcome_bind].
  destruct (conn_getRequest fuel c rx) as [[[[st o] c1] rx1]|] eqn:E; [|discriminate]. cbn [outcome_bind].
  apply getRequest_keeps_sender in E as (Hid & _). pose proof (put_conn_names _ _ _ _ Hc Hid) as Hput.
  destruct (st <? 0); [intros [= _ <- _]; exact Hput|]. destruct o as [pkg|].
  - destruct (push_request pkg _) as [w1|] eqn:Hp; [|discriminate]. cbn [outcome_bind]. intros [= _ <- _].
    etrans; [exact Hput | exact (push_request_names _ _ _ Hp)].
  - destruct (st =? 0); [intros [= _ <- _]; exact Hput|]. intros Hr. etrans; [exact Hput | exact (IH _ _ _ _ _ Hr)].
Qed.

Lemma event_read_names w w' : onDataOutEvent_read w = Some w' -> same_names w w'.
Proof.
  unfold onDataOutEvent_read. destruct (_ =? _); [discriminate|]. intros [= <-]. apply conn_set_names; reflexivity.
Qed.

Lemma event_pop_names w o w' : onDataOutEvent_pop w = (o, w') -> same_names w w'.
Proof.
  unfold onDataOutEvent_pop. destruct (pop_now _) as [o1 q]. intros [= _ <-]. apply conn_set_names; reflexivity.
Qed.

Lemma event_arm_names id w : same_names w (onDataOutEvent_arm id w).
Proof.
  unfold onDataOutEvent_arm. destruct (m_conn_set w !! id) as [c|]; [destruct (negb _)|]; apply conn_set_names; reflexivity.
Qed.

Lemma send_names id tx w st out w' tx' : onDataOut_send id tx w = Done (st, out, w', tx') -> same_names w w'.
Proof.
  unfold onDataOut_send. destruct (m_conn_set w !! id) as [c|] eqn:Hc; [|discriminate]. cbn [need outcome_bind].
  destruct (sendResponse (base c) tx) as [[[[st1 o1] b1] tx1]|] eqn:E; [|discriminate]. intros [= _ _ <- _].
  apply sendResponse_left in E as [E _]. apply (put_conn_names id c); [exact Hc | rewrite base_put_base; exact E].
Qed.

Lemma push_names id pkg w ok w' : pushResp_queue id pkg w = Done (ok, w') -> same_names w w'.
Proof.
  unfold pushResp_queue. destruct (m_conn_set w !! id) as [c|] eqn:Hc; [|intros [= _ <-]; reflexivity].
  destruct (push_now pkg _) as [[b q]|]; [|discriminate]. intros [= _ <-].
  transitivity (put_conn id (put_base (put_response_q q (base c)) c) w);
    [apply (put_conn_names id c); [exact Hc | rewrite base_put_base; reflexivity]|].
  destruct b; apply conn_set_names; reflexivity.
Qed.

Lemma push_conn_names id w w' : pushResp_conn id w = Done w' -> same_names w w'.
Proof.
  unfold pushResp_conn. destruct (push_now _ _) as [[b q]|]; [|discriminate]. intros [= <-]. apply conn_set_names; reflexivity.
Qed.

#[local] Hint Resolve read_names event_read_names event_pop_names event_arm_names send_names push_names push_conn_names : rpc.

Lemma conn_step_names w ph w' ph' : conn_step w ph w' ph' -> same_names w w'.
Proof.
  destruct 1; eauto with rpc; try reflexivity. apply conn_set_names; reflexivity.
Qed.

(** A new name is not taken: the counter is in it. *)
Lemma conn_seqid_inj name n n' a a' : conn_seqid name n a = conn_seqid name n' a' -> n = n'.
Proof.
  unfold conn_seqid. intros Hs. apply split_underscore in Hs as [_ Hs]; [|apply no_underscore_pretty..].
  apply (inj (String.append name)) in Hs. apply (inj (String.append "_")) in Hs.
  apply split_underscore in Hs as [Hs _]; [|apply no_underscore_pretty..]. apply (inj pretty), Hs.
Qed.

Lemma accept_conn max a w closed w' :
  onAccept max (Some a) w = (closed, w') -> names_ok w -> m_worker_seqid w < 2 ^ 32 - 1 ->
  exists w0, same_sending w w0 /\ m_name w0 = m_name w /\ m_worker_seqid w0 = m_worker_seqid w + 1 /\
    w' = addConnection (new_connection (conn_seqid (m_name w) (m_worker_seqid w + 1) a) (acc_max_req_size a)) w0 /\
    m_conn_set w !! conn_seqid (m_name w) (m_worker_seqid w + 1) a = None.
Proof.
  intros Ha [Hr Hn] Hlt. unfold onAccept in Ha. set (w1 := if _ <=? _ then _ else w) in Ha.
  assert (Hs : same_sending w w1 /\ m_name w1 = m_name w /\ m_worker_seqid w1 = m_worker_seqid w)
    by (subst w1; destruct (_ <=? _); repeat split).
  destruct Hs as ((Hc & He & Hq & Hv) & Hnm & Hsq). rewrite Hsq, u32_small in Ha by lia.
  injection Ha as _ <-. exists (put_worker_seqid (m_worker_seqid w + 1) w1).
  split; [repeat split; assumption|]. split; [exact Hnm|]. split; [reflexivity|].
  split; [cbn [m_name m_worker_seqid put_worker_seqid]; rewrite Hnm; reflexivity|].
  destruct (m_conn_set w !! _) as [c|] eqn:E; [|reflexivity]. exfalso.
  destruct (Hn (conn_seqid (m_name w) (m_worker_seqid w + 1) a) (m_seqid (base c))) as (_ & n & b & Hid & Hb);
    [unfold names; rewrite lookup_fmap, E; reflexivity|]. apply conn_seqid_inj in Hid. lia.
Qed.

Lemma accept_names max a w closed w' :
  onAccept max (Some a) w = (closed, w') -> names_ok w -> m_worker_seqid w < 2 ^ 32 - 1 -> names_ok w'.
Proof.
  intros Ha Hok Hlt. destruct (accept_conn _ _ _ _ _ Ha Hok Hlt) as (w0 & (Hc & _) & Hnm & Hsq & -> & Hfree).
  destruct Hok as [Hr Hn]. unfold addConnection. rewrite base_new_connection. cbn [m_seqid new_conn]. rewrite Hc, Hfree.
  split; cbn [m_worker_seqid put_conn_num disarm_out put_epoll_out put_conn put_conn_set m_name]; rewrite ?Hsq, ?Hnm; [lia|].
  intros id own Hl. unfold names in Hl. cbn in Hl. rewrite Hc, fmap_insert in Hl. apply lookup_insert_Some in Hl as [[<- <-]|[_ Hl]].
  - rewrite base_new_connection. split; [reflexivity|]. exists (m_worker_seqid w + 1), a. split; [reflexivity | lia].
  - destruct (Hn _ _ Hl) as (Hid & n & b & He & Hb). split; [exact Hid|]. exists n, b. split; [exact He | lia].
Qed.

Lemma accept_ok max a w closed w' :
  onAccept max (Some a) w = (closed, w') -> names_ok w -> m_worker_seqid w < 2 ^ 32 - 1 ->
  sys_ok (mk_sys w [] 0 Idle) -> sys_ok (mk_sys w' [] 0 Idle).
Proof.
  intros Ha Hn Hlt Hok. destruct (accept_conn _ _ _ _ _ Ha Hn Hlt) as (w0 & Hs & _ & _ & -> & Hfree).
  apply add_ok; rewrite ?base_new_connection; try reflexivity; [exact (same_sending_ok _ _ _ _ _ Hs Hok)|].
  destruct Hs as (-> & _). exact Hfree.
Qed.

Lemma sys_step_names s s' : sys_step s s' -> names_ok (wk s) -> names_ok (wk s').
Proof.
  destruct 1; cbn [wk]; eauto using accept_names, remove_names; apply same_names_ok; eauto using conn_step_names with rpc;
    apply conn_set_names; reflexivity.
Qed.

Lemma sys_step_ok s s' : sys_step s s' -> names_ok (wk s) -> sys_ok s -> sys_ok s'.
Proof.
  destruct 1; cbn [wk]; eauto using accept_ok, remove_ok, push_ok, push_conn_ok, push_event_ok, conn_step_ok, event_arm_ok, tasks_ok.
Qed.

Lemma reach_ok name max s : sys_reach name max s -> sys_ok s /\ names_ok (wk s).
Proof.
  induction 1 as [|s s' _ [IH IHn] Hs]; [|eauto using sys_step_ok, sys_step_names].
  split; [apply start_ok|]. split; [cbn; lia|]. intros id c Hl. unfold names in Hl. cbn in Hl. rewrite fmap_empty in Hl.
  rewrite lookup_empty in Hl. discriminate.
Qed.

(** * Taking the notifications that are there *)

(** [n] turns of the event loop on the event descriptor. *)
Fixpoint out_events (n : nat) (w : RpcServerConnWorker C) : RpcServerConnWorker C :=
  match n with O => w | S n => out_events n (snd (onDataOutEvent w)) end.

Lemma out_event_takes w :
  m_resp_ev w <> 0 ->
  exists w', onDataOutEvent w = (true, w') /\ m_resp_ev w' = m_resp_ev w - 1 /\ m_conn_set w' = m_conn_set w.
Proof.
  intros Hv. unfold onDataOutEvent, onDataOutEvent_read. apply Z.eqb_neq in Hv. rewrite Hv.
  unfold onDataOutEvent_pop, pop_now, front_pop. cbn [m_resp_conn_q put_resp_ev].
  destruct (m_queue (m_resp_conn_q w)) as [|i q]; [eexists; repeat split|].
  unfold onDataOutEvent_arm. cbn [m_conn_set put_resp_conn_q put_resp_ev].
  destruct (m_conn_set w !! i); [destruct (negb _)|]; eexists; repeat split.
Qed.

Lemma out_events_ok n w :
  sys_ok (mk_sys w [] 0 Idle) -> m_resp_ev w = Z.of_nat n ->
  sys_ok (mk_sys (out_events n w) [] 0 Idle) /\ m_resp_ev (out_events n w) = 0 /\
  m_conn_set (out_events n w) = m_conn_set w.
Proof.
  revert w. induction n as [|n IH]; intros w Hok Hn; [auto|].
  destruct (out_event_takes w ltac:(lia)) as (w' & Hw & Hv & Hc).
  cbn [out_events]. rewrite Hw. cbn [snd]. rewrite <- Hc.
  apply IH; [exact (out_event_ok _ _ _ _ Hok Hw) | lia].
Qed.

(** With no thread in the middle of pushing, a connection with something to
    send is armed, or its id is in the queue with the descriptor readable; and
    taking the notifications that are there arms it. *)
Lemma ok_not_stranded w id c :
  sys_ok (mk_sys w [] 0 Idle) -> m_conn_set w !! id = Some c -> pending (base c) ->
  (id ∈ m_epoll_out w \/ id ∈ m_queue (m_resp_conn_q w) /\ 0 < m_resp_ev w) /\
  (let w' := out_events (Z.to_nat (m_resp_ev w)) w in
   m_conn_set w' !! id = Some c /\ id ∈ m_epoll_out w').
Proof.
  intros Hok Hc Hp. pose proof (ok_event _ Hok) as He. cbn in He. split.
  - destruct (ok_pending _ Hok _ _ Hc Hp) as [|[Hin|[Hin|[=]]]]; [auto | right | inversion Hin].
    split; [exact Hin|]. cbn in Hin. unfold size, zlen in He.
    destruct (m_queue (m_resp_conn_q w)); [inversion Hin | cbn in He; lia].
  - pose proof (ok_positive _ Hok) as Hv. cbn in Hv.
    destruct (out_events_ok (Z.to_nat (m_resp_ev w)) w Hok ltac:(lia)) as (Hok' & Hv' & Hc').
    cbv zeta. rewrite Hc'. split; [exact Hc|]. rewrite <- Hc' in Hc.
    destruct (ok_pending _ Hok' _ _ Hc Hp) as [|[Hin|[Hin|[=]]]]; [assumption | | inversion Hin].
    pose proof (ok_event _ Hok') as He'. cbn in He', Hin. rewrite Hv' in He'. unfold size, zlen in He'.
    destruct (m_queue _); [inversion Hin | cbn in He'; lia].
Qed.
End Sys.

(** A worker with one connection, a response of which is queued and announced. *)
Definition an_accept (tm fd : Z) : accepted := {| acc_time := tm; acc_fd := fd; acc_max_req_size := 1000 |}.
Definition one_conn_worker : RpcServerConnWorker RpcServerConn := snd (onAccept 10 (Some (an_accept 77 5)) (new_worker "w" 100)).
Definition c1 : string := "77_w_1_5".
Definition a_response : response_pkg := {| rs_data := Some <$> bs "answer"; rs_data_len := 6 |}.
Definition with_response : RpcServerConn :=
  put_response_q (set_items [a_response] default_Queue) (new_conn c1 1000).
Definition announced_worker : RpcServerConnWorker RpcServerConn :=
  pushResp_event (put_resp_conn_q (set_items [c1] default_Queue) (put_conn c1 with_response one_conn_worker)).

(** Connections arriving one after the other: which sockets were closed. *)
Section Accept.
Context {C : Type} `{ServerConnection C}.

Fixpoint accept_all (max_conn_num : Z) (l : list accepted) (w : RpcServerConnWorker C)
    : list bool * RpcServerConnWorker C :=
  match l with
  | [] => ([], w)
  | a :: l =>
      let '(closed, w) := onAccept max_conn_num (Some a) w in
      let '(rest, w) := accept_all max_conn_num l w in (closed :: rest, w)
  end.

Lemma accept_full max a w :
  0 <= m_conn_num w < 2 ^ 64 - 1 -> max <= m_conn_num w ->
  exists w', onAccept max (Some a) w = (true, w') /\ m_conn_num w' = m_conn_num w + 1.
Proof.
  intros Hn Hmax. unfold onAccept. apply Z.leb_le in Hmax. rewrite Hmax. eexists. split; [reflexivity|].
  unfold addConnection. destruct (_ !! _); cbn; apply u64_small; lia.
Qed.

(** At the limit a new connection is closed, but [onAccept] goes on and
    adds the closed socket like any other connection.  Every refused connection raises the count by one (a closed descriptor is in no
    epoll set, so no event ever removes it again), and all that follow are
    refused as well. *)
Theorem refused_connections_are_counted max_conn_num l w
    (Hlimit : max_conn_num <= m_conn_num w) (Hn : 0 <= m_conn_num w) (Hl : m_conn_num w + zlen l < 2 ^ 64) :
  exists w', accept_all max_conn_num l w = (replicate (length l) true, w') /\
    m_conn_num w' = m_conn_num w + zlen l.
Proof.
  revert w Hlimit Hn Hl. induction l as [|a l IH]; intros w Hlimit Hn Hl.
  { eexists. split; [reflexivity|]. unfold zlen. cbn. lia. }
  rewrite zlen_cons in *. pose proof (zlen_nonneg l).
  destruct (accept_full max_conn_num a w ltac:(lia) Hlimit) as (w1 & H1 & Hn1).
  destruct (IH w1 ltac:(lia) ltac:(lia) ltac:(lia)) as (w2 & H2 & Hn2).
  cbn [accept_all]. rewrite H1, H2. eexists. split; [reflexivity | lia].
Qed.

End Accept.

Lemma refused_connections_are_counted_witness :
  exists w', accept_all 1 [an_accept 78 6; an_accept 78 7] one_conn_worker = ([true; true], w') /\ m_conn_num w' = 3.
Proof. apply (refused_connections_are_counted 1 [an_accept 78 6; an_accept 78 7] one_conn_worker); vm_compute; congruence. Defined.

(** * One request an event *)

(** [recv] of exactly the first part of a segment. *)
Lemma recv_cut n b rest :
  b <> [] -> rest <> [] -> n = zlen b -> recv n [RxData (b ++ rest)] = (Received b, [RxData rest]).
Proof.
  intros Hb Hr ->. destruct b as [|x b]; [contradiction|]. cbn [recv app].
  assert (0 < zlen rest) by (destruct rest; [contradiction | rewrite zlen_cons; pose proof (zlen_nonneg rest); lia]).
  replace (zlen (x :: b ++ rest) <=? zlen (x :: b)) with false
    by (symmetry; apply Z.leb_gt; rewrite !zlen_cons, zlen_app; lia).
  unfold zlen. rewrite Nat2Z.id, app_comm_cons, take_app_length, drop_app_length. reflexivity.
Qed.

(** A whole request at the head of one segment is read in one call. *)
Lemma getRequest_frame fuel c payload rest :
  is_connected c = true -> m_cur_pkg_size c = 0 -> payload <> [] -> zlen payload <= MAX_REQ_LIMIT_BYTE c ->
  MAX_REQ_LIMIT_BYTE c < 2 ^ 32 -> rest <> [] ->
  exists c', getRequest (S fuel) c [RxData (frame payload ++ rest)]
             = Done ((0, Some (delivered (m_seqid c) payload)), c', [RxData rest]).
Proof.
  intros Hconn Hstart Hne Hlen Hmax Hrest. pose proof (zlen_nonneg payload) as Hpos.
  assert (Hz : zlen payload <> 0) by (destruct payload; [contradiction | rewrite zlen_cons; pose proof (zlen_nonneg payload); lia]).
  unfold getRequest, readPkgLen. rewrite Hstart, Hconn. cbn [negb]. rewrite Z.eqb_refl.
  cbn [readPkgLen_loop]. change (4 - zlen (@nil ascii)) with 4. unfold frame. rewrite <- app_assoc.
  rewrite (recv_cut 4 (put32 (zlen payload)) (payload ++ rest)); [|discriminate | destruct payload; [contradiction | discriminate] | reflexivity].
  rewrite zlen_put32, app_nil_l. change (4 - 4 =? 0) with true. cbv iota.
  rewrite <- (app_nil_r (put32 (zlen payload))), get32_put32 by lia. cbn [need outcome_bind].
  cbn [m_cur_pkg_size put_pkg_size MAX_REQ_LIMIT_BYTE]. apply Z.eqb_neq in Hz. rewrite Hz.
  apply Z.ltb_ge in Hlen. rewrite Hlen. cbn [m_seqid put_pkg_size].
  unfold getRequest_data, readPkgData. cbn [m_rpk put_left put_rpk is_connected put_pkg_size]. rewrite Hconn.
  cbn [negb readPkgData_loop need outcome_bind m_rpk put_left put_rpk m_cur_left_len m_cur_pkg_size put_pkg_size].
  rewrite recv_cut by auto. cbn [rq_data new_request_pkg].
  rewrite Z.sub_diag. change (u32 0) with 0. rewrite write_first by lia. rewrite Z.sub_diag, app_nil_r.
  cbn [need outcome_bind]. rewrite Z.eqb_refl. cbn. eexists. reflexivity.
Qed.

(** [onDataIn] takes one request from the socket and no more.  When a
    whole request is at hand at the head of the data it goes into the queue of
    the worker threads, and whatever has arrived behind it stays in the
    socket, for an event that an edge-triggered descriptor need not give. *)
Theorem one_request_per_event turns fuel id (w : RpcServerConnWorker RpcServerConn) c payload rest
    (Hc : m_conn_set w !! id = Some c) (Hconn : is_connected c = true) (Hstart : m_cur_pkg_size c = 0)
    (Hne : payload <> []) (Hlen : zlen payload <= MAX_REQ_LIMIT_BYTE c) (Hmax : MAX_REQ_LIMIT_BYTE c < 2 ^ 32)
    (Hroom : size (m_task_q w) < m_max_q_len (m_task_q w)) (Hrest : rest <> []) :
  exists w', onDataIn (S turns) (S fuel) id [RxData (frame payload ++ rest)] w = Done (true, w', [RxData rest]) /\
    m_queue (m_task_q w') = m_queue (m_task_q w) ++ [delivered (m_seqid c) payload].
Proof.
  unfold onDataIn. cbn [onDataIn_read conn_getRequest rpc_connection]. rewrite Hc. cbn [need outcome_bind].
  destruct (getRequest_frame fuel c payload rest) as (c' & Hg); try assumption.
  rewrite Hg. cbn [outcome_bind]. change (0 <? 0) with false. cbv iota.
  unfold push_request. cbn [m_task_q put_conn put_conn_set].
  rewrite (push_now_room _ _ Hroom). cbn [outcome_bind]. eexists. split; [reflexivity|]. reflexivity.
Qed.

Lemma one_request_per_event_witness :
  exists w', onDataIn 2 3 c1 [RxData (frame (bs "one") ++ frame (bs "two"))] one_conn_worker
             = Done (true, w', [RxData (frame (bs "two"))]) /\
    m_queue (m_task_q w') = [] ++ [delivered c1 (bs "one")].
Proof.
  apply (one_request_per_event 1 2 c1 one_conn_worker (new_conn c1 1000) (bs "one") (frame (bs "two")));
    try reflexivity; discriminate.
Defined.
