(* ===== verification/Log.v ===== *)
(** [RPC_LOG_FUNC] of [common/src/util.cpp]: the line that is printed, and
    which messages are cut.  The text [vsnprintf] formats is an argument, and
    so are the time and the thread. *)
From Stdlib Require Import ZArith Lia Bool List String Ascii.
From stdpp Require Import base list strings pretty.
From S2P Require Import Prelude.

Inductive RPC_LOG_LEV := DEBUG | INFO | WARNING | ERROR | FATAL.

(** The enumerators, from 0. *)
Definition level_num (l : RPC_LOG_LEV) : nat :=
  match l with DEBUG => 0 | INFO => 1 | WARNING => 2 | ERROR => 3 | FATAL => 4 end.

Definition log_level_map : list string := ["DEBUG"; "INFO"; "WARNING"; "ERROR"; "FATAL"]%string.

Definition g_log_level : RPC_LOG_LEV := INFO.

(** Where a message comes from: [__FILE__], [__LINE__], [__FUNCTION__]; the
    time and the thread. *)
Record log_site := { file_name : string; lineno : Z; func_name : string }.
Record log_moment := { tv_sec : Z; tv_usec : Z; thread_id : string }.

(** [vsnprintf(buf, n, ...)]: at most [n - 1] bytes are kept, and the length of
    the whole text is returned. *)
Definition vsnprintf (n : Z) (text : bytes) : bytes * Z := (take (Z.to_nat (n - 1)) text, zlen text).

(** The text after the prefix of the line. *)
Definition log_text (text : bytes) : string :=
  let '(logbuf, writenum) := vsnprintf 4096 text in
  (string_of_list_ascii logbuf +:+ if (4096 <? writenum)%Z then " LOG HAS BEEN TRUNCATED..." +:+ pretty writenum else "")%string.

(** [None]: nothing is printed.  The level indexes [log_level_map]. *)
Definition RPC_LOG_FUNC (threshold level : RPC_LOG_LEV) (site : log_site) (now : log_moment) (text : bytes) : outcome (option string) :=
  if (level_num level <? level_num threshold)%nat then Done None
  else
    let! name := need OutOfBounds (log_level_map !! level_num level) in
    Done (Some ("[" +:+ name +:+ " " +:+ pretty (tv_sec now) +:+ "." +:+ pretty (tv_usec now * 1000)%Z +:+ " " +:+ thread_id now +:+
      "][" +:+ file_name site +:+ ":" +:+ pretty (lineno site) +:+ " " +:+ func_name site +:+ "] " +:+ log_text text)%string).

(** Every level has a name. *)
Lemma RPC_LOG_FUNC_done threshold level site now text : exists o, RPC_LOG_FUNC threshold level site now text = Done o.
Proof. unfold RPC_LOG_FUNC. destruct (_ <? _)%nat; [eauto|]. destruct level; cbn; eauto. Qed.

(** A message of up to 4095 bytes is printed whole. *)
Lemma log_text_whole text : zlen text <= 4095 -> log_text text = (string_of_list_ascii text +:+ "")%string.
Proof.
  intros Hlen. unfold log_text, vsnprintf. replace (4096 <? zlen text) with false by lia.
  rewrite take_ge by (unfold zlen in Hlen; lia). reflexivity.
Qed.

(** A message of 4096 bytes loses its last byte, and the line does not say so:
    the code compares with the size of the buffer, not with what it can hold. *)
Lemma log_text_cut_unmarked text : zlen text = 4096 ->
  log_text text = (string_of_list_ascii (take 4095 text) +:+ "")%string.
Proof. intros Hlen. unfold log_text, vsnprintf. rewrite Hlen. reflexivity. Qed.

(** A longer one is marked. *)
Lemma log_text_cut_marked text : 4096 < zlen text ->
  log_text text = (string_of_list_ascii (take 4095 text) +:+ " LOG HAS BEEN TRUNCATED..." +:+ pretty (zlen text))%string.
Proof. intros Hlen. unfold log_text, vsnprintf. replace (4096 <? zlen text) with true by lia. reflexivity. Qed.

(** Two moments of one second in the order of time, printed: the microseconds,
    times 1000, are not padded to nine digits, and the line of the earlier
    moment reads as the later one. *)
Lemma log_times_misread :
  let site := {| file_name := "a.cpp"; lineno := 7; func_name := "f" |} in
  let at_usec n := {| tv_sec := 100; tv_usec := n; thread_id := "1" |} in
  RPC_LOG_FUNC INFO ERROR site (at_usec 9) (bs "x") = Done (Some "[ERROR 100.9000 1][a.cpp:7 f] x"%string) /\
  RPC_LOG_FUNC INFO ERROR site (at_usec 10) (bs "x") = Done (Some "[ERROR 100.10000 1][a.cpp:7 f] x"%string).
Proof. vm_compute. auto. Qed.
