(* ===== verification/Epoll.v ===== *)
(** [Epoll] of [common/src/Epoll.cpp]: the array of events around
    [epoll_create], [epoll_ctl] and [epoll_wait].

    The kernel is a parameter, the class [EpollKernel]; its laws are what the
    manual pages of these calls say.  A pointer kept for a descriptor is a
    [D], [None] for the null pointer. *)
From Stdlib Require Import ZArith Lia Bool List.
From stdpp Require Import base list gmap.
From S2P Require Import Prelude.

(** * The kernel *)

Record epoll_event (D : Type) := mk_event { ev_events : Z; ev_data : option D }.
Arguments mk_event {D} ev_events ev_data.
Arguments ev_events {D} e.
Arguments ev_data {D} e.

Inductive ctl_op := EPOLL_CTL_ADD | EPOLL_CTL_DEL | EPOLL_CTL_MOD.

(** [interest epfd k]: the descriptors registered with [epfd]. *)
Class EpollKernel (D K : Type) := {
  epoll_create : Z -> K -> Z * K;
  fcntl_nonblock : Z -> K -> bool * K;
  epoll_ctl : Z -> ctl_op -> Z -> option (epoll_event D) -> K -> Z * K;
  epoll_wait : Z -> Z -> Z -> K -> option (list (epoll_event D)) * K;
  interest : Z -> K -> gmap Z (epoll_event D)
}.

(** Each event that is reported is for another registered descriptor, with the
    pointer it was registered with, and there are at most [maxevents]. *)
Definition reports {D} (t : gmap Z (epoll_event D)) (maxevents : Z) (l : list (epoll_event D)) : Prop :=
  zlen l <= maxevents /\
  exists fds, NoDup fds /\ Forall2 (fun fd e => exists e0, t !! fd = Some e0 /\ ev_data e = ev_data e0) fds l.

Class EpollKernelLaw (D K : Type) `{EpollKernel D K} : Prop := {
  ctl_add epfd fd e k : let '(r, k') := epoll_ctl epfd EPOLL_CTL_ADD fd (Some e) k in
    r = 0 /\ interest epfd k !! fd = None /\ interest epfd k' = <[fd := e]> (interest epfd k) \/
    r = -1 /\ interest epfd k' = interest epfd k;
  ctl_mod epfd fd e k : let '(r, k') := epoll_ctl epfd EPOLL_CTL_MOD fd (Some e) k in
    r = 0 /\ is_Some (interest epfd k !! fd) /\ interest epfd k' = <[fd := e]> (interest epfd k) \/
    r = -1 /\ interest epfd k' = interest epfd k;
  ctl_del epfd fd k : let '(r, k') := epoll_ctl epfd EPOLL_CTL_DEL fd None k in
    r = 0 /\ is_Some (interest epfd k !! fd) /\ interest epfd k' = delete fd (interest epfd k) \/
    r = -1 /\ interest epfd k' = interest epfd k;
  wait_reports epfd maxevents timeout k l k' :
    epoll_wait epfd maxevents timeout k = (Some l, k') ->
    0 < maxevents /\ reports (interest epfd k') maxevents l
}.

(** * [Epoll] *)

Section Epoll.
Context {D K : Type} `{EpollKernel D K}.

(** [m_events]: the array, empty before [Create]; an entry nobody has written
    is [None]. *)
Record Epoll := mk_epoll { m_epoll_fd : Z; m_max_fd : Z; m_events : list (option (epoll_event D)) }.

Definition new_Epoll : Epoll := mk_epoll (-1) (-1) [].

Definition Create (max_fd : Z) (e : Epoll) (k : K) : Z * Epoll * K :=
  let '(fd, k) := epoll_create max_fd k in
  let '(ok, k) := fcntl_nonblock fd k in
  if negb ok then (-1, mk_epoll fd max_fd (m_events e), k)
  else (fd, mk_epoll fd max_fd (replicate (Z.to_nat max_fd) None), k).

Definition Del (fd : Z) (e : Epoll) (k : K) : Z * K := epoll_ctl (m_epoll_fd e) EPOLL_CTL_DEL fd None k.
Definition Add (fd : Z) (data : option D) (events : Z) (e : Epoll) (k : K) : Z * K :=
  epoll_ctl (m_epoll_fd e) EPOLL_CTL_ADD fd (Some (mk_event events data)) k.
Definition Mod (fd : Z) (data : option D) (events : Z) (e : Epoll) (k : K) : Z * K :=
  epoll_ctl (m_epoll_fd e) EPOLL_CTL_MOD fd (Some (mk_event events data)) k.

(** [Wait]: the kernel writes the events it reports into the array. *)
Definition Wait (timeout : Z) (e : Epoll) (k : K) : outcome (Z * Epoll * K) :=
  match epoll_wait (m_epoll_fd e) (m_max_fd e) timeout k with
  | (None, k) => Done (-1, e, k)
  | (Some l, k) =>
      if zlen (m_events e) <? zlen l then Stuck OutOfBounds
      else Done (zlen l, mk_epoll (m_epoll_fd e) (m_max_fd e) ((Some <$> l) ++ drop (length l) (m_events e)), k)
  end.

(** [m_events[index]] *)
Definition event_at (index : Z) (e : Epoll) : outcome (epoll_event D) :=
  if index <? 0 then Stuck OutOfBounds
  else match m_events e !! Z.to_nat index with Some (Some ev) => Done ev | _ => Stuck OutOfBounds end.

Definition getData (index : Z) (e : Epoll) : outcome (option D) :=
  if m_max_fd e <=? index then Done None else let! ev := event_at index e in Done (ev_data ev).
Definition getEvent (index : Z) (e : Epoll) : outcome Z :=
  if m_max_fd e <=? index then Done (-1) else let! ev := event_at index e in Done (ev_events ev).

(** What the loop [for (i = 0; i < nfds; i++)] of the two event loops reads. *)
Fixpoint read_events (i : Z) (n : nat) (e : Epoll) : outcome (list (option D * Z)) :=
  match n with
  | O => Done []
  | S n =>
      let! d := getData i e in
      let! ev := getEvent i e in
      let! l := read_events (i + 1) n e in
      Done ((d, ev) :: l)
  end.

(** * What a wait gives *)

Context `{!EpollKernelLaw D K}.

(** An [Epoll] whose array has room for all a wait may report. *)
Definition epoll_ok (e : Epoll) : Prop := m_max_fd e <= zlen (m_events e).

Lemma new_Epoll_ok : epoll_ok new_Epoll.
Proof. unfold epoll_ok, zlen. cbn. lia. Qed.

(** [Create] that fails leaves no array, so only the first one counts. *)
Lemma Create_ok max_fd e k fd e' k' : Create max_fd e k = (fd, e', k') -> fd <> -1 -> epoll_ok e'.
Proof.
  unfold Create. destruct (epoll_create max_fd k) as [fd0 k0]. destruct (fcntl_nonblock fd0 k0) as [[] k1]; cbn [negb];
    intros [= <- <- <-]; [|intros Hn; contradiction]. intros _. unfold epoll_ok, zlen. cbn. rewrite length_replicate. lia.
Qed.

Lemma read_events_at e l rest : forall pre,
  m_events e = (Some <$> pre) ++ (Some <$> l) ++ rest -> zlen pre + zlen l <= m_max_fd e ->
  read_events (zlen pre) (length l) e = Done (map (fun ev => (ev_data ev, ev_events ev)) l).
Proof.
  induction l as [|ev l IH]; intros pre He Hlen; [reflexivity|]. rewrite zlen_cons in Hlen. pose proof (zlen_nonneg l).
  assert (Hat : event_at (zlen pre) e = Done ev).
  { unfold event_at. pose proof (zlen_nonneg pre). replace (zlen pre <? 0) with false by lia. rewrite He.
    unfold zlen. rewrite Nat2Z.id, lookup_app_r by (rewrite length_fmap; lia). rewrite length_fmap, Nat.sub_diag. reflexivity. }
  cbn [read_events length]. unfold getData, getEvent. replace (m_max_fd e <=? zlen pre) with false by lia. rewrite Hat. cbn [outcome_bind].
  replace (zlen pre + 1) with (zlen (pre ++ [ev])) by (rewrite zlen_app; reflexivity).
  rewrite IH; [reflexivity | | rewrite zlen_app; change (zlen [ev]) with 1; lia].
  rewrite He, fmap_app, <- app_assoc. reflexivity.
Qed.

(** The events read after a wait are those the kernel reported: for distinct
    registered descriptors, each with the pointer it was registered with. *)
Lemma wait_then_read timeout e k n e' k' :
  epoll_ok e -> Wait timeout e k = Done (n, e', k') ->
  n = -1 /\ e' = e \/
  epoll_ok e' /\ 0 <= n <= m_max_fd e /\
  exists l, read_events 0 (Z.to_nat n) e' = Done (map (fun ev => (ev_data ev, ev_events ev)) l) /\
    reports (interest (m_epoll_fd e) k') (m_max_fd e) l.
Proof.
  intros He. unfold Wait. destruct (epoll_wait _ _ timeout k) as [[l|] k1] eqn:E; [|intros [= <- <- _]; auto].
  apply wait_reports in E as [Hmax Hl]. destruct (_ <? _) eqn:Hroom; [discriminate|]. intros [= <- <- <-]. right.
  pose proof (zlen_nonneg l) as H0. pose proof Hl as [Hlen _].
  split; [|split; [lia|]].
  - unfold epoll_ok in *. cbn. rewrite zlen_app. unfold zlen in *. rewrite length_fmap, length_drop. lia.
  - exists l. split; [|exact Hl]. unfold zlen at 1. rewrite Nat2Z.id.
    apply (read_events_at _ l (drop (length l) (m_events e)) []); [reflexivity | exact Hlen].
Qed.

(** A wait never writes outside the array. *)
Lemma Wait_done timeout e k : epoll_ok e -> exists n e' k', Wait timeout e k = Done (n, e', k').
Proof.
  intros He. unfold Wait. destruct (epoll_wait _ _ timeout k) as [[l|] k1] eqn:E; [|eauto].
  apply wait_reports in E as [_ [Hlen _]]. unfold epoll_ok in He. replace (zlen (m_events e) <? zlen l) with false by lia. eauto.
Qed.

(** When no pointer is registered for two descriptors, none is read twice. *)
Lemma reports_distinct (t : gmap Z (epoll_event D)) maxevents l :
  (forall fd fd' e e', t !! fd = Some e -> t !! fd' = Some e' -> ev_data e = ev_data e' -> fd = fd') ->
  reports t maxevents l ->
  NoDup (ev_data <$> l) /\ Forall (fun d => exists fd e, t !! fd = Some e /\ ev_data e = d) (ev_data <$> l).
Proof.
  intros Hinj (_ & fds & Hnd & Hall). induction Hall as [|fd e fds l (e0 & He0 & Hd) Hall IH]; [split; constructor|].
  apply NoDup_cons in Hnd as [Hin Hnd]. destruct (IH Hnd) as [IH1 IH2]. rewrite fmap_cons. split.
  - constructor; [|exact IH1]. intros (e1 & Hd1 & Hin1)%list_elem_of_fmap.
    apply list_elem_of_lookup in Hin1 as (i & Hi). destruct (Forall2_lookup_r _ _ _ _ _ Hall Hi) as (fd1 & Hfd1 & e2 & He2 & Hd2).
    apply Hin. rewrite (Hinj fd fd1 e0 e2); [exact (list_elem_of_lookup_2 _ _ _ Hfd1) | exact He0 | exact He2 | congruence].
  - constructor; [exists fd, e0; auto | exact IH2].
Qed.
End Epoll.

Arguments Epoll : clear implicits.

(** * A kernel *)

(** The laws can be kept: one set of descriptors, and the descriptors that are
    ready at each wait. *)
Section Sample.
Context {D : Type}.

Record table_kernel := mk_table { tk_table : gmap Z (epoll_event D); tk_ready : list (list Z) }.

Definition table_ctl (op : ctl_op) (fd : Z) (e : option (epoll_event D)) (k : table_kernel) : Z * table_kernel :=
  match op, e, tk_table k !! fd with
  | EPOLL_CTL_ADD, Some e, None => (0, mk_table (<[fd := e]> (tk_table k)) (tk_ready k))
  | EPOLL_CTL_MOD, Some e, Some _ => (0, mk_table (<[fd := e]> (tk_table k)) (tk_ready k))
  | EPOLL_CTL_DEL, _, Some _ => (0, mk_table (delete fd (tk_table k)) (tk_ready k))
  | _, _, _ => (-1, k)
  end.

Definition ready_events (t : gmap Z (epoll_event D)) (fds : list Z) : list (epoll_event D) :=
  omap (fun fd => t !! fd) (remove_dups fds).

#[export] Instance table_epoll : EpollKernel D table_kernel := {
  epoll_create _ k := (3, k);
  fcntl_nonblock _ k := (true, k);
  epoll_ctl _ := table_ctl;
  epoll_wait _ maxevents _ k :=
    if maxevents <=? 0 then (None, k)
    else match tk_ready k with
         | [] => (None, k)
         | fds :: ready => (Some (take (Z.to_nat maxevents) (ready_events (tk_table k) fds)), mk_table (tk_table k) ready)
         end;
  interest _ k := tk_table k
}.

Lemma omap_reports (t : gmap Z (epoll_event D)) fds :
  NoDup fds -> exists fds', NoDup fds' /\ fds' ⊆ fds /\
    Forall2 (fun fd e => exists e0, t !! fd = Some e0 /\ ev_data e = ev_data e0) fds' (omap (fun fd => t !! fd) fds).
Proof.
  induction 1 as [|fd fds Hin Hnd (fds' & H1 & H2 & H3)]; [exists []; repeat constructor; set_solver|]. cbn.
  destruct (t !! fd) as [e|] eqn:E; [|exists fds'; split_and!; auto; set_solver].
  exists (fd :: fds'). split_and!; [constructor; [set_solver | exact H1] | set_solver|]. constructor; [eauto | exact H3].
Qed.

#[export] Instance table_epoll_law : EpollKernelLaw D table_kernel.
Proof.
  split; cbn; [intros _ fd e k | intros _ fd e k | intros _ fd k |]; try (unfold table_ctl; destruct (tk_table k !! fd); cbn; eauto).
  intros _ maxevents _ k l k'. destruct (Z.leb_spec maxevents 0); [discriminate|]. destruct (tk_ready k) as [|fds ready]; [discriminate|].
  intros [= <- <-]. split; [lia|]. cbn. destruct (omap_reports (tk_table k) (remove_dups fds) (NoDup_remove_dups fds)) as (fds' & H1 & _ & H3).
  split; [unfold zlen; rewrite length_take; lia|]. exists (take (Z.to_nat maxevents) fds').
  split; [exact (sublist_NoDup _ _ H1 (sublist_take _ _)) | exact (Forall2_take _ _ _ _ H3)].
Qed.
End Sample.

(** Two descriptors are registered, one of them twice; the wait reports the
    other one. *)
Definition two_registered (k : table_kernel (D:=nat)) : list Z * table_kernel (D:=nat) :=
  let e := mk_epoll 3 4 (replicate 4 None) in
  let '(r1, k) := Add 7 (Some 70%nat) 1 e k in
  let '(r2, k) := Add 7 (Some 71%nat) 1 e k in
  let '(r3, k) := Add 8 (Some 80%nat) 1 e k in
  ([r1; r2; r3], k).

Lemma two_registered_run :
  let '(rs, k) := two_registered (mk_table ∅ [[8; 9]]) in
  rs = [0; -1; 0] /\ match Wait 1000 (mk_epoll 3 4 (replicate 4 None)) k with
                     | Done (n, e, _) => n = 1 /\ read_events 0 1 e = Done [(Some 80%nat, 1)]
                     | Stuck _ => False
                     end.
Proof. vm_compute. auto. Qed.
