(* ===== verification/HttpConnSafe.v ===== *)
(** [RpcServerHttpConn] never throws and never overruns a buffer, whatever
    bytes a client sends: [getRequest] makes a package only of a connection
    that has a URL, because the parser reports the URL of a request before it
    reports the end of its header or its body. *)
From Stdlib Require Import ZArith Lia Bool List String Ascii.
From stdpp Require Import base list strings.
From S2P Require Import Prelude HttpChars HttpTypes HttpUrl HttpExec HttpExecSafe HttpCases HttpSafe HttpContract HttpKeeps Wire Socket HttpConn SampleCodec.
From S2P Require ServerConn.
Import ServerConn(RpcServerConn, is_connected, pkg_ret_t, m_seqid).

(** * The callbacks *)

Lemma m_setting_ok : settings_ok m_setting.
Proof. split; try exact I; [intros x c; left; reflexivity | intros []; try exact I; intros x b c; left; reflexivity]. Qed.

Definition has_url (c : RpcServerHttpConn) : Prop := m_url c <> [].

Lemma append_has_url buf c : has_url c \/ buf <> [] -> has_url (appendURL buf c).
Proof. unfold has_url. cbn. intros H Hn. apply app_eq_nil in Hn as [H1 H2]. tauto. Qed.

Lemma m_setting_keeps_url : settings_keep has_url m_setting.
Proof.
  split; try exact I; [|intros []; try exact I]; cbn.
  - intros x c Hc. cbn. repeat (match goal with |- context [if ?t then _ else _] => destruct t end); exact Hc.
  - intros x b c Hc. apply append_has_url. auto.
  - intros x b c Hc. exact Hc.
Qed.

(** * Before the URL *)

(** The states from the start of a request to the first byte of its URL. *)
Definition before_url (s : state) : bool :=
  match s with s_dead | s_start_req | s_req_method | s_req_spaces_before_url => true | _ => false end.

(** The parser has not reported a URL and has nothing else to report; inside
    the URL it has at least a byte of it. *)
Definition no_url_yet (i : Z) (k : ctx RpcServerHttpConn) : Prop :=
  m_is_body_final (app k) = false /\ body_mark k = None /\ 0 <= i /\
  (before_url (p_state k) = true /\ url_mark k = None \/
   url_state (p_state k) = true /\ exists m, url_mark k = Some m /\ 0 <= m < i).

(** Wherever the control goes, there is a URL or nothing to make of it. *)
Definition url_first (c : ctl RpcServerHttpConn) : Prop :=
  match c with
  | Break k => has_url (app k) \/ no_url_yet (p k + 1) k
  | Reexecute k => has_url (app k)
  | Error k => has_url (app k) \/ m_is_body_final (app k) = false
  | Return x a _ =>
      has_url a \/ m_is_body_final a = false /\ before_url (hp_state x) = true
  | Abort _ | NoFuel => True
  end.

Section Execute.
Variable data : bytes.
Variable lenient : bool.

Lemma slice_nonempty m n : 0 <= m -> 0 < n -> m + n <= zlen data -> slice data m n <> [].
Proof.
  intros Hm Hn Hd H. apply (f_equal length) in H. unfold slice, zlen in *. rewrite length_take, length_drop in H. cbn [length] in H. lia.
Qed.

(** The report of a URL of at least a byte. *)
Lemma url_reported k er (rest : ctx RpcServerHttpConn -> ctl RpcServerHttpConn) m :
  url_mark k = Some m -> 0 <= m < p k ->
  (forall k', has_url (app k') -> url_first (rest k')) -> url_first (CALLBACK_DATA_ m_setting data For_url (p k) er k rest).
Proof.
  intros Hm Hp Hrest. unfold CALLBACK_DATA_. destruct (negb _); [exact I|]. cbn [get_mark]. rewrite Hm. cbn [data_cb m_setting on_url].
  destruct ((m <? 0) || (p k <? m) || (data_end data <? p k)) eqn:E; [exact I|].
  apply orb_false_iff in E as [_ E]. unfold data_end in E. cbn.
  assert (Hu : has_url (appendURL (slice data m (p k - m)) (app k))).
  { apply append_has_url. right. apply slice_nonempty; lia. }
  destruct (errno_ok _); [apply Hrest; exact Hu | left; exact Hu].
Qed.

Lemma url_step_first k :
  m_is_body_final (app k) = false -> body_mark k = None -> 0 <= p k -> (exists m, url_mark k = Some m /\ 0 <= m < p k + 1) ->
  (url_state (p_state k) || eqb (p_state k) s_req_spaces_before_url)%bool = true -> url_first (url_step k).
Proof.
  intros Hf Hb Hp Hm Hs. pose proof (parse_url_char_states _ (ch k) Hs) as Hc. unfold url_step. cbn [UPDATE_STATE put_p_state p_state].
  destruct (eqb _ s_dead); [right; exact Hf|]. right. split_and!; [exact Hf | exact Hb | cbn; lia | right; split; [exact Hc | exact Hm]].
Qed.

(** One turn of the [switch]. *)
Lemma dispatch_first k : no_url_yet (p k) k -> url_first (dispatch m_setting data lenient k).
Proof.
  intros (Hf & Hb & Hp & Hcase). unfold dispatch.
  assert (Hbreak : forall k', app k' = app k -> body_mark k' = body_mark k -> p k' = p k -> url_mark k' = None -> before_url (p_state k') = true ->
    url_first (Break k')).
  { intros k' H1 H2 H3 H4 H5. right. split_and!; [congruence | congruence | lia | auto]. }
  assert (Herr : forall e k', app k' = app k -> url_first (goto_error e k')).
  { intros e k' H1. right. cbn. congruence. }
  destruct Hcase as [[Hs Hu] | (Hs & m & Hu & Hm)]; destruct (p_state k) eqn:Est; try discriminate;
    autounfold with http_cases; unfold CALLBACK_NOTIFY_;
    repeat lazymatch goal with
    | |- url_first (if ?b then _ else _) => destruct b eqn:?
    | |- url_first (match on_message_begin _ with Some _ => _ | None => _ end) => cbn [m_setting on_message_begin]
    | |- url_first (match ?o with Some _ => _ | None => _ end) => destruct o eqn:?
    | |- url_first (goto_error _ _) => apply Herr; reflexivity
    | |- url_first (Abort _) => exact I
    | |- url_first (Break _) => apply Hbreak; cbn; rewrite ?Est; solve [auto]
    | |- url_first (CALLBACK_DATA_ _ _ _ _ _ _ _) => apply (url_reported _ _ _ m); [exact Hu | exact Hm | intros k' Hk'; left; exact Hk']
    | |- url_first (url_step k) =>
        apply url_step_first; [exact Hf | exact Hb | exact Hp | exists m; split; [exact Hu | lia] | rewrite Est; reflexivity]
    end.
  unfold MARK. cbn [get_mark]. rewrite Hu. cbn [put_mark].
  destruct (eqb _ HTTP_CONNECT); (apply url_step_first; [exact Hf | exact Hb | exact Hp | exists (p k); split; [reflexivity | cbn; lia] |]);
    cbn; rewrite ?Est; reflexivity.
Qed.

(** A call with the position [p k] inside the input. *)
Definition url_before (k : ctx RpcServerHttpConn) : Prop := has_url (app k) \/ no_url_yet (p k) k.

Lemma kept_first c : keeps has_url c -> url_first c.
Proof. destruct c; cbn; auto. Qed.

Lemma reexecute_first fuel k : no_url_yet (p k) k -> url_first (reexecute m_setting data lenient fuel k).
Proof.
  intros Hk. destruct fuel as [|fuel]; [exact I|]. cbn [reexecute]. pose proof (dispatch_first k Hk) as H.
  destruct (dispatch _ _ _ k); try exact H. apply kept_first, (reexecute_keeps _ _ _ _ m_setting_keeps_url). exact H.
Qed.

Lemma exec_char_first k : url_before k -> url_first (exec_char m_setting data lenient k).
Proof.
  intros [Hk | Hk]; [exact (kept_first _ (exec_char_keeps _ _ _ _ m_setting_keeps_url k Hk))|].
  unfold exec_char, COUNT_HEADER_SIZE. destruct (PARSING_HEADER _); [destruct (_ <? _); [right; exact (proj1 Hk)|]|];
    apply reexecute_first; assumption.
Qed.

(** The callbacks that are still due at the end of the input. *)
Lemma unset_callback f er k (rest : ctx RpcServerHttpConn -> ctl RpcServerHttpConn) :
  data_cb m_setting f = None \/ get_mark f k = None -> url_first (rest (put_mark f None k)) ->
  url_first (CALLBACK_DATA_ m_setting data f (p k) er k rest).
Proof.
  intros Hcb Hrest. unfold CALLBACK_DATA_. destruct (negb _); [exact I|]. destruct (get_mark f k) eqn:E.
  - destruct Hcb as [-> | ?]; [exact Hrest | discriminate].
  - rewrite <- (put_mark_none_id k f E). exact Hrest.
Qed.

Lemma exec_finish_first k : url_before k -> url_first (exec_finish m_setting data k).
Proof.
  intros [Hk | (Hf & Hb & Hp & Hcase)]; [exact (kept_first _ (exec_finish_keeps _ _ _ m_setting_keeps_url k Hk))|].
  unfold exec_finish, CALLBACK_DATA_NOADVANCE. destruct (negb _); [exact I|].
  apply unset_callback; [left; reflexivity|]. apply unset_callback; [left; reflexivity|].
  destruct Hcase as [[Hs Hu] | (Hs & m & Hu & Hm)].
  - apply unset_callback; [right; exact Hu|]. apply unset_callback; [right; exact Hb|]. apply unset_callback; [left; reflexivity|].
    right. split; [exact Hf | exact Hs].
  - eapply url_reported; [exact Hu | exact Hm|]. intros k' Hk'. apply kept_first.
    repeat (apply (data_keeps _ _ _ m_setting_keeps_url); [assumption | intros ? ?]). assumption.
Qed.

Lemma exec_loop_first fuel : forall k, url_before k -> url_first (exec_loop m_setting data lenient fuel k).
Proof.
  induction fuel as [|fuel IH]; intros k Hk; cbn [exec_loop]; destruct (_ =? _);
    try (apply exec_finish_first, Hk); [exact I|].
  destruct (byte_at data (p k)) as [d|]; [|exact I].
  pose proof (exec_char_first (put_ch d k) Hk) as H. destruct (exec_char _ _ _ _) as [k'| | | | |]; try exact H.
  apply IH. exact H.
Qed.
End Execute.

(** ** Between two calls *)

(** The connection has a URL, or nothing to make a package of. *)
Definition conn_first (x : http_parser) (c : RpcServerHttpConn) : Prop :=
  has_url c \/ m_is_body_final c = false /\ (errno_ok x = false \/ before_url (hp_state x) = true).

Lemma exec_body_first data lenient x c :
  errno_ok x = true -> conn_first x c -> url_first (exec_body m_setting data lenient x c).
Proof.
  intros He [Hc | (Hf & [Hs | Hs])]; [exact (kept_first _ (exec_body_keeps _ _ _ _ m_setting_keeps_url x c Hc)) | congruence|].
  unfold exec_body. rewrite He. cbn [negb]. destruct (_ =? _).
  - unfold exec_eof, initial_ctx. cbn [p_state]. destruct (hp_state x) eqn:E; try discriminate; right;
      (split; [exact Hf | cbn; rewrite E; reflexivity]).
  - apply exec_loop_first. right. unfold entry_marks, initial_ctx, no_url_yet. cbn [p_state].
    destruct (hp_state x); try discriminate; cbn; split_and!; auto; lia.
Qed.

Lemma execute_first x c data x' c' n :
  conn_first x c -> http_parser_execute m_setting x c data = Returned x' c' n -> conn_first x' c'.
Proof.
  intros Hc. unfold http_parser_execute. destruct (errno_ok x) eqn:He.
  2:{ unfold exec_body. rewrite He. intros [= <- <- _]. exact Hc. }
  pose proof (exec_body_first data (hp_lenient_http_headers x) x c He Hc) as H.
  destruct (exec_body _ _ _ _ _) as [k|k|k|y a m| |]; try discriminate.
  - assert (Hk : has_url (app k) \/ m_is_body_final (app k) = false) by exact H.
    destruct (errno_ok (pr k)) eqn:Hk'; intros [= <- <- _]; (destruct Hk as [Hk | Hk]; [left; exact Hk | right; split; [exact Hk | left]]);
      [reflexivity | exact Hk'].
  - intros [= <- <- _]. destruct H as [H | [H1 H2]]; [left | right]; auto.
Qed.

(** * [getRequest] *)

Lemma find_char_range ch pos s :
  0 <= pos <= zlen s -> find_char ch pos s = npos \/ pos <= find_char ch pos s < zlen s.
Proof.
  intros Hp. unfold find_char. destruct (index_of ch _) as [j|] eqn:E; [right | auto].
  assert (forall l j, index_of ch l = Some j -> (j < length l)%nat) as Hlt.
  { clear. induction l as [|d l IH]; intros j; [discriminate|]. cbn. destruct (_ =c _); [intros [= <-]; lia|].
    destruct (index_of ch l) as [i|]; [|discriminate]. intros [= <-]. specialize (IH i eq_refl). lia. }
  apply Hlt in E. rewrite length_drop in E. unfold zlen in *. lia.
Qed.

Lemma service_method_url url : url <> [] -> exists s m, service_method url = Some (s, m).
Proof.
  intros Hne. assert (Hlen : 1 <= zlen url) by (destruct url; [contradiction | rewrite zlen_cons; pose proof (zlen_nonneg url); lia]).
  unfold service_method, substr. replace (zlen url <? 1) with false by lia.
  assert (Hu : u64 (find_char "/" 1 url + 1) <= zlen url).
  { destruct (find_char_range "/" 1 url ltac:(lia)) as [-> | Hr]; [change (u64 (npos + 1)) with 0; lia|].
    unfold u64. pose proof (Z.mod_le (find_char "/" 1 url + 1) (2 ^ 64)). lia. }
  replace (zlen url <? u64 _) with false by lia. eauto.
Qed.

Section Codec.
Context `{MessageCodec RpcInnerReq}.

(** Protobuf does not serialize a message of 2 GB or more. *)
Definition codec_bounded : Prop := forall s m body, ByteSize (http_request s m body) < 2 ^ 31.

Hypothesis Hcodec : codec_bounded.

Lemma http_package_done c : has_url c -> exists pkg, http_package c = Done pkg.
Proof.
  intros Hu. unfold http_package. destruct (service_method_url _ Hu) as (s & m & ->). cbn [need outcome_bind].
  pose proof (Hcodec s m (m_body c)) as Hs. set (req := http_request s m (m_body c)) in *.
  pose proof (zlen_nonneg (serialize req)) as H0. fold (ByteSize req) in H0.
  rewrite (u32_small (ByteSize req)), (u32_small (ByteSize req + 4)) by lia. cbn [new_request_pkg rq_data rq_connection_id].
  rewrite write_first by (rewrite zlen_put32; lia). cbn [need outcome_bind].
  rewrite write_next by (rewrite ?zlen_put32; fold (ByteSize req); lia). cbn [need outcome_bind]. eauto.
Qed.

(** A connection on which [getRequest] is safe. *)
Record http_conn_ok (c : RpcServerHttpConn) : Prop := {
  hc_parser : parser_wf (m_http_parser c);
  hc_first : conn_first (m_http_parser c) c
}.

Lemma new_http_conn_ok id max_req_size : http_conn_ok (new_http_conn id max_req_size).
Proof. split; [apply init_wf | right; auto]. Qed.

Lemma parse_received_safe data c :
  zlen data < 2 ^ 31 -> http_conn_ok c -> exists r c', parse_received data c = Done (r, c') /\ http_conn_ok c'.
Proof.
  intros Hlen [Hwf Hc]. destruct (execute_wf m_setting (m_http_parser c) c data m_setting_ok Hlen Hwf) as (x & c1 & n & Hx & Hwf' & _).
  pose proof (execute_first _ _ _ _ _ _ Hc Hx) as Hc1. unfold parse_received. rewrite Hx.
  assert (Hok : http_conn_ok (put_http_parser x c1)) by (split; assumption).
  repeat (match goal with |- context [if ?b then Done (_, _) else _] => destruct b; [eauto|] end).
  destruct (m_is_body_final (put_http_parser x c1)) eqn:Hf; [|eauto].
  assert (Hu : has_url c1) by (destruct Hc1 as [Hu | [Hf' _]]; [exact Hu | cbn in Hf; congruence]).
  destruct (http_package_done (bodyFinal false (put_http_parser x c1)) Hu) as [pkg ->]. cbn [outcome_bind].
  do 2 eexists. split; [reflexivity|]. split; [exact Hwf' | left; exact Hu].
Qed.

Lemma http_getRequest_safe c rx : http_conn_ok c -> exists r c' rx', getRequest c rx = Done (r, c', rx') /\ http_conn_ok c'.
Proof.
  intros Hc. unfold getRequest. destruct (negb _); [eauto|]. destruct (recv 4096 rx) as [[b| | | |] rx1] eqn:E; eauto.
  - apply recv_received in E as (Hb & _ & _); [|lia].
    destruct (parse_received_safe b c ltac:(lia) Hc) as (r & c' & -> & Hc'). cbn [outcome_bind]. eauto.
  - destruct (parse_received_safe [] c ltac:(reflexivity) Hc) as (r & c' & -> & Hc'). cbn [outcome_bind]. eauto.
Qed.
End Codec.

(** * Property *)

Section Reach.
Context `{MessageCodec RpcInnerReq}.

(** What a program can do with an HTTP connection: [getRequest] with anything
    in the socket, and the sending side. *)
Inductive http_reach : RpcServerHttpConn -> Prop :=
| reach_new id max_req_size : http_reach (new_http_conn id max_req_size)
| reach_getRequest c rx r c' rx' : http_reach c -> getRequest c rx = Done (r, c', rx') -> http_reach c'
| reach_base c b : http_reach c ->
    http_reach (mk_http_conn b (m_http_parser c) (m_body c) (m_url c) (m_is_body_final c) (m_keep_alive c) (m_parse_fail c)).

Lemma http_reach_ok c : codec_bounded -> http_reach c -> http_conn_ok c.
Proof.
  intros Hcodec. induction 1 as [id max|c rx r c' rx' _ IH Hg|c b _ [Hp Hf]]; [apply new_http_conn_ok | | split; assumption].
  destruct (http_getRequest_safe Hcodec c rx IH) as (r1 & c1 & rx1 & Hg1 & Hok). congruence.
Qed.

(** C24: whatever a client sends, in whatever pieces, [getRequest] of an HTTP
    connection returns: no [substr] throws, no copy leaves the package, no
    assertion of the parser fails and nothing loops; this for as long as the
    connection lives and whatever it has received before, provided that the
    messages it makes are below the 2 GB protobuf can serialize. *)
Theorem http_getRequest_returns c rx (Hcodec : codec_bounded) (Hc : http_reach c) :
  exists r c' rx', getRequest c rx = Done (r, c', rx').
Proof. destruct (http_getRequest_safe Hcodec c rx (http_reach_ok c Hcodec Hc)) as (r & c' & rx' & H1 & _). eauto. Qed.

End Reach.

(** The sample codec, cut to 64 bytes. *)
Definition cut_codec : MessageCodec RpcInnerReq := {| serialize m := take 64 (serialize m); parse := parse |}.

Lemma cut_codec_bounded : codec_bounded (H := cut_codec).
Proof. intros s m b. unfold ByteSize, zlen. cbn [serialize cut_codec]. rewrite length_take. lia. Qed.

(** Bytes that are no request, and a [GET] of nothing but a slash. *)
Definition odd_rx : list rx_event := [RxAgain; RxData (bs "GET / HTTP/1.1" ++ http_crlf ++ http_crlf); RxData (bs "no request")].

Lemma http_getRequest_returns_witness :
  let c0 := new_http_conn "c1" 1000 in
  exists r1 c1 rx1 r2 c2 rx2 r3 c3 rx3,
    getRequest (H := cut_codec) c0 odd_rx = Done (r1, c1, rx1) /\ getRequest (H := cut_codec) c1 rx1 = Done (r2, c2, rx2) /\
    getRequest (H := cut_codec) c2 rx2 = Done (r3, c3, rx3).
Proof.
  destruct (http_getRequest_returns (H := cut_codec) (new_http_conn "c1" 1000) odd_rx cut_codec_bounded ltac:(constructor)) as (r1 & c1 & rx1 & H1).
  pose proof (reach_getRequest (H := cut_codec) _ _ _ _ _ ltac:(constructor) H1) as Hc1.
  destruct (http_getRequest_returns (H := cut_codec) c1 rx1 cut_codec_bounded Hc1) as (r2 & c2 & rx2 & H2).
  pose proof (reach_getRequest (H := cut_codec) _ _ _ _ _ Hc1 H2) as Hc2.
  destruct (http_getRequest_returns (H := cut_codec) c2 rx2 cut_codec_bounded Hc2) as (r3 & c3 & rx3 & H3).
  exists r1, c1, rx1, r2, c2, rx2, r3, c3, rx3. auto.
Defined.

