(* ===== verification/WorkerSafe.v ===== *)
(** The connection worker touches no memory it must not.  The interface
    [ServerConnectionSafe] is what a class of connections promises: a state on
    which [getRequest] never faults.  Against it, the loop of [start] is safe
    with any number of connections, events and threads that push responses:
    no null or freed connection is used, no buffer is overrun, and no queue
    operation faults.  Both classes of connections keep the promise. *)
From Stdlib Require Import ZArith Lia Bool List String Ascii.
From stdpp Require Import base list strings gmap relations.
From S2P Require Import Prelude Wire Socket Queue Stats HttpTypes HttpExec ServerConn Connection ConnWorker ConnWorkerProps Epoll HttpContract SampleCodec.
From S2P Require ServerConnProps HttpConn HttpConnSafe.
Import ServerConnProps(conn_at, at_start, at_data, sender_ok, resp_ok, sendResponse_ok, sent_ok, request_ok, unsent).

(** * The interface *)

(** The receiving side: what [conn_ok] may depend on. *)
Definition same_receiver (b b' : RpcServerConn) : Prop :=
  m_seqid b' = m_seqid b /\ m_cur_left_len b' = m_cur_left_len b /\ m_cur_pkg_size b' = m_cur_pkg_size b /\
  m_rpk b' = m_rpk b /\ MAX_REQ_LIMIT_BYTE b' = MAX_REQ_LIMIT_BYTE b.

(** An outcome that is no fault: a result, or a loop that waits. *)
Definition no_fault {T} (Q : T -> Prop) (o : outcome T) : Prop :=
  match o with Done r => Q r | Stuck w => w = Spinning end.

Class ServerConnectionSafe (C : Type) `{ServerConnection C} := {
  conn_ok : C -> Prop;
  new_connection_ok id max_req_size : 0 <= max_req_size < 2 ^ 32 -> conn_ok (new_connection id max_req_size);
  put_base_ok b c : conn_ok c -> same_receiver (base c) b -> conn_ok (put_base b c);
  getRequest_no_fault fuel c rx : conn_ok c ->
    no_fault (fun '(ret, c', _) => fst ret = 0 -> conn_ok c') (conn_getRequest fuel c rx)
}.

Lemma sendData_loop_receiver fuel : forall c tx st out c' tx',
  sendData_loop fuel c tx = Done (st, out, c', tx') -> same_receiver c c'.
Proof.
  induction fuel as [|fuel IH]; intros c tx st out c' tx'; cbn [sendData_loop]; [discriminate|].
  destruct (m_sent_pkg c); [|discriminate]. cbn [need outcome_bind]. destruct (send _ tx) as [[] tx1];
    try (intros [= _ _ <- _]; repeat split); [|apply IH].
  destruct (_ =? 0); [intros [= _ _ <- _]; repeat split|]. destruct (_ <? _); [discriminate|].
  destruct (_ =? _); intros [= _ _ <- _]; repeat split.
Qed.

Lemma sendResponse_receiver c tx st out c' tx' : sendResponse c tx = Done (st, out, c', tx') -> same_receiver c c'.
Proof.
  unfold sendResponse. destruct (negb _); [intros [= _ _ <- _]; repeat split|].
  destruct (isSending c); [apply sendData_loop_receiver|].
  destruct (pop_now _) as [[pkg|] q]; [|intros [= _ _ <- _]; repeat split].
  intros Hs. apply sendData_loop_receiver in Hs. exact Hs.
Qed.

(** * [RpcServerRpcConn] *)

Definition rpc_conn_ok (c : RpcServerConn) : Prop := (exists part, conn_at c part) /\ MAX_REQ_LIMIT_BYTE c < 2 ^ 32.

Lemma conn_at_receiver b c part : same_receiver c b -> conn_at c part -> conn_at b part.
Proof.
  intros (H1 & H2 & H3 & H4 & _) Hc. inversion Hc as [Hz Hr Hp|pre Hpre Hsz Hl Hr Hp]; subst part.
  - apply at_start; congruence.
  - rewrite <- H3. apply at_data; rewrite ?H1, ?H2, ?H3, ?H4; assumption.
Qed.

#[global] Instance rpc_connection_safe : ServerConnectionSafe RpcServerConn.
Proof.
  refine {| conn_ok := rpc_conn_ok |}.
  - intros id max Hmax. split; [exists []; apply at_start; reflexivity | cbn; lia].
  - intros b c [[part Hc] Hmax] Hb. split; [exists part; exact (conn_at_receiver _ _ _ Hb Hc)|].
    destruct Hb as (_ & _ & _ & _ & Hb). cbn in *. rewrite Hb. exact Hmax.
  - intros fuel c rx [[part Hc] Hmax]. pose proof (ServerConnProps.getRequest_ok fuel c part rx Hc Hmax) as H.
    cbn [conn_getRequest rpc_connection]. destruct (getRequest fuel c rx) as [[[[st o] c'] rx']|w]; cbn in *.
    + intros ->. destruct H as [[H _] | (_ & _ & _ & Hm & used & part' & _ & Hc' & _)]; [discriminate|].
      split; [exists part'; exact Hc' | congruence].
    + destruct w; try contradiction. reflexivity.
Defined.

(** * [RpcServerHttpConn] *)

Section Http.
Context `{MessageCodec RpcInnerReq}.
Hypothesis Hcodec : HttpConnSafe.codec_bounded.

Definition http_connection_safe : ServerConnectionSafe HttpConn.RpcServerHttpConn.
Proof.
  refine {| conn_ok := HttpConnSafe.http_conn_ok |}.
  - intros id max _. apply HttpConnSafe.new_http_conn_ok.
  - intros b c [Hp Hf] _. split; [exact Hp | exact Hf].
  - intros fuel c rx Hc. destruct (HttpConnSafe.http_getRequest_safe Hcodec c rx Hc) as (r & c' & rx' & Hg & Hc').
    cbn [conn_getRequest http_connection]. rewrite Hg. intros _. exact Hc'.
Defined.
End Http.

(** * The loop of [start] *)

Section Loop.
Context {C : Type} `{SC : ServerConnection C, SCL : !ServerConnectionLaw C, SCS : !ServerConnectionSafe C}.
Notation worker := (RpcServerConnWorker C).

(** A connection of the worker: it can receive and send. *)
Definition serviceable (c : C) : Prop :=
  conn_ok c /\ sender_ok (base c) /\ m_dropOldOnFull (m_response_q (base c)) = false.

Record worker_ok (w : worker) : Prop := {
  wo_conns : map_Forall (fun _ => serviceable) (m_conn_set w);
  wo_conn_q : m_dropOldOnFull (m_resp_conn_q w) = false;
  wo_task_q : m_dropOldOnFull (m_task_q w) = false
}.

(** The connections events are for, and the ones the worker has. *)
Definition event_ids (l : list ready) : list string :=
  omap (fun e => match e with ReadyConn id _ _ _ _ => Some id | _ => None end) l.
Definition registered (w : worker) (id : string) : Prop := is_Some (m_conn_set w !! id).

Lemma event_ids_cons e l : event_ids (e :: l) = event_ids [e] ++ event_ids l.
Proof. destruct e; reflexivity. Qed.

(** A new connection has the limit of the configuration, a [uint32_t]. *)
Definition event_fits (e : ready) : Prop :=
  match e with ReadyListen (Some a) => 0 <= acc_max_req_size a < 2 ^ 32 | _ => True end.

(** [w'] has all connections of [w], perhaps except for [ids]. *)
Definition keeps_conns (ids : list string) (w w' : worker) : Prop :=
  forall id, id ∉ ids -> registered w id -> registered w' id.

Lemma new_worker_ok name n : worker_ok (new_worker name n).
Proof. split; [apply map_Forall_empty | reflexivity | reflexivity]. Qed.

Lemma put_conn_safe id c w : worker_ok w -> serviceable c -> worker_ok (put_conn id c w).
Proof. intros [H1 H2 H3] Hc. split; [apply map_Forall_insert_2; assumption | exact H2 | exact H3]. Qed.

Lemma put_conn_keeps id c w ids : keeps_conns ids w (put_conn id c w).
Proof. intros i _ Hi. unfold registered. rewrite lookup_put_conn. destruct (decide _); [eauto | exact Hi]. Qed.

Lemma serviceable_sender b c : serviceable c -> conn_ok b -> same_sender (base c) (base b) -> serviceable b.
Proof.
  intros (_ & Hs & Hd) Hb (_ & Hq & Hp & Hl & _). split; [exact Hb|]. unfold sender_ok in *. rewrite Hq, Hp, Hl. auto.
Qed.

Lemma new_serviceable id max : 0 <= max < 2 ^ 32 -> serviceable (new_connection id max).
Proof.
  intros Hmax. split; [exact (new_connection_ok id max Hmax)|]. rewrite base_new_connection.
  repeat split; constructor.
Qed.

Lemma onAccept_safe n a w : worker_ok w -> event_fits (ReadyListen a) ->
  worker_ok (snd (onAccept n a w)) /\ keeps_conns [] w (snd (onAccept n a w)).
Proof.
  intros [H1 H2 H3] Ha. destruct a as [a|]; [|split; [split; assumption | intros id _ Hid; exact Hid]].
  unfold onAccept. cbv zeta. cbn [snd]. set (w1 := put_worker_seqid _ _). set (c := new_connection _ _).
  assert (Hw1 : worker_ok w1 /\ m_conn_set w1 = m_conn_set w) by (unfold w1; destruct (_ <=? _); (split; [split; assumption | reflexivity])).
  destruct Hw1 as [Hw1 Hset]. unfold addConnection. cbv zeta.
  assert (Hc : serviceable c) by (apply new_serviceable, Ha). clearbody w1 c. destruct (m_conn_set w1 !! m_seqid (base c)) eqn:E.
  - destruct Hw1. split; [split; assumption|]. intros id _ Hid. unfold registered in *. cbn. rewrite Hset. exact Hid.
  - pose proof (put_conn_safe (m_seqid (base c)) c w1 Hw1 Hc) as [Hp1 Hp2 Hp3]. split; [split; assumption|].
    intros id _ Hid. refine (put_conn_keeps (m_seqid (base c)) c w1 [] id _ _); [inversion 1|].
    unfold registered in *. rewrite Hset. exact Hid.
Qed.

Lemma onDataOutEvent_safe w : worker_ok w ->
  worker_ok (snd (onDataOutEvent w)) /\ m_conn_set (snd (onDataOutEvent w)) = m_conn_set w.
Proof.
  intros [H1 H2 H3]. unfold onDataOutEvent, onDataOutEvent_read. destruct (_ =? _); [split; [split; assumption | reflexivity]|].
  unfold onDataOutEvent_pop, pop_now, front_pop. cbn [m_resp_conn_q put_resp_ev].
  destruct (m_queue (m_resp_conn_q w)); cbn [snd]; [split; [split; assumption | reflexivity]|].
  unfold onDataOutEvent_arm. cbn [m_conn_set put_resp_conn_q put_resp_ev]. destruct (m_conn_set w !! _); [destruct (negb _)|];
    (split; [split; assumption | reflexivity]).
Qed.

Lemma removeConnection_ok id w : worker_ok w -> worker_ok (removeConnection id w).
Proof. intros [H1 H2 H3]. split; [apply map_Forall_delete, H1 | exact H2 | exact H3]. Qed.

(** A connection that failed is not kept. *)
Lemma remove_put_safe id c w : worker_ok w -> worker_ok (removeConnection id (put_conn id c w)).
Proof.
  intros [H1 H2 H3]. split; [|exact H2 | exact H3]. intros i d. cbn. rewrite delete_insert_eq.
  intros [_ Hi]%lookup_delete_Some. exact (H1 i d Hi).
Qed.

Lemma removeConnection_keeps id w : keeps_conns [id] w (removeConnection id w).
Proof. intros i Hi Hr. unfold registered. cbn. rewrite lookup_delete_ne; [exact Hr | intros ->; apply Hi; constructor]. Qed.

Lemma push_request_safe pkg w : worker_ok w ->
  exists w', push_request pkg w = Done w' /\ worker_ok w' /\ m_conn_set w' = m_conn_set w.
Proof.
  intros [H1 H2 H3]. unfold push_request. rewrite push_now_full by exact H3. destruct (_ <=? _); cbn [outcome_bind];
    (eexists; split; [reflexivity|]; split; [split; assumption | reflexivity]).
Qed.

(** [onDataIn] for a connection the worker has: afterwards it has it still, or
    has removed it. *)
Lemma onDataIn_safe fuel id rx w : worker_ok w -> registered w id ->
  no_fault (fun '(go, w', _) => worker_ok w' /\ keeps_conns [id] w w' /\ (go = true -> registered w' id)) (onDataIn fuel fuel id rx w).
Proof.
  intros Hw [c Hc]. unfold onDataIn. destruct fuel as [|n]; [reflexivity|]. generalize (S n) at 2. intros fuel.
  cbn [onDataIn_read]. rewrite Hc. cbn [need outcome_bind]. pose proof (wo_conns w Hw id c Hc) as Hsc.
  pose proof (getRequest_no_fault fuel c rx (proj1 Hsc)) as Hg.
  destruct (conn_getRequest fuel c rx) as [[[[st o] c1] rx1]|s] eqn:E; [|exact Hg]. cbn [outcome_bind no_fault fst] in *.
  pose proof (getRequest_keeps_sender _ _ _ _ _ _ E) as Hsame.
  assert (Hput : keeps_conns [id] w (put_conn id c1 w)) by apply put_conn_keeps.
  destruct (getRequest_status _ _ _ _ _ _ _ E) as [-> | ->]; cbn [Z.ltb Z.compare].
  2:{ cbn [outcome_bind no_fault]. split; [apply remove_put_safe, Hw|]. split; [|discriminate].
      intros i Hi Hr. apply removeConnection_keeps; [exact Hi | exact (Hput i Hi Hr)]. }
  pose proof (put_conn_safe id c1 w Hw (serviceable_sender c1 c Hsc (Hg eq_refl) Hsame)) as Hw1.
  assert (Hr1 : registered (put_conn id c1 w) id) by (exists c1; apply lookup_insert_eq).
  destruct o as [pkg|]; [|cbn [Z.eqb outcome_bind no_fault]; auto].
  destruct (push_request_safe pkg _ Hw1) as (w2 & -> & Hw2 & Hset). cbn [outcome_bind no_fault].
  unfold keeps_conns, registered in *. rewrite Hset. auto.
Qed.

(** [onDataOut] for a connection the worker has. *)
Lemma onDataOut_safe id tx w : worker_ok w -> registered w id ->
  exists go out w' tx', onDataOut id tx w = Done (go, out, w', tx') /\ worker_ok w' /\ keeps_conns [id] w w'.
Proof.
  intros Hw [c Hc]. unfold onDataOut, onDataOut_send. rewrite Hc. cbn [need outcome_bind].
  destruct (wo_conns w Hw id c Hc) as (Hok & Hs & Hd). pose proof (sendResponse_ok (base c) tx Hs) as Hsent. unfold sent_ok in Hsent.
  destruct (sendResponse (base c) tx) as [[[[st out] b] tx1]|] eqn:E; [|contradiction]. cbn [outcome_bind].
  assert (Hc1 : serviceable (put_base b c)).
  { split; [exact (put_base_ok b c Hok (sendResponse_receiver _ _ _ _ _ _ E))|]. rewrite base_put_base.
    split; [apply Hsent|]. apply sendResponse_left in E as (_ & -> & _). exact Hd. }
  pose proof (put_conn_safe id _ w Hw Hc1) as Hw1. assert (Hput : keeps_conns [id] w (put_conn id (put_base b c) w)) by apply put_conn_keeps.
  set (w1 := put_conn id (put_base b c) w) in *. clearbody w1.
  destruct st; eexists _, out, _, tx1; (split; [reflexivity|]); try (match goal with |- context [response_q_empty id w1] => destruct (response_q_empty id w1) end); auto;
    try (destruct Hw1; split; [split; assumption | exact Hput]).
  split; [apply removeConnection_ok, Hw1|]. intros i Hi Hr. apply removeConnection_keeps; [exact Hi | exact (Hput i Hi Hr)].
Qed.

(** One event. *)
Lemma start_event_safe n fuel e w : worker_ok w -> event_fits e -> Forall (registered w) (event_ids [e]) ->
  no_fault (fun '(w', _) => worker_ok w' /\ keeps_conns (event_ids [e]) w w') (start_event n fuel e w).
Proof.
  intros Hw Hf Hr. destruct e as [a| |id epollin epollout rx tx]; cbn [start_event].
  - exact (onAccept_safe n a w Hw Hf).
  - destruct (onDataOutEvent_safe w Hw) as [H1 H2]. split; [exact H1|]. intros id _ Hid. unfold registered. rewrite H2. exact Hid.
  - change (Forall (registered w) [id]) in Hr. rewrite Forall_singleton in Hr. change (event_ids [_]) with [id].
    assert (Hin : no_fault (fun '(go, w') => worker_ok w' /\ keeps_conns [id] w w' /\ (go = true -> registered w' id))
      (if epollin then let! (go, w, _) := onDataIn fuel fuel id rx w in Done (go, w) else Done (true, w))).
    { destruct epollin; [|cbn; unfold keeps_conns; auto]. pose proof (onDataIn_safe fuel id rx w Hw Hr) as H.
      destruct (onDataIn fuel fuel id rx w) as [[[go w1] rx1]|]; exact H. }
    destruct (if epollin then _ else _) as [[go w1]|]; [|exact Hin]. cbn [outcome_bind no_fault] in *. destruct Hin as (Hw1 & Hk1 & Hg).
    destruct go; [destruct epollout|]; cbn [negb orb]; [|cbn; auto..].
    destruct (onDataOut_safe id tx w1 Hw1 (Hg eq_refl)) as (go & out & w2 & tx2 & -> & Hw2 & Hk2). cbn [outcome_bind no_fault].
    split; [exact Hw2|]. intros i Hi Hri. exact (Hk2 i Hi (Hk1 i Hi Hri)).
Qed.

(** [pushResp] of a well-formed package. *)
Lemma put_response_q_serviceable q c :
  serviceable c -> Forall resp_ok (m_queue q) -> m_dropOldOnFull q = false -> serviceable (put_base (put_response_q q (base c)) c).
Proof.
  intros (Hok & [_ Hs] & _) Hq Hd. split; [apply put_base_ok; [exact Hok | repeat split]|]. rewrite base_put_base.
  split; [split; [exact Hq | exact Hs] | exact Hd].
Qed.

Lemma pushResp_safe id pkg w : worker_ok w -> resp_ok pkg ->
  exists w', pushResp id pkg w = Done w' /\ worker_ok w' /\ keeps_conns [] w w'.
Proof.
  intros Hw Hpkg. unfold pushResp, pushResp_queue. destruct (m_conn_set w !! id) as [c|] eqn:Hc.
  2:{ cbn. exists w. split; [reflexivity|]. split; [exact Hw|]. intros i _ Hi. exact Hi. }
  pose proof (wo_conns w Hw id c Hc) as Hsc. pose proof Hsc as (_ & [Hq _] & Hd). rewrite push_now_full by exact Hd.
  assert (Hput : forall q, Forall resp_ok (m_queue q) -> m_dropOldOnFull q = false ->
    let w1 := put_conn id (put_base (put_response_q q (base c)) c) w in worker_ok w1 /\ keeps_conns [] w w1).
  { intros q H1 H2. split; [apply put_conn_safe, put_response_q_serviceable; assumption | apply put_conn_keeps]. }
  destruct (_ <=? _); cbn [outcome_bind].
  - destruct (Hput (m_response_q (base c)) Hq Hd) as [[H1 H2 H3] Hk]. eexists. split; [reflexivity|]. split; [split; assumption | exact Hk].
  - destruct (Hput (set_items (m_queue (m_response_q (base c)) ++ [pkg]) (m_response_q (base c)))) as [[H1 H2 H3] Hk];
      [apply Forall_app; split; [exact Hq | apply Forall_singleton, Hpkg] | exact Hd|].
    unfold pushResp_conn. rewrite push_now_full by exact H2. destruct (_ <=? _); cbn [outcome_bind];
      (eexists; split; [reflexivity|]; split; [split; assumption | exact Hk]).
Qed.

(** ** Any run of the worker

    The events of one [Wait] are for different connections that are registered
    when it returns; they are handled one after the other, and meanwhile other
    threads push responses and take requests. *)
Inductive loop_step : worker * list ready -> worker * list ready -> Prop :=
| step_wait w l : Forall event_fits l -> NoDup (event_ids l) -> Forall (registered w) (event_ids l) -> loop_step (w, []) (w, l)
| step_event n fuel w e l w' out : start_event n fuel e w = Done (w', out) -> loop_step (w, e :: l) (w', l)
| step_push id pkg w l w' : resp_ok pkg -> pushResp id pkg w = Done w' -> loop_step (w, l) (w', l)
| step_take w l pkg q : pop_now (m_task_q w) = (Some pkg, q) -> loop_step (w, l) (put_task_q q w, l).

(** ** What a wait gives

    The pointer a descriptor is registered with: an [EpollStruct] for the
    listening socket, for the event descriptor, or for a connection. *)
Inductive EpollStruct := EpsListen | EpsResp | EpsConn (id : string).

Definition EPOLLIN : Z := 1.
Definition EPOLLOUT : Z := 4.

(** The turn of the loop that an event read by [getData] and [getEvent] makes. *)
Definition makes (e : epoll_event EpollStruct) (r : ready) : Prop :=
  match ev_data e, r with
  | Some EpsListen, ReadyListen _ => True
  | Some EpsResp, ReadyResp => True
  | Some (EpsConn id), ReadyConn id' epollin epollout _ _ =>
      id' = id /\ epollin = negb (Z.land (ev_events e) EPOLLIN =? 0) /\ epollout = negb (Z.land (ev_events e) EPOLLOUT =? 0)
  | _, _ => False
  end.

(** The table of the epoll set: every connection in it is registered, and has
    one descriptor. *)
Record table_ok (w : worker) (t : gmap Z (epoll_event EpollStruct)) : Prop := {
  to_registered fd e id : t !! fd = Some e -> ev_data e = Some (EpsConn id) -> registered w id;
  to_distinct fd fd' e e' : t !! fd = Some e -> t !! fd' = Some e' -> ev_data e = ev_data e' -> fd = fd'
}.

(** The table stays so when a connection is added, armed and removed together
    with its descriptor, as [addConnection], [Mod] and [removeConnection] do. *)
Lemma table_add w t id c fd events :
  table_ok w t -> ~ registered w id -> t !! fd = None ->
  table_ok (put_conn id c w) (<[fd := mk_event events (Some (EpsConn id))]> t).
Proof.
  intros [Hreg Hdis] Hid Hfd. split.
  - intros fd' e id' He Hd. apply lookup_insert_Some in He as [[_ <-] | [_ He]].
    + injection Hd as <-. exists c. apply lookup_insert_eq.
    + apply (put_conn_keeps id c w []); [inversion 1 | exact (Hreg fd' e id' He Hd)].
  - intros fd1 fd2 e1 e2 H1 H2 Hd. apply lookup_insert_Some in H1 as [[<- <-] | [_ H1]], H2 as [[<- <-] | [_ H2]]; [reflexivity | | |].
    + destruct Hid. exact (Hreg _ _ _ H2 (eq_sym Hd)).
    + destruct Hid. exact (Hreg _ _ _ H1 Hd).
    + exact (Hdis _ _ _ _ H1 H2 Hd).
Qed.

Lemma table_mod w t fd e events : table_ok w t -> t !! fd = Some e -> table_ok w (<[fd := mk_event events (ev_data e)]> t).
Proof.
  intros [Hreg Hdis] He.
  assert (Hsame : forall fd' e', <[fd := mk_event events (ev_data e)]> t !! fd' = Some e' ->
    exists e0, t !! fd' = Some e0 /\ ev_data e0 = ev_data e').
  { intros fd' e' [[<- <-] | [_ H']]%lookup_insert_Some; eauto. }
  split.
  - intros fd' e' id (e0 & H0 & Hd)%Hsame Hd'. exact (Hreg fd' e0 id H0 (eq_trans Hd Hd')).
  - intros fd1 fd2 e1 e2 (a & Ha & Hda)%Hsame (b & Hb & Hdb)%Hsame Hd. apply (Hdis _ _ _ _ Ha Hb). congruence.
Qed.

Lemma table_remove w t fd e id : table_ok w t -> t !! fd = Some e -> ev_data e = Some (EpsConn id) ->
  table_ok (removeConnection id w) (delete fd t).
Proof.
  intros [Hreg Hdis] He Hd. split.
  - intros fd' e' id' [Hne He']%lookup_delete_Some Hd'. apply removeConnection_keeps; [|exact (Hreg _ _ _ He' Hd')].
    intros Hin%list_elem_of_singleton. subst id'. apply Hne. apply (Hdis _ _ _ _ He He'). congruence.
  - intros fd1 fd2 e1 e2 [_ H1]%lookup_delete_Some [_ H2]%lookup_delete_Some. exact (Hdis _ _ _ _ H1 H2).
Qed.

(** A wait gives events as [step_wait] has them. *)
Lemma wait_gives w t maxevents l es :
  table_ok w t -> reports t maxevents l -> Forall2 makes l es ->
  NoDup (event_ids es) /\ Forall (registered w) (event_ids es).
Proof.
  intros [Hreg Hdis] Hrep Hes. destruct (reports_distinct t maxevents l Hdis Hrep) as [Hnd Hin].
  assert (Hids : event_ids es = omap (fun d => match d with Some (EpsConn id) => Some id | _ => None end) (ev_data <$> l)).
  { clear Hrep Hnd Hin. induction Hes as [|e r l es He _ IH]; [reflexivity|]. rewrite event_ids_cons, IH, fmap_cons.
    unfold makes in He. destruct (ev_data e) as [[]|], r; try contradiction; try reflexivity. destruct He as [-> _]. reflexivity. }
  rewrite Hids. clear Hrep Hes Hids. revert Hnd Hin. generalize (ev_data <$> l). intros ds Hnd Hin.
  induction Hnd as [|d ds Hd _ IH]; [split; constructor|]. apply Forall_cons in Hin as [(fd & e & He & Hdata) Hin].
  destruct (IH Hin) as [IH1 IH2]. destruct d as [[| |id]|]; try (split; assumption). cbn [omap list_omap].
  split; constructor; try assumption.
  - intros (d & Hdin & Hsome)%list_elem_of_omap. destruct d as [[| |id']|]; try discriminate. injection Hsome as ->. contradiction.
  - exact (Hreg fd e id He Hdata).
Qed.

Record loop_ok (s : worker * list ready) : Prop := {
  lo_worker : worker_ok (fst s);
  lo_fits : Forall event_fits (snd s);
  lo_once : NoDup (event_ids (snd s));
  lo_registered : Forall (registered (fst s)) (event_ids (snd s))
}.

Lemma loop_event w e l : loop_ok (w, e :: l) ->
  worker_ok w /\ event_fits e /\ Forall (registered w) (event_ids [e]) /\
  forall w', worker_ok w' -> keeps_conns (event_ids [e]) w w' -> loop_ok (w', l).
Proof.
  intros [H1 H2 H3 H4]. cbn [fst snd] in *. rewrite event_ids_cons in H3, H4.
  apply Forall_cons in H2 as [H2 H2']. apply NoDup_app in H3 as (_ & H3 & H3'). apply Forall_app in H4 as [H4 H4'].
  do 3 (split; [assumption|]). intros w' Hw' Hk. split; try assumption. cbn [fst snd].
  rewrite Forall_forall in *. intros i Hi. apply Hk; [intros Hn; exact (H3 i Hn Hi) | exact (H4' i Hi)].
Qed.

Lemma loop_keeps w w' l : loop_ok (w, l) -> worker_ok w' -> keeps_conns [] w w' -> loop_ok (w', l).
Proof.
  intros [H1 H2 H3 H4] Hw Hk. split; try assumption. cbn [fst snd] in *. rewrite Forall_forall in *.
  intros i Hi. apply Hk; [inversion 1 | exact (H4 i Hi)].
Qed.

Lemma loop_step_ok s s' : loop_ok s -> loop_step s s' -> loop_ok s'.
Proof.
  intros Hs Hstep. destruct Hstep as [w l H1 H2 H3|n fuel w e l w' out He|id pkg w l w' Hp He|w l pkg q He].
  - destruct Hs as [H _ _ _]. split; assumption.
  - destruct (loop_event w e l Hs) as (Hw & Hf & Hr & Hnext). pose proof (start_event_safe n fuel e w Hw Hf Hr) as H.
    rewrite He in H. destruct H as [H1 H2]. exact (Hnext w' H1 H2).
  - destruct (pushResp_safe id pkg w (lo_worker _ Hs) Hp) as (w1 & He1 & Hw1 & Hk). rewrite He in He1. injection He1 as <-.
    exact (loop_keeps w w' l Hs Hw1 Hk).
  - apply (loop_keeps w); [exact Hs | | intros i _ Hi; exact Hi]. destruct (lo_worker _ Hs) as [H1 H2 H3].
    split; [exact H1 | exact H2|]. unfold pop_now, front_pop in He. cbn in *. destruct (m_queue (m_task_q w)); [discriminate|].
    injection He as _ <-. exact H3.
Qed.

Lemma loop_reach_ok name n w l : rtc loop_step (new_worker name n, []) (w, l) -> loop_ok (w, l).
Proof.
  intros Hr. assert (H0 : loop_ok (new_worker name n, [])) by (split; [apply new_worker_ok | constructor..]).
  revert H0. induction Hr as [|s1 s2 s3 Hstep _ IH]; [auto|]. intros Hs. exact (IH (loop_step_ok _ _ Hs Hstep)).
Qed.

(** C23: a connection worker never faults.  Its thread may handle any number of
    waits with any events, data and connections, while other threads push
    responses to it and take requests from it: in every state they reach, the
    event to be handled next is handled without a null pointer, a freed
    connection or an access out of bounds (it may only wait for ever for the
    rest of a length), and a response that is pushed is pushed without one. *)
Theorem worker_never_faults name n w l (Hr : rtc loop_step (new_worker name n, []) (w, l)) :
  (forall e l' max_conn_num fuel, l = e :: l' -> no_fault (fun _ => True) (start_event max_conn_num fuel e w)) /\
  forall id pkg, resp_ok pkg -> exists w', pushResp id pkg w = Done w'.
Proof.
  pose proof (loop_reach_ok _ _ _ _ Hr) as Hok. split.
  - intros e l' max fuel ->. destruct (loop_event w e l' Hok) as (Hw & Hf & Hre & _).
    pose proof (start_event_safe max fuel e w Hw Hf Hre) as H. destruct (start_event max fuel e w); [exact I | exact H].
  - intros id pkg Hp. destruct (pushResp_safe id pkg w (lo_worker _ Hok) Hp) as (w' & H & _). eauto.
Qed.
End Loop.

(** An HTTP worker with a connection that has received half a request, when a
    response is pushed to it and the rest of a wait is still to be handled. *)
#[local] Existing Instance HttpConnSafe.cut_codec.
#[local] Instance cut_http_safe : ServerConnectionSafe HttpConn.RpcServerHttpConn :=
  http_connection_safe HttpConnSafe.cut_codec_bounded.

Definition half_rx : list rx_event := [RxData (bs "GET / HTTP/1.1")].
Definition rest_rx : list rx_event := [RxData (http_crlf ++ http_crlf)].
Definition half_event : ready := ReadyConn c1 true false half_rx [].
Definition rest_event : ready := ReadyConn c1 true true rest_rx [TxAccept 100].

Definition event_result {C} (o : outcome (RpcServerConnWorker C * buffer)) : RpcServerConnWorker C :=
  match o with Done (w, _) => w | Stuck _ => new_worker "stuck" 0 end.

Definition http_worker0 : RpcServerConnWorker HttpConn.RpcServerHttpConn := new_worker "w" 100.
Definition http_worker1 := event_result (start_event 10 5 (ReadyListen (Some (an_accept 77 5))) http_worker0).
Definition http_worker2 := event_result (start_event 10 5 half_event http_worker1).
Definition http_worker3 := match pushResp c1 a_response http_worker2 with Done w => w | Stuck _ => http_worker0 end.

Lemma http_worker_reached : rtc loop_step (http_worker0, []) (http_worker3, [rest_event; ReadyResp]).
Proof.
  eapply rtc_l; [apply (step_wait http_worker0 [ReadyListen (Some (an_accept 77 5))]); repeat constructor; vm_compute; congruence|].
  eapply rtc_l; [apply (step_event 10 5 http_worker0 _ [] http_worker1 []); vm_compute; reflexivity|].
  eapply rtc_l; [apply (step_wait http_worker1 [half_event]); repeat constructor; [inversion 1 | vm_compute; eauto]|].
  eapply rtc_l; [apply (step_event 10 5 http_worker1 _ [] http_worker2 []); vm_compute; reflexivity|].
  eapply rtc_l; [apply (step_wait http_worker2 [rest_event; ReadyResp]); repeat constructor; [inversion 1 | vm_compute; eauto]|].
  eapply rtc_l; [apply (step_push c1 a_response http_worker2 _ http_worker3); [repeat split | vm_compute; reflexivity]|].
  apply rtc_refl.
Qed.

Lemma worker_never_faults_witness :
  no_fault (fun _ => True) (start_event 10 5 rest_event http_worker3) /\ exists w', pushResp c1 a_response http_worker3 = Done w'.
Proof.
  destruct (worker_never_faults "w" 100 http_worker3 [rest_event; ReadyResp] http_worker_reached) as [H1 H2].
  split; [exact (H1 rest_event [ReadyResp] 10 5%nat eq_refl) | apply (H2 c1 a_response); repeat split].
Defined.
