(* ===== verification/ConnThreads.v ===== *)
(** The connection worker with the lock of its connections: every thread that
    pushes a response ([pushResp]) holds [m_conn_rwlock] for reading from the
    search of the connection to the event, and the connection thread holds it
    for writing while it adds or deletes a connection.  The threads are cut at
    every action on what they share; a simulation maps their states to those
    of [ConnWorkerProps], and no thread uses a connection that is gone. *)
From Stdlib Require Import ZArith Lia Bool List String Ascii.
From stdpp Require Import base list strings gmap.
From S2P Require Import Prelude Wire Socket Queue Stats Locks ServerConn Connection ConnWorker ConnWorkerProps.

Section Threads.
Context {C : Type} `{SC : ServerConnection C, SCL : !ServerConnectionLaw C}.

(** * Threads *)

(** Where a thread is in [pushResp]. *)
Inductive push_at :=
| Outside     (* before the lock *)
| Locked      (* the connection is searched next *)
| Found       (* has a pointer to the connection; its queue is next *)
| Queued      (* the queue of ids is next *)
| Announced   (* the event is next *)
| Leaving.    (* the lock is given up next *)

Record pusher := mk_pusher { pu_id : string; pu_pkg : response_pkg; pu_at : push_at }.

Definition move (p : pusher) (a : push_at) : pusher := mk_pusher (pu_id p) (pu_pkg p) a.

Inductive pusher_step : RpcServerConnWorker C -> RWLock -> pusher -> RpcServerConnWorker C -> RWLock -> option pusher -> Prop :=
| p_lock w k k' p :
    pu_at p = Outside -> lock_read k = Some k' -> pusher_step w k p w k' (Some (move p Locked))
| p_find w k p :
    pu_at p = Locked ->
    pusher_step w k p w k (Some (move p (match m_conn_set w !! pu_id p with Some _ => Found | None => Leaving end)))
| p_queue w w' k p ok :                 (* the pointer must still be valid *)
    pu_at p = Found -> is_Some (m_conn_set w !! pu_id p) -> pushResp_queue (pu_id p) (pu_pkg p) w = Done (ok, w') ->
    pusher_step w k p w' k (Some (move p (if ok : bool then Queued else Leaving)))
| p_ids w w' k p :                      (* the queue of ids is not full *)
    pu_at p = Queued -> size (m_resp_conn_q w) < m_max_q_len (m_resp_conn_q w) -> pushResp_conn (pu_id p) w = Done w' ->
    pusher_step w k p w' k (Some (move p Announced))
| p_event w k p :
    pu_at p = Announced -> pusher_step w k p (pushResp_event w) k (Some (move p Leaving))
| p_unlock w k k' p :
    pu_at p = Leaving -> rw_unlock k = Done k' -> pusher_step w k p w k' None.

(** Where the connection thread is: in a phase of [ConnWorkerProps] without
    the lock, or inside a section under it. *)
Inductive conn_at :=
| At (ph : out_phase)
| AcceptLocked
| RemoveLocked (id : string)
| WriteDone
| SeenLocked (id : string)
| SeenDone.

(** The worker, its lock, the threads in [pushResp], the threads in
    [dumpConnIDs] and the connection thread. *)
Record threads := mk_threads {
  th_wk : RpcServerConnWorker C;
  th_lock : RWLock;
  th_pushers : list pusher;
  th_dumpers : nat;
  th_conn : conn_at
}.

Inductive thread_step : threads -> threads -> Prop :=
| t_arrive w k l d c id pkg :
    thread_step (mk_threads w k l d c) (mk_threads w k (mk_pusher id pkg Outside :: l) d c)
| t_push w k l1 p l2 d c w' k' o :
    pusher_step w k p w' k' o ->
    thread_step (mk_threads w k (l1 ++ p :: l2) d c) (mk_threads w' k' (l1 ++ option_list o ++ l2) d c)
| t_dump w k k' l d c :
    lock_read k = Some k' -> thread_step (mk_threads w k l d c) (mk_threads w k' l (S d) c)
| t_dumped w k k' l d c :
    rw_unlock k = Done k' -> thread_step (mk_threads w k l (S d) c) (mk_threads w k' l d c)
| t_tasks w k l d c q :
    thread_step (mk_threads w k l d c) (mk_threads (put_task_q q w) k l d c)
| t_conn w k l d ph w' ph' :
    conn_step w ph w' ph' -> thread_step (mk_threads w k l d (At ph)) (mk_threads w' k l d (At ph'))
| t_accept_lock w k k' l d :
    lock_write k = Some k' -> thread_step (mk_threads w k l d (At Idle)) (mk_threads w k' l d AcceptLocked)
| t_accept w k l d max_conn_num a closed w' :
    m_worker_seqid w < 2 ^ 32 - 1 -> onAccept max_conn_num (Some a) w = (closed, w') ->
    thread_step (mk_threads w k l d AcceptLocked) (mk_threads w' k l d WriteDone)
| t_remove_lock w k k' l d id :
    lock_write k = Some k' -> thread_step (mk_threads w k l d (At (WillRemove id))) (mk_threads w k' l d (RemoveLocked id))
| t_remove w k l d id :
    thread_step (mk_threads w k l d (RemoveLocked id)) (mk_threads (removeConnection id w) k l d WriteDone)
| t_written w k k' l d :
    rw_unlock k = Done k' -> thread_step (mk_threads w k l d WriteDone) (mk_threads w k' l d (At Idle))
| t_seen_lock w k k' l d id :
    lock_read k = Some k' -> thread_step (mk_threads w k l d (At (Seen id))) (mk_threads w k' l d (SeenLocked id))
| t_arm w k l d id :
    thread_step (mk_threads w k l d (SeenLocked id)) (mk_threads (onDataOutEvent_arm id w) k l d SeenDone)
| t_armed w k k' l d :
    rw_unlock k = Done k' -> thread_step (mk_threads w k l d SeenDone) (mk_threads w k' l d (At Idle)).

Inductive thread_reach (name : string) (max_req_qsize : Z) : threads -> Prop :=
| thread_start : thread_reach name max_req_qsize (mk_threads (new_worker name max_req_qsize) new_RWLock [] 0 (At Idle))
| thread_next t t' : thread_reach name max_req_qsize t -> thread_step t t' -> thread_reach name max_req_qsize t'.

(** * The simulation *)

Definition queued_of (p : pusher) : list string := match pu_at p with Queued => [pu_id p] | _ => [] end.
Definition announced_of (p : pusher) : nat := match pu_at p with Announced => 1 | _ => 0 end.
Definition inside_of (p : pusher) : nat := match pu_at p with Outside => 0 | _ => 1 end.

Definition queued (l : list pusher) : list string := concat (map queued_of l).
Definition announced (l : list pusher) : nat := list_sum (map announced_of l).
Definition inside (l : list pusher) : nat := list_sum (map inside_of l).

Definition phase_of (c : conn_at) : out_phase :=
  match c with
  | At ph => ph
  | RemoveLocked id => WillRemove id
  | SeenLocked id => Seen id
  | AcceptLocked | WriteDone | SeenDone => Idle
  end.

Definition writing (c : conn_at) : bool :=
  match c with AcceptLocked | RemoveLocked _ | WriteDone => true | _ => false end.
Definition reading (c : conn_at) : nat := match c with SeenLocked _ | SeenDone => 1 | _ => 0 end.

Definition abs (t : threads) : sys :=
  mk_sys (th_wk t) (queued (th_pushers t)) (announced (th_pushers t)) (phase_of (th_conn t)).

(** The lock is held by those inside, and the pointers found are valid. *)
Record threads_ok (t : threads) : Prop := {
  th_held : held (th_lock t) (inside (th_pushers t) + th_dumpers t + reading (th_conn t)) (writing (th_conn t));
  th_found : forall p, p ∈ th_pushers t -> pu_at p = Found -> is_Some (m_conn_set (th_wk t) !! pu_id p)
}.

#[local] Arguments queued : simpl never.
#[local] Arguments announced : simpl never.
#[local] Arguments inside : simpl never.

Lemma queued_mid l1 l l2 : queued (l1 ++ l ++ l2) = queued l1 ++ queued l ++ queued l2.
Proof. unfold queued. rewrite !map_app, !concat_app. reflexivity. Qed.

Lemma announced_mid l1 l l2 : announced (l1 ++ l ++ l2) = (announced l1 + announced l + announced l2)%nat.
Proof. unfold announced. rewrite !map_app, !list_sum_app. lia. Qed.

Lemma inside_mid l1 l l2 : inside (l1 ++ l ++ l2) = (inside l1 + inside l + inside l2)%nat.
Proof. unfold inside. rewrite !map_app, !list_sum_app. lia. Qed.

Lemma nobody_inside l : inside l = 0%nat -> queued l = [] /\ announced l = 0%nat /\ Forall (fun p => pu_at p = Outside) l.
Proof.
  induction l as [|p l IH]; [repeat split; constructor|]. unfold inside. cbn [map list_sum fold_right]. intros Hz.
  change (inside_of p + inside l = 0)%nat in Hz. destruct (IH ltac:(lia)) as (Hq & Ha & Hf).
  unfold inside_of in Hz. unfold queued, announced. cbn [map concat list_sum fold_right].
  destruct (pu_at p) eqn:E; try lia. unfold queued_of at 1, announced_of at 1. rewrite E. auto.
Qed.

(** * The steps *)

Lemma at_mid (l1 l2 : list pusher) p q : q ∈ l1 ++ p :: l2 -> q = p \/ q ∈ l1 ++ l2.
Proof. rewrite !elem_of_app, elem_of_cons. tauto. Qed.

Lemma mid_in (l1 l2 : list pusher) p q : q ∈ l1 ++ l2 -> q ∈ l1 ++ p :: l2.
Proof. rewrite !elem_of_app, elem_of_cons. tauto. Qed.

Lemma queued_one p : queued [p] = queued_of p.
Proof. apply app_nil_r. Qed.

Lemma announced_one p : announced [p] = announced_of p.
Proof. unfold announced. cbn. lia. Qed.

Lemma inside_one p : inside [p] = inside_of p.
Proof. unfold inside. cbn. lia. Qed.

(** A step of a pusher is a step of the abstract state, or none. *)
Lemma pusher_sim w k p w' k' o l1 l2 ph :
  pusher_step w k p w' k' o ->
  let s := mk_sys w (queued (l1 ++ [p] ++ l2)) (announced (l1 ++ [p] ++ l2)) ph in
  let s' := mk_sys w' (queued (l1 ++ option_list o ++ l2)) (announced (l1 ++ option_list o ++ l2)) ph in
  s' = s \/ sys_step s s'.
Proof.
  intros Hp. cbv zeta. rewrite !queued_mid, !announced_mid, queued_one, announced_one.
  destruct Hp as [w k k' p Ha _|w k p Ha|w w' k p ok Ha _ Hq|w w' k p Ha Hroom Hi|w k p Ha|w k k' p Ha _];
    cbn [option_list]; rewrite ?queued_one, ?announced_one; unfold queued_of, announced_of; cbn [pu_at pu_id move]; rewrite Ha.
  - left. reflexivity.
  - left. destruct (m_conn_set w !! pu_id p); reflexivity.
  - right. destruct ok; cbn [app]; (eapply step_push; [exact Hq|]); cbv iota; [symmetry; apply Permutation_middle | reflexivity].
  - right. rewrite Nat.add_0_r, <- Nat.add_assoc, Nat.add_1_l, Nat.add_succ_r.
    eapply step_push_conn; [|exact Hroom | exact Hi]. symmetry. apply Permutation_middle.
  - right. rewrite Nat.add_0_r, <- Nat.add_assoc, Nat.add_1_l, Nat.add_succ_r. apply step_push_event.
  - left. reflexivity.
Qed.

Lemma pusher_held w k p w' k' o r wr :
  pusher_step w k p w' k' o -> held k (inside_of p + r) wr -> held k' (inside (option_list o) + r) wr.
Proof.
  destruct 1 as [w k k' p Ha Hl|w k p Ha|w w' k p ok Ha _ Hq|w w' k p Ha Hroom Hi|w k p Ha|w k k' p Ha Hu]; intros Hh;
    cbn [option_list]; rewrite ?inside_one; unfold inside_of in *; cbn [pu_at move]; rewrite Ha in Hh; try exact Hh.
  - apply (lock_read_held _ _ _ _ Hh) in Hl as [-> Hl]. exact Hl.
  - destruct (m_conn_set w !! pu_id p); exact Hh.
  - destruct ok; exact Hh.
  - destruct wr; [destruct Hh as (_ & _ & Hz); specialize (Hz eq_refl); discriminate|].
    destruct (unlock_reader _ _ Hh) as (k2 & Hk & Hh2). rewrite Hk in Hu. injection Hu as <-. exact Hh2.
Qed.

Lemma pusher_names w k p w' k' o : pusher_step w k p w' k' o -> same_names w w'.
Proof.
  destruct 1; try reflexivity; eauto using push_names, push_conn_names. apply conn_set_names; reflexivity.
Qed.

Lemma pusher_found w k p w' k' q :
  pusher_step w k p w' k' (Some q) -> pu_at q = Found -> is_Some (m_conn_set w' !! pu_id q).
Proof.
  inversion 1; subst; cbn [pu_at pu_id move]; try discriminate.
  - destruct (m_conn_set w' !! pu_id p); [eauto | discriminate].
  - destruct ok; discriminate.
Qed.

(** ** The simulation *)

Lemma held_unlock k k' r wr : held k r wr -> (wr = false -> 0 < r)%nat -> rw_unlock k = Done k' -> held k' (pred r) false.
Proof.
  intros Hh Hr Hu. destruct wr.
  - destruct (unlock_writer _ _ Hh) as (k2 & Hk & Hh2). rewrite Hk in Hu. injection Hu as <-.
    destruct Hh as (_ & _ & Hz). rewrite (Hz eq_refl). exact Hh2.
  - specialize (Hr eq_refl). destruct r as [|r]; [lia|]. destruct (unlock_reader _ _ Hh) as (k2 & Hk & Hh2).
    rewrite Hk in Hu. injection Hu as <-. exact Hh2.
Qed.

Lemma writer_alone t : threads_ok t -> writing (th_conn t) = true ->
  inside (th_pushers t) = 0%nat /\ th_dumpers t = 0%nat.
Proof. intros [(_ & _ & Hz) _] Hw. rewrite Hw in Hz. specialize (Hz eq_refl). lia. Qed.

Lemma outside_found (l : list pusher) (w : RpcServerConnWorker C) :
  inside l = 0%nat -> forall p, p ∈ l -> pu_at p = Found -> is_Some (m_conn_set w !! pu_id p).
Proof.
  intros Hz p Hp Ha. destruct (nobody_inside l Hz) as (_ & _ & Hf). rewrite Forall_forall in Hf.
  rewrite (Hf p Hp) in Ha. discriminate.
Qed.

Lemma thread_step_ok t t' : thread_step t t' -> threads_ok t -> threads_ok t'.
Proof.
  intros Hs Hok. pose proof (writer_alone t Hok) as Halone. destruct Hok as [Hh Hf].
  destruct Hs as [w k l d c id pkg|w k l1 p l2 d c w' k' o Hp|w k k' l d c Hl|w k k' l d c Hu|w k l d c q|w k l d ph w' ph' Hc
    |w k k' l d Hl|w k l d mx a cl w' Hlt Ha|w k k' l d id Hl|w k l d id|w k k' l d Hu|w k k' l d id Hl|w k l d id|w k k' l d Hu];
    cbn [th_lock th_pushers th_dumpers th_conn th_wk writing reading] in *.
  - split; [exact Hh|]. intros p [->|Hp]%elem_of_cons Ha; [discriminate | eauto].
  - change (p :: l2) with ([p] ++ l2) in *. rewrite inside_mid, inside_one in Hh. split; cbn [th_lock th_pushers th_dumpers th_conn th_wk].
    + rewrite inside_mid. replace (inside l1 + inside (option_list o) + inside l2 + d + reading c)%nat
        with (inside (option_list o) + (inside l1 + inside l2 + d + reading c))%nat by lia.
      apply (pusher_held _ _ _ _ _ _ _ _ Hp). replace (inside_of p + (inside l1 + inside l2 + d + reading c))%nat
        with (inside l1 + inside_of p + inside l2 + d + reading c)%nat by lia. exact Hh.
    + intros q Hq Ha. apply elem_of_app in Hq as [Hq|[Hq|Hq]%elem_of_app].
      * eapply same_names_known; [exact (pusher_names _ _ _ _ _ _ Hp)|]. apply Hf; [set_solver | exact Ha].
      * destruct o as [p'|]; [|inversion Hq]. apply list_elem_of_singleton in Hq as ->. exact (pusher_found _ _ _ _ _ _ Hp Ha).
      * eapply same_names_known; [exact (pusher_names _ _ _ _ _ _ Hp)|]. apply Hf; [set_solver | exact Ha].
  - apply (lock_read_held _ _ _ _ Hh) in Hl as [Hw Hl]. split; [|exact Hf]. cbn. rewrite Hw, Nat.add_succ_r. exact Hl.
  - split; [|exact Hf]. cbn. apply (held_unlock _ _ _ _ Hh) in Hu; [|lia]. rewrite Nat.add_succ_r in Hu, Hh. cbn in Hu.
    destruct (writing c); [|exact Hu]. destruct (Halone eq_refl). discriminate.
  - split; [exact Hh | exact Hf].
  - split; [exact Hh|]. intros p Hp Ha. eapply same_names_known; [exact (conn_step_names _ _ _ _ Hc)|]. apply Hf; assumption.
  - apply (lock_write_held _ _ _ _ Hh) in Hl as (Hz & _ & Hl). split; [|exact Hf]. cbn. rewrite Hz. exact Hl.
  - destruct (Halone eq_refl) as [Hz _]. split; [exact Hh|]. apply outside_found. exact Hz.
  - apply (lock_write_held _ _ _ _ Hh) in Hl as (Hz & _ & Hl). split; [|exact Hf]. cbn. rewrite Hz. exact Hl.
  - destruct (Halone eq_refl) as [Hz _]. split; [exact Hh|]. apply outside_found. exact Hz.
  - destruct (Halone eq_refl) as [Hz Hd]. split; [|exact Hf]. cbn in *. subst d. rewrite Hz in *.
    exact (held_unlock _ _ _ _ Hh ltac:(discriminate) Hu).
  - apply (lock_read_held _ _ _ _ Hh) in Hl as [_ Hl]. split; [|exact Hf]. cbn.
    rewrite Nat.add_0_r in Hl. rewrite Nat.add_1_r. exact Hl.
  - split; [exact Hh|]. intros p Hp Ha. eapply same_names_known; [exact (event_arm_names id w)|]. apply Hf; assumption.
  - split; [|exact Hf]. cbn. apply (held_unlock _ _ _ _ Hh) in Hu; [|lia].
    rewrite Nat.add_1_r in Hu. rewrite Nat.add_0_r. exact Hu.
Qed.

Lemma thread_step_sim t t' : thread_step t t' -> threads_ok t -> abs t' = abs t \/ sys_step (abs t) (abs t').
Proof.
  intros Hs Hok. pose proof (writer_alone t Hok) as Halone.
  destruct Hs as [w k l d c id pkg|w k l1 p l2 d c w' k' o Hp|w k k' l d c Hl|w k k' l d c Hu|w k l d c q|w k l d ph w' ph' Hc
    |w k k' l d Hl|w k l d mx a cl w' Hlt Ha|w k k' l d id Hl|w k l d id|w k k' l d Hu|w k k' l d id Hl|w k l d id|w k k' l d Hu];
    unfold abs; cbn [th_wk th_pushers th_conn th_dumpers phase_of writing] in *; try (left; reflexivity).
  - exact (pusher_sim _ _ _ _ _ _ l1 l2 (phase_of c) Hp).
  - right. apply step_tasks.
  - right. apply step_conn, Hc.
  - right. destruct (Halone eq_refl) as [Hz _]. apply nobody_inside in Hz as (-> & -> & _). exact (step_accept _ _ _ _ _ Hlt Ha).
  - right. destruct (Halone eq_refl) as [Hz _]. apply nobody_inside in Hz as (-> & -> & _). apply step_remove.
  - right. apply step_arm.
Qed.

(** Every state of the threads is one of the abstract states, with the lock
    held by those who are in its sections. *)
Lemma thread_refines name max t : thread_reach name max t -> sys_reach name max (abs t) /\ threads_ok t.
Proof.
  induction 1 as [|t t' _ [IH IHok] Hs].
  - split; [apply sys_start|]. split; [repeat split|]. intros p Hp. inversion Hp.
  - split; [|exact (thread_step_ok _ _ Hs IHok)].
    destruct (thread_step_sim _ _ Hs IHok) as [-> | Hstep]; [exact IH | exact (sys_next _ _ _ _ IH Hstep)].
Qed.

(** A thread inside [pushResp] can go on, unless the queue of ids is full, and
    is out after at most five steps. *)
Definition steps_left (p : pusher) : nat :=
  match pu_at p with Outside => 6 | Locked => 5 | Found => 4 | Queued => 3 | Announced => 2 | Leaving => 1 end.

Lemma pusher_goes_on name max t p :
  thread_reach name max t -> p ∈ th_pushers t -> pu_at p <> Outside ->
  size (m_resp_conn_q (th_wk t)) < m_max_q_len (m_resp_conn_q (th_wk t)) ->
  exists w' k' o, pusher_step (th_wk t) (th_lock t) p w' k' o /\
    match o with Some p' => (steps_left p' < steps_left p)%nat | None => True end.
Proof.
  intros Hreach Hp Hne Hroom. destruct (thread_refines _ _ _ Hreach) as [Hsys [Hh Hf]].
  destruct (reach_ok _ _ _ Hsys) as [Hok _]. unfold steps_left. destruct (pu_at p) eqn:Ha; [contradiction|..].
  - eexists _, _, _. split; [apply p_find, Ha|]. cbn. destruct (m_conn_set _ !! _); cbn; lia.
  - destruct (Hf p Hp Ha) as [c Hc]. pose proof (ok_conn_nodrop _ Hok _ _ Hc) as Hd.
    destruct (push_now (pu_pkg p) (m_response_q (base c))) as [[ok q]|] eqn:Hq.
    2:{ unfold push_now, push in Hq. rewrite Hd in Hq. destruct (_ <=? _); discriminate. }
    eexists _, _, _. split; [eapply (p_queue _ _ _ _ ok Ha); [eauto | unfold pushResp_queue; rewrite Hc, Hq; reflexivity]|].
    destruct ok; cbn; lia.
  - destruct (push_now (pu_id p) (m_resp_conn_q (th_wk t))) as [[ok q]|] eqn:Hq.
    2:{ rewrite push_now_room in Hq by exact Hroom. discriminate. }
    eexists _, _, _. split; [eapply p_ids; [exact Ha | exact Hroom | unfold pushResp_conn; rewrite Hq; reflexivity]|]. cbn. lia.
  - eexists _, _, _. split; [apply p_event, Ha|]. cbn. lia.
  - assert (Hin : exists r, inside (th_pushers t) = S r).
    { apply list_elem_of_split in Hp as (l1 & l2 & ->). change (p :: l2) with ([p] ++ l2). rewrite inside_mid, inside_one.
      unfold inside_of. rewrite Ha. exists (inside l1 + inside l2)%nat. lia. }
    destruct Hin as [r Hr]. rewrite Hr in Hh. destruct (writing (th_conn t)).
    + destruct Hh as (_ & _ & Hz). specialize (Hz eq_refl). discriminate.
    + destruct (unlock_reader _ _ Hh) as (k' & Hk & _). eexists _, _, _. split; [apply (p_unlock _ _ _ _ Ha Hk)|]. exact I.
Qed.

(** * Properties *)


(** C22: no connection is used after it is deleted.  In every state the threads
    can reach, a thread in [pushResp] that has found its connection finds it
    still there, under the name it looked for; while a thread is inside, the
    connection thread is not in a section where it adds or deletes connections;
    and the lock a thread gives up is one it holds. *)
Theorem no_connection_used_after_free name max_req_qsize t p
    (Hreach : thread_reach name max_req_qsize t) (Hp : p ∈ th_pushers t) :
  (pu_at p = Found -> exists c, m_conn_set (th_wk t) !! pu_id p = Some c /\ m_seqid (base c) = pu_id p) /\
  (pu_at p <> Outside -> writing (th_conn t) = false) /\
  (pu_at p = Leaving -> exists k, rw_unlock (th_lock t) = Done k).
Proof.
  destruct (thread_refines _ _ _ Hreach) as [Hsys Hok]. apply reach_ok in Hsys as [_ Hn]. split; [|split].
  - intros Ha. destruct (th_found _ Hok p Hp Ha) as [c Hc]. exists c. split; [exact Hc|].
    destruct (ok_names _ Hn (pu_id p) (m_seqid (base c))) as [He _]; [|exact He].
    unfold names. cbn [abs wk]. rewrite lookup_fmap, Hc. reflexivity.
  - intros Ha. destruct (writing (th_conn t)) eqn:Hw; [|reflexivity]. destruct (writer_alone t Hok Hw) as [Hz _].
    apply nobody_inside in Hz as (_ & _ & Hf). rewrite Forall_forall in Hf. destruct (Ha (Hf p Hp)).
  - intros Ha. destruct (writing (th_conn t)) eqn:Hw.
    + destruct (writer_alone t Hok Hw) as [Hz _]. apply nobody_inside in Hz as (_ & _ & Hf). rewrite Forall_forall in Hf.
      rewrite (Hf p Hp) in Ha. discriminate.
    + destruct Hok as [Hh _]. rewrite Hw in Hh. destruct (inside (th_pushers t)) as [|r] eqn:Hi.
      * apply nobody_inside in Hi as (_ & _ & Hf). rewrite Forall_forall in Hf. rewrite (Hf p Hp) in Ha. discriminate.
      * destruct (unlock_reader _ _ Hh) as (k' & Hk & _). eauto.
Qed.
End Threads.

(** * Examples *)

(** A connection is accepted, and a thread pushes a response to it. *)
Definition a_push (a : push_at) : pusher := mk_pusher c1 a_response a.
Definition queued_worker : RpcServerConnWorker RpcServerConn := put_conn c1 with_response one_conn_worker.
Definition one_reader : RWLock := mk_rwlock 1 false.

Lemma pushing_reached : thread_reach "w" 100 (mk_threads one_conn_worker one_reader [a_push Found] 0 (At Idle)).
Proof.
  eapply thread_next; [eapply thread_next; [eapply thread_next; [eapply thread_next; [eapply thread_next; [eapply thread_next;
    [apply thread_start|]|]|]|]|]|].
  - apply (t_accept_lock _ _ (mk_rwlock 0 true)). reflexivity.
  - apply (t_accept _ _ _ _ 10 (an_accept 77 5) false one_conn_worker); [reflexivity | vm_compute; reflexivity].
  - apply (t_written _ _ new_RWLock). reflexivity.
  - apply (t_arrive _ _ _ _ _ c1 a_response).
  - eapply (t_push _ _ [] _ [] _ _ _ one_reader (Some (a_push Locked))), p_lock; reflexivity.
  - exact (t_push _ _ [] _ [] _ _ _ _ _ (p_find one_conn_worker one_reader (a_push Locked) eq_refl)).
Qed.

Lemma announced_reached : thread_reach "w" 100 (mk_threads announced_worker new_RWLock [] 0 (At Idle)).
Proof.
  eapply thread_next; [eapply thread_next; [eapply thread_next; [eapply thread_next; [exact pushing_reached|]|]|]|].
  - eapply (t_push _ _ [] _ [] _ _ queued_worker _ (Some (a_push Queued))), (p_queue _ _ _ (a_push Found) true);
      [reflexivity | vm_compute; eauto | vm_compute; reflexivity].
  - eapply (t_push _ _ [] _ [] _ _ _ _ (Some (a_push Announced))), p_ids; reflexivity.
  - eapply (t_push _ _ [] _ [] _ _ _ _ (Some (a_push Leaving))), p_event; reflexivity.
  - eapply (t_push _ _ [] _ [] _ _ _ _ None), p_unlock; reflexivity.
Qed.


Lemma no_connection_used_after_free_witness :
  (pu_at (a_push Found) = Found -> exists c, m_conn_set one_conn_worker !! c1 = Some c /\ m_seqid (base c) = c1) /\
  (pu_at (a_push Found) <> Outside -> false = false) /\
  (pu_at (a_push Found) = Leaving -> exists k, rw_unlock one_reader = Done k).
Proof.
  apply (no_connection_used_after_free "w" 100 _ (a_push Found) pushing_reached). left.
Defined.
