(* ===== verification/ServerRun.v ===== *)
(** The connection worker around a call, for any class of connections: the
    events that read a connection's requests into the queue of the worker
    threads, the push of a response with its notification, and the events that
    send it.  What [RpcCall] and [HttpCall] put together. *)
From Stdlib Require Import ZArith Lia Bool List String Ascii.
From stdpp Require Import base list strings gmap.
From S2P Require Import Prelude Wire Socket Queue Stats ServerConn Connection ConnWorker ConnWorkerProps.
From S2P Require ServerConnProps.
Import ServerConnProps(unsent, sender_ok, resp_ok, sendResponse_ok, sent_ok).

Section Run.
Context {C : Type} `{SC : ServerConnection C, SCL : !ServerConnectionLaw C}.

(** * Reading *)

(** [getRequest] called [calls] times, as [onDataIn] does once per event: the
    requests handed out, and the connection unless a call failed. *)
Fixpoint conn_requests (calls fuel : nat) (c : C) (rx : list rx_event)
    : outcome (list request_pkg * option C * list rx_event) :=
  match calls with
  | O => Done ([], Some c, rx)
  | S calls =>
      let! ((st, o), c, rx) := conn_getRequest fuel c rx in
      if st <? 0 then Done ([], None, rx)
      else
        let! (l, c, rx) := conn_requests calls fuel c rx in
        Done (match o with Some pkg => pkg :: l | None => l end, c, rx)
  end.

Lemma conn_requests_sender calls fuel : forall c rx l c' rx',
  conn_requests calls fuel c rx = Done (l, Some c', rx') -> same_sender (base c) (base c').
Proof.
  induction calls as [|calls IH]; intros c rx l c' rx'; cbn [conn_requests]; [intros [= _ <- _]; reflexivity|].
  destruct (conn_getRequest fuel c rx) as [[[[st o] c1] rx1]|] eqn:E; [|discriminate]. cbn [outcome_bind].
  destruct (st <? 0); [discriminate|]. destruct (conn_requests calls fuel c1 rx1) as [[[l1 c2] rx2]|] eqn:E2; [|discriminate].
  cbn [outcome_bind]. intros [= _ -> _]. etrans; [exact (getRequest_keeps_sender _ _ _ _ _ _ E) | exact (IH _ _ _ _ _ E2)].
Qed.

(** [onDataIn] run for [events] events on the connection [id], until it fails. *)
Fixpoint data_in (events fuel : nat) (id : string) (rx : list rx_event) (w : RpcServerConnWorker C)
    : outcome (bool * RpcServerConnWorker C * list rx_event) :=
  match events with
  | O => Done (true, w, rx)
  | S events =>
      let! (go, w, rx) := onDataIn 1 fuel id rx w in
      if go : bool then data_in events fuel id rx w else Done (false, w, rx)
  end.

(** The worker has the connection [c] and the tasks [tasks] more, and is
    otherwise the same to those that send. *)
Record got (id : string) (c : C) (tasks : list request_pkg) (w w' : RpcServerConnWorker C) : Prop := {
  got_conn : m_conn_set w' = <[id := c]> (m_conn_set w);
  got_tasks : m_task_q w' = set_items (m_queue (m_task_q w) ++ tasks) (m_task_q w);
  got_out : m_epoll_out w' = m_epoll_out w;
  got_conn_q : m_resp_conn_q w' = m_resp_conn_q w;
  got_ev : m_resp_ev w' = m_resp_ev w
}.

Lemma onDataIn_got fuel id w c rx o c' rx' :
  m_conn_set w !! id = Some c -> conn_getRequest fuel c rx = Done ((0, o), c', rx') ->
  size (m_task_q w) + zlen (option_list o) <= m_max_q_len (m_task_q w) ->
  exists w', onDataIn 1 fuel id rx w = Done (true, w', rx') /\ got id c' (option_list o) w w'.
Proof.
  intros Hc Hg Hroom. unfold onDataIn. cbn [onDataIn_read]. rewrite Hc. cbn [need outcome_bind]. rewrite Hg.
  cbn [outcome_bind Z.ltb Z.compare]. destruct o as [pkg|].
  - change (zlen (option_list (Some pkg))) with 1 in Hroom. unfold push_request. cbn [m_task_q put_conn put_conn_set].
    rewrite push_now_room by lia. cbn [outcome_bind]. eexists. split; [reflexivity|]. split; reflexivity.
  - eexists. split; [reflexivity|]. split; try reflexivity. cbn. rewrite app_nil_r. destruct (m_task_q w). reflexivity.
Qed.

(** The requests a connection hands out are queued for the worker threads. *)
Lemma data_in_got calls fuel id : forall rx w c l c' rx',
  conn_requests calls fuel c rx = Done (l, Some c', rx') -> m_conn_set w !! id = Some c ->
  size (m_task_q w) + zlen l <= m_max_q_len (m_task_q w) ->
  exists w', data_in calls fuel id rx w = Done (true, w', rx') /\ got id c' l w w'.
Proof.
  induction calls as [|calls IH]; intros rx w c l c' rx' Hr Hc Hroom; cbn [conn_requests data_in] in *.
  { injection Hr as <- <- <-. exists w. split; [reflexivity|].
    split; try reflexivity; [rewrite insert_id; auto | rewrite app_nil_r; destruct (m_task_q w); reflexivity]. }
  destruct (conn_getRequest fuel c rx) as [[[[st o] c1] rx1]|] eqn:E; [|discriminate]. cbn [outcome_bind] in Hr.
  destruct (getRequest_status _ _ _ _ _ _ _ E) as [-> | ->]; [cbn [Z.ltb Z.compare] in Hr | discriminate].
  destruct (conn_requests calls fuel c1 rx1) as [[[l1 o2] rx2]|] eqn:E2; [|discriminate]. cbn [outcome_bind] in Hr.
  assert (Hl : l = option_list o ++ l1) by (destruct o; injection Hr as <- _ _; reflexivity).
  injection Hr as _ -> ->. subst l. rewrite zlen_app in Hroom. pose proof (zlen_nonneg l1).
  destruct (onDataIn_got fuel id w c rx o c1 rx1 Hc E ltac:(lia)) as (w1 & -> & [Hc1 Hq1 Ho1 Hi1 He1]). cbn [outcome_bind].
  destruct (IH rx1 w1 c1 l1 c' rx' E2) as (w2 & -> & [Hc2 Hq2 Ho2 Hi2 He2]).
  - rewrite Hc1. apply lookup_insert_eq.
  - rewrite Hq1. unfold size in *. cbn [set_items m_queue m_max_q_len]. rewrite zlen_app. lia.
  - exists w2. split; [reflexivity|]. split; try congruence.
    + rewrite Hc2, Hc1. apply insert_insert_eq.
    + rewrite Hq2, Hq1. cbn. rewrite <- app_assoc. reflexivity.
Qed.

(** * Pushing a response *)

(** [EPOLLOUT] is armed for the connection [id], which has [data] to send. *)
Record armed (id : string) (data : buffer) (w : RpcServerConnWorker C) : Prop := {
  armed_out : id ∈ m_epoll_out w;
  armed_conn : exists c, m_conn_set w !! id = Some c /\ is_connected (base c) = true /\ sender_ok (base c) /\ unsent (base c) = data
}.

(** A response pushed to a connection with nothing to send, when there are no
    other notifications: the event arms the connection. *)
Lemma pushed_armed id resp c w :
  m_conn_set w !! id = Some c -> is_connected (base c) = true ->
  m_response_q (base c) = default_Queue -> m_sent_pkg (base c) = None -> resp_ok resp ->
  m_resp_conn_q w = default_Queue -> m_resp_ev w = 0 ->
  exists w1 w2, pushResp id resp w = Done w1 /\ onDataOutEvent w1 = (true, w2) /\ armed id (rs_data resp) w2.
Proof.
  intros Hc Hconn Hq Hs Hok Hids Hev. unfold pushResp, pushResp_queue. rewrite Hc, Hq.
  rewrite push_now_room by reflexivity. cbn [outcome_bind]. unfold pushResp_conn.
  cbn [m_resp_conn_q put_conn put_conn_set]. rewrite Hids, push_now_room by reflexivity. cbn [outcome_bind].
  eexists. eexists. split; [reflexivity|]. unfold onDataOutEvent, onDataOutEvent_read, onDataOutEvent_pop, pushResp_event.
  cbn [m_resp_ev put_resp_ev put_resp_conn_q put_conn put_conn_set m_resp_conn_q]. rewrite Hev.
  change (0 + 1 =? 0) with false. cbn [m_resp_conn_q put_resp_ev put_resp_conn_q pop_now front_pop m_queue set_items app default_Queue new_Queue].
  unfold onDataOutEvent_arm.
  set (d := put_base (put_response_q (set_items [resp] default_Queue) (base c)) c).
  match goal with |- context [m_conn_set ?v !! id] => set (w2 := v) end.
  assert (Hl : m_conn_set w2 !! id = Some d) by apply lookup_insert_eq. rewrite Hl.
  assert (Hb : base d = put_response_q (set_items [resp] default_Queue) (base c)) by apply base_put_base.
  unfold isSending. rewrite Hb. cbn [m_sent_pkg put_response_q]. rewrite Hs. cbn [negb]. split; [reflexivity|].
  split; [cbn; set_solver|]. exists d. rewrite Hb. unfold sender_ok, unsent. cbn [m_response_q m_sent_pkg put_response_q is_connected].
  rewrite Hs. cbn. rewrite app_nil_r. repeat split; auto.
Qed.

(** * Sending *)

(** [onDataOut] run for up to [events] events, which come while [EPOLLOUT] is
    armed, until it fails: the bytes on the wire. *)
Fixpoint data_out (events : nat) (id : string) (tx : list tx_event) (w : RpcServerConnWorker C)
    : outcome (buffer * RpcServerConnWorker C * list tx_event) :=
  match events with
  | O => Done ([], w, tx)
  | S events =>
      if decide (id ∈ m_epoll_out w) then
        let! (go, out, w, tx) := onDataOut id tx w in
        if go : bool then let! (out', w, tx) := data_out events id tx w in Done (out ++ out', w, tx)
        else Done (out, w, tx)
      else Done ([], w, tx)
  end.

Lemma onDataOut_armed id data tx w :
  armed id data w ->
  exists go out rest w' tx', onDataOut id tx w = Done (go, out, w', tx') /\ out ++ rest = data /\
    if go : bool then armed id rest w' \/ rest = [] /\ id ∉ m_epoll_out w'
    else m_conn_set w' !! id = None.
Proof.
  intros [Hin (c & Hc & Hconn & Hok & Hu)]. unfold onDataOut, onDataOut_send. rewrite Hc. cbn [need outcome_bind].
  pose proof (sendResponse_ok (base c) tx Hok) as Hs. unfold sent_ok in Hs.
  destruct (sendResponse (base c) tx) as [[[[st out] b] tx1]|] eqn:E; [|contradiction]. cbn [outcome_bind].
  apply sendResponse_left in E as (_ & _ & Hf & Hn). destruct Hs as (Hu1 & Hok1 & Hconn1 & _).
  rewrite Hu in Hu1. set (w1 := put_conn id (put_base b c) w).
  assert (Hl : m_conn_set w1 !! id = Some (put_base b c)) by apply lookup_insert_eq.
  assert (Harm : armed id (unsent b) w1).
  { split; [exact Hin|]. exists (put_base b c). rewrite base_put_base. repeat split; try assumption; try apply Hok1. congruence. }
  assert (Hdis : id ∉ m_epoll_out (disarm_out id w1)) by (cbn; set_solver).
  assert (Hempty : isSending b = false -> m_queue (m_response_q b) = [] -> unsent b = []).
  { unfold unsent, isSending. destruct (m_sent_pkg b); [discriminate|]. intros _ ->. reflexivity. }
  destruct st; eexists _, out, (unsent b), _, tx1; (split; [reflexivity|]); (split; [exact Hu1|]); cbv beta iota; auto;
    try (apply lookup_delete_eq); try (destruct (Hn eq_refl); auto; fail).
  all: unfold response_q_empty; rewrite Hl, base_put_base; destruct (size (m_response_q b) =? 0) eqn:Hz; [right|left; exact Harm];
    apply Z.eqb_eq in Hz; unfold size, zlen in Hz; (split; [|exact Hdis]); apply Hempty;
    [apply Hf; auto | destruct (m_queue (m_response_q b)); [reflexivity | discriminate]].
Qed.

(** A connection that is armed with nothing to send is disarmed. *)
Lemma onDataOut_nothing id tx w :
  armed id [] w -> exists w', onDataOut id tx w = Done (true, [], w', tx) /\ id ∉ m_epoll_out w'.
Proof.
  intros [Hin (c & Hc & Hconn & [Hq Hs] & Hu)]. unfold onDataOut, onDataOut_send. rewrite Hc. cbn [need outcome_bind].
  apply app_eq_nil in Hu as [Hu1 Hu2]. destruct (m_sent_pkg (base c)) as [p|] eqn:Hp.
  { exfalso. destruct Hs as ((Hlen & Hsz) & Hsent). apply (f_equal zlen) in Hu1. rewrite zlen_drop in Hu1 by lia.
    change (zlen (@nil (option ascii))) with 0 in Hu1. lia. }
  destruct (m_queue (m_response_q (base c))) as [|q l] eqn:Hl.
  2:{ exfalso. apply Forall_cons in Hq as [[Hlen Hsz] _]. apply app_eq_nil in Hu2 as [Hn _]. rewrite Hn in Hlen.
    change (rs_data_len q = 0) in Hlen. lia. }
  unfold sendResponse, isSending, pop_now, front_pop. rewrite Hconn, Hp, Hl. cbn [negb outcome_bind].
  eexists. split; [reflexivity|]. cbn. set_solver.
Qed.

(** A socket that takes at least a byte at every call. *)
Definition takes (e : tx_event) : Prop := exists k, e = TxAccept k /\ 0 < k.

Lemma sendData_loop_progress fuel c p k tx :
  sender_ok c -> m_sent_pkg c = Some p -> 0 < k ->
  exists st out c', sendData_loop (S fuel) c (TxAccept k :: tx) = Done (st, out, c', tx) /\ st <> FAIL /\ out <> [].
Proof.
  intros [_ Hs] Hp Hk. rewrite Hp in Hs. destruct Hs as ((Hlen & Hsz) & Hsent).
  cbn [sendData_loop]. rewrite Hp. cbn [need outcome_bind send]. rewrite u32_small, i32_small, u64_small by lia.
  set (slen := Z.max 0 (Z.min k (rs_data_len p - m_sent_len c))). assert (Hslen : 0 < slen <= rs_data_len p - m_sent_len c) by lia.
  clearbody slen. replace (slen =? 0) with false by lia. replace (zlen (rs_data p) <? m_sent_len c + slen) with false by lia.
  assert (Hout : take (Z.to_nat slen) (drop (Z.to_nat (m_sent_len c)) (rs_data p)) <> []).
  { intros Hn. apply (f_equal length) in Hn. rewrite length_take, length_drop in Hn. unfold zlen in Hlen. cbn [length] in Hn. lia. }
  destruct (_ =? _); eexists _, _, _; (split; [reflexivity|]); split; try discriminate; exact Hout.
Qed.

Lemma sendResponse_progress c k tx :
  sender_ok c -> is_connected c = true -> unsent c <> [] -> 0 < k ->
  exists st out c', sendResponse c (TxAccept k :: tx) = Done (st, out, c', tx) /\ st <> FAIL /\ out <> [].
Proof.
  intros Hok Hconn Hun Hk. unfold sendResponse, isSending. rewrite Hconn. cbn [negb].
  destruct (m_sent_pkg c) as [p|] eqn:Hp; [exact (sendData_loop_progress _ c p k tx Hok Hp Hk)|].
  destruct Hok as [Hq _]. unfold unsent in Hun. rewrite Hp in Hun. unfold pop_now, front_pop.
  destruct (m_queue (m_response_q c)) as [|q l]; [contradiction|]. apply Forall_cons in Hq as [Hq1 Hq2].
  apply (sendData_loop_progress _ _ q k tx); [|reflexivity | exact Hk]. split; [exact Hq2|]. cbn. split; [exact Hq1|].
  destruct Hq1. lia.
Qed.

Lemma onDataOut_progress id data k tx w :
  armed id data w -> data <> [] -> 0 < k ->
  exists out rest w', onDataOut id (TxAccept k :: tx) w = Done (true, out, w', tx) /\ out <> [] /\ out ++ rest = data /\
    (armed id rest w' \/ rest = [] /\ id ∉ m_epoll_out w').
Proof.
  intros Ha Hne Hk. destruct (onDataOut_armed id data (TxAccept k :: tx) w Ha) as (go & out & rest & w' & tx' & Ho & Hd & Hgo).
  destruct Ha as [_ (c & Hc & Hconn & Hok & Hu)]. rewrite <- Hu in Hne.
  destruct (sendResponse_progress (base c) k tx Hok Hconn Hne Hk) as (st & out' & b & Hs & Hst & Hout).
  unfold onDataOut, onDataOut_send in Ho. rewrite Hc in Ho. cbn [need outcome_bind] in Ho. rewrite Hs in Ho. cbn [outcome_bind] in Ho.
  exists out', rest, w'.
  assert (go = true /\ out = out' /\ tx' = tx) as (-> & -> & ->) by (destruct st; try contradiction; injection Ho as <- <- _ <-; auto).
  unfold onDataOut, onDataOut_send. rewrite Hc. cbn [need outcome_bind]. rewrite Hs. auto.
Qed.

(** What becomes of [data] that an armed connection [id] has to send: in
    whatever way the socket takes it, a first part is sent, and the rest waits
    with the connection armed, or is dropped with the connection; a socket
    that takes at least a byte each time gets it all, and the connection is
    disarmed. *)
Definition replied (id : string) (data : buffer) (w : RpcServerConnWorker C) : Prop :=
  (forall events tx, exists out rest w' tx',
     data_out events id tx w = Done (out, w', tx') /\ out ++ rest = data /\
     (armed id rest w' \/ rest = [] \/ m_conn_set w' !! id = None)) /\
  forall tx, Forall takes tx -> (length data <= length tx)%nat ->
    exists w' tx', data_out (S (length data)) id tx w = Done (data, w', tx') /\ id ∉ m_epoll_out w'.

Lemma data_out_sends events id : forall data tx w,
  armed id data w -> exists out rest w' tx', data_out events id tx w = Done (out, w', tx') /\ out ++ rest = data /\
     (armed id rest w' \/ rest = [] \/ m_conn_set w' !! id = None).
Proof.
  induction events as [|events IH]; intros data tx w Ha; cbn [data_out]; [eexists [], data, w, tx; auto|].
  rewrite decide_True by exact (armed_out _ _ _ Ha).
  destruct (onDataOut_armed id data tx w Ha) as (go & out & rest & w' & tx' & -> & Hd & Hgo). cbn [outcome_bind].
  destruct go; [|exists out, rest, w', tx'; auto]. destruct Hgo as [Ha'|[-> Hno]].
  - destruct (IH rest tx' w' Ha') as (out2 & rest2 & w2 & tx2 & -> & Hd2 & He). cbn [outcome_bind].
    exists (out ++ out2), rest2, w2, tx2. rewrite <- app_assoc, Hd2. auto.
  - exists out, [], w', tx'. destruct events; cbn [data_out]; [|rewrite decide_False by exact Hno];
      cbn [outcome_bind]; rewrite !app_nil_r in *; auto.
Qed.

Lemma data_out_all id : forall events data tx w,
  armed id data w -> Forall takes tx -> (length data <= length tx)%nat -> (length data < events)%nat ->
  exists w' tx', data_out events id tx w = Done (data, w', tx') /\ id ∉ m_epoll_out w'.
Proof.
  induction events as [|events IH]; intros data tx w Ha Htx Hl He; [lia|]. cbn [data_out].
  rewrite decide_True by exact (armed_out _ _ _ Ha). destruct data as [|x data].
  - destruct (onDataOut_nothing id tx w Ha) as (w' & -> & Hno). cbn [outcome_bind]. exists w', tx. split; [|exact Hno].
    destruct events; cbn [data_out]; [|rewrite decide_False by exact Hno]; reflexivity.
  - destruct tx as [|e tx]; [cbn in Hl; lia|]. apply Forall_cons in Htx as [(k & -> & Hk) Htx].
    destruct (onDataOut_progress id (x :: data) k tx w Ha ltac:(discriminate) Hk) as (out & rest & w' & -> & Hne & Hd & Hw).
    cbn [outcome_bind]. assert (Hlen : (length rest < length (x :: data))%nat).
    { rewrite <- Hd, length_app. destruct out; [contradiction | cbn; lia]. }
    cbn [length] in *. destruct Hw as [Ha'|[-> Hno]].
    + destruct (IH rest tx w' Ha' Htx ltac:(lia) ltac:(lia)) as (w2 & tx2 & -> & Hno). cbn [outcome_bind].
      exists w2, tx2. rewrite Hd. auto.
    + exists w', tx. rewrite app_nil_r in Hd. subst out. split; [|exact Hno].
      destruct events; cbn [data_out]; [|rewrite decide_False by exact Hno]; cbn [outcome_bind]; rewrite app_nil_r; reflexivity.
Qed.

Lemma armed_replied id data w : armed id data w -> replied id data w.
Proof.
  intros Ha. split; [intros events tx; exact (data_out_sends events id data tx w Ha)|].
  intros tx Htx Hl. exact (data_out_all id (S (length data)) data tx w Ha Htx Hl ltac:(lia)).
Qed.

(** * One call *)

(** A new connection hands out one request, and a response is pushed to it: the
    request is the next task of the worker threads, and the response is sent. *)
Lemma served calls fuel id rx w id0 max_req_size pkg c' rx' resp :
  conn_requests calls fuel (new_connection id0 max_req_size) rx = Done ([pkg], Some c', rx') ->
  m_conn_set w !! id = Some (new_connection id0 max_req_size) ->
  size (m_task_q w) < m_max_q_len (m_task_q w) -> m_resp_conn_q w = default_Queue -> m_resp_ev w = 0 -> resp_ok resp ->
  exists w1 w2 w3, data_in calls fuel id rx w = Done (true, w1, rx') /\
    m_queue (m_task_q w1) = m_queue (m_task_q w) ++ [pkg] /\
    pushResp id resp w1 = Done w2 /\ onDataOutEvent w2 = (true, w3) /\ replied id (rs_data resp) w3.
Proof.
  intros Hr Hc Hroom Hids Hev Hok. destruct (conn_requests_sender _ _ _ _ _ _ _ Hr) as (_ & Hq & Hs & _ & Hconn).
  rewrite base_new_connection in *.
  destruct (data_in_got calls fuel id rx w _ _ _ _ Hr Hc) as (w1 & Hin & [Hc1 Hq1 Ho1 Hi1 He1]); [change (zlen [pkg]) with 1; lia|].
  assert (Hc' : m_conn_set w1 !! id = Some c') by (rewrite Hc1; apply lookup_insert_eq).
  destruct (pushed_armed id resp c' w1 Hc' Hconn Hq Hs Hok) as (w2 & w3 & Hp & He & Ha); [congruence..|].
  exists w1, w2, w3. repeat (split; [first [assumption | rewrite Hq1; reflexivity]|]). exact (armed_replied _ _ _ Ha).
Qed.
End Run.
