(* ===== verification/Serving.v ===== *)
(** What one connection sends while all threads of the server run: the steps
    of [ConnWorkerProps] with, of each, the responses it queues for the
    connection and the bytes it sends to it.  In every interleaving the bytes
    sent are the first of the responses queued, in that order, and when there
    is nothing left to do they are all of them; and from every state such a
    run can be completed. *)
From Stdlib Require Import ZArith Lia Bool List String Ascii.
From stdpp Require Import base list strings gmap.
From S2P Require Import Prelude Wire Socket Queue Stats ServerConn Connection ConnWorker ConnWorkerProps.
From S2P Require ServerConnProps.
From S2P Require Import ServerRun.
Import ServerConnProps(unsent, sender_ok, resp_ok, sendResponse_ok, sent_ok).

Section Serving.
Context {C : Type} `{SC : ServerConnection C, SCL : !ServerConnectionLaw C}.

(** * The steps, seen from one connection *)

Definition only (id i : string) {A} (l : list A) : list A := if decide (i = id) then l else [].

(** A step of the threads: the responses it queues for the connection [id]
    and the bytes it sends to it. *)
Inductive traced (id : string) : sys (C:=C) -> list response_pkg -> buffer -> sys (C:=C) -> Prop :=
| traced_in w w' l n turns fuel i rx go rx' :
    onDataIn_read turns fuel i rx w = Done (go, w', rx') ->
    traced id (mk_sys w l n Idle) [] [] (mk_sys w' l n (if go : bool then Idle else WillRemove i))
| traced_event_read w w' l n :
    onDataOutEvent_read w = Some w' -> traced id (mk_sys w l n Idle) [] [] (mk_sys w' l n EventRead)
| traced_event_pop w w' l n o :
    onDataOutEvent_pop w = (o, w') ->
    traced id (mk_sys w l n EventRead) [] [] (mk_sys w' l n (match o with Some i => Seen i | None => Idle end))
| traced_arm w l n i :
    traced id (mk_sys w l n (Seen i)) [] [] (mk_sys (onDataOutEvent_arm i w) l n Idle)
| traced_send w w' l n i tx tx' st out :
    i ∈ m_epoll_out w -> onDataOut_send i tx w = Done (st, out, w', tx') ->
    traced id (mk_sys w l n Idle) [] (only id i out) (mk_sys w' l n (after_send i st))
| traced_check w l n i :
    traced id (mk_sys w l n (SentFull i)) [] [] (mk_sys w l n (if response_q_empty i w then WillDisarm i else Idle))
| traced_disarm w l n i :
    traced id (mk_sys w l n (WillDisarm i)) [] [] (mk_sys (disarm_out i w) l n Idle)
| traced_accept w w' max_conn_num a closed :
    m_worker_seqid w < 2 ^ 32 - 1 -> onAccept max_conn_num (Some a) w = (closed, w') ->
    traced id (mk_sys w [] 0 Idle) [] [] (mk_sys w' [] 0 Idle)
| traced_remove w i :
    traced id (mk_sys w [] 0 (WillRemove i)) [] [] (mk_sys (removeConnection i w) [] 0 Idle)
| traced_push w w' l l' n ph i pkg ok :
    pushResp_queue i pkg w = Done (ok, w') -> l' ≡ₚ (if ok : bool then i :: l else l) ->
    traced id (mk_sys w l n ph) (if ok then only id i [pkg] else []) [] (mk_sys w' l' n ph)
| traced_push_conn w w' l l' n ph i :
    l ≡ₚ i :: l' -> size (m_resp_conn_q w) < m_max_q_len (m_resp_conn_q w) -> pushResp_conn i w = Done w' ->
    traced id (mk_sys w l n ph) [] [] (mk_sys w' l' (S n) ph)
| traced_push_event w l n ph :
    traced id (mk_sys w l (S n) ph) [] [] (mk_sys (pushResp_event w) l n ph)
| traced_tasks w l n ph q :
    traced id (mk_sys w l n ph) [] [] (mk_sys (put_task_q q w) l n ph).

(** These are the steps of the threads. *)
Lemma traced_sys id s P O s' : traced id s P O s' -> sys_step s s'.
Proof. destruct 1; eauto using sys_step, conn_step. Qed.

Lemma sys_traced id s s' : sys_step s s' -> exists P O, traced id s P O s'.
Proof. destruct 1 as [? ? ? ? ? ? []| | | | | | |]; eauto using traced. Qed.

(** A run during which the connection [id] is there. *)
Inductive traced_run (id : string) : sys (C:=C) -> list response_pkg -> buffer -> sys (C:=C) -> Prop :=
| run_nil s : traced_run id s [] [] s
| run_step s P O s1 P' O' s' :
    traced id s P O s1 -> is_Some (m_conn_set (wk s1) !! id) -> traced_run id s1 P' O' s' ->
    traced_run id s (P ++ P') (O ++ O') s'.

Lemma run_one id s P O s' : traced id s P O s' -> is_Some (m_conn_set (wk s') !! id) -> traced_run id s P O s'.
Proof. intros H Hc. rewrite <- (app_nil_r P), <- (app_nil_r O). eauto using traced_run. Qed.

Lemma run_app id s P O s1 P' O' s' :
  traced_run id s P O s1 -> traced_run id s1 P' O' s' -> traced_run id s (P ++ P') (O ++ O') s'.
Proof.
  induction 1 as [|s P O s1 P1 O1 s2 H Hc _ IH]; intros H2; [exact H2|]. rewrite <- !app_assoc. eauto using traced_run.
Qed.

(** * What is sent *)

Definition sender_at (id : string) (w : RpcServerConnWorker C) : option RpcServerConn := base <$> m_conn_set w !! id.

Lemma sender_at_some id w c : m_conn_set w !! id = Some c -> sender_at id w = Some (base c).
Proof. intros Hc. unfold sender_at. rewrite Hc. reflexivity. Qed.

Lemma sender_at_put id i (c : C) w : sender_at id (put_conn i c w) = if decide (id = i) then Some (base c) else sender_at id w.
Proof. unfold sender_at. rewrite lookup_put_conn. destruct (decide (id = i)); reflexivity. Qed.

(** The connection's queue has got [P], its socket [O]. *)
Definition sent (b : RpcServerConn) (P : list response_pkg) (O : buffer) (o : option RpcServerConn) : Prop :=
  match o with
  | Some b' => sender_ok b' /\ O ++ unsent b' = unsent b ++ concat (map rs_data P)
  | None => True
  end.

Lemma same_sender_unsent b b' : same_sender b b' -> unsent b' = unsent b /\ (sender_ok b -> sender_ok b').
Proof. intros (_ & Hq & Hp & Hl & _). unfold unsent, sender_ok. rewrite Hq, Hp, Hl. auto. Qed.

Lemma sent_nothing b o : sender_ok b -> o = Some b -> sent b [] [] o.
Proof. intros Hb ->. split; [exact Hb|]. cbn. rewrite app_nil_r. reflexivity. Qed.

Lemma read_sender turns fuel i id : forall rx w go w' rx' b,
  onDataIn_read turns fuel i rx w = Done (go, w', rx') -> sender_at id w = Some b ->
  exists b', sender_at id w' = Some b' /\ same_sender b b'.
Proof.
  induction turns as [|turns IH]; intros rx w go w' rx' b; cbn [onDataIn_read]; [discriminate|].
  destruct (m_conn_set w !! i) as [c|] eqn:Hc; [|discriminate]. cbn [need outcome_bind].
  destruct (conn_getRequest fuel c rx) as [[[[st o] c1] rx1]|] eqn:E; [|discriminate]. cbn [outcome_bind].
  intros Hr Hb. apply getRequest_keeps_sender in E.
  assert (Hput : exists b', sender_at id (put_conn i c1 w) = Some b' /\ same_sender b b').
  { rewrite sender_at_put. destruct (decide (id = i)) as [->|]; [|exists b; split; [exact Hb | reflexivity]].
    rewrite (sender_at_some _ _ _ Hc) in Hb. injection Hb as <-. eauto. }
  destruct Hput as (b1 & Hb1 & Hs1).
  destruct (st <? 0); [injection Hr as _ <- _; eauto|]. destruct o as [pkg|].
  - destruct (push_request pkg _) as [w1|] eqn:Hp; [|discriminate]. injection Hr as _ <- _.
    destruct (push_request_sending _ _ _ Hp) as (Hcs & _). exists b1. unfold sender_at in *. rewrite Hcs. auto.
  - destruct (st =? 0); [injection Hr as _ <- _; eauto|].
    destruct (IH _ _ _ _ _ _ Hr Hb1) as (b' & Hb' & Hs'). exists b'. split; [exact Hb' | etrans; eassumption].
Qed.

Lemma arm_sender id i w : sender_at id (onDataOutEvent_arm i w) = sender_at id w.
Proof. unfold onDataOutEvent_arm. destruct (m_conn_set w !! i) as [c|]; [destruct (negb _)|]; reflexivity. Qed.

Lemma accept_sender max a w closed w' id b :
  onAccept max (Some a) w = (closed, w') -> sender_at id w = Some b -> sender_at id w' = Some b.
Proof.
  unfold onAccept. set (w1 := if _ <=? _ then _ else w).
  assert (Hc : m_conn_set w1 = m_conn_set w) by (subst w1; destruct (_ <=? _); reflexivity).
  intros [= _ <-] Hb. unfold addConnection, sender_at in *. cbn [m_conn_set put_worker_seqid put_conn_num disarm_out put_epoll_out].
  rewrite Hc. destruct (m_conn_set w !! m_seqid _) as [c|] eqn:E;
    cbn [m_conn_set put_conn put_conn_set put_worker_seqid]; rewrite Hc; [exact Hb|].
  rewrite lookup_insert_ne; [exact Hb|]. intros He. rewrite He in E. rewrite E in Hb. discriminate.
Qed.

Lemma traced_sent id s P O s' b :
  traced id s P O s' -> sys_ok s -> sender_at id (wk s) = Some b -> sender_ok b -> Forall resp_ok P ->
  sent b P O (sender_at id (wk s')).
Proof.
  intros Ht Hsys Hb Hok HP. destruct Ht as [w w' l n turns fuel i rx go rx' Hr|w w' l n Hr|w w' l n o Hp|w l n i|
    w w' l n i tx tx' st out Hin Hs|w l n i|w l n i|w w' max a closed Hlt Ha|w i|w w' l l' n ph i pkg ok Hp Hl|
    w w' l l' n ph i Hl Hroom Hp|w l n ph|w l n ph q]; cbn [wk] in *; try (apply sent_nothing; [exact Hok | exact Hb]).
  - destruct (read_sender _ _ _ _ _ _ _ _ _ _ Hr Hb) as (b' & -> & Hs). apply same_sender_unsent in Hs as [Hu Ho].
    split; [auto|]. cbn. rewrite app_nil_r. exact Hu.
  - apply sent_nothing; [exact Hok|]. unfold onDataOutEvent_read in Hr. destruct (_ =? _); [discriminate|]. injection Hr as <-. exact Hb.
  - apply sent_nothing; [exact Hok|]. unfold onDataOutEvent_pop in Hp. destruct (pop_now _). injection Hp as _ <-. exact Hb.
  - apply sent_nothing; [exact Hok|]. rewrite arm_sender. exact Hb.
  - unfold onDataOut_send in Hs. destruct (m_conn_set w !! i) as [c|] eqn:Hc; [|discriminate]. cbn [need outcome_bind] in Hs.
    destruct (sendResponse (base c) tx) as [[[[st1 o1] b1] tx1]|] eqn:E; [|discriminate]. injection Hs as <- <- <- <-.
    rewrite sender_at_put. unfold only. destruct (decide (i = id)) as [->|Hne].
    + rewrite decide_True by reflexivity. rewrite (sender_at_some _ _ _ Hc) in Hb. injection Hb as <-.
      pose proof (sendResponse_ok (base c) tx Hok) as Hs. rewrite E in Hs. destruct Hs as (Hu & Hs & _).
      rewrite base_put_base. split; [exact Hs|]. cbn. rewrite app_nil_r. exact Hu.
    + rewrite decide_False by auto. apply sent_nothing; assumption.
  - apply sent_nothing; [exact Hok | exact (accept_sender _ _ _ _ _ _ _ Ha Hb)].
  - unfold removeConnection, sender_at. cbn. destruct (decide (i = id)) as [->|Hne]; [rewrite lookup_delete_eq; exact I|].
    rewrite lookup_delete_ne by exact Hne. apply sent_nothing; assumption.
  - unfold pushResp_queue in Hp. destruct (m_conn_set w !! i) as [c|] eqn:Hc; [|injection Hp as <- <-; apply sent_nothing; assumption].
    destruct (push_now pkg _) as [[ok1 q]|] eqn:E; [|discriminate]. injection Hp as -> <-.
    apply push_now_items in E; [|exact (ok_conn_nodrop _ Hsys _ _ Hc)].
    match goal with |- sent _ _ _ (sender_at id ?v) =>
      replace (sender_at id v) with (sender_at id (put_conn i (put_base (put_response_q q (base c)) c) w)) by (destruct ok; reflexivity) end.
    rewrite sender_at_put, base_put_base.
    unfold only in *. destruct (decide (i = id)) as [->|Hne]; [rewrite decide_True by reflexivity | rewrite decide_False by auto; destruct ok; apply sent_nothing; assumption].
    rewrite (sender_at_some _ _ _ Hc) in Hb. injection Hb as <-. destruct E as [[-> ->]|[-> ->]].
    + destruct Hok as [Hq Hs]. split; [split; [cbn; apply Forall_app; auto | exact Hs]|]. unfold unsent. cbn.
      rewrite map_app, concat_app, app_assoc. reflexivity.
    + split; [destruct Hok; split; assumption|]. unfold unsent. cbn. rewrite app_nil_r. reflexivity.
  - apply sent_nothing; [exact Hok|]. unfold pushResp_conn in Hp. destruct (push_now _ _) as [[? ?]|]; [|discriminate]. injection Hp as <-. exact Hb.
Qed.

(** In every run of the threads, the bytes sent to the connection, then those
    it has still to send, are those it had to send and those queued for it. *)
Lemma run_sent id s P O s' b :
  traced_run id s P O s' -> sys_ok s -> names_ok (wk s) -> sender_at id (wk s) = Some b -> sender_ok b -> Forall resp_ok P ->
  exists b', sender_at id (wk s') = Some b' /\ sender_ok b' /\ O ++ unsent b' = unsent b ++ concat (map rs_data P) /\
    sys_ok s' /\ names_ok (wk s').
Proof.
  intros Hr. revert b. induction Hr as [s|s P O s1 P' O' s' Ht Hc _ IH]; intros b Hs Hn Hb Hok HP.
  - exists b. rewrite app_nil_r. auto.
  - apply Forall_app in HP as [HP HP']. pose proof (traced_sent _ _ _ _ _ _ Ht Hs Hb Hok HP) as H1.
    destruct Hc as [c Hc]. rewrite (sender_at_some _ _ _ Hc) in H1. destruct H1 as [Hok1 Hu1].
    pose proof (traced_sys _ _ _ _ _ Ht) as Hstep.
    destruct (IH (base c)) as (b' & Hb' & Hok' & Hu' & Hs' & Hn'); eauto using sys_step_ok, sys_step_names, sender_at_some.
    exists b'. split_and!; try assumption. rewrite <- app_assoc, Hu', app_assoc, Hu1, map_app, concat_app, app_assoc. reflexivity.
Qed.

(** The events that read requests keep the invariant. *)
Lemma data_in_ok events fuel id : forall rx w w' rx',
  data_in events fuel id rx w = Done (true, w', rx') -> sys_ok (mk_sys w [] 0 Idle) -> names_ok w ->
  sys_ok (mk_sys w' [] 0 Idle) /\ names_ok w'.
Proof.
  induction events as [|events IH]; intros rx w w' rx'; cbn [data_in]; [intros [= <- _]; auto|].
  unfold onDataIn. destruct (onDataIn_read 1 fuel id rx w) as [[[go w1] rx1]|] eqn:E; [|discriminate]. cbn [outcome_bind].
  destruct go; [|discriminate]. intros Hd Hs Hn. apply (IH _ _ _ _ Hd); [exact (read_ok _ _ _ _ _ _ _ _ _ _ Hs E)|].
  exact (same_names_ok _ _ (read_names _ _ _ _ _ _ _ _ E) Hn).
Qed.

(** Nothing is left to do for the connection: no thread is pushing, there is
    no notification, and [EPOLLOUT] is not armed. *)
Definition quiet_for (id : string) (s : sys (C:=C)) : Prop :=
  at_connq s = [] /\ at_event s = 0%nat /\ phase s = Idle /\ m_resp_ev (wk s) = 0 /\ id ∉ m_epoll_out (wk s).

Lemma quiet_unsent id s b : sys_ok s -> quiet_for id s -> sender_at id (wk s) = Some b -> unsent b = [].
Proof.
  intros Hs (Hl & Hn & Hph & Hv & Ho) Hb. unfold sender_at in Hb. destruct (m_conn_set (wk s) !! id) as [c|] eqn:Hc; [|discriminate].
  injection Hb as <-. pose proof (ok_event _ Hs) as He. rewrite Hv, Hn, Hph in He. cbn in He. unfold size, zlen in He.
  assert (~ pending (base c)) as Hp.
  { intros Hp. destruct (ok_pending _ Hs _ _ Hc Hp) as [|[Hi|[Hi|Hi]]]; [contradiction | | rewrite Hl in Hi; inversion Hi | congruence].
    destruct (m_queue (m_resp_conn_q (wk s))); [inversion Hi | cbn in He; lia]. }
  unfold pending, isSending in Hp. unfold unsent. destruct (m_sent_pkg (base c)); [destruct Hp; auto|].
  destruct (m_queue (m_response_q (base c))); [reflexivity | destruct Hp; right; discriminate].
Qed.

(** * A run to the end *)

Lemma run_here id s P O s' c :
  traced id s P O s' -> m_conn_set (wk s') !! id = Some c -> traced_run id s P O s'.
Proof. intros H Hc. apply run_one; [exact H | rewrite Hc; eauto]. Qed.

Lemma run_then id s P O s1 c P' O' s' :
  traced id s P O s1 -> m_conn_set (wk s1) !! id = Some c -> traced_run id s1 P' O' s' ->
  traced_run id s (P ++ P') (O ++ O') s'.
Proof. intros H Hc. apply run_step; [exact H | rewrite Hc; eauto]. Qed.

(** One push after the other. *)
Lemma run_pushes id P : forall w c,
  m_conn_set w !! id = Some c -> is_connected (base c) = true -> sender_ok (base c) -> Forall resp_ok P ->
  size (m_response_q (base c)) + zlen P <= m_max_q_len (m_response_q (base c)) ->
  size (m_resp_conn_q w) + zlen P <= m_max_q_len (m_resp_conn_q w) ->
  exists w' c', traced_run id (mk_sys w [] 0 Idle) P [] (mk_sys w' [] 0 Idle) /\
    m_conn_set w' !! id = Some c' /\ is_connected (base c') = true /\ sender_ok (base c').
Proof.
  induction P as [|p P IH]; intros w c Hc Hconn Hok HP Hq Hids.
  { exists w, c. split; [apply run_nil | auto]. }
  rewrite zlen_cons in *. pose proof (zlen_nonneg P). apply Forall_cons in HP as [Hp HP].
  set (b1 := put_response_q (set_items (m_queue (m_response_q (base c)) ++ [p]) (m_response_q (base c))) (base c)).
  set (w1 := put_conn id (put_base b1 c) w).
  assert (H1 : pushResp_queue id p w = Done (true, w1)).
  { unfold pushResp_queue. rewrite Hc, push_now_room by lia. reflexivity. }
  set (w2 := put_resp_conn_q (set_items (m_queue (m_resp_conn_q w) ++ [id]) (m_resp_conn_q w)) w1).
  assert (H2 : pushResp_conn id w1 = Done w2).
  { unfold pushResp_conn. change (m_resp_conn_q w1) with (m_resp_conn_q w). rewrite push_now_room by lia. reflexivity. }
  assert (Hc1 : forall w', m_conn_set w' = m_conn_set w1 -> m_conn_set w' !! id = Some (put_base b1 c))
    by (intros w' ->; apply lookup_insert_eq).
  destruct (IH (pushResp_event w2) (put_base b1 c)) as (w' & c' & Hrun & Hend).
  - apply Hc1. reflexivity.
  - rewrite base_put_base. exact Hconn.
  - rewrite base_put_base. destruct Hok as [Hq0 Hs]. split; [cbn; apply Forall_app; auto | exact Hs].
  - exact HP.
  - rewrite base_put_base. unfold b1, size in *. cbn [put_response_q m_response_q set_items m_queue m_max_q_len]. rewrite zlen_app.
    change (zlen [p]) with 1. lia.
  - unfold size in *. cbn. rewrite zlen_app. change (zlen [id]) with 1. lia.
  - exists w', c'. split; [|exact Hend].
    change (p :: P) with ([p] ++ [] ++ [] ++ P). change (@nil (option ascii)) with (@nil (option ascii) ++ [] ++ [] ++ []).
    pose proof (traced_push id w w1 [] [id] 0 Idle id p true H1 (Permutation_refl _)) as Ht. unfold only in Ht.
    rewrite decide_True in Ht by reflexivity.
    assert (Ht2 : traced id (mk_sys w1 [id] 0 Idle) [] [] (mk_sys w2 [] 1 Idle))
      by (apply (traced_push_conn id w1 w2 [id] [] 0 Idle id); [reflexivity | cbn; lia | exact H2]).
    apply (run_then _ _ _ _ _ _ _ _ _ Ht (Hc1 w1 eq_refl)). apply (run_then _ _ _ _ _ _ _ _ _ Ht2 (Hc1 w2 eq_refl)).
    exact (run_then _ _ _ _ _ _ _ _ _ (traced_push_event id w2 [] 0 Idle) (Hc1 (pushResp_event w2) eq_refl) Hrun).
Qed.

(** One turn on the event descriptor. *)
Lemma run_event id w w' c :
  onDataOutEvent w = (true, w') -> m_conn_set w !! id = Some c ->
  traced_run id (mk_sys w [] 0 Idle) [] [] (mk_sys w' [] 0 Idle).
Proof.
  unfold onDataOutEvent. destruct (onDataOutEvent_read w) as [w1|] eqn:Hr; [|discriminate].
  destruct (onDataOutEvent_pop w1) as [o w2] eqn:Hp. intros Hw Hc.
  assert (Hc1 : m_conn_set w1 = m_conn_set w) by (unfold onDataOutEvent_read in Hr; destruct (_ =? _); [discriminate | injection Hr as <-; reflexivity]).
  assert (Hc2 : m_conn_set w2 = m_conn_set w) by (unfold onDataOutEvent_pop in Hp; destruct (pop_now _); injection Hp as _ <-; exact Hc1).
  change (@nil response_pkg) with (@nil response_pkg ++ [] ++ []). change (@nil (option ascii)) with (@nil (option ascii) ++ [] ++ []).
  eapply run_then; [apply traced_event_read, Hr | cbn; rewrite Hc1; exact Hc |].
  eapply run_then; [apply (traced_event_pop id w1 w2 [] 0 o Hp) | cbn; rewrite Hc2; exact Hc |].
  destruct o as [i|]; injection Hw as <-; [|apply run_nil].
  eapply run_here; [apply traced_arm|]. cbn. unfold onDataOutEvent_arm.
  destruct (m_conn_set w2 !! i) as [d|]; [destruct (negb _)|]; cbn; rewrite Hc2; exact Hc.
Qed.

Lemma run_events id n : forall w c,
  m_resp_ev w = Z.of_nat n -> m_conn_set w !! id = Some c ->
  traced_run id (mk_sys w [] 0 Idle) [] [] (mk_sys (out_events n w) [] 0 Idle).
Proof.
  induction n as [|n IH]; intros w c Hn Hc; [apply run_nil|]. cbn [out_events].
  destruct (out_event_takes w ltac:(lia)) as (w' & Hw & Hv & Hcs). rewrite Hw. cbn [snd].
  change (@nil response_pkg) with (@nil response_pkg ++ []). change (@nil (option ascii)) with (@nil (option ascii) ++ []).
  eapply run_app; [exact (run_event id w w' c Hw Hc)|]. apply (IH w' c); [lia | rewrite Hcs; exact Hc].
Qed.

(** One [onDataOut] that does not fail. *)
Lemma run_out id tx w out w' tx' :
  id ∈ m_epoll_out w -> onDataOut id tx w = Done (true, out, w', tx') ->
  traced_run id (mk_sys w [] 0 Idle) [] out (mk_sys w' [] 0 Idle) /\ m_resp_ev w' = m_resp_ev w.
Proof.
  intros Hin. unfold onDataOut. destruct (onDataOut_send id tx w) as [[[[st out1] w1] tx1]|] eqn:Hs; [|discriminate]. cbn [outcome_bind].
  assert (Hsome : exists c1, m_conn_set w1 !! id = Some c1).
  { unfold onDataOut_send in Hs. destruct (m_conn_set w !! id) as [c|]; [|discriminate]. cbn [need outcome_bind] in Hs.
    destruct (sendResponse (base c) tx) as [[[[? ?] ?] ?]|]; [|discriminate]. injection Hs as _ _ <- _.
    eexists. apply lookup_insert_eq. }
  destruct Hsome as [c1 Hc1].
  assert (Hev : m_resp_ev w1 = m_resp_ev w).
  { unfold onDataOut_send in Hs. destruct (m_conn_set w !! id) as [c|]; [|discriminate]. cbn [need outcome_bind] in Hs.
    destruct (sendResponse (base c) tx) as [[[[? ?] ?] ?]|]; [|discriminate]. injection Hs as _ _ <- _. reflexivity. }
  pose proof (traced_send id w w1 [] 0 id tx tx1 st out1 Hin Hs) as Ht. unfold only in Ht. rewrite decide_True in Ht by reflexivity.
  assert (Hfirst : forall P' O' s', traced_run id (mk_sys w1 [] 0 (after_send id st)) P' O' s' ->
    traced_run id (mk_sys w [] 0 Idle) P' (out1 ++ O') s') by (intros P' O' s'; exact (run_then id _ [] _ _ c1 P' O' s' Ht Hc1)).
  assert (Hdis : traced_run id (mk_sys w1 [] 0 (WillDisarm id)) [] [] (mk_sys (disarm_out id w1) [] 0 Idle))
    by (eapply run_here; [apply traced_disarm | exact Hc1]).
  assert (Hfull : traced_run id (mk_sys w1 [] 0 (SentFull id)) [] []
    (mk_sys (if response_q_empty id w1 then disarm_out id w1 else w1) [] 0 Idle)).
  { change (@nil response_pkg) with (@nil response_pkg ++ []). change (@nil (option ascii)) with (@nil (option ascii) ++ []).
    eapply run_then; [apply traced_check | exact Hc1|]. destruct (response_q_empty id w1); [exact Hdis | apply run_nil]. }
  destruct st; try discriminate; intros [= <- <- <-]; (split; [|first [exact Hev | destruct (response_q_empty id w1); exact Hev]]);
    rewrite <- (app_nil_r out1); apply Hfirst; first [exact Hdis | exact Hfull | apply run_nil].
Qed.

(** Sending all of it. *)
Lemma run_all_out id n : forall data w,
  (length data < n)%nat -> armed id data w -> m_resp_ev w = 0 ->
  exists w', traced_run id (mk_sys w [] 0 Idle) [] data (mk_sys w' [] 0 Idle) /\ m_resp_ev w' = 0 /\ id ∉ m_epoll_out w'.
Proof.
  induction n as [|n IH]; intros data w Hn Ha Hv; [lia|]. destruct data as [|x data].
  - destruct (onDataOut_nothing id [] w Ha) as (w' & Ho & Hno). apply run_out in Ho as [Hr He]; [|apply Ha].
    exists w'. split; [exact Hr|]. split; [congruence | exact Hno].
  - destruct (onDataOut_progress id (x :: data) 1 [] w Ha ltac:(discriminate) ltac:(lia)) as (out & rest & w' & Ho & Hne & Hd & Hw).
    apply run_out in Ho as [Hr He]; [|apply Ha]. rewrite Hv in He.
    assert (Hlen : (length rest < n)%nat).
    { apply (f_equal length) in Hd. rewrite length_app in Hd. destruct out; [contradiction | cbn in *; lia]. }
    destruct Hw as [Ha'|[-> Hno]].
    + destruct (IH rest w' Hlen Ha' He) as (w2 & Hr2 & He2 & Hno). exists w2. split; [|auto]. rewrite <- Hd.
      exact (run_app id _ [] _ _ [] _ _ Hr Hr2).
    + exists w'. rewrite app_nil_r in Hd. rewrite <- Hd. auto.
Qed.

(** From every state in which no thread is in the middle of something, any
    responses can be queued for a connection and everything be sent. *)
Lemma run_completes id w c P :
  sys_ok (mk_sys w [] 0 Idle) -> names_ok w -> m_conn_set w !! id = Some c -> is_connected (base c) = true -> sender_ok (base c) ->
  Forall resp_ok P -> size (m_response_q (base c)) + zlen P <= m_max_q_len (m_response_q (base c)) ->
  size (m_resp_conn_q w) + zlen P <= m_max_q_len (m_resp_conn_q w) ->
  exists w' O, traced_run id (mk_sys w [] 0 Idle) P O (mk_sys w' [] 0 Idle) /\ quiet_for id (mk_sys w' [] 0 Idle).
Proof.
  intros Hs Hn Hc Hconn Hok HP Hq Hids.
  destruct (run_pushes id P w c Hc Hconn Hok HP Hq Hids) as (w1 & c1 & Hr1 & Hc1 & Hconn1 & Hok1).
  destruct (run_sent _ _ _ _ _ _ Hr1 Hs Hn (sender_at_some _ _ _ Hc) Hok HP) as (_ & _ & _ & _ & Hs1 & _).
  pose proof (ok_positive _ Hs1) as Hpos. cbn in Hpos. set (n := Z.to_nat (m_resp_ev w1)).
  assert (Hn1 : m_resp_ev w1 = Z.of_nat n) by lia.
  pose proof (run_events id n w1 c1 Hn1 Hc1) as Hr2. destruct (out_events_ok n w1 Hs1 Hn1) as (Hs2 & Hv2 & Hcs2).
  set (w2 := out_events n w1) in *. rewrite <- Hcs2 in Hc1.
  pose proof (run_app _ _ _ _ _ _ _ _ Hr1 Hr2) as Hr. rewrite app_nil_r in Hr. cbn [app] in Hr.
  destruct (decide (id ∈ m_epoll_out w2)) as [Hin|Hno].
  - assert (Ha : armed id (unsent (base c1)) w2) by (split; [exact Hin | eauto]).
    destruct (run_all_out id _ _ w2 (Nat.lt_succ_diag_r _) Ha Hv2) as (w' & Hr3 & Hv3 & Hno).
    exists w', (unsent (base c1)). split; [|repeat split; assumption].
    pose proof (run_app _ _ _ _ _ _ _ _ Hr Hr3) as Hr4. rewrite app_nil_r in Hr4. exact Hr4.
  - exists w2, []. split; [exact Hr | repeat split; assumption].
Qed.
End Serving.
