(* ===== verification/RpcCall.v ===== *)
(** Remote calls through both sides: from [RpcClient::async_call] over the
    client's connection, the server's connection, [RpcWorker::run], the
    response queue of the connection and back, to the callbacks: any number of
    calls on one connection, whose responses come in any order. *)
From Stdlib Require Import ZArith Lia Bool List String Ascii.
From stdpp Require Import base list strings gmap.
From S2P Require Import Prelude Wire Socket Queue Stats SampleCodec RespBroker Service ClientConnProps RoundTrip.
From S2P Require ServerConn ServerConnProps ClientConn Connection ConnWorker ConnWorkerProps.
From S2P Require Import ServerRun.
From S2P Require Serving.
From S2P Require Import CallBack EventLooper EventLooperCalls EventLooperProps ServiceProps.
Import ServerConnProps(frame, data_only, delivered, acceptable, unsent, sender_ok, resp_ok, requests).
Import ClientConnProps(delivered_response).
Import ConnWorkerProps(mk_sys, sys_reach, Idle).
Import Serving(traced_run, quiet_for).
Import Connection(conn_getRequest, rpc_connection).
Import ClientConn(client_response, new_client_conn, put_fd, inner_req).
Import ConnWorkerProps(one_conn_worker, c1).
Module Srv := ServerConn.
Module CW := ConnWorker.

(** The interface's loop over [getRequest] is that of the class. *)
Lemma conn_requests_rpc calls fuel : forall (c : Srv.RpcServerConn) rx,
  conn_requests calls fuel c rx = requests calls fuel c rx.
Proof.
  induction calls as [|calls IH]; intros c rx; [reflexivity|]. cbn [conn_requests requests conn_getRequest rpc_connection].
  destruct (Srv.getRequest fuel c rx) as [[[[st o] c1] rx1]|]; [|reflexivity]. cbn [outcome_bind]. rewrite IH. reflexivity.
Qed.

(** * The method *)

Section Call.
Context `{MessageCodecLaw RpcInnerReq req_fits} `{MessageCodecLaw RpcInnerResp resp_fits}.

(** A method that answers with the message [f data]. *)
Definition answering (f : bytes -> bytes) : RPC_FUNC_T := fun d b =>
  let! (_, b) := allocRespBufFrom_message (f d) b in Done (RPC_SERVER_OK, b, []).

Lemma allocRespBufFrom_message_spec b d :
  m_from_http b = false -> ByteSize (m_resp_proto b) + zlen d < 2 ^ 31 ->
  exists off, allocRespBufFrom_message d b = Done (off, allocated b (Some <$> d) (new_buffer 4)).
Proof.
  intros Hh Hsz. unfold allocRespBufFrom_message. rewrite Hh. pose proof (zlen_nonneg d).
  rewrite allocRespBuf_spec by (auto; lia). cbn [outcome_bind]. rewrite fill_spec by (rewrite length_new_buffer; lia).
  eexists. reflexivity.
Qed.

(** The run of such a method. *)
Lemma run_answering s req d seqid t w m f :
  s !! req_method_name req = Some m -> m_func m = answering f -> req_type req = TWO_WAY -> client_timed_out req t = false ->
  ByteSize (resp_of (req_request_id req)) + zlen (f d) < 2 ^ 31 - 16 ->
  exists w', run_service s req d (new_broker seqid (req_request_id req) true false) seqid t w =
    Done (w', [Called (req_service_name req) (req_method_name req) d;
               Pushed seqid {| rs_data := Some <$> frame (response_payload (resp_of (req_request_id req)) (f d) RPC_SERVER_OK);
                               rs_data_len := zlen (frame (response_payload (resp_of (req_request_id req)) (f d) RPC_SERVER_OK)) |}]).
Proof.
  intros Hm Hf Htype Hto Hsz. set (b0 := new_broker seqid (req_request_id req) true false).
  destruct (allocRespBufFrom_message_spec b0 (f d) eq_refl ltac:(change (m_resp_proto b0) with (resp_of (req_request_id req)); lia)) as [off Ha].
  unfold run_service, runMethod. rewrite Hm, Hf. unfold answering at 1. rewrite Ha. cbn [outcome_bind]. rewrite Hto.
  assert (Hfin : finish_call RPC_SERVER_OK (allocated b0 (Some <$> f d) (new_buffer 4)) req seqid =
    Done [Pushed seqid {| rs_data := Some <$> frame (response_payload (resp_of (req_request_id req)) (f d) RPC_SERVER_OK);
                          rs_data_len := zlen (frame (response_payload (resp_of (req_request_id req)) (f d) RPC_SERVER_OK)) |}]).
  { unfold finish_call. rewrite setReturnVal_spec by reflexivity. cbn [outcome_bind].
    change (isResponed (allocated b0 _ _)) with false. cbv iota. rewrite Htype. unfold pushResponse, pushed_pkg.
    assert (Hal : isAlloced (allocated b0 (Some <$> f d) (Some <$> put32 (status_num RPC_SERVER_OK))) = true).
    { unfold isAlloced, allocated. cbn [m_return_val_pos put_positions]. unfold ByteSize. pose proof (zlen_nonneg (serialize (m_resp_proto b0))).
      pose proof (zlen_nonneg (@fmap list _ _ _ (@Some ascii) (f d))). apply negb_true_iff, Z.eqb_neq. lia. }
    rewrite Hal. cbn [outcome_bind]. rewrite allocated_pkg. reflexivity. }
  rewrite Hfin. cbn [outcome_bind]. eexists. reflexivity.
Qed.

(** The call of the connection inside a call that was sent. *)
Lemma sendReq_conn e service method data p l out req_id l1 c :
  EventLooper.sendReq e service method data (Some p) l = Done (RPC_SEND_OK, out, req_id, l1) ->
  m_heap l !! p = Some c ->
  exists conn conn' tx', ClientConn.sendReq (env_fuel e) (env_elapsed e) service method data req_id false (m_timeout c) conn (env_tx e)
    = Done (RPC_SEND_OK, out, conn', tx').
Proof.
  intros Hs Hc. unfold EventLooper.sendReq in Hs. destruct (m_max_req_size l <? zlen data); [discriminate|].
  destruct (tryGetAvaliableConn _ _ l) as [[conn l0]|] eqn:Ht; [|discriminate]. cbn [outcome_bind] in Hs.
  destruct (tryGet_same _ _ _ _ _ Ht) as [Hh0 Hi0 _ _]. destruct conn as [ep|]; [|discriminate].
  set (id := env_id e _) in Hs. set (lr := register id p l0) in Hs.
  assert (Hcb : m_heap lr !! p = Some (setReqId id c)).
  { subst lr. unfold register, insert_cb. destruct (m_id_cb_map _ !! id); cbn; rewrite lookup_alter_eq, Hh0, Hc; reflexivity. }
  rewrite Hcb in Hs. cbn [need outcome_bind] in Hs. change (m_timeout (setReqId id c)) with (m_timeout c) in Hs.
  set (lt := if 0 <? m_timeout c then _ else lr) in Hs.
  unfold conn_send in Hs. destruct (m_ep_conn_map _ !! ep) as [conn|]; [|discriminate]. cbn [need outcome_bind] in Hs.
  destruct (ClientConn.sendReq _ _ _ _ _ _ _ _ conn _) as [[[[st out'] conn'] tx']|] eqn:E; [|discriminate]. cbn [outcome_bind] in Hs.
  destruct (bool_decide (st = RPC_SEND_OK)) eqn:Hst.
  2: { apply bool_decide_eq_false in Hst. injection Hs as Hs _ _ _. contradiction. }
  apply bool_decide_eq_true in Hst. subst st. injection Hs as -> <- _. eauto.
Qed.

(** * Several calls *)

(** A call as [async_call] gets it, what it gave (the bytes sent and the
    request id), and the thread that runs it: its worker and clock, the
    service and method it finds, which answers with [ca_f] of the data. *)
Record a_call := mk_call {
  ca_env : send_env;
  ca_service : string;
  ca_method : string;
  ca_data : bytes;
  ca_timeout : Z;
  ca_cb : nat;
  ca_out : buffer;
  ca_id : string;
  ca_time : timing;
  ca_worker : RpcWorker;
  ca_srv : IServiceImpl;
  ca_own : bool;
  ca_func : RpcMethod;
  ca_f : bytes -> bytes
}.

(** The calls one after the other, all of them sent. *)
Inductive calls_sent : list a_call -> RpcEventLooper -> RpcEventLooper -> Prop :=
| sent_none l : calls_sent [] l l
| sent_next k ks l l1 l2 :
    async_call (ca_env k) (ca_service k) (ca_method k) (ca_data k) (ca_timeout k) (Some (ca_cb k)) l
      = Done (RPC_SEND_OK, ca_out k, ca_id k, l1) ->
    calls_sent ks l1 l2 -> calls_sent (k :: ks) l l2.

(** The message of a call, its package on the server, and the answer to it. *)
Definition call_msg (k : a_call) : RpcInnerReq :=
  embedded (ca_service k) (ca_method k) (ca_data k) (ca_id k) false (ca_timeout k).
Definition call_payload (k : a_call) : bytes := request_payload (call_msg k) [].
Definition answer_payload (k : a_call) : bytes :=
  response_payload (resp_of (ca_id k)) (ca_f k (ca_data k)) RPC_SERVER_OK.
Definition call_resp (k : a_call) : response_pkg :=
  {| rs_data := Some <$> frame (answer_payload k); rs_data_len := zlen (frame (answer_payload k)) |}.

(** The sizes are in range, and the worker finds the method. *)
Record call_ok (limit : Z) (k : a_call) : Prop := {
  ck_data : 0 < zlen (ca_data k) < max_protobuf_data_len;
  ck_timeout : 0 <= ca_timeout k < 2 ^ 32;
  ck_size : ByteSize (call_msg k) + zlen (ca_data k) < 2 ^ 31 - 16;
  ck_limit : 4 + ByteSize (call_msg k) <= limit;
  ck_resp_size : ByteSize (resp_of (ca_id k)) + zlen (ca_f k (ca_data k)) < 2 ^ 31 - 16;
  ck_srv : m_srvmap (ca_worker k) !! ca_service k = Some {| pSrv := Some (ca_srv k); owner := ca_own k |};
  ck_method : ca_srv k !! ca_method k = Some (ca_func k);
  ck_func : m_func (ca_func k) = answering (ca_f k);
  ck_time : client_timed_out (call_msg k) (ca_time k) = false
}.

(** A call waits in the client: its callback, not called yet, is in the table
    under its id. *)
Definition waits (l : RpcEventLooper) (k : a_call) : Prop :=
  m_id_cb_map l !! ca_id k = Some (Some (ca_cb k)) /\ exists c, m_heap l !! ca_cb k = Some c /\ unused c.

Definition new_in (l : RpcEventLooper) (k : a_call) : Prop :=
  m_id_cb_map l !! ca_id k = None /\ exists c, m_heap l !! ca_cb k = Some c /\ unused c.

Lemma sent_wait ks : forall l ln,
  calls_sent ks l ln -> NoDup (ca_id <$> ks) -> NoDup (ca_cb <$> ks) -> Forall (new_in l) ks ->
  Forall (waits ln) ks /\
  (forall id, id ∉ ca_id <$> ks -> m_id_cb_map ln !! id = m_id_cb_map l !! id) /\
  (forall p, p ∉ ca_cb <$> ks -> m_heap ln !! p = m_heap l !! p).
Proof.
  induction ks as [|k ks IH]; intros l ln Hs Hid Hcb Hnew; inversion Hs as [|? ? ? l1 ? Hk Hks]; subst; [auto|].
  cbn [fmap list_fmap] in Hid, Hcb |- *. apply NoDup_cons in Hid as [Hid1 Hid], Hcb as [Hcb1 Hcb]. apply Forall_cons in Hnew as [(Hi & c & Hc & Hu) Hnew].
  destruct (sendReq_effect _ _ _ _ _ _ _ _ _ (setTimeout (ca_timeout k) c) Hk) as [Hh Ht];
    [cbn; rewrite lookup_alter_eq, Hc; reflexivity | exact Hi|]. cbn [m_heap m_id_cb_map on_cb put_heap] in Hh, Ht.
  destruct (IH l1 ln Hks Hid Hcb) as (Hw & Hids & Hps).
  { rewrite Forall_forall in *. intros j Hj. destruct (Hnew j Hj) as (Hi' & d & Hd & Hu').
    split; [rewrite Ht, lookup_insert_ne by (intros He; apply Hid1; rewrite He; apply list_elem_of_fmap_2, Hj); exact Hi'|].
    exists d. split; [|exact Hu'].
    rewrite Hh, !lookup_alter_ne by (intros He; apply Hcb1; rewrite He; apply list_elem_of_fmap_2, Hj). exact Hd. }
  split_and!.
  - constructor; [|exact Hw]. split; [rewrite Hids by exact Hid1; rewrite Ht; apply lookup_insert_eq|].
    exists (setReqId (ca_id k) (setTimeout (ca_timeout k) c)). split; [|exact Hu].
    rewrite Hps by exact Hcb1. rewrite Hh, !lookup_alter_eq, Hc. reflexivity.
  - intros id Hn. apply not_elem_of_cons in Hn as [Hn1 Hn2]. rewrite Hids by exact Hn2. rewrite Ht. apply lookup_insert_ne. congruence.
  - intros p Hn. apply not_elem_of_cons in Hn as [Hn1 Hn2]. rewrite Hps by exact Hn2. rewrite Hh, !lookup_alter_ne by congruence. reflexivity.
Qed.

(** The bytes of the calls that were sent are their frames. *)
Lemma sent_bytes limit ks : forall l ln,
  calls_sent ks l ln -> Forall (call_ok limit) ks -> NoDup (ca_cb <$> ks) -> Forall (new_in l) ks -> NoDup (ca_id <$> ks) ->
  concat (map ca_out ks) = Some <$> concat (map frame (map call_payload ks)).
Proof.
  induction ks as [|k ks IH]; intros l ln Hs Hok Hcb Hnew Hid; inversion Hs as [|? ? ? l1 ? Hk Hks]; subst; [reflexivity|].
  pose proof Hnew as Hnew0. apply Forall_cons in Hok as [Hok1 Hok], Hnew as [(Hi & c & Hc & Hu) Hnew].
  assert (Hc0 : m_heap (on_cb (ca_cb k) (setTimeout (ca_timeout k)) l) !! ca_cb k = Some (setTimeout (ca_timeout k) c))
    by (cbn; rewrite lookup_alter_eq, Hc; reflexivity).
  destruct (sendReq_conn _ _ _ _ _ _ _ _ _ _ Hk Hc0) as (cc & cc' & tx' & Hsend). cbn [m_timeout setTimeout] in Hsend.
  pose proof (embedded_inner (ca_service k) (ca_method k) (ca_data k) (ca_id k) false (ca_timeout k) (ck_data _ _ Hok1)) as [Hinner _].
  pose proof (sendReq_frame _ _ _ _ _ _ _ _ _ _ _ _ _ _ _ Hinner (ck_size _ _ Hok1) Hsend) as Hout. cbn [map concat].
  rewrite fmap_app, Hout. f_equal.
  destruct (sent_wait [k] l l1) as (_ & Hids & Hps); [eauto using calls_sent | apply NoDup_singleton | apply NoDup_singleton | |].
  { constructor; [|constructor]. split; eauto. }
  cbn [fmap list_fmap] in Hid, Hcb. apply NoDup_cons in Hid as [Hid1 Hid], Hcb as [Hcb1 Hcb].
  apply (IH l1 ln Hks Hok Hcb); [|exact Hid]. rewrite Forall_forall in *. intros j Hj. destruct (Hnew j Hj) as (Hi' & d & Hd & Hu').
  split; [rewrite Hids; [exact Hi'|]|exists d; split; [rewrite Hps; [exact Hd|] | exact Hu']]; cbn; rewrite list_elem_of_singleton;
    intros He; [apply Hid1 | apply Hcb1]; rewrite <- He; apply list_elem_of_fmap_2, Hj.
Qed.

(** The response as the client reads it. *)
Lemma answer_read k limit : call_ok limit k ->
  acceptable (2 ^ 32 - 1) (answer_payload k) /\ resp_ok (call_resp k) /\
  client_response (delivered_response (answer_payload k)) = Done (Some (ca_id k, status_num RPC_SERVER_OK, ca_f k (ca_data k))).
Proof.
  intros Hok. pose proof (ck_resp_size _ _ Hok) as Hsz. pose proof (zlen_nonneg (ca_f k (ca_data k))).
  pose proof (zlen_nonneg (serialize (resp_of (ca_id k)))) as Hs. fold (ByteSize (resp_of (ca_id k))) in Hs.
  pose proof (zlen_response_payload (resp_of (ca_id k)) (ca_f k (ca_data k)) RPC_SERVER_OK) as Hlen. fold (answer_payload k) in Hlen.
  split; [|split].
  - split; [|lia]. intros Hn. rewrite Hn in Hlen. change (zlen (@nil ascii)) with 0 in Hlen. lia.
  - unfold call_resp, resp_ok. cbn [rs_data rs_data_len]. split; [unfold zlen; rewrite length_fmap; reflexivity|].
    unfold frame. rewrite zlen_app, zlen_put32. lia.
  - apply (client_response_spec (resp_of (ca_id k)) (ca_f k (ca_data k)) RPC_SERVER_OK); [split; discriminate || reflexivity | lia].
Qed.

(** [RpcClientWorker::run] on one response after the other. *)
Fixpoint worker_runs (pkgs : list response_pkg) (l : RpcEventLooper) : outcome RpcEventLooper :=
  match pkgs with [] => Done l | pkg :: pkgs => let! l := worker_run pkg l in worker_runs pkgs l end.

Lemma answers_delivered limit ks : forall l,
  Forall (call_ok limit) ks -> Forall (waits l) ks -> NoDup (ca_id <$> ks) -> NoDup (ca_cb <$> ks) ->
  exists l', worker_runs (map (fun k => delivered_response (answer_payload k)) ks) l = Done l' /\
    (forall id, m_id_cb_map l' !! id = if decide (id ∈ ca_id <$> ks) then None else m_id_cb_map l !! id) /\
    (forall p, p ∉ ca_cb <$> ks -> m_heap l' !! p = m_heap l !! p) /\
    Forall (fun k => exists c', m_heap l' !! ca_cb k = Some c' /\ calls c' = [(status_num RPC_SERVER_OK, ca_f k (ca_data k))]) ks.
Proof.
  induction ks as [|k ks IH]; intros l Hok Hw Hid Hcb.
  { exists l. split; [reflexivity|]. split; [|split; [reflexivity | constructor]]. intros id. cbn. rewrite decide_False by (apply not_elem_of_nil). reflexivity. }
  apply Forall_cons in Hok as [Hok1 Hok], Hw as [(Hi & c & Hc & Hu) Hw]. cbn [fmap list_fmap] in Hid, Hcb.
  apply NoDup_cons in Hid as [Hid1 Hid], Hcb as [Hcb1 Hcb]. destruct (answer_read k limit Hok1) as (_ & _ & Hread).
  destruct (worker_effect _ _ _ _ _ _ _ Hread Hi Hc Hu) as (l1 & Hrun1 & Ht & Hh). cbn [map worker_runs]. rewrite Hrun1. cbn [outcome_bind].
  destruct (IH l1 Hok) as (l' & Hrun2 & Hids & Hps & Hcalls); try assumption.
  { rewrite Forall_forall in *. intros j Hj. destruct (Hw j Hj) as (Hi' & d & Hd & Hu').
    split; [rewrite Ht, lookup_delete_ne by (intros He; apply Hid1; rewrite He; apply list_elem_of_fmap_2, Hj); exact Hi'|].
    exists d. split; [|exact Hu'].
    rewrite Hh, lookup_alter_ne by (intros He; apply Hcb1; rewrite He; apply list_elem_of_fmap_2, Hj). exact Hd. }
  exists l'. split; [exact Hrun2|]. cbn [fmap list_fmap]. split_and!.
  - intros id. rewrite Hids, Ht. destruct (decide (id ∈ ca_id <$> ks)) as [Hin|Hn];
      [rewrite decide_True by (right; exact Hin); reflexivity|].
    destruct (decide (id = ca_id k)) as [->|Hne]; [rewrite decide_True by left; apply lookup_delete_eq|].
    rewrite decide_False by (rewrite elem_of_cons; tauto). apply lookup_delete_ne. congruence.
  - intros p Hn. apply not_elem_of_cons in Hn as [Hn1 Hn2]. rewrite Hps by exact Hn2. rewrite Hh. apply lookup_alter_ne. congruence.
  - constructor; [|exact Hcalls]. rewrite Hps by exact Hcb1. rewrite Hh, lookup_alter_eq, Hc. eexists. split; [reflexivity|].
    apply unused_called, Hu.
Qed.

(** The thread that runs a call. *)
Lemma call_run limit seqid k : call_ok limit k ->
  exists w', run (delivered seqid (call_payload k)) true (ca_time k) (ca_worker k) =
    Done (w', [Called (ca_service k) (ca_method k) (ca_data k); Pushed seqid (call_resp k)]).
Proof.
  intros Hok. destruct (run_answering (ca_srv k) (call_msg k) (ca_data k) seqid (ca_time k)
    (put_server (ServerStatus.calcReqQTime (Z.max 0 (queue_ms (ca_time k))) (m_server (ca_worker k))) (ca_worker k)) (ca_func k) (ca_f k))
    as [w' Hw]; [apply Hok | apply Hok | reflexivity | apply Hok | exact (ck_resp_size _ _ Hok) |].
  exists w'. etrans; [|exact Hw].
  apply run_embedded with (own := ca_own k); [apply Hok | apply Hok | exact (ck_size _ _ Hok) | apply Hok].
Qed.

(** The calls at the server: one task for each. *)
Lemma calls_read ks cw name max_req_qsize seqid limit rx :
  Forall (call_ok limit) ks -> limit < 2 ^ 32 -> data_only rx -> rx_bytes rx = concat (map frame (map call_payload ks)) ->
  sys_reach name max_req_qsize (mk_sys cw [] 0 Idle) -> CW.m_conn_set cw !! seqid = Some (Srv.new_conn seqid limit) ->
  size (CW.m_task_q cw) + zlen ks <= m_max_q_len (CW.m_task_q cw) ->
  exists cw1 c', data_in (rx_size rx) (S (rx_size rx)) seqid rx cw = Done (true, cw1, []) /\
    m_queue (CW.m_task_q cw1) = m_queue (CW.m_task_q cw) ++ map (fun k => delivered seqid (call_payload k)) ks /\
    ConnWorkerProps.sys_ok (mk_sys cw1 [] 0 Idle) /\ ConnWorkerProps.names_ok cw1 /\ CW.m_conn_set cw1 !! seqid = Some c' /\
    Connection.same_sender (Srv.new_conn seqid limit) c' /\ CW.m_resp_conn_q cw1 = CW.m_resp_conn_q cw.
Proof.
  intros Hok Hlimit Hrx Hbytes Hreach Hconn Htasks. destruct (ConnWorkerProps.reach_ok _ _ _ Hreach) as [Hs Hn].
  destruct (ServerConnProps.requests_deliver (rx_size rx) (S (rx_size rx)) (map call_payload ks) (Srv.new_conn seqid limit) [] rx) as [c' Hreq];
    [| lia | lia |].
  { split; try assumption; [apply ServerConnProps.at_start; reflexivity | reflexivity |].
    apply Forall_map. eapply Forall_impl; [exact Hok|]. intros k Hk. apply embedded_payload. exact (ck_limit _ _ Hk). }
  rewrite <- conn_requests_rpc, map_map in Hreq. change (Srv.m_seqid (Srv.new_conn seqid limit)) with seqid in Hreq.
  destruct (data_in_got _ _ seqid rx cw _ _ _ _ Hreq Hconn) as (cw1 & Hin & [Hc Ht _ Hids _]); [unfold zlen in *; rewrite length_map; exact Htasks|].
  destruct (Serving.data_in_ok _ _ _ _ _ _ _ Hin Hs Hn) as [Hs1 Hn1]. exists cw1, c'. split_and!; try assumption.
  - rewrite Ht. reflexivity.
  - rewrite Hc. apply lookup_insert_eq.
  - exact (conn_requests_sender _ _ _ _ _ _ _ Hreq).
Qed.

(** The answers from there to the callbacks. *)
Lemma answers_received limit ks order l ln fd rx2 :
  Forall (call_ok limit) ks -> order ≡ₚ ks -> Forall (waits ln) ks -> NoDup (ca_id <$> ks) -> NoDup (ca_cb <$> ks) ->
  (forall id, id ∉ ca_id <$> ks -> m_id_cb_map ln !! id = m_id_cb_map l !! id) -> Forall (new_in l) ks ->
  data_only rx2 -> rx_bytes rx2 = concat (map frame (map answer_payload order)) ->
  exists cconn rpkgs,
    received (rx_size rx2) (S (rx_size rx2)) (put_fd fd new_client_conn) rx2 = Done (rpkgs, Some cconn, []) /\
    forall taken, taken ≡ₚ rpkgs -> exists l2, worker_runs taken ln = Done l2 /\ m_id_cb_map l2 = m_id_cb_map l /\
      Forall (fun k => exists c', m_heap l2 !! ca_cb k = Some c' /\
        calls c' = [(status_num RPC_SERVER_OK, ca_f k (ca_data k))]) ks.
Proof.
  intros Hok Hperm Hwait Hids Hcbs Htable Hnew Hrx Hbytes.
  destruct (ClientConnProps.received_deliver (rx_size rx2) (S (rx_size rx2)) (map answer_payload order)
    (put_fd fd new_client_conn) (Srv.new_conn "" (2 ^ 32 - 1)) [] rx2) as (cconn & Hrec);
    [apply ClientConnProps.sim_fresh | | lia | lia |].
  { split; try assumption; try reflexivity; [apply ServerConnProps.at_start; reflexivity|].
    apply Forall_map. rewrite Hperm. eapply Forall_impl; [exact Hok|]. intros k Hk. exact (proj1 (answer_read k limit Hk)). }
  rewrite map_map in Hrec. exists cconn. eexists. split; [exact Hrec|]. intros taken Ht.
  apply Permutation_map_inv in Ht as (ks' & -> & Hks'). rewrite Hperm in Hks'.
  destruct (answers_delivered limit ks' ln) as (l2 & Hrun & Hi & _ & Hcalls).
  - rewrite <- Hks'. exact Hok.
  - rewrite <- Hks'. exact Hwait.
  - rewrite <- Hks'. exact Hids.
  - rewrite <- Hks'. exact Hcbs.
  - exists l2. split; [exact Hrun|]. split; [|rewrite Hks'; exact Hcalls].
    apply map_eq. intros id. rewrite Hi. destruct (decide (id ∈ ca_id <$> ks')) as [Hin|Hno].
    + rewrite <- Hks' in Hin. apply list_elem_of_fmap in Hin as (k & -> & Hk). rewrite Forall_forall in Hnew.
      symmetry. exact (proj1 (Hnew k Hk)).
    + rewrite <- Hks' in Hno. exact (Htable id Hno).
Qed.

(** The answers on the wire. *)
Lemma answers_sent limit ks order cw1 c' seqid :
  Forall (call_ok limit) ks -> order ≡ₚ ks ->
  ConnWorkerProps.sys_ok (mk_sys cw1 [] 0 Idle) -> ConnWorkerProps.names_ok cw1 -> CW.m_conn_set cw1 !! seqid = Some c' ->
  Connection.same_sender (Srv.new_conn seqid limit) c' ->
  size (CW.m_resp_conn_q cw1) + zlen ks <= m_max_q_len (CW.m_resp_conn_q cw1) -> zlen ks <= 10 * 1024 * 1024 ->
  (exists out s, traced_run seqid (mk_sys cw1 [] 0 Idle) (map call_resp order) out s /\ quiet_for seqid s) /\
  forall out s, traced_run seqid (mk_sys cw1 [] 0 Idle) (map call_resp order) out s -> quiet_for seqid s ->
    out = concat (map (fun k => rs_data (call_resp k)) order).
Proof.
  intros Hok Hperm Hs Hn Hc Hsend Hconnq Hrespq.
  assert (HP : Forall resp_ok (map call_resp order)).
  { apply Forall_map. rewrite Hperm. eapply Forall_impl; [exact Hok|]. intros k Hk. apply (answer_read k limit Hk). }
  assert (Hlen : zlen (map call_resp order) = zlen ks) by (unfold zlen; rewrite length_map, (Permutation_length Hperm); reflexivity).
  destruct (Serving.same_sender_unsent _ _ Hsend) as [Hu Hsok]. specialize (Hsok ltac:(split; [constructor | exact I])).
  destruct Hsend as (_ & Hq & _ & _ & Hcon). split.
  - destruct (Serving.run_completes seqid cw1 c' (map call_resp order) Hs Hn Hc) as (w' & O & Hr & Hqu); try assumption.
    + change (Srv.m_response_q c' = default_Queue) in Hq. change (Connection.base c') with c'. rewrite Hq, Hlen. cbn. exact Hrespq.
    + rewrite Hlen. exact Hconnq.
    + eauto.
  - intros out s Hr Hqu.
    destruct (Serving.run_sent _ _ _ _ _ _ Hr Hs Hn (Serving.sender_at_some _ _ _ Hc) Hsok HP) as (b' & Hb' & Hok' & Heq & Hs' & _).
    rewrite (Serving.quiet_unsent _ _ _ Hs' Hqu Hb'), app_nil_r in Heq. rewrite Heq.
    change (Connection.base c') with c'. rewrite Hu, map_map. reflexivity.
Qed.

(** * Property *)

End Call.

(** * Example: two calls on one connection, each answered with its data
    reversed. *)
Definition reverse_method : RpcMethod := new_method (answering (@rev ascii)) true.
Definition reverse_service : IServiceImpl := <["rev"%string := reverse_method]> ∅.
Definition reverse_worker : RpcWorker :=
  mk_worker (<["calc"%string := {| pSrv := Some reverse_service; owner := false |}]> ∅) ServerStatus.new_counters.

Definition two_cbs : RpcEventLooper :=
  put_heap (<[0%nat := new_callback]> (<[1%nat := new_callback]> (m_heap one_looper))) one_looper.
Definition reverse_send (data : bytes) (p : nat) (l : RpcEventLooper) : buffer * RpcEventLooper :=
  match async_call demo_env "calc" "rev" data 7 (Some p) l with Done (_, out, _, l) => (out, l) | Stuck _ => ([], l) end.
Definition looper_after_1 : RpcEventLooper := snd (reverse_send (bs "1+2") 0 two_cbs).
Definition looper_after_2 : RpcEventLooper := snd (reverse_send (bs "abc") 1 looper_after_1).
Definition reverse_call (data : bytes) (p : nat) (l : RpcEventLooper) (id : string) : a_call :=
  mk_call demo_env "calc" "rev" data 7 p (fst (reverse_send data p l)) id zero_time reverse_worker reverse_service false
    reverse_method (@rev ascii).
Definition two_calls : list a_call :=
  [reverse_call (bs "1+2") 0 two_cbs "1_2_5_10_ip_0"; reverse_call (bs "abc") 1 looper_after_1 "1_2_5_10_ip_1"].

Definition two_calls_wire : bytes := omap id (concat (map ca_out two_calls)).
Definition two_calls_rx : list rx_event := [RxData (take 70 two_calls_wire); RxData (drop 70 two_calls_wire)].

Lemma two_calls_sent : calls_sent two_calls two_cbs looper_after_2.
Proof. do 2 (eapply sent_next; [vm_compute; reflexivity|]). apply sent_none. Qed.

Lemma two_calls_new : Forall (new_in two_cbs) two_calls.
Proof.
  constructor; [|constructor; [|constructor]];
    (split; [vm_compute; reflexivity | exists new_callback; split; [vm_compute; reflexivity | repeat split]]).
Qed.

Lemma reverse_call_ok data p l reqid : 0 < zlen data < 100 -> zlen (rev data) < 100 ->
  ByteSize (call_msg (reverse_call data p l reqid)) < 900 -> ByteSize (resp_of reqid) < 900 -> call_ok 1000 (reverse_call data p l reqid).
Proof.
  intros Hd Hr H1 H2. set (k := reverse_call data p l reqid) in *.
  split; try reflexivity; change (ca_timeout k) with 7; change (ca_data k) with data; change (ca_id k) with reqid;
    change (ca_f k data) with (rev data); unfold max_protobuf_data_len; lia.
Qed.

Lemma one_conn_reached : sys_reach "w" 100 (mk_sys one_conn_worker [] 0 Idle).
Proof.
  eapply ConnWorkerProps.sys_next; [apply ConnWorkerProps.sys_start|].
  eapply (ConnWorkerProps.step_accept _ _ 10 (ConnWorkerProps.an_accept 77 5)); [reflexivity | reflexivity].
Qed.

