(* ===== verification/HttpResponse.v ===== *)
(** The HTTP responses of the server, read by the parser: what
    [RpcRespBroker::allocHttpResp] and [allocHttpBuf] make is parsed back to its
    status, its three headers and its body, in whatever pieces its bytes come.

    As in [HttpPost] the response is followed byte by byte, and
    [HttpSegments.segmentation_independent] gives the other pieces. *)
From Stdlib Require Import ZArith Lia Bool List String Ascii.
From stdpp Require Import base list strings.
From S2P Require Import Prelude HttpChars HttpTypes HttpUrl HttpExec HttpExecSafe HttpRecord HttpCases HttpSafe HttpContract HttpStream HttpStreamByte HttpSegments HttpPost Wire SampleCodec RespBroker.

(** * Decimal numbers *)

Lemma digit_chr v : 0 <= v < 10 -> digit (chr (48 + v)) = v /\ IS_NUM (chr (48 + v)) = true.
Proof.
  intros Hv. assert (Hc : v = 0 \/ v = 1 \/ v = 2 \/ v = 3 \/ v = 4 \/ v = 5 \/ v = 6 \/ v = 7 \/ v = 8 \/ v = 9) by lia.
  repeat destruct Hc as [->|Hc]; try subst v; split; vm_compute; reflexivity.
Qed.

Lemma decimal_value_snoc ds d : decimal_value (ds ++ [d]) = decimal_value ds * 10 + digit d.
Proof. unfold decimal_value. rewrite fold_left_app. reflexivity. Qed.

Lemma digits_value fuel : forall v, 0 <= v < 10 ^ Z.of_nat fuel ->
  decimal_value (digits fuel v) = v /\ forallb IS_NUM (digits fuel v) = true /\ zlen (digits fuel v) <= Z.of_nat fuel.
Proof.
  induction fuel as [|fuel IH]; intros v Hv.
  - cbn in Hv. replace v with 0 by lia. split_and!; [reflexivity | reflexivity | discriminate].
  - rewrite Nat2Z.inj_succ, Z.pow_succ_r in Hv by lia. pose proof (Z.div_mod v 10 ltac:(lia)) as Hdm. pose proof (Z.mod_pos_bound v 10 ltac:(lia)) as Hm.
    destruct (digit_chr (v mod 10) Hm) as [Hd Hn]. cbn [digits]. destruct (Z.eqb_spec (v / 10) 0) as [Hz|Hz].
    + unfold decimal_value. cbn [List.app fold_left forallb]. rewrite Hd, Hn. split_and!; [lia | reflexivity | unfold zlen; cbn [length]; lia].
    + destruct (IH (v / 10)) as (H1 & H2 & H3); [split; [apply Z.div_pos; lia | apply Z.div_lt_upper_bound; lia]|].
      rewrite decimal_value_snoc, forallb_app, zlen_app, H1, H2, Hd. cbn [forallb]. rewrite Hn.
      split_and!; [lia | reflexivity | unfold zlen at 2; cbn [length]; lia].
Qed.

Lemma decimal_spec v : 0 <= v < 2 ^ 32 ->
  decimal_value (decimal v) = v /\ forallb IS_NUM (decimal v) = true /\ zlen (decimal v) <= 20 /\ decimal v <> [].
Proof.
  intros Hv. destruct (digits_value 20 v) as (H1 & H2 & H3); [change (Z.of_nat 20) with 20; lia|].
  split_and!; try assumption. unfold decimal. cbn [digits]. intros Hn. apply app_eq_nil in Hn as [_ Hn]. discriminate.
Qed.

(** * One byte at a time *)

Lemma feed_one x t c d x1 t1 :
  http_parser_execute recorder x t [c] = Returned x1 t1 1 -> errno_ok x1 = true -> hp_upgrade x1 = false ->
  feed_bytes x t (c :: d) = feed_bytes x1 t1 d.
Proof.
  intros Hr He Hu. unfold feed_bytes. cbn [map]. apply errno_ok_spec in He. apply feed_next; assumption.
Qed.

(** The parser in the middle of a response with status [sc]. *)
Definition resp_parser (fl : Z) (s : state) (hs : header_states) (ix n cl sc : Z) : http_parser :=
  mk_http_parser HTTP_RESPONSE fl s hs ix false n cl 1 1 sc HTTP_DELETE HPE_OK false.

Definition fresh_response : http_parser := http_parser_init HTTP_RESPONSE.

(** ** The status line and the first header *)

Definition resp_head (status : Z) : bytes :=
  bs "HTTP/1.1 " ++ decimal status ++ http_crlf ++ bs "Content-Type: text/html" ++ http_crlf ++ bs "Content-Length: ".

Definition head_events (y : http_parser) : trace :=
  [EvData For_header_field (bs "Content-Length"); EvData For_header_value (bs "text/html");
   EvData For_header_field (bs "Content-Type"); EvData For_status []; EvNotify MessageBegin y].

Lemma run_resp_head status : status = 200 \/ status = 404 ->
  exists ix n y, 0 <= n <= 200 /\
    feed_bytes fresh_response [] (resp_head status) =
      Some (resp_parser 0 s_header_value_discard_ws h_content_length ix n ULLONG_MAX status, head_events y).
Proof.
  intros [-> | ->]; do 3 eexists; (split; cycle 1; [vm_compute; reflexivity | lia]).
Qed.

(** ** The length *)

Definition length_events (ds : bytes) (t : trace) : trace := EvData For_header_value ds :: t.

Lemma run_resp_first_digit ix n sc u t d :
  0 <= n <= 200 -> IS_NUM d = true ->
  exists ix' m, n <= m <= n + 2 /\
    http_parser_execute recorder (resp_parser 0 s_header_value_discard_ws h_content_length ix n ULLONG_MAX sc) (EvData For_header_field u :: t) [d] =
      Returned (resp_parser F_CONTENTLENGTH s_header_value h_content_length ix' m (digit d) sc)
        (length_events [d] (EvData For_header_field u :: t)) 1.
Proof.
  intros Hn Hc. destruct (digit_facts d Hc) as (H1 & H2 & H3 & H4 & H5 & _). unfold CR, LF in *.
  do 2 eexists. split; [|run_sym ltac:(rewrite ?H1, ?H2, ?H3, ?H4, ?H5, ?Hc); rewrite ?record_new by discriminate; reflexivity].
  unfold nadd. lia.
Qed.

Lemma run_resp_digit ix n sc v u t d :
  0 <= n <= 300 -> IS_NUM d = true -> 0 <= v < 2 ^ 32 ->
  exists m, n <= m <= n + 2 /\
    http_parser_execute recorder (resp_parser F_CONTENTLENGTH s_header_value h_content_length ix n v sc) (length_events u t) [d] =
      Returned (resp_parser F_CONTENTLENGTH s_header_value h_content_length ix m (v * 10 + digit d) sc) (length_events (u ++ [d]) t) 1.
Proof.
  intros Hn Hc Hv. destruct (digit_facts d Hc) as (H1 & H2 & H3 & H4 & H5 & _). unfold CR, LF in *.
  eexists. split; [|run_sym ltac:(rewrite ?content_length_step by assumption; rewrite ?H1, ?H2, ?H3, ?H4, ?H5, ?Hc); joins; reflexivity].
  unfold nadd. lia.
Qed.

Lemma run_resp_digits ds : forall ix n sc v u t,
  forallb IS_NUM ds = true -> 0 <= n -> n + 2 * zlen ds <= 300 -> 0 <= v ->
  fold_left (fun v d => v * 10 + digit d) ds v < 2 ^ 32 ->
  exists m, n <= m <= n + 2 * zlen ds /\
    feed_bytes (resp_parser F_CONTENTLENGTH s_header_value h_content_length ix n v sc) (length_events u t) ds =
      Some (resp_parser F_CONTENTLENGTH s_header_value h_content_length ix m (fold_left (fun v d => v * 10 + digit d) ds v) sc,
            length_events (u ++ ds) t).
Proof.
  induction ds as [|d ds IH]; intros ix n sc v u t Hds Hn Hb Hv Hsm.
  - exists n. rewrite app_nil_r. split; [unfold zlen; cbn; lia | reflexivity].
  - cbn [forallb fold_left] in *. apply andb_true_iff in Hds as [Hd Hds]. rewrite zlen_cons in *. pose proof (zlen_nonneg ds).
    destruct (digit_facts d Hd) as (_ & _ & _ & _ & _ & Hr). pose proof (fold_digits ds (v * 10 + digit d) Hds ltac:(lia)).
    destruct (run_resp_digit ix n sc v u t d ltac:(lia) Hd ltac:(lia)) as (m & Hm & E).
    destruct (IH ix m sc (v * 10 + digit d) (u ++ [d]) t Hds ltac:(lia) ltac:(lia) ltac:(lia) Hsm) as (m' & Hm' & E').
    exists m'. split; [lia|]. rewrite (feed_one _ _ d ds _ _ E) by reflexivity. rewrite E', <- app_assoc. reflexivity.
Qed.

(** ** The last header *)

Lemma feed_to x t c d x1 t1 r :
  http_parser_execute recorder x t [c] = Returned x1 t1 1 -> errno_ok x1 = true -> hp_upgrade x1 = false ->
  feed_bytes x1 t1 d = r -> feed_bytes x t (c :: d) = r.
Proof. intros Hr He Hu <-. apply feed_one; assumption. Qed.

Ltac feed_text := repeat (eapply feed_to; [run_char; joins; rewrite ?record_new by discriminate; reflexivity | reflexivity | reflexivity |]).

Definition close_events (t : trace) : trace :=
  EvData For_header_value (bs "close") :: EvData For_header_field (bs "Connection") :: t.

Definition close_flags : Z := Z.lor F_CONTENTLENGTH F_CONNECTION_CLOSE.

Lemma run_resp_close ix n sc v u t : 0 <= n <= 300 ->
  exists ix' m, 0 <= m <= 400 /\
    feed_bytes (resp_parser F_CONTENTLENGTH s_header_value h_content_length ix n v sc) (length_events u t)
      (http_crlf ++ bs "Connection: close" ++ http_crlf) =
      Some (resp_parser F_CONTENTLENGTH s_header_value_lws h_connection_close ix' m v sc, close_events (length_events u t)).
Proof.
  intros Hn. do 2 eexists. split; [|unfold length_events, close_events, resp_parser; cbn [List.app http_crlf bs list_ascii_of_string]; feed_text; reflexivity].
  unfold nadd. lia.
Qed.

(** ** The end of the headers and the body *)

(** The parser after the headers, and after a response without a body. *)
Definition in_body (ix cl sc : Z) : http_parser := resp_parser close_flags s_body_identity h_connection_close ix 0 cl sc.
Definition at_end (ix sc : Z) : http_parser := resp_parser close_flags s_dead h_connection_close ix 0 0 sc.

Lemma run_resp_end ix n sc t : 0 <= n <= 400 ->
  exists y2 y3, hp_status_code y2 = sc /\ hp_content_length y2 = 0 /\
    feed_bytes (resp_parser F_CONTENTLENGTH s_header_value_lws h_connection_close ix n 0 sc) t http_crlf =
      Some (at_end ix sc, EvNotify MessageComplete y3 :: EvNotify HeadersComplete y2 :: t).
Proof.
  intros Hn. do 2 eexists. split; cycle 1; [split; cycle 1|].
  - unfold at_end, resp_parser; cbn [List.app http_crlf bs list_ascii_of_string]. feed_text; reflexivity.
  - reflexivity.
  - reflexivity.
Qed.

Lemma run_resp_body_start ix n cl sc t : 0 <= n <= 400 -> 0 < cl < 2 ^ 32 ->
  exists y2, hp_status_code y2 = sc /\ hp_content_length y2 = cl /\
    feed_bytes (resp_parser F_CONTENTLENGTH s_header_value_lws h_connection_close ix n cl sc) t http_crlf =
      Some (in_body ix cl sc, EvNotify HeadersComplete y2 :: t).
Proof.
  intros Hn Hcl. destruct cl as [|q|q]; try lia.
  assert (Pos.eqb q 18446744073709551615 = false) as Hmax by (apply Pos.eqb_neq; lia).
  eexists. split; cycle 1; [split; cycle 1|].
  - unfold in_body, resp_parser; cbn [List.app http_crlf bs list_ascii_of_string].
    eapply feed_to; [run_char; reflexivity | reflexivity | reflexivity |].
    eapply feed_to; [run_end ltac:(rewrite ?Hmax, ?Pos.eqb_refl); reflexivity | reflexivity | reflexivity |]. reflexivity.
  - reflexivity.
  - reflexivity.
Qed.

(** A body but for its last byte; what is recorded of it. *)
Definition body_events (body : bytes) (t : trace) : trace := match body with [] => t | _ => record_data For_body body t end.

Lemma run_resp_body body : forall ix cl sc t, zlen body < cl < 2 ^ 32 ->
  feed_bytes (in_body ix cl sc) t body = Some (in_body ix (cl - zlen body) sc, body_events body t).
Proof.
  induction body as [|c body IH]; intros ix cl sc t Hcl.
  - change (zlen (@nil ascii)) with 0. rewrite Z.sub_0_r. reflexivity.
  - rewrite zlen_cons in *. pose proof (zlen_nonneg body).
    eapply feed_to; [apply body_char; lia | reflexivity | reflexivity |].
    change (mk_http_parser _ _ _ _ _ _ _ (cl - 1) _ _ _ _ _ _) with (in_body ix (cl - 1) sc).
    rewrite IH by lia. replace (cl - (1 + zlen body)) with (cl - 1 - zlen body) by lia. do 2 f_equal.
    destruct body as [|c' body]; [reflexivity|]. cbn [body_events]. change (c :: c' :: body) with ([c] ++ c' :: body).
    rewrite record_data_app. reflexivity.
Qed.

Lemma run_resp_last ix sc t c : exists y,
  http_parser_execute recorder (in_body ix 1 sc) t [c] =
    Returned (at_end ix sc) (EvNotify MessageComplete y :: record_data For_body [c] t) 1.
Proof. eexists. unfold in_body, at_end, resp_parser. run_char. reflexivity. Qed.

(** From the end of the last header to the end of the response. *)
Lemma run_resp_rest body ix n sc t : 0 <= n <= 400 -> zlen body < 2 ^ 32 ->
  exists y2 y3, hp_status_code y2 = sc /\ hp_content_length y2 = zlen body /\
    feed_bytes (resp_parser F_CONTENTLENGTH s_header_value_lws h_connection_close ix n (zlen body) sc) t (http_crlf ++ body) =
      Some (at_end ix sc, EvNotify MessageComplete y3 :: body_events body (EvNotify HeadersComplete y2 :: t)).
Proof.
  intros Hn Hlen. pose proof (zlen_nonneg body). destruct (decide (body = [])) as [->|Hne].
  - rewrite app_nil_r. exact (run_resp_end ix n sc t Hn).
  - destruct (exists_last Hne) as (b & c & ->). rewrite zlen_app in *. change (zlen [c]) with 1 in *. pose proof (zlen_nonneg b).
    destruct (run_resp_body_start ix n (zlen b + 1) sc t Hn ltac:(lia)) as (y2 & H1 & H2 & E). set (t2 := EvNotify HeadersComplete y2 :: t) in *.
    destruct (run_resp_last ix sc (body_events b t2) c) as (y3 & E3). exists y2, y3. split; [exact H1|]. split; [exact H2|].
    rewrite feed_bytes_app, E, feed_bytes_app, run_resp_body by lia. replace (zlen b + 1 - zlen b) with 1 by lia.
    eapply feed_to; [exact E3 | reflexivity | reflexivity |]. unfold feed_bytes. cbn [map feed]. do 3 f_equal.
    destruct b as [|b0 b]; [reflexivity|]. cbn [body_events List.app]. rewrite <- record_data_app. reflexivity.
Qed.

(** * The whole response *)

Lemma run_response status body : status = 200 \/ status = 404 -> zlen body < 2 ^ 32 ->
  exists x y1 y2 y3, hp_status_code y2 = status /\ hp_content_length y2 = zlen body /\ hp_state x = s_dead /\
    feed_bytes fresh_response [] (setupHttpHdr status (zlen body) ++ body) =
      Some (x, EvNotify MessageComplete y3 :: body_events body
        (EvNotify HeadersComplete y2 :: close_events (length_events (decimal (zlen body)) (head_events y1)))).
Proof.
  intros Hst Hlen. pose proof (zlen_nonneg body).
  destruct (run_resp_head status Hst) as (ix1 & n1 & y1 & Hn1 & E1).
  destruct (decimal_spec (zlen body) ltac:(lia)) as (Hv & Hd & Hl & Hne).
  destruct (decimal (zlen body)) as [|d ds] eqn:Hds; [contradiction|]. rewrite <- Hds in *. 
  unfold decimal_value in Hv. rewrite Hds in Hv. cbn [fold_left] in Hv. change (0 * 10 + digit d) with (digit d) in Hv.
  rewrite Hds in Hd, Hl. cbn [forallb] in Hd. apply andb_true_iff in Hd as [Hd Hdss]. rewrite zlen_cons in Hl.
  destruct (digit_facts d Hd) as (_ & _ & _ & _ & _ & Hr).
  destruct (run_resp_first_digit ix1 n1 status (bs "Content-Length")
    [EvData For_header_value (bs "text/html"); EvData For_header_field (bs "Content-Type"); EvData For_status []; EvNotify MessageBegin y1] d Hn1 Hd)
    as (ix2 & n2 & Hn2 & E2). fold (head_events y1) in E2.
  destruct (run_resp_digits ds ix2 n2 status (digit d) [d] (head_events y1) Hdss ltac:(lia) ltac:(lia) ltac:(lia)) as (n3 & Hn3 & E3);
    [rewrite Hv; lia|]. rewrite Hv in E3.
  destruct (run_resp_close ix2 n3 status (zlen body) ([d] ++ ds) (head_events y1) ltac:(lia)) as (ix4 & n4 & Hn4 & E4).
  destruct (run_resp_rest body ix4 n4 status (close_events (length_events ([d] ++ ds) (head_events y1))) Hn4 Hlen)
    as (y2 & y3 & H1 & H2 & E5).
  exists (at_end ix4 status), y1, y2, y3. split; [exact H1|]. split; [exact H2|]. split; [reflexivity|].
  replace (setupHttpHdr status (zlen body) ++ body)
    with (resp_head status ++ [d] ++ ds ++ (http_crlf ++ bs "Connection: close" ++ http_crlf) ++ http_crlf ++ body)
    by (unfold setupHttpHdr, resp_head; rewrite Hds, <- !app_assoc; reflexivity).
  rewrite feed_bytes_app, E1. eapply feed_to; [exact E2 | reflexivity | reflexivity |].
  rewrite feed_bytes_app, E3, feed_bytes_app, E4, E5, Hds. reflexivity.
Qed.

(** What is reported of a response, the latest first. *)
Definition response_trace (status : Z) (body : bytes) (y1 y2 y3 : http_parser) : trace :=
  EvNotify MessageComplete y3 :: body_events body (EvNotify HeadersComplete y2 ::
    header_events (bs "Connection", bs "close") ++ header_events (bs "Content-Length", decimal (zlen body)) ++
    header_events (bs "Content-Type", bs "text/html") ++ [EvData For_status []; EvNotify MessageBegin y1]).

(** Any pieces of a response. *)
Lemma response_pieces status body pieces :
  status = 200 \/ status = 404 -> zlen (setupHttpHdr status (zlen body) ++ body) < 2 ^ 31 ->
  Forall (fun d => d <> []) pieces -> concat pieces = setupHttpHdr status (zlen body) ++ body ->
  exists x y1 y2 y3, feed fresh_response [] pieces = Some (x, response_trace status body y1 y2 y3) /\
    hp_status_code y2 = status /\ hp_content_length y2 = zlen body /\ hp_state x = s_dead.
Proof.
  intros Hst Hlen Hne Hp. pose proof (zlen_nonneg (setupHttpHdr status (zlen body))). assert (Hlen' := Hlen). rewrite zlen_app in Hlen'.
  destruct (run_response status body Hst ltac:(lia)) as (x & y1 & y2 & y3 & H1 & H2 & H3 & E). rewrite <- Hp in E, Hlen.
  pose proof (init_wf HTTP_RESPONSE) as Hwf.
  destruct (pieces_of_bytes pieces fresh_response fresh_response [] x _ Hne Hlen Hwf Hwf ltac:(repeat split; lia) eq_refl E) as (x' & E' & Hal).
  exists x', y1, y2, y3. split; [exact E'|]. split; [exact H1|]. split; [exact H2|]. destruct Hal as (_ & _ & ->). exact H3.
Qed.

(** * The broker *)

(** The package of an HTTP response. *)
Definition http_resp_pkg (status : Z) (body : bytes) : response_pkg :=
  let s := setupHttpHdr status (zlen body) ++ body in {| rs_data := Some <$> s; rs_data_len := zlen s |}.

Lemma allocHttpResp_spec status body b : zlen (setupHttpHdr status (zlen body) ++ body) < 2 ^ 32 ->
  allocHttpResp status body b =
    Done (0, put_positions (rs_data_len (http_resp_pkg status body)) (m_user_data_pos b) (put_pkg (http_resp_pkg status body) b)).
Proof.
  intros Hlen. pose proof (zlen_nonneg (setupHttpHdr status (zlen body) ++ body)). unfold allocHttpResp, http_resp_pkg. cbv zeta.
  set (s := setupHttpHdr status (zlen body) ++ body) in *. rewrite u32_small by lia. unfold write_pkg, new_response_pkg.
  cbn [m_resp_pkg put_pkg rs_data rs_data_len need outcome_bind]. rewrite write_first by lia. rewrite Z.sub_diag, app_nil_r. reflexivity.
Qed.

Lemma allocHttpBuf_fill status body b : zlen (setupHttpHdr status (zlen body) ++ body) < 2 ^ 32 ->
  (let! (off, b) := allocHttpBuf status (zlen body) b in write_pkg off body b) =
    Done (put_positions (rs_data_len (http_resp_pkg status body)) (m_user_data_pos b) (put_pkg (http_resp_pkg status body) b)).
Proof.
  intros Hlen. unfold allocHttpBuf, http_resp_pkg. cbv zeta. rewrite zlen_app in *. pose proof (zlen_nonneg body).
  set (h := setupHttpHdr status (zlen body)) in *. pose proof (zlen_nonneg h). rewrite u32_small by lia. unfold write_pkg, new_response_pkg.
  cbn [m_resp_pkg put_pkg rs_data rs_data_len need outcome_bind]. rewrite write_first by lia.
  cbn [need outcome_bind m_resp_pkg put_pkg put_positions rs_data rs_data_len].
  rewrite (write_next h (zlen h) body) by lia. replace (zlen h + zlen body - zlen h - zlen body) with 0 by lia.
  cbn [need outcome_bind]. rewrite app_nil_r. reflexivity.
Qed.

Lemma http_resp_pkg_pos status body : 0 < rs_data_len (http_resp_pkg status body).
Proof.
  unfold http_resp_pkg. cbn [rs_data_len]. unfold setupHttpHdr. rewrite <- app_assoc, zlen_app. change (zlen (bs "HTTP/1.1 ")) with 9.
  match goal with |- context [9 + zlen ?l] => pose proof (zlen_nonneg l) end. lia.
Qed.

(** The broker once a message is in its HTTP package. *)
Definition http_filled (status : Z) (body : bytes) (b : RpcRespBroker) : RpcRespBroker :=
  put_positions (rs_data_len (http_resp_pkg status body)) (m_user_data_pos b) (put_pkg (http_resp_pkg status body) b).

Section Codec.
Context `{MessageCodec RpcInnerResp}.

Lemma pushed_http status body b : pushed_pkg (http_filled status body b) = Done (http_resp_pkg status body, http_filled status body b).
Proof.
  unfold pushed_pkg, isAlloced, http_filled. cbn [m_return_val_pos put_positions]. pose proof (http_resp_pkg_pos status body).
  replace (_ =? 0) with false by lia. reflexivity.
Qed.

Lemma allocRespBufFrom_message_http b body :
  m_from_http b = true -> zlen (setupHttpHdr 200 (zlen body) ++ body) < 2 ^ 32 ->
  exists off, allocRespBufFrom_message body b = Done (off, http_filled 200 body b).
Proof.
  intros Hhttp Hlen. pose proof (allocHttpBuf_fill 200 body b Hlen) as Hfill. unfold allocRespBufFrom_message. rewrite Hhttp.
  destruct (allocHttpBuf 200 (zlen body) b) as [[off b1]|]; [|discriminate]. cbn [outcome_bind] in Hfill |- *. rewrite Hfill. eexists. reflexivity.
Qed.

(** * Properties *)

(** C19: an HTTP response is read back as what it was made of.  Whatever the
    message a method answers with, the package the broker makes of it is
    parsed, in whatever pieces its bytes come, to the status 200, the three
    headers of the response with the length of the message, the message as the
    body and the end of the message, once each and in this order; the parser is
    then in the state that takes no other message on the connection. *)
Theorem http_response_reported b body pieces
    (Hhttp : m_from_http b = true) (Hlen : zlen (setupHttpHdr 200 (zlen body) ++ body) < 2 ^ 31)
    (Hne : Forall (fun d => d <> []) pieces) :
  exists off b' p, allocRespBufFrom_message body b = Done (off, b') /\ pushed_pkg b' = Done (p, b') /\
    (rs_data p = Some <$> concat pieces ->
     exists x y1 y2 y3, feed fresh_response [] pieces = Some (x, response_trace 200 body y1 y2 y3) /\
       hp_status_code y2 = 200 /\ hp_content_length y2 = zlen body /\ hp_state x = s_dead).
Proof.
  destruct (allocRespBufFrom_message_http b body Hhttp ltac:(lia)) as [off E]. exists off. do 2 eexists. split; [exact E|].
  split; [apply pushed_http|]. cbn [rs_data http_resp_pkg]. intros Hb. apply (inj (fmap Some)) in Hb. apply response_pieces; auto.
Qed.

(** [response] of an HTTP broker makes a [std::string] of the package it
    has built already.  Without a NUL byte in the package it reads past its
    end; with one, it answers with a whole response, up to the NUL, as the body
    of another. *)
Theorem http_response_wraps_package rs s b
    (Hhttp : m_from_http b = true) (Hneed : m_need_resp b = true) (Hpkg : m_resp_pkg b = Some {| rs_data := Some <$> s; rs_data_len := zlen s |})
    (Hlen : zlen (setupHttpHdr (getHttpCode rs) (zlen (c_str s)) ++ c_str s) < 2 ^ 32) :
  match response rs b with
  | Stuck w => w = OutOfBounds /\ c_str s = s
  | Done (ok, p, b') => ok = true /\ p = Some (http_resp_pkg (getHttpCode rs) (c_str s)) /\ "000"%char ∈ s
  end.
Proof.
  assert (string_of_chars (Some <$> s) = if decide ("000"%char ∈ s) then Done (c_str s) else Stuck OutOfBounds) as Hs.
  { clear. induction s as [|c s IH]; cbn [fmap list_fmap string_of_chars c_str].
    - rewrite decide_False by (rewrite elem_of_nil; tauto). reflexivity.
    - destruct (Ascii.eqb_spec c "000"%char) as [->|Hc]; [rewrite decide_True by apply list_elem_of_here; reflexivity|].
      change (list_fmap _ _ Some s) with (Some <$> s). rewrite IH. destruct (decide ("000"%char ∈ s)) as [Hin|Hin].
      + rewrite decide_True by (apply list_elem_of_further; exact Hin). reflexivity.
      + rewrite decide_False by (rewrite elem_of_cons; intros [?|?]; [congruence | tauto]). reflexivity. }
  assert ("000"%char ∉ s -> c_str s = s) as Hc.
  { clear. induction s as [|c s IH]; [reflexivity|]. rewrite not_elem_of_cons. intros [H1 H2]. cbn [c_str].
    destruct (Ascii.eqb_spec c "000"%char); [congruence | rewrite IH by exact H2; reflexivity]. }
  unfold response. rewrite Hneed, Hhttp, Hpkg. cbn [negb need outcome_bind rs_data]. rewrite Hs.
  destruct (decide ("000"%char ∈ s)) as [Hin|Hin]; cbn [outcome_bind]; [|auto].
  rewrite allocHttpResp_spec by exact Hlen. cbn [outcome_bind].
  change (put_responed (put_positions ?p ?u (put_pkg ?r b))) with (put_positions p u (put_pkg r (put_responed b))).
  change (m_user_data_pos b) with (m_user_data_pos (put_responed b)). fold (http_filled (getHttpCode rs) (c_str s) (put_responed b)).
  rewrite pushed_http. cbn [outcome_bind]. auto.
Qed.
End Codec.

(** A response, cut inside its header. *)
Definition sample_response : bytes := setupHttpHdr 200 2 ++ bs "ok".

Lemma http_response_reported_witness :
  exists off b' p, allocRespBufFrom_message (bs "ok") (new_broker "c1" "http" true true) = Done (off, b') /\ pushed_pkg b' = Done (p, b') /\
    (rs_data p = Some <$> concat [take 20 sample_response; drop 20 sample_response] ->
     exists x y1 y2 y3, feed fresh_response [] [take 20 sample_response; drop 20 sample_response] = Some (x, response_trace 200 (bs "ok") y1 y2 y3) /\
       hp_status_code y2 = 200 /\ hp_content_length y2 = zlen (bs "ok") /\ hp_state x = s_dead).
Proof.
  apply (http_response_reported (new_broker "c1" "http" true true) (bs "ok") [take 20 sample_response; drop 20 sample_response]).
  - reflexivity.
  - reflexivity.
  - repeat constructor; vm_compute; discriminate.
Defined.

(** The package of [sample_response] has no NUL byte. *)
Definition answered_broker : RpcRespBroker := http_filled 200 (bs "ok") (new_broker "c1" "http" true true).

Lemma http_response_wraps_package_witness :
  match response RPC_SERVER_OK answered_broker with
  | Stuck w => w = OutOfBounds /\ c_str sample_response = sample_response
  | Done (ok, p, b') => ok = true /\ p = Some (http_resp_pkg 200 (c_str sample_response)) /\ "000"%char ∈ sample_response
  end.
Proof.
  apply (http_response_wraps_package RPC_SERVER_OK sample_response answered_broker).
  - reflexivity.
  - reflexivity.
  - reflexivity.
  - vm_compute. reflexivity.
Defined.
