(* ===== verification/HttpCall.v ===== *)
(** A remote call over HTTP through the server: from the bytes of a [POST]
    or [GET] request on a new connection through the parser, [getRequest],
    [RpcWorker::run] and the broker to the bytes of the response, and what a
    parser of responses makes of them. *)
From Stdlib Require Import ZArith Lia Bool List String Ascii.
From stdpp Require Import base list strings gmap.
From S2P Require Import Prelude HttpChars HttpTypes HttpUrl HttpExec HttpExecSafe HttpRecord HttpCases HttpSafe HttpContract HttpStream HttpStreamByte HttpSegments HttpPost HttpGet HttpResponse Wire SampleCodec Socket Queue Stats HttpConn HttpConnSim RespBroker Service RoundTrip HttpConnProps.
From S2P Require ServerConn ServerConnProps Connection ConnWorker ConnWorkerProps RpcCall ServiceProps.
From S2P Require Import ServerRun.
Import Connection(conn_getRequest, http_connection).
Import RpcCall(answering).
Import ConnWorkerProps(c1).
Module CW := ConnWorker.

Section Call.
Context `{MessageCodecLaw RpcInnerReq req_fits} {CR : MessageCodec RpcInnerResp}.

(** The interface's loop over [getRequest] is that of the class. *)
Lemma conn_requests_http calls fuel : forall (c : RpcServerHttpConn) rx,
  conn_requests calls fuel c rx = http_requests calls c rx.
Proof.
  induction calls as [|calls IH]; intros c rx; [reflexivity|]. cbn [conn_requests http_requests conn_getRequest http_connection].
  destruct (getRequest c rx) as [[[[st o] c1] rx1]|]; [|reflexivity]. cbn [outcome_bind]. rewrite IH. reflexivity.
Qed.

(** The run of a method that answers, for a request over HTTP. *)
Lemma run_answering_http s req d seqid t w m f :
  s !! req_method_name req = Some m -> m_func m = answering f -> req_type req = TWO_WAY -> client_timed_out req t = false ->
  zlen (setupHttpHdr 200 (zlen (f d)) ++ f d) < 2 ^ 32 ->
  exists w', run_service s req d (new_broker seqid (req_request_id req) true true) seqid t w =
    Done (w', [Called (req_service_name req) (req_method_name req) d; Pushed seqid (http_resp_pkg 200 (f d))]).
Proof.
  intros Hm Hf Htype Hto Hsz. set (b0 := new_broker seqid (req_request_id req) true true).
  destruct (allocRespBufFrom_message_http b0 (f d) eq_refl Hsz) as [off Ha].
  unfold run_service, runMethod. rewrite Hm, Hf. unfold answering at 1. rewrite Ha. cbn [outcome_bind]. rewrite Hto.
  assert (Hfin : finish_call RPC_SERVER_OK (http_filled 200 (f d) b0) req seqid = Done [Pushed seqid (http_resp_pkg 200 (f d))]).
  { unfold finish_call, setReturnVal. cbn [http_filled put_positions put_pkg m_resp_pkg m_from_http b0 new_broker outcome_bind negb].
    change (isResponed _) with false. cbv iota. rewrite Htype. unfold pushResponse.
    match goal with |- context [pushed_pkg ?b] => change b with (http_filled 200 (f d) b0) end. rewrite pushed_http. reflexivity. }
  rewrite Hfin. cbn [outcome_bind]. eexists. reflexivity.
Qed.

(** * Property *)

End Call.

(** * Example: a method that answers with its data reversed, called in two
    segments. *)
Definition reverse_http : IServiceImpl := <["add"%string := new_method (answering (@rev ascii)) true]> ∅.
Definition reverse_http_worker : RpcWorker :=
  mk_worker (<["calc"%string := {| pSrv := Some reverse_http; owner := false |}]> ∅) ServerStatus.new_counters.

(** A worker for HTTP connections that has accepted one. *)
Definition http_conn_worker : CW.RpcServerConnWorker RpcServerHttpConn :=
  snd (CW.onAccept 10 (Some (ConnWorkerProps.an_accept 77 5)) (CW.new_worker "w" 100)).

