(* ===== verification/Connect.v ===== *)
(** Sockets and their set-up: [connectHost], [noBlockConnect], [setNoBlocking]
    and [connect] of [client/src/RpcClientConn.cpp], [startListen] of
    [server/src/RpcServerImpl.cpp], and [getHostIpByName] of
    [common/src/util.cpp], over the table of the process's descriptors.

    What the system calls return is an argument ([attempt], [listen_calls], the
    resolver), and so is the number a new descriptor gets ([new_fd]): a number
    that is not in use.  Socket options have no part in the control flow. *)
From Stdlib Require Import ZArith Lia Bool List String Ascii.
From stdpp Require Import base list strings gmap.
From S2P Require Import Prelude Wire Socket ClientConn.

(** * Descriptors *)

(** An open descriptor: its [O_NONBLOCK] flag, and whether another thread of
    the process opened it. *)
Record fd_entry := mk_fd { nonblock : bool; foreign : bool }.
Notation fd_table := (gmap Z fd_entry).

(** [close]: of a number that is not open, [EBADF] and nothing else. *)
Definition close_fd (fd : Z) (t : fd_table) : fd_table := delete fd t.

(** [fcntl(fd, F_GETFL)] and [fcntl(fd, F_SETFL, ...)], as far as
    [O_NONBLOCK]; the first of a number that is not open is -1, all bits set. *)
Definition get_nonblock (fd : Z) (t : fd_table) : bool := match t !! fd with Some e => nonblock e | None => true end.
Definition set_nonblock (v : bool) (fd : Z) (t : fd_table) : fd_table := alter (fun e => mk_fd v (foreign e)) fd t.

(** [setNoBlocking]: the flag before. *)
Definition setNoBlocking (fd : Z) (t : fd_table) : bool * fd_table := (get_nonblock fd t, set_nonblock true fd t).

(** * Connecting *)

(** [connect]: 0, or -1 with [errno] that is or is not [EINPROGRESS]. *)
Inductive connect_result := ConnectOk | ConnectInProgress | ConnectError.

(** [select]: 0; -1, which leaves the set as it was, with the descriptor in
    it; or a positive count, with [FD_ISSET]. *)
Inductive select_result := SelectTimeout | SelectError | SelectReady (isset : bool).

Definition FD_ISSET (r : select_result) : bool := match r with SelectTimeout => false | SelectError => true | SelectReady b => b end.

(** What the system does for one address of the list: [socket] succeeds;
    [getsockopt] fails or gives the socket's error; and [between] other
    descriptors are opened by other threads after [noBlockConnect] has closed
    the socket and before [connectHost] does. *)
Record attempt := mk_attempt {
  socket_ok : bool;
  connect_ret : connect_result;
  select_ret : select_result;
  so_error : option Z;
  between : nat
}.

(** [FD_SET] of a descriptor that an [fd_set] has no bit for writes outside
    it. *)
Definition FD_SETSIZE : Z := 1024.
Definition FD_SET (fd : Z) : outcome unit := if FD_SETSIZE <=? fd then Stuck OutOfBounds else Done tt.

Definition noBlockConnect (sockfd : Z) (a : attempt) (t : fd_table) : outcome (Z * fd_table) :=
  let '(fdopt, t) := setNoBlocking sockfd t in
  match connect_ret a with
  | ConnectOk => Done (sockfd, set_nonblock fdopt sockfd t)
  | ConnectError => Done (-1, close_fd sockfd t)
  | ConnectInProgress =>
      let! _ := FD_SET sockfd in
      match select_ret a with
      | SelectTimeout => Done (-1, close_fd sockfd t)
      | r =>
          if negb (FD_ISSET r) then Done (-1, close_fd sockfd t)
          else match so_error a with
               | None => Done (-1, close_fd sockfd t)
               | Some error =>
                   if negb (error =? 0) then Done (-1, close_fd sockfd t)
                   else Done (0, set_nonblock fdopt sockfd t)
               end
      end
  end.

Section Descriptors.
(** The number of a new descriptor. *)
Variable new_fd : fd_table -> Z.

Definition open_fd (e : fd_entry) (t : fd_table) : Z * fd_table := (new_fd t, <[new_fd t := e]> t).

Fixpoint open_others (n : nat) (t : fd_table) : fd_table :=
  match n with O => t | S n => open_others n (snd (open_fd (mk_fd false true) t)) end.

(** The loop over the addresses: whether one was reached, [m_fd], the table. *)
Fixpoint connectHost_loop (rps : list attempt) (m_fd : Z) (t : fd_table) : outcome (bool * Z * fd_table) :=
  match rps with
  | [] => Done (false, m_fd, t)
  | a :: rps =>
      if negb (socket_ok a) then connectHost_loop rps (-1) t
      else
        let '(fd, t) := open_fd (mk_fd false false) t in
        let! (r, t) := noBlockConnect fd a t in
        if negb (r =? -1) then Done (true, fd, t)
        else connectHost_loop rps (-1) (close_fd fd (open_others (between a) t))
  end.

(** [connectHost]: its result, [m_fd], whether the list of [getaddrinfo] was
    freed, the table.  [result] is [None] when [getaddrinfo] fails. *)
Record host_result := mk_host { host_ret : Z; host_fd : Z; list_freed : bool; host_table : fd_table }.

Definition connectHost (result : option (list attempt)) (m_fd : Z) (t : fd_table) : outcome host_result :=
  match result with
  | None => Done (mk_host (-1) m_fd true t)
  | Some rps =>
      let! (found, m_fd, t) := connectHost_loop rps m_fd t in
      Done (if negb found then mk_host (-1) m_fd false t else mk_host 0 m_fd true t)
  end.

(** [RpcClientConn::connect] up to its options and [addConnection]: the
    [connect] of [ClientConn] with what [connectHost] gives it. *)
Definition connect_conn (result : option (list attempt)) (now : Z) (c : RpcClientConn) (t : fd_table)
    : outcome (bool * RpcClientConn * fd_table) :=
  if negb (m_fd c =? -1) then Done (true, c, t)
  else
    let! h := connectHost result (m_fd c) t in
    let '(ok, c) := connect (if host_ret h =? -1 then None else Some (host_fd h)) now c in
    Done (ok, c, host_table h).

(** * Listening *)

(** Which of its system calls succeed. *)
Record listen_calls := mk_listen { ls_socket : bool; ls_fcntl : bool; ls_bind : bool; ls_listen : bool }.

Definition startListen (l : listen_calls) (t : fd_table) : Z * fd_table :=
  if negb (ls_socket l) then (-1, t)
  else
    let '(fd, t) := open_fd (mk_fd false false) t in
    if negb (ls_fcntl l) then (-1, t)
    else
      let t := set_nonblock true fd t in
      if negb (ls_bind l) then (-1, t)
      else if negb (ls_listen l) then (-1, t)
      else (fd, t).

(** * Lemmas *)

(** An address is reached: at once, or the socket is writable (or [select]
    failed) and has no error. *)
Definition reaches (a : attempt) : bool :=
  socket_ok a &&
  match connect_ret a with
  | ConnectOk => true
  | ConnectError => false
  | ConnectInProgress => FD_ISSET (select_ret a) && bool_decide (so_error a = Some 0)
  end.

Hypothesis new_fd_free : forall t, t !! new_fd t = None.
Hypothesis new_fd_pos : forall t, 0 <= new_fd t.

Lemma noBlockConnect_spec fd a e t : 0 <= fd < FD_SETSIZE -> t !! fd = None -> socket_ok a = true ->
  exists r, noBlockConnect fd a (<[fd := e]> t) = Done (r, if reaches a then <[fd := e]> t else t) /\
    (r =? -1) = negb (reaches a).
Proof.
  intros Hp Hf Hs. assert (FD_SET fd = Done tt) as Hset0 by (unfold FD_SET; replace (FD_SETSIZE <=? fd) with false by lia; reflexivity).
  unfold noBlockConnect, setNoBlocking, reaches, close_fd, set_nonblock, get_nonblock. rewrite Hs. cbn [andb].
  assert (delete fd (alter (fun e => mk_fd true (foreign e)) fd (<[fd := e]> t)) = t) as Hd.
  { rewrite alter_insert_eq, delete_insert_id by exact Hf. reflexivity. }
  assert (forall v, v = nonblock e ->
    alter (fun e => mk_fd v (foreign e)) fd (alter (fun e => mk_fd true (foreign e)) fd (<[fd := e]> t)) = <[fd := e]> t) as Hset.
  { intros v ->. rewrite !alter_insert_eq. destruct e; reflexivity. }
  rewrite lookup_insert_eq, Hset0. cbn [outcome_bind].
  destruct (connect_ret a); [|destruct (select_ret a) as [| |[]], (so_error a) as [z|]; cbn [FD_ISSET negb andb]|];
    rewrite ?Hd, ?Hset by reflexivity; try (eexists; split; [reflexivity|]; cbn; lia || reflexivity).
  all: destruct (Z.eqb_spec z 0) as [->|Hz]; cbn [negb]; rewrite ?Hd, ?Hset by reflexivity;
    [rewrite bool_decide_true by reflexivity | rewrite bool_decide_false by congruence]; eexists; split; reflexivity.
Qed.

Lemma connectHost_loop_spec rps t : new_fd t < FD_SETSIZE -> forall fd, Forall (fun a => between a = 0%nat) rps ->
  connectHost_loop rps fd t =
    Done (if existsb reaches rps then (true, new_fd t, <[new_fd t := mk_fd false false]> t)
          else (false, match rps with [] => fd | _ => -1 end, t)).
Proof.
  intros Hsmall. induction rps as [|a rps IH]; intros fd Hb; [reflexivity|]. inversion Hb as [|? ? Ha Hb']; subst.
  cbn [connectHost_loop existsb]. destruct (socket_ok a) eqn:Hs; cbn [negb].
  - unfold open_fd. destruct (noBlockConnect_spec (new_fd t) a (mk_fd false false) t (conj (new_fd_pos t) Hsmall) (new_fd_free t) Hs) as (r & -> & Hr1).
    cbn [outcome_bind]. rewrite Hr1. destruct (reaches a) eqn:Hr; cbn [negb orb]; [reflexivity|]. rewrite Ha. cbn [open_others].
    unfold close_fd. rewrite delete_id by apply new_fd_free. rewrite IH by exact Hb'.
    destruct (existsb reaches rps); [reflexivity | destruct rps; reflexivity].
  - unfold reaches at 1. rewrite Hs. cbn [andb orb]. rewrite IH by exact Hb'.
    destruct (existsb reaches rps); [reflexivity | destruct rps; reflexivity].
Qed.

(** The tables of other threads' descriptors. *)
Lemma open_others_keeps n : forall t fd e, t !! fd = Some e -> open_others n t !! fd = Some e.
Proof.
  induction n as [|n IH]; intros t fd e Ht; [exact Ht|]. cbn [open_others open_fd snd]. apply IH.
  rewrite lookup_insert_ne; [exact Ht|]. intros <-. rewrite new_fd_free in Ht. discriminate.
Qed.

(** * Properties *)


(** [noBlockConnect] closes the socket of a failed attempt and
    [connectHost] closes the same number again: when another thread opens
    descriptors between the two, one of them gets that number, and is closed. *)
Theorem failed_connect_closes_foreign a m t
    (Hs : socket_ok a = true) (Hr : reaches a = false) (Hb : (0 < between a)%nat) (Hsmall : new_fd t < FD_SETSIZE) :
  open_others (between a) t !! new_fd t = Some (mk_fd false true) /\
  connectHost (Some [a]) m t = Done (mk_host (-1) (-1) false (delete (new_fd t) (open_others (between a) t))).
Proof.
  split.
  - destruct (between a) as [|n]; [lia|]. cbn [open_others open_fd snd]. apply open_others_keeps, lookup_insert_eq.
  - unfold connectHost. cbn [connectHost_loop]. rewrite Hs. cbn [negb]. unfold open_fd.
    destruct (noBlockConnect_spec (new_fd t) a (mk_fd false false) t (conj (new_fd_pos t) Hsmall) (new_fd_free t) Hs) as (r & -> & Hr1).
    cbn [outcome_bind]. rewrite Hr1, Hr. reflexivity.
Qed.

(** With [FD_SETSIZE] or more descriptors open, the first connection that is not
    made at once writes outside [writefds]. *)
Theorem connect_overflows_fd_set a rps m t
    (Hs : socket_ok a = true) (Hc : connect_ret a = ConnectInProgress) (Hlarge : FD_SETSIZE <= new_fd t) :
  connectHost (Some (a :: rps)) m t = Stuck OutOfBounds.
Proof.
  unfold connectHost. cbn [connectHost_loop]. rewrite Hs. cbn [negb]. unfold open_fd, noBlockConnect, setNoBlocking. rewrite Hc.
  unfold FD_SET. replace (FD_SETSIZE <=? new_fd t) with true by lia. reflexivity.
Qed.

(** [startListen]: a non-blocking listening socket, or -1; but the socket of a
    call that fails after [socket] stays open. *)
Theorem startListen_result l t :
  startListen l t =
    if negb (ls_socket l) then (-1, t)
    else if ls_fcntl l && ls_bind l && ls_listen l then (new_fd t, <[new_fd t := mk_fd true false]> t)
    else (-1, <[new_fd t := mk_fd (ls_fcntl l) false]> t).
Proof.
  unfold startListen, open_fd, set_nonblock. destruct l as [[] [] [] []]; cbn [ls_socket ls_fcntl ls_bind ls_listen negb andb];
    rewrite ?alter_insert_eq; reflexivity.
Qed.
End Descriptors.

(** A way to number descriptors: one above those in use. *)
Definition next_fd (t : fd_table) : Z := map_fold (fun fd _ m => Z.max (fd + 1) m) 3 t.

Lemma next_fd_above t : 3 <= next_fd t /\ forall fd e, t !! fd = Some e -> fd < next_fd t.
Proof.
  unfold next_fd. apply (map_fold_weak_ind (fun m t => 3 <= m /\ forall fd (e : fd_entry), t !! fd = Some e -> fd < m)).
  - split; [lia|]. intros fd e. rewrite lookup_empty. discriminate.
  - intros i x m r Hi [H1 H2]. split; [lia|]. intros fd e. destruct (decide (fd = i)) as [->|Hne]; [lia|].
    rewrite lookup_insert_ne by congruence. intros H%H2. lia.
Qed.

Lemma next_fd_free t : t !! next_fd t = None.
Proof. destruct (next_fd_above t) as [_ H]. destruct (t !! next_fd t) eqn:E; [apply H in E; lia | reflexivity]. Qed.
Lemma next_fd_pos t : 0 <= next_fd t.
Proof. pose proof (proj1 (next_fd_above t)). lia. Qed.

(** Two addresses: the first times out, the second is reached in time. *)
Definition sample_attempts : list attempt :=
  [mk_attempt true ConnectInProgress SelectTimeout None 0; mk_attempt true ConnectInProgress (SelectReady true) (Some 0) 0].


Definition refused : attempt := mk_attempt true ConnectError SelectTimeout None 1.

Lemma failed_connect_closes_foreign_witness :
  open_others next_fd 1 ∅ !! next_fd ∅ = Some (mk_fd false true) /\
  connectHost next_fd (Some [refused]) (-1) ∅ = Done (mk_host (-1) (-1) false (delete (next_fd ∅) (open_others next_fd 1 ∅))).
Proof.
  apply (failed_connect_closes_foreign next_fd next_fd_free next_fd_pos refused (-1) ∅).
  - reflexivity.
  - reflexivity.
  - cbn. lia.
  - vm_compute. reflexivity.
Defined.

(** * Host names *)

(** [gethostbyname_r] with a buffer of [len] bytes: [ERANGE], another failure
    (an error, or no entry), or the first address of the host in text. *)
Inductive resolve_result := ResolveRange | ResolveFail | ResolveOk (ip : string).

(** What happened to the buffer: allocations that succeed and [free]. *)
Inductive buf_event := Malloc (len : Z) | Realloc (len : Z) | Free.

(** The loop of [getHostIpByName]; [alloc len] says whether [malloc] or
    [realloc] of [len] bytes succeeds, and [len *= 2] must not overflow. *)
Fixpoint resolve_loop (fuel : nat) (alloc : Z -> bool) (gethostbyname : Z -> resolve_result) (len : Z)
    : outcome (option string * list buf_event) :=
  match fuel with
  | O => Stuck Spinning
  | S fuel =>
      match gethostbyname len with
      | ResolveRange =>
          let len := len * 2 in
          if 2 ^ 31 <=? len then Stuck OutOfBounds
          else if negb (alloc len) then Done (None, [Free])
          else let! (r, ev) := resolve_loop fuel alloc gethostbyname len in Done (r, Realloc len :: ev)
      | ResolveFail => Done (None, [Free])
      | ResolveOk ip => Done (Some ip, [Free])
      end
  end.

(** [getHostIpByName]; the buffer doubles at most 20 times before it overflows. *)
Definition getHostIpByName (alloc : Z -> bool) (gethostbyname : Z -> resolve_result)
    : outcome (option string * list buf_event) :=
  if negb (alloc 1024) then Done (None, [])
  else let! (r, ev) := resolve_loop 21 alloc gethostbyname 1024 in Done (r, Malloc 1024 :: ev).

Lemma resolve_loop_ends alloc gethostbyname : forall fuel k,
  (k + fuel = 21)%nat -> (exists n, (k <= n < 21)%nat /\ gethostbyname (1024 * 2 ^ Z.of_nat n) <> ResolveRange) ->
  exists r ev, resolve_loop fuel alloc gethostbyname (1024 * 2 ^ Z.of_nat k) = Done (r, ev ++ [Free]) /\ ~ Free ∈ ev.
Proof.
  induction fuel as [|fuel IH]; intros k Hk (n & Hn & Hr); [lia|]. cbn [resolve_loop].
  destruct (gethostbyname (1024 * 2 ^ Z.of_nat k)) eqn:E.
  - assert (k <> n) as Hkn by congruence.
    replace (1024 * 2 ^ Z.of_nat k * 2) with (1024 * 2 ^ Z.of_nat (S k)) by (rewrite Nat2Z.inj_succ, Z.pow_succ_r; lia).
    assert (1024 * 2 ^ Z.of_nat (S k) <= 1024 * 2 ^ 20) as Hle by (apply Z.mul_le_mono_nonneg_l; [lia|]; apply Z.pow_le_mono_r; lia).
    destruct (Z.leb_spec (2 ^ 31) (1024 * 2 ^ Z.of_nat (S k))) as [H|_]; [lia|].
    destruct (alloc _); cbn [negb].
    + destruct (IH (S k) ltac:(lia)) as (r & ev & -> & Hev); [exists n; split; [lia | exact Hr]|].
      cbn [outcome_bind]. eexists _, (Realloc _ :: ev). split; [reflexivity|]. rewrite elem_of_cons. intros [?|?]; [discriminate | tauto].
    + exists None, []. split; [reflexivity|]. rewrite elem_of_nil. tauto.
  - exists None, []. split; [reflexivity|]. rewrite elem_of_nil. tauto.
  - exists (Some ip), []. split; [reflexivity|]. rewrite elem_of_nil. tauto.
Qed.

(** [getHostIp]: [gethostname] gives the name or fails; [hname] is the array it
    is written to. *)
Definition getHostIp (gethostname : option string) (alloc : Z -> bool) (gethostbyname : string -> Z -> resolve_result)
    : outcome (option string * list buf_event) :=
  match gethostname with
  | None => Done (None, [])
  | Some hname => getHostIpByName alloc (gethostbyname hname)
  end.

(** Looking up a host ends when a buffer of at most a gigabyte is enough
    for the resolver, whatever memory there is: [len] does not overflow, and
    the buffer that was allocated is freed once, at the end. *)
Theorem getHostIpByName_ends alloc gethostbyname n
    (Hn : 0 <= n <= 20) (Henough : gethostbyname (1024 * 2 ^ n) <> ResolveRange) :
  exists r ev, getHostIpByName alloc gethostbyname = Done (r, ev) /\
    (ev = [] /\ r = None \/ exists ev', ev = Malloc 1024 :: ev' ++ [Free] /\ ~ Free ∈ ev').
Proof.
  unfold getHostIpByName. destruct (alloc 1024); cbn [negb]; [|do 2 eexists; split; [reflexivity | auto]].
  destruct (resolve_loop_ends alloc gethostbyname 21 0 eq_refl) as (r & ev & Hrun & Hev).
  { exists (Z.to_nat n). split; [lia|]. rewrite Z2Nat.id by lia. exact Henough. }
  change (1024 * 2 ^ Z.of_nat 0) with 1024 in Hrun. rewrite Hrun. cbn [outcome_bind].
  do 2 eexists. split; [reflexivity|]. right. exists ev. auto.
Qed.

(** A resolver that needs 3000 bytes. *)
Definition needy (len : Z) : resolve_result := if len <? 3000 then ResolveRange else ResolveOk "10.0.0.1".

Lemma getHostIpByName_ends_witness :
  exists r ev, getHostIpByName (fun _ => true) needy = Done (r, ev) /\
    (ev = [] /\ r = None \/ exists ev', ev = Malloc 1024 :: ev' ++ [Free] /\ ~ Free ∈ ev').
Proof.
  apply (getHostIpByName_ends (fun _ => true) needy 2).
  - lia.
  - vm_compute. discriminate.
Defined.
