(* ===== verification/RawData.v ===== *)
(** [RawData] and [RawDataImpl] of [common/src/RawDataImpl.cpp] and
    [common/include/RawDataImpl.h]: a pointer to bytes, with a keeper of the
    package they are in.  Who keeps which package alive, while a response goes
    from the worker through the blocker to the caller.

    A package is known by a number; it lives as long as a [shared_ptr] owns it:
    the [m_pkg_keeper] of a [RawDataImpl], or one elsewhere in the program
    ([others]). *)
From Stdlib Require Import ZArith Lia Bool List String Ascii.
From stdpp Require Import base list strings gmap.
From S2P Require Import Prelude.

(** * State *)

(** What [data] points to: nothing, memory that is not a package's, or a
    package. *)
Inductive address := Null | Elsewhere (a : Z) | Inside (p : nat) (off : Z).

(** [m_impl] is the number of a [RawDataImpl]. *)
Record RawData := mk_raw { data : address; data_len : Z; m_impl : nat }.

(** The [m_pkg_keeper] of each [RawDataImpl] that is alive; the packages owned
    elsewhere, one entry for each owner; the objects by their names in the
    program; numbers from [next] are unused. *)
Record memory := mk_memory {
  keepers : gmap nat (option nat);
  others : list nat;
  objects : gmap string RawData;
  next : nat
}.

Definition put_keepers (v : gmap nat (option nat)) (m : memory) : memory := mk_memory v (others m) (objects m) (next m).
Definition put_others (v : list nat) (m : memory) : memory := mk_memory (keepers m) v (objects m) (next m).
Definition put_objects (v : gmap string RawData) (m : memory) : memory := mk_memory (keepers m) (others m) v (next m).

(** * [RawDataImpl] *)

(** [RawDataImpl()]: a keeper of a package of its own. *)
Definition RawDataImpl_new (m : memory) : nat * memory :=
  (next m, mk_memory (<[next m := Some (S (next m))]> (keepers m)) (others m) (objects m) (S (S (next m)))).

(** [RawDataImpl(RawDataImpl &r)]: the keeper swapped with an empty one. *)
Definition RawDataImpl_copy (r : nat) (m : memory) : outcome (nat * memory) :=
  let! k := need UseAfterFree (keepers m !! r) in
  Done (next m, mk_memory (<[next m := k]> (<[r := None]> (keepers m))) (others m) (objects m) (S (next m))).

(** [operator=(RawDataImpl &r)]: the keepers are swapped. *)
Definition RawDataImpl_assign (i r : nat) (m : memory) : outcome memory :=
  let! ki := need UseAfterFree (keepers m !! i) in
  let! kr := need UseAfterFree (keepers m !! r) in
  Done (put_keepers (<[i := kr]> (<[r := ki]> (keepers m))) m).

(** [~RawDataImpl] and the release of its memory. *)
Definition RawDataImpl_delete (i : nat) (m : memory) : outcome memory :=
  let! _ := need UseAfterFree (keepers m !! i) in
  Done (put_keepers (delete i (keepers m)) m).

(** * [RawData] *)

(** [RawData(const char *d, size_t l)], to which the other constructors
    delegate. *)
Definition RawData_new (d : address) (l : Z) (m : memory) : RawData * memory :=
  let '(i, m) := RawDataImpl_new m in (mk_raw d l i, m).
Definition RawData_default (m : memory) : RawData * memory := RawData_new Null 0 m.

(** [operator=(const RawData &r)] *)
Definition RawData_assign (x r : RawData) (m : memory) : outcome (RawData * memory) :=
  let x := mk_raw (data r) (data_len r) (m_impl x) in
  let! m := RawDataImpl_assign (m_impl x) (m_impl r) m in
  Done (x, m).

(** [RawData(const RawData &r)]: it assigns through an [m_impl] that nobody
    has set, here [garbage]. *)
Definition RawData_copy (garbage : nat) (r : RawData) (m : memory) : outcome (RawData * memory) :=
  RawData_assign (mk_raw Null 0 garbage) r m.

Definition RawData_delete (x : RawData) (m : memory) : outcome memory := RawDataImpl_delete (m_impl x) m.

Definition RawData_size (x : RawData) : Z := data_len x.

(** [rd.m_impl->m_pkg_keeper = pkg] *)
Definition keep (x : RawData) (p : nat) (m : memory) : outcome memory :=
  let! _ := need UseAfterFree (keepers m !! m_impl x) in
  Done (put_keepers (<[m_impl x := Some p]> (keepers m)) m).

(** * Programs *)

(** What a program does with named objects and with the packages it owns
    elsewhere ([OpShare]: one more owner, [OpDrop]: one owner less). *)
Inductive raw_op :=
| OpNew (o : string) (d : address) (l : Z)
| OpAssign (o r : string)
| OpKeep (o : string) (p : nat)
| OpDelete (o : string)
| OpShare (p : nat)
| OpDrop (p : nat).

Fixpoint remove_one (p : nat) (l : list nat) : list nat :=
  match l with [] => [] | q :: l => if (q =? p)%nat then l else q :: remove_one p l end.

Definition object (o : string) (m : memory) : outcome RawData := need UseAfterFree (objects m !! o).

Definition run_op (a : raw_op) (m : memory) : outcome memory :=
  match a with
  | OpNew o d l =>
      let '(x, m) := RawData_new d l m in Done (put_objects (<[o := x]> (objects m)) m)
  | OpAssign o r =>
      let! x := object o m in let! y := object r m in
      let! (x, m) := RawData_assign x y m in
      Done (put_objects (<[o := x]> (objects m)) m)
  | OpKeep o p => let! x := object o m in keep x p m
  | OpDelete o =>
      let! x := object o m in let! m := RawData_delete x m in
      Done (put_objects (delete o (objects m)) m)
  | OpShare p => Done (put_others (p :: others m) m)
  | OpDrop p => Done (put_others (remove_one p (others m)) m)
  end.

Fixpoint run_ops (l : list raw_op) (m : memory) : outcome memory :=
  match l with [] => Done m | a :: l => let! m := run_op a m in run_ops l m end.

(** The scoping of a program: objects are made under new names and used while
    they exist, [keep] and [OpDrop] are given packages the program owns. *)
Fixpoint scoped (l : list raw_op) (live : gset string) (owned : list nat) : bool :=
  match l with
  | [] => true
  | OpNew o _ _ :: l => bool_decide (o ∉ live) && scoped l ({[o]} ∪ live) owned
  | OpAssign o r :: l => bool_decide (o ∈ live) && bool_decide (r ∈ live) && scoped l live owned
  | OpKeep o p :: l => bool_decide (o ∈ live) && bool_decide (p ∈ owned) && scoped l live owned
  | OpDelete o :: l => bool_decide (o ∈ live) && scoped l (live ∖ {[o]}) owned
  | OpShare p :: l => bool_decide (p ∈ owned) && scoped l live (p :: owned)
  | OpDrop p :: l => bool_decide (p ∈ owned) && scoped l live (remove_one p owned)
  end.

(** * Invariant *)

(** Every object has a [RawDataImpl] of its own, and there are no others. *)
Record memory_ok (m : memory) : Prop := {
  ok_live : forall o x, objects m !! o = Some x -> is_Some (keepers m !! m_impl x);
  ok_own : forall o1 o2 x1 x2, objects m !! o1 = Some x1 -> objects m !! o2 = Some x2 -> m_impl x1 = m_impl x2 -> o1 = o2;
  ok_used : forall i, is_Some (keepers m !! i) -> exists o x, objects m !! o = Some x /\ m_impl x = i;
  ok_next : forall i, is_Some (keepers m !! i) -> (i < next m)%nat
}.

(** A package is alive; the bytes of an object can be read. *)
Definition alive (p : nat) (m : memory) : Prop := p ∈ others m \/ exists i, keepers m !! i = Some (Some p).
Definition readable (x : RawData) (m : memory) : Prop := match data x with Inside p _ => alive p m | _ => True end.

(** An object owns its data: its own keeper keeps the package. *)
Definition owns (o : string) (x : RawData) (m : memory) : Prop :=
  objects m !! o = Some x /\ match data x with Inside p _ => keepers m !! m_impl x = Some (Some p) | _ => True end.

Lemma owns_readable o x m : owns o x m -> readable x m.
Proof. unfold owns, readable, alive. intros [_ H]. destruct (data x); [exact I | exact I | right; eauto]. Qed.

(** Whether an operation changes an object or takes its package away. *)
Definition touches (a : raw_op) (o : string) : bool :=
  match a with
  | OpNew o' _ _ | OpKeep o' _ | OpDelete o' => bool_decide (o' = o)
  | OpAssign o' r => bool_decide (o' = o) || bool_decide (r = o)
  | OpShare _ | OpDrop _ => false
  end.

(** The operations that succeed, as relations between memories. *)
Lemma run_new o d l m : exists i,
  run_op (OpNew o d l) m =
    Done (mk_memory (<[i := Some (S i)]> (keepers m)) (others m) (<[o := mk_raw d l i]> (objects m)) (S (S (next m)))) /\ i = next m.
Proof. eexists. split; reflexivity. Qed.

Lemma run_assign o r x y m : memory_ok m -> objects m !! o = Some x -> objects m !! r = Some y ->
  exists kx ky, keepers m !! m_impl x = Some kx /\ keepers m !! m_impl y = Some ky /\
    run_op (OpAssign o r) m =
      Done (mk_memory (<[m_impl x := ky]> (<[m_impl y := kx]> (keepers m))) (others m)
              (<[o := mk_raw (data y) (data_len y) (m_impl x)]> (objects m)) (next m)).
Proof.
  intros Hok Ho Hr. destruct (ok_live m Hok o x Ho) as [kx Hx], (ok_live m Hok r y Hr) as [ky Hy]. exists kx, ky.
  split; [exact Hx|]. split; [exact Hy|]. cbn [run_op]. unfold object, RawData_assign, RawDataImpl_assign.
  rewrite Ho, Hr. cbn [need outcome_bind m_impl]. rewrite Hx, Hy. reflexivity.
Qed.

Lemma run_keep o p x m : memory_ok m -> objects m !! o = Some x ->
  run_op (OpKeep o p) m = Done (put_keepers (<[m_impl x := Some p]> (keepers m)) m).
Proof.
  intros Hok Ho. destruct (ok_live m Hok o x Ho) as [k Hk]. cbn [run_op]. unfold object, keep.
  rewrite Ho. cbn [need outcome_bind]. rewrite Hk. reflexivity.
Qed.

Lemma run_delete o x m : memory_ok m -> objects m !! o = Some x ->
  run_op (OpDelete o) m = Done (mk_memory (delete (m_impl x) (keepers m)) (others m) (delete o (objects m)) (next m)).
Proof.
  intros Hok Ho. destruct (ok_live m Hok o x Ho) as [k Hk]. cbn [run_op]. unfold object, RawData_delete, RawDataImpl_delete.
  rewrite Ho. cbn [need outcome_bind]. rewrite Hk. reflexivity.
Qed.

(** * Every operation keeps the invariant, and what it does not touch *)

Definition step_good (a : raw_op) (m m' : memory) : Prop :=
  memory_ok m' /\
  forall o x, touches a o = false -> objects m !! o = Some x ->
    objects m' !! o = Some x /\ keepers m' !! m_impl x = keepers m !! m_impl x.

Lemma objects_differ m o1 o2 x1 x2 : memory_ok m -> objects m !! o1 = Some x1 -> objects m !! o2 = Some x2 -> o1 <> o2 ->
  m_impl x1 <> m_impl x2.
Proof. intros Hok H1 H2 Hne He. apply Hne. eapply ok_own; eauto. Qed.

Lemma new_good o d l m m' : memory_ok m -> objects m !! o = None -> run_op (OpNew o d l) m = Done m' -> step_good (OpNew o d l) m m'.
Proof.
  intros Hok Ho. destruct (run_new o d l m) as (i & -> & Hi). intros [= <-].
  assert (forall o' x, objects m !! o' = Some x -> m_impl x <> i) as Hnew.
  { intros o' x Hx <-. apply (ok_live m Hok) in Hx. apply (ok_next m Hok) in Hx. lia. }
  split; [split; cbn [objects keepers next]|].
  - intros o' x. rewrite lookup_insert_Some. intros [[<- <-]|[_ Hx]]; [cbn; rewrite lookup_insert_eq; eauto|].
    rewrite lookup_insert_ne by (specialize (Hnew o' x Hx); congruence). eapply ok_live; eauto.
  - intros o1 o2 x1 x2. rewrite !lookup_insert_Some.
    intros [[<- <-]|[_ H1]] [[<- <-]|[_ H2]]; cbn; intros He; try reflexivity; [apply Hnew in H2 | apply Hnew in H1 |]; try congruence.
    eapply ok_own; eauto.
  - intros j [k Hj]. apply lookup_insert_Some in Hj as [[<- _]|[Hne Hj]].
    + exists o. eexists. rewrite lookup_insert_eq. split; reflexivity.
    + destruct (ok_used m Hok j) as (o' & x & Hx & He); [eauto|]. exists o', x. split; [|exact He].
      rewrite lookup_insert_ne; [exact Hx | congruence].
  - intros j [k Hj]. apply lookup_insert_Some in Hj as [[<- _]|[_ Hj]]; [lia|]. assert (j < next m)%nat by (eapply ok_next; eauto). lia.
  - intros o' x Ht Hx. cbn in Ht. apply bool_decide_eq_false in Ht. specialize (Hnew o' x Hx).
    cbn [objects keepers]. rewrite !lookup_insert_ne by congruence. auto.
Qed.

Lemma keep_good o p x m m' : memory_ok m -> objects m !! o = Some x -> run_op (OpKeep o p) m = Done m' -> step_good (OpKeep o p) m m'.
Proof.
  intros Hok Ho. rewrite (run_keep o p x m Hok Ho). intros [= <-].
  split; [split; cbn [put_keepers objects keepers next]; try (apply Hok)|].
  - intros o' y Hy. rewrite lookup_insert_is_Some'. right. eapply ok_live; eauto.
  - intros i. rewrite lookup_insert_is_Some'. intros [<-|Hi]; [eauto | apply (ok_used m Hok); exact Hi].
  - intros i. rewrite lookup_insert_is_Some'. intros [<-|Hi]; apply (ok_next m Hok); [eapply ok_live|]; eauto.
  - intros o' y Ht Hy. cbn in Ht. apply bool_decide_eq_false in Ht.
    split; [exact Hy|]. apply lookup_insert_ne. eapply objects_differ; eauto.
Qed.

Lemma delete_good o x m m' : memory_ok m -> objects m !! o = Some x -> run_op (OpDelete o) m = Done m' -> step_good (OpDelete o) m m'.
Proof.
  intros Hok Ho. rewrite (run_delete o x m Hok Ho). intros [= <-].
  split; [split; cbn [objects keepers next]|].
  - intros o' y. rewrite lookup_delete_Some. intros [Hne Hy]. rewrite lookup_delete_ne by (eapply objects_differ; eauto). eapply ok_live; eauto.
  - intros o1 o2 x1 x2. rewrite !lookup_delete_Some. intros [_ H1] [_ H2]. eapply ok_own; eauto.
  - intros i [k Hi]. apply lookup_delete_Some in Hi as [Hne Hi]. destruct (ok_used m Hok i) as (o' & y & Hy & He); [eauto|].
    exists o', y. split; [|exact He]. rewrite lookup_delete_ne; [exact Hy|]. intros <-. congruence.
  - intros i [k Hi]. apply lookup_delete_Some in Hi as [_ Hi]. apply (ok_next m Hok). eauto.
  - intros o' y Ht Hy. cbn in Ht. apply bool_decide_eq_false in Ht.
    split; cbn [objects keepers]; [rewrite lookup_delete_ne by congruence; exact Hy|].
    apply lookup_delete_ne. eapply objects_differ; eauto.
Qed.

Lemma assign_good o r x y m m' : memory_ok m -> objects m !! o = Some x -> objects m !! r = Some y ->
  run_op (OpAssign o r) m = Done m' -> step_good (OpAssign o r) m m'.
Proof.
  intros Hok Ho Hr. destruct (run_assign o r x y m Hok Ho Hr) as (kx & ky & Hx & Hy & ->). intros [= <-].
  assert (forall o' z, <[o:=mk_raw (data y) (data_len y) (m_impl x)]> (objects m) !! o' = Some z ->
    exists z', objects m !! o' = Some z' /\ m_impl z = m_impl z') as Hold.
  { intros o' z. rewrite lookup_insert_Some. intros [[<- <-]|[_ Hz]]; eauto. }
  assert (forall i, is_Some (<[m_impl x:=ky]> (<[m_impl y:=kx]> (keepers m)) !! i) <-> is_Some (keepers m !! i)) as Hdom.
  { intros i. rewrite !lookup_insert_is_Some'. split; [intros [<-|[<-|Hi]]; eauto | auto]. }
  split; [split; cbn [objects keepers next]|].
  - intros o' z Hz. rewrite Hdom. destruct (Hold _ _ Hz) as (z' & Hz' & ->). eapply ok_live; eauto.
  - intros o1 o2 x1 x2 H1 H2 He. destruct (Hold _ _ H1) as (z1 & G1 & E1), (Hold _ _ H2) as (z2 & G2 & E2).
    eapply (ok_own m Hok); [exact G1 | exact G2 | congruence].
  - intros i Hi. rewrite Hdom in Hi. destruct (ok_used m Hok i Hi) as (o' & z & Hz & He).
    destruct (decide (o = o')) as [<-|Hne].
    + exists o. eexists. rewrite lookup_insert_eq. split; [reflexivity|]. cbn. congruence.
    + exists o', z. rewrite lookup_insert_ne by exact Hne. auto.
  - intros i Hi. rewrite Hdom in Hi. apply (ok_next m Hok i Hi).
  - intros o' z Ht Hz. cbn in Ht. apply orb_false_iff in Ht as [H1%bool_decide_eq_false H2%bool_decide_eq_false].
    cbn [objects keepers]. rewrite !lookup_insert_ne; [auto | eapply objects_differ; eauto | eapply objects_differ; eauto | exact H1].
Qed.

Lemma step_run a l m : memory_ok m -> scoped (a :: l) (dom (objects m)) (others m) = true ->
  exists m', run_op a m = Done m' /\ step_good a m m' /\ scoped l (dom (objects m')) (others m') = true.
Proof.
  assert (forall o, o ∈ dom (objects m) -> exists x, objects m !! o = Some x) as Hobj by (intros o Ho; apply elem_of_dom in Ho as [x Hx]; eauto).
  intros Hok. destruct a as [o d n|o r|o p|o|p|p]; cbn [scoped]; rewrite ?andb_true_iff, ?bool_decide_eq_true.
  - intros [Ho Hl]. apply not_elem_of_dom in Ho. destruct (run_new o d n m) as (i & E & Hi). eexists. split; [exact E|].
    split; [apply new_good; assumption|]. cbn [objects others]. rewrite dom_insert_L. exact Hl.
  - intros [[Ho Hr] Hl]. apply Hobj in Ho as [x Hx], Hr as [y Hy].
    destruct (run_assign o r x y m Hok Hx Hy) as (kx & ky & _ & _ & E). eexists. split; [exact E|].
    split; [eapply assign_good; eauto|]. cbn [objects others]. rewrite dom_insert_lookup_L by eauto. exact Hl.
  - intros [[Ho Hp] Hl]. apply Hobj in Ho as [x Hx]. pose proof (run_keep o p x m Hok Hx) as E. eexists. split; [exact E|].
    split; [eapply keep_good; eauto | exact Hl].
  - intros [Ho Hl]. apply Hobj in Ho as [x Hx]. pose proof (run_delete o x m Hok Hx) as E. eexists. split; [exact E|].
    split; [eapply delete_good; eauto|]. cbn [objects others]. rewrite dom_delete_L. exact Hl.
  - intros [_ Hl]. eexists. split; [reflexivity|]. split; [|exact Hl]. split; [destruct Hok; split; assumption | auto].
  - intros [_ Hl]. eexists. split; [reflexivity|]. split; [|exact Hl]. split; [destruct Hok; split; assumption | auto].
Qed.

Definition untouched (l : list raw_op) (o : string) : bool := forallb (fun a => negb (touches a o)) l.

(** A scoped program runs to its end, and leaves alone what it does not
    touch. *)
Lemma run_scoped l rest : forall m, memory_ok m -> scoped (l ++ rest) (dom (objects m)) (others m) = true ->
  exists m', (forall rest, run_ops (l ++ rest) m = run_ops rest m') /\ memory_ok m' /\
    scoped rest (dom (objects m')) (others m') = true /\
    forall o x, untouched l o = true -> objects m !! o = Some x ->
      objects m' !! o = Some x /\ keepers m' !! m_impl x = keepers m !! m_impl x.
Proof.
  induction l as [|a l IH]; intros m Hok Hs; [exists m; auto|].
  destruct (step_run a (l ++ rest) m Hok Hs) as (m1 & E & [Hok1 Hkeep] & Hs1).
  destruct (IH m1 Hok1 Hs1) as (m' & Hrun & Hok' & Hs' & Hkeep'). exists m'.
  split; [intros r; cbn [List.app run_ops]; rewrite E; apply Hrun|]. split; [exact Hok'|]. split; [exact Hs'|].
  intros o x Hu Ho. cbn in Hu. apply andb_true_iff in Hu as [Ha%negb_true_iff Hu].
  destruct (Hkeep o x Ha Ho) as [H1 H2]. destruct (Hkeep' o x Hu H1) as [H3 H4]. split; [exact H3 | congruence].
Qed.

(** Assigning to an object from one that owns its data moves the ownership:
    the source now keeps what the target kept. *)
Lemma assign_moves o r x y m : memory_ok m -> o <> r -> objects m !! o = Some x -> owns r y m ->
  exists m', run_op (OpAssign o r) m = Done m' /\ owns o (mk_raw (data y) (data_len y) (m_impl x)) m' /\
    objects m' !! r = Some y /\ keepers m' !! m_impl y = keepers m !! m_impl x /\ others m' = others m /\
    forall i, i <> m_impl x -> i <> m_impl y -> keepers m' !! i = keepers m !! i.
Proof.
  intros Hok Hne Ho [Hr Hk]. destruct (run_assign o r x y m Hok Ho Hr) as (kx & ky & Hx & Hy & E). eexists. split; [exact E|].
  pose proof (objects_differ m o r x y Hok Ho Hr Hne) as Hi. unfold owns. cbn [objects keepers data data_len m_impl others].
  split; [split; [apply lookup_insert_eq|]; destruct (data y); try exact I; rewrite lookup_insert_eq; congruence|].
  split; [rewrite lookup_insert_ne by congruence; exact Hr|].
  split; [rewrite lookup_insert_ne, lookup_insert_eq by exact Hi; congruence|]. split; [reflexivity|].
  intros i H1 H2. rewrite !lookup_insert_ne by congruence. reflexivity.
Qed.

Lemma scoped_assign o r l m : scoped (OpAssign o r :: l) (dom (objects m)) (others m) = true -> exists x, objects m !! o = Some x.
Proof.
  cbn [scoped]. rewrite !andb_true_iff, !bool_decide_eq_true. intros [[Ho _] _]. apply elem_of_dom in Ho as [x Hx]. eauto.
Qed.

(** Passing data on: once [r] owns it, and [o] is assigned from [r], [o] owns
    it, whatever else is done before that leaves [r] alone. *)
Lemma run_pass o r y l l' m : memory_ok m -> o <> r -> owns r y m -> untouched l r = true ->
  scoped (l ++ OpAssign o r :: l') (dom (objects m)) (others m) = true ->
  exists m' i, run_ops (l ++ OpAssign o r :: l') m = run_ops l' m' /\ memory_ok m' /\
    scoped l' (dom (objects m')) (others m') = true /\ owns o (mk_raw (data y) (data_len y) i) m'.
Proof.
  intros Hok Hne [Hr Hk] Hu Hs. destruct (run_scoped l _ m Hok Hs) as (m1 & Hrun & Hok1 & Hs1 & Hkeep).
  destruct (Hkeep r y Hu Hr) as [Hr1 Hk1]. destruct (scoped_assign _ _ _ _ Hs1) as [x Hx].
  destruct (assign_moves o r x y m1 Hok1 Hne Hx) as (m2 & E & Hown & _); [split; [exact Hr1 | rewrite Hk1; exact Hk]|].
  destruct (step_run _ _ _ Hok1 Hs1) as (m2' & E' & [Hok2 _] & Hs2). rewrite E in E'. injection E' as <-.
  exists m2, (m_impl x). split; [rewrite Hrun; cbn [run_ops]; rewrite E; reflexivity|]. auto.
Qed.

(** The worker's object: made with a pointer into the package, then given the
    package to keep. *)
Lemma run_worker rd p off n l l' m : memory_ok m -> untouched l rd = true ->
  scoped (OpNew rd (Inside p off) n :: l ++ OpKeep rd p :: l') (dom (objects m)) (others m) = true ->
  exists m' i, run_ops (OpNew rd (Inside p off) n :: l ++ OpKeep rd p :: l') m = run_ops l' m' /\ memory_ok m' /\
    scoped l' (dom (objects m')) (others m') = true /\ owns rd (mk_raw (Inside p off) n i) m'.
Proof.
  intros Hok Hu Hs. destruct (step_run _ _ _ Hok Hs) as (m1 & E & [Hok1 _] & Hs1).
  destruct (run_new rd (Inside p off) n m) as (i & E1 & _). rewrite E1 in E. injection E as E. rewrite E in E1.
  assert (objects m1 !! rd = Some (mk_raw (Inside p off) n i)) as Hrd by (rewrite <- E; apply lookup_insert_eq).
  destruct (run_scoped l _ m1 Hok1 Hs1) as (m2 & Hrun & Hok2 & Hs2 & Hkeep). destruct (Hkeep rd _ Hu Hrd) as [Hrd2 _].
  destruct (step_run _ _ _ Hok2 Hs2) as (m3 & E3 & [Hok3 _] & Hs3). pose proof (run_keep rd p _ m2 Hok2 Hrd2) as E2.
  rewrite E2 in E3. injection E3 as <-. eexists _, i.
  split; [change (run_ops (?a :: ?r) m) with (let! m := run_op a m in run_ops r m); rewrite E1; cbn [outcome_bind]; rewrite Hrun;
          cbn [run_ops]; rewrite E2; reflexivity|].
  split; [exact Hok3|]. split; [exact Hs3|]. split; [exact Hrd2 | apply lookup_insert_eq].
Qed.

(** * Properties *)

(** C20: the data of a synchronous call stays alive.  The worker makes [rd] with
    a pointer into the response's package and gives it the package to keep, the
    blocker's callback assigns it to [m_resp_data], and [wait] assigns that to
    the caller's object.  Whatever the threads do before, between and after
    these steps that leaves the object then in charge alone (the worker ends,
    deletes [rd] and drops its package, the blocker is deleted), the caller's
    object has the response's data in the end, and its package is alive. *)
Theorem response_data_kept m rd m_resp_data resp_data p off n l1 l2 l3 l4
    (Hok : memory_ok m) (Hne1 : m_resp_data <> rd) (Hne2 : resp_data <> m_resp_data)
    (H1 : untouched l1 rd = true) (H2 : untouched l2 rd = true) (H3 : untouched l3 m_resp_data = true) (H4 : untouched l4 resp_data = true)
    (Hs : scoped (OpNew rd (Inside p off) n :: l1 ++ OpKeep rd p :: l2 ++ OpAssign m_resp_data rd :: l3 ++
                  OpAssign resp_data m_resp_data :: l4) (dom (objects m)) (others m) = true) :
  exists m' x,
    run_ops (OpNew rd (Inside p off) n :: l1 ++ OpKeep rd p :: l2 ++ OpAssign m_resp_data rd :: l3 ++
             OpAssign resp_data m_resp_data :: l4) m = Done m' /\
    memory_ok m' /\ objects m' !! resp_data = Some x /\ data x = Inside p off /\ data_len x = n /\ readable x m'.
Proof.
  destruct (run_worker rd p off n l1 _ m Hok H1 Hs) as (m1 & i1 & -> & Hok1 & Hs1 & Hown1).
  destruct (run_pass m_resp_data rd _ l2 _ m1 Hok1 Hne1 Hown1 H2 Hs1) as (m2 & i2 & -> & Hok2 & Hs2 & Hown2).
  destruct (run_pass resp_data m_resp_data _ l3 _ m2 Hok2 Hne2 Hown2 H3 Hs2) as (m3 & i3 & -> & Hok3 & Hs3 & [Hr Hk]).
  rewrite <- (app_nil_r l4) in Hs3 |- *. destruct (run_scoped l4 [] m3 Hok3 Hs3) as (m4 & Hrun & Hok4 & _ & Hkeep).
  destruct (Hkeep _ _ H4 Hr) as [Hr4 Hk4]. exists m4. eexists. split; [apply Hrun|]. split; [exact Hok4|].
  split; [exact Hr4|]. split; [reflexivity|]. split; [reflexivity|]. cbn. right. eexists. rewrite Hk4. exact Hk.
Qed.

(** Assigning from the same object twice is a use after free: the first
    assignment takes the package, the second copies the pointer only.  After
    [a = rd; b = rd], with the package of [rd] kept by nothing else, the end of
    [rd], of the worker's pointer and of [a] frees the bytes [b] points to. *)
Theorem second_copy_dangles m a b rd xa xb y p off
    (Hok : memory_ok m) (Ha : objects m !! a = Some xa) (Hb : objects m !! b = Some xb)
    (Hne : a <> b) (Hna : a <> rd) (Hnb : b <> rd) (Hown : owns rd y m) (Hd : data y = Inside p off)
    (Honly : forall i, keepers m !! i = Some (Some p) -> i = m_impl y) (Hoth : others m = [p]) :
  exists m' x, run_ops [OpAssign a rd; OpAssign b rd; OpDelete rd; OpDrop p; OpDelete a] m = Done m' /\
    objects m' !! b = Some x /\ data x = Inside p off /\ ~ readable x m'.
Proof.
  assert (Hown' := Hown). destruct Hown' as [Hy Hky]. rewrite Hd in Hky.
  pose proof (objects_differ m a rd xa y Hok Ha Hy Hna) as Iay. pose proof (objects_differ m b rd xb y Hok Hb Hy Hnb) as Iby.
  pose proof (objects_differ m a b xa xb Hok Ha Hb Hne) as Iab.
  destruct (assign_moves a rd xa y m Hok Hna Ha Hown) as (m1 & E1 & [Ha1 Hka1] & Hy1 & Hky1 & Ho1 & Hk1).
  pose proof (assign_good a rd xa y m m1 Hok Ha Hy E1) as [Hok1 Hkeep1].
  destruct (Hkeep1 b xb) as [Hb1 _]; [cbn; rewrite !bool_decide_false by congruence; reflexivity | exact Hb |].
  destruct (run_assign b rd xb y m1 Hok1 Hb1 Hy1) as (kb & ky & Hkb & Hky' & E2).
  set (m2 := mk_memory _ _ _ _) in E2. pose proof (assign_good b rd xb y m1 m2 Hok1 Hb1 Hy1 E2) as [Hok2 Hkeep2].
  destruct (Hkeep2 a (mk_raw (data y) (data_len y) (m_impl xa))) as [Ha2 _];
    [cbn; rewrite !bool_decide_false by congruence; reflexivity | exact Ha1 |].
  assert (objects m2 !! rd = Some y) as Hy2 by (cbn; rewrite lookup_insert_ne by congruence; exact Hy1).
  pose proof (run_delete rd y m2 Hok2 Hy2) as E3. set (m3 := mk_memory _ _ _ _) in E3.
  pose proof (delete_good rd y m2 m3 Hok2 Hy2 E3) as [Hok3 _].
  assert (objects m3 !! a = Some (mk_raw (data y) (data_len y) (m_impl xa))) as Ha3 by (cbn; rewrite lookup_delete_ne by congruence; exact Ha2).
  set (m4 := put_others (remove_one p (others m3)) m3).
  assert (memory_ok m4) as Hok4 by (destruct Hok3; split; assumption).
  pose proof (run_delete a _ m4 Hok4 Ha3) as E5. cbn [m_impl] in E5.
  do 2 eexists. split; [cbn [run_ops]; rewrite E1; cbn [outcome_bind]; rewrite E2; cbn [outcome_bind]; rewrite E3; cbn [outcome_bind];
    change (run_op (OpDrop p) m3) with (Done m4); cbn [outcome_bind]; rewrite E5; reflexivity|].
  split; [cbn; rewrite !lookup_delete_ne, lookup_insert_eq by congruence; reflexivity|]. split; [exact Hd|].
  unfold readable. cbn [data]. rewrite Hd. unfold alive. cbn [others keepers put_others m4 m3 m2]. rewrite Ho1, Hoth. cbn [remove_one].
  rewrite Nat.eqb_refl. intros [Hin|[i Hi]]; [apply elem_of_nil in Hin; exact Hin|].
  rewrite !lookup_delete_Some in Hi. destruct Hi as (Ia & Iy & Hi).
  apply lookup_insert_Some in Hi as [[<- Hi]|[Ib Hi]].
  - subst ky. rewrite Hky1 in Hky'. apply Honly in Hky'. congruence.
  - rewrite lookup_insert_ne in Hi by exact Iy. rewrite Hk1 in Hi by congruence. apply Honly in Hi. congruence.
Qed.

(** * Example: the synchronous call of one response, package 9 *)

Definition no_objects (owned : list nat) (n : nat) : memory := mk_memory ∅ owned ∅ n.

Lemma no_objects_ok owned n : memory_ok (no_objects owned n).
Proof.
  split; cbn [no_objects objects keepers]; intros.
  1, 2: match goal with H : ∅ !! _ = Some _ |- _ => rewrite lookup_empty in H; discriminate end.
  all: match goal with H : is_Some _ |- _ => rewrite lookup_empty in H; destruct H; discriminate end.
Qed.

(** The memory after a scoped program. *)
Definition after (l : list raw_op) (m : memory) : memory := match run_ops l m with Done m => m | Stuck _ => m end.

Lemma after_ok l m : memory_ok m -> scoped l (dom (objects m)) (others m) = true -> memory_ok (after l m).
Proof.
  intros Hok Hs. rewrite <- (app_nil_r l) in Hs. destruct (run_scoped l [] m Hok Hs) as (m' & Hrun & Hok' & _).
  unfold after. specialize (Hrun []). rewrite app_nil_r in Hrun. rewrite Hrun. exact Hok'.
Qed.

Definition before_call : memory := after [OpNew "m_resp_data" Null 0; OpNew "resp_data" Null 0; OpShare 9; OpDrop 9] (no_objects [9%nat] 10).

Lemma before_call_ok : memory_ok before_call.
Proof. apply after_ok; [apply no_objects_ok | vm_compute; reflexivity]. Qed.

Lemma response_data_kept_witness : exists m' x,
  run_ops [OpNew "rd" (Inside 9 12) 5; OpKeep "rd" 9; OpAssign "m_resp_data" "rd"; OpDelete "rd"; OpAssign "resp_data" "m_resp_data";
           OpDrop 9; OpDelete "m_resp_data"] before_call = Done m' /\
  memory_ok m' /\ objects m' !! "resp_data"%string = Some x /\ data x = Inside 9 12 /\ data_len x = 5 /\ readable x m'.
Proof.
  apply (response_data_kept before_call "rd" "m_resp_data" "resp_data" 9 12 5 [] [] [OpDelete "rd"] [OpDrop 9; OpDelete "m_resp_data"]).
  - exact before_call_ok.
  - discriminate.
  - discriminate.
  - reflexivity.
  - reflexivity.
  - reflexivity.
  - reflexivity.
  - vm_compute. reflexivity.
Defined.

Definition in_callback : memory :=
  after [OpNew "a" Null 0; OpNew "b" Null 0; OpNew "rd" (Inside 9 12) 5; OpKeep "rd" 9] (no_objects [9%nat] 10).

Lemma in_callback_ok : memory_ok in_callback.
Proof. apply after_ok; [apply no_objects_ok | vm_compute; reflexivity]. Qed.

Lemma second_copy_dangles_witness : exists m' x,
  run_ops [OpAssign "a" "rd"; OpAssign "b" "rd"; OpDelete "rd"; OpDrop 9; OpDelete "a"] in_callback = Done m' /\
  objects m' !! "b"%string = Some x /\ data x = Inside 9 12 /\ ~ readable x m'.
Proof.
  apply (second_copy_dangles in_callback "a" "b" "rd" (mk_raw Null 0 10) (mk_raw Null 0 12) (mk_raw (Inside 9 12) 5 14) 9 12).
  - exact in_callback_ok.
  - vm_compute. reflexivity.
  - vm_compute. reflexivity.
  - discriminate.
  - discriminate.
  - discriminate.
  - split; vm_compute; reflexivity.
  - reflexivity.
  - intros i Hi. change (keepers in_callback) with (<[14%nat := Some 9%nat]> (<[14%nat := Some 15%nat]> (<[12%nat := Some 13%nat]> (<[10%nat := Some 11%nat]> (∅ : gmap nat (option nat)))))) in Hi.
    apply lookup_insert_Some in Hi as [[<- _]|[_ Hi]]; [reflexivity|].
    repeat (apply lookup_insert_Some in Hi as [[_ Hi]|[_ Hi]]; [discriminate|]). rewrite lookup_empty in Hi. discriminate.
  - reflexivity.
Defined.
