(* ===== verification/StatusService.v ===== *)
(** [RpcStatusService] of [server/include/RpcStatusService.h]: the service with
    the one method [get_status], which answers over HTTP with a page of the
    server's counters.

    The page is a function of what the method reads when it is called
    ([server_view]): the server of [ServerImpl], the counters of [Stats], the
    connections of each connection worker. *)
From Stdlib Require Import ZArith Lia Bool List String Ascii Permutation.
From stdpp Require Import base list strings gmap sorting.
From S2P Require Import Prelude Wire Queue Stats SampleCodec RespBroker ThreadPool Service ServerImpl HttpResponse.

(** * Text *)

(** [std::to_string] of an [int], of an unsigned integer ([decimal]), and of a
    [bool]. *)
Definition to_string (z : Z) : bytes := if z <? 0 then bs "-" ++ decimal (- z) else decimal z.
Definition to_string_bool (b : bool) : bytes := if b then bs "1" else bs "0".

(** A line of the page: text, a value, text. *)
Definition item (before : string) (v : bytes) (after : string) : bytes := bs before ++ v ++ bs after.

(** * What the method reads *)

Record server_view := mk_view {
  v_pid : Z;
  v_server : RpcServerImpl;
  v_counters : ServerStatus.counters;
  v_conn_ids : string -> list string;     (* dumpConnIDs of the worker of that name *)
  v_conn_num : Z;                         (* GetConnCount() *)
  v_response_q : Queue response_pkg       (* the server's m_response_q *)
}.

(** The order in which [std::map] is traversed. *)
Definition key_le {A} (x y : string * A) : Prop := String.leb x.1 y.1 = true.
#[export] Instance key_le_dec {A} (x y : string * A) : Decision (key_le x y).
Proof. unfold key_le. apply _. Defined.
Definition in_key_order {A} (m : gmap string A) : list (string * A) := merge_sort key_le (map_to_list m).

Section Status.
(** The order in which the [unordered_map] of methods is traversed. *)
Variable traverse : IServiceImpl -> list (string * RpcMethod).

(** * The page *)

Definition conn_worker_lines (v : server_view) (t : conn_thread) : bytes :=
  item "&nbsp;&nbsp;conn worker:" (bs (ct_name t)) "</br>" ++
  concat (map (fun id => item "&nbsp;&nbsp;&nbsp;conn id:" (bs id) "</br>") (v_conn_ids v (ct_name t))).

(** The server's lines; [qsize] is [getTaskQSize()]. *)
Definition server_lines (v : server_view) (qsize : Z) : bytes :=
  let s := v_server v in let c := v_counters v in
  bs "<html><body><h1>Server Status:<h1>" ++
  item "<h3>Pid:" (to_string (v_pid v)) "</h3>" ++
  item "<h3>Running:" (to_string_bool (negb (m_stop s))) "</h3>" ++
  item "<h3>Worker num:" (decimal (getThreadNum (m_cfg s))) "</h3>" ++
  item "<h3>Conn Worker num:" (decimal (zlen (m_rpcconnworker s))) "</h3>" ++
  item "<h3>Max conn limit:" (decimal (m_max_conn_num (m_cfg s))) "</h3>" ++
  item "<h3>Rejected conn num:" (decimal (ServerStatus.rejected_conn c)) "</h3>" ++
  concat (map (conn_worker_lines v) (m_rpcconnworker s)) ++
  item "<h3>Current conn num:" (decimal (v_conn_num v)) "</h3>" ++
  item "<h3>Req Q size:" (decimal qsize) "</h3>" ++
  item "<h3>Req InQueue fail num:" (decimal (ServerStatus.req_inqueue_fail c)) "</h3>" ++
  item "<h3>Resp Q size:" (decimal (size (v_response_q v))) "</h3>" ++
  item "<h3>Resp InQueue fail num:" (decimal (ServerStatus.resp_inqueue_fail c)) "</h3>" ++
  item "<h3>Total Req num:" (decimal (ServerStatus.total_req_num c)) "</h3>" ++
  item "<h3>Total Resp num:" (decimal (ServerStatus.total_resp_num c)) "</h3>" ++
  item "<h3>Total Call num:" (decimal (ServerStatus.total_call_num c)) "</h3>" ++
  item "<h3>Avg Req wait time:" (decimal (ServerStatus.avg_req_wait_time c)) "ms</h3>" ++
  item "<h3>Avg Resp wait time:" (decimal (ServerStatus.avg_resp_wait_time c)) "ms</h3>" ++
  item "<h3>Avg Call time:" (decimal (ServerStatus.avg_call_time c)) "ms</h3>" ++
  item "<h3>Longest Call time:" (decimal (ServerStatus.max_call_time c)) "ms</h3>" ++
  item "<h3>Rpc listening on port:" (to_string (m_port (m_cfg s)) ++ bs " fd:" ++ to_string (m_rpclisten s)) "</h3>" ++
  bs "<h1>Service Status</h1>".

(** The lines of a method; its [m_status] is never null here. *)
Definition method_lines (m : string * RpcMethod) : bytes :=
  let st := m_status m.2 in
  item "<h3>&nbsp;&nbsp;method name:" (bs m.1) "</h3>" ++
  if MethodStatus.enabled st then
    item "&nbsp;&nbsp;&nbsp;&nbsp;Total Call num:" (decimal (MethodStatus.total_call_nums st)) "</br>" ++
    item "&nbsp;&nbsp;&nbsp;&nbsp;Timeout Call num:" (decimal (MethodStatus.timeout_call_nums st)) "</br>" ++
    item "&nbsp;&nbsp;&nbsp;&nbsp;Avg Call time:" (decimal (MethodStatus.avg_call_time st)) "ms</br>" ++
    item "&nbsp;&nbsp;&nbsp;&nbsp;Longest Call time:" (decimal (MethodStatus.longest_call_time st)) "ms</br>" ++
    item "&nbsp;&nbsp;&nbsp;&nbsp;Call from http num:" (decimal (MethodStatus.call_from_http_num st)) "</br>"
  else bs "&nbsp;&nbsp;&nbsp;&nbsp;Method statistic disabled</br>".

(** The lines of a service: [pSrv->m_impl] of a null pointer is undefined. *)
Definition service_lines (srv : string * ServiceBlock) : outcome bytes :=
  let! s := need NullPointer (pSrv srv.2) in
  Done (item "<h2>&nbsp;service name:" (bs srv.1) "</h2>" ++ concat (map method_lines (traverse s))).

Fixpoint all_service_lines (l : list (string * ServiceBlock)) : outcome bytes :=
  match l with
  | [] => Done []
  | srv :: l => let! a := service_lines srv in let! b := all_service_lines l in Done (a ++ b)
  end.

(** The page: the pool may have been deleted, and [real_workers[0]] must
    exist. *)
Definition status_page (v : server_view) : outcome bytes :=
  let! pool := need UseAfterFree (m_worker_thread_pool (v_server v)) in
  let! worker := need OutOfBounds (m_workers (v_server v) !! 0%nat) in
  let! services := all_service_lines (in_key_order (m_srvmap worker)) in
  Done (server_lines v (getTaskQSize pool) ++ services ++ bs "</br>" ++ bs "</body></html>").

(** * The service *)

Context `{MessageCodec RpcInnerResp}.

(** [get_status], called when the server is as [v] says. *)
Definition get_status (v : server_view) : RPC_FUNC_T := fun _ b =>
  let! resp_data := if isFromHttp b then status_page v else Done [] in
  let! (_, b) := allocRespBufFrom_string resp_data b in
  Done (RPC_SERVER_OK, b, []).

(** [RpcStatusService(server)]: the statistics of its method are not shown. *)
Definition disable (st : MethodStatus.RpcMethodStatus) : MethodStatus.RpcMethodStatus :=
  {| MethodStatus.enabled := false; MethodStatus.total_call_nums := MethodStatus.total_call_nums st;
     MethodStatus.timeout_call_nums := MethodStatus.timeout_call_nums st; MethodStatus.avg_call_time := MethodStatus.avg_call_time st;
     MethodStatus.longest_call_time := MethodStatus.longest_call_time st;
     MethodStatus.call_from_http_num := MethodStatus.call_from_http_num st |}.

Definition RpcStatusService (v : server_view) : IServiceImpl :=
  alter (fun m => Service.mk_method (m_func m) (disable (m_status m)) (m_allow_http m)) "get_status"%string
    (add_method "get_status" (get_status v) true ∅).

(** * Lemmas *)

(** [x] is a part of [l]. *)
Definition part_of (x l : bytes) : Prop := exists a b, l = a ++ x ++ b.

Lemma part_refl x : part_of x x.
Proof. exists [], []. rewrite app_nil_r. reflexivity. Qed.
Lemma part_app_l x l l' : part_of x l -> part_of x (l ++ l').
Proof. intros (a & b & ->). exists a, (b ++ l'). rewrite !app_assoc. reflexivity. Qed.
Lemma part_app_r x l l' : part_of x l' -> part_of x (l ++ l').
Proof. intros (a & b & ->). exists (l ++ a), b. rewrite app_assoc. reflexivity. Qed.
Lemma part_concat x y l : part_of x y -> y ∈ l -> part_of x (concat l).
Proof.
  intros Hx. induction l as [|z l IH]; intros Hy; [apply elem_of_nil in Hy; contradiction|].
  apply elem_of_cons in Hy as [<-|Hy]; cbn [concat]; [apply part_app_l, Hx | apply part_app_r, IH, Hy].
Qed.

Lemma in_key_order_elem {A} (m : gmap string A) k x : (k, x) ∈ in_key_order m <-> m !! k = Some x.
Proof. unfold in_key_order. rewrite merge_sort_Permutation. apply elem_of_map_to_list. Qed.

(** With no null service every section is made, and is in the page. *)
Lemma all_service_lines_done l : (forall srv, srv ∈ l -> pSrv srv.2 <> None) ->
  exists page, all_service_lines l = Done page /\
    forall srv a, srv ∈ l -> service_lines srv = Done a -> part_of a page.
Proof.
  induction l as [|srv l IH]; intros Hl; [exists []; split; [reflexivity | intros srv a Hs; apply elem_of_nil in Hs; contradiction]|].
  destruct IH as (page & E & Hp); [intros x Hx; apply Hl, list_elem_of_further, Hx|]. cbn [all_service_lines].
  assert (exists a, service_lines srv = Done a) as [a Ha].
  { unfold service_lines. specialize (Hl srv (list_elem_of_here _ _)). destruct (pSrv srv.2); [eexists; reflexivity | contradiction]. }
  rewrite Ha, E. exists (a ++ page). split; [reflexivity|]. intros srv' a' Hin Ha'. apply elem_of_cons in Hin as [->|Hin].
  - replace a' with a by congruence. apply part_app_l, part_refl.
  - apply part_app_r. exact (Hp srv' a' Hin Ha').
Qed.

(** * Property *)

Hypothesis traverse_all : forall s, traverse s ≡ₚ map_to_list s.

(** the status page.  On a server with its pool and a worker whose services
    are not null, [get_status] has a page to answer with; called over HTTP it
    answers with that page as a response of status 200; and the page shows, for
    every method of every service of the first worker, its section with its
    counters as they are. *)
Theorem get_status_answers v pool worker
    (Hpool : m_worker_thread_pool (v_server v) = Some pool) (Hworker : m_workers (v_server v) !! 0%nat = Some worker)
    (Hservices : forall name blk, m_srvmap worker !! name = Some blk -> pSrv blk <> None) :
  exists page, status_page v = Done page /\
    (forall d b, m_from_http b = true -> zlen (setupHttpHdr 200 (zlen page) ++ page) < 2 ^ 32 ->
       get_status v d b = Done (RPC_SERVER_OK, http_filled 200 page b, [])) /\
    forall service s own name m,
      m_srvmap worker !! service = Some {| pSrv := Some s; owner := own |} -> s !! name = Some m ->
      part_of (method_lines (name, m)) page.
Proof.
  destruct (all_service_lines_done (in_key_order (m_srvmap worker))) as (lines & Hlines & Hin).
  { intros [name blk] Hb%in_key_order_elem. exact (Hservices name blk Hb). }
  assert (status_page v = Done (server_lines v (getTaskQSize pool) ++ lines ++ bs "</br>" ++ bs "</body></html>")) as Hpage.
  { unfold status_page. rewrite Hpool, Hworker. cbn [need outcome_bind]. rewrite Hlines. reflexivity. }
  eexists. split; [exact Hpage|]. split.
  - intros d b Hhttp Hlen. unfold get_status, allocRespBufFrom_string, isFromHttp. rewrite Hhttp, Hpage. cbn [outcome_bind].
    rewrite allocHttpResp_spec by exact Hlen. reflexivity.
  - intros service s own name m Hs Hm. apply part_app_r, part_app_l.
    refine (_ (Hin (service, {| pSrv := Some s; owner := own |}) _ (proj2 (in_key_order_elem _ _ _) Hs) eq_refl)).
    intros (a & b & ->). apply part_app_r, part_app_l, part_app_r. apply (part_concat _ (method_lines (name, m))); [apply part_refl|].
    apply list_elem_of_fmap. exists (name, m). split; [reflexivity|]. rewrite traverse_all. apply elem_of_map_to_list, Hm.
Qed.
End Status.

(** * Example: a server with one worker and the service that adds *)
Definition shown_service : IServiceImpl := <["add"%string := new_method (fun _ b => Done (RPC_SERVER_OK, b, [])) true]> ∅.
Definition shown_server : RpcServerImpl :=
  server_addService "calc" (Some shown_service)
    (new_server (fun _ => "0"%string) (RpcStatusService map_to_list (mk_view 1 (new_server (fun _ => "0"%string) ∅ (new_config 1 "h" 80)) ServerStatus.new_counters (fun _ => []) 0 default_Queue))
       (new_config 1 "h" 80)).
Definition shown_view : server_view := mk_view 7 shown_server ServerStatus.new_counters (fun _ => ["c1"%string]) 1 default_Queue.
Definition shown_worker : RpcWorker :=
  match m_workers shown_server !! 0%nat with Some w => w | None => Service.mk_worker ∅ ServerStatus.new_counters end.
Definition shown_pool : ThreadPool (T:=request_pkg) := ThreadPool.setTaskQSize (10 * 1024 * 1024) (new_pool 1).

Lemma shown_services name blk : m_srvmap shown_worker !! name = Some blk -> pSrv blk <> None.
Proof.
  assert (map_Forall (fun _ blk => is_Some (pSrv blk)) (m_srvmap shown_worker)) as Hall
    by (refine (bool_decide_unpack _ _); vm_compute; exact I).
  intros Hb. destruct (Hall name blk Hb) as [s Hs]. congruence.
Qed.

Lemma get_status_answers_witness :
  exists page, status_page map_to_list shown_view = Done page /\
    (forall d b, m_from_http b = true -> zlen (setupHttpHdr 200 (zlen page) ++ page) < 2 ^ 32 ->
       get_status map_to_list shown_view d b = Done (RPC_SERVER_OK, http_filled 200 page b, [])) /\
    forall service s own name m,
      m_srvmap shown_worker !! service = Some {| pSrv := Some s; owner := own |} -> s !! name = Some m ->
      part_of (method_lines (name, m)) page.
Proof.
  apply (get_status_answers map_to_list (fun s => reflexivity (map_to_list s)) shown_view shown_pool shown_worker).
  - vm_compute. reflexivity.
  - reflexivity.
  - exact shown_services.
Defined.
