(* ===== verification/Objects.v ===== *)
(** The objects the server makes with [new] and gives back with [delete]: a heap
    of typed objects, and on it the services of [IService.cpp], [IServiceImpl.h]
    and [RpcMethod.cpp] as the objects that point to each other they are in the
    code.  [Service] has the same services as values; here every operation on
    the objects is shown to do what its counterpart on the values does.

    An operation gets the heap and returns the new one; the use of an object
    that is not there is [UseAfterFree].  A heap is described by the list of its
    objects ([holds]), in any order, so that what an operation does not touch
    stays as the rest of the list. *)
From Stdlib Require Import ZArith Lia Bool List String Ascii.
From stdpp Require Import base list strings gmap infinite list_tactics.
From S2P Require Import Prelude Wire Stats RespBroker Service.

(** * Objects *)

Notation addr := nat (only parsing).

(** A method of a service; [m_status] is a pointer. *)
Record RpcMethod := mk_method { m_func : RPC_FUNC_T; m_status : option addr; m_allow_http : bool }.

(** A service a worker knows; [pSrv] is a pointer. *)
Record ServiceBlock := mk_block { pSrv : option addr; owner : bool }.

Inductive ConnType := RPC_CONN | HTTP_CONN.

Inductive object :=
| a_lock                                                                    (* SpinLock *)
| a_status (counts : MethodStatus.RpcMethodStatus) (m_stat_lock : addr)     (* RpcMethodStatus *)
| an_impl (m_method_map : gmap string RpcMethod)                            (* IServiceImpl *)
| a_service (m_impl : addr)                                                 (* IService *)
| a_worker (m_srvmap : gmap string ServiceBlock)                            (* RpcWorker *)
| a_thread                                                                  (* std::thread *)
| a_pool_worker (m_stop : bool) (m_thread m_real_worker : addr)             (* ThreadPool::Worker *)
| a_pool (m_worker_threads : list addr)                                     (* ThreadPool *)
| a_package (data : addr)                                                   (* request_pkg, response_pkg *)
| a_buffer                                                                  (* char[] *)
| a_parser                                                                  (* http_parser *)
| a_conn (m_seqid : string) (m_fd : Z) (m_rpk m_http_parser m_eps : option addr)   (* RpcServerConn *)
| an_eps (fd : Z) (ptr : option addr)                                       (* EpollStruct *)
| a_conn_worker (m_stop : bool) (m_conn_type : ConnType) (m_conn_set : gmap string addr)
| a_server (m_stop : bool) (m_statusSrv m_worker_thread_pool : addr) (m_rpcconnworker m_httpconnworker : list addr)
| a_facade (m_server_impl : addr)                                           (* RpcServer *)
| a_client_worker                                                           (* RpcClientWorker *)
| a_client_conn (m_fd : Z) (in_package : bool) (m_rpk : option addr)        (* RpcClientConn; m_cur_pkg_size is not 0 *)
| a_looper (m_ep_conn_map : gmap (string * Z) addr) (m_thread_pool : addr)  (* RpcEventLooper *)
| a_client (m_ev : addr) (m_thread_vec : list addr).                        (* RpcClient *)

(** * The heap *)

Notation heap := (gmap addr object) (only parsing).

(** [operator new]: where a new object goes, a place nothing else has. *)
Class Allocator := malloc : heap -> addr.
Class AllocatorLaw `{Allocator} : Prop := malloc_fresh : forall h : heap, h !! malloc h = None.

(** One that takes the place above all others. *)
#[export] Instance above_all : Allocator := fun h => S (max_list (map_to_list h).*1).
#[export] Instance above_all_law : AllocatorLaw.
Proof.
  intros h. destruct (h !! malloc h) as [o|] eqn:E; [|reflexivity]. apply elem_of_map_to_list in E.
  apply (list_elem_of_fmap_2 fst) in E. apply max_list_elem_of_le in E. unfold malloc, above_all in E. cbn in E. lia.
Qed.

Definition run_delete {A} (del : A -> heap -> outcome heap) (o : option A) (h : heap) : outcome heap :=
  match o with Some p => del p h | None => Done h end.

(** The end of an object: its memory is given back. *)
Definition free (p : addr) (h : heap) : outcome heap :=
  match h !! p with Some _ => Done (delete p h) | None => Stuck UseAfterFree end.

(** One [delete] after the other. *)
Fixpoint each {A} (f : A -> heap -> outcome heap) (l : list A) (h : heap) : outcome heap :=
  match l with [] => Done h | x :: l => let! h := f x h in each f l h end.

(** The object behind a pointer, as the type its pointer has. *)
Definition status_at (p : addr) (h : heap) : outcome (MethodStatus.RpcMethodStatus * addr) :=
  match h !! p with Some (a_status c k) => Done (c, k) | _ => Stuck UseAfterFree end.
Definition impl_at (p : addr) (h : heap) : outcome (gmap string RpcMethod) :=
  match h !! p with Some (an_impl m) => Done m | _ => Stuck UseAfterFree end.
Definition service_at (p : addr) (h : heap) : outcome addr :=
  match h !! p with Some (a_service i) => Done i | _ => Stuck UseAfterFree end.
Definition lock_at (p : addr) (h : heap) : outcome unit :=
  match h !! p with Some a_lock => Done tt | _ => Stuck UseAfterFree end.

Section Operations.
Context `{Allocator}.

Definition new_obj (o : object) (h : heap) : addr * heap := (malloc h, <[malloc h := o]> h).

(** ** [RpcMethodStatus] *)

(** [new RpcMethodStatus()] *)
Definition new_status (h : heap) : addr * heap :=
  let (lock, h) := new_obj a_lock h in
  new_obj (a_status MethodStatus.new_status lock) h.

(** [~RpcMethodStatus] and the end of its memory. *)
Definition delete_status (p : addr) (h : heap) : outcome heap :=
  let! (_, lock) := status_at p h in
  let! h := free lock h in
  free p h.

(** [calcCallTime], under its lock. *)
Definition calcCallTime (p : addr) (call_time : Z) (h : heap) : outcome heap :=
  let! (c, lock) := status_at p h in
  let! _ := lock_at lock h in
  Done (<[p := a_status (MethodStatus.calcCallTime call_time c) lock]> h).

(** [++(method_status->timeout_call_nums)] *)
Definition count_timeout (p : addr) (h : heap) : outcome heap :=
  let! (c, lock) := status_at p h in
  Done (<[p := a_status (MethodStatus.count_timeout c) lock]> h).

(** ** [RpcMethod] *)

Definition new_method (func : RPC_FUNC_T) (allow_http : bool) (h : heap) : RpcMethod * heap :=
  let (st, h) := new_status h in (mk_method func (Some st) allow_http, h).

(** [~RpcMethod]; deleting a null pointer does nothing. *)
Definition drop_method (m : RpcMethod) (h : heap) : outcome heap := run_delete delete_status (m_status m) h.

(** [RpcMethod(RpcMethod &&m)]: the new method, and what is left of [m]. *)
Definition move_method (m : RpcMethod) : RpcMethod * RpcMethod :=
  (mk_method (m_func m) (m_status m) (m_allow_http m), mk_method (m_func m) None (m_allow_http m)).

(** [RpcMethod(const RpcMethod &m)] *)
Definition copy_method (m : RpcMethod) : RpcMethod := mk_method (m_func m) (m_status m) (m_allow_http m).

(** ** [IServiceImpl] and [IService] *)

(** [IServiceImpl::add_method]: [emplace] moves the temporary method into a node
    of the map, which it drops again when the name is taken; the temporary is
    dropped in any case. *)
Definition add_method (impl : addr) (name : string) (func : RPC_FUNC_T) (allow_http : bool) (h : heap) : outcome heap :=
  let (temp, h) := new_method func allow_http h in
  let (node, temp) := move_method temp in
  let! methods := impl_at impl h in
  let! h := match methods !! name with
            | Some _ => drop_method node h
            | None => Done (<[impl := an_impl (<[name := node]> methods)]> h)
            end in
  drop_method temp h.

(** The end of an [IServiceImpl], the methods of its map first. *)
Definition delete_impl (p : addr) (h : heap) : outcome heap :=
  let! methods := impl_at p h in
  let! h := each drop_method (map_to_list methods).*2 h in
  free p h.

(** [new IService()], for the base of any service. *)
Definition new_service (h : heap) : addr * heap :=
  let (impl, h) := new_obj (an_impl ∅) h in
  new_obj (a_service impl) h.

(** [~IService] *)
Definition delete_service (p : addr) (h : heap) : outcome heap :=
  let! impl := service_at p h in
  let! h := delete_impl impl h in
  free p h.

(** [IService::add_method] *)
Definition service_add_method (p : addr) (name : string) (func : RPC_FUNC_T) (allow_http : bool) (h : heap) : outcome heap :=
  let! impl := service_at p h in
  add_method impl name func allow_http h.

(** [find] of [runMethod] and of [is_method_allow_http]. *)
Definition find_method (p : addr) (name : string) (h : heap) : outcome (option RpcMethod) :=
  let! impl := service_at p h in
  let! methods := impl_at impl h in
  Done (methods !! name).

(** What [RpcWorker::run] does to a service for a call of [during]
    milliseconds, whose client may have given up: nothing for an unknown name. *)
Definition count_call (p : addr) (name : string) (during : Z) (timed_out : bool) (h : heap) : outcome heap :=
  let! m := find_method p name h in
  match m with
  | None => Done h
  | Some m =>
      let! st := need NullPointer (m_status m) in
      let! h := calcCallTime st during h in
      if timed_out then count_timeout st h else Done h
  end.
End Operations.

(** What the owner of a service and its callers do to it. *)
Inductive service_op :=
| AddMethod (name : string) (func : RPC_FUNC_T) (allow_http : bool)
| CallMethod (name : string) (during : Z) (timed_out : bool).

Definition run_op `{Allocator} (p : addr) (o : service_op) (h : heap) : outcome heap :=
  match o with
  | AddMethod name func allow_http => service_add_method p name func allow_http h
  | CallMethod name during timed_out => count_call p name during timed_out h
  end.

(** The same on the value of the service. *)
Definition counted (during : Z) (timed_out : bool) (c : MethodStatus.RpcMethodStatus) : MethodStatus.RpcMethodStatus :=
  let c := MethodStatus.calcCallTime during c in
  if timed_out then MethodStatus.count_timeout c else c.

Definition value_op (s : IServiceImpl) (o : service_op) : IServiceImpl :=
  match o with
  | AddMethod name func allow_http => Service.add_method name func allow_http s
  | CallMethod name during timed_out =>
      match s !! name with
      | Some m => <[name := Service.mk_method (Service.m_func m) (counted during timed_out (Service.m_status m)) (Service.m_allow_http m)]> s
      | None => s
      end
  end.

(** The service at a place of the heap, as the value it is in [Service]. *)
Definition read_method (h : heap) (m : RpcMethod) : option Service.RpcMethod :=
  st ← m_status m;
  match h !! st with
  | Some (a_status c _) => Some (Service.mk_method (m_func m) c (m_allow_http m))
  | _ => None
  end.

Definition read_service (p : addr) (h : heap) : outcome IServiceImpl :=
  let! impl := service_at p h in
  let! methods := impl_at impl h in
  Done (omap (read_method h) methods).

(** * What a heap holds *)

(** The objects of the heap are those of the list, each at its own place. *)
Definition holds (h : heap) (l : list (addr * object)) : Prop := NoDup l.*1 /\ h = list_to_map l.

Notation "h ⊨ l" := (holds h l) (at level 70, no associativity) : rpc_scope.

#[export] Instance holds_Proper : Proper (eq ==> Permutation ==> iff) holds.
Proof.
  intros h ? <- l l' Hl. unfold holds. split; intros [Hn ->]; (split; [by rewrite <- Hl || rewrite Hl|]).
  - exact (list_to_map_proper l l' Hn Hl).
  - symmetry in Hl. exact (list_to_map_proper l' l Hn Hl).
Qed.

Lemma holds_perm h l l' : h ⊨ l -> l ≡ₚ l' -> h ⊨ l'.
Proof. intros Hh <-. exact Hh. Qed.

(** [held H l]: the heap of [H] also holds the list [l], a permutation. *)
Ltac held_by H l tac := apply (fun Hl e => holds_perm _ _ l Hl e) in H; [|solve [tac]].
Ltac held H l := held_by H l solve_Permutation.

Lemma holds_lookup h p o l : h ⊨ (p, o) :: l -> h !! p = Some o.
Proof. intros [_ ->]. apply lookup_insert_eq. Qed.

Lemma holds_elem h p o l : h ⊨ l -> (p, o) ∈ l -> h !! p = Some o.
Proof. intros [Hn ->] He. exact (elem_of_list_to_map_1 l p o Hn He). Qed.

Lemma holds_free h p o l : h ⊨ (p, o) :: l -> exists h', free p h = Done h' /\ h' ⊨ l.
Proof.
  intros Hh. unfold free. rewrite (holds_lookup _ _ _ _ Hh). eexists. split; [reflexivity|].
  destruct Hh as [Hn ->]. cbn in Hn. apply NoDup_cons in Hn as [Hp Hn]. split; [exact Hn|]. cbn.
  apply delete_insert_id. exact (not_elem_of_list_to_map_1 l p Hp).
Qed.

Lemma holds_store h p o o' l : h ⊨ (p, o) :: l -> <[p := o']> h ⊨ (p, o') :: l.
Proof. intros [Hn ->]. split; [exact Hn|]. cbn. apply insert_insert_eq. Qed.

(** What is no longer in the description is no longer in the heap. *)
Lemma holds_gone h h' p o l k : h ⊨ (p, o) :: l ++ k -> h' ⊨ k -> h' !! p = None.
Proof.
  intros [Hn _] [_ ->]. cbn in Hn. apply NoDup_cons in Hn as [Hp _]. rewrite fmap_app, elem_of_app in Hp.
  apply not_elem_of_list_to_map_1. tauto.
Qed.

Lemma holds_apart h h' p o l k : h ⊨ (p, o) :: l -> h' ⊨ k -> k.*1 ⊆ l.*1 -> h' !! p = None.
Proof.
  intros [Hn _] [_ ->] Hk. cbn in Hn. apply NoDup_cons in Hn as [Hp _]. apply not_elem_of_list_to_map_1. intros Hin. exact (Hp (Hk p Hin)).
Qed.

(** A heap that holds the objects of two lists is one of the two. *)
Lemma holds_unique h h' l : h ⊨ l -> h' ⊨ l -> h = h'.
Proof. intros [_ ->] [_ ->]. reflexivity. Qed.

Lemma holds_self h : h ⊨ map_to_list h.
Proof. split; [apply NoDup_fst_map_to_list|]. symmetry. apply list_to_map_to_list. Qed.

(** A heap that holds more than another. *)
Lemma holds_more h h' l : h' ⊨ l ++ map_to_list h ->
  h ⊆ h' /\ (forall p, is_Some (h' !! p) <-> p ∈ l.*1 \/ is_Some (h !! p)) /\ (forall p, p ∈ l.*1 -> h !! p = None).
Proof.
  intros [Hn ->]. rewrite fmap_app in Hn. apply NoDup_app in Hn as (Hl & Hd & Hm). rewrite list_to_map_app, list_to_map_to_list.
  assert (Hnone : forall p, p ∈ l.*1 -> h !! p = None).
  { intros p Hp. destruct (h !! p) as [o|] eqn:E; [|reflexivity]. destruct (Hd p Hp). apply list_elem_of_fmap. exists (p, o).
    split; [reflexivity | by apply elem_of_map_to_list]. }
  assert (Hdisj : list_to_map l ##ₘ h).
  { apply map_disjoint_spec. intros p o o' Ho Ho'. apply elem_of_list_to_map_2 in Ho. rewrite (Hnone p) in Ho'; [discriminate|].
    apply list_elem_of_fmap. by exists (p, o). }
  split; [by apply map_union_subseteq_r|]. split; [|exact Hnone]. intros p. rewrite lookup_union_is_Some.
  assert (is_Some (list_to_map (M := gmap nat object) l !! p) <-> p ∈ l.*1) as ->; [|reflexivity].
  rewrite <- not_eq_None_Some, <- not_elem_of_list_to_map. split; [|tauto]. intros Hp. by apply dec_stable in Hp.
Qed.

(** One operation for each of a list of things, which keeps every thing, or
    ends it. *)
Lemma each_holds {A B} (f : B -> heap -> outcome heap) (at_ : A -> B) (cells cells' : A -> list (addr * object)) xs :
  (forall x h l, x ∈ xs -> h ⊨ cells x ++ l -> exists h', f (at_ x) h = Done h' /\ h' ⊨ cells' x ++ l) ->
  forall h l, h ⊨ flat_map cells xs ++ l -> exists h', each f (map at_ xs) h = Done h' /\ h' ⊨ flat_map cells' xs ++ l.
Proof.
  induction xs as [|x xs IH]; intros Hf h l Hh; [eexists; split; [reflexivity | exact Hh]|]. cbn [flat_map map each] in Hh |- *.
  rewrite <- app_assoc in Hh. destruct (Hf x h _ (list_elem_of_here x xs) Hh) as (h1 & -> & H1). cbn [outcome_bind].
  held H1 (flat_map cells xs ++ cells' x ++ l).
  destruct (IH (fun y h l Hy => Hf y h l (list_elem_of_further y x xs Hy)) h1 _ H1) as (h2 & -> & H2).
  eexists. split; [reflexivity|]. refine (holds_perm _ _ _ H2 _). solve_Permutation.
Qed.

Lemma each_gone {A B} (f : B -> heap -> outcome heap) (at_ : A -> B) (cells : A -> list (addr * object)) xs :
  (forall h x l, h ⊨ cells x ++ l -> exists h', f (at_ x) h = Done h' /\ h' ⊨ l) ->
  forall h l, h ⊨ flat_map cells xs ++ l -> exists h', each f (map at_ xs) h = Done h' /\ h' ⊨ l.
Proof.
  intros Hf h l Hh. destruct (each_holds f at_ cells (fun _ => []) xs (fun x h l _ => Hf h x l) h l Hh) as (h' & Hr & H').
  exists h'. split; [exact Hr|]. replace (flat_map (fun _ : A => []) xs ++ l) with l in H'; [exact H'|]. clear. by induction xs.
Qed.

Lemma each_app {A} (f : A -> heap -> outcome heap) a b : forall h, each f (a ++ b) h = let! h := each f a h in each f b h.
Proof. induction a as [|x a IH]; intros h; [reflexivity|]. cbn [app each]. destruct (f x h); cbn [outcome_bind]; [apply IH | reflexivity]. Qed.

(** A thing of a list, by its place on the heap. *)
Lemma pick_addr {A} (at_ : A -> addr) p xs : p ∈ map at_ xs -> exists pre x post, xs = pre ++ x :: post /\ at_ x = p.
Proof.
  intros Hp. apply list_elem_of_In, in_map_iff in Hp as (x & <- & Hx). apply in_split in Hx as (pre & post & ->). eauto.
Qed.

Lemma flat_map_pick {A B} (f : A -> list B) pre x post : flat_map f (pre ++ x :: post) ≡ₚ f x ++ flat_map f (pre ++ post).
Proof. rewrite !flat_map_app. cbn. solve_Permutation. Qed.

Section Allocation.
Context `{AllocatorLaw}.

Lemma holds_new h o l p h' : h ⊨ l -> new_obj o h = (p, h') -> h' ⊨ (p, o) :: l.
Proof.
  intros [Hn ->] [= <- <-]. split; [|reflexivity]. cbn. apply NoDup_cons. split; [|exact Hn].
  apply not_elem_of_list_to_map_2, malloc_fresh.
Qed.
End Allocation.

(** A lookup that the description of the heap answers. *)
Ltac look H := erewrite (holds_elem _ _ _ _ H) by (rewrite ?elem_of_app, ?elem_of_cons; tauto).

(** * Services *)

(** A method with the objects behind it, and its value. *)
Record method_rep := { mr_value : Service.RpcMethod; mr_status : addr; mr_lock : addr }.

Definition method_cells (r : method_rep) : list (addr * object) :=
  [(mr_status r, a_status (Service.m_status (mr_value r)) (mr_lock r)); (mr_lock r, a_lock)].

Definition method_at (r : method_rep) : RpcMethod :=
  mk_method (Service.m_func (mr_value r)) (Some (mr_status r)) (Service.m_allow_http (mr_value r)).

Definition methods_cells (ms : gmap string method_rep) : list (addr * object) :=
  flat_map method_cells (map_to_list ms).*2.

(** A service with the objects behind it. *)
Record service_rep := { sr_addr : addr; sr_impl : addr; sr_methods : gmap string method_rep }.

Definition service_cells (r : service_rep) : list (addr * object) :=
  (sr_addr r, a_service (sr_impl r)) :: (sr_impl r, an_impl (method_at <$> sr_methods r)) :: methods_cells (sr_methods r).

(** The service as the value it is in [Service]. *)
Definition service_value (r : service_rep) : IServiceImpl := mr_value <$> sr_methods r.

Lemma methods_cells_insert ms name r : ms !! name = None -> methods_cells (<[name := r]> ms) ≡ₚ method_cells r ++ methods_cells ms.
Proof. intros Hn. unfold methods_cells. rewrite (map_to_list_insert ms name r Hn). reflexivity. Qed.

Lemma methods_cells_lookup ms name r :
  ms !! name = Some r -> methods_cells ms ≡ₚ method_cells r ++ methods_cells (delete name ms).
Proof. intros Hn. rewrite <- (methods_cells_insert (delete name ms)) by apply lookup_delete_eq. by rewrite insert_delete_id. Qed.

Lemma service_value_lookup r name : service_value r !! name = mr_value <$> sr_methods r !! name.
Proof. apply lookup_fmap. Qed.

Section Services.
Context `{AllocatorLaw}.

Lemma new_status_holds h l : h ⊨ l ->
  exists p k h', new_status h = (p, h') /\ h' ⊨ (p, a_status MethodStatus.new_status k) :: (k, a_lock) :: l.
Proof.
  intros Hh. unfold new_status. destruct (new_obj a_lock h) as [k h1] eqn:E1.
  destruct (new_obj (a_status _ k) h1) as [p h2] eqn:E2. exists p, k, h2. split; [reflexivity|].
  exact (holds_new _ _ _ _ _ (holds_new _ _ _ _ _ Hh E1) E2).
Qed.

Lemma delete_status_holds h p c k l : h ⊨ (p, a_status c k) :: (k, a_lock) :: l -> exists h', delete_status p h = Done h' /\ h' ⊨ l.
Proof.
  intros Hh. unfold delete_status, status_at. rewrite (holds_lookup _ _ _ _ Hh). cbn [outcome_bind].
  held Hh ((k, a_lock) :: (p, a_status c k) :: l). destruct (holds_free _ _ _ _ Hh) as (h1 & -> & H1). cbn [outcome_bind].
  exact (holds_free _ _ _ _ H1).
Qed.

Lemma drop_method_holds h r l : h ⊨ method_cells r ++ l -> exists h', drop_method (method_at r) h = Done h' /\ h' ⊨ l.
Proof. apply delete_status_holds. Qed.

Lemma new_service_holds h l : h ⊨ l ->
  exists r h', new_service h = (sr_addr r, h') /\ sr_methods r = ∅ /\ h' ⊨ service_cells r ++ l.
Proof.
  intros Hh. unfold new_service. destruct (new_obj (an_impl ∅) h) as [i h1] eqn:E1.
  destruct (new_obj (a_service i) h1) as [p h2] eqn:E2.
  exists {| sr_addr := p; sr_impl := i; sr_methods := ∅ |}, h2. split; [reflexivity|]. split; [reflexivity|].
  unfold service_cells, methods_cells. cbn [sr_addr sr_impl sr_methods]. rewrite fmap_empty, map_to_list_empty.
  exact (holds_new _ _ _ _ _ (holds_new _ _ _ _ _ Hh E1) E2).
Qed.

Lemma map_to_list_fmap_values (ms : gmap string method_rep) : (map_to_list (method_at <$> ms)).*2 = map method_at (map_to_list ms).*2.
Proof. rewrite map_to_list_fmap, <- !list_fmap_compose. reflexivity. Qed.

Lemma delete_service_holds h r l : h ⊨ service_cells r ++ l -> exists h', delete_service (sr_addr r) h = Done h' /\ h' ⊨ l.
Proof.
  intros Hh. unfold delete_service, service_at, delete_impl, impl_at. unfold service_cells in Hh. cbn [app] in Hh. look Hh. cbn [outcome_bind].
  look Hh. cbn [outcome_bind]. rewrite map_to_list_fmap_values.
  held Hh (methods_cells (sr_methods r) ++ (sr_impl r, an_impl (method_at <$> sr_methods r)) :: (sr_addr r, a_service (sr_impl r)) :: l).
  destruct (each_gone drop_method method_at method_cells _ drop_method_holds _ _ Hh) as (h1 & -> & H1). cbn [outcome_bind].
  destruct (holds_free _ _ _ _ H1) as (h2 & -> & H2). cbn [outcome_bind]. exact (holds_free _ _ _ _ H2).
Qed.

(** A method added: a second one of the same name is dropped, with its status. *)
Lemma service_add_method_holds h r name func allow_http l : h ⊨ service_cells r ++ l ->
  exists r' h', service_add_method (sr_addr r) name func allow_http h = Done h' /\ sr_addr r' = sr_addr r /\
    service_value r' = Service.add_method name func allow_http (service_value r) /\ h' ⊨ service_cells r' ++ l.
Proof.
  intros Hh. unfold service_add_method, service_at, add_method, new_method, impl_at, Service.add_method. rewrite service_value_lookup.
  pose proof Hh as H0'. unfold service_cells in H0'. cbn [app] in H0'. look H0'. cbn [outcome_bind].
  destruct (new_status_holds _ _ Hh) as (st & k & h1 & -> & H1). cbn [move_method m_func m_status m_allow_http].
  unfold service_cells in H1. cbn [app] in H1. look H1. cbn [outcome_bind]. rewrite !lookup_fmap.
  destruct (sr_methods r !! name) as [m|] eqn:Em; cbn [fmap option_fmap option_map]; unfold drop_method; cbn [m_status run_delete].
  - destruct (delete_status_holds _ _ _ _ _ H1) as (h2 & -> & H2). exists r, h2. split; [reflexivity|]. split; [reflexivity|]. split; [reflexivity | exact H2].
  - set (new := {| mr_value := Service.new_method func allow_http; mr_status := st; mr_lock := k |}).
    exists {| sr_addr := sr_addr r; sr_impl := sr_impl r; sr_methods := <[name := new]> (sr_methods r) |}. eexists.
    split; [reflexivity|]. split; [reflexivity|]. split; [exact (fmap_insert mr_value (sr_methods r) name new)|].
    held H1 ((sr_impl r, an_impl (method_at <$> sr_methods r)) :: (sr_addr r, a_service (sr_impl r)) :: method_cells new ++ methods_cells (sr_methods r) ++ l).
    apply (holds_store _ _ _ (an_impl (<[name := method_at new]> (method_at <$> sr_methods r)))) in H1.
    refine (holds_perm _ _ _ H1 _). unfold service_cells. cbn [sr_addr sr_impl sr_methods].
    rewrite (methods_cells_insert _ _ new Em), fmap_insert. solve_Permutation.
Qed.

(** The service with other counters for one method. *)
Definition set_counts (name : string) (m : method_rep) (c : MethodStatus.RpcMethodStatus) (r : service_rep) : service_rep :=
  {| sr_addr := sr_addr r; sr_impl := sr_impl r;
     sr_methods := <[name := {| mr_value := Service.mk_method (Service.m_func (mr_value m)) c (Service.m_allow_http (mr_value m));
                                mr_status := mr_status m; mr_lock := mr_lock m |}]> (sr_methods r) |}.

Lemma service_cells_split r name m : sr_methods r !! name = Some m ->
  service_cells r ≡ₚ (mr_status m, a_status (Service.m_status (mr_value m)) (mr_lock m)) :: (mr_lock m, a_lock) ::
    (sr_addr r, a_service (sr_impl r)) :: (sr_impl r, an_impl (method_at <$> sr_methods r)) :: methods_cells (delete name (sr_methods r)).
Proof. intros Hm. unfold service_cells. rewrite (methods_cells_lookup _ _ _ Hm). unfold method_cells. solve_Permutation. Qed.

Lemma set_counts_cells r name m c : sr_methods r !! name = Some m ->
  service_cells (set_counts name m c r) ≡ₚ (mr_status m, a_status c (mr_lock m)) :: (mr_lock m, a_lock) ::
    (sr_addr r, a_service (sr_impl r)) :: (sr_impl r, an_impl (method_at <$> sr_methods r)) :: methods_cells (delete name (sr_methods r)).
Proof.
  intros Hm. rewrite (service_cells_split _ name); [|apply lookup_insert_eq]. cbn [set_counts mr_status mr_lock mr_value Service.m_status sr_addr sr_impl sr_methods].
  rewrite delete_insert_eq, fmap_insert. replace (<[name := _]> (method_at <$> sr_methods r)) with (method_at <$> sr_methods r); [reflexivity|].
  symmetry. apply insert_id. rewrite lookup_fmap, Hm. reflexivity.
Qed.

Lemma set_counts_value r name m c : service_value (set_counts name m c r) =
  <[name := Service.mk_method (Service.m_func (mr_value m)) c (Service.m_allow_http (mr_value m))]> (service_value r).
Proof. exact (fmap_insert mr_value (sr_methods r) name _). Qed.

Lemma set_counts_holds h r name m c l : sr_methods r !! name = Some m -> h ⊨ service_cells r ++ l ->
  <[mr_status m := a_status c (mr_lock m)]> h ⊨ service_cells (set_counts name m c r) ++ l.
Proof.
  intros Hm Hh. rewrite (service_cells_split _ _ _ Hm) in Hh. rewrite (set_counts_cells _ _ _ _ Hm). exact (holds_store _ _ _ _ _ Hh).
Qed.

Lemma find_method_holds h r name l : h ⊨ service_cells r ++ l ->
  find_method (sr_addr r) name h = Done (method_at <$> sr_methods r !! name).
Proof.
  intros Hh. unfold find_method, service_at, impl_at. unfold service_cells in Hh. cbn [app] in Hh. look Hh. cbn [outcome_bind].
  look Hh. cbn [outcome_bind]. by rewrite lookup_fmap.
Qed.

(** A call counted: only the counters of the method change. *)
Lemma count_call_holds h r name during timed_out l : h ⊨ service_cells r ++ l ->
  exists r' h', count_call (sr_addr r) name during timed_out h = Done h' /\ sr_addr r' = sr_addr r /\
    service_value r' = value_op (service_value r) (CallMethod name during timed_out) /\ h' ⊨ service_cells r' ++ l.
Proof.
  intros Hh. unfold count_call. rewrite (find_method_holds _ _ _ _ Hh). cbn [outcome_bind value_op]. rewrite service_value_lookup.
  destruct (sr_methods r !! name) as [m|] eqn:Em; cbn [fmap option_fmap option_map]; [|exists r, h; auto].
  cbn [method_at m_status need outcome_bind]. unfold calcCallTime, count_timeout, status_at, lock_at.
  pose proof Hh as Hs. rewrite (service_cells_split _ _ _ Em) in Hs. cbn [app] in Hs. look Hs. cbn [outcome_bind]. look Hs. cbn [outcome_bind].
  pose proof (set_counts_holds _ _ _ _ (counted during timed_out (Service.m_status (mr_value m))) _ Em Hh) as H1. unfold counted in *.
  destruct timed_out; [rewrite lookup_insert_eq; cbn [outcome_bind]; rewrite insert_insert_eq|];
    (do 2 eexists; split; [reflexivity|]; split; [|split; [|exact H1]]; [reflexivity | apply set_counts_value]).
Qed.

Lemma run_op_holds o h r l : h ⊨ service_cells r ++ l ->
  exists r' h', run_op (sr_addr r) o h = Done h' /\ sr_addr r' = sr_addr r /\
    service_value r' = value_op (service_value r) o /\ h' ⊨ service_cells r' ++ l.
Proof. destruct o; [apply service_add_method_holds | apply count_call_holds]. Qed.

Lemma run_ops_hold ops : forall h r l, h ⊨ service_cells r ++ l ->
  exists r' h', each (run_op (sr_addr r)) ops h = Done h' /\ sr_addr r' = sr_addr r /\
    service_value r' = fold_left value_op ops (service_value r) /\ h' ⊨ service_cells r' ++ l.
Proof.
  induction ops as [|o ops IH]; intros h r l Hh; cbn [each fold_left]; [exists r, h; auto|].
  destruct (run_op_holds o h r l Hh) as (r1 & h1 & -> & Ha & Hv & H1). cbn [outcome_bind].
  destruct (IH h1 r1 l H1) as (r2 & h2 & Hr & Ha2 & Hv2 & H2). rewrite Ha in Hr, Ha2. rewrite Hv in Hv2.
  exists r2, h2. auto.
Qed.

Lemma read_method_holds h ms name m l : h ⊨ methods_cells ms ++ l -> ms !! name = Some m ->
  read_method h (method_at m) = Some (mr_value m).
Proof.
  intros Hh Hm. rewrite (methods_cells_lookup _ _ _ Hm) in Hh. unfold read_method. cbn [method_at m_status mbind option_bind].
  cbn [method_cells app] in Hh. look Hh. by destruct m as [[? ? ?] ? ?].
Qed.

Lemma read_service_holds h r l : h ⊨ service_cells r ++ l -> read_service (sr_addr r) h = Done (service_value r).
Proof.
  intros Hh. unfold read_service, service_at, impl_at. unfold service_cells in Hh. cbn [app] in Hh. look Hh. cbn [outcome_bind]. look Hh.
  cbn [outcome_bind]. f_equal. apply map_eq. intros name. rewrite lookup_omap, lookup_fmap, service_value_lookup.
  destruct (sr_methods r !! name) as [m|] eqn:Em; cbn; [|reflexivity].
  held Hh (methods_cells (sr_methods r) ++ (sr_addr r, a_service (sr_impl r)) :: (sr_impl r, an_impl (method_at <$> sr_methods r)) :: l).
  exact (read_method_holds _ _ _ _ _ Hh Em).
Qed.
End Services.

(** * Properties *)

(** C38: The objects of a service are the service.  Whatever methods are added to a
    new service, whatever calls are counted, every step succeeds; the objects on
    the heap stand for the service [Service] computes from the same steps; and
    deleting the service gives back exactly what was made for it, the methods
    refused because their name was taken included. *)
Theorem service_objects_refine `{AllocatorLaw} (ops : list service_op) (h : heap) :
  let (p, h0) := new_service h in
  exists h1, each (run_op p) ops h0 = Done h1 /\ read_service p h1 = Done (fold_left value_op ops ∅) /\ delete_service p h1 = Done h.
Proof.
  destruct (new_service_holds h _ (holds_self h)) as (r & h0 & -> & Hm & Hh).
  destruct (run_ops_hold ops h0 r _ Hh) as (r' & h1 & -> & Ha & Hv & H1). exists h1. split; [reflexivity|]. rewrite <- Ha.
  assert (service_value r = ∅) as Hr by (unfold service_value; rewrite Hm; apply fmap_empty). rewrite Hr in Hv.
  split; [rewrite <- Hv; exact (read_service_holds _ _ _ H1)|].
  destruct (delete_service_holds _ _ _ H1) as (h2 & -> & H2). f_equal. exact (holds_unique _ _ _ H2 (holds_self h)).
Qed.

(** A copied method is deleted twice.  [RpcMethod]'s copy constructor copies the
    pointer to the statistics, which the destructor of either copy deletes. *)
Theorem copied_method_deleted_twice `{AllocatorLaw} func allow_http (h : heap) :
  let (m, h1) := new_method func allow_http h in
  exists h2, drop_method m h1 = Done h2 /\ drop_method (copy_method m) h2 = Stuck UseAfterFree.
Proof.
  unfold new_method. destruct (new_status_holds h _ (holds_self h)) as (st & k & h1 & -> & Hh).
  unfold drop_method. cbn [copy_method m_status run_delete].
  destruct (delete_status_holds _ _ _ _ _ Hh) as (h2 & -> & H2). exists h2. split; [reflexivity|].
  unfold delete_status, status_at. rewrite (holds_gone _ _ _ _ [(k, a_lock)] _ Hh H2). reflexivity.
Qed.

(** * Witnesses *)

(** A heap with an object on it, and a method. *)
Definition one_lock : heap := {[0%nat := a_lock]}.
Definition say_ok : RPC_FUNC_T := fun _ b => Done (RPC_SERVER_OK, b, []).

Lemma service_objects_refine_witness :
  let (p, h0) := new_service one_lock in
  exists h1, each (run_op p) [AddMethod "m" say_ok true; AddMethod "m" say_ok false; CallMethod "m" 12 true; CallMethod "n" 5 false] h0 = Done h1 /\
    read_service p h1 = Done (fold_left value_op [AddMethod "m" say_ok true; AddMethod "m" say_ok false; CallMethod "m" 12 true; CallMethod "n" 5 false] ∅) /\
    delete_service p h1 = Done one_lock.
Proof. exact (service_objects_refine [AddMethod "m" say_ok true; AddMethod "m" say_ok false; CallMethod "m" 12 true; CallMethod "n" 5 false] one_lock). Defined.
