(* ===== verification/PoolObjects.v ===== *)
(** Objects of both sides: the packages of [RpcPackage.h] and the pool of threads
    of [ThreadPool.h], on the heap of [Objects].  (What the pool does while it
    lives is in [ThreadPool].) *)
From Stdlib Require Import ZArith Lia Bool List String Ascii.
From stdpp Require Import base list strings gmap infinite list_tactics.
From S2P Require Import Prelude Objects.

Definition thread_at (p : addr) (h : heap) : outcome unit :=
  match h !! p with Some a_thread => Done tt | _ => Stuck UseAfterFree end.
Definition pool_worker_at (p : addr) (h : heap) : outcome (bool * addr * addr) :=
  match h !! p with Some (a_pool_worker s t w) => Done (s, t, w) | _ => Stuck UseAfterFree end.
Definition pool_at (p : addr) (h : heap) : outcome (list addr) :=
  match h !! p with Some (a_pool l) => Done l | _ => Stuck UseAfterFree end.
Definition package_at (p : addr) (h : heap) : outcome addr :=
  match h !! p with Some (a_package d) => Done d | _ => Stuck UseAfterFree end.

Section Operations.
Context `{Allocator}.

(** * [request_pkg] and [response_pkg] *)

Definition new_package (h : heap) : addr * heap :=
  let (data, h) := new_obj a_buffer h in new_obj (a_package data) h.

Definition delete_package (p : addr) (h : heap) : outcome heap :=
  let! data := package_at p h in
  let! h := free data h in
  free p h.

(** * [ThreadPool] *)

(** The pool is a template: [new_real] and [delete_real] make and delete a real
    worker. *)
Section Pool.
Context (new_real : heap -> addr * heap) (delete_real : addr -> heap -> outcome heap).

(** The loop of the constructor: a real worker, the thread, the worker. *)
Fixpoint new_pool_workers (thread_num : nat) (h : heap) : list addr * heap :=
  match thread_num with
  | O => ([], h)
  | S n =>
      let (real, h) := new_real h in
      let (th, h) := new_obj a_thread h in
      let (w, h) := new_obj (a_pool_worker false th real) h in
      let (ws, h) := new_pool_workers n h in
      (w :: ws, h)
  end.

Definition new_pool (thread_num : nat) (h : heap) : addr * heap :=
  let (ws, h) := new_pool_workers thread_num h in new_obj (a_pool ws) h.

Definition stop_pool_worker (p : addr) (h : heap) : outcome heap :=
  let! (_, th, real) := pool_worker_at p h in
  Done (<[p := a_pool_worker true th real]> h).

(** [~Worker]: [join] waits for ever for a worker that has not been stopped. *)
Definition delete_pool_worker (p : addr) (h : heap) : outcome heap :=
  let! (stopped, th, real) := pool_worker_at p h in
  let! _ := thread_at th h in
  if negb (stopped : bool) then Stuck Spinning
  else
    let! h := delete_real real h in
    let! h := free th h in
    free p h.

(** [~ThreadPool] stops the workers; the vector of workers deletes them. *)
Definition delete_pool (p : addr) (h : heap) : outcome heap :=
  let! ws := pool_at p h in
  let! h := each stop_pool_worker ws h in
  let! h := each delete_pool_worker ws h in
  free p h.
End Pool.

Fixpoint real_workers (ws : list addr) (h : heap) : outcome (list addr) :=
  match ws with
  | [] => Done []
  | w :: ws =>
      let! (_, _, real) := pool_worker_at w h in
      let! rs := real_workers ws h in
      Done (real :: rs)
  end.

Definition getWorkers (p : addr) (h : heap) : outcome (list addr) :=
  let! ws := pool_at p h in real_workers ws h.
End Operations.

(** * Their objects *)

Record pool_worker_rep := { pw_addr : addr; pw_stop : bool; pw_thread : addr; pw_real : addr; pw_object : object }.

Definition pool_worker_cells (r : pool_worker_rep) : list (addr * object) :=
  [(pw_addr r, a_pool_worker (pw_stop r) (pw_thread r) (pw_real r)); (pw_thread r, a_thread); (pw_real r, pw_object r)].

Definition package_cells (r : addr * addr) : list (addr * object) := [(r.1, a_package r.2); (r.2, a_buffer)].

Lemma flat_map_nil {A B} (xs : list A) : flat_map (fun _ => []) xs = @nil B.
Proof. by induction xs. Qed.

Lemma flat_map_of_map {A B C} (f : B -> list C) (g : A -> B) xs : flat_map f (map g xs) = flat_map (fun x => f (g x)) xs.
Proof. induction xs as [|x xs IH]; [reflexivity|]. cbn. by rewrite IH. Qed.

Lemma flat_map_ext_elem {A B} (f g : A -> list B) xs : (forall x, x ∈ xs -> f x = g x) -> flat_map f xs = flat_map g xs.
Proof.
  induction xs as [|x xs IH]; intros Hx; [reflexivity|]. cbn. rewrite (Hx x (list_elem_of_here _ _)), IH; [reflexivity|].
  intros y Hy. apply Hx. by constructor.
Qed.

Section Parts.
Context `{AllocatorLaw}.

(** ** Packages *)

Lemma new_package_holds h l : h ⊨ l -> exists r h', new_package h = (r.1, h') /\ h' ⊨ package_cells r ++ l.
Proof.
  intros Hh. unfold new_package. destruct (new_obj a_buffer h) as [d h1] eqn:E1. destruct (new_obj (a_package d) h1) as [p h2] eqn:E2.
  exists (p, d), h2. split; [reflexivity|]. exact (holds_new _ _ _ _ _ (holds_new _ _ _ _ _ Hh E1) E2).
Qed.

Lemma delete_package_holds h r l : h ⊨ package_cells r ++ l -> exists h', delete_package r.1 h = Done h' /\ h' ⊨ l.
Proof.
  intros Hh. unfold delete_package, package_at. unfold package_cells in Hh. cbn [app] in Hh. look Hh. cbn [outcome_bind].
  held Hh ((r.2, a_buffer) :: (r.1, a_package r.2) :: l). destruct (holds_free _ _ _ _ Hh) as (h1 & -> & H1). exact (holds_free _ _ _ _ H1).
Qed.

(** Deleting what may be null. *)
Lemma run_delete_holds {A B} (del : B -> heap -> outcome heap) (at_ : A -> B) (cells : A -> list (addr * object)) (o : option A) :
  (forall h x l, h ⊨ cells x ++ l -> exists h', del (at_ x) h = Done h' /\ h' ⊨ l) ->
  forall h l, h ⊨ flat_map cells (option_list o) ++ l -> exists h', run_delete del (at_ <$> o) h = Done h' /\ h' ⊨ l.
Proof.
  intros Hd h l Hh. destruct o as [x|]; cbn in Hh |- *; [|eauto]. rewrite app_nil_r in Hh. exact (Hd h x l Hh).
Qed.

(** ** The pool *)

(** The constructor of a real worker makes one object, here [o]. *)
Lemma new_pool_workers_holds o n : forall h l, h ⊨ l ->
  exists rs h', new_pool_workers (new_obj o) n h = (map pw_addr rs, h') /\ Forall (fun r => pw_object r = o) rs /\
    h' ⊨ flat_map pool_worker_cells rs ++ l.
Proof.
  induction n as [|n IH]; intros h l Hh; cbn [new_pool_workers]; [exists [], h; auto|].
  destruct (new_obj o h) as [real h1] eqn:E1. apply (holds_new _ _ _ _ _ Hh) in E1.
  destruct (new_obj a_thread h1) as [th h2] eqn:E2. apply (holds_new _ _ _ _ _ E1) in E2.
  destruct (new_obj (a_pool_worker _ _ _) h2) as [w h3] eqn:E3. apply (holds_new _ _ _ _ _ E2) in E3.
  destruct (IH _ _ E3) as (rs & h4 & -> & Hf & H4).
  exists ({| pw_addr := w; pw_stop := false; pw_thread := th; pw_real := real; pw_object := o |} :: rs), h4.
  split; [reflexivity|]. split; [by constructor|].
  refine (holds_perm _ _ _ H4 _). cbn [flat_map]. unfold pool_worker_cells at 2. cbn [pw_addr pw_stop pw_thread pw_real pw_object]. solve_Permutation.
Qed.

Definition stopped_pool_worker (r : pool_worker_rep) : pool_worker_rep :=
  {| pw_addr := pw_addr r; pw_stop := true; pw_thread := pw_thread r; pw_real := pw_real r; pw_object := pw_object r |}.

Lemma pool_worker_look h r l : h ⊨ pool_worker_cells r ++ l ->
  pool_worker_at (pw_addr r) h = Done (pw_stop r, pw_thread r, pw_real r).
Proof. intros Hh. unfold pool_worker_at. unfold pool_worker_cells in Hh. cbn [app] in Hh. look Hh. reflexivity. Qed.

Lemma stop_pool_worker_holds h r l : h ⊨ pool_worker_cells r ++ l ->
  exists h', stop_pool_worker (pw_addr r) h = Done h' /\ h' ⊨ pool_worker_cells (stopped_pool_worker r) ++ l.
Proof.
  intros Hh. unfold stop_pool_worker. rewrite (pool_worker_look _ _ _ Hh). eexists. split; [reflexivity|]. exact (holds_store _ _ _ _ _ Hh).
Qed.

(** The destructor of the real worker ends it, and nothing else. *)
Definition deletes_real (del : addr -> heap -> outcome heap) (r : pool_worker_rep) : Prop :=
  forall h l, h ⊨ (pw_real r, pw_object r) :: l -> exists h', del (pw_real r) h = Done h' /\ h' ⊨ l.

Lemma delete_pool_worker_holds del h r l : deletes_real del r -> h ⊨ pool_worker_cells (stopped_pool_worker r) ++ l ->
  exists h', delete_pool_worker del (pw_addr r) h = Done h' /\ h' ⊨ l.
Proof.
  intros Ho Hh. unfold delete_pool_worker.
  rewrite (pool_worker_look _ (stopped_pool_worker r) _ Hh : pool_worker_at (pw_addr r) h = Done (true, pw_thread r, pw_real r)).
  cbn [outcome_bind]. unfold thread_at. unfold pool_worker_cells in Hh.
  cbn [app stopped_pool_worker pw_addr pw_stop pw_thread pw_real pw_object] in Hh |- *.
  look Hh. cbn [outcome_bind negb]. set (w := (pw_addr r, _)) in Hh.
  held Hh ((pw_real r, pw_object r) :: (pw_thread r, a_thread) :: w :: l).
  destruct (Ho _ _ Hh) as (h1 & -> & H1). cbn [outcome_bind].
  destruct (holds_free _ _ _ _ H1) as (h2 & -> & H2). exact (holds_free _ _ _ _ H2).
Qed.

Definition pool_cells (p : addr) (rs : list pool_worker_rep) : list (addr * object) :=
  (p, a_pool (map pw_addr rs)) :: flat_map pool_worker_cells rs.

Lemma new_pool_holds o n h l : h ⊨ l ->
  exists p rs h', new_pool (new_obj o) n h = (p, h') /\ Forall (fun r => pw_object r = o) rs /\ h' ⊨ pool_cells p rs ++ l.
Proof.
  intros Hh. unfold new_pool. destruct (new_pool_workers_holds o n _ _ Hh) as (rs & h1 & -> & Hf & H1).
  destruct (new_obj (a_pool _) h1) as [p h2] eqn:E. exists p, rs, h2. do 2 (split; [auto|]). exact (holds_new _ _ _ _ _ H1 E).
Qed.

Lemma delete_pool_holds del h p rs l : Forall (deletes_real del) rs -> h ⊨ pool_cells p rs ++ l ->
  exists h', delete_pool del p h = Done h' /\ h' ⊨ l.
Proof.
  intros Ho Hh. unfold delete_pool, pool_at. unfold pool_cells in Hh. cbn [app] in Hh. look Hh. cbn [outcome_bind].
  held Hh (flat_map pool_worker_cells rs ++ (p, a_pool (map pw_addr rs)) :: l).
  destruct (each_holds stop_pool_worker pw_addr _ (fun r => pool_worker_cells (stopped_pool_worker r)) rs
              (fun r h l _ => stop_pool_worker_holds h r l) _ _ Hh) as (h1 & -> & H1). cbn [outcome_bind].
  destruct (each_holds (delete_pool_worker del) pw_addr _ (fun _ => []) rs
              (fun r h l Hr => delete_pool_worker_holds del h r l (proj1 (Forall_forall _ _) Ho r Hr)) _ _ H1) as (h2 & -> & H2).
  cbn [outcome_bind]. rewrite (flat_map_nil rs) in H2. exact (holds_free _ _ _ _ H2).
Qed.

Lemma real_workers_holds rs : forall h l, h ⊨ flat_map pool_worker_cells rs ++ l -> real_workers (map pw_addr rs) h = Done (map pw_real rs).
Proof.
  induction rs as [|r rs IH]; intros h l Hh; [reflexivity|]. cbn [map real_workers flat_map] in Hh |- *. rewrite <- app_assoc in Hh.
  rewrite (pool_worker_look _ _ _ Hh). cbn [outcome_bind]. held Hh (flat_map pool_worker_cells rs ++ pool_worker_cells r ++ l).
  rewrite (IH _ _ Hh). reflexivity.
Qed.

Lemma getWorkers_holds h p rs l : h ⊨ pool_cells p rs ++ l -> getWorkers p h = Done (map pw_real rs).
Proof.
  intros Hh. unfold getWorkers, pool_at. unfold pool_cells in Hh. cbn [app] in Hh. look Hh. cbn [outcome_bind].
  held Hh (flat_map pool_worker_cells rs ++ (p, a_pool (map pw_addr rs)) :: l). exact (real_workers_holds _ _ _ Hh).
Qed.
End Parts.
