(* ===== verification/ServerObjects.v ===== *)
(** The objects of a server, from [new RpcServer] to [delete]: workers
    ([RpcWorker.cpp]), connections and their workers
    ([RpcServerConn.cpp], [RpcServerConnWorker.cpp]), the server itself
    ([RpcServerImpl.cpp], [RpcServer.cpp]), on the heap of [Objects].

    Who deletes what is the question here; what the objects do with each other
    is in [ConnWorker], [Service] and the files around them, where pointers are
    values.  An object enters the heap when its constructor is through, with the
    contents it then has. *)
From Stdlib Require Import ZArith Lia Bool List String Ascii.
From stdpp Require Import base list strings gmap infinite list_tactics.
From S2P Require Import Prelude Wire Stats RespBroker Service ServerImpl StatusService Objects PoolObjects.

(** * Objects behind pointers *)

Definition worker_at (p : addr) (h : heap) : outcome (gmap string ServiceBlock) :=
  match h !! p with Some (a_worker m) => Done m | _ => Stuck UseAfterFree end.
Definition conn_at (p : addr) (h : heap) : outcome (string * Z * option addr * option addr * option addr) :=
  match h !! p with Some (a_conn id fd rpk parser eps) => Done (id, fd, rpk, parser, eps) | _ => Stuck UseAfterFree end.
Definition eps_at (p : addr) (h : heap) : outcome (Z * option addr) :=
  match h !! p with Some (an_eps fd ptr) => Done (fd, ptr) | _ => Stuck UseAfterFree end.
Definition conn_worker_at (p : addr) (h : heap) : outcome (bool * ConnType * gmap string addr) :=
  match h !! p with Some (a_conn_worker s t m) => Done (s, t, m) | _ => Stuck UseAfterFree end.
Definition server_at (p : addr) (h : heap) : outcome (bool * addr * addr * list addr * list addr) :=
  match h !! p with Some (a_server s st pool rpc http) => Done (s, st, pool, rpc, http) | _ => Stuck UseAfterFree end.
Definition facade_at (p : addr) (h : heap) : outcome addr :=
  match h !! p with Some (a_facade s) => Done s | _ => Stuck UseAfterFree end.

Section Operations.
Context `{Allocator}.

(** * [RpcWorker] *)

Definition new_worker (h : heap) : addr * heap := new_obj (a_worker ∅) h.

(** [~RpcWorker]: the services it owns go with it. *)
Definition drop_block (b : ServiceBlock) (h : heap) : outcome heap :=
  if owner b then run_delete delete_service (pSrv b) h else Done h.

Definition delete_worker (p : addr) (h : heap) : outcome heap :=
  let! srvmap := worker_at p h in
  let! h := each drop_block (map_to_list srvmap).*2 h in
  free p h.

Definition worker_addService (name : string) (service : option addr) (own : bool) (p : addr) (h : heap) : outcome heap :=
  let! srvmap := worker_at p h in
  Done (<[p := a_worker (<[name := mk_block service own]> srvmap)]> h).

(** [RpcWorker::run] from the search for the service to the statistics. *)
Definition worker_call (p : addr) (service name : string) (from_http : bool) (during : Z) (timed_out : bool) (h : heap) : outcome heap :=
  let! srvmap := worker_at p h in
  match srvmap !! service with
  | None => Done h
  | Some b =>
      let! allowed :=
        if from_http then
          let! s := need NullPointer (pSrv b) in
          let! m := find_method s name h in
          Done (match m with Some m => Objects.m_allow_http m | None => false end)
        else Done true in
      if negb allowed then Done h
      else match pSrv b with Some s => count_call s name during timed_out h | None => Done h end
  end.

(** * Connections *)

Definition new_conn (t : ConnType) (fd : Z) (id : string) (h : heap) : addr * heap :=
  match t with
  | RPC_CONN => new_obj (a_conn id fd None None None) h
  | HTTP_CONN => let (parser, h) := new_obj a_parser h in new_obj (a_conn id fd None (Some parser) None) h
  end.

(** [~RpcServerHttpConn] frees the parser, [~RpcServerConn] the package. *)
Definition delete_conn (p : addr) (h : heap) : outcome heap :=
  let! (_, _, rpk, parser, _) := conn_at p h in
  let! h := run_delete free parser h in
  let! h := run_delete delete_package rpk h in
  free p h.

(** The package [getRequest] starts when the length of a request is there, ... *)
Definition conn_begin_package (p : addr) (h : heap) : outcome heap :=
  let! (id, fd, _, parser, eps) := conn_at p h in
  let (rpk, h) := new_package h in
  Done (<[p := a_conn id fd (Some rpk) parser eps]> h).

(** ... and hands out, to a [shared_ptr], when it is complete. *)
Definition conn_take_package (p : addr) (h : heap) : outcome (option addr * heap) :=
  let! (id, fd, rpk, parser, eps) := conn_at p h in
  Done (rpk, <[p := a_conn id fd None parser eps]> h).

(** [RpcServerConn::reset], of the package. *)
Definition conn_reset (p : addr) (h : heap) : outcome heap :=
  let! (id, fd, rpk, parser, eps) := conn_at p h in
  let! h := run_delete delete_package rpk h in
  Done (<[p := a_conn id fd None parser eps]> h).

(** * [RpcServerConnWorker] *)

Definition new_conn_worker (t : ConnType) (h : heap) : addr * heap := new_obj (a_conn_worker false t ∅) h.

Definition stop_conn_worker (p : addr) (h : heap) : outcome heap :=
  let! (_, t, conns) := conn_worker_at p h in
  Done (<[p := a_conn_worker true t conns]> h).

(** [~RpcServerConnWorker] stops the worker; its map of pointers goes, what they
    point to stays. *)
Definition delete_conn_worker (p : addr) (h : heap) : outcome heap :=
  let! h := stop_conn_worker p h in
  free p h.

Definition addConnection (w : addr) (fd : Z) (conn : addr) (h : heap) : outcome heap :=
  let (eps, h) := new_obj (an_eps fd (Some conn)) h in
  let! (id, cfd, rpk, parser, _) := conn_at conn h in
  let h := <[conn := a_conn id cfd rpk parser (Some eps)]> h in
  let! (s, t, conns) := conn_worker_at w h in
  Done (match conns !! id with Some _ => h | None => <[w := a_conn_worker s t (<[id := conn]> conns)]> h end).

(** [onAccept] from the switch on; [id] is the id made for the connection. *)
Definition accept_conn (w : addr) (fd : Z) (id : string) (h : heap) : outcome heap :=
  let! (_, t, _) := conn_worker_at w h in
  let (conn, h) := new_conn t fd id h in
  addConnection w fd conn h.

Definition removeConnection (w eps : addr) (h : heap) : outcome heap :=
  let! (_, ptr) := eps_at eps h in
  let! conn := need NullPointer ptr in
  let! (id, _, _, _, _) := conn_at conn h in
  let! (s, t, conns) := conn_worker_at w h in
  let h := <[w := a_conn_worker s t (delete id conns)]> h in
  let! h := delete_conn conn h in
  free eps h.

(** What [start] makes before its loop, known to the epoll set only: the events
    of the listening socket and, if [eventfd] gives a descriptor, of that. *)
Definition start_conn_worker (listen_fd ev_fd : Z) (h : heap) : list addr * heap :=
  let (eps_listen, h) := new_obj (an_eps listen_fd None) h in
  if ev_fd =? -1 then ([eps_listen], h)
  else let (eps_resp_ev_fd, h) := new_obj (an_eps ev_fd None) h in ([eps_listen; eps_resp_ev_fd], h).

(** * [RpcServerImpl] *)

(** [new RpcStatusService(server)]: a service with one method, whose statistics
    are not shown. *)
Definition new_status_service (get_status : RPC_FUNC_T) (h : heap) : outcome (addr * heap) :=
  let (p, h) := new_service h in
  let! h := service_add_method p "get_status" get_status true h in
  let! m := find_method p "get_status" h in
  match m with
  | None => Done (p, h)
  | Some m =>
      let! st := need NullPointer (Objects.m_status m) in
      let! (c, lock) := status_at st h in
      Done (p, <[st := a_status (disable c) lock]> h)
  end.

Fixpoint new_conn_workers (t : ConnType) (n : nat) (h : heap) : list addr * heap :=
  match n with
  | O => ([], h)
  | S n => let (w, h) := new_conn_worker t h in let (ws, h) := new_conn_workers t n h in (w :: ws, h)
  end.

(** [RpcServerImpl::addService], whose guard is the pool itself. *)
Definition pool_addService (name : string) (service : addr) (pool : addr) (h : heap) : outcome heap :=
  let! ws := getWorkers pool h in
  each (worker_addService name (Some service) false) ws h.

Definition server_addService (name : string) (service : addr) (p : addr) (h : heap) : outcome heap :=
  let! (_, _, pool, _, _) := server_at p h in
  pool_addService name service pool h.

(** [RpcServerImpl::RpcServerImpl] *)
Definition new_server (get_status : RPC_FUNC_T) (cfg : RpcServerConfig) (h : heap) : outcome (addr * heap) :=
  let! (statusSrv, h) := new_status_service get_status h in
  let (pool, h) := new_pool new_worker (Z.to_nat (getThreadNum cfg)) h in
  let! h := pool_addService "status" statusSrv pool h in
  let n := Z.to_nat (getConnThreadNum cfg) in
  let (rpc, h) := new_conn_workers RPC_CONN n h in
  let (http, h) := if getHttpPort cfg =? -1 then ([], h) else new_conn_workers HTTP_CONN n h in
  Done (new_obj (a_server false statusSrv pool rpc http) h).

(** [stop]; the pointer to the pool keeps its value. *)
Definition stop_server (p : addr) (h : heap) : outcome heap :=
  let! (stopped, statusSrv, pool, rpc, http) := server_at p h in
  if stopped : bool then Done h
  else
    let h := <[p := a_server true statusSrv pool rpc http]> h in
    let! h := each stop_conn_worker rpc h in
    let! h := each stop_conn_worker http h in
    delete_pool delete_worker pool h.

(** [~RpcServerImpl] *)
Definition delete_server (p : addr) (h : heap) : outcome heap :=
  let! h := stop_server p h in
  let! (_, statusSrv, _, rpc, http) := server_at p h in
  let! h := each delete_conn_worker rpc h in
  let! h := each delete_conn_worker http h in
  let! h := delete_service statusSrv h in
  free p h.

(** * [RpcServer] *)

Definition new_facade (get_status : RPC_FUNC_T) (cfg : RpcServerConfig) (h : heap) : outcome (addr * heap) :=
  let! (s, h) := new_server get_status cfg h in
  Done (new_obj (a_facade s) h).

Definition delete_facade (p : addr) (h : heap) : outcome heap :=
  let! s := facade_at p h in
  let! h := delete_server s h in
  free p h.

Definition addServiceImp (name : string) (service : addr) (p : addr) (h : heap) : outcome heap :=
  let! s := facade_at p h in
  server_addService name service s h.

Definition facade_stop (p : addr) (h : heap) : outcome heap :=
  let! s := facade_at p h in
  stop_server s h.

(** [RpcServer::addService<T>]: for a null pointer it makes a [T], whose
    constructor adds its methods with [ops]; the result is the instance made. *)
Definition addService (ops : list service_op) (name : string) (service : option addr) (p : addr) (h : heap)
    : outcome (option addr * heap) :=
  match service with
  | Some s => let! h := addServiceImp name s p h in Done (None, h)
  | None =>
      let (s, h) := new_service h in
      let! h := each (run_op s) ops h in
      let! h := addServiceImp name s p h in
      Done (Some s, h)
  end.

(** * A program with a server *)

(** The server, and the objects whose pointers are kept elsewhere: the user's
    services, the instances [addService] has made, the packages in the hands of
    [shared_ptr]s, what only the epoll sets know. *)
Record world := mk_world {
  w_heap : heap;
  w_server : addr;
  w_services : list addr;
  w_made : list addr;
  w_packages : list addr;
  w_watched : list addr
}.

Definition put_heap (v : heap) (w : world) : world := mk_world v (w_server w) (w_services w) (w_made w) (w_packages w) (w_watched w).
Definition put_services (v : list addr) (w : world) : world := mk_world (w_heap w) (w_server w) v (w_made w) (w_packages w) (w_watched w).
Definition put_made (v : list addr) (w : world) : world := mk_world (w_heap w) (w_server w) (w_services w) v (w_packages w) (w_watched w).
Definition put_packages (v : list addr) (w : world) : world := mk_world (w_heap w) (w_server w) (w_services w) (w_made w) v (w_watched w).
Definition put_watched (v : list addr) (w : world) : world := mk_world (w_heap w) (w_server w) (w_services w) (w_made w) (w_packages w) v.

Definition new_world (get_status : RPC_FUNC_T) (cfg : RpcServerConfig) (h : heap) : outcome world :=
  let! (p, h) := new_facade get_status cfg h in
  Done (mk_world h p [] [] [] []).

(** What the user does, and the threads: [Call j] is a request run by worker
    [j], the [i]s number the connection workers, those for HTTP last. *)
Inductive action :=
| NewService
| ServiceOp (k : nat) (o : service_op)
| AddService (ops : list service_op) (name : string) (k : option nat)
| StopServer
| StartConnWorker (i : nat) (listen_fd ev_fd : Z)
| Accept (i : nat) (fd : Z) (id : string)
| BeginPackage (i : nat) (id : string)
| TakePackage (i : nat) (id : string)
| ReleasePackage (k : nat)
| Remove (i : nat) (id : string)
| Call (j : nat) (service name : string) (from_http : bool) (during : Z) (timed_out : bool).

(** The connection [id] of connection worker [i], if there is one. *)
Definition conn_worker_of (w : world) (i : nat) : outcome (option addr) :=
  let! s := facade_at (w_server w) (w_heap w) in
  let! (_, _, _, rpc, http) := server_at s (w_heap w) in
  Done ((rpc ++ http) !! i).

Definition with_conn (w : world) (i : nat) (id : string) (f : addr -> addr -> heap -> outcome world) : outcome world :=
  let! cw := conn_worker_of w i in
  match cw with
  | None => Done w
  | Some cw =>
      let! (_, _, conns) := conn_worker_at cw (w_heap w) in
      match conns !! id with Some conn => f cw conn (w_heap w) | None => Done w end
  end.

(** A step; what is not there to act on (a worker, a connection, a service of
    that number) takes none, nor does an [Accept] whose id is in use, as ids are
    not given twice, or a [BeginPackage] in the middle of a package. *)
Definition act (a : action) (w : world) : outcome world :=
  let h := w_heap w in
  match a with
  | NewService => let (p, h) := new_service h in Done (put_services (w_services w ++ [p]) (put_heap h w))
  | ServiceOp k o =>
      match w_services w !! k with
      | Some p => let! h := run_op p o h in Done (put_heap h w)
      | None => Done w
      end
  | AddService ops name None =>
      let! (made, h) := addService ops name None (w_server w) h in
      Done (put_made (w_made w ++ option_list made) (put_heap h w))
  | AddService ops name (Some k) =>
      match w_services w !! k with
      | Some p => let! (_, h) := addService ops name (Some p) (w_server w) h in Done (put_heap h w)
      | None => Done w
      end
  | StopServer => let! h := facade_stop (w_server w) h in Done (put_heap h w)
  | StartConnWorker i listen_fd ev_fd =>
      let! cw := conn_worker_of w i in
      match cw with
      | Some _ => let (eps, h) := start_conn_worker listen_fd ev_fd h in Done (put_watched (eps ++ w_watched w) (put_heap h w))
      | None => Done w
      end
  | Accept i fd id =>
      let! cw := conn_worker_of w i in
      match cw with
      | None => Done w
      | Some cw =>
          let! (_, _, conns) := conn_worker_at cw h in
          match conns !! id with
          | Some _ => Done w
          | None => let! h := accept_conn cw fd id h in Done (put_heap h w)
          end
      end
  | BeginPackage i id =>
      with_conn w i id (fun _ conn h =>
        let! (_, _, rpk, _, _) := conn_at conn h in
        match rpk with Some _ => Done w | None => let! h := conn_begin_package conn h in Done (put_heap h w) end)
  | TakePackage i id =>
      with_conn w i id (fun _ conn h =>
        let! (rpk, h) := conn_take_package conn h in
        Done (put_packages (option_list rpk ++ w_packages w) (put_heap h w)))
  | ReleasePackage k =>
      match w_packages w !! k with
      | Some p => let! h := delete_package p h in Done (put_packages (delete k (w_packages w)) (put_heap h w))
      | None => Done w
      end
  | Remove i id =>
      with_conn w i id (fun cw conn h =>
        let! (_, _, _, _, eps) := conn_at conn h in
        let! eps := need NullPointer eps in
        let! h := removeConnection cw eps h in
        Done (put_heap h w))
  | Call j service name from_http during timed_out =>
      let! s := facade_at (w_server w) h in
      let! (stopped, _, pool, _, _) := server_at s h in
      if stopped : bool then Done w
      else
        let! ws := getWorkers pool h in
        match ws !! j with
        | Some p => let! h := worker_call p service name from_http during timed_out h in Done (put_heap h w)
        | None => Done w
        end
  end.

Fixpoint acts (l : list action) (w : world) : outcome world :=
  match l with [] => Done w | a :: l => let! w := act a w in acts l w end.

(** The end of the program: the packages in flight are let go, the server is
    deleted, then the user's services are. *)
Definition shut_down (w : world) : outcome heap :=
  let! h := each delete_package (w_packages w) (w_heap w) in
  let! h := delete_facade (w_server w) h in
  each delete_service (w_services w) h.

(** ** What is never deleted *)

(** The objects a service, and a connection, is made of. *)
Definition method_objects (h : heap) (m : Objects.RpcMethod) : list addr :=
  match Objects.m_status m with
  | Some st => match status_at st h with Done (_, lock) => [st; lock] | Stuck _ => [] end
  | None => []
  end.

Definition service_objects (h : heap) (p : addr) : list addr :=
  match service_at p h with
  | Done impl =>
      match impl_at impl h with
      | Done ms => p :: impl :: flat_map (method_objects h) (map_to_list ms).*2
      | Stuck _ => []
      end
  | Stuck _ => []
  end.

Definition package_objects (h : heap) (p : addr) : list addr :=
  match package_at p h with Done data => [p; data] | Stuck _ => [] end.

Definition conn_objects (h : heap) (p : addr) : list addr :=
  match conn_at p h with
  | Done (_, _, rpk, parser, eps) =>
      p :: flat_map (package_objects h) (option_list rpk) ++ option_list parser ++ option_list eps
  | Stuck _ => []
  end.

Definition worker_conns (h : heap) (p : addr) : list addr :=
  match conn_worker_at p h with Done (_, _, conns) => (map_to_list conns).*2 | Stuck _ => [] end.

Definition open_connections (w : world) : list addr :=
  match facade_at (w_server w) (w_heap w) with
  | Done s =>
      match server_at s (w_heap w) with
      | Done (_, _, _, rpc, http) => flat_map (worker_conns (w_heap w)) (rpc ++ http)
      | Stuck _ => []
      end
  | Stuck _ => []
  end.

(** The connections that are open, the events of the listening threads, and the
    instances [addService] has made. *)
Definition left_over (w : world) : list addr :=
  flat_map (conn_objects (w_heap w)) (open_connections w) ++ w_watched w ++ flat_map (service_objects (w_heap w)) (w_made w).

(** No service is added once the server has been stopped. *)
Fixpoint adds_before_stop (stopped : bool) (l : list action) : Prop :=
  match l with
  | [] => True
  | AddService _ _ _ :: l => stopped = false /\ adds_before_stop stopped l
  | StopServer :: l => adds_before_stop true l
  | _ :: l => adds_before_stop stopped l
  end.
End Operations.
