(* ===== verification/ServerObjectsProps.v ===== *)
(** What the objects of a server come to: every operation of [ServerObjects]
    finds the objects it uses, and the end of the server gives back all of them
    but those nobody holds. *)
From Stdlib Require Import ZArith Lia Bool List String Ascii.
From stdpp Require Import base list strings gmap infinite list_tactics.
From S2P Require Import Prelude Wire Stats RespBroker Service ServerImpl StatusService Objects PoolObjects ServerObjects.

(** * The parts of a server and their objects *)

Record conn_rep := { cn_addr : addr; cn_fd : Z; cn_rpk : option (addr * addr); cn_parser : option addr; cn_eps : addr }.

(** A connection with its place in the map. *)
Definition conn_cells (r : string * conn_rep) : list (addr * object) :=
  (cn_addr r.2, a_conn r.1 (cn_fd r.2) (fst <$> cn_rpk r.2) (cn_parser r.2) (Some (cn_eps r.2))) ::
  (cn_eps r.2, an_eps (cn_fd r.2) (Some (cn_addr r.2))) ::
  flat_map package_cells (option_list (cn_rpk r.2)) ++ map (fun p => (p, a_parser)) (option_list (cn_parser r.2)).

Record conn_worker_rep := { cw_addr : addr; cw_stop : bool; cw_type : ConnType; cw_conns : gmap string conn_rep }.

Definition conns_cells (cs : gmap string conn_rep) : list (addr * object) := flat_map conn_cells (map_to_list cs).

Definition conn_worker_cells (r : conn_worker_rep) : list (addr * object) :=
  (cw_addr r, a_conn_worker (cw_stop r) (cw_type r) (cn_addr <$> cw_conns r)) :: conns_cells (cw_conns r).

(** The services a worker knows are among [ss], and none is its own. *)
Definition block_fine (ss : list addr) (b : ServiceBlock) : Prop := owner b = false /\ exists p, pSrv b = Some p /\ p ∈ ss.
Definition worker_fine (ss : list addr) (r : pool_worker_rep) : Prop := exists m, pw_object r = a_worker m /\ map_Forall (fun _ => block_fine ss) m.

Lemma conns_cells_insert cs id c : cs !! id = None -> conns_cells (<[id := c]> cs) ≡ₚ conn_cells (id, c) ++ conns_cells cs.
Proof. intros Hn. unfold conns_cells. rewrite (map_to_list_insert cs id c Hn). reflexivity. Qed.

Lemma conns_cells_lookup cs id c : cs !! id = Some c -> conns_cells cs ≡ₚ conn_cells (id, c) ++ conns_cells (delete id cs).
Proof. intros Hn. rewrite <- (conns_cells_insert (delete id cs)) by apply lookup_delete_eq. by rewrite insert_delete_id. Qed.

Lemma worker_fine_more ss ss' r : ss ⊆ ss' -> worker_fine ss r -> worker_fine ss' r.
Proof.
  intros Hs (m & Hm & Hr). exists m. split; [exact Hm|]. intros name b Hb. destruct (Hr name b Hb) as (Ho & p & Hp & Hin).
  split; [exact Ho|]. eauto.
Qed.

Section Parts.
Context `{AllocatorLaw}.

(** ** Connections *)

Lemma free_parser_holds (o : option addr) h l : h ⊨ map (fun p => (p, a_parser)) (option_list o) ++ l ->
  exists h', run_delete free o h = Done h' /\ h' ⊨ l.
Proof. intros Hh. destruct o as [p|]; cbn in Hh |- *; [exact (holds_free _ _ _ _ Hh) | eauto]. Qed.

(** The end of a connection leaves its [EpollStruct]. *)
Lemma delete_conn_holds h id c l : h ⊨ conn_cells (id, c) ++ l ->
  exists h', delete_conn (cn_addr c) h = Done h' /\ h' ⊨ (cn_eps c, an_eps (cn_fd c) (Some (cn_addr c))) :: l.
Proof.
  intros Hh. unfold delete_conn, conn_at. unfold conn_cells in Hh. cbn [app fst snd] in Hh. look Hh. cbn [outcome_bind].
  set (d := (cn_addr c, _)) in Hh. set (e := (cn_eps c, _)) in Hh |- *.
  held Hh (map (fun p => (p, a_parser)) (option_list (cn_parser c)) ++ flat_map package_cells (option_list (cn_rpk c)) ++ d :: e :: l).
  destruct (free_parser_holds _ _ _ Hh) as (h1 & -> & H1). cbn [outcome_bind].
  destruct (run_delete_holds _ fst package_cells _ delete_package_holds _ _ H1) as (h2 & -> & H2). cbn [outcome_bind].
  exact (holds_free _ _ _ _ H2).
Qed.

(** ** Connection workers *)

Lemma conn_worker_look h r l : h ⊨ conn_worker_cells r ++ l ->
  conn_worker_at (cw_addr r) h = Done (cw_stop r, cw_type r, cn_addr <$> cw_conns r).
Proof. intros Hh. unfold conn_worker_at. unfold conn_worker_cells in Hh. cbn [app] in Hh. look Hh. reflexivity. Qed.

Lemma new_conn_workers_holds t n : forall h l, h ⊨ l ->
  exists rs h', new_conn_workers t n h = (map cw_addr rs, h') /\ h' ⊨ flat_map conn_worker_cells rs ++ l.
Proof.
  induction n as [|n IH]; intros h l Hh; cbn [new_conn_workers]; [exists [], h; auto|]. unfold new_conn_worker.
  destruct (new_obj _ h) as [w h1] eqn:E1. apply (holds_new _ _ _ _ _ Hh) in E1. destruct (IH _ _ E1) as (rs & h2 & -> & H2).
  exists ({| cw_addr := w; cw_stop := false; cw_type := t; cw_conns := ∅ |} :: rs), h2. split; [reflexivity|].
  cbn [flat_map]. unfold conn_worker_cells at 1, conns_cells. cbn [cw_addr cw_stop cw_type cw_conns].
  rewrite fmap_empty, map_to_list_empty. refine (holds_perm _ _ _ H2 _). solve_Permutation.
Qed.

Definition stopped_conn_worker (r : conn_worker_rep) : conn_worker_rep :=
  {| cw_addr := cw_addr r; cw_stop := true; cw_type := cw_type r; cw_conns := cw_conns r |}.

Lemma stop_conn_worker_holds h r l : h ⊨ conn_worker_cells r ++ l ->
  exists h', stop_conn_worker (cw_addr r) h = Done h' /\ h' ⊨ conn_worker_cells (stopped_conn_worker r) ++ l.
Proof.
  intros Hh. unfold stop_conn_worker. rewrite (conn_worker_look _ _ _ Hh). eexists. split; [reflexivity|].
  exact (holds_store _ _ _ _ _ Hh).
Qed.

(** Deleting a worker leaves its connections. *)
Lemma delete_conn_worker_holds h r l : h ⊨ conn_worker_cells r ++ l ->
  exists h', delete_conn_worker (cw_addr r) h = Done h' /\ h' ⊨ conns_cells (cw_conns r) ++ l.
Proof.
  intros Hh. unfold delete_conn_worker. destruct (stop_conn_worker_holds _ _ _ Hh) as (h1 & -> & H1). exact (holds_free _ _ _ _ H1).
Qed.

(** The worker with one connection put in, or out. *)
Definition with_conns (cs : gmap string conn_rep) (r : conn_worker_rep) : conn_worker_rep :=
  {| cw_addr := cw_addr r; cw_stop := cw_stop r; cw_type := cw_type r; cw_conns := cs |}.

Lemma new_conn_holds t fd id h l : h ⊨ l ->
  exists p parser h', new_conn t fd id h = (p, h') /\ h' ⊨ (p, a_conn id fd None parser None) :: map (fun p => (p, a_parser)) (option_list parser) ++ l.
Proof.
  intros Hh. destruct t; unfold new_conn.
  - destruct (new_obj _ h) as [p h1] eqn:E1. exists p, None, h1. split; [reflexivity|]. exact (holds_new _ _ _ _ _ Hh E1).
  - destruct (new_obj a_parser h) as [q h1] eqn:E1. destruct (new_obj _ h1) as [p h2] eqn:E2. exists p, (Some q), h2. split; [reflexivity|].
    exact (holds_new _ _ _ _ _ (holds_new _ _ _ _ _ Hh E1) E2).
Qed.

Lemma accept_conn_holds h r fd id l : cw_conns r !! id = None -> h ⊨ conn_worker_cells r ++ l ->
  exists c h', accept_conn (cw_addr r) fd id h = Done h' /\ h' ⊨ conn_worker_cells (with_conns (<[id := c]> (cw_conns r)) r) ++ l.
Proof.
  intros Hid Hh. unfold accept_conn. rewrite (conn_worker_look _ _ _ Hh). cbn [outcome_bind].
  destruct (new_conn_holds (cw_type r) fd id _ _ Hh) as (p & parser & h1 & -> & H1). unfold addConnection.
  destruct (new_obj _ h1) as [eps h2] eqn:E2. apply (holds_new _ _ _ _ _ H1) in E2. unfold conn_at. look E2. cbn [outcome_bind].
  set (c := {| cn_addr := p; cn_fd := fd; cn_rpk := None; cn_parser := parser; cn_eps := eps |}).
  held E2 ((p, a_conn id fd None parser None) :: (eps, an_eps fd (Some p)) :: map (fun p => (p, a_parser)) (option_list parser) ++ conn_worker_cells r ++ l).
  apply (holds_store _ _ _ (a_conn id fd None parser (Some eps))) in E2.
  held_by E2 (conn_worker_cells r ++ conn_cells (id, c) ++ l) ltac:(unfold conn_cells; cbn; solve_Permutation).
  rewrite (conn_worker_look _ _ _ E2). cbn [outcome_bind]. rewrite lookup_fmap, Hid. cbn [fmap option_fmap option_map].
  apply (holds_store _ _ _ (a_conn_worker (cw_stop r) (cw_type r) (cn_addr <$> <[id := c]> (cw_conns r)))) in E2.
  rewrite fmap_insert in E2. exists c. eexists. split; [reflexivity|].
  unfold conn_worker_cells. cbn [cw_addr cw_stop cw_type cw_conns with_conns]. rewrite (conns_cells_insert _ _ _ Hid), fmap_insert.
  refine (holds_perm _ _ _ E2 _). solve_Permutation.
Qed.

(** One connection of a worker, and the rest of it. *)
Lemma conn_worker_cells_lookup r id c : cw_conns r !! id = Some c ->
  conn_worker_cells r ≡ₚ conn_cells (id, c) ++ (cw_addr r, a_conn_worker (cw_stop r) (cw_type r) (cn_addr <$> cw_conns r)) ::
    conns_cells (delete id (cw_conns r)).
Proof. intros Hc. unfold conn_worker_cells. rewrite (conns_cells_lookup _ _ _ Hc). solve_Permutation. Qed.

Lemma conn_worker_cells_update r id c c' : cw_conns r !! id = Some c -> cn_addr c' = cn_addr c ->
  conn_worker_cells (with_conns (<[id := c']> (cw_conns r)) r) ≡ₚ
    conn_cells (id, c') ++ (cw_addr r, a_conn_worker (cw_stop r) (cw_type r) (cn_addr <$> cw_conns r)) :: conns_cells (delete id (cw_conns r)).
Proof.
  intros Hc Ha. rewrite (conn_worker_cells_lookup _ id c') by apply lookup_insert_eq. cbn [with_conns cw_addr cw_stop cw_type cw_conns].
  rewrite delete_insert_eq, fmap_insert, Ha, insert_id; [reflexivity|]. rewrite lookup_fmap, Hc. reflexivity.
Qed.

(** An operation on a connection, as one on its worker. *)
Lemma on_conn (f : heap -> outcome heap) r id c extra : cw_conns r !! id = Some c ->
  (forall h l, h ⊨ conn_cells (id, c) ++ l ->
     exists c' h', f h = Done h' /\ cn_addr c' = cn_addr c /\ h' ⊨ conn_cells (id, c') ++ extra ++ l) ->
  forall h l, h ⊨ conn_worker_cells r ++ l ->
  exists cs h', f h = Done h' /\ h' ⊨ conn_worker_cells (with_conns cs r) ++ extra ++ l.
Proof.
  intros Hc Hf h l Hh. rewrite (conn_worker_cells_lookup _ _ _ Hc), <- app_assoc in Hh.
  destruct (Hf _ _ Hh) as (c' & h' & Hr & Ha & H'). exists (<[id := c']> (cw_conns r)), h'. split; [exact Hr|].
  rewrite (conn_worker_cells_update _ _ _ _ Hc Ha). refine (holds_perm _ _ _ H' _). solve_Permutation.
Qed.

Lemma conn_look h id c l : h ⊨ conn_cells (id, c) ++ l ->
  conn_at (cn_addr c) h = Done (id, cn_fd c, fst <$> cn_rpk c, cn_parser c, Some (cn_eps c)).
Proof. intros Hh. unfold conn_at. unfold conn_cells in Hh. cbn [app] in Hh. look Hh. reflexivity. Qed.

Definition with_rpk (p : option (addr * addr)) (c : conn_rep) : conn_rep :=
  {| cn_addr := cn_addr c; cn_fd := cn_fd c; cn_rpk := p; cn_parser := cn_parser c; cn_eps := cn_eps c |}.

(** The connection with another package: its first object changes. *)
Lemma conn_cells_rpk id c p : conn_cells (id, with_rpk p c) ≡ₚ
  (cn_addr c, a_conn id (cn_fd c) (fst <$> p) (cn_parser c) (Some (cn_eps c))) :: flat_map package_cells (option_list p) ++
  (cn_eps c, an_eps (cn_fd c) (Some (cn_addr c))) :: map (fun p => (p, a_parser)) (option_list (cn_parser c)).
Proof. unfold conn_cells. cbn. solve_Permutation. Qed.

Lemma conn_store h id c p q l :
  h ⊨ conn_cells (id, with_rpk p c) ++ flat_map package_cells (option_list q) ++ l ->
  <[cn_addr c := a_conn id (cn_fd c) (fst <$> q) (cn_parser c) (Some (cn_eps c))]> h ⊨
    conn_cells (id, with_rpk q c) ++ flat_map package_cells (option_list p) ++ l.
Proof.
  intros Hh. rewrite conn_cells_rpk in Hh. cbn [app] in Hh.
  apply (holds_store _ _ _ (a_conn id (cn_fd c) (fst <$> q) (cn_parser c) (Some (cn_eps c)))) in Hh.
  rewrite conn_cells_rpk. refine (holds_perm _ _ _ Hh _). solve_Permutation.
Qed.

Lemma with_own_rpk c : with_rpk (cn_rpk c) c = c.
Proof. by destruct c. Qed.

Lemma conn_begin_package_holds id c h l : cn_rpk c = None -> h ⊨ conn_cells (id, c) ++ l ->
  exists c' h', conn_begin_package (cn_addr c) h = Done h' /\ cn_addr c' = cn_addr c /\ h' ⊨ conn_cells (id, c') ++ [] ++ l.
Proof.
  intros Hn Hh. unfold conn_begin_package. rewrite (conn_look _ _ _ _ Hh). cbn [outcome_bind].
  destruct (new_package_holds _ _ Hh) as (r & h1 & -> & H1).
  held_by H1 (conn_cells (id, with_rpk None c) ++ flat_map package_cells (option_list (Some r)) ++ l)
    ltac:(rewrite <- Hn, with_own_rpk; cbn [option_list flat_map]; solve_Permutation).
  exists (with_rpk (Some r) c). eexists. split; [reflexivity|]. split; [reflexivity|]. exact (conn_store _ _ _ None (Some r) _ H1).
Qed.

Lemma conn_take_package_holds id c h l : h ⊨ conn_cells (id, c) ++ l ->
  exists h', conn_take_package (cn_addr c) h = Done (fst <$> cn_rpk c, h') /\
    h' ⊨ conn_cells (id, with_rpk None c) ++ flat_map package_cells (option_list (cn_rpk c)) ++ l.
Proof.
  intros Hh. unfold conn_take_package. rewrite (conn_look _ _ _ _ Hh). cbn [outcome_bind].
  eexists. split; [reflexivity|]. rewrite <- (with_own_rpk c) in Hh. exact (conn_store _ _ _ (cn_rpk c) None _ Hh).
Qed.

Lemma removeConnection_holds h r id c l : cw_conns r !! id = Some c -> h ⊨ conn_worker_cells r ++ l ->
  exists h', removeConnection (cw_addr r) (cn_eps c) h = Done h' /\
    h' ⊨ conn_worker_cells (with_conns (delete id (cw_conns r)) r) ++ l.
Proof.
  intros Hc Hh. unfold removeConnection. pose proof (conn_worker_look _ _ _ Hh) as Hw. rewrite (conn_worker_cells_lookup _ _ _ Hc) in Hh.
  rewrite <- app_assoc in Hh. pose proof (conn_look _ _ _ _ Hh) as Hl.
  assert (He : eps_at (cn_eps c) h = Done (cn_fd c, Some (cn_addr c))).
  { unfold eps_at. unfold conn_cells in Hh. cbn [app fst snd] in Hh. look Hh. reflexivity. }
  rewrite He. cbn [outcome_bind need]. rewrite Hl. cbn [outcome_bind]. rewrite Hw. cbn [outcome_bind].
  set (w := (cw_addr r, _)) in Hh. held Hh (w :: conn_cells (id, c) ++ conns_cells (delete id (cw_conns r)) ++ l). unfold w in Hh.
  apply (holds_store _ _ _ (a_conn_worker (cw_stop r) (cw_type r) (delete id (cn_addr <$> cw_conns r)))) in Hh.
  set (w' := (cw_addr r, _)) in Hh. held Hh (conn_cells (id, c) ++ w' :: conns_cells (delete id (cw_conns r)) ++ l).
  destruct (delete_conn_holds _ _ _ _ Hh) as (h1 & -> & H1). cbn [outcome_bind]. destruct (holds_free _ _ _ _ H1) as (h2 & -> & H2). exists h2. split; [reflexivity|].
  unfold conn_worker_cells. cbn [with_conns cw_addr cw_stop cw_type cw_conns app]. rewrite fmap_delete. exact H2.
Qed.

(** ** Workers *)

(** A worker that owns no service deletes none. *)
Lemma delete_worker_holds h p m l : map_Forall (fun _ b => owner b = false) m -> h ⊨ (p, a_worker m) :: l ->
  exists h', delete_worker p h = Done h' /\ h' ⊨ l.
Proof.
  intros Hm Hh. unfold delete_worker, worker_at. rewrite (holds_lookup _ _ _ _ Hh). cbn [outcome_bind].
  assert (Hk : forall bs, (forall b, b ∈ bs -> owner b = false) -> each drop_block bs h = Done h).
  { induction bs as [|b bs IH]; intros Hb; [reflexivity|]. cbn [each]. unfold drop_block at 1.
    rewrite (Hb b (list_elem_of_here b bs)). cbn [outcome_bind]. apply IH. intros x Hx. apply Hb. by constructor. }
  rewrite Hk; [exact (holds_free _ _ _ _ Hh)|]. intros b Hb. apply list_elem_of_fmap in Hb as ([name b'] & -> & Hb).
  apply elem_of_map_to_list in Hb. exact (Hm name b' Hb).
Qed.

Lemma fine_deletes ss rs : Forall (worker_fine ss) rs -> Forall (deletes_real delete_worker) rs.
Proof.
  intros Hf. refine (Forall_impl _ _ _ Hf _). intros r (m & Hm & Hr) h l Hh. rewrite Hm in Hh.
  refine (delete_worker_holds _ _ _ _ _ Hh). intros name b Hb. exact (proj1 (Hr name b Hb)).
Qed.

(** A worker that knows one service more. *)
Definition with_service (name : string) (b : ServiceBlock) (r : pool_worker_rep) : pool_worker_rep :=
  {| pw_addr := pw_addr r; pw_stop := pw_stop r; pw_thread := pw_thread r; pw_real := pw_real r;
     pw_object := match pw_object r with a_worker m => a_worker (<[name := b]> m) | o => o end |}.

Lemma worker_addService_holds name s own ss h r l : worker_fine ss r -> h ⊨ pool_worker_cells r ++ l ->
  exists h', worker_addService name s own (pw_real r) h = Done h' /\ h' ⊨ pool_worker_cells (with_service name (mk_block s own) r) ++ l.
Proof.
  intros (m & Hm & _) Hh. unfold worker_addService, worker_at. unfold pool_worker_cells in Hh |- *.
  cbn [app with_service pw_addr pw_stop pw_thread pw_real pw_object] in Hh |- *. rewrite Hm in Hh |- *. look Hh.
  cbn [outcome_bind]. eexists. split; [reflexivity|]. set (w := (pw_addr r, _)) in Hh |- *.
  held Hh ((pw_real r, a_worker m) :: w :: (pw_thread r, a_thread) :: l).
  apply (holds_store _ _ _ (a_worker (<[name := mk_block s own]> m))) in Hh. refine (holds_perm _ _ _ Hh _). solve_Permutation.
Qed.

Lemma pool_addService_holds name s ss h p rs l : Forall (worker_fine ss) rs -> h ⊨ pool_cells p rs ++ l ->
  exists h', pool_addService name s p h = Done h' /\ h' ⊨ pool_cells p (map (with_service name (mk_block (Some s) false)) rs) ++ l.
Proof.
  intros Hf Hh. unfold pool_addService. rewrite (getWorkers_holds _ _ _ _ Hh). cbn [outcome_bind]. unfold pool_cells in Hh.
  held Hh (flat_map pool_worker_cells rs ++ (p, a_pool (map pw_addr rs)) :: l).
  destruct (each_holds (worker_addService name (Some s) false) pw_real _ (fun r => pool_worker_cells (with_service name (mk_block (Some s) false) r)) rs
              (fun r h l Hr => worker_addService_holds name (Some s) false ss h r l (proj1 (Forall_forall _ _) Hf r Hr)) _ _ Hh) as (h1 & -> & H1).
  eexists. split; [reflexivity|]. refine (holds_perm _ _ _ H1 _). unfold pool_cells. rewrite map_map, (flat_map_of_map pool_worker_cells).
  cbn [with_service pw_addr]. solve_Permutation.
Qed.

Lemma with_service_fine ss name s rs : s ∈ ss -> Forall (worker_fine ss) rs ->
  Forall (worker_fine ss) (map (with_service name (mk_block (Some s) false)) rs).
Proof.
  intros Hs Hr. apply Forall_fmap. refine (Forall_impl _ _ _ Hr _). intros r (m & Hm & Hf). exists (<[name := mk_block (Some s) false]> m).
  split; [cbn; by rewrite Hm|]. apply map_Forall_insert_2; [|exact Hf]. split; [reflexivity|]. eauto.
Qed.
End Parts.

(** * The server and the program around it *)

Record world_rep := mk_rep {
  wr_server : addr;
  wr_stopped : bool;
  wr_status : addr;
  wr_pool : addr;
  wr_rpc : list addr;
  wr_http : list addr;
  wr_workers : list pool_worker_rep;          (* as long as the server is not stopped *)
  wr_services : list service_rep;             (* the status service, the user's, the ones made *)
  wr_conn_workers : list conn_worker_rep;
  wr_packages : list (addr * addr);
  wr_watched : list (addr * object)
}.

Definition server_cells (R : world_rep) : list (addr * object) :=
  (wr_server R, a_server (wr_stopped R) (wr_status R) (wr_pool R) (wr_rpc R) (wr_http R)) ::
  (if wr_stopped R then [] else pool_cells (wr_pool R) (wr_workers R)).

Definition rep_cells (p : addr) (R : world_rep) : list (addr * object) :=
  (p, a_facade (wr_server R)) :: server_cells R ++ flat_map service_cells (wr_services R) ++
  flat_map conn_worker_cells (wr_conn_workers R) ++ flat_map package_cells (wr_packages R) ++ wr_watched R.

(** The world holds the objects of [R], and besides these [l]. *)
Record world_ok (w : world) (R : world_rep) (l : list (addr * object)) : Prop := {
  wo_heap : w_heap w ⊨ rep_cells (w_server w) R ++ l;
  wo_services : map sr_addr (wr_services R) ≡ₚ wr_status R :: w_services w ++ w_made w;
  wo_conn_workers : map cw_addr (wr_conn_workers R) = wr_rpc R ++ wr_http R;
  wo_packages : map fst (wr_packages R) = w_packages w;
  wo_watched : map fst (wr_watched R) = w_watched w;
  wo_fine : Forall (worker_fine (map sr_addr (wr_services R))) (wr_workers R)
}.

Definition rep_services (v : list service_rep) (R : world_rep) : world_rep :=
  mk_rep (wr_server R) (wr_stopped R) (wr_status R) (wr_pool R) (wr_rpc R) (wr_http R) (wr_workers R) v (wr_conn_workers R) (wr_packages R) (wr_watched R).
Definition rep_conn_workers (v : list conn_worker_rep) (R : world_rep) : world_rep :=
  mk_rep (wr_server R) (wr_stopped R) (wr_status R) (wr_pool R) (wr_rpc R) (wr_http R) (wr_workers R) (wr_services R) v (wr_packages R) (wr_watched R).
Definition rep_workers (v : list pool_worker_rep) (R : world_rep) : world_rep :=
  mk_rep (wr_server R) (wr_stopped R) (wr_status R) (wr_pool R) (wr_rpc R) (wr_http R) v (wr_services R) (wr_conn_workers R) (wr_packages R) (wr_watched R).
Definition rep_packages (v : list (addr * addr)) (R : world_rep) : world_rep :=
  mk_rep (wr_server R) (wr_stopped R) (wr_status R) (wr_pool R) (wr_rpc R) (wr_http R) (wr_workers R) (wr_services R) (wr_conn_workers R) v (wr_watched R).
Definition rep_watched (v : list (addr * object)) (R : world_rep) : world_rep :=
  mk_rep (wr_server R) (wr_stopped R) (wr_status R) (wr_pool R) (wr_rpc R) (wr_http R) (wr_workers R) (wr_services R) (wr_conn_workers R) (wr_packages R) v.
Definition rep_stopped (R : world_rep) : world_rep :=
  mk_rep (wr_server R) true (wr_status R) (wr_pool R) (wr_rpc R) (wr_http R) [] (wr_services R)
    (map stopped_conn_worker (wr_conn_workers R)) (wr_packages R) (wr_watched R).

Section World.
Context `{AllocatorLaw}.

Lemma facade_look w R l : world_ok w R l -> facade_at (w_server w) (w_heap w) = Done (wr_server R).
Proof. intros [Hh]. unfold facade_at. unfold rep_cells in Hh. cbn [app] in Hh. look Hh. reflexivity. Qed.

Lemma server_look w R l : world_ok w R l ->
  server_at (wr_server R) (w_heap w) = Done (wr_stopped R, wr_status R, wr_pool R, wr_rpc R, wr_http R).
Proof. intros [Hh]. unfold server_at. unfold rep_cells, server_cells in Hh. cbn [app] in Hh. look Hh. reflexivity. Qed.

(** One service of the program, and the way back once it has changed. *)
Lemma focus_service w R l p : world_ok w R l -> p ∈ map sr_addr (wr_services R) ->
  exists r rest, sr_addr r = p /\ w_heap w ⊨ service_cells r ++ rest /\
    forall r' h', sr_addr r' = p -> h' ⊨ service_cells r' ++ rest ->
      exists R', world_ok (put_heap h' w) R' l /\ wr_stopped R' = wr_stopped R /\ map sr_addr (wr_services R') = map sr_addr (wr_services R).
Proof.
  intros [Hh Hs Hc Hp Hw Hf] Hin. apply pick_addr in Hin as (pre & r & post & Hr & Ha).
  unfold rep_cells in Hh. rewrite Hr, (flat_map_pick service_cells) in Hh.
  set (others := flat_map service_cells (pre ++ post)) in Hh.
  held Hh (service_cells r ++ others ++ (w_server w, a_facade (wr_server R)) :: server_cells R ++
    flat_map conn_worker_cells (wr_conn_workers R) ++ flat_map package_cells (wr_packages R) ++ wr_watched R ++ l).
  eexists r, _. split; [exact Ha|]. split; [exact Hh|]. intros r' h' Ha' H'. exists (rep_services (pre ++ r' :: post) R).
  assert (Hm : map sr_addr (pre ++ r' :: post) = map sr_addr (wr_services R)) by (rewrite Hr, !map_app; cbn; by rewrite Ha, Ha').
  split; [|split; [reflexivity | exact Hm]].
  split; cbn [rep_services wr_services wr_status wr_conn_workers wr_rpc wr_http wr_packages wr_watched wr_workers]; rewrite ?Hm; try assumption.
  unfold rep_cells. cbn [rep_services wr_services wr_server wr_conn_workers wr_packages wr_watched put_heap w_heap w_server].
  rewrite (flat_map_pick service_cells). fold others. refine (holds_perm _ _ _ H' _).
  change (server_cells (rep_services _ R)) with (server_cells R). solve_Permutation.
Qed.

(** One connection worker, which may leave objects over. *)
Lemma focus_conn_worker w R l i p : world_ok w R l -> (wr_rpc R ++ wr_http R) !! i = Some p ->
  exists r rest, cw_addr r = p /\ w_heap w ⊨ conn_worker_cells r ++ rest /\
    forall r' extra h', cw_addr r' = p -> h' ⊨ conn_worker_cells r' ++ extra ++ rest ->
      exists R', world_ok (put_heap h' w) R' (extra ++ l) /\ wr_stopped R' = wr_stopped R.
Proof.
  intros [Hh Hs Hc Hp Hw Hf] Hin. apply list_elem_of_lookup_2 in Hin. rewrite <- Hc in Hin.
  apply pick_addr in Hin as (pre & r & post & Hr & Ha). unfold rep_cells in Hh. rewrite Hr, (flat_map_pick conn_worker_cells) in Hh.
  set (others := flat_map conn_worker_cells (pre ++ post)) in Hh.
  held Hh (conn_worker_cells r ++ others ++ (w_server w, a_facade (wr_server R)) :: server_cells R ++
    flat_map service_cells (wr_services R) ++ flat_map package_cells (wr_packages R) ++ wr_watched R ++ l).
  eexists r, _. split; [exact Ha|]. split; [exact Hh|]. intros r' extra h' Ha' H'. exists (rep_conn_workers (pre ++ r' :: post) R).
  assert (Hm : map cw_addr (pre ++ r' :: post) = map cw_addr (wr_conn_workers R)) by (rewrite Hr, !map_app; cbn; by rewrite Ha, Ha').
  split; [|reflexivity].
  split; cbn [rep_conn_workers wr_services wr_status wr_conn_workers wr_rpc wr_http wr_packages wr_watched wr_workers]; rewrite ?Hm; try assumption.
  unfold rep_cells. cbn [rep_conn_workers wr_services wr_server wr_conn_workers wr_packages wr_watched put_heap w_heap w_server].
  rewrite (flat_map_pick conn_worker_cells). fold others. refine (holds_perm _ _ _ H' _).
  change (server_cells (rep_conn_workers _ R)) with (server_cells R). solve_Permutation.
Qed.

(** [stop]: the connection workers are told, the pool goes. *)
Lemma facade_stop_holds w R l : world_ok w R l ->
  exists h', facade_stop (w_server w) (w_heap w) = Done h' /\ world_ok (put_heap h' w) (if wr_stopped R then R else rep_stopped R) l /\
    (wr_stopped R = false -> h' !! wr_pool R = None).
Proof.
  intros Hw. unfold facade_stop. rewrite (facade_look _ _ _ Hw). cbn [outcome_bind]. unfold stop_server. rewrite (server_look _ _ _ Hw).
  cbn [outcome_bind]. destruct (wr_stopped R) eqn:Est; [exists (w_heap w); split; [reflexivity | split; [by destruct w | discriminate]]|].
  destruct Hw as [Hh Hs Hc Hp Hwt Hf]. unfold rep_cells, server_cells in Hh. rewrite Est in Hh.
  set (rest := flat_map service_cells (wr_services R) ++ flat_map package_cells (wr_packages R) ++ wr_watched R ++ (w_server w, a_facade (wr_server R)) :: l).
  held_by Hh ((wr_server R, a_server false (wr_status R) (wr_pool R) (wr_rpc R) (wr_http R)) ::
    flat_map conn_worker_cells (wr_conn_workers R) ++ pool_cells (wr_pool R) (wr_workers R) ++ rest) ltac:(unfold rest; solve_Permutation).
  apply (holds_store _ _ _ (a_server true (wr_status R) (wr_pool R) (wr_rpc R) (wr_http R))) in Hh.
  set (sv := (wr_server R, _)) in Hh.
  held Hh (flat_map conn_worker_cells (wr_conn_workers R) ++ pool_cells (wr_pool R) (wr_workers R) ++ sv :: rest).
  destruct (each_holds stop_conn_worker cw_addr _ (fun r => conn_worker_cells (stopped_conn_worker r)) _
              (fun r h l _ => stop_conn_worker_holds h r l) _ _ Hh) as (h1 & Hr & H1).
  rewrite Hc, each_app in Hr. destruct (each stop_conn_worker (wr_rpc R) _) as [h0|]; [|discriminate Hr]. cbn [outcome_bind] in Hr |- *.
  rewrite Hr. cbn [outcome_bind].
  held H1 (pool_cells (wr_pool R) (wr_workers R) ++ flat_map (fun r => conn_worker_cells (stopped_conn_worker r)) (wr_conn_workers R) ++ sv :: rest).
  destruct (delete_pool_holds _ _ _ _ _ (fine_deletes _ _ Hf) H1) as (h2 & -> & H2). exists h2. split; [reflexivity|].
  split; [|intros _; exact (holds_gone _ _ _ _ (flat_map pool_worker_cells (wr_workers R)) _ H1 H2)].
  split; cbn [rep_stopped wr_services wr_status wr_conn_workers wr_rpc wr_http wr_packages wr_watched wr_workers];
    [|assumption| |assumption..|constructor].
  - refine (holds_perm _ _ _ H2 _). unfold rep_cells, server_cells.
    cbn [rep_stopped put_heap w_server wr_server wr_stopped wr_services wr_status wr_conn_workers wr_rpc wr_http wr_packages wr_watched wr_pool].
    rewrite (flat_map_of_map conn_worker_cells). unfold rest, sv. solve_Permutation.
  - rewrite map_map. cbn [stopped_conn_worker cw_addr]. exact Hc.
Qed.

(** The services of the program: the server's, the user's, the ones made. *)
Lemma services_split w R l : world_ok w R l ->
  exists s us ms, wr_services R ≡ₚ s :: us ++ ms /\ sr_addr s = wr_status R /\ map sr_addr us = w_services w /\ map sr_addr ms = w_made w.
Proof.
  intros [_ Hs _ _ _ _]. symmetry in Hs. apply Permutation_map_inv in Hs as (rs & Hm & Hp).
  symmetry in Hm. apply map_eq_cons in Hm as (s & rs' & -> & Ha & Hm). apply map_eq_app in Hm as (us & ms & -> & Hu & Hms). eauto 10.
Qed.

Definition left_conns (R : world_rep) : list (addr * object) := flat_map (fun r => conns_cells (cw_conns r)) (wr_conn_workers R).

(** Deleting a stopped server leaves its connections. *)
Lemma delete_stopped_holds w R l s us : world_ok w R l -> wr_stopped R = true -> wr_services R ≡ₚ s :: us -> sr_addr s = wr_status R ->
  exists h', delete_facade (w_server w) (w_heap w) = Done h' /\
    h' ⊨ left_conns R ++ flat_map service_cells us ++ flat_map package_cells (wr_packages R) ++ wr_watched R ++ l.
Proof.
  intros Hw Hst Hperm Hs. unfold delete_facade. rewrite (facade_look _ _ _ Hw). cbn [outcome_bind]. unfold delete_server, stop_server.
  rewrite (server_look _ _ _ Hw), Hst. cbn [outcome_bind]. rewrite (server_look _ _ _ Hw). cbn [outcome_bind].
  destruct Hw as [Hh _ Hc _ _ _]. unfold rep_cells, server_cells in Hh. rewrite Hst, Hperm in Hh. cbn [flat_map] in Hh.
  set (sv := (wr_server R, _)) in Hh. set (fc := (w_server w, _)) in Hh. set (pk := flat_map package_cells _) in *.
  held Hh (flat_map conn_worker_cells (wr_conn_workers R) ++ service_cells s ++ sv :: fc :: flat_map service_cells us ++ pk ++ wr_watched R ++ l).
  destruct (each_holds delete_conn_worker cw_addr _ (fun r => conns_cells (cw_conns r)) _
              (fun r h l _ => delete_conn_worker_holds h r l) _ _ Hh) as (h1 & Hr & H1).
  rewrite Hc, each_app in Hr. destruct (each delete_conn_worker (wr_rpc R) _) as [h0|]; [|discriminate Hr]. cbn [outcome_bind] in Hr |- *.
  rewrite Hr. cbn [outcome_bind]. fold (left_conns R) in H1.
  held H1 (service_cells s ++ sv :: fc :: left_conns R ++ flat_map service_cells us ++ pk ++ wr_watched R ++ l).
  rewrite <- Hs. destruct (delete_service_holds _ _ _ H1) as (h2 & -> & H2). cbn [outcome_bind].
  destruct (holds_free _ _ _ _ H2) as (h3 & -> & H3). exact (holds_free _ _ _ _ H3).
Qed.

(** Deleting a server stops it first. *)
Lemma delete_facade_stops w R l h1 : world_ok w R l -> facade_stop (w_server w) (w_heap w) = Done h1 ->
  world_ok (put_heap h1 w) (if wr_stopped R then R else rep_stopped R) l -> delete_facade (w_server w) (w_heap w) = delete_facade (w_server w) h1.
Proof.
  intros Hw Hstop Hw1. pose proof (facade_look _ _ _ Hw) as Hf. pose proof (facade_look _ _ _ Hw1) as Hf1. cbn [put_heap w_server w_heap] in Hf1.
  replace (wr_server (if wr_stopped R then R else rep_stopped R)) with (wr_server R) in Hf1 by (destruct (wr_stopped R); reflexivity).
  unfold facade_stop in Hstop. rewrite Hf in Hstop. cbn [outcome_bind] in Hstop.
  unfold delete_facade. rewrite Hf, Hf1. cbn [outcome_bind]. unfold delete_server. rewrite Hstop. cbn [outcome_bind].
  pose proof (server_look _ _ _ Hw1) as Hs. cbn [put_heap w_heap] in Hs.
  replace (stop_server (wr_server R) h1) with (Done h1); [reflexivity|]. unfold stop_server.
  destruct (wr_stopped R) eqn:E; [rewrite E in Hs|]; cbn [rep_stopped wr_server wr_stopped] in Hs; rewrite Hs; reflexivity.
Qed.

Lemma left_conns_stopped R : left_conns (rep_stopped R) = left_conns R.
Proof. exact (flat_map_of_map (fun r => conns_cells (cw_conns r)) stopped_conn_worker _). Qed.

Lemma delete_facade_holds w R l s us : world_ok w R l -> wr_services R ≡ₚ s :: us -> sr_addr s = wr_status R ->
  exists h', delete_facade (w_server w) (w_heap w) = Done h' /\
    h' ⊨ left_conns R ++ flat_map service_cells us ++ flat_map package_cells (wr_packages R) ++ wr_watched R ++ l.
Proof.
  intros Hw Hperm Hs. destruct (facade_stop_holds _ _ _ Hw) as (h1 & Hstop & Hw1 & _). rewrite (delete_facade_stops _ _ _ _ Hw Hstop Hw1).
  destruct (wr_stopped R) eqn:E; [exact (delete_stopped_holds _ _ _ s us Hw1 E Hperm Hs)|].
  rewrite <- left_conns_stopped. exact (delete_stopped_holds _ _ _ s us Hw1 eq_refl Hperm Hs).
Qed.

(** The end of the program: what nobody holds is left. *)
Lemma shut_down_holds w R l : world_ok w R l ->
  exists h' ms, shut_down w = Done h' /\ map sr_addr ms = w_made w /\ (forall s, s ∈ ms -> s ∈ wr_services R) /\
    h' ⊨ left_conns R ++ wr_watched R ++ flat_map service_cells ms ++ l.
Proof.
  intros Hw. destruct (services_split _ _ _ Hw) as (s & us & ms & Hperm & Hst & Hus & Hms).
  pose proof Hw as [Hh _ Hc Hp Hwt Hf]. unfold shut_down. rewrite <- Hp. unfold rep_cells in Hh.
  held Hh (flat_map package_cells (wr_packages R) ++ (w_server w, a_facade (wr_server R)) :: server_cells R ++ flat_map service_cells (wr_services R) ++
    flat_map conn_worker_cells (wr_conn_workers R) ++ wr_watched R ++ l).
  destruct (each_gone delete_package fst _ _ delete_package_holds _ _ Hh) as (h1 & -> & H1). cbn [outcome_bind].
  assert (Hw1 : world_ok (put_packages [] (put_heap h1 w)) (rep_packages [] R) l).
  { split; try assumption; [|exact (wo_services _ _ _ Hw) | reflexivity]. refine (holds_perm _ _ _ H1 _). unfold rep_cells. cbn. solve_Permutation. }
  destruct (delete_facade_holds _ _ _ _ _ Hw1 Hperm Hst) as (h2 & Hd & H2). cbn [put_packages put_heap w_server w_heap] in Hd.
  rewrite Hd. cbn [outcome_bind]. cbn [rep_packages wr_packages flat_map app wr_watched] in H2. rewrite flat_map_app in H2.
  change (left_conns (rep_packages [] R)) with (left_conns R) in H2.
  held H2 (flat_map service_cells us ++ left_conns R ++ wr_watched R ++ flat_map service_cells ms ++ l).
  rewrite <- Hus. destruct (each_gone delete_service sr_addr _ _ delete_service_holds _ _ H2) as (h3 & -> & H3).
  exists h3, ms. split; [reflexivity|]. split; [exact Hms|]. split; [|exact H3].
  intros x Hx. rewrite Hperm, elem_of_cons, elem_of_app. tauto.
Qed.

(** ** The beginning *)

Lemma new_status_service_holds get_status h l : h ⊨ l ->
  exists r h', new_status_service get_status h = Done (sr_addr r, h') /\ h' ⊨ service_cells r ++ l.
Proof.
  intros Hh. unfold new_status_service. destruct (new_service_holds _ _ Hh) as (r0 & h1 & -> & _ & H1).
  destruct (service_add_method_holds _ _ "get_status" get_status true _ H1) as (r & h2 & -> & Ha & _ & H2). cbn [outcome_bind].
  rewrite <- Ha, (find_method_holds _ _ "get_status" _ H2). cbn [outcome_bind].
  destruct (sr_methods r !! "get_status"%string) as [m|] eqn:Em; cbn [fmap option_fmap option_map]; [|exists r, h2; auto].
  cbn [method_at Objects.m_status need outcome_bind]. unfold status_at. pose proof H2 as Hs. rewrite (service_cells_split _ _ _ Em) in Hs.
  cbn [app] in Hs. look Hs. cbn [outcome_bind]. exists (set_counts "get_status" m (disable (Service.m_status (mr_value m))) r). eexists.
  split; [reflexivity|]. exact (set_counts_holds _ _ _ _ _ _ Em H2).
Qed.

Lemma new_world_holds get_status cfg h l : h ⊨ l ->
  exists w R, new_world get_status cfg h = Done w /\ world_ok w R l /\ wr_stopped R = false.
Proof.
  intros Hh. unfold new_world, new_facade, new_server.
  destruct (new_status_service_holds get_status _ _ Hh) as (st & h1 & -> & H1). cbn [outcome_bind].
  change new_worker with (new_obj (a_worker ∅)).
  destruct (new_pool_holds (a_worker ∅) (Z.to_nat (getThreadNum cfg)) _ _ H1) as (pool & ws & h2 & -> & He & H2).
  assert (Hfine : Forall (worker_fine [sr_addr st]) ws).
  { refine (Forall_impl _ _ _ He _). intros r Hr. exists ∅. split; [exact Hr | apply map_Forall_empty]. }
  destruct (pool_addService_holds "status" (sr_addr st) _ _ _ _ _ Hfine H2) as (h3 & -> & H3). cbn [outcome_bind].
  destruct (new_conn_workers_holds RPC_CONN (Z.to_nat (getConnThreadNum cfg)) _ _ H3) as (rpc & h4 & -> & H4).
  set (new_http := if getHttpPort cfg =? -1 then ([], h4) else _).
  assert (exists http h5, new_http = (map cw_addr http, h5) /\ h5 ⊨ flat_map conn_worker_cells http ++ flat_map conn_worker_cells rpc ++
            pool_cells pool (map (with_service "status" (mk_block (Some (sr_addr st)) false)) ws) ++ service_cells st ++ l)
    as (http & h5 & -> & H5).
  { unfold new_http. destruct (getHttpPort cfg =? -1); [exists [], h4; auto | exact (new_conn_workers_holds HTTP_CONN _ _ _ H4)]. }
  set (ws' := map _ ws) in H5. destruct (new_obj (a_server _ _ _ _ _) h5) as [sv h6] eqn:E6. apply (holds_new _ _ _ _ _ H5) in E6. cbn [outcome_bind].
  destruct (new_obj (a_facade sv) h6) as [fc h7] eqn:E7. apply (holds_new _ _ _ _ _ E6) in E7. cbn [outcome_bind].
  eexists. exists (mk_rep sv false (sr_addr st) pool (map cw_addr rpc) (map cw_addr http) ws' [st] (rpc ++ http) [] []).
  split; [reflexivity|]. split; [|reflexivity].
  split; cbn [wr_services wr_status wr_conn_workers wr_rpc wr_http wr_packages wr_watched wr_workers w_services w_made w_packages w_watched w_heap w_server];
    try reflexivity.
  - refine (holds_perm _ _ _ E7 _). unfold rep_cells, server_cells.
    cbn [wr_server wr_stopped wr_services wr_status wr_conn_workers wr_rpc wr_http wr_packages wr_watched wr_pool wr_workers flat_map].
    rewrite flat_map_app. solve_Permutation.
  - rewrite map_app. reflexivity.
  - apply with_service_fine; [by constructor | exact Hfine].
Qed.

(** ** The steps *)

Definition may_add (stopped : bool) (a : action) : Prop := match a with AddService _ _ _ => stopped = false | _ => True end.
Definition stops (a : action) (stopped : bool) : bool := match a with StopServer => true | _ => stopped end.

(** The world after a step; the server is stopped if it was, or is now. *)
Definition steps_to (r : outcome world) (l : list (addr * object)) (stopped : bool) : Prop :=
  exists w R, r = Done w /\ world_ok w R l /\ wr_stopped R = stopped.

Lemma same_world w R l : world_ok w R l -> steps_to (Done w) l (wr_stopped R).
Proof. intros Hw. exists w, R. auto. Qed.

Lemma put_own_heap w : put_heap (w_heap w) w = w.
Proof. by destruct w. Qed.

(** A service joins the user's, or the ones the server has made. *)
Lemma service_joins w R l r h' v : world_ok w R l -> h' ⊨ service_cells r ++ rep_cells (w_server w) R ++ l ->
  v = put_services (w_services w ++ [sr_addr r]) (put_heap h' w) \/ v = put_made (w_made w ++ [sr_addr r]) (put_heap h' w) ->
  world_ok v (rep_services (r :: wr_services R) R) l.
Proof.
  intros [Hh Hs Hc Hp Hw Hf] H' Hv. assert (w_server v = w_server w /\ w_heap v = h' /\ w_packages v = w_packages w /\ w_watched v = w_watched w)
    as (Ev & Eh & Ep & Ew) by (destruct Hv as [-> | ->]; auto).
  split; rewrite ?Ev, ?Eh, ?Ep, ?Ew; cbn [rep_services wr_services wr_status wr_conn_workers wr_rpc wr_http wr_packages wr_watched wr_workers]; try assumption.
  - refine (holds_perm _ _ _ H' _). unfold rep_cells. cbn [rep_services wr_services wr_server wr_conn_workers wr_packages wr_watched flat_map].
    change (server_cells (rep_services _ R)) with (server_cells R). solve_Permutation.
  - cbn [map]. rewrite Hs. destruct Hv as [-> | ->]; cbn [put_services put_made put_heap w_services w_made]; solve_Permutation.
  - refine (Forall_impl _ _ _ Hf _). intros x. apply worker_fine_more. cbn [map]. set_solver.
Qed.

Lemma NewService_holds w R l : world_ok w R l -> steps_to (act NewService w) l (wr_stopped R).
Proof.
  intros Hw. cbn [act]. destruct (new_service_holds _ _ (wo_heap _ _ _ Hw)) as (r & h' & -> & _ & H').
  do 2 eexists. split; [reflexivity|]. split; [exact (service_joins _ _ _ _ _ _ Hw H' (or_introl eq_refl)) | reflexivity].
Qed.

Lemma user_service w R l k p : world_ok w R l -> w_services w !! k = Some p -> p ∈ map sr_addr (wr_services R).
Proof. intros Hw Hk. apply list_elem_of_lookup_2 in Hk. rewrite (wo_services _ _ _ Hw). set_solver. Qed.

Lemma ops_hold w R l p ops : world_ok w R l -> p ∈ map sr_addr (wr_services R) ->
  exists h' R', each (run_op p) ops (w_heap w) = Done h' /\ world_ok (put_heap h' w) R' l /\ wr_stopped R' = wr_stopped R /\
    map sr_addr (wr_services R') = map sr_addr (wr_services R).
Proof.
  intros Hw Hp. destruct (focus_service _ _ _ _ Hw Hp) as (r & rest & <- & Hh & Hback).
  destruct (run_ops_hold ops _ _ _ Hh) as (r' & h' & Hr & Ha & _ & H'). destruct (Hback r' h' Ha H') as (R' & Hw' & Hst & Hm). eauto 10.
Qed.

Lemma ServiceOp_holds w R l k o : world_ok w R l -> steps_to (act (ServiceOp k o) w) l (wr_stopped R).
Proof.
  intros Hw. cbn [act]. destruct (w_services w !! k) as [p|] eqn:Ek; [|exact (same_world _ _ _ Hw)].
  destruct (ops_hold _ _ _ p [o] Hw (user_service _ _ _ _ _ Hw Ek)) as (h' & R' & Hr & Hw' & Hst & _). cbn [each] in Hr.
  destruct (run_op p o (w_heap w)) as [h1|]; [|discriminate Hr]. injection Hr as ->.
  exists (put_heap h' w), R'. auto.
Qed.

Lemma addServiceImp_holds w R l name p : world_ok w R l -> wr_stopped R = false -> p ∈ map sr_addr (wr_services R) ->
  exists h' R', addServiceImp name p (w_server w) (w_heap w) = Done h' /\ world_ok (put_heap h' w) R' l /\ wr_stopped R' = false.
Proof.
  intros Hw Hst Hp. unfold addServiceImp. rewrite (facade_look _ _ _ Hw). cbn [outcome_bind]. unfold server_addService.
  rewrite (server_look _ _ _ Hw). cbn [outcome_bind]. destruct Hw as [Hh Hs Hc Hpk Hw Hf]. unfold rep_cells, server_cells in Hh. rewrite Hst in Hh.
  set (rest := (wr_server R, a_server false (wr_status R) (wr_pool R) (wr_rpc R) (wr_http R)) :: flat_map service_cells (wr_services R) ++
    flat_map conn_worker_cells (wr_conn_workers R) ++ flat_map package_cells (wr_packages R) ++ wr_watched R ++ (w_server w, a_facade (wr_server R)) :: l).
  held_by Hh (pool_cells (wr_pool R) (wr_workers R) ++ rest) ltac:(unfold rest; solve_Permutation).
  destruct (pool_addService_holds name p _ _ _ _ _ Hf Hh) as (h' & -> & H').
  exists h', (rep_workers (map (with_service name (mk_block (Some p) false)) (wr_workers R)) R). split; [reflexivity|]. split; [|exact Hst].
  split; cbn [rep_workers wr_services wr_status wr_conn_workers wr_rpc wr_http wr_packages wr_watched wr_workers]; try assumption.
  - refine (holds_perm _ _ _ H' _). unfold rep_cells, server_cells.
    cbn [rep_workers put_heap w_server wr_server wr_stopped wr_services wr_status wr_conn_workers wr_rpc wr_http wr_packages wr_watched wr_pool wr_workers].
    rewrite Hst. unfold rest. solve_Permutation.
  - exact (with_service_fine _ name p _ Hp Hf).
Qed.

Lemma AddService_holds w R l ops name k : world_ok w R l -> wr_stopped R = false -> steps_to (act (AddService ops name k) w) l false.
Proof.
  intros Hw Hst. destruct k as [k|]; cbn [act addService].
  - destruct (w_services w !! k) as [p|] eqn:Ek; [|rewrite <- Hst; exact (same_world _ _ _ Hw)].
    destruct (addServiceImp_holds _ _ _ name p Hw Hst (user_service _ _ _ _ _ Hw Ek)) as (h' & R' & -> & Hw' & Hst').
    exists (put_heap h' w), R'. auto.
  - destruct (new_service_holds _ _ (wo_heap _ _ _ Hw)) as (r & h1 & -> & _ & H1).
    pose proof (service_joins _ _ _ _ _ _ Hw H1 (or_intror eq_refl)) as Hw1.
    destruct (ops_hold _ _ _ (sr_addr r) ops Hw1 (list_elem_of_here _ _)) as (h2 & R2 & Hr2 & Hw2 & Hst2 & Hm2).
    cbn [put_made put_heap w_heap] in Hr2. rewrite Hr2. cbn [outcome_bind].
    assert (Hin : sr_addr r ∈ map sr_addr (wr_services R2)) by (rewrite Hm2; apply list_elem_of_here).
    destruct (addServiceImp_holds _ _ _ name (sr_addr r) Hw2 (eq_trans Hst2 Hst) Hin) as (h3 & R3 & Hr & Hw3 & Hst3).
    cbn [put_made put_heap w_server w_heap] in Hr. rewrite Hr. cbn [outcome_bind option_list].
    do 2 eexists. split; [reflexivity|]. split; [exact Hw3 | exact Hst3].
Qed.

Lemma StopServer_holds w R l : world_ok w R l -> steps_to (act StopServer w) l true.
Proof.
  intros Hw. cbn [act]. destruct (facade_stop_holds _ _ _ Hw) as (h' & -> & Hw' & _). do 2 eexists. split; [reflexivity|]. split; [exact Hw'|].
  destruct (wr_stopped R) eqn:E; [exact E | reflexivity].
Qed.

Lemma conn_worker_of_look w R l i : world_ok w R l -> conn_worker_of w i = Done ((wr_rpc R ++ wr_http R) !! i).
Proof. intros Hw. unfold conn_worker_of. rewrite (facade_look _ _ _ Hw). cbn [outcome_bind]. rewrite (server_look _ _ _ Hw). reflexivity. Qed.

Lemma StartConnWorker_holds w R l i listen_fd ev_fd : world_ok w R l -> steps_to (act (StartConnWorker i listen_fd ev_fd) w) l (wr_stopped R).
Proof.
  intros Hw. cbn [act]. rewrite (conn_worker_of_look _ _ _ _ Hw). cbn [outcome_bind].
  destruct ((wr_rpc R ++ wr_http R) !! i); [|exact (same_world _ _ _ Hw)]. unfold start_conn_worker.
  destruct (new_obj _ (w_heap w)) as [e1 h1] eqn:E1. apply (holds_new _ _ _ _ _ (wo_heap _ _ _ Hw)) in E1.
  assert (Hj : forall es h', h' ⊨ es ++ rep_cells (w_server w) R ++ l ->
            steps_to (Done (put_watched (map fst es ++ w_watched w) (put_heap h' w))) l (wr_stopped R)).
  { intros es h' H'. destruct Hw as [Hh Hs Hc Hp Hwt Hf]. do 2 eexists. split; [reflexivity|].
    split; [|exact (eq_refl : wr_stopped (rep_watched (es ++ wr_watched R) R) = wr_stopped R)].
    split; cbn [rep_watched wr_services wr_status wr_conn_workers wr_rpc wr_http wr_packages wr_watched wr_workers]; try assumption.
    - refine (holds_perm _ _ _ H' _). unfold rep_cells. cbn [rep_watched wr_services wr_server wr_conn_workers wr_packages wr_watched].
      change (server_cells (rep_watched _ R)) with (server_cells R). solve_Permutation.
    - rewrite map_app, Hwt. reflexivity. }
  destruct (ev_fd =? -1); [exact (Hj [(e1, _)] _ E1)|]. destruct (new_obj _ h1) as [e2 h2] eqn:E2. apply (holds_new _ _ _ _ _ E1) in E2.
  apply (Hj [(e1, an_eps listen_fd None); (e2, an_eps ev_fd None)] h2). refine (holds_perm _ _ _ E2 _). solve_Permutation.
Qed.

Lemma Accept_holds w R l i fd id : world_ok w R l -> steps_to (act (Accept i fd id) w) l (wr_stopped R).
Proof.
  intros Hw. cbn [act]. rewrite (conn_worker_of_look _ _ _ _ Hw). cbn [outcome_bind].
  destruct ((wr_rpc R ++ wr_http R) !! i) as [p|] eqn:Ei; [|exact (same_world _ _ _ Hw)].
  destruct (focus_conn_worker _ _ _ _ _ Hw Ei) as (r & rest & <- & Hh & Hback). rewrite (conn_worker_look _ _ _ Hh). cbn [outcome_bind].
  rewrite lookup_fmap. destruct (cw_conns r !! id) as [c|] eqn:Ec; cbn [fmap option_fmap option_map]; [exact (same_world _ _ _ Hw)|].
  destruct (accept_conn_holds _ _ fd id _ Ec Hh) as (c & h' & -> & H'). cbn [outcome_bind].
  destruct (Hback (with_conns (<[id := c]> (cw_conns r)) r) [] h' eq_refl H') as (R' & Hw' & Hst). exists (put_heap h' w), R'. auto.
Qed.

(** A step on a connection [c], named [id], of a connection worker [r]. *)
Lemma with_conn_holds w R l i id (f : addr -> addr -> heap -> outcome world) : world_ok w R l ->
  (forall r c rest, cw_conns r !! id = Some c -> w_heap w ⊨ conn_worker_cells r ++ rest ->
     (forall r' extra h', cw_addr r' = cw_addr r -> h' ⊨ conn_worker_cells r' ++ extra ++ rest ->
        exists R', world_ok (put_heap h' w) R' (extra ++ l) /\ wr_stopped R' = wr_stopped R) ->
     steps_to (f (cw_addr r) (cn_addr c) (w_heap w)) l (wr_stopped R)) ->
  steps_to (with_conn w i id f) l (wr_stopped R).
Proof.
  intros Hw Hf. unfold with_conn. rewrite (conn_worker_of_look _ _ _ _ Hw). cbn [outcome_bind].
  destruct ((wr_rpc R ++ wr_http R) !! i) as [p|] eqn:Ei; [|exact (same_world _ _ _ Hw)].
  destruct (focus_conn_worker _ _ _ _ _ Hw Ei) as (r & rest & <- & Hh & Hback). rewrite (conn_worker_look _ _ _ Hh). cbn [outcome_bind].
  rewrite lookup_fmap. destruct (cw_conns r !! id) as [c|] eqn:Ec; cbn [fmap option_fmap option_map]; [|exact (same_world _ _ _ Hw)].
  exact (Hf r c rest Ec Hh Hback).
Qed.

Lemma conn_of_worker_look h r id c rest : cw_conns r !! id = Some c -> h ⊨ conn_worker_cells r ++ rest ->
  conn_at (cn_addr c) h = Done (id, cn_fd c, fst <$> cn_rpk c, cn_parser c, Some (cn_eps c)).
Proof. intros Hc Hh. rewrite (conn_worker_cells_lookup _ _ _ Hc), <- app_assoc in Hh. exact (conn_look _ _ _ _ Hh). Qed.

Lemma BeginPackage_holds w R l i id : world_ok w R l -> steps_to (act (BeginPackage i id) w) l (wr_stopped R).
Proof.
  intros Hw. apply (with_conn_holds _ _ _ _ _ _ Hw). intros r c rest Hc Hh Hback. rewrite (conn_of_worker_look _ _ _ _ _ Hc Hh). cbn [outcome_bind].
  destruct (cn_rpk c) eqn:Er; cbn [fmap option_fmap option_map]; [exact (same_world _ _ _ Hw)|].
  destruct (on_conn (conn_begin_package (cn_addr c)) r id c [] Hc (fun h l => conn_begin_package_holds id c h l Er) _ _ Hh) as (cs & h' & -> & H').
  destruct (Hback (with_conns cs r) [] h' eq_refl H') as (R' & Hw' & Hst). exists (put_heap h' w), R'. auto.
Qed.

(** Objects left over may be packages. *)
Lemma packages_join w R l ps : world_ok w R (flat_map package_cells ps ++ l) ->
  world_ok (put_packages (map fst ps ++ w_packages w) w) (rep_packages (ps ++ wr_packages R) R) l.
Proof.
  intros [Hh Hs Hc Hp Hw Hf]. split; cbn [rep_packages wr_services wr_status wr_conn_workers wr_rpc wr_http wr_packages wr_watched wr_workers]; try assumption.
  - refine (holds_perm _ _ _ Hh _). unfold rep_cells. cbn [rep_packages wr_services wr_server wr_conn_workers wr_packages wr_watched].
    change (server_cells (rep_packages _ R)) with (server_cells R). rewrite flat_map_app. solve_Permutation.
  - rewrite map_app, Hp. reflexivity.
Qed.

Lemma TakePackage_holds w R l i id : world_ok w R l -> steps_to (act (TakePackage i id) w) l (wr_stopped R).
Proof.
  intros Hw. apply (with_conn_holds _ _ _ _ _ _ Hw). intros r c rest Hc Hh Hback. rewrite (conn_worker_cells_lookup _ _ _ Hc), <- app_assoc in Hh.
  destruct (conn_take_package_holds _ _ _ _ Hh) as (h' & -> & H'). cbn [outcome_bind].
  assert (Hr : h' ⊨ conn_worker_cells (with_conns (<[id := with_rpk None c]> (cw_conns r)) r) ++ flat_map package_cells (option_list (cn_rpk c)) ++ rest).
  { rewrite (conn_worker_cells_update _ _ c (with_rpk None c) Hc eq_refl). refine (holds_perm _ _ _ H' _). solve_Permutation. }
  destruct (Hback (with_conns _ r) _ _ eq_refl Hr) as (R' & Hw' & Hst). apply packages_join in Hw'.
  do 2 eexists. split; [|split; [exact Hw' | exact Hst]]. by destruct (cn_rpk c).
Qed.

Lemma ReleasePackage_holds w R l k : world_ok w R l -> steps_to (act (ReleasePackage k) w) l (wr_stopped R).
Proof.
  intros Hw. cbn [act]. pose proof Hw as [Hh Hs Hc Hp Hwt Hf]. rewrite <- Hp, lookup_map.
  destruct (wr_packages R !! k) as [[p d]|] eqn:Ek; cbn [fmap option_fmap option_map fst]; [|exact (same_world _ _ _ Hw)].
  pose proof (delete_Permutation _ _ _ Ek) as Hperm. unfold rep_cells in Hh. rewrite Hperm in Hh. cbn [flat_map] in Hh.
  held Hh (package_cells (p, d) ++ (w_server w, a_facade (wr_server R)) :: server_cells R ++ flat_map service_cells (wr_services R) ++
    flat_map conn_worker_cells (wr_conn_workers R) ++ flat_map package_cells (delete k (wr_packages R)) ++ wr_watched R ++ l).
  destruct (delete_package_holds _ _ _ Hh) as (h' & Hd & H'). cbn [fst] in Hd. rewrite Hd. cbn [outcome_bind].
  exists (put_packages (delete k (map fst (wr_packages R))) (put_heap h' w)), (rep_packages (delete k (wr_packages R)) R).
  split; [reflexivity|]. split; [|reflexivity].
  split; cbn [rep_packages wr_services wr_status wr_conn_workers wr_rpc wr_http wr_packages wr_watched wr_workers]; try assumption.
  - refine (holds_perm _ _ _ H' _). unfold rep_cells. cbn [rep_packages wr_services wr_server wr_conn_workers wr_packages wr_watched].
    change (server_cells (rep_packages _ R)) with (server_cells R). solve_Permutation.
  - exact (list_fmap_delete fst _ k).
Qed.

Lemma Remove_holds w R l i id : world_ok w R l -> steps_to (act (Remove i id) w) l (wr_stopped R).
Proof.
  intros Hw. apply (with_conn_holds _ _ _ _ _ _ Hw). intros r c rest Hc Hh Hback. rewrite (conn_of_worker_look _ _ _ _ _ Hc Hh). cbn [outcome_bind need].
  destruct (removeConnection_holds _ _ _ _ _ Hc Hh) as (h' & -> & H'). cbn [outcome_bind].
  destruct (Hback (with_conns (delete id (cw_conns r)) r) [] h' eq_refl H') as (R' & Hw' & Hst). exists (put_heap h' w), R'. auto.
Qed.

(** A request: the worker and the service it names are there, or there is no
    such service. *)
Lemma worker_call_holds w R l j r service name from_http during timed_out : world_ok w R l -> wr_stopped R = false -> wr_workers R !! j = Some r ->
  exists h' R', worker_call (pw_real r) service name from_http during timed_out (w_heap w) = Done h' /\
    world_ok (put_heap h' w) R' l /\ wr_stopped R' = wr_stopped R.
Proof.
  intros Hw Hst Hj. apply list_elem_of_lookup_2 in Hj. pose proof (proj1 (Forall_forall _ _) (wo_fine _ _ _ Hw) r Hj) as (m & Hm & Hfine).
  unfold worker_call. assert (Hat : worker_at (pw_real r) (w_heap w) = Done m).
  { pose proof (wo_heap _ _ _ Hw) as Hh. unfold worker_at. rewrite (holds_elem _ _ (a_worker m) _ Hh); [reflexivity|]. unfold rep_cells, server_cells, pool_cells.
    rewrite Hst, elem_of_app. left. apply elem_of_cons. right. rewrite elem_of_app. left. apply elem_of_cons. right. apply elem_of_cons. right.
    apply list_elem_of_In, in_flat_map. exists r. split; [by apply list_elem_of_In|]. right. right. left. by rewrite Hm. }
  rewrite Hat. cbn [outcome_bind]. assert (Hid : exists h' R', Done (w_heap w) = Done h' /\ world_ok (put_heap h' w) R' l /\ wr_stopped R' = wr_stopped R)
    by (exists (w_heap w), R; rewrite put_own_heap; auto).
  destruct (m !! service) as [b|] eqn:Eb; [|exact Hid]. destruct (Hfine service b Eb) as (_ & s & Hs & Hin). rewrite Hs. cbn [need outcome_bind].
  destruct (focus_service _ _ _ _ Hw Hin) as (sr & rest & <- & Hh & Hback).
  destruct (count_call_holds _ _ name during timed_out _ Hh) as (sr' & h' & Hc & Ha & _ & H').
  assert (Hcall : exists h' R', count_call (sr_addr sr) name during timed_out (w_heap w) = Done h' /\ world_ok (put_heap h' w) R' l /\ wr_stopped R' = wr_stopped R).
  { destruct (Hback _ _ Ha H') as (R' & Hw' & Hst' & _). eauto. }
  destruct from_http; [|exact Hcall]. rewrite (find_method_holds _ _ name _ Hh). cbn [outcome_bind]. destruct (negb _); [exact Hid | exact Hcall].
Qed.

Lemma Call_holds w R l j service name from_http during timed_out : world_ok w R l ->
  steps_to (act (Call j service name from_http during timed_out) w) l (wr_stopped R).
Proof.
  intros Hw. cbn [act]. rewrite (facade_look _ _ _ Hw). cbn [outcome_bind]. rewrite (server_look _ _ _ Hw). cbn [outcome_bind].
  destruct (wr_stopped R) eqn:Est; [rewrite <- Est; exact (same_world _ _ _ Hw)|].
  assert (Hg : getWorkers (wr_pool R) (w_heap w) = Done (map pw_real (wr_workers R))).
  { pose proof (wo_heap _ _ _ Hw) as Hh. unfold rep_cells, server_cells in Hh. rewrite Est in Hh.
    apply (getWorkers_holds _ _ _ ((w_server w, a_facade (wr_server R)) :: (wr_server R, a_server false (wr_status R) (wr_pool R) (wr_rpc R) (wr_http R)) ::
      flat_map service_cells (wr_services R) ++ flat_map conn_worker_cells (wr_conn_workers R) ++ flat_map package_cells (wr_packages R) ++ wr_watched R ++ l)).
    refine (holds_perm _ _ _ Hh _). solve_Permutation. }
  rewrite Hg. cbn [outcome_bind]. rewrite lookup_map. destruct (wr_workers R !! j) as [r|] eqn:Ej; cbn [fmap option_fmap option_map];
    [|rewrite <- Est; exact (same_world _ _ _ Hw)].
  destruct (worker_call_holds _ _ _ _ _ service name from_http during timed_out Hw Est Ej) as (h' & R' & -> & Hw' & Hst).
  exists (put_heap h' w), R'. rewrite Est in Hst. auto.
Qed.

Lemma act_holds a w R l : world_ok w R l -> may_add (wr_stopped R) a -> steps_to (act a w) l (stops a (wr_stopped R)).
Proof.
  intros Hw Ha. destruct a; cbn [stops].
  - exact (NewService_holds _ _ _ Hw).
  - exact (ServiceOp_holds _ _ _ _ _ Hw).
  - cbn [may_add] in Ha. rewrite Ha. exact (AddService_holds _ _ _ _ _ _ Hw Ha).
  - exact (StopServer_holds _ _ _ Hw).
  - exact (StartConnWorker_holds _ _ _ _ _ _ Hw).
  - exact (Accept_holds _ _ _ _ _ _ Hw).
  - exact (BeginPackage_holds _ _ _ _ _ Hw).
  - exact (TakePackage_holds _ _ _ _ _ Hw).
  - exact (ReleasePackage_holds _ _ _ _ Hw).
  - exact (Remove_holds _ _ _ _ _ Hw).
  - exact (Call_holds _ _ _ _ _ _ _ _ _ Hw).
Qed.

Lemma acts_hold as_ : forall w R l, world_ok w R l -> adds_before_stop (wr_stopped R) as_ -> exists w' R', acts as_ w = Done w' /\ world_ok w' R' l.
Proof.
  induction as_ as [|a as_ IH]; intros w R l Hw Ha; [eauto|]. cbn [acts].
  assert (may_add (wr_stopped R) a /\ adds_before_stop (stops a (wr_stopped R)) as_) as [Hm Hr] by (destruct a; cbn in Ha |- *; tauto).
  destruct (act_holds a w R l Hw Hm) as (w1 & R1 & -> & Hw1 & Hst). cbn [outcome_bind]. rewrite <- Hst in Hr. exact (IH _ _ _ Hw1 Hr).
Qed.

(** As long as nobody calls [stop], the server runs. *)
Lemma acts_running as_ : forall w R l, world_ok w R l -> wr_stopped R = false -> Forall (fun a => a <> StopServer) as_ ->
  exists w' R', acts as_ w = Done w' /\ world_ok w' R' l /\ wr_stopped R' = false.
Proof.
  induction as_ as [|a as_ IH]; intros w R l Hw Hst Ha; [eauto|]. cbn [acts]. apply Forall_cons in Ha as [Hn Ha].
  assert (may_add (wr_stopped R) a /\ stops a (wr_stopped R) = false) as [Hm Hs] by (rewrite Hst; destruct a; cbn; auto; contradiction).
  destruct (act_holds a w R l Hw Hm) as (w1 & R1 & -> & Hw1 & Hst1). cbn [outcome_bind]. rewrite Hs in Hst1. exact (IH _ _ _ Hw1 Hst1 Ha).
Qed.

(** ** What is left over *)

(** The objects of a list of parts, read from the heap part by part. *)
Lemma objects_cells {A B} (obj : B -> list addr) (at_ : A -> B) (cells : A -> list (addr * object)) xs :
  (forall x, x ∈ xs -> Permutation (obj (at_ x)) (cells x).*1) -> Permutation (flat_map obj (map at_ xs)) (flat_map cells xs).*1.
Proof.
  induction xs as [|x xs IH]; intros Hx; [reflexivity|]. cbn [map flat_map]. rewrite fmap_app.
  apply Permutation_app; [apply Hx, list_elem_of_here|]. apply IH. intros y Hy. apply Hx. by constructor.
Qed.

Lemma holds_part {A} (cells : A -> list (addr * object)) xs x h l : h ⊨ flat_map cells xs ++ l -> x ∈ xs -> exists rest, h ⊨ cells x ++ rest.
Proof.
  intros Hh Hx. apply list_elem_of_split in Hx as (pre & post & ->). rewrite (flat_map_pick cells), <- app_assoc in Hh. eauto.
Qed.

Lemma method_objects_cells h m l : h ⊨ method_cells m ++ l -> method_objects h (method_at m) = (method_cells m).*1.
Proof. intros Hh. unfold method_objects. cbn [method_at m_status]. unfold status_at. by rewrite (holds_lookup _ _ _ _ Hh). Qed.

Lemma service_objects_cells h r l : h ⊨ service_cells r ++ l -> Permutation (service_objects h (sr_addr r)) (service_cells r).*1.
Proof.
  intros Hh. unfold service_objects, service_at, impl_at. pose proof Hh as Hs. unfold service_cells in Hs. cbn [app] in Hs.
  look Hs. cbn beta iota. look Hs. cbn beta iota. unfold service_cells. cbn [fmap list_fmap fst]. do 2 apply perm_skip.
  rewrite map_to_list_fmap_values.
  held Hs (methods_cells (sr_methods r) ++ (sr_addr r, a_service (sr_impl r)) :: (sr_impl r, an_impl (method_at <$> sr_methods r)) :: l).
  apply objects_cells.
  intros m Hm. destruct (holds_part _ _ _ _ _ Hs Hm) as (rest & Hr). by rewrite (method_objects_cells _ _ _ Hr).
Qed.

Lemma package_objects_cells h r l : h ⊨ package_cells r ++ l -> package_objects h r.1 = (package_cells r).*1.
Proof. intros Hh. unfold package_objects, package_at. by rewrite (holds_lookup _ _ _ _ Hh). Qed.

Lemma conn_objects_cells h id c l : h ⊨ conn_cells (id, c) ++ l -> Permutation (conn_objects h (cn_addr c)) (conn_cells (id, c)).*1.
Proof.
  intros Hh. unfold conn_objects. rewrite (conn_look _ _ _ _ Hh). unfold conn_cells. cbn [fmap list_fmap fst snd option_list]. apply perm_skip.
  rewrite fmap_app. assert (Hp : (map (fun p => (p, a_parser)) (option_list (cn_parser c))).*1 = option_list (cn_parser c)) by (by destruct (cn_parser c)).
  rewrite Hp. assert (Hk : flat_map (package_objects h) (option_list (fst <$> cn_rpk c)) = (flat_map package_cells (option_list (cn_rpk c))).*1).
  { destruct (cn_rpk c) as [r|] eqn:Er; [|reflexivity].
    change (package_objects h r.1 ++ [] = (package_cells r).*1). rewrite app_nil_r.
    unfold conn_cells in Hh. cbn [snd fst] in Hh. rewrite Er in Hh. set (c1 := (cn_addr _, _)) in Hh.
    change (flat_map package_cells (option_list (Some r))) with (package_cells r) in Hh.
    apply (package_objects_cells _ _ (c1 :: (cn_eps c, an_eps (cn_fd c) (Some (cn_addr c))) :: map (fun p => (p, a_parser)) (option_list (cn_parser c)) ++ l)).
    refine (holds_perm _ _ _ Hh _). solve_Permutation. }
  rewrite Hk. solve_Permutation.
Qed.

Lemma open_connections_look w R l : world_ok w R l ->
  open_connections w = flat_map (fun r => map cn_addr (map_to_list (cw_conns r)).*2) (wr_conn_workers R).
Proof.
  intros Hw. unfold open_connections. rewrite (facade_look _ _ _ Hw), (server_look _ _ _ Hw), <- (wo_conn_workers _ _ _ Hw).
  rewrite (flat_map_of_map (worker_conns (w_heap w))). pose proof (wo_heap _ _ _ Hw) as Hh. unfold rep_cells in Hh.
  held Hh (flat_map conn_worker_cells (wr_conn_workers R) ++ (w_server w, a_facade (wr_server R)) :: server_cells R ++
    flat_map service_cells (wr_services R) ++ flat_map package_cells (wr_packages R) ++ wr_watched R ++ l).
  apply flat_map_ext_elem. intros r Hr. destruct (holds_part _ _ _ _ _ Hh Hr) as (rest & Hrest).
  unfold worker_conns. rewrite (conn_worker_look _ _ _ Hrest), map_to_list_fmap, <- !list_fmap_compose. reflexivity.
Qed.

(** The objects [left_over] finds are those the end of the program leaves. *)
Lemma left_over_cells w R l ms : world_ok w R l -> map sr_addr ms = w_made w -> (forall s, s ∈ ms -> s ∈ wr_services R) ->
  Permutation (left_over w) (left_conns R ++ wr_watched R ++ flat_map service_cells ms).*1.
Proof.
  intros Hw Hms Hin. unfold left_over. rewrite !fmap_app, <- (wo_watched _ _ _ Hw), <- Hms. pose proof (wo_heap _ _ _ Hw) as Hh. unfold rep_cells in Hh.
  apply Permutation_app; [|apply Permutation_app; [reflexivity|]].
  - rewrite (open_connections_look _ _ _ Hw). unfold left_conns.
    held Hh (flat_map conn_worker_cells (wr_conn_workers R) ++ (w_server w, a_facade (wr_server R)) :: server_cells R ++
      flat_map service_cells (wr_services R) ++ flat_map package_cells (wr_packages R) ++ wr_watched R ++ l).
    assert (Hr : forall r, r ∈ wr_conn_workers R ->
              Permutation (flat_map (conn_objects (w_heap w)) (map cn_addr (map_to_list (cw_conns r)).*2)) (conns_cells (cw_conns r)).*1).
    { intros r Hr. destruct (holds_part _ _ _ _ _ Hh Hr) as (rest & Hrest).
      replace (map cn_addr (map_to_list (cw_conns r)).*2) with (map (fun x => cn_addr x.2) (map_to_list (cw_conns r))) by (symmetry; apply map_map).
      apply objects_cells. intros [id c] Hc. unfold conn_worker_cells in Hrest. cbn [app] in Hrest.
      held Hrest (conns_cells (cw_conns r) ++ (cw_addr r, a_conn_worker (cw_stop r) (cw_type r) (cn_addr <$> cw_conns r)) :: rest).
      destruct (holds_part _ _ _ _ _ Hrest Hc) as (rest' & Hrest'). exact (conn_objects_cells _ _ _ _ Hrest'). }
    clear -Hr. induction (wr_conn_workers R) as [|r rs IH]; [reflexivity|]. cbn [flat_map]. rewrite flat_map_app, fmap_app.
    apply Permutation_app; [apply Hr, list_elem_of_here|]. apply IH. intros x Hx. apply Hr. by constructor.
  - held Hh (flat_map service_cells (wr_services R) ++ (w_server w, a_facade (wr_server R)) :: server_cells R ++
      flat_map conn_worker_cells (wr_conn_workers R) ++ flat_map package_cells (wr_packages R) ++ wr_watched R ++ l).
    apply objects_cells. intros s Hs. destruct (holds_part _ _ _ _ _ Hh (Hin s Hs)) as (rest & Hrest). exact (service_objects_cells _ _ _ Hrest).
Qed.
End World.

(** * Properties *)


(** A service added after [stop] uses the pool that is gone: [stop] deletes it and
    keeps the pointer, and [addService] does not look at [m_stop]. *)
Theorem service_added_after_stop `{AllocatorLaw} get_status cfg as_ (h : heap) ops name k p
    (Hrun : Forall (fun a => a <> StopServer) as_) :
  exists w w', new_world get_status cfg h = Done w /\ acts as_ w = Done w' /\
    (w_services w' !! k = Some p -> acts [StopServer; AddService ops name (Some k)] w' = Stuck UseAfterFree).
Proof.
  destruct (new_world_holds get_status cfg h _ (holds_self h)) as (w & R & Hn & Hw & Hst).
  destruct (acts_running as_ w R _ Hw Hst Hrun) as (w' & R' & Ha & Hw' & Hst').
  exists w, w'. do 2 (split; [assumption|]). intros Hk. destruct (facade_stop_holds _ _ _ Hw') as (h' & Hs & Hw1 & Hgone). specialize (Hgone Hst').
  cbn [acts act]. rewrite Hs. cbn [outcome_bind put_heap w_services w_server w_heap]. rewrite Hk. cbn [addService]. unfold addServiceImp.
  rewrite Hst' in Hw1. pose proof (facade_look _ _ _ Hw1) as Hf. cbn [put_heap w_server w_heap] in Hf. rewrite Hf. cbn [outcome_bind].
  unfold server_addService. pose proof (server_look _ _ _ Hw1) as Hsl. cbn [put_heap w_heap] in Hsl. rewrite Hsl. cbn [outcome_bind rep_stopped wr_pool].
  unfold pool_addService, getWorkers, pool_at. rewrite Hgone. reflexivity.
Qed.

(** * Witnesses *)

(** A server with two workers, a thread for RPC connections and one for HTTP, and
    a program that uses it. *)
Definition two_workers : RpcServerConfig := setConnThreadNum 1 (setThreadNum 2 (new_config 4 "localhost" 8801)).

Definition some_actions : list action :=
  [NewService; ServiceOp 0 (AddMethod "m" say_ok true); AddService [] "s" (Some 0%nat); AddService [AddMethod "x" say_ok false] "t" None;
   StartConnWorker 0 5 6; Accept 0 7 "a"; Accept 1 8 "b"; BeginPackage 0 "a"; TakePackage 0 "a"; Call 1 "s" "m" true 5 true;
   BeginPackage 0 "a"; Remove 1 "b"; Accept 1 9 "c"; StopServer].

