(* ===== verification/ClientObjects.v ===== *)
(** The objects of a client, from [new RpcClient] to [delete]: [RpcClient.cpp],
    and of [RpcEventLooper.cpp] and [RpcClientConn.cpp] what they make and delete,
    on the heap of [Objects].  ([EventLooper] and [ClientConn] have what they do,
    with the connections as values; callbacks and packages handed out are held by
    [shared_ptr]s.) *)
From Stdlib Require Import ZArith Lia Bool List String Ascii.
From stdpp Require Import base list strings gmap infinite list_tactics.
From S2P Require Import Prelude ClientConn EventLooper Objects PoolObjects.

(** * Objects behind pointers *)

Definition buffer_at (p : addr) (h : heap) : outcome unit :=
  match h !! p with Some a_buffer => Done tt | _ => Stuck UseAfterFree end.
Definition client_conn_at (p : addr) (h : heap) : outcome (Z * bool * option addr) :=
  match h !! p with Some (a_client_conn fd mid rpk) => Done (fd, mid, rpk) | _ => Stuck UseAfterFree end.
Definition looper_at (p : addr) (h : heap) : outcome (gmap Endpoint addr * addr) :=
  match h !! p with Some (a_looper m pool) => Done (m, pool) | _ => Stuck UseAfterFree end.
Definition client_at (p : addr) (h : heap) : outcome (addr * list addr) :=
  match h !! p with Some (a_client ev ths) => Done (ev, ths) | _ => Stuck UseAfterFree end.

Section Operations.
Context `{Allocator}.

(** * [RpcClientConn] *)

Definition new_client_conn (h : heap) : addr * heap := new_obj (a_client_conn (-1) false None) h.

(** [connect]; [host] is what [connectHost] leaves in [m_fd], as in [ClientConn]. *)
Definition client_connect (p : addr) (host : option Z) (h : heap) : outcome heap :=
  let! (fd, mid, rpk) := client_conn_at p h in
  if negb (fd =? -1) then Done h
  else Done (<[p := a_client_conn (match host with Some fd => fd | None => -1 end) mid rpk]> h).

(** [setInvalid] deletes the package and keeps the pointer to it, and
    [m_cur_pkg_size] too. *)
Definition conn_setInvalid (p : addr) (h : heap) : outcome heap :=
  let! (fd, mid, rpk) := client_conn_at p h in
  let! h := run_delete delete_package rpk h in
  Done (<[p := a_client_conn (-1) mid rpk]> h).

(** [~RpcClientConn] *)
Definition delete_client_conn (p : addr) (h : heap) : outcome heap :=
  let! h := conn_setInvalid p h in
  free p h.

(** [getResponse] once the length is there: a new package unless there is one
    under way, data written into it, and the package handed to a [shared_ptr]
    when it is [complete]. *)
Definition conn_getResponse (p : addr) (complete : bool) (h : heap) : outcome (option addr * heap) :=
  let! (fd, mid, rpk) := client_conn_at p h in
  let (rpk, h) := if mid : bool then (rpk, h) else let (q, h) := new_package h in (Some q, h) in
  match rpk with
  | None => Done (None, h)
  | Some q =>
      let! data := package_at q h in
      let! _ := buffer_at data h in
      if complete then Done (Some q, <[p := a_client_conn fd false None]> h)
      else Done (None, <[p := a_client_conn fd true (Some q)]> h)
  end.

(** * [RpcEventLooper] *)

Definition new_client_worker (h : heap) : addr * heap := new_obj a_client_worker h.
Definition delete_client_worker (p : addr) (h : heap) : outcome heap := free p h.

(** The loop of the constructor: a connection for each endpoint, which takes the
    place of one made before for the same endpoint. *)
Fixpoint connect_all (host : Endpoint -> option Z) (eps : list Endpoint) (m : gmap Endpoint addr) (h : heap)
    : outcome (gmap Endpoint addr * heap) :=
  match eps with
  | [] => Done (m, h)
  | ep :: eps =>
      let (c, h) := new_client_conn h in
      let! h := client_connect c (host ep) h in
      connect_all host eps (<[ep := c]> m) h
  end.

Definition new_looper (thread_num : nat) (eps : list Endpoint) (host : Endpoint -> option Z) (h : heap) : outcome (addr * heap) :=
  let (pool, h) := new_pool new_client_worker thread_num h in
  let! (m, h) := connect_all host eps ∅ h in
  Done (new_obj (a_looper m pool) h).

(** The loop of [refreshEndpoints]: a connection for each new endpoint. *)
Fixpoint connect_new (host : Endpoint -> option Z) (eps : list Endpoint) (m : gmap Endpoint addr) (h : heap)
    : outcome (gmap Endpoint addr * heap) :=
  match eps with
  | [] => Done (m, h)
  | ep :: eps =>
      match m !! ep with
      | Some _ => connect_new host eps m h
      | None =>
          let (c, h) := new_client_conn h in
          let! h := client_connect c (host ep) h in
          connect_new host eps (<[ep := c]> m) h
      end
  end.

Definition refreshEndpoints (eps : list Endpoint) (host : Endpoint -> option Z) (p : addr) (h : heap) : outcome heap :=
  let! (m, pool) := looper_at p h in
  let! (m, h) := connect_new host eps m h in
  Done (<[p := a_looper m pool]> h).

(** [~RpcEventLooper] *)
Definition delete_looper (p : addr) (h : heap) : outcome heap :=
  let! (m, pool) := looper_at p h in
  let! h := each delete_client_conn (map_to_list m).*2 h in
  let! h := delete_pool delete_client_worker pool h in
  free p h.

(** * [RpcClient] *)

Definition new_client (thread_num : nat) (eps : list Endpoint) (host : Endpoint -> option Z) (h : heap) : outcome (addr * heap) :=
  let! (ev, h) := new_looper thread_num eps host h in
  let (th, h) := new_obj a_thread h in
  Done (new_obj (a_client ev [th]) h).

(** [~RpcClient] stops the looper, joins the thread, and its members go: the
    thread first, then the looper. *)
Definition join_thread (p : addr) (h : heap) : outcome heap :=
  let! _ := thread_at p h in Done h.

Definition delete_client (p : addr) (h : heap) : outcome heap :=
  let! (ev, ths) := client_at p h in
  let! _ := looper_at ev h in
  let! h := each join_thread ths h in
  let! h := each free ths h in
  let! h := delete_looper ev h in
  free p h.

(** * A program with a client *)

(** The client, and the packages in the hands of [shared_ptr]s. *)
Record client_world := mk_client_world { cl_heap : heap; cl_client : addr; cl_packages : list addr }.

(** What happens to a client: a try to connect, data from an endpoint, an
    endpoint lost ([RpcEventLooper::removeConnection]), a package let go, and
    [reloadEndpoints]. *)
Inductive client_action :=
| Connect (ep : Endpoint) (host : option Z)
| Receive (ep : Endpoint) (complete : bool)
| Lose (ep : Endpoint)
| Release (k : nat)
| Reload (eps : list Endpoint) (host : Endpoint -> option Z).

Definition new_client_world (thread_num : nat) (eps : list Endpoint) (host : Endpoint -> option Z) (h : heap) : outcome client_world :=
  let! (p, h) := new_client thread_num eps host h in
  Done (mk_client_world h p []).

Definition conns_of (w : client_world) : outcome (gmap Endpoint addr) :=
  let! (ev, _) := client_at (cl_client w) (cl_heap w) in
  let! (m, _) := looper_at ev (cl_heap w) in
  Done m.

(** A step on the connection of an endpoint, if there is one. *)
Definition with_endpoint (ep : Endpoint) (w : client_world) (f : addr -> heap -> outcome (option addr * heap)) : outcome client_world :=
  let! m := conns_of w in
  match m !! ep with
  | Some c => let! (got, h) := f c (cl_heap w) in Done (mk_client_world h (cl_client w) (option_list got ++ cl_packages w))
  | None => Done w
  end.

Definition no_package (f : addr -> heap -> outcome heap) (p : addr) (h : heap) : outcome (option addr * heap) :=
  let! h := f p h in Done (None, h).

Definition client_act (a : client_action) (w : client_world) : outcome client_world :=
  match a with
  | Connect ep host => with_endpoint ep w (no_package (fun c => client_connect c host))
  | Receive ep complete => with_endpoint ep w (fun c => conn_getResponse c complete)
  | Lose ep => with_endpoint ep w (no_package conn_setInvalid)
  | Release k =>
      match cl_packages w !! k with
      | Some p => let! h := delete_package p (cl_heap w) in Done (mk_client_world h (cl_client w) (delete k (cl_packages w)))
      | None => Done w
      end
  | Reload eps host =>
      let! (ev, _) := client_at (cl_client w) (cl_heap w) in
      let! h := refreshEndpoints eps host ev (cl_heap w) in
      Done (mk_client_world h (cl_client w) (cl_packages w))
  end.

Fixpoint client_acts (l : list client_action) (w : client_world) : outcome client_world :=
  match l with [] => Done w | a :: l => let! w := client_act a w in client_acts l w end.

(** The end of the program. *)
Definition client_shut_down (w : client_world) : outcome heap :=
  let! h := each delete_package (cl_packages w) (cl_heap w) in
  delete_client (cl_client w) h.

(** The endpoints that may be in the middle of a package, [P], and the condition
    that none of them is lost. *)
Fixpoint whole_losses (P : gset Endpoint) (l : list client_action) : Prop :=
  match l with
  | [] => True
  | Receive ep complete :: l => whole_losses (if complete : bool then P ∖ {[ep]} else {[ep]} ∪ P) l
  | Lose ep :: l => ep ∉ P /\ whole_losses P l
  | _ :: l => whole_losses P l
  end.

(** Whether the connection of an endpoint is in the middle of a package. *)
Definition mid_package (w : client_world) (ep : Endpoint) : bool :=
  match conns_of w with
  | Done m =>
      match m !! ep with
      | Some c => match client_conn_at c (cl_heap w) with Done (_, mid, _) => mid | Stuck _ => false end
      | None => false
      end
  | Stuck _ => false
  end.
End Operations.

(** * The parts of a client and their objects *)

Record client_conn_rep := { cc_addr : addr; cc_fd : Z; cc_rpk : option (addr * addr) }.

Definition in_package {A} (o : option A) : bool := match o with Some _ => true | None => false end.

Definition client_conn_object (c : client_conn_rep) : object := a_client_conn (cc_fd c) (in_package (cc_rpk c)) (fst <$> cc_rpk c).

Definition client_conn_cells (c : client_conn_rep) : list (addr * object) :=
  (cc_addr c, client_conn_object c) :: flat_map package_cells (option_list (cc_rpk c)).

Definition endpoints_cells (cs : gmap Endpoint client_conn_rep) : list (addr * object) := flat_map client_conn_cells (map_to_list cs).*2.

Record client_rep := mk_client_rep {
  cr_ev : addr;
  cr_thread : addr;
  cr_pool : addr;
  cr_workers : list pool_worker_rep;
  cr_conns : gmap Endpoint client_conn_rep;
  cr_packages : list (addr * addr);
  cr_lost : list (addr * object)              (* the connections whose place was taken *)
}.

Definition client_cells (p : addr) (R : client_rep) : list (addr * object) :=
  (p, a_client (cr_ev R) [cr_thread R]) :: (cr_thread R, a_thread) :: (cr_ev R, a_looper (cc_addr <$> cr_conns R) (cr_pool R)) ::
  pool_cells (cr_pool R) (cr_workers R) ++ endpoints_cells (cr_conns R) ++ flat_map package_cells (cr_packages R) ++ cr_lost R.

Definition rep_conns (cs : gmap Endpoint client_conn_rep) (R : client_rep) : client_rep :=
  mk_client_rep (cr_ev R) (cr_thread R) (cr_pool R) (cr_workers R) cs (cr_packages R) (cr_lost R).
Definition rep_handed (ps : list (addr * addr)) (R : client_rep) : client_rep :=
  mk_client_rep (cr_ev R) (cr_thread R) (cr_pool R) (cr_workers R) (cr_conns R) ps (cr_lost R).

(** Only the endpoints of [P] may be in the middle of a package. *)
Definition packages_in (P : gset Endpoint) (cs : gmap Endpoint client_conn_rep) : Prop :=
  forall ep c, cs !! ep = Some c -> in_package (cc_rpk c) = true -> ep ∈ P.

Record client_ok (w : client_world) (R : client_rep) (P : gset Endpoint) (l : list (addr * object)) : Prop := {
  ok_heap : cl_heap w ⊨ client_cells (cl_client w) R ++ l;
  ok_packages : map fst (cr_packages R) = cl_packages w;
  ok_workers : Forall (fun r => pw_object r = a_client_worker) (cr_workers R);
  ok_mid : packages_in P (cr_conns R)
}.

Lemma endpoints_cells_insert cs ep c : cs !! ep = None -> endpoints_cells (<[ep := c]> cs) ≡ₚ client_conn_cells c ++ endpoints_cells cs.
Proof. intros Hn. unfold endpoints_cells. rewrite (map_to_list_insert cs ep c Hn). reflexivity. Qed.

Lemma endpoints_cells_lookup cs ep c : cs !! ep = Some c -> endpoints_cells cs ≡ₚ client_conn_cells c ++ endpoints_cells (delete ep cs).
Proof. intros Hn. rewrite <- (endpoints_cells_insert (delete ep cs)) by apply lookup_delete_eq. by rewrite insert_delete_id. Qed.

(** One endpoint's connection, replaced by another. *)
Lemma endpoints_cells_replace cs ep c c' : cs !! ep = Some c ->
  endpoints_cells (<[ep := c']> cs) ≡ₚ client_conn_cells c' ++ endpoints_cells (delete ep cs).
Proof. intros Hc. rewrite (endpoints_cells_lookup _ ep c') by apply lookup_insert_eq. by rewrite delete_insert_eq. Qed.

Section Client.
Context `{AllocatorLaw}.

(** ** Connections *)

Lemma client_conn_look h c l : h ⊨ client_conn_cells c ++ l ->
  client_conn_at (cc_addr c) h = Done (cc_fd c, in_package (cc_rpk c), fst <$> cc_rpk c).
Proof. intros Hh. unfold client_conn_at. by rewrite (holds_lookup _ _ _ _ Hh). Qed.

Definition with_fd (fd : Z) (c : client_conn_rep) : client_conn_rep := {| cc_addr := cc_addr c; cc_fd := fd; cc_rpk := cc_rpk c |}.

Lemma client_connect_holds host h c l : h ⊨ client_conn_cells c ++ l ->
  exists c' h', client_connect (cc_addr c) host h = Done h' /\ cc_addr c' = cc_addr c /\ cc_rpk c' = cc_rpk c /\ h' ⊨ client_conn_cells c' ++ l.
Proof.
  intros Hh. unfold client_connect. rewrite (client_conn_look _ _ _ Hh). cbn [outcome_bind]. destruct (negb _); [exists c, h; auto|].
  exists (with_fd (match host with Some fd => fd | None => -1 end) c). eexists. do 3 (split; [reflexivity|]). exact (holds_store _ _ _ _ _ Hh).
Qed.

(** A connection lost with no package under way. *)
Lemma conn_setInvalid_holds h c l : in_package (cc_rpk c) = false -> h ⊨ client_conn_cells c ++ l ->
  exists h', conn_setInvalid (cc_addr c) h = Done h' /\ h' ⊨ client_conn_cells (with_fd (-1) c) ++ l.
Proof.
  intros Hr Hh. unfold conn_setInvalid. rewrite (client_conn_look _ _ _ Hh). cbn [outcome_bind]. destruct c as [a fd [r|]]; [discriminate|].
  eexists. split; [reflexivity|]. exact (holds_store _ _ _ _ _ Hh).
Qed.

(** The end of a connection, in the middle of a package or not. *)
Lemma delete_client_conn_holds h c l : h ⊨ client_conn_cells c ++ l -> exists h', delete_client_conn (cc_addr c) h = Done h' /\ h' ⊨ l.
Proof.
  intros Hh. unfold delete_client_conn, conn_setInvalid. rewrite (client_conn_look _ _ _ Hh). cbn [outcome_bind]. unfold client_conn_cells in Hh.
  held Hh (flat_map package_cells (option_list (cc_rpk c)) ++ (cc_addr c, client_conn_object c) :: l).
  destruct (run_delete_holds _ fst package_cells _ delete_package_holds _ _ Hh) as (h1 & -> & H1). cbn [outcome_bind].
  exact (holds_free _ _ _ _ (holds_store _ _ _ _ _ H1)).
Qed.

Lemma conn_getResponse_holds complete h c l : h ⊨ client_conn_cells c ++ l ->
  exists c' got h', conn_getResponse (cc_addr c) complete h = Done (fst <$> got, h') /\ cc_addr c' = cc_addr c /\
    in_package (cc_rpk c') = negb complete /\ h' ⊨ client_conn_cells c' ++ flat_map package_cells (option_list got) ++ l.
Proof.
  intros Hh. unfold conn_getResponse. rewrite (client_conn_look _ _ _ Hh). cbn [outcome_bind].
  assert (exists r h1, (let (rpk, h1) := if in_package (cc_rpk c) then (fst <$> cc_rpk c, h) else let (q, h1) := new_package h in (Some q, h1) in (rpk, h1))
            = (Some r.1, h1) /\ h1 ⊨ (cc_addr c, client_conn_object c) :: package_cells r ++ l) as (r & h1 & E & H1).
  { unfold client_conn_cells in Hh. destruct (cc_rpk c) as [r|] eqn:Er; cbn [in_package] in *.
    - exists r, h. split; [reflexivity|]. cbn in Hh |- *. exact Hh.
    - destruct (new_package_holds _ _ Hh) as (r & h1 & -> & H1). exists r, h1. split; [reflexivity|]. refine (holds_perm _ _ _ H1 _). cbn. solve_Permutation. }
  destruct (if in_package (cc_rpk c) then _ else _) as [rpk h1']. injection E as -> ->. unfold package_at, buffer_at.
  pose proof H1 as Hl. unfold package_cells in Hl. cbn [app] in Hl. look Hl. cbn [outcome_bind]. look Hl. cbn [outcome_bind].
  destruct complete; cbn [negb].
  - exists {| cc_addr := cc_addr c; cc_fd := cc_fd c; cc_rpk := None |}, (Some r). eexists. do 3 (split; [reflexivity|]).
    refine (holds_perm _ _ _ (holds_store _ _ _ (a_client_conn (cc_fd c) false None) _ H1) _). cbn. solve_Permutation.
  - exists {| cc_addr := cc_addr c; cc_fd := cc_fd c; cc_rpk := Some r |}, None. eexists. do 3 (split; [reflexivity|]).
    refine (holds_perm _ _ _ (holds_store _ _ _ (a_client_conn (cc_fd c) true (Some r.1)) _ H1) _). cbn. solve_Permutation.
Qed.

(** A new connection, connected if its host answers. *)
Lemma new_conn_connected host h l : h ⊨ l ->
  exists p h1 h2 c, new_client_conn h = (p, h1) /\ client_connect p host h1 = Done h2 /\ cc_addr c = p /\ cc_rpk c = None /\
    h2 ⊨ (p, client_conn_object c) :: l.
Proof.
  intros Hh. unfold new_client_conn. destruct (new_obj _ h) as [p h1] eqn:E. apply (holds_new _ _ _ _ _ Hh) in E.
  destruct (client_connect_holds host h1 {| cc_addr := p; cc_fd := -1; cc_rpk := None |} l E) as (c & h2 & Hc & Ha & Hr & H2).
  exists p, h1, h2, c. cbn in Ha, Hr. unfold client_conn_cells in H2. rewrite Hr, Ha in H2. auto 10.
Qed.

(** ** The constructor and [refreshEndpoints] *)

Definition no_rpk (cs : gmap Endpoint client_conn_rep) : Prop := forall ep c, cs !! ep = Some c -> cc_rpk c = None.

Lemma no_rpk_insert cs ep c : cc_rpk c = None -> no_rpk cs -> no_rpk (<[ep := c]> cs).
Proof. intros Hc Hcs e d. rewrite lookup_insert_Some. intros [[_ <-]|[_ Hd]]; [exact Hc | exact (Hcs e d Hd)]. Qed.

(** A connection whose place is taken stays on the heap. *)
Lemma connect_all_holds host eps : forall cs h l, no_rpk cs -> h ⊨ endpoints_cells cs ++ l ->
  exists cs' lost h', connect_all host eps (cc_addr <$> cs) h = Done (cc_addr <$> cs', h') /\ no_rpk cs' /\
    dom cs' = dom cs ∪ list_to_set eps /\ (length lost + size cs' = size cs + length eps)%nat /\ h' ⊨ endpoints_cells cs' ++ lost ++ l.
Proof.
  induction eps as [|ep eps IH]; intros cs h l Hn Hh; cbn [connect_all list_to_set length].
  { exists cs, [], h. split; [reflexivity|]. split; [exact Hn|]. split; [set_solver|]. split; [cbn; lia | exact Hh]. }
  destruct (new_conn_connected (host ep) _ _ Hh) as (p & h1 & h2 & c & -> & -> & <- & Hr & H2). cbn [outcome_bind]. rewrite <- fmap_insert.
  set (old := match cs !! ep with Some c0 => [(cc_addr c0, client_conn_object c0)] | None => [] end).
  assert (h2 ⊨ endpoints_cells (<[ep := c]> cs) ++ old ++ l /\ (length old + size (<[ep := c]> cs) = size cs + 1)%nat) as [H3 Hsz].
  { unfold old. destruct (cs !! ep) as [c0|] eqn:Ec.
    - rewrite map_size_insert_Some by eauto. split; [|cbn; lia]. rewrite (endpoints_cells_replace _ _ _ _ Ec).
      rewrite (endpoints_cells_lookup _ _ _ Ec) in H2. unfold client_conn_cells in H2 |- *. rewrite (Hn _ _ Ec) in H2. rewrite Hr.
      refine (holds_perm _ _ _ H2 _). cbn. solve_Permutation.
    - rewrite map_size_insert_None by exact Ec. split; [|cbn; lia]. rewrite (endpoints_cells_insert _ _ _ Ec). unfold client_conn_cells. rewrite Hr.
      refine (holds_perm _ _ _ H2 _). cbn. solve_Permutation. }
  destruct (IH _ _ _ (no_rpk_insert _ ep _ Hr Hn) H3) as (cs' & lost & h' & Hrun & Hn' & Hd & Hl & H').
  exists cs', (lost ++ old), h'. split; [exact Hrun|]. split; [exact Hn'|]. split; [rewrite Hd, dom_insert_L; set_solver|].
  split; [rewrite length_app; lia|]. refine (holds_perm _ _ _ H' _). solve_Permutation.
Qed.

Lemma connect_new_holds host eps : forall P cs h l, packages_in P cs -> h ⊨ endpoints_cells cs ++ l ->
  exists cs' h', connect_new host eps (cc_addr <$> cs) h = Done (cc_addr <$> cs', h') /\ packages_in P cs' /\
    dom cs' = dom cs ∪ list_to_set eps /\ h' ⊨ endpoints_cells cs' ++ l.
Proof.
  induction eps as [|ep eps IH]; intros P cs h l Hn Hh; cbn [connect_new list_to_set].
  { exists cs, h. split; [reflexivity|]. split; [exact Hn|]. split; [set_solver | exact Hh]. }
  rewrite lookup_fmap. destruct (cs !! ep) as [c0|] eqn:Ec; cbn [fmap option_fmap option_map].
  { destruct (IH P cs h l Hn Hh) as (cs' & h' & Hrun & Hn' & Hd & H'). exists cs', h'. split; [exact Hrun|]. split; [exact Hn'|]. split; [|exact H'].
    rewrite Hd. apply elem_of_dom_2 in Ec. set_solver. }
  destruct (new_conn_connected (host ep) _ _ Hh) as (p & h1 & h2 & c & -> & -> & <- & Hr & H2). cbn [outcome_bind]. rewrite <- fmap_insert.
  assert (Hn1 : packages_in P (<[ep := c]> cs)).
  { intros e d. rewrite lookup_insert_Some. intros [[_ <-]|[_ Hd]]; [rewrite Hr; discriminate | exact (Hn e d Hd)]. }
  assert (H3 : h2 ⊨ endpoints_cells (<[ep := c]> cs) ++ l).
  { rewrite (endpoints_cells_insert _ _ _ Ec). unfold client_conn_cells. rewrite Hr. exact H2. }
  destruct (IH P _ _ _ Hn1 H3) as (cs' & h' & Hrun & Hn' & Hd & H'). exists cs', h'. split; [exact Hrun|]. split; [exact Hn'|].
  split; [|exact H']. rewrite Hd, dom_insert_L. set_solver.
Qed.

Lemma new_client_world_holds thread_num eps host h l : h ⊨ l ->
  exists w R, new_client_world thread_num eps host h = Done w /\ client_ok w R ∅ l /\
    (length (cr_lost R) + size (list_to_set eps : gset Endpoint) = length eps)%nat.
Proof.
  intros Hh. unfold new_client_world, new_client, new_looper. change new_client_worker with (new_obj a_client_worker).
  destruct (new_pool_holds a_client_worker thread_num _ _ Hh) as (pool & ws & h1 & -> & Hws & H1).
  destruct (connect_all_holds host eps ∅ h1 (pool_cells pool ws ++ l) (fun ep c e => ltac:(rewrite lookup_empty in e; discriminate)) H1)
    as (cs & lost & h2 & Hr & Hn & Hd & Hl & H2). rewrite fmap_empty in Hr. rewrite Hr. cbn [outcome_bind].
  destruct (new_obj (a_looper _ _) h2) as [ev h3] eqn:E3. apply (holds_new _ _ _ _ _ H2) in E3.
  destruct (new_obj a_thread h3) as [th h4] eqn:E4. apply (holds_new _ _ _ _ _ E3) in E4.
  destruct (new_obj (a_client _ _) h4) as [p h5] eqn:E5. apply (holds_new _ _ _ _ _ E4) in E5. cbn [outcome_bind].
  exists (mk_client_world h5 p []), (mk_client_rep ev th pool ws cs [] lost). split; [reflexivity|]. split.
  - split; cbn [cl_heap cl_client cl_packages cr_packages cr_workers cr_conns]; [|reflexivity | exact Hws|].
    + refine (holds_perm _ _ _ E5 _). unfold client_cells. cbn [cr_ev cr_thread cr_pool cr_workers cr_conns cr_packages cr_lost flat_map]. solve_Permutation.
    + intros ep c Hc. rewrite (Hn ep c Hc). discriminate.
  - cbn [cr_lost]. rewrite <- size_dom in Hl. rewrite Hd, dom_empty_L, map_size_empty in Hl. rewrite union_empty_l_L in Hl. lia.
Qed.

(** ** The steps *)

Lemma client_look w R P l : client_ok w R P l -> client_at (cl_client w) (cl_heap w) = Done (cr_ev R, [cr_thread R]).
Proof. intros [Hh _ _ _]. unfold client_at. unfold client_cells in Hh. cbn [app] in Hh. look Hh. reflexivity. Qed.

Lemma looper_look w R P l : client_ok w R P l -> looper_at (cr_ev R) (cl_heap w) = Done (cc_addr <$> cr_conns R, cr_pool R).
Proof. intros [Hh _ _ _]. unfold looper_at. unfold client_cells in Hh. cbn [app] in Hh. look Hh. reflexivity. Qed.

Lemma conns_of_look w R P l : client_ok w R P l -> conns_of w = Done (cc_addr <$> cr_conns R).
Proof. intros Hw. unfold conns_of. rewrite (client_look _ _ _ _ Hw). cbn [outcome_bind]. rewrite (looper_look _ _ _ _ Hw). reflexivity. Qed.

(** The world after a step. *)
Definition steps_client (r : outcome client_world) (P : gset Endpoint) (l : list (addr * object)) (lost : nat) : Prop :=
  exists w R, r = Done w /\ client_ok w R P l /\ length (cr_lost R) = lost.

Lemma client_ok_more w R P P' l : P ⊆ P' -> client_ok w R P l -> client_ok w R P' l.
Proof. intros HP [Hh Hp Hw Hm]. split; try assumption. intros ep c Hc Hi. apply HP. exact (Hm ep c Hc Hi). Qed.

(** A step on one connection, which may hand out a package. *)
Lemma with_endpoint_holds w R P P' l ep f : client_ok w R P l -> P ∖ {[ep]} ⊆ P' ->
  (forall c h l, cr_conns R !! ep = Some c -> h ⊨ client_conn_cells c ++ l ->
     exists c' got h', f (cc_addr c) h = Done (fst <$> got, h') /\ cc_addr c' = cc_addr c /\ (in_package (cc_rpk c') = true -> ep ∈ P') /\
       h' ⊨ client_conn_cells c' ++ flat_map package_cells (option_list got) ++ l) ->
  steps_client (with_endpoint ep w f) P' l (length (cr_lost R)).
Proof.
  intros Hw HP Hf. unfold with_endpoint. rewrite (conns_of_look _ _ _ _ Hw). cbn [outcome_bind]. rewrite lookup_fmap.
  destruct (cr_conns R !! ep) as [c|] eqn:Ec; cbn [fmap option_fmap option_map].
  2: { exists w, R. split; [reflexivity|]. split; [|reflexivity]. destruct Hw as [Hh Hp Hws Hm]. split; try assumption.
       intros e d Hd Hi. pose proof (Hm e d Hd Hi). apply HP. assert (e <> ep) by congruence. set_solver. }
  destruct Hw as [Hh Hp Hws Hm]. unfold client_cells in Hh. rewrite (endpoints_cells_lookup _ _ _ Ec) in Hh.
  set (lo := (cr_ev R, a_looper (cc_addr <$> cr_conns R) (cr_pool R))) in Hh.
  held Hh (client_conn_cells c ++ endpoints_cells (delete ep (cr_conns R)) ++ (cl_client w, a_client (cr_ev R) [cr_thread R]) :: (cr_thread R, a_thread) :: lo ::
    pool_cells (cr_pool R) (cr_workers R) ++ flat_map package_cells (cr_packages R) ++ cr_lost R ++ l).
  destruct (Hf c _ _ eq_refl Hh) as (c' & got & h' & -> & Ha & Hi & H'). cbn [outcome_bind].
  eexists. exists (rep_handed (option_list got ++ cr_packages R) (rep_conns (<[ep := c']> (cr_conns R)) R)).
  split; [reflexivity|]. split; [|reflexivity].
  split; cbn [cl_heap cl_client cl_packages rep_handed rep_conns cr_packages cr_workers cr_conns]; [| |exact Hws|].
  - refine (holds_perm _ _ _ H' _). unfold client_cells. cbn [rep_handed rep_conns cr_ev cr_thread cr_pool cr_workers cr_conns cr_packages cr_lost].
    rewrite (endpoints_cells_replace _ _ _ _ Ec), fmap_insert, Ha, flat_map_app.
    rewrite (insert_id (cc_addr <$> cr_conns R)) by (rewrite lookup_fmap, Ec; reflexivity).
    fold lo. solve_Permutation.
  - rewrite map_app, Hp. by destruct got.
  - intros e d. rewrite lookup_insert_Some. intros [[<- <-]|[Hne Hd]] Hin; [exact (Hi Hin)|]. apply HP. pose proof (Hm e d Hd Hin). set_solver.
Qed.

Definition next_mid (P : gset Endpoint) (a : client_action) : gset Endpoint :=
  match a with Receive ep complete => if complete : bool then P ∖ {[ep]} else {[ep]} ∪ P | _ => P end.
Definition whole_loss (P : gset Endpoint) (a : client_action) : Prop := match a with Lose ep => ep ∉ P | _ => True end.

Lemma Reload_holds w R P l eps host : client_ok w R P l -> steps_client (client_act (Reload eps host) w) P l (length (cr_lost R)).
Proof.
  intros Hw. cbn [client_act]. rewrite (client_look _ _ _ _ Hw). cbn [outcome_bind]. unfold refreshEndpoints.
  rewrite (looper_look _ _ _ _ Hw). cbn [outcome_bind]. destruct Hw as [Hh Hp Hws Hm]. unfold client_cells in Hh.
  set (lo := (cr_ev R, a_looper (cc_addr <$> cr_conns R) (cr_pool R))) in Hh.
  set (rest := (cl_client w, a_client (cr_ev R) [cr_thread R]) :: (cr_thread R, a_thread) :: pool_cells (cr_pool R) (cr_workers R) ++
    flat_map package_cells (cr_packages R) ++ cr_lost R ++ l).
  held_by Hh (endpoints_cells (cr_conns R) ++ lo :: rest) ltac:(unfold rest; solve_Permutation).
  destruct (connect_new_holds host eps P _ _ _ Hm Hh) as (cs & h' & -> & Hm' & _ & H'). cbn [outcome_bind].
  held H' (lo :: endpoints_cells cs ++ rest). apply (holds_store _ _ _ (a_looper (cc_addr <$> cs) (cr_pool R))) in H'.
  eexists. exists (rep_conns cs R). split; [reflexivity|]. split; [|reflexivity]. split; [|exact Hp | exact Hws | exact Hm'].
  refine (holds_perm _ _ _ H' _). unfold client_cells, rest. cbn [cl_client rep_conns cr_ev cr_thread cr_pool cr_workers cr_conns cr_packages cr_lost].
  solve_Permutation.
Qed.

Lemma Release_holds w R P l k : client_ok w R P l -> steps_client (client_act (Release k) w) P l (length (cr_lost R)).
Proof.
  intros Hw. cbn [client_act]. pose proof Hw as [Hh Hp Hws Hm]. rewrite <- Hp, lookup_map.
  destruct (cr_packages R !! k) as [r|] eqn:Ek; cbn [fmap option_fmap option_map]; [|exists w, R; auto].
  unfold client_cells in Hh. rewrite (delete_Permutation _ _ _ Ek) in Hh. cbn [flat_map] in Hh.
  set (rest := (cl_client w, a_client (cr_ev R) [cr_thread R]) :: (cr_thread R, a_thread) :: (cr_ev R, a_looper (cc_addr <$> cr_conns R) (cr_pool R)) ::
    pool_cells (cr_pool R) (cr_workers R) ++ endpoints_cells (cr_conns R) ++ flat_map package_cells (delete k (cr_packages R)) ++ cr_lost R ++ l).
  held_by Hh (package_cells r ++ rest) ltac:(unfold rest; solve_Permutation).
  destruct (delete_package_holds _ _ _ Hh) as (h' & -> & H'). cbn [outcome_bind].
  eexists. exists (rep_handed (delete k (cr_packages R)) R). split; [reflexivity|]. split; [|reflexivity]. split; [|symmetry | exact Hws | exact Hm].
  - refine (holds_perm _ _ _ H' _). unfold client_cells, rest. cbn [cl_client rep_handed cr_ev cr_thread cr_pool cr_workers cr_conns cr_packages cr_lost].
    solve_Permutation.
  - symmetry. exact (list_fmap_delete fst _ k).
Qed.

Lemma client_act_holds a w R P l : client_ok w R P l -> whole_loss P a -> steps_client (client_act a w) (next_mid P a) l (length (cr_lost R)).
Proof.
  intros Hw Ha. destruct a as [ep host|ep complete|ep|k|eps host]; cbn [next_mid whole_loss] in *;
    [| | |exact (Release_holds _ _ _ _ _ Hw) | exact (Reload_holds _ _ _ _ _ _ Hw)].
  - apply (with_endpoint_holds _ _ _ _ _ _ _ Hw); [set_solver|]. intros c h k Hc Hh. unfold no_package.
    destruct (client_connect_holds host _ _ _ Hh) as (c' & h' & -> & Hca & Hr & H'). exists c', None, h'. split; [reflexivity|].
    split; [exact Hca|]. split; [rewrite Hr; exact (ok_mid _ _ _ _ Hw ep c Hc) | exact H'].
  - apply (with_endpoint_holds _ _ _ _ _ _ _ Hw); [destruct complete; set_solver|]. intros c h k Hc Hh.
    destruct (conn_getResponse_holds complete _ _ _ Hh) as (c' & got & h' & -> & Hca & Hr & H'). exists c', got, h'. split; [reflexivity|].
    split; [exact Hca|]. split; [|exact H']. rewrite Hr. destruct complete; [discriminate | set_solver].
  - apply (with_endpoint_holds _ _ _ _ _ _ _ Hw); [set_solver|]. intros c h k Hc Hh. unfold no_package.
    destruct (in_package (cc_rpk c)) eqn:Ei; [destruct (Ha (ok_mid _ _ _ _ Hw ep c Hc Ei))|].
    destruct (conn_setInvalid_holds _ _ _ Ei Hh) as (h' & -> & H'). exists (with_fd (-1) c), None, h'. split; [reflexivity|].
    split; [reflexivity|]. split; [cbn; rewrite Ei; discriminate | exact H'].
Qed.

Lemma client_acts_hold as_ : forall w R P l, client_ok w R P l -> whole_losses P as_ ->
  exists w' R' P', client_acts as_ w = Done w' /\ client_ok w' R' P' l /\ length (cr_lost R') = length (cr_lost R).
Proof.
  induction as_ as [|a as_ IH]; intros w R P l Hw Ha; [exists w, R, P; auto|]. cbn [client_acts].
  assert (whole_loss P a /\ whole_losses (next_mid P a) as_) as [Hl Hr] by (destruct a; cbn in Ha |- *; tauto).
  destruct (client_act_holds a _ _ _ _ Hw Hl) as (w1 & R1 & -> & Hw1 & <-). cbn [outcome_bind]. exact (IH _ _ _ _ Hw1 Hr).
Qed.

(** ** The end *)

Lemma join_threads th l h : (th, a_thread) ∈ l -> h ⊨ l -> each join_thread [th] h = Done h.
Proof. intros Hin Hh. cbn [each]. unfold join_thread, thread_at. rewrite (holds_elem _ _ _ _ Hh Hin). reflexivity. Qed.

Lemma workers_delete rs : Forall (fun r => pw_object r = a_client_worker) rs -> Forall (deletes_real delete_client_worker) rs.
Proof. intros Hf. refine (Forall_impl _ _ _ Hf _). intros r _ h l Hh. exact (holds_free _ _ _ _ Hh). Qed.

(** The destructors up to the connections, which are the next to go. *)
Lemma client_shut_down_starts w ev th m pool ps l :
  cl_heap w ⊨ (cl_client w, a_client ev [th]) :: (th, a_thread) :: (ev, a_looper m pool) :: flat_map package_cells ps ++ l -> map fst ps = cl_packages w ->
  exists h', h' ⊨ (ev, a_looper m pool) :: (cl_client w, a_client ev [th]) :: l /\
    client_shut_down w =
      let! h := each delete_client_conn (map_to_list m).*2 h' in
      let! h := delete_pool delete_client_worker pool h in
      let! h := free ev h in free (cl_client w) h.
Proof.
  intros Hh Hp. unfold client_shut_down. rewrite <- Hp. set (cl := (cl_client w, _)) in *. set (lo := (ev, _)) in *.
  held Hh (flat_map package_cells ps ++ cl :: (th, a_thread) :: lo :: l).
  destruct (each_gone delete_package fst _ _ delete_package_holds _ _ Hh) as (h1 & -> & H1). cbn [outcome_bind].
  unfold delete_client, client_at, looper_at. look H1. cbn [outcome_bind]. look H1. cbn [outcome_bind].
  rewrite (join_threads th _ _ ltac:(right; left) H1). cbn [outcome_bind]. cbn [each]. held H1 ((th, a_thread) :: lo :: cl :: l).
  destruct (holds_free _ _ _ _ H1) as (h2 & -> & H2). cbn [outcome_bind]. exists h2. split; [exact H2|].
  unfold delete_looper, looper_at. look H2. cbn [outcome_bind].
  destruct (each delete_client_conn _ h2) as [h3|]; cbn [outcome_bind]; [|reflexivity]. destruct (delete_pool _ _ h3); reflexivity.
Qed.

Lemma conn_addrs (cs : gmap Endpoint client_conn_rep) : (map_to_list (cc_addr <$> cs)).*2 = map cc_addr (map_to_list cs).*2.
Proof. rewrite map_to_list_fmap, <- !list_fmap_compose. reflexivity. Qed.

Lemma client_shut_down_holds w R P l : client_ok w R P l -> exists h', client_shut_down w = Done h' /\ h' ⊨ cr_lost R ++ l.
Proof.
  intros [Hh Hp Hws Hm]. unfold client_cells in Hh. set (cl := (cl_client w, _)) in *. set (lo := (cr_ev R, _)) in *.
  held Hh (cl :: (cr_thread R, a_thread) :: lo :: flat_map package_cells (cr_packages R) ++ endpoints_cells (cr_conns R) ++
    pool_cells (cr_pool R) (cr_workers R) ++ cr_lost R ++ l).
  destruct (client_shut_down_starts _ _ _ _ _ _ _ Hh Hp) as (h1 & H1 & ->). rewrite conn_addrs. fold cl lo in H1.
  held H1 (endpoints_cells (cr_conns R) ++ pool_cells (cr_pool R) (cr_workers R) ++ lo :: cl :: cr_lost R ++ l).
  destruct (each_gone delete_client_conn cc_addr _ _ delete_client_conn_holds _ _ H1) as (h2 & -> & H2). cbn [outcome_bind].
  destruct (delete_pool_holds _ _ _ _ _ (workers_delete _ Hws) H2) as (h3 & -> & H3). cbn [outcome_bind].
  destruct (holds_free _ _ _ _ H3) as (h4 & -> & H4). cbn [outcome_bind]. exact (holds_free _ _ _ _ H4).
Qed.

Lemma mid_package_look w R P l ep : client_ok w R P l -> mid_package w ep = true ->
  exists c r, cr_conns R !! ep = Some c /\ cc_rpk c = Some r.
Proof.
  intros Hw Hm. unfold mid_package in Hm. rewrite (conns_of_look _ _ _ _ Hw), lookup_fmap in Hm.
  destruct (cr_conns R !! ep) as [c|] eqn:Ec; cbn [fmap option_fmap option_map] in Hm; [|discriminate Hm]. exists c.
  pose proof (ok_heap _ _ _ _ Hw) as Hh. unfold client_cells in Hh. rewrite (endpoints_cells_lookup _ _ _ Ec) in Hh.
  unfold client_conn_at in Hm. rewrite (holds_elem _ (cc_addr c) (client_conn_object c) _ Hh) in Hm.
  - cbn [client_conn_object] in Hm. destruct (cc_rpk c) as [r|]; [eauto | discriminate Hm].
  - unfold client_conn_cells. rewrite ?elem_of_app, ?elem_of_cons, ?elem_of_app, ?elem_of_cons. tauto.
Qed.

(** A connection whose package is gone while it keeps the pointer cannot be
    deleted. *)
Lemma delete_broken_conn h p q l : h ⊨ (p, a_client_conn (-1) true (Some q)) :: l -> h !! q = None ->
  delete_client_conn p h = Stuck UseAfterFree.
Proof.
  intros Hh Hq. unfold delete_client_conn, conn_setInvalid, client_conn_at. rewrite (holds_lookup _ _ _ _ Hh). cbn [outcome_bind run_delete].
  unfold delete_package, package_at. by rewrite Hq.
Qed.

Lemma Lose_mid_holds w R P l ep c r : client_ok w R P l -> cr_conns R !! ep = Some c -> cc_rpk c = Some r ->
  exists w', client_acts [Lose ep] w = Done w' /\ client_shut_down w' = Stuck UseAfterFree.
Proof.
  intros Hw Hc Hr. cbn [client_acts client_act]. unfold with_endpoint. rewrite (conns_of_look _ _ _ _ Hw). cbn [outcome_bind].
  rewrite lookup_fmap, Hc. cbn [fmap option_fmap option_map]. destruct Hw as [Hh Hp Hws Hm]. unfold client_cells in Hh.
  rewrite (endpoints_cells_lookup _ _ _ Hc) in Hh. unfold client_conn_cells in Hh. rewrite Hr in Hh.
  change (flat_map package_cells (option_list (Some r))) with (package_cells r) in Hh.
  set (cl := (cl_client w, _)) in *. set (lo := (cr_ev R, _)) in *. set (others := endpoints_cells (delete ep (cr_conns R))) in *.
  set (rest := cl :: (cr_thread R, a_thread) :: lo :: flat_map package_cells (cr_packages R) ++ others ++ pool_cells (cr_pool R) (cr_workers R) ++ cr_lost R ++ l).
  held_by Hh (package_cells r ++ (cc_addr c, client_conn_object c) :: rest) ltac:(unfold rest; solve_Permutation).
  destruct (delete_package_holds _ _ _ Hh) as (h1 & Hd & H1).
  unfold no_package, conn_setInvalid, client_conn_at. look Hh. cbn [outcome_bind client_conn_object]. rewrite Hr.
  cbn [in_package fmap option_fmap option_map run_delete]. rewrite Hd. cbn [outcome_bind]. eexists. split; [reflexivity|].
  apply (holds_store _ _ _ (a_client_conn (-1) true (Some r.1))) in H1. set (bc := (cc_addr c, _)) in H1. unfold rest in H1.
  held H1 (cl :: (cr_thread R, a_thread) :: lo :: flat_map package_cells (cr_packages R) ++ bc :: others ++ pool_cells (cr_pool R) (cr_workers R) ++ cr_lost R ++ l).
  edestruct (client_shut_down_starts (mk_client_world _ (cl_client w) (cl_packages w)) _ _ _ _ _ _ H1 Hp) as (h2 & H2 & Hs).
  change (option_list None ++ cl_packages w) with (cl_packages w). rewrite Hs, conn_addrs. clear Hs. cbn [cl_client] in *. fold cl lo in H2.
  pose proof Hc as Hin. apply elem_of_map_to_list, list_elem_of_split in Hin as (pre & post & Hsplit).
  assert (Hothers : others ≡ₚ flat_map client_conn_cells pre.*2 ++ flat_map client_conn_cells post.*2).
  { unfold others, endpoints_cells. pose proof (map_to_list_delete (cr_conns R) ep c Hc) as Hperm. rewrite Hsplit in Hperm.
    rewrite <- Permutation_middle in Hperm. apply Permutation_cons_inv in Hperm. rewrite Hperm, fmap_app, flat_map_app. reflexivity. }
  rewrite Hsplit, fmap_app, map_app, each_app. rewrite Hothers in H2.
  set (tail := flat_map client_conn_cells post.*2 ++ pool_cells (cr_pool R) (cr_workers R) ++ cr_lost R ++ l).
  held_by H2 (flat_map client_conn_cells pre.*2 ++ bc :: lo :: cl :: tail) ltac:(unfold tail; solve_Permutation).
  destruct (each_gone delete_client_conn cc_addr _ _ delete_client_conn_holds _ _ H2) as (h3 & -> & H3). cbn [outcome_bind fmap list_fmap map snd each].
  unfold bc in H3. rewrite (delete_broken_conn _ _ _ _ H3); [reflexivity|].
  unfold package_cells in Hh. cbn [app] in Hh. refine (holds_apart _ _ _ _ _ _ Hh H3 _). unfold rest, tail. rewrite Hothers.
  intros x. cbn [fmap list_fmap fst]. rewrite !fmap_app. cbn [fmap list_fmap fst]. rewrite ?fmap_app.
  repeat (rewrite elem_of_cons || rewrite elem_of_app). unfold cl, lo. cbn [fst]. tauto.
Qed.
End Client.

(** * Properties *)

Lemma holds_size h l : h ⊨ l -> size h = length l.
Proof. intros [Hn ->]. rewrite <- length_map_to_list, (map_to_list_to_map l Hn). reflexivity. Qed.

(** C39: A client gives its memory back.  Whatever connects, arrives and is reloaded, as
    long as no connection is lost in the middle of a package: no step and no
    destructor uses or deletes an object that is gone, and when the client is
    deleted the heap is what it was, plus a connection for every endpoint the
    configuration named again. *)
Theorem client_gives_back_its_memory `{AllocatorLaw} thread_num eps host as_ (h : heap) (Has : whole_losses ∅ as_) :
  exists w w' h', new_client_world thread_num eps host h = Done w /\ client_acts as_ w = Done w' /\ client_shut_down w' = Done h' /\
    h ⊆ h' /\ (size h' + size (list_to_set eps : gset Endpoint) = size h + length eps)%nat.
Proof.
  destruct (new_client_world_holds thread_num eps host h _ (holds_self h)) as (w & R & Hn & Hw & Hl).
  destruct (client_acts_hold as_ _ _ _ _ Hw Has) as (w' & R' & P' & Ha & Hw' & Hlost).
  destruct (client_shut_down_holds _ _ _ _ Hw') as (h' & Hs & Hh). exists w, w', h'. do 3 (split; [assumption|]).
  split; [exact (proj1 (holds_more _ _ _ Hh))|]. rewrite (holds_size _ _ Hh), length_app, length_map_to_list. lia.
Qed.

(** A package that is lost is deleted twice: when an endpoint is lost in the middle
    of a package, [setInvalid] deletes the package and the destructor of the
    connection deletes it again. *)
Theorem lost_package_deleted_twice `{AllocatorLaw} thread_num eps host as_ (h : heap) (Has : whole_losses ∅ as_) :
  exists w w', new_client_world thread_num eps host h = Done w /\ client_acts as_ w = Done w' /\
    forall ep, mid_package w' ep = true -> exists w'', client_acts [Lose ep] w' = Done w'' /\ client_shut_down w'' = Stuck UseAfterFree.
Proof.
  destruct (new_client_world_holds thread_num eps host h _ (holds_self h)) as (w & R & Hn & Hw & _).
  destruct (client_acts_hold as_ _ _ _ _ Hw Has) as (w' & R' & P' & Ha & Hw' & _). exists w, w'. do 2 (split; [assumption|]).
  intros ep Hm. destruct (mid_package_look _ _ _ _ _ Hw' Hm) as (c & r & Hc & Hr). exact (Lose_mid_holds _ _ _ _ _ _ _ Hw' Hc Hr).
Qed.

(** * Witnesses *)

Definition two_endpoints : list Endpoint := [("a"%string, 1); ("b"%string, 2); ("a"%string, 1)].

Definition some_client_actions : list client_action :=
  [Receive ("a"%string, 1) false; Receive ("a"%string, 1) true; Lose ("a"%string, 1); Connect ("a"%string, 1) (Some 9);
   Reload [("c"%string, 3)] (fun _ => None); Receive ("c"%string, 3) true; Release 0; Receive ("b"%string, 2) false].

Lemma some_losses_whole : whole_losses ∅ some_client_actions.
Proof. cbn. split; [|exact I]. vm_compute. intros Hin. inversion Hin. Qed.

Lemma client_gives_back_its_memory_witness :
  whole_losses ∅ some_client_actions /\
  exists w w' h', new_client_world 2 two_endpoints (fun _ => Some 5) ∅ = Done w /\ client_acts some_client_actions w = Done w' /\
    client_shut_down w' = Done h' /\ (∅ : heap) ⊆ h' /\
    (size h' + size (list_to_set two_endpoints : gset Endpoint) = size (∅ : heap) + length two_endpoints)%nat.
Proof. split; [exact some_losses_whole | exact (client_gives_back_its_memory 2 two_endpoints (fun _ => Some 5) some_client_actions ∅ some_losses_whole)]. Defined.

Lemma lost_package_deleted_twice_witness :
  whole_losses ∅ some_client_actions /\
  exists w w', new_client_world 2 two_endpoints (fun _ => Some 5) ∅ = Done w /\ client_acts some_client_actions w = Done w' /\
    mid_package w' ("b"%string, 2) = true /\ exists w'', client_acts [Lose ("b"%string, 2)] w' = Done w'' /\ client_shut_down w'' = Stuck UseAfterFree.
Proof.
  split; [exact some_losses_whole|].
  destruct (lost_package_deleted_twice 2 two_endpoints (fun _ => Some 5) some_client_actions ∅ some_losses_whole) as (w & w' & Hn & Ha & Hl).
  assert (Hm : mid_package w' ("b"%string, 2) = true).
  { vm_compute in Hn. injection Hn as <-. vm_compute in Ha. injection Ha as <-. vm_compute. reflexivity. }
  exists w, w'. do 3 (split; [assumption|]). exact (Hl _ Hm).
Defined.
